(* ===== verification/_CoqProject ===== *)
-Q . S2P
Prelude.v
GoStrings.v
GoNet.v
Calendar.v
Mux.v
Model.v
Dialect.v
Policy.v
Tables.v
SqliteUsers.v
SqliteTokens.v
SqliteAws.v
Sql.v
PgUsers.v
PgTokens.v
PgAws.v
PgArray.v
SqArray.v
Rows.v
Store.v
PgStore.v
Pkce.v
Prog.v
SingleUse.v
Typed.v
Server.v
Provision.v
Awsfed.v
Fixture.v
ScimFacts.v
Contract.v
ContractRun.v
Migrate.v
SqlTime.v
AwsCreds.v
Mfa.v
Tokens.v
Portal.v
PortalFacts.v
Authorize.v
AuthorizeFacts.v
WebAuthn.v
AwsConsole.v
AwsFacts.v
AwsFlow.v
AwsfedFacts.v
WebAuthnFacts.v
ConsoleFacts.v
CodeOrigin.v
Lockout.v
Account.v
AdminUsers.v
AdminUserFacts.v
AdminCatalog.v
AdminIntegrations.v
AdminAws.v
AdminApi.v
AdminFacts.v
Signing.v
SigningFacts.v
Interfaces.v
Boot.v
Serve.v
Journal.v
Device.v
DeviceFacts.v
Flows.v
Wire.v
Routes.v
Responses.v
Observations.v
