(* ===== verification/Prelude.v ===== *)
(** * A verification library for the tokyo3 identity provider

    ** The program

    [authd] is an OAuth 2.0 / OpenID Connect identity provider written in Go
    ([src/cmd/authd], [src/internal]).  Its HTTP handlers ([internal/api])
    authenticate users by password and second factor ([internal/mfa]), ask a
    policy engine ([internal/policy]) whether an operation is compliant with
    the PCI-DSS rules, keep users, clients, sessions, authorization codes and
    device grants in a relational store ([internal/store], with a SQLite and a
    PostgreSQL implementation), record security events in a journal
    ([internal/audit]), sign ID tokens ([internal/jwt]), notify relying parties
    and provisioning targets of what happened to a user ([internal/provision],
    [backchannel_logout.go]) and exchange a user's session for AWS credentials
    ([web_portal_aws.go], [aws_credentials.go]).  There are two families of
    credentials: bearer tokens, handed out by [POST /token], and the
    [auth_portal] cookie of the web portal, which also gives silent single
    sign-on at [GET /authorize].  Both are rows of the table [sessions].

    ** The files

    - [Prelude] (this file): errors, results, time, shared lemmas and tactics.
    - [GoStrings]: the functions of [unicode/utf8], [unicode] and [strings] the
      code uses, on byte strings.
    - [GoNet]: query and path escaping, integer text, [url.Values]; [Mux]:
      [path.Clean] and the paths of [http.ServeMux]; [Calendar]: dates and times
      of day as text.
    - [Model]: the structs of [internal/model/model.go].
    - [Dialect]: what distinguishes the two databases (resolution of clocks and
      columns, order of text, who fills [created_at]).
    - [Policy]: [internal/policy]: the seven rules, [Engine.First],
      [DefaultPCIRules]; the Go interface [Rule] is a type class.
    - [Tables]: the schema of [internal/store/sqlite/migrations] as finite maps,
      and the theory of keys, UNIQUE columns and references.
    - [SqliteUsers], [SqliteTokens], [SqliteAws]: every method of
      [internal/store/sqlite], one definition each, as a function from the
      database to an answer and a database, over both dialects; [SqlTime]: the
      texts SQLite compares where these functions compare numbers.
    - [Sql]: SQL statements (select, guarded update, insert against constraints,
      delete) on tables, and the driver's errors; [PgUsers], [PgTokens], [PgAws]:
      every method of [internal/store/postgres] as the statements it issues.
    - [PgArray], [SqArray]: the codecs of lists of strings, [TEXT[]] literals in
      PostgreSQL and [encoding/json] text in SQLite; [Rows]: the column lists and
      row scanners of both packages.
    - [Store]: the interface [store.Store] as a type of queries, its
      implementation [run_query], the invariant [db_wf] and its preservation.
    - [PgStore]: the PostgreSQL store is [run_query] at its dialect.
    - [Pkce]: SHA-256, base64url and [verifyPKCE].
    - [Prog]: handlers as trees of external calls, their sequential ([exec]) and
      interleaved ([run_pool]) executions, termination under fair schedules,
      weakest preconditions ([wp]), the call sequences ([path]) and the
      automation to reason about them.
    - [SingleUse]: what the guarded updates of the store guarantee to handlers
      that run concurrently.
    - [Typed]: the types of the timestamp columns.
    - [Server]: requests, responses, configuration, [audit.go], [middleware.go]
      and the helpers of [oauth2.go].
    - [Provision]: [internal/provision]: the interface [Provisioner] as a class,
      the fan-out over targets, the full synchronisation, the SCIM client.
    - [Awsfed]: [provision/awsfed], the registry of targets, its construction
      from integration rows and the background ticks of [cmd/authd/main.go].
    - [Fixture]: a concrete deployment, on which the theorems are instantiated.
    - [ScimFacts]: what the SCIM client pushes and what the counts of a
      synchronisation mean.
    - [Contract], [ContractRun]: [internal/store/storetest], the contract tests
      of the store as programs in a small test monad, run on both databases.
    - [Migrate]: the schema migrations of both stores and the opening of their
      connections.
    - [AwsCreds]: [cmd/auth-aws-creds], with the parts of [flag] and [filepath]
      it uses.
    - [Mfa]: [mfa/totp.go] and the bearer endpoints over it.
    - [Tokens]: [POST /token] (code, refresh, client credentials), [/revoke],
      [/userinfo].
    - [Portal], [PortalFacts]: cookies, portal login, forced rotation, TOTP step,
      sign-out, registration.
    - [Authorize], [AuthorizeFacts]: [/authorize] and its TOTP step.
    - [WebAuthn], [WebAuthnFacts]: [mfa/webauthn.go] and the endpoints over it.
    - [AwsConsole], [AwsFacts]: console sign-in, [/aws/credentials], step-up, the
      launcher; [AwsFlow]: the helper of [AwsCreds] against the server;
      [AwsfedFacts]: revocation as a refinement of a deny table.
    - [Account]: the signed-in user's pages.
    - [AdminUsers], [AdminUserFacts], [AdminCatalog] (clients and groups),
      [AdminIntegrations], [AdminAws]: the administration pages of the portal;
      [AdminApi]: [admin.go]; [AdminFacts]: what they have in common.
    - [Signing], [SigningFacts]: [jwt/store.go], [discovery.go] and the goroutine
      of [backchannel_logout.go].
    - [Interfaces]: the interfaces of [store.go] and those the packages below the
      API declare, and what each package can change through them.
    - [Boot]: [cmd/authd]: configuration, start-up, the admin commands; [Serve]:
      the process from its configuration to its exit, [authd migrate],
      [authd audit query], the configuration of the limiters; [Journal]: the
      records of [internal/audit].
    - [Device], [DeviceFacts]: RFC 8628, with the dispatch of [POST /token].
    - [Wire]: what is written to a connection: [web.go], the writers of
      [audit.go], [recoverMiddleware], and the functions of [net/http] they use.
    - [Routes]: [server.go]: every route with its limiter and its gate, and the
      properties of the server as a whole; [Responses]: the cookies, pages and
      redirects of all responses, and what a browser keeps of the cookies.
    - [Flows]: properties that span components.
    - [Observations]: concrete runs in which the code does not do what its
      comments or names say.

    ** How the code is represented

    Pure functions are Rocq functions.  A method of the store is a function of
    the database; [uuid.New] and the clock are its arguments.  A handler is a
    tree ([prog]) whose nodes are the calls that leave the handler's own code:
    store queries, the clock, random tokens, the audit journal, the token
    signer, the ciphers, the WebAuthn library, outgoing HTTP, STS and IAM, the
    registry's cell, pushes.  Every early return of the source is a
    branch of the tree.  A response is a status with a JSON body, a redirect, a
    page or a panic, and the cookies set with it; templates are represented by
    their name and the data a property needs.  [Wire.emit] writes such a response
    the way the handler's helpers do.

    Strings are byte strings; an identifier ([uuid.UUID]) is a natural number
    with [uuid.Nil] = 0; a time is a number of nanoseconds with Go's zero time
    at 0, and durations saturate or wrap as Go's do; a nil pointer is [None]; a
    [(T, error)] pair is a [result], with the two sentinel errors of the store
    and one value for all others.  SQLite's [CURRENT_TIMESTAMP] has whole
    seconds, PostgreSQL's clock and columns have microseconds, Go's clock has
    nanoseconds, and the model keeps the differences: every theorem about a
    handler holds for both dialects, and [PgStore.postgres_store_equivalent]
    ties the statements of the PostgreSQL store to the functions the handlers
    are verified against.  The database's clock is the program's clock (no
    skew), and a value PostgreSQL refuses (an integer beyond four bytes, a NUL
    or invalid UTF-8 in a text) is a call that fails without effect.

    One store call is one atomic step: each is one SQL statement or one
    transaction.  (A group and its members are read by two statements, at one
    time.)  Between the calls of a handler any calls of other handlers may
    happen.  A store call may also fail without effect, or fail after it took
    effect (a lost acknowledgement), and a read of groups may succeed with
    members missing, since the stores ignore the error of that statement; the
    journal may refuse an entry.

    What is outside the repository is a parameter: [UnicodeTables] (Unicode
    beyond ASCII) and [Externals] (token hashing and password checks of the
    shared library, cookie cipher and its JSON, URL parsing, duration
    parsing, textual identifiers, the WebAuthn and SCIM documents, key
    encodings), [Environment] (environment variables), [Process] (set-up, TLS and
    journal connections of [Serve]), [OidcClient] (the sign-in library of
    [AwsCreds]), [Templates] (parsing and executing templates and the JSON
    encoder, in [Wire]), the JSON of metadata and of integration settings
    ([Journal], [Rows]) and the scripts of [Migrate].  The theorems hold for
    every instance; the only laws assumed are those of encryption and PKCS#8 in
    [SigningFacts], [AwsCreds.client_laws] and [AwsFlow.wire_laws], that
    integration settings survive their JSON in [Rows], and that the file server
    and the event stream set no cookies in [Responses], stated there.  [Fixture]
    has the instance on which they are evaluated.  Back-channel pushes, which run in goroutines of their own, are
    events of the outbox, and [Signing.run_outbound] is such a goroutine;
    provisioning is called in the handler, as the code does.  The limiter's
    decision, the file server, the relay of the event stream and the status
    of the multiplexer's redirects are arguments of [Routes.serve].

    The one recursion that needs fuel, UTF-8 decoding, takes the length of the
    string, which is proved enough; everything else is structural or total.
    [ContractRun.contract_holds] evaluates the contract at three speeds of the
    clock: standing still, where all times coincide; less than a microsecond a
    call, where PostgreSQL's do; and over a second, where none do.

    ** What is shown

    - Single use: a code, a refresh token, a device code is exchanged at most
      once in every interleaving with failures
      ([Tokens.code_redeemed_at_most_once],
      [Tokens.refresh_token_rotated_at_most_once],
      [DeviceFacts.device_code_redeemed_at_most_once]).
    - The schema's invariant holds throughout every concurrent execution
      ([SingleUse.schema_invariant]), and so does the state machine of device
      grants ([DeviceFacts.device_status_machine]) and the typing of timestamps
      ([Typed.timestamps_well_typed]).
    - The stores: the PostgreSQL store is equivalent to the functions on tables
      ([PgStore.postgres_store_equivalent]); both pass the repository's contract
      tests ([ContractRun.contract_holds]); migrations are applied once, in
      order, by any number of starting processes
      ([Migrate.migrations_applied_once]); lists of strings survive both
      databases ([SqArray.string_lists_survive]) and so do rows read by position
      ([Rows.rows_read], [Rows.table_rows_read]); comparing times as text is
      comparing times ([SqlTime.text_statements_agree]).
    - Packages: those below the API change only the tables behind the interface
      they are given ([Interfaces.packages_confined]); the counts of a
      synchronisation are honest ([ScimFacts.full_sync_counts]).
    - Provenance: codes, sessions and tokens are issued only after the checks
      their flow requires ([AuthorizeFacts.code_provenance],
      [AuthorizeFacts.confidential_codes_carry_mfa],
      [Tokens.code_exchange_sound], [Tokens.refresh_exchange_capped],
      [DeviceFacts.device_exchange_sound], [Tokens.client_credentials_sound],
      [PortalFacts.portal_login_sound], [PortalFacts.portal_mfa_sound]).
    - Gates: what the middleware lets through ([Server.bearer_gate],
      [Server.admin_gate], [PortalFacts.portal_gate]) and where the browser may
      be sent ([AuthorizeFacts.no_open_redirect],
      [AuthorizeFacts.redirect_uri_accepted]); all cookies are guarded, all pages
      embedded, all other redirects local ([Responses.responses_guarded]), and
      what a deletion removes the browser no longer sends
      ([Responses.deletion_effective]).
    - Success: when nothing fails a valid code is redeemed
      ([Flows.valid_code_redeemed]); what is stored is found
      ([Flows.stored_credentials_found]).
    - Security keys: a sign-in with a key follows the whole ceremony
      ([WebAuthnFacts.security_key_sign_in]).
    - AWS: credentials only for assigned roles, offered regions and fresh factors
      ([AwsFacts.aws_console_sound]); the revocation provisioner implements a
      deny table ([AwsfedFacts.revocation_refines_deny_table]); the command-line
      helper prints only what the issuer granted
      ([AwsCreds.helper_prints_granted]), and with the server behind it only to
      those entitled ([AwsFlow.helper_credentials_authorised]).
    - Administration: nothing under [/admin] and [/portal/admin] happens without
      an administrator ([Routes.admin_area_gated]); destructive changes follow an
      accepted journal entry ([AdminFacts.destructive_changes_follow_entry]);
      creations are journalled or undone
      ([AdminFacts.admin_creation_audited_or_undone]); the compromised-account
      reset does what it promises ([AdminUserFacts.compromised_reset_isolates]).
    - The server: every request is answered under fair schedules
      ([Routes.every_request_answered]); the process starts and stops in order on
      every path ([Serve.serve_orderly]); HEAD requests reach form handlers
      without the limiter ([Routes.head_request_skips_limiter]); the signing key
      survives a restart ([SigningFacts.signing_key_survives_restart]); only clean
      paths reach a handler ([Mux.redirect_settles],
      [Routes.only_clean_paths_served]); a panic is contained and logged
      ([Wire.panic_contained]); audit records cannot be forged by their contents
      ([Journal.audit_lines]).
    - Ending access: refresh replay, revocation, sign-out, lockout, deletion
      ([Tokens.refresh_replay_revokes], [Tokens.revoked_token_refused],
      [PortalFacts.logout_everywhere], [PortalFacts.lockout_after_ten],
      [Flows.deleted_user_is_gone]).
    - The policy engine is equivalent to one predicate
      ([Policy.default_policy_complete]); encodings round-trip
      ([Model.regions_roundtrip], [DeviceFacts.user_code_entry]); PKCE binds a
      challenge to one digest ([Pkce.pkce_binding]).

    ** What is not modelled

    Third-party code (the WebAuthn checks, JWT signing, the rate limiter's
    buckets, STS and IAM themselves, the sign-in library of the helper, the
    journal's client and the relay of its stream), JSON encoding other than that
    of string lists and audit records, HTML rendering, log lines, the QR image of
    an enrolment, the inside of TLS configurations, and the command tree and
    flags of [cobra].  What SQL scripts do to a database is a parameter of
    [Migrate].  [ListAWSRevokedUsersOlderThan], which only tests call, compares
    through SQLite's [julianday], whose resolution is a millisecond; the model
    compares exactly.  The concurrent tests of the contract are run in the orders
    in which each of the racing calls comes first.  What is left of the sources
    are types of template data, which appear as the fields of the pages, and
    glue to the libraries above. *)
From Stdlib Require Export Ascii String Lia.
From stdpp Require Export base option list gmap strings numbers.

(** ** Identifiers and results *)

(** [uuid.UUID]: a 128-bit value; [uuid.Nil] is zero. *)
Notation uuid := N (only parsing).
Notation uuid_nil := (0%N) (only parsing).

(** The error values handlers branch on: the two sentinels of the store
    package, and any other error (driver failure, constraint violation that
    is not a UNIQUE one, cryptographic failure). *)
Inductive error : Set :=
| ErrNotFound
| ErrConflict
| ErrOther.

#[export] Instance error_eq_dec : EqDecision error.
Proof. solve_decision. Defined.

(** A Go [(T, error)] pair. *)
Inductive result (A : Type) : Type :=
| Ok (a : A)
| Err (e : error).
Arguments Ok {A} a.
Arguments Err {A} e.

(** ** Time

    [time.Time] is the number of nanoseconds since Go's zero time, so
    [Time.IsZero] is [t = 0]; [time.Duration] is a signed 64-bit count of
    nanoseconds. *)
Local Open Scope Z_scope.

Definition maxDuration : Z := 2 ^ 63 - 1.
Definition minDuration : Z := - 2 ^ 63.

(** Go's int64 arithmetic wraps around. *)
Definition int64_wrap (z : Z) : Z := (z + 2 ^ 63) `mod` 2 ^ 64 - 2 ^ 63.

(** [Time.Sub] (and [time.Since], [time.Until]) saturates. *)
Definition time_Sub (t u : Z) : Z := Z.max minDuration (Z.min maxDuration (t - u)).

Definition Second : Z := 1000000000.
Definition Minute : Z := 60 * Second.
Definition Hour : Z := 60 * Minute.

(** An instant [encoding/json] can write: the year has at most four digits. *)
Definition json_time (t : Z) : Prop := 0 ≤ t < 3652059 * 24 * Hour.

(** [int(d.Seconds())] for a duration: truncation towards zero.  (Seconds is
    a float64; below 2^53 ns the conversion is exact, and the durations the
    code converts are at most four hours.) *)
Definition Seconds (d : Z) : Z := Z.quot d Second.

Definition IsZero (t : Z) : bool := bool_decide (t = 0).

(** SQLite's [CURRENT_TIMESTAMP] has a resolution of one second. *)
Definition current_timestamp (t : Z) : Z := t `div` Second * Second.

(** ** Options under a binder *)

Lemma forall_Some_eq {A} (x : A) (P : A → Prop) : (∀ y, Some x = Some y → P y) ↔ P x.
Proof. split; [intros H; by apply H|by intros ? y [= <-]]. Qed.

Lemma forall_None_eq {A} (P : A → Prop) : (∀ y, None = Some y → P y) ↔ True.
Proof. done. Qed.
