(* ===== verification/GoStrings.v ===== *)
(** * Go strings

    A Go string is a sequence of bytes.  This file models the functions of
    the packages [unicode/utf8], [unicode] and [strings] that the identity
    provider calls: UTF-8 decoding with Go's treatment of invalid bytes,
    [Fields], [TrimSpace], [ToLower], [EqualFold], [Join], [Split], [Trim],
    and the rune classes of the password rule.  The Unicode tables beyond
    ASCII are a parameter ([UnicodeTables]); everything below U+0080 and the
    white-space class are concrete. *)
From S2P Require Import Prelude.

Local Open Scope Z_scope.
#[local] Arguments String.append !_ _ : simpl nomatch.

(** ** Bytes and runes *)

Definition byteZ (a : ascii) : Z := Z.of_N (N_of_ascii a).

(** A continuation byte in the inclusive range [lo, hi]. *)
Definition in_range (lo hi c : Z) : bool := (lo <=? c) && (c <=? hi).

Definition RuneError : Z := 65533.

(** A decoded rune with the bytes it came from. *)
Definition piece : Type := Z * string.

(** The number of bytes announced by a lead byte, and the range of the second
    byte ([first] and [acceptRanges] in [unicode/utf8]); 0 marks an invalid
    lead byte. *)
Definition lead_info (b : Z) : nat * Z * Z :=
  if b <? 128 then (1%nat, 0, 0)
  else if in_range 194 223 b then (2%nat, 128, 191)
  else if b =? 224 then (3%nat, 160, 191)
  else if b =? 237 then (3%nat, 128, 159)
  else if in_range 225 239 b then (3%nat, 128, 191)
  else if b =? 240 then (4%nat, 144, 191)
  else if in_range 241 243 b then (4%nat, 128, 191)
  else if b =? 244 then (4%nat, 128, 143)
  else (0%nat, 0, 0).

Definition rune2 (a b : Z) : Z := (a - 192) * 64 + (b - 128).
Definition rune3 (a b c : Z) : Z := ((a - 224) * 64 + (b - 128)) * 64 + (c - 128).
Definition rune4 (a b c d : Z) : Z :=
  (((a - 240) * 64 + (b - 128)) * 64 + (c - 128)) * 64 + (d - 128).

(** [utf8.DecodeRuneInString]: the rune at the head of the string and the
    number of bytes it spans minus one; an invalid sequence is [RuneError] of
    width one. *)
Definition decode_head (a : ascii) (s : string) : Z * nat :=
  let '(n, lo, hi) := lead_info (byteZ a) in
  match n with
  | 1%nat => (byteZ a, 0%nat)
  | 2%nat =>
      match s with
      | String b _ =>
          if in_range lo hi (byteZ b) then (rune2 (byteZ a) (byteZ b), 1%nat)
          else (RuneError, 0%nat)
      | _ => (RuneError, 0%nat)
      end
  | 3%nat =>
      match s with
      | String b (String c _) =>
          if in_range lo hi (byteZ b) && in_range 128 191 (byteZ c)
          then (rune3 (byteZ a) (byteZ b) (byteZ c), 2%nat)
          else (RuneError, 0%nat)
      | _ => (RuneError, 0%nat)
      end
  | 4%nat =>
      match s with
      | String b (String c (String d _)) =>
          if in_range lo hi (byteZ b) && in_range 128 191 (byteZ c) && in_range 128 191 (byteZ d)
          then (rune4 (byteZ a) (byteZ b) (byteZ c) (byteZ d), 3%nat)
          else (RuneError, 0%nat)
      | _ => (RuneError, 0%nat)
      end
  | _ => (RuneError, 0%nat)
  end.

Fixpoint str_take (n : nat) (s : string) : string :=
  match n, s with
  | S n, String a s => String a (str_take n s)
  | _, _ => EmptyString
  end.

Fixpoint str_drop (n : nat) (s : string) : string :=
  match n, s with
  | S n, String _ s => str_drop n s
  | _, _ => s
  end.

(** The sequence of runes a [for range] loop visits; [fuel] bounds the number
    of iterations, and the length of the string is always enough. *)
Fixpoint decode_fuel (fuel : nat) (s : string) : list piece :=
  match fuel, s with
  | S fuel, String a r =>
      let '(c, n) := decode_head a r in
      (c, String a (str_take n r)) :: decode_fuel fuel (str_drop n r)
  | _, _ => []
  end.

Definition decode (s : string) : list piece := decode_fuel (String.length s) s.

Definition runes (s : string) : list Z := (decode s).*1.

Definition encode (ps : list piece) : string := foldr String.append EmptyString ps.*2.

(** ** Rune classes *)

(** The tables of package [unicode] for runes from U+0080 on. *)
Class UnicodeTables : Type := {
  u_upper : Z → bool;
  u_lower : Z → bool;
  u_digit : Z → bool;
  u_letter : Z → bool;
  u_tolower : Z → string;       (* UTF-8 encoding of the lower-case rune *)
  u_same_fold : Z → Z → bool;   (* same simple-folding orbit *)
}.

(** The tables restricted to ASCII: no rune from U+0080 on has a class. *)
Definition ascii_tables : UnicodeTables := {|
  u_upper := λ _, false; u_lower := λ _, false; u_digit := λ _, false;
  u_letter := λ _, false; u_tolower := λ _, EmptyString; u_same_fold := λ _ _, false
|}.

Definition ascii_isUpper (c : Z) : bool := in_range 65 90 c.
Definition ascii_isLower (c : Z) : bool := in_range 97 122 c.
Definition ascii_isDigit (c : Z) : bool := in_range 48 57 c.

(** [unicode.IsSpace]: the White_Space property. *)
Definition IsSpace (c : Z) : bool :=
  in_range 9 13 c || (c =? 32) || (c =? 133) || (c =? 160) || (c =? 5760)
  || in_range 8192 8202 c || (c =? 8232) || (c =? 8233) || (c =? 8239)
  || (c =? 8287) || (c =? 12288).

Definition upper_byte (a : ascii) : ascii :=
  if ascii_isLower (byteZ a) then ascii_of_N (Z.to_N (byteZ a - 32)) else a.
Definition lower_byte (a : ascii) : ascii :=
  if ascii_isUpper (byteZ a) then ascii_of_N (Z.to_N (byteZ a + 32)) else a.

(** Map a function on bytes over a string. *)
Fixpoint str_map (f : ascii → ascii) (s : string) : string :=
  match s with
  | EmptyString => EmptyString
  | String a s => String (f a) (str_map f s)
  end.

Fixpoint str_forallb (f : ascii → bool) (s : string) : bool :=
  match s with
  | EmptyString => true
  | String a s => f a && str_forallb f s
  end.

Section tables.
  Context `{U : UnicodeTables}.

Definition IsUpper (c : Z) : bool := if c <? 128 then ascii_isUpper c else u_upper c.
Definition IsLower (c : Z) : bool := if c <? 128 then ascii_isLower c else u_lower c.
Definition IsDigit (c : Z) : bool := if c <? 128 then ascii_isDigit c else u_digit c.
Definition IsLetter (c : Z) : bool :=
  if c <? 128 then ascii_isUpper c || ascii_isLower c else u_letter c.

(** One step of [strings.EqualFold]. *)
Definition rune_fold_eq (a b : Z) : bool :=
  (a =? b)
  || (if (a <? 128) && (b <? 128)
      then (ascii_isUpper a && (b =? a + 32)) || (ascii_isUpper b && (a =? b + 32))
      else u_same_fold a b).

Definition EqualFold (s t : string) : bool :=
  bool_decide (length (runes s) = length (runes t))
  && forallb (λ p, rune_fold_eq p.1 p.2) (zip (runes s) (runes t)).

(** [strings.ToLower]: byte-wise on ASCII strings, rune-wise otherwise. *)
Definition ToLower (s : string) : string :=
  if str_forallb (λ a, byteZ a <? 128) s then str_map lower_byte s
  else foldr String.append EmptyString
         (map (λ p : piece, if p.1 <? 128 then str_map lower_byte p.2 else u_tolower p.1) (decode s)).

End tables.

(** ** Splitting and joining *)

(** Group the pieces into maximal runs of runes outside [f]
    ([strings.FieldsFunc]); [cur] is the field being built, in reverse. *)
Fixpoint fields_go (f : Z → bool) (cur : list piece) (ps : list piece) : list string :=
  match ps with
  | [] => match cur with [] => [] | _ => [encode (reverse cur)] end
  | p :: ps =>
      if f p.1 then
        match cur with
        | [] => fields_go f [] ps
        | _ => encode (reverse cur) :: fields_go f [] ps
        end
      else fields_go f (p :: cur) ps
  end.

Definition FieldsFunc (f : Z → bool) (s : string) : list string := fields_go f [] (decode s).

Definition Fields (s : string) : list string := FieldsFunc IsSpace s.

Fixpoint dropWhile {A} (f : A → bool) (l : list A) : list A :=
  match l with
  | [] => []
  | x :: l' => if f x then dropWhile f l' else l
  end.

Definition TrimSpace (s : string) : string :=
  let sp := λ p : piece, IsSpace p.1 in
  encode (reverse (dropWhile sp (reverse (dropWhile sp (decode s))))).

(** [strings.Join]. *)
Fixpoint Join (l : list string) (sep : string) : string :=
  match l with
  | [] => EmptyString
  | [x] => x
  | x :: l' => String.append x (String.append sep (Join l' sep))
  end.

(** [strings.Split] on a one-byte separator. *)
Fixpoint split_go (sep : ascii) (cur : string) (s : string) : list string :=
  match s with
  | EmptyString => [cur]
  | String a s =>
      if Ascii.eqb a sep then cur :: split_go sep EmptyString s
      else split_go sep (String.append cur (String a EmptyString)) s
  end.

Definition Split (s : string) (sep : ascii) : list string := split_go sep EmptyString s.

(** [slices.Contains] on strings. *)
Definition str_contains (l : list string) (x : string) : bool := bool_decide (x ∈ l).

Fixpoint str_trim_left (f : ascii → bool) (s : string) : string :=
  match s with
  | EmptyString => EmptyString
  | String a s' => if f a then str_trim_left f s' else s
  end.

Fixpoint str_trim_right (f : ascii → bool) (s : string) : string :=
  match s with
  | EmptyString => EmptyString
  | String a s' =>
      match str_trim_right f s' with
      | EmptyString => if f a then EmptyString else String a EmptyString
      | r => String a r
      end
  end.

(** [strings.Trim] with an ASCII cutset. *)
Definition Trim (f : ascii → bool) (s : string) : string := str_trim_right f (str_trim_left f s).

(** [strings.CutPrefix]. *)
Fixpoint CutPrefix (s p : string) : option string :=
  match p, s with
  | EmptyString, _ => Some s
  | String a p', String b s' => if Ascii.eqb a b then CutPrefix s' p' else None
  | _, _ => None
  end.

(** ** Lemmas: decoding *)

Local Close Scope Z_scope.

(** A string whose runes are all outside the white-space class, and which is
    not empty: what [Fields] returns. *)
Definition is_field (w : string) : Prop :=
  w ≠ EmptyString ∧ Forall (λ c, IsSpace c = false) (runes w).

Lemma str_append_nil_r s : String.append s "" = s.
Proof. induction s; simpl; congruence. Qed.

Lemma str_append_assoc s t u :
  String.append s (String.append t u) = String.append (String.append s t) u.
Proof. induction s; simpl; congruence. Qed.

Lemma str_take_drop n s : String.append (str_take n s) (str_drop n s) = s.
Proof. revert s; induction n; intros [|a s]; simpl; try done. by rewrite IHn. Qed.

Lemma str_take_app n s t :
  n ≤ String.length s → str_take n (String.append s t) = str_take n s.
Proof. revert s; induction n; intros [|a s]; simpl; intros; try done; try lia. rewrite IHn; [done|lia]. Qed.

Lemma str_drop_app n s t :
  n ≤ String.length s → str_drop n (String.append s t) = String.append (str_drop n s) t.
Proof. revert s; induction n; intros [|a s]; simpl; intros; try done; try lia. apply IHn; lia. Qed.

Lemma str_length_app s t :
  String.length (String.append s t) = (String.length s + String.length t)%nat.
Proof. induction s; simpl; congruence. Qed.

Lemma str_length_drop n s : String.length (str_drop n s) ≤ String.length s.
Proof. revert s; induction n; intros [|a s]; simpl; try lia. specialize (IHn s). lia. Qed.

Lemma str_length_take n s : n ≤ String.length s → String.length (str_take n s) = n.
Proof. revert s; induction n; intros [|a s]; simpl; try lia. intros; rewrite IHn; lia. Qed.

(** Case analysis on the lead byte [decode_head] inspects. *)
Ltac decode_cases :=
  unfold decode_head in *;
  match goal with
  | |- context [lead_info ?b] => destruct (lead_info b) as [[[|[|[|[|[|?]]]]] ?] ?] eqn:?
  | H : context [lead_info ?b] |- _ => destruct (lead_info b) as [[[|[|[|[|[|?]]]]] ?] ?] eqn:?
  end.

Lemma decode_head_length a r : (decode_head a r).2 ≤ String.length r.
Proof. decode_cases; repeat case_match; simpl; lia. Qed.

(** Decoding looks only at the bytes it consumes, or finds them missing. *)
Lemma decode_head_prefix a r t c n :
  decode_head a (String.append r t) = (c, n) → n ≤ String.length r → decode_head a r = (c, n).
Proof.
  intros H Hn. decode_cases; [done..| | | |done].
  all: repeat match goal with
    | H : context [match String.append ?x _ with _ => _ end] |- _ =>
        is_var x; destruct x as [|? ?]; simpl in *
    end.
  all: repeat case_match; simplify_eq/=; try done; try lia.
Qed.

Lemma decode_head_app_ascii a r b t :
  (byteZ b < 128)%Z → decode_head a (String.append r (String b t)) = decode_head a r.
Proof.
  intros Hb.
  assert (Hr : ∀ lo hi, (128 ≤ lo)%Z → in_range lo hi (byteZ b) = false)
    by (intros; unfold in_range; apply andb_false_iff; left; lia).
  assert (Hl : ∀ n lo hi, lead_info (byteZ a) = (n, lo, hi) → (2 ≤ n)%nat → (128 ≤ lo)%Z).
  { unfold lead_info. intros n lo hi. repeat case_match; intros; simplify_eq; lia. }
  decode_cases; specialize (Hl _ _ _ eq_refl); [done..| | | |done].
  all: destruct r as [|b1 [|b2 [|b3 r]]]; simpl; rewrite ?Hr by lia;
    rewrite ?andb_false_r; simpl; try done.
  all: destruct t as [|t1 [|t2 t]]; simpl; rewrite ?andb_false_r; done.
Qed.

Lemma decode_fuel_enough f s : String.length s ≤ f → decode_fuel f s = decode s.
Proof.
  unfold decode. remember (String.length s) as k eqn:Ek.
  revert s f Ek. induction (lt_wf k) as [k _ IH]; intros [|a r] f -> Hf.
  - destruct f; done.
  - destruct f as [|f]; simpl in *; [lia|].
    destruct (decode_head a r) as [c n] eqn:E.
    pose proof (str_length_drop n r).
    f_equal. transitivity (decode_fuel (String.length (str_drop n r)) (str_drop n r));
      [|symmetry]; apply IH; try done; lia.
Qed.

Lemma decode_cons a r :
  decode (String a r) =
    let '(c, n) := decode_head a r in
    (c, String a (str_take n r)) :: decode (str_drop n r).
Proof.
  unfold decode at 1. simpl. destruct (decode_head a r) as [c n].
  f_equal. apply decode_fuel_enough, str_length_drop.
Qed.

(** Induction following the runes of a string. *)
Lemma decode_ind (P : string → Prop) :
  P EmptyString →
  (∀ a r c n, decode_head a r = (c, n) → P (str_drop n r) → P (String a r)) →
  ∀ s, P s.
Proof.
  intros H0 HS s. remember (String.length s) as k eqn:Ek.
  revert s Ek. induction (lt_wf k) as [k _ IH]; intros [|a r] ->; [done|].
  destruct (decode_head a r) as [c n] eqn:E. eapply HS; [done|].
  pose proof (str_length_drop n r). eapply IH; [|done]. simpl; lia.
Qed.

Lemma encode_cons p ps : encode (p :: ps) = String.append p.2 (encode ps).
Proof. done. Qed.

Lemma encode_app ps qs : encode (ps ++ qs) = String.append (encode ps) (encode qs).
Proof.
  induction ps as [|[c s] ps IH]; [done|].
  rewrite <- app_comm_cons, !encode_cons, IH. apply str_append_assoc.
Qed.

(** Decoding loses nothing: the bytes of the pieces are the string. *)
Lemma encode_decode s : encode (decode s) = s.
Proof.
  induction s as [|a r c n E IH] using decode_ind; [done|].
  rewrite decode_cons, E, encode_cons, IH. simpl. by rewrite str_take_drop.
Qed.

Lemma decode_app_ascii s b t :
  (byteZ b < 128)%Z → decode (String.append s (String b t)) = decode s ++ decode (String b t).
Proof.
  intros Hb. induction s as [|a r c n E IH] using decode_ind; [done|].
  simpl. rewrite !(decode_cons a), decode_head_app_ascii, E by done.
  pose proof (decode_head_length a r) as Hn. rewrite E in Hn. simpl in Hn.
  rewrite str_take_app, str_drop_app by lia. simpl. by rewrite IH.
Qed.

Lemma decode_ascii_cons b t :
  (byteZ b < 128)%Z → decode (String b t) = (byteZ b, String b "") :: decode t.
Proof.
  intros Hb. rewrite decode_cons. unfold decode_head, lead_info.
  rewrite (proj2 (Z.ltb_lt _ _) Hb). simpl. by destruct t.
Qed.

(** A run of pieces that a string decodes to, cut at any rune boundary,
    decodes to itself. *)
Lemma decode_prefix ps : ∀ s qs, decode s = ps ++ qs → decode (encode ps) = ps.
Proof.
  induction ps as [|p ps IH]; intros s qs H; [done|].
  destruct s as [|a r]; [done|].
  rewrite decode_cons in H. destruct (decode_head a r) as [c n] eqn:E. simplify_eq/=.
  pose proof (decode_head_length a r) as Hn. rewrite E in Hn. simpl in Hn.
  assert (Hr : r = String.append (String.append (str_take n r) (encode ps)) (encode qs)).
  { rewrite <- str_append_assoc, <- encode_app. rewrite <- (str_take_drop n r) at 1.
    f_equal. rewrite <- (encode_decode (str_drop n r)) at 1. by f_equal. }
  rewrite encode_cons. simpl.
  rewrite decode_cons.
  rewrite (decode_head_prefix a _ (encode qs) c n); [|by rewrite <- Hr|].
  2: { rewrite str_length_app, str_length_take; lia. }
  rewrite str_take_app, str_drop_app by (rewrite str_length_take; lia).
  assert (str_take n (str_take n r) = str_take n r ∧ str_drop n (str_take n r) = "") as [-> ->].
  { clear. revert r. induction n; intros [|b r]; simpl; try done.
    destruct (IHn r) as [-> ->]. done. }
  simpl. by erewrite IH.
Qed.

Lemma decode_suffix ps : ∀ s qs, decode s = ps ++ qs → ∃ t, decode t = qs.
Proof.
  induction ps as [|p ps IH]; intros s qs H; [by exists s|].
  destruct s as [|a r]; [done|]. rewrite decode_cons in H.
  destruct (decode_head a r) as [c n]. simplify_eq/=. eauto.
Qed.

(** ** Lemmas: fields *)

Lemma decode_nil s : decode s = [] → s = EmptyString.
Proof. intros H. rewrite <- (encode_decode s). by rewrite H. Qed.

Lemma fields_go_ok ps : ∀ cur s pre,
  decode s = pre ++ reverse cur ++ ps →
  Forall (λ p : piece, IsSpace p.1 = false) cur →
  Forall is_field (fields_go IsSpace cur ps).
Proof.
  assert (Hf : ∀ cur s pre qs, decode s = pre ++ reverse cur ++ qs → cur ≠ [] →
      Forall (λ p : piece, IsSpace p.1 = false) cur → is_field (encode (reverse cur))).
  { intros cur s pre qs Hs Hne Hc.
    destruct (decode_suffix _ _ _ Hs) as [t Ht].
    pose proof (decode_prefix _ _ _ Ht) as Hd. split.
    - intros E. rewrite E in Hd. apply Hne. apply (f_equal reverse) in Hd.
      by rewrite reverse_involutive in Hd.
    - unfold runes. rewrite Hd, Forall_fmap. by apply Forall_reverse. }
  induction ps as [|p ps IH]; intros cur s pre Hs Hc; simpl.
  - destruct cur as [|q cur]; constructor; [|done]. by eapply Hf.
  - destruct (IsSpace p.1) eqn:Ep.
    + assert (Forall is_field (fields_go IsSpace [] ps)).
      { apply (IH [] s (pre ++ reverse cur ++ [p])); [|done].
        rewrite Hs, <- !(assoc_L (++)). done. }
      destruct cur; [done|]. constructor; [by eapply Hf|done].
    + apply (IH _ s pre); [|by constructor].
      rewrite Hs, reverse_cons, <- !(assoc_L (++)). done.
Qed.

Lemma Fields_is_field s : Forall is_field (Fields s).
Proof. by eapply (fields_go_ok _ [] s []). Qed.

Lemma fields_go_field ps : ∀ cur rest,
  Forall (λ p : piece, IsSpace p.1 = false) ps →
  fields_go IsSpace cur (ps ++ rest) = fields_go IsSpace (reverse ps ++ cur) rest.
Proof.
  induction ps as [|p ps IH]; intros cur rest H; [done|].
  inversion_clear H. simpl. rewrite H0, IH by done. by rewrite reverse_cons, <- (assoc_L (++)).
Qed.

(** [Fields] inverts [Join] with a space on words without white space. *)
Lemma Fields_Join l : Forall is_field l → Fields (Join l " ") = l.
Proof.
  unfold Fields, FieldsFunc. induction 1 as [|w l [Hne Hw] Hl IH]; [done|].
  assert (Hrun : Forall (λ p : piece, IsSpace p.1 = false) (decode w))
    by (unfold runes in Hw; by rewrite Forall_fmap in Hw).
  assert (Hend : ∀ rest, decode w ≠ [] →
    fields_go IsSpace [] (decode w ++ (32%Z, " ") :: rest) = w :: fields_go IsSpace [] rest).
  { intros rest Hd. rewrite fields_go_field, app_nil_r by done. simpl.
    destruct (reverse (decode w)) eqn:E.
    - apply (f_equal reverse) in E. by rewrite reverse_involutive in E.
    - by rewrite <- E, reverse_involutive, encode_decode. }
  destruct l as [|w' l].
  - simpl. rewrite <- (app_nil_r (decode w)), fields_go_field, app_nil_r by done. simpl.
    destruct (reverse (decode w)) eqn:E.
    + apply (f_equal reverse) in E. rewrite reverse_involutive in E.
      by apply decode_nil in E.
    + by rewrite <- E, reverse_involutive, encode_decode.
  - change (Join (w :: w' :: l) " ")
      with (String.append w (String " " (Join (w' :: l) " "))).
    rewrite decode_app_ascii, (decode_ascii_cons " ") by done.
    rewrite Hend, IH; [done|]. intros E. by apply decode_nil in E.
Qed.

(** ** Lemmas: splitting and joining *)

Section split.
  Context (sep : ascii).

(** The separator does not occur in [s]. *)
Definition sep_free (s : string) : Prop := str_forallb (λ a, negb (Ascii.eqb a sep)) s = true.

Lemma sep_free_app s t : sep_free s → sep_free t → sep_free (String.append s t).
Proof. unfold sep_free. induction s as [|a s IH]; simpl; [done|]. intros [-> Hs]%andb_prop Ht. by apply IH. Qed.

Lemma split_go_app w : ∀ cur rest,
  sep_free w → split_go sep cur (String.append w rest) = split_go sep (String.append cur w) rest.
Proof.
  unfold sep_free. induction w as [|a w IH]; intros cur rest H; simpl in *; [by rewrite str_append_nil_r|].
  apply andb_prop in H as [Ha Hw]. destruct (Ascii.eqb a sep); [done|].
  rewrite IH by done. by rewrite <- str_append_assoc.
Qed.

Lemma Join_cons w l : l ≠ [] → Join (w :: l) (String sep "") = String.append w (String sep (Join l (String sep ""))).
Proof. by destruct l. Qed.

Lemma Split_Join l : l ≠ [] → Forall sep_free l → Split (Join l (String sep "")) sep = l.
Proof.
  intros Hne Hl. unfold Split. induction Hl as [|w l Hw Hl IH]; [done|].
  destruct (decide (l = [])) as [->|Hl']; [simpl; rewrite <- (str_append_nil_r w) at 1; by rewrite split_go_app|].
  rewrite Join_cons, split_go_app by done. simpl. rewrite Ascii.eqb_refl. by rewrite IH.
Qed.

Lemma split_go_free s : ∀ cur, sep_free cur → Forall sep_free (split_go sep cur s).
Proof.
  induction s as [|a s IH]; intros cur Hc; simpl; [by constructor|].
  destruct (Ascii.eqb a sep) eqn:E; [constructor; [done|by apply IH]|].
  apply IH. apply sep_free_app; [done|]. unfold sep_free. simpl. by rewrite E.
Qed.

Lemma Split_free s : Forall sep_free (Split s sep).
Proof. by apply split_go_free. Qed.

Lemma split_go_nonempty s : ∀ cur, split_go sep cur s ≠ [].
Proof. induction s as [|a s IH]; intros cur; simpl; [done|]. by destruct (Ascii.eqb a sep). Qed.

Lemma Join_split_go s : ∀ cur, Join (split_go sep cur s) (String sep "") = String.append cur s.
Proof.
  induction s as [|a s IH]; intros cur; simpl; [by rewrite str_append_nil_r|].
  destruct (Ascii.eqb a sep) eqn:E.
  - apply Ascii.eqb_eq in E as ->. rewrite Join_cons by apply split_go_nonempty. by rewrite IH.
  - by rewrite IH, <- str_append_assoc.
Qed.

Lemma Join_Split s : Join (Split s sep) (String sep "") = s.
Proof. apply Join_split_go. Qed.

End split.
