(* ===== verification/GoNet.v ===== *)
(** * Query strings and numerals

    [url.QueryEscape], [url.Values.Encode], [strconv.Atoi] and [Itoa] of the Go
    standard library, as the handlers use them: query strings of redirects and
    of AWS sign-in addresses are built from these, so their text is computed
    here.  An escaped value is shown to contain no character with a meaning in
    a query string, and to be recovered by [QueryUnescape]. *)
From stdpp Require Import sorting pretty.
From S2P Require Import Prelude GoStrings.

Local Open Scope Z_scope.

(** ** Bytes *)

Definition is_lower_alnum (a : ascii) : bool :=
  in_range 97 122 (byteZ a) || in_range 48 57 (byteZ a).

Definition is_alnum (a : ascii) : bool := is_lower_alnum a || in_range 65 90 (byteZ a).

(** [s[:n]] where [n] is at most the length (slicing past the end panics). *)
Definition slice_to (n : nat) (s : string) : option string :=
  if (n <=? String.length s)%nat then Some (str_take n s) else None.

(** [strings.Contains]. *)
Fixpoint Contains (s sub : string) : bool :=
  String.prefix sub s || match s with EmptyString => false | String _ s => Contains s sub end.

(** ** Escaping *)

(** [shouldEscape(c, encodeQueryComponent)], negated. *)
Definition unreserved (a : ascii) : bool :=
  is_alnum a || Ascii.eqb a "-" || Ascii.eqb a "_" || Ascii.eqb a "." || Ascii.eqb a "~".

Definition hex_digit (n : Z) : ascii :=
  ascii_of_N (Z.to_N (if n <? 10 then 48 + n else 55 + n)).

Fixpoint QueryEscape (s : string) : string :=
  match s with
  | EmptyString => EmptyString
  | String a s =>
      if unreserved a then String a (QueryEscape s)
      else if Ascii.eqb a " " then String "+" (QueryEscape s)
      else String "%" (String (hex_digit (byteZ a / 16)) (String (hex_digit (byteZ a mod 16)) (QueryEscape s)))
  end.

(** [url.PathEscape]: one path segment. *)
Definition path_unreserved (a : ascii) : bool :=
  unreserved a || Ascii.eqb a "$" || Ascii.eqb a "&" || Ascii.eqb a "+" || Ascii.eqb a "=" ||
  Ascii.eqb a ":" || Ascii.eqb a "@".

Fixpoint PathEscape (s : string) : string :=
  match s with
  | EmptyString => EmptyString
  | String a s =>
      if path_unreserved a then String a (PathEscape s)
      else String "%" (String (hex_digit (byteZ a / 16)) (String (hex_digit (byteZ a mod 16)) (PathEscape s)))
  end.

Definition unhex (a : ascii) : option Z :=
  let c := byteZ a in
  if in_range 48 57 c then Some (c - 48)
  else if in_range 65 70 c then Some (c - 55)
  else if in_range 97 102 c then Some (c - 87)
  else None.

(** [url.QueryUnescape]; [None] on a malformed escape. *)
Fixpoint QueryUnescape (s : string) : option string :=
  match s with
  | EmptyString => Some EmptyString
  | String a r =>
      if Ascii.eqb a "%" then
        match r with
        | String h (String l r) =>
            match unhex h, unhex l, QueryUnescape r with
            | Some h, Some l, Some r => Some (String (ascii_of_N (Z.to_N (16 * h + l))) r)
            | _, _, _ => None
            end
        | _ => None
        end
      else String (if Ascii.eqb a "+" then " "%char else a) <$> QueryUnescape r
  end.

(** [Values.Encode] of single-valued parameters: sorted by key. *)
Definition key_leb (x y : string * string) : Prop := String.leb x.1 y.1 = true.

#[export] Instance key_leb_dec : RelDecision key_leb.
Proof. unfold RelDecision, key_leb. apply _. Defined.

Definition encode_pair (kv : string * string) : string := QueryEscape kv.1 +:+ "=" +:+ QueryEscape kv.2.

Definition Values_Encode (kvs : list (string * string)) : string :=
  Join (encode_pair <$> merge_sort key_leb kvs) "&".

(** ** Numerals *)

Definition Itoa (z : Z) : string := pretty z.

Definition digit_value (a : ascii) : option Z :=
  if in_range 48 57 (byteZ a) then Some (byteZ a - 48) else None.

Fixpoint atoi_go (acc : Z) (s : string) : option Z :=
  match s with
  | EmptyString => Some acc
  | String a s => match digit_value a with Some d => atoi_go (10 * acc + d) s | None => None end
  end.

(** [strconv.Atoi]: an optional sign and decimal digits, within an int. *)
Definition Atoi (s : string) : option Z :=
  let '(neg, digits) :=
    match s with
    | String "-" r => (true, r)
    | String "+" r => (false, r)
    | _ => (false, s)
    end in
  match digits with
  | EmptyString => None
  | _ =>
      match atoi_go 0 digits with
      | None => None
      | Some n =>
          let v := if neg : bool then - n else n in
          if in_range (- 2 ^ 63) (2 ^ 63 - 1) v then Some v else None
      end
  end.

(** The loop of [strconv.ParseUint]: zero on a syntax error, the largest uint64
    as soon as the value exceeds it. *)
Fixpoint parse_uint (acc : Z) (s : string) : Z :=
  match s with
  | EmptyString => acc
  | String a s =>
      match digit_value a with
      | None => 0
      | Some d =>
          if 2 ^ 64 / 10 + 1 <=? acc then 2 ^ 64 - 1
          else if 2 ^ 64 - 1 <? 10 * acc + d then 2 ^ 64 - 1
          else parse_uint (10 * acc + d) s
      end
  end.

(** The value [strconv.Atoi] returns whether or not it reports an error: zero
    on a syntax error, the nearest int when out of range. *)
Definition Atoi_value (s : string) : Z :=
  match s with
  | String "-" r => if 2 ^ 63 <? parse_uint 0 r then - 2 ^ 63 else - parse_uint 0 r
  | String "+" r => if 2 ^ 63 <=? parse_uint 0 r then 2 ^ 63 - 1 else parse_uint 0 r
  | _ => if 2 ^ 63 <=? parse_uint 0 s then 2 ^ 63 - 1 else parse_uint 0 s
  end.

(** ** Properties *)

(** What is proved of every byte by looking at all of them. *)
Lemma all_bytes (P : ascii → bool) :
  forallb P (map ascii_of_nat (seq 0 256)) = true → ∀ a, P a = true.
Proof.
  intros H a. rewrite forallb_forall in H. apply H. apply in_map_iff. exists (nat_of_ascii a).
  split; [apply ascii_nat_embedding|]. apply in_seq. pose proof (nat_ascii_bounded a). lia.
Qed.

Lemma unhex_digits a :
  unhex (hex_digit (byteZ a / 16)) = Some (byteZ a / 16) ∧
  unhex (hex_digit (byteZ a mod 16)) = Some (byteZ a mod 16) ∧
  ascii_of_N (Z.to_N (16 * (byteZ a / 16) + byteZ a mod 16)) = a.
Proof.
  pose proof (all_bytes (λ a, bool_decide
    (unhex (hex_digit (byteZ a / 16)) = Some (byteZ a / 16) ∧
     unhex (hex_digit (byteZ a mod 16)) = Some (byteZ a mod 16) ∧
     ascii_of_N (Z.to_N (16 * (byteZ a / 16) + byteZ a mod 16)) = a))) as H.
  specialize (H ltac:(vm_compute; reflexivity) a). by apply bool_decide_eq_true in H.
Qed.

Lemma unreserved_literal a : unreserved a = true → Ascii.eqb a "%" = false ∧ Ascii.eqb a "+" = false.
Proof.
  pose proof (all_bytes (λ a, implb (unreserved a) (negb (Ascii.eqb a "%") && negb (Ascii.eqb a "+")))) as H.
  specialize (H ltac:(vm_compute; reflexivity) a). intros Ha. cbv beta in H. rewrite Ha in H. simpl in H.
  by rewrite andb_true_iff, !negb_true_iff in H.
Qed.

(** An escaped value is recovered. *)
Lemma QueryUnescape_Escape s : QueryUnescape (QueryEscape s) = Some s.
Proof.
  induction s as [|a s IH]; [done|]. cbn [QueryEscape]. destruct (unreserved a) eqn:Hu.
  - cbn [QueryUnescape]. destruct (unreserved_literal a Hu) as [-> ->]. by rewrite IH.
  - destruct (Ascii.eqb a " ") eqn:Hs.
    + apply Ascii.eqb_eq in Hs as ->. cbn [QueryUnescape Ascii.eqb Bool.eqb]. by rewrite IH.
    + cbn [QueryUnescape]. change (Ascii.eqb "%" "%") with true. cbv iota.
      destruct (unhex_digits a) as (-> & -> & Ha). by rewrite IH, Ha.
Qed.

(** A byte that separates parameters, starts a fragment or ends a header. *)
Definition query_special (a : ascii) : bool :=
  Ascii.eqb a "&" || Ascii.eqb a "=" || Ascii.eqb a "#" || Ascii.eqb a ";" || Ascii.eqb a "/" ||
  Ascii.eqb a "?" || Ascii.eqb a "@" || (byteZ a <? 33).

(** An escaped value cannot end its parameter. *)
Lemma QueryEscape_plain s : str_forallb (λ a, negb (query_special a)) (QueryEscape s) = true.
Proof.
  pose proof (all_bytes (λ a, implb (unreserved a) (negb (query_special a)) &&
    negb (query_special (hex_digit (byteZ a / 16))) && negb (query_special (hex_digit (byteZ a mod 16))))) as H.
  specialize (H ltac:(vm_compute; reflexivity)).
  induction s as [|a s IH]; [done|]. cbn [QueryEscape]. specialize (H a). cbv beta in H.
  apply andb_true_iff in H as [[H1 H2]%andb_true_iff H3].
  destruct (unreserved a); cbn [str_forallb]; [by rewrite IH, andb_true_r|].
  destruct (Ascii.eqb a " "); cbn [str_forallb]; rewrite ?IH, ?H2, ?H3; done.
Qed.

Example encode_example :
  Values_Encode [("next", "aws_console"); ("error", "a b&c=d")] = "error=a+b%26c%3Dd&next=aws_console".
Proof. vm_compute. reflexivity. Qed.

Example atoi_examples :
  (Atoi "3600", Atoi "-5", Atoi "+7", Atoi "", Atoi "12x", Atoi "9223372036854775808")
  = (Some 3600, Some (-5), Some 7, None, None, None).
Proof. vm_compute. reflexivity. Qed.

Example atoi_value_examples :
  Atoi_value <$> ["3600"; "-5"; ""; "12x"; "99999999999999999999x"; "-9223372036854775809"]
  = [3600; -5; 0; 0; 2 ^ 63 - 1; - 2 ^ 63].
Proof. vm_compute. reflexivity. Qed.
