(* ===== verification/Calendar.v ===== *)
(** * Calendar

    Dates and times of day as [time.Time] prints them, all in UTC: the date of a
    day by the cycles of the Gregorian calendar, decimal fields of fixed width,
    fractions of a second without trailing zeros.  Times count nanoseconds from
    January 1 of year 1, the zero time of Go.  The texts are in the order of the
    times ([date_text_order], [clock_text_order], [fraction_order]), which the
    SQLite store relies on where it compares times as text. *)
From S2P Require Import Prelude GoStrings.

Local Open Scope Z_scope.

(** ** Dates *)

(** Days before each month of a common year. *)
Definition month_starts : list Z := [0; 31; 59; 90; 120; 151; 181; 212; 243; 273; 304; 334].

Definition is_leap (y : Z) : bool := (y mod 4 =? 0) && (negb (y mod 100 =? 0) || (y mod 400 =? 0)).

(** The month of a day of a common year. *)
Definition month_of (yday : Z) : Z := foldr (λ s n, if s <=? yday then n + 1 else n) 0 month_starts.

(** Month and day of a day of the year, both from one. *)
Definition month_day (leap : bool) (yday : Z) : Z * Z :=
  if leap && (yday =? 59) then (2, 29)
  else
    let yday := if leap && (59 <? yday) then yday - 1 else yday in
    let m := month_of yday in
    (m, yday - nth (Z.to_nat (m - 1)) month_starts 0 + 1).

(** Year, month and day of a day counted from January 1 of year 1, by the cycles
    of 400, 100, 4 and 1 years. *)
Definition civil (days : Z) : Z * Z * Z :=
  let n400 := days / 146097 in
  let d := days mod 146097 in
  let n100 := Z.min 3 (d / 36524) in
  let d := d - 36524 * n100 in
  let n4 := d / 1461 in
  let d := d mod 1461 in
  let n1 := Z.min 3 (d / 365) in
  let yday := d - 365 * n1 in
  let y := 400 * n400 + 100 * n100 + 4 * n4 + n1 + 1 in
  let md := month_day (is_leap y) yday in
  (y, md.1, md.2).

(** The day of a date, counted year by year. *)
Definition day_of (date : Z * Z * Z) : Z :=
  let '(y, m, d) := date in
  let p := y - 1 in
  365 * p + p / 4 - p / 100 + p / 400 +
  nth (Z.to_nat (m - 1)) month_starts 0 + (if is_leap y && (2 <? m) then 1 else 0) + d - 1.

(** ** Times *)

Definition digit (n : Z) : ascii := ascii_of_N (Z.to_N (48 + n mod 10)).

(** The last [width] decimal digits of [n]. *)
Fixpoint padded (width : nat) (n : Z) : string :=
  match width with
  | O => EmptyString
  | S w => padded w (n / 10) +:+ String (digit n) EmptyString
  end.

Definition is_zero_digit (a : ascii) : bool := Ascii.eqb a "0".

(** The fraction of a second, without trailing zeros. *)
Definition fraction (ns : Z) : string :=
  if ns =? 0 then "" else String "." (str_trim_right is_zero_digit (padded 9 ns)).

(** A day, and a second of a day, as the layouts of [time] write them. *)
Definition date_text (days : Z) : string :=
  let '(y, m, d) := civil days in
  padded 4 y +:+ "-" +:+ padded 2 m +:+ "-" +:+ padded 2 d.

Definition clock_text (s : Z) : string :=
  padded 2 (s / 3600) +:+ ":" +:+ padded 2 (s / 60 mod 60) +:+ ":" +:+ padded 2 (s mod 60).

(** ** Dates are right *)

(** A check of [n] consecutive numbers. *)
Fixpoint all_from (P : Z → bool) (n : nat) (z : Z) : bool :=
  match n with O => true | S n => P z && all_from P n (z + 1) end.

Lemma all_from_sound P n : ∀ z d, all_from P n z = true → z ≤ d < z + Z.of_nat n → P d = true.
Proof.
  induction n as [|n IH]; intros z d; simpl; [lia|]. intros [Hz Hn]%andb_prop Hd.
  destruct (Z.eq_dec d z) as [->|Hne]; [done|]. apply (IH (z + 1)); [done|lia].
Qed.

(** The days of a year, common and leap. *)
Definition month_day_inverse (leap : bool) (yday : Z) : bool :=
  let md := month_day leap yday in
  nth (Z.to_nat (md.1 - 1)) month_starts 0 + (if leap && (2 <? md.1) then 1 else 0) + md.2 - 1 =? yday.

Lemma month_day_correct (leap : bool) (yday : Z) :
  0 ≤ yday < (if leap then 366 else 365) → month_day_inverse leap yday = true.
Proof.
  intros Hd. destruct leap; [apply (all_from_sound (month_day_inverse true) 366 0)|apply (all_from_sound (month_day_inverse false) 365 0)];
    try lia; vm_compute; reflexivity.
Qed.

(** The cycles add up to the day; the last day of a cycle of four years exists
    only in a leap year. *)
Lemma cycles d a r b c r1 r2 e yday :
  0 ≤ d → a = d / 146097 → r = d mod 146097 → b = Z.min 3 (r / 36524) → r1 = r - 36524 * b →
  c = r1 / 1461 → r2 = r1 mod 1461 → e = Z.min 3 (r2 / 365) → yday = r2 - 365 * e →
  d = 146097 * a + 36524 * b + 1461 * c + 365 * e + yday ∧ 0 ≤ b ≤ 3 ∧ 0 ≤ c ≤ 24 ∧ 0 ≤ e ≤ 3 ∧
  0 ≤ yday ≤ 365 ∧ (yday = 365 → e = 3 ∧ (c = 24 → b = 3)).
Proof. intros. Z.to_euclidean_division_equations. lia. Qed.

Lemma leap_cycle a b c e y :
  0 ≤ b ≤ 3 → 0 ≤ c ≤ 24 → 0 ≤ e ≤ 3 → y = 400 * a + 100 * b + 4 * c + e + 1 →
  is_leap y = bool_decide (e = 3 ∧ (c = 24 → b = 3)).
Proof. intros. unfold is_leap. case_bool_decide; Z.to_euclidean_division_equations; lia. Qed.

(** The days before a year, and the days of one. *)
Definition year_start (y : Z) : Z := 365 * (y - 1) + (y - 1) / 4 - (y - 1) / 100 + (y - 1) / 400.
Definition year_length (y : Z) : Z := if is_leap y then 366 else 365.

(** The year of a day and the day's place in it. *)
Lemma civil_year d :
  0 ≤ d → ∃ y yday, 1 ≤ y ∧ civil d = (y, (month_day (is_leap y) yday).1, (month_day (is_leap y) yday).2) ∧
    d = year_start y + yday ∧ 0 ≤ yday < year_length y.
Proof.
  intros Hd. unfold civil, year_start, year_length.
  destruct (cycles d _ _ _ _ _ _ _ _ Hd eq_refl eq_refl eq_refl eq_refl eq_refl eq_refl eq_refl eq_refl)
    as (Hsum & Hb & Hc & He & Hy & H365).
  assert (0 ≤ d / 146097) as Ha by (apply Z.div_pos; lia).
  set (a := d / 146097) in *. set (r := d mod 146097) in *. set (b := Z.min 3 (r / 36524)) in *.
  set (c := (r - 36524 * b) / 1461) in *. set (r2 := (r - 36524 * b) mod 1461) in *. set (e := Z.min 3 (r2 / 365)) in *.
  set (yday := r2 - 365 * e) in *. clearbody yday e r2 c b r a.
  remember (400 * a + 100 * b + 4 * c + e + 1) as y eqn:Ey. pose proof (leap_cycle a b c e y Hb Hc He Ey) as Hleap.
  exists y, yday. split; [lia|]. split; [done|].
  assert ((y - 1) / 4 = 100 * a + 25 * b + c ∧ (y - 1) / 100 = 4 * a + b ∧ (y - 1) / 400 = a) as (-> & -> & ->)
    by (Z.to_euclidean_division_equations; lia).
  split; [lia|]. rewrite Hleap. case_bool_decide; lia.
Qed.

(** The date of every day, counted back by the calendar, is that day. *)
Theorem civil_correct d : 0 ≤ d → day_of (civil d) = d.
Proof.
  intros Hd. destruct (civil_year d Hd) as (y & yday & _ & -> & -> & Hy).
  pose proof (month_day_correct _ _ Hy) as Hm%Z.eqb_eq. unfold day_of, year_start. cbv zeta in *. lia.
Qed.

(** ** Texts are in the order of the times *)

(** The order of pairs. *)
Definition then_by (c c' : comparison) : comparison := match c with Eq => c' | _ => c end.

Lemma compare_split k a b a' b' :
  0 ≤ b < k → 0 ≤ b' < k → (a * k + b ?= a' * k + b') = then_by (a ?= a') (b ?= b').
Proof.
  intros. destruct (Z.compare_spec a a') as [->|Ha|Ha], (Z.compare_spec b b'); cbn; subst;
    first [apply Z.compare_eq_iff; nia|apply Z.compare_lt_iff; nia|apply Z.compare_gt_iff; nia].
Qed.

Lemma compare_divmod k n m : 0 < k → (n ?= m) = then_by (n / k ?= m / k) (n mod k ?= m mod k).
Proof.
  intros. rewrite <- (compare_split k) by (apply Z.mod_pos_bound; lia). f_equal; rewrite Z.mul_comm; by apply Z.div_mod; lia.
Qed.

Lemma str_compare_refl s : (s ?= s)%string = Eq.
Proof. induction s as [|a s IH]; [done|]. cbn. by rewrite (N.compare_refl _ : Ascii.compare a a = Eq). Qed.

Lemma str_compare_app a b x y :
  String.length a = String.length b → (a +:+ x ?= b +:+ y)%string = then_by (a ?= b)%string (x ?= y)%string.
Proof.
  revert b. induction a as [|c a IH]; intros [|e b]; try done. intros [= Hl].
  change (match Ascii.compare c e with Eq => (a +:+ x ?= b +:+ y)%string | Lt => Lt | Gt => Gt end =
          then_by (match Ascii.compare c e with Eq => (a ?= b)%string | Lt => Lt | Gt => Gt end) (x ?= y)%string).
  destruct (Ascii.compare c e); try done. by apply IH.
Qed.

Lemma padded_length w : ∀ n, String.length (padded w n) = w.
Proof. induction w as [|w IH]; intros n; [done|]. cbn. rewrite str_length_app, IH. cbn. lia. Qed.

Lemma digit_code n : N_of_ascii (digit n) = Z.to_N (48 + n mod 10).
Proof. unfold digit. apply N_ascii_embedding. pose proof (Z.mod_pos_bound n 10). lia. Qed.

Lemma digit_order n m : Ascii.compare (digit n) (digit m) = (n mod 10 ?= m mod 10).
Proof.
  unfold Ascii.compare. rewrite !digit_code. pose proof (Z.mod_pos_bound n 10). pose proof (Z.mod_pos_bound m 10).
  rewrite <- N2Z.inj_compare, !Z2N.id by lia. destruct (Z.compare_spec (n mod 10) (m mod 10)) as [->|?|?];
    [apply Z.compare_refl|apply Z.compare_lt_iff; lia|apply Z.compare_gt_iff; lia].
Qed.

(** Decimal fields of one width. *)
Lemma padded_order w : ∀ n m,
  0 ≤ n < 10 ^ Z.of_nat w → 0 ≤ m < 10 ^ Z.of_nat w → (padded w n ?= padded w m)%string = (n ?= m).
Proof.
  induction w as [|w IH]; intros n m Hn Hm.
  - cbn in *. by replace n with m by lia; rewrite Z.compare_refl.
  - rewrite Nat2Z.inj_succ, Z.pow_succ_r in Hn, Hm by lia. cbn [padded].
    rewrite str_compare_app by (by rewrite !padded_length).
    rewrite IH by (split; [apply Z.div_pos|apply Z.div_lt_upper_bound]; lia).
    rewrite (compare_divmod 10 n m) by lia. f_equal. cbn. rewrite digit_order. by destruct (_ ?= _).
Qed.

(** *** Fractions *)

Notation trim := (str_trim_right is_zero_digit).

Definition all_digits (s : string) : Prop := str_forallb (λ a, (48 <=? N_of_ascii a)%N) s = true.

Lemma str_forallb_app f a b : str_forallb f (a +:+ b) = str_forallb f a && str_forallb f b.
Proof.
  induction a as [|c a IH]; [done|].
  change (f c && str_forallb f (a +:+ b) = f c && str_forallb f a && str_forallb f b). by rewrite IH, andb_assoc.
Qed.

Lemma padded_digits w : ∀ n, all_digits (padded w n).
Proof.
  unfold all_digits. induction w as [|w IH]; intros n; [done|]. cbn [padded]. rewrite str_forallb_app, IH. cbn [str_forallb andb].
  rewrite digit_code, andb_true_r. apply N.leb_le. pose proof (Z.mod_pos_bound n 10). lia.
Qed.

Lemma trim_digits s : all_digits s → all_digits (trim s).
Proof.
  unfold all_digits. induction s as [|a s IH]; [done|]. cbn. intros [Ha Hs]%andb_prop. specialize (IH Hs).
  destruct (trim s) as [|b t]; [destruct (is_zero_digit a); [done|]; cbn; by rewrite Ha|]. cbn in *. by rewrite Ha, IH.
Qed.

(** Nothing is left exactly of a string of zeros. *)
Lemma trim_cons a s : trim (String a s) = if bool_decide (trim s = "") && is_zero_digit a then "" else String a (trim s).
Proof. cbn. by destruct (trim s). Qed.

(** The first byte decides. *)
Lemma first_byte c t y x :
  (N_of_ascii c < N_of_ascii y)%N → (String c t ?= String y x)%string = Lt ∧ (String y x ?= String c t)%string = Gt.
Proof.
  intros Hc. cbn. unfold Ascii.compare.
  by rewrite (proj2 (N.compare_lt_iff _ _)), (proj2 (N.compare_gt_iff _ _)) by lia.
Qed.

(** Trailing zeros do not matter to the order, if what follows is below the
    digits. *)
Lemma trim_order c t : (N_of_ascii c < 48)%N → ∀ p q,
  String.length p = String.length q → all_digits p → all_digits q →
  (trim p +:+ String c t ?= trim q +:+ String c t)%string = (p ?= q)%string.
Proof.
  intros Hc. induction p as [|a p IH]; intros [|b q]; try done; [intros _ _ _; apply str_compare_refl|].
  intros [= Hl] [Ha Hp]%andb_prop [Hb Hq]%andb_prop. specialize (IH q Hl Hp Hq).
  apply trim_digits in Hp, Hq. rewrite !trim_cons.
  assert (∀ s, all_digits s → s ≠ "" → (String c t ?= s +:+ String c t)%string = Lt ∧ (s +:+ String c t ?= String c t)%string = Gt) as Hbelow.
  { intros [|y s] Hs; [done|]. intros _. apply andb_prop in Hs as [Hy%N.leb_le _]. apply first_byte. lia. }
  change (String a p ?= String b q)%string with (match Ascii.compare a b with Eq => (p ?= q)%string | Lt => Lt | Gt => Gt end).
  rewrite <- IH. clear IH.
  destruct (bool_decide (trim p = "") && is_zero_digit a) eqn:Ep, (bool_decide (trim q = "") && is_zero_digit b) eqn:Eq.
  - apply andb_prop in Ep as [->%bool_decide_eq_true ->%Ascii.eqb_eq], Eq as [->%bool_decide_eq_true ->%Ascii.eqb_eq].
    by rewrite !str_compare_refl.
  - apply andb_prop in Ep as [->%bool_decide_eq_true ->%Ascii.eqb_eq].
    change ("" +:+ String c t) with (String c t). rewrite (proj1 (Hbelow (String b (trim q)) ltac:(by apply andb_true_intro) ltac:(done))).
    destruct (Ascii.compare "0" b) eqn:E0; [|done|].
    + apply Ascii.compare_eq_iff in E0 as <-. rewrite andb_true_r in Eq. apply bool_decide_eq_false in Eq.
      by rewrite (proj1 (Hbelow _ Hq Eq)).
    + apply N.leb_le in Hb. unfold Ascii.compare in E0. apply N.compare_gt_iff in E0. cbn in E0. lia.
  - apply andb_prop in Eq as [->%bool_decide_eq_true ->%Ascii.eqb_eq].
    change ("" +:+ String c t) with (String c t). rewrite (proj2 (Hbelow (String a (trim p)) ltac:(by apply andb_true_intro) ltac:(done))).
    destruct (Ascii.compare a "0") eqn:E0; [| |done].
    + apply Ascii.compare_eq_iff in E0 as ->. rewrite andb_true_r in Ep. apply bool_decide_eq_false in Ep.
      by rewrite (proj2 (Hbelow _ Hp Ep)).
    + apply N.leb_le in Ha. assert (N_of_ascii a < 48)%N by exact E0. lia.
  - done.
Qed.

(** What follows the seconds: a fraction that starts with a point, or none. *)
Lemma fraction_order c t n m :
  (N_of_ascii c < 46)%N → 0 ≤ n < Second → 0 ≤ m < Second →
  (fraction n +:+ String c t ?= fraction m +:+ String c t)%string = (n ?= m).
Proof.
  intros Hc Hn Hm. unfold fraction, Second in *.
  destruct (Z.eqb_spec n 0) as [->|Hn0], (Z.eqb_spec m 0) as [->|Hm0].
  - by rewrite str_compare_refl.
  - rewrite (proj2 (Z.compare_lt_iff 0 m)) by lia. apply first_byte. exact Hc.
  - rewrite (proj2 (Z.compare_gt_iff n 0)) by lia. apply first_byte. exact Hc.
  - change ((trim (padded 9 n) +:+ String c t ?= trim (padded 9 m) +:+ String c t)%string = (n ?= m)).
    rewrite trim_order; [|lia|by rewrite !padded_length|apply padded_digits..].
    apply padded_order; change (10 ^ Z.of_nat 9) with 1000000000; lia.
Qed.

(** *** Times of day *)

Lemma clock_text_length s : String.length (clock_text s) = 8%nat.
Proof. unfold clock_text. by rewrite !str_length_app, !padded_length. Qed.

Lemma clock_text_order s s' :
  0 ≤ s < 86400 → 0 ≤ s' < 86400 → (clock_text s ?= clock_text s')%string = (s ?= s').
Proof.
  intros Hs Hs'. unfold clock_text. rewrite !str_compare_app by (by rewrite ?str_length_app, ?padded_length).
  rewrite !str_compare_refl. cbn [then_by].
  rewrite (compare_divmod 60 s s'), (compare_divmod 60 (s / 60)), !Z.div_div by lia. change (60 * 60) with 3600.
  rewrite !padded_order by (change (10 ^ Z.of_nat 2) with 100; Z.to_euclidean_division_equations; lia).
  by destruct (_ ?= _).
Qed.

(** *** Dates *)

Lemma year_start_next y : year_start (y + 1) = year_start y + year_length y.
Proof. unfold year_start, year_length, is_leap. destruct (_ && _) eqn:E; Z.to_euclidean_division_equations; lia. Qed.

Lemma year_start_mono y y' : y < y' → year_start y + year_length y ≤ year_start y'.
Proof.
  intros Hy. rewrite <- year_start_next. assert (y + 1 ≤ y') as Hle by lia. clear Hy. revert y' Hle.
  apply (Zlt_lower_bound_ind _ (y + 1)). intros y' IH Hle. destruct (Z.eq_dec y' (y + 1)) as [->|Hne]; [lia|].
  specialize (IH (y' - 1) ltac:(lia)). pose proof (year_start_next (y' - 1)) as Hn. rewrite Z.sub_add in Hn.
  unfold year_length in Hn. destruct (is_leap (y' - 1)); lia.
Qed.

(** Within a year the pairs of month and day increase. *)
Definition month_key (leap : bool) (yday : Z) : Z := (month_day leap yday).1 * 32 + (month_day leap yday).2.

Definition month_day_fits (leap : bool) (yday : Z) : bool :=
  let md := month_day leap yday in
  (0 <=? md.1) && (md.1 <? 13) && (0 <=? md.2) && (md.2 <? 32) && (month_key leap yday <? month_key leap (yday + 1)).

Notation year_days leap := (if leap then 366 else 365).

Lemma month_day_ok (leap : bool) yday : 0 ≤ yday < year_days leap → month_day_fits leap yday = true.
Proof.
  intros Hd. destruct leap; [apply (all_from_sound (month_day_fits true) 366 0)|apply (all_from_sound (month_day_fits false) 365 0)];
    try lia; vm_compute; reflexivity.
Qed.

Lemma month_key_mono (leap : bool) i j : 0 ≤ i < j → j < year_days leap → month_key leap i < month_key leap j.
Proof.
  intros Hi. replace j with (i + 1 + Z.of_nat (Z.to_nat (j - i - 1))) by lia. generalize (Z.to_nat (j - i - 1)).
  destruct Hi as [Hi _]. clear j. induction n as [|n IH]; intros Hj.
  - pose proof (month_day_ok leap i ltac:(lia)) as Hk. unfold month_day_fits in Hk. rewrite !andb_true_iff, !Z.ltb_lt in Hk.
    replace (i + 1 + Z.of_nat 0) with (i + 1) by lia. apply Hk.
  - pose proof (month_day_ok leap (i + 1 + Z.of_nat n) ltac:(lia)) as Hk. unfold month_day_fits in Hk.
    rewrite !andb_true_iff, !Z.ltb_lt in Hk. specialize (IH ltac:(lia)).
    replace (i + 1 + Z.of_nat (S n)) with (i + 1 + Z.of_nat n + 1) by lia. lia.
Qed.

Lemma month_day_order (leap : bool) i j :
  0 ≤ i < year_days leap → 0 ≤ j < year_days leap →
  then_by ((month_day leap i).1 ?= (month_day leap j).1) ((month_day leap i).2 ?= (month_day leap j).2) = (i ?= j).
Proof.
  intros Hi Hj. pose proof (month_day_ok leap i Hi) as Fi. pose proof (month_day_ok leap j Hj) as Fj.
  unfold month_day_fits in Fi, Fj. rewrite !andb_true_iff, !Z.leb_le, !Z.ltb_lt in Fi, Fj.
  rewrite <- (compare_split 32) by lia. change (month_key leap i ?= month_key leap j = (i ?= j)).
  destruct (Z.compare_spec i j) as [->|Hl|Hl];
    [apply Z.compare_refl|apply Z.compare_lt_iff, month_key_mono; lia|apply Z.compare_gt_iff, month_key_mono; lia].
Qed.

(** Days up to the end of year 9999. *)
Definition last_day : Z := year_start 10000.

Lemma date_text_length d : String.length (date_text d) = 10%nat.
Proof. unfold date_text. destruct (civil d) as [[y m] e]. by rewrite !str_length_app, !padded_length. Qed.

Lemma date_text_order d d' :
  0 ≤ d < last_day → 0 ≤ d' < last_day → (date_text d ?= date_text d')%string = (d ?= d').
Proof.
  intros Hd Hd'. unfold date_text.
  destruct (civil_year d ltac:(lia)) as (y & i & Hy & -> & Ed & Hi), (civil_year d' ltac:(lia)) as (y' & i' & Hy' & -> & Ed' & Hi').
  assert (∀ z j, z ≤ 9999 ∨ last_day ≤ year_start z + j ∨ j < 0) as Hend.
  { intros z j. unfold last_day. destruct (Z.le_gt_cases z 9999); [by left|right].
    destruct (Z.eq_dec z 10000) as [->|]; [lia|]. pose proof (year_start_mono 10000 z ltac:(lia)). unfold year_length in *.
    destruct (is_leap 10000); lia. }
  pose proof (Hend y i). pose proof (Hend y' i'). clear Hend.
  pose proof (month_day_ok (is_leap y) i Hi) as Fi. pose proof (month_day_ok (is_leap y') i' Hi') as Fi'.
  unfold month_day_fits in Fi, Fi'. rewrite !andb_true_iff, !Z.leb_le, !Z.ltb_lt in Fi, Fi'.
  rewrite !str_compare_app by (by rewrite ?str_length_app, ?padded_length).
  rewrite !str_compare_refl. cbn [then_by].
  rewrite !padded_order by (change (10 ^ Z.of_nat 2) with 100; change (10 ^ Z.of_nat 4) with 10000; lia).
  destruct (Z.compare_spec y y') as [<-|Hlt|Hlt]; cbn [then_by].
  - rewrite month_day_order by done. subst d d'. by rewrite Z.add_compare_mono_l.
  - symmetry. apply Z.compare_lt_iff. pose proof (year_start_mono y y' Hlt). lia.
  - symmetry. apply Z.compare_gt_iff. pose proof (year_start_mono y' y Hlt). lia.
Qed.
