(* ===== verification/Mux.v ===== *)
(** * Paths of requests

    The cleaning and matching of paths by [http.ServeMux] of the Go standard
    library, on which [Server.Routes] relies: [path.Clean], [cleanPath], the
    decoding of path segments and the redirects the multiplexer answers by
    itself.  Paths are in the escaped form in which the multiplexer matches them
    ([URL.EscapedPath]). *)
From S2P Require Import Prelude GoStrings GoNet.

(** [url.PathUnescape]; [None] on a malformed escape. *)
Fixpoint PathUnescape (s : string) : option string :=
  match s with
  | EmptyString => Some EmptyString
  | String a r =>
      if Ascii.eqb a "%" then
        match r with
        | String h (String l r) =>
            match unhex h, unhex l, PathUnescape r with
            | Some h, Some l, Some r => Some (String (ascii_of_N (Z.to_N (16 * h + l))) r)
            | _, _, _ => None
            end
        | _ => None
        end
      else String a <$> PathUnescape r
  end.

(** [pathUnescape] of the multiplexer: malformed segments are kept. *)
Definition pathUnescape (s : string) : string := default s (PathUnescape s).

(** ** Cleaning *)

(** The elements of a path, the last one first in [out], as [path.Clean] keeps
    them: empty elements and "." are dropped, ".." removes the element before it. *)
Fixpoint clean_go (rooted : bool) (out segs : list string) : list string :=
  match segs with
  | [] => reverse out
  | s :: segs =>
      if bool_decide (s = "") || bool_decide (s = ".") then clean_go rooted out segs
      else if bool_decide (s = "..") then
        match out with
        | x :: out' => if bool_decide (x = "..") then clean_go rooted (".." :: out) segs else clean_go rooted out' segs
        | [] => clean_go rooted (if rooted then [] else [".."]) segs
        end
      else clean_go rooted (s :: out) segs
  end.

Definition is_rooted (p : string) : bool := match p with String "/" _ => true | _ => false end.

Definition path_Clean (p : string) : string :=
  if bool_decide (p = "") then "."
  else
    let out := clean_go (is_rooted p) [] (Split p "/") in
    if is_rooted p then String "/" (Join out "/")
    else if bool_decide (out = []) then "." else Join out "/".

(** [strings.HasSuffix(p, "/")]. *)
Fixpoint slash_ended (p : string) : bool :=
  match p with
  | EmptyString => false
  | String a EmptyString => Ascii.eqb a "/"
  | String _ p => slash_ended p
  end.

(** [cleanPath] of net/http: the trailing slash is kept. *)
Definition cleanPath (p : string) : string :=
  if bool_decide (p = "") then "/"
  else
    let p := if is_rooted p then p else String "/" p in
    let np := path_Clean p in
    if slash_ended p && negb (bool_decide (np = "/")) then np +:+ "/" else np.

(** The decoded segments of a path, after its leading slash. *)
Definition path_segments (p : string) : list string := pathUnescape <$> tl (Split p "/").

(** How [URL.String] writes a path. *)
Definition url_path_byte (a : ascii) : bool :=
  path_unreserved a || Ascii.eqb a "/" || Ascii.eqb a "," || Ascii.eqb a ";".

Fixpoint url_path_String (s : string) : string :=
  match s with
  | EmptyString => EmptyString
  | String a s =>
      if url_path_byte a then String a (url_path_String s)
      else String "%" (String (hex_digit (byteZ a / 16)) (String (hex_digit (byteZ a mod 16)) (url_path_String s)))
  end.

(** ** Cleaning is idempotent *)

(** An element a clean path may have. *)
Definition normal (s : string) : Prop := s ≠ "" ∧ s ≠ "." ∧ s ≠ ".." ∧ sep_free "/" s.

Lemma clean_go_normal out segs :
  Forall normal out → Forall (sep_free "/") segs → Forall normal (clean_go true out segs).
Proof.
  revert out. induction segs as [|s segs IH]; intros out Ho Hs; simpl; [by apply Forall_reverse|].
  apply list.Forall_cons in Hs as [Hf Hs]. repeat case_bool_decide; simpl; try (by apply IH).
  - destruct Ho as [|x out Hx Ho]; [by apply IH|].
    rewrite bool_decide_false by apply Hx. by apply IH.
  - apply IH; [|done]. constructor; [|done]. by split_and!.
Qed.

Lemma clean_go_fixed out segs :
  Forall normal segs → clean_go true out segs = reverse out ++ segs.
Proof.
  intros Hs. revert out. induction Hs as [|s segs (Hn & Hd & Hdd & _) Hs IH]; intros out; simpl; [by rewrite app_nil_r|].
  rewrite !bool_decide_false by done. simpl. rewrite IH. rewrite reverse_cons, <- app_assoc. done.
Qed.

Lemma clean_go_skip out segs tail :
  Forall (λ s, s = "") tail → clean_go true out (segs ++ tail) = clean_go true out segs.
Proof.
  intros Ht. revert out. induction segs as [|s segs IH]; intros out; simpl.
  - induction Ht as [|t tail -> Ht IHt]; simpl; [done|]. exact IHt.
  - rewrite !IH. repeat case_match; auto.
Qed.

(** The path of clean elements, with or without a trailing slash. *)
Definition path_of (out : list string) (slash : bool) : string :=
  Join ("" :: out ++ (if slash then [""] else [])) "/".

Lemma path_of_rooted out slash : is_rooted (path_of out slash) = true ∨ (out = [] ∧ slash = false).
Proof. unfold path_of. destruct out; [destruct slash; auto|]. by left. Qed.

Lemma path_of_root out slash :
  Forall normal out → out ≠ [] → path_of out slash ≠ "/".
Proof.
  intros Ho Hne. destruct Ho as [|x out (Hx & _) _]; [done|]. unfold path_of. simpl.
  destruct x; [done|]. by destruct (out ++ _).
Qed.

Lemma slash_ended_app a b : b ≠ "" → slash_ended (a +:+ b) = slash_ended b.
Proof.
  intros Hb. induction a as [|c a IH]; [done|]. change (String c a +:+ b) with (String c (a +:+ b)). simpl.
  rewrite IH. destruct a, b; done.
Qed.

Lemma slash_ended_free s : sep_free "/" s → slash_ended s = false.
Proof.
  unfold sep_free. induction s as [|a s IH]; simpl; [done|]. intros [Ha Hs]%andb_prop.
  destruct s; [by apply negb_true_iff|by apply IH].
Qed.

Lemma Join_nonempty_r l x : x ≠ "" → Join (l ++ [x]) "/" ≠ "".
Proof.
  intros Hx. destruct l as [|y l]; [done|]. rewrite <- app_comm_cons, Join_cons by (by destruct l). by destruct y.
Qed.

Lemma slash_ended_Join l x : x ≠ "" → sep_free "/" x → slash_ended (Join (l ++ [x]) "/") = false.
Proof.
  intros Hx Hf. induction l as [|y l IH]; [by apply slash_ended_free|].
  rewrite <- app_comm_cons, Join_cons by (by destruct l). rewrite slash_ended_app by done.
  change (slash_ended ("/" +:+ Join (l ++ [x]) "/") = false). by rewrite slash_ended_app by (by apply Join_nonempty_r).
Qed.

Lemma Join_snoc_empty l : l ≠ [] → Join (l ++ [""]) "/" = Join l "/" +:+ "/".
Proof.
  intros Hl. induction l as [|x l IH]; [done|]. destruct (decide (l = [])) as [->|Hne]; [done|].
  rewrite <- app_comm_cons, !Join_cons by (done || by destruct l). rewrite IH by done.
  by rewrite <- str_append_assoc.
Qed.

Lemma path_of_eq out slash :
  out ≠ [] → path_of out slash = if slash then String "/" (Join out "/") +:+ "/" else String "/" (Join out "/").
Proof.
  intros Hne. unfold path_of. rewrite Join_cons by (by destruct out). destruct slash.
  - by rewrite Join_snoc_empty.
  - by rewrite app_nil_r.
Qed.

Lemma slash_ended_path_of out slash : Forall normal out → out ≠ [] → slash_ended (path_of out slash) = slash.
Proof.
  intros Ho Hne. rewrite path_of_eq by done. destruct slash; [by apply slash_ended_app|].
  destruct (exists_last Hne) as (l & x & ->). apply Forall_app in Ho as [_ Hx].
  apply list.Forall_singleton in Hx as (Hx & _ & _ & Hf).
  change (slash_ended ("/" +:+ Join (l ++ [x]) "/") = false).
  rewrite slash_ended_app by (by apply Join_nonempty_r). by apply slash_ended_Join.
Qed.

Lemma path_Clean_rooted p : is_rooted p = true → path_Clean p = String "/" (Join (clean_go true [] (Split p "/")) "/").
Proof. intros Hr. unfold path_Clean. rewrite Hr. by rewrite bool_decide_false by (by intros ->). Qed.

(** What [cleanPath] answers is clean. *)
Lemma cleanPath_form p :
  ∃ out slash, cleanPath p = path_of out slash ∧ Forall normal out ∧ (out = [] → slash = true).
Proof.
  unfold cleanPath. case_bool_decide; [by exists [], true|]. set (p' := if is_rooted p then p else String "/" p).
  assert (is_rooted p' = true) as Hr by (unfold p'; by destruct (is_rooted p) eqn:E).
  rewrite path_Clean_rooted by done. set (out := clean_go true [] (Split p' "/")).
  assert (Forall normal out) as Ho by (apply clean_go_normal; [done|apply Split_free]).
  destruct (decide (out = [])) as [->|Hne]; [exists [], true; by destruct (slash_ended p')|].
  exists out, (slash_ended p'). rewrite path_of_eq by done. split_and!; [|done|done].
  destruct (slash_ended p'); [|done]. rewrite bool_decide_false; [done|].
  pose proof (path_of_root out false Ho Hne) as Hp. by rewrite path_of_eq in Hp.
Qed.

(** A clean path is left as it is. *)
Lemma cleanPath_fixed out slash :
  Forall normal out → (out = [] → slash = true) → cleanPath (path_of out slash) = path_of out slash.
Proof.
  intros Ho Hs. destruct (decide (out = [])) as [->|Hne]; [by rewrite Hs|].
  assert (is_rooted (path_of out slash) = true) as Hr by (by destruct (path_of_rooted out slash) as [?|[? _]]).
  unfold cleanPath. rewrite bool_decide_false by (intros E; by rewrite E in Hr). rewrite Hr.
  rewrite path_Clean_rooted, slash_ended_path_of by done.
  assert (Split (path_of out slash) "/" = "" :: out ++ (if slash then [""] else [])) as ->.
  { apply Split_Join; [done|]. constructor; [done|]. apply Forall_app. split; [|destruct slash; by repeat constructor].
    eapply Forall_impl; [|exact Ho]. by intros ? (_ & _ & _ & ?). }
  simpl. rewrite clean_go_skip by (destruct slash; by repeat constructor). rewrite clean_go_fixed by done. simpl.
  rewrite path_of_eq by done. destruct slash; [|done]. rewrite bool_decide_false; [done|].
  pose proof (path_of_root out false Ho Hne) as Hp. by rewrite path_of_eq in Hp.
Qed.

Theorem cleanPath_idempotent p : cleanPath (cleanPath p) = cleanPath p.
Proof. destruct (cleanPath_form p) as (out & slash & -> & Ho & Hs). by apply cleanPath_fixed. Qed.

(** ** Redirects settle *)

Lemma url_path_String_app s t : url_path_String (s +:+ t) = url_path_String s +:+ url_path_String t.
Proof.
  induction s as [|a s IH]; [done|]. change (String a s +:+ t) with (String a (s +:+ t)). cbn [url_path_String].
  rewrite IH. by destruct (url_path_byte a).
Qed.

Lemma url_path_String_Join l : url_path_String (Join l "/") = Join (url_path_String <$> l) "/".
Proof.
  induction l as [|x l IH]; [done|]. destruct (decide (l = [])) as [->|Hne]; [done|].
  rewrite fmap_cons, !Join_cons by (done || by destruct l). rewrite url_path_String_app, <- IH. done.
Qed.

(** An escaped byte is not a slash. *)
Lemma escaped_byte_free (a : ascii) :
  url_path_byte a = false →
  sep_free "/" (String "%" (String (hex_digit (byteZ a / 16)) (String (hex_digit (byteZ a mod 16)) ""))).
Proof. destruct a as [[] [] [] [] [] [] [] []]; vm_compute; done. Qed.

Lemma url_path_String_free s : sep_free "/" s → sep_free "/" (url_path_String s).
Proof.
  induction s as [|a s IH]; [done|]. unfold sep_free. cbn [str_forallb]. intros [Ha Hs]%andb_prop.
  cbn [url_path_String]. destruct (url_path_byte a) eqn:E; [cbn [str_forallb]; by rewrite Ha, IH|].
  change (sep_free "/" (String "%" (String (hex_digit (byteZ a / 16)) (String (hex_digit (byteZ a mod 16)) "")) +:+ url_path_String s)).
  apply sep_free_app; [by apply escaped_byte_free|by apply IH].
Qed.

Ltac url_path_bytes :=
  cbn [url_path_String];
  repeat match goal with |- context [url_path_byte ?a] => destruct (url_path_byte a) end; try done; congruence.

Lemma url_path_String_dots s : normal s → normal (url_path_String s).
Proof.
  intros (Hn & Hd & Hdd & Hf). split_and!; [..|by apply url_path_String_free].
  - destruct s as [|a s]; url_path_bytes.
  - destruct s as [|a [|b s]]; url_path_bytes.
  - destruct s as [|a [|b [|c s]]]; url_path_bytes.
Qed.

(** The address the multiplexer redirects an unclean path to is clean, so the
    request that follows it is not redirected for its path again. *)
Theorem redirect_settles p : cleanPath (url_path_String (cleanPath p)) = url_path_String (cleanPath p).
Proof.
  destruct (cleanPath_form p) as (out & slash & -> & Ho & Hs). unfold path_of. rewrite url_path_String_Join.
  assert (url_path_String <$> "" :: out ++ (if slash then [""] else []) =
          "" :: (url_path_String <$> out) ++ (if slash then [""] else [])) as ->.
  { rewrite fmap_cons, fmap_app. by destruct slash. }
  apply cleanPath_fixed.
  - apply Forall_fmap. eapply Forall_impl; [|exact Ho]. intros x. apply url_path_String_dots.
  - intros ?%fmap_nil_inv. auto.
Qed.

(** The address is a path of this server: neither [//host] nor [/\host]. *)
Definition local_path (p : string) : bool :=
  match p with
  | String "/" EmptyString => true
  | String "/" (String a _) => negb (Ascii.eqb a "/") && negb (Ascii.eqb a "\")
  | _ => false
  end.

Lemma cleaned_is_local p : local_path (url_path_String (cleanPath p)) = true.
Proof.
  destruct (cleanPath_form p) as (out & slash & -> & Ho & Hs). destruct (decide (out = [])) as [->|Hne]; [by rewrite Hs|].
  rewrite path_of_eq by done. destruct Ho as [|x out (Hx & _ & _ & Hf) _]; [done|]. destruct x as [|a x]; [done|].
  assert (∃ rest, (if slash then String "/" (Join (String a x :: out) "/") +:+ "/" else String "/" (Join (String a x :: out) "/"))
                  = String "/" (String a rest)) as [rest ->] by (destruct slash, out; by eexists).
  unfold sep_free in Hf. simpl in Hf. apply andb_prop in Hf as [Ha _]. cbn [url_path_String].
  destruct (url_path_byte a) eqn:E; simpl; [|done]. rewrite Ha. simpl.
  by destruct (Ascii.eqb_spec a "\") as [->|].
Qed.

(** What the multiplexer does to some paths. *)
Example cleaned_paths :
  cleanPath <$> [""; "/"; "portal"; "/portal//admin/"; "/a/./b/../c"; "/../../admin"; "/admin/%2e%2e/users"] =
  ["/"; "/"; "/portal"; "/portal/admin/"; "/a/c"; "/admin"; "/admin/%2e%2e/users"].
Proof. vm_compute. reflexivity. Qed.
