(* ===== verification/Model.v ===== *)
(** * Domain model

    The structs of [internal/model/model.go]: one record per struct, with the
    source's field names behind a short prefix.  Go pointers to times, strings
    and identifiers are options; [[]string] and [[]uuid.UUID] are lists; [int]
    fields are integers. *)
From S2P Require Import Prelude GoStrings.

(** [model.User]. *)
Record User : Type := mkUser {
  u_ID : uuid;
  u_Email : string;
  u_PasswordHash : string;
  u_Name : string;
  u_Active : bool;
  u_SCIMExternalID : string;
  u_MFAEnabled : bool;
  u_IsAdmin : bool;
  u_PasswordChangedAt : Z;
  u_FailedAttempts : Z;
  u_LockedUntil : option Z;
  u_MustChangePassword : bool;
  u_CreatedAt : Z;
  u_UpdatedAt : Z;
}.

(** [model.Client], an OAuth2/OIDC client registration. *)
Record Client : Type := mkClient {
  c_ID : uuid;
  c_ClientID : string;
  c_ClientSecretHash : string;
  c_Name : string;
  c_RedirectURIs : list string;
  c_Scopes : list string;
  c_Public : bool;
  c_BackchannelLogoutURI : option string;
  c_ShowInPortal : bool;
  c_LaunchURL : string;
  c_BrandColor : string;
  c_IconURL : string;
  c_VisibleToAll : bool;
  c_AllowDeviceGrant : bool;
  c_SecretRotatedAt : Z;
  c_CreatedAt : Z;
}.

(** [model.Grant], an authorization code. *)
Record Grant : Type := mkGrant {
  g_ID : uuid;
  g_UserID : uuid;
  g_ClientID : uuid;
  g_CodeHash : string;
  g_CodeChallenge : string;
  g_Nonce : string;
  g_Scopes : list string;
  g_RedirectURI : string;
  g_ExpiresAt : Z;
  g_UsedAt : option Z;
  g_MFAVerifiedAt : option Z;
  g_AuthTime : Z;
}.

(** [model.Session]: portal cookies and OIDC bearer credentials; [s_UserID] is
    [uuid_nil] for machine sessions, [s_AuthTime] is zero when unknown. *)
Record Session : Type := mkSession {
  s_ID : uuid;
  s_UserID : uuid;
  s_ClientID : uuid;
  s_AccessTokenHash : string;
  s_RefreshTokenHash : string;
  s_Scopes : list string;
  s_AccessExpiresAt : Z;
  s_RefreshExpiresAt : Z;
  s_LastActivityAt : Z;
  s_MFAVerified : bool;
  s_MFAVerifiedAt : option Z;
  s_AuthTime : Z;
  s_CreatedAt : Z;
}.

(** [model.TOTPCredential]; the two byte slices are byte strings. *)
Record TOTPCredential : Type := mkTOTPCredential {
  totp_ID : uuid;
  totp_UserID : uuid;
  totp_EncryptedSecret : string;
  totp_EncryptedDEK : string;
  totp_Enabled : bool;
  totp_CreatedAt : Z;
}.

(** [model.WebAuthnCredential]; [wa_SignCount] is a uint32. *)
Record WebAuthnCredential : Type := mkWebAuthnCredential {
  wa_ID : uuid;
  wa_UserID : uuid;
  wa_CredentialID : string;
  wa_PublicKey : string;
  wa_AAGUID : string;
  wa_SignCount : Z;
  wa_BackupEligible : option bool;
  wa_BackupState : bool;
  wa_DeviceName : string;
  wa_CreatedAt : Z;
  wa_LastUsedAt : Z;
}.

(** [model.SCIMGroup]. *)
Record SCIMGroup : Type := mkSCIMGroup {
  grp_ID : uuid;
  grp_DisplayName : string;
  grp_Members : list uuid;
  grp_CreatedAt : Z;
  grp_UpdatedAt : Z;
}.

(** [model.SigningKey]. *)
Record SigningKey : Type := mkSigningKey {
  sk_ID : uuid;
  sk_EncryptedPrivateKey : string;
  sk_EncryptedDEK : string;
  sk_Algorithm : string;
  sk_KID : string;
  sk_Active : bool;
  sk_CreatedAt : Z;
}.

(** [model.AppIntegrationConfig]; the zero value of a field stands for its
    absence in the stored JSON. *)
Record AppIntegrationConfig : Type := mkAppIntegrationConfig {
  aic_BaseURL : string;
  aic_TimeoutMS : Z;
  aic_AuthMode : string;
}.

(** [model.AppIntegration], an outbound provisioning target. *)
Record AppIntegration : Type := mkAppIntegration {
  ai_ID : uuid;
  ai_Name : string;
  ai_Provider : string;
  ai_Enabled : bool;
  ai_Config : AppIntegrationConfig;
  ai_EncryptedToken : option string;
  ai_EncryptedDEK : option string;
  ai_CreatedAt : Z;
  ai_UpdatedAt : Z;
}.

(** [model.AWSAccount]. *)
Record AWSAccount : Type := mkAWSAccount {
  aa_ID : uuid;
  aa_AccountID : string;
  aa_Alias : string;
  aa_OIDCProviderARN : string;
  aa_CreatedAt : Z;
  aa_UpdatedAt : Z;
}.

(** [model.AWSRole], an assumable IAM role. *)
Record AWSRole : Type := mkAWSRole {
  ar_ID : uuid;
  ar_AccountID : uuid;
  ar_RoleARN : string;
  ar_Slug : string;
  ar_DisplayName : string;
  ar_RequireStepUpMFA : bool;
  ar_MaxSessionDurationSec : Z;
  ar_AllowedRegions : list string;
  ar_CreatedAt : Z;
  ar_UpdatedAt : Z;
}.

(** [model.AWSRoleAssignment]: a group may assume a role. *)
Record AWSRoleAssignment : Type := mkAWSRoleAssignment {
  ara_ID : uuid;
  ara_GroupID : uuid;
  ara_RoleID : uuid;
  ara_CreatedAt : Z;
}.

(** [model.AWSRevokedUser]. *)
Record AWSRevokedUser : Type := mkAWSRevokedUser {
  arv_RoleID : uuid;
  arv_SubUUID : string;
  arv_RevokedAt : Z;
}.

(** [model.DeviceGrant] (RFC 8628). *)
Record DeviceGrant : Type := mkDeviceGrant {
  dg_ID : uuid;
  dg_DeviceCodeHash : string;
  dg_UserCodeHash : string;
  dg_ClientID : uuid;
  dg_Scopes : list string;
  dg_Status : string;
  dg_UserID : option uuid;
  dg_MFAVerified : bool;
  dg_MFAVerifiedAt : option Z;
  dg_ApproverIP : string;
  dg_IntervalSec : Z;
  dg_LastPolledAt : option Z;
  dg_CreatedAt : Z;
  dg_ExpiresAt : Z;
}.

(** ** Device-grant status values *)
Definition DeviceGrantStatusPending : string := "pending".
Definition DeviceGrantStatusApproved : string := "approved".
Definition DeviceGrantStatusDenied : string := "denied".
Definition DeviceGrantStatusRedeemed : string := "redeemed".
Definition DeviceGrantStatusExpired : string := "expired".

(** ** Region lists *)

(** [EncodeRegions] flattens a region list for storage. *)
Definition EncodeRegions (regions : list string) : string := Join regions ",".

(** [DecodeRegions] is its inverse; the empty string decodes to nil. *)
Definition DecodeRegions (s : string) : list string :=
  if bool_decide (s = "") then [] else Split s ",".

#[export] Instance User_eq_dec : EqDecision User.
Proof. solve_decision. Defined.
#[export] Instance Client_eq_dec : EqDecision Client.
Proof. solve_decision. Defined.
#[export] Instance Grant_eq_dec : EqDecision Grant.
Proof. solve_decision. Defined.
#[export] Instance Session_eq_dec : EqDecision Session.
Proof. solve_decision. Defined.
#[export] Instance DeviceGrant_eq_dec : EqDecision DeviceGrant.
Proof. solve_decision. Defined.

(** ** Round trip of the region list *)

Section regions.
#[local] Arguments String.append !_ _ : simpl nomatch.

Definition comma_free : string → Prop := sep_free ",".

Lemma Join_nonempty l : l ≠ [] → Forall (λ w, w ≠ "") l → Join l "," ≠ "".
Proof.
  intros Hne Hl. destruct Hl as [|w l Hw Hl]; [done|]. destruct w; [done|]. by destruct l.
Qed.

(** what [DecodeRegions] reads back is what [EncodeRegions] stored, for
    every list of non-empty region names without a comma (in particular for
    every list [ParseAWSRegions] or the role form can produce); the empty list
    round-trips too. *)
Theorem regions_roundtrip l :
  Forall (λ w, w ≠ "" ∧ comma_free w) l → DecodeRegions (EncodeRegions l) = l.
Proof.
  intros Hl. unfold DecodeRegions, EncodeRegions.
  destruct (decide (l = [])) as [->|Hne]; [done|].
  rewrite bool_decide_false.
  - apply Split_Join; [done|]. eapply Forall_impl; [|exact Hl]; naive_solver.
  - apply Join_nonempty; [done|]. eapply Forall_impl; [|exact Hl]; naive_solver.
Qed.

End regions.

Lemma regions_roundtrip_witness :
  DecodeRegions (EncodeRegions ["us-east-1"; "ap-northeast-1"]) = ["us-east-1"; "ap-northeast-1"].
Proof. apply regions_roundtrip. repeat constructor; discriminate. Defined.
