(* ===== verification/Dialect.v ===== *)
(** * The two databases

    [internal/store] has two implementations of its interface: [sqlite] (the
    embedded database, for tests and single-node use) and [postgres] (the one
    [authd serve] opens).  Their methods run corresponding statements, and what
    differs is what the database makes of them: the resolution of its clock
    and of its timestamp columns, the order of text, and whether a creation
    takes the caller's [CreatedAt] or the column's default.  [Dialect] is that
    difference; the store methods of [SqliteUsers], [SqliteTokens] and
    [SqliteAws] are written over it, and every theorem about a handler holds
    for both values. *)
From S2P Require Import Prelude.

Local Open Scope Z_scope.

Definition Microsecond : Z := 1000.

(** PostgreSQL orders text by the collation of its database, which is not
    part of the program. *)
Inductive Dialect : Type :=
| SQLite
| PostgreSQL (collation : string → string → bool).
Existing Class Dialect.

Section dialect.
  Context {d : Dialect}.

(** The time a statement reads: [CURRENT_TIMESTAMP] has seconds, [NOW()]
    microseconds. *)
Definition stamp (now : Z) : Z :=
  match d with
  | SQLite => current_timestamp now
  | PostgreSQL _ => now `div` Microsecond * Microsecond
  end.

(** What a timestamp column keeps of a [time.Time]: SQLite stores its text with
    all nine digits, a [TIMESTAMPTZ] has microseconds. *)
Definition column (t : Z) : Z :=
  match d with
  | SQLite => t
  | PostgreSQL _ => t `div` Microsecond * Microsecond
  end.

(** The [created_at] of a row whose struct carries one: the SQLite methods
    insert it unless it is the zero time, the PostgreSQL ones leave the column
    to its default. *)
Definition created (now t : Z) : Z :=
  match d with
  | SQLite => if IsZero t then now else t
  | PostgreSQL _ => column now
  end.

(** [ORDER BY] a text column; SQLite compares bytes. *)
Definition text_le (x y : string) : bool :=
  match d with
  | SQLite => String.leb x y
  | PostgreSQL collation => collation x y
  end.

(** Cutting a time down to a unit. *)
Lemma floor_bounds t unit : 0 < unit → t - unit < t `div` unit * unit ≤ t.
Proof. intros. pose proof (Z.mod_pos_bound t unit). pose proof (Z.div_mod t unit). lia. Qed.

Lemma stamp_le now : stamp now ≤ now.
Proof. unfold stamp, current_timestamp. destruct d; by apply floor_bounds. Qed.

Lemma stamp_near now : now - Second < stamp now.
Proof.
  unfold stamp, current_timestamp. destruct d; [by apply floor_bounds|].
  pose proof (floor_bounds now Microsecond). unfold Microsecond, Second in *. lia.
Qed.

Lemma column_le t : column t ≤ t.
Proof. unfold column. destruct d; [done|]. by apply floor_bounds. Qed.

Lemma column_near t : t - Microsecond < column t.
Proof. unfold column. destruct d; [unfold Microsecond; lia|]. by apply floor_bounds. Qed.

Lemma column_mono s t : s ≤ t → column s ≤ column t.
Proof.
  unfold column, Microsecond. destruct d; [done|]. intros. pose proof (Z.div_le_mono s t 1000). lia.
Qed.

(** What a column holds it keeps. *)
Lemma column_idemp t : column (column t) = column t.
Proof. unfold column, Microsecond. destruct d; [done|]. by rewrite Z.div_mul. Qed.

(** A statement's clock fits the columns. *)
Lemma column_stamp now : column (stamp now) = stamp now.
Proof. unfold column, stamp, Microsecond. destruct d; [done|]. by rewrite Z.div_mul. Qed.

(** Go's zero time is never confused with a time of the last two millennia. *)
Lemma column_pos t : Microsecond ≤ t → 0 < column t.
Proof.
  unfold column, Microsecond. destruct d; [lia|]. intros.
  pose proof (Z.div_le_mono 1000 t 1000). rewrite Z.div_same in * by done. lia.
Qed.

End dialect.
