(* ===== verification/Policy.v ===== *)
(** * Policy engine

    [internal/policy]: the [Rule] interface, the seven PCI-DSS rules and the
    engine.  A rule that reads the clock reads it itself, so two rules of one
    evaluation may see different times: a rule takes its own reading as an
    argument, says in which contexts it takes one, and the engine is given a
    clock, the reading of its [i]-th rule.  [PolicyContext.Request] is never
    read by a rule and is left out. *)
From S2P Require Import Prelude GoStrings Model.

Local Open Scope Z_scope.

(** ** rules.go *)

Record PolicyContext : Type := {
  pc_User : option User;
  pc_Client : option Client;
  pc_Scopes : list string;
  pc_Password : string;
  pc_MFAVerified : bool;
  pc_SessionAge : Z;
  pc_LastActivity : Z;
}.

Record PolicyViolation : Type := {
  pv_RuleID : string;
  pv_Description : string;
  pv_Message : string;
}.

(** [PolicyViolation.Error]. *)
Definition pv_Error (v : PolicyViolation) : string := pv_RuleID v +:+ ": " +:+ pv_Message v.

(** The [Rule] interface.  [rule_Clock] says whether [Evaluate] calls
    [time.Now] or [time.Since] on this context; the time given to
    [rule_Evaluate] is what that call returned. *)
Class Rule (R : Type) : Type := {
  rule_ID : R → string;
  rule_Description : R → string;
  rule_Clock : R → PolicyContext → bool;
  rule_Evaluate : Z → R → PolicyContext → option PolicyViolation;
}.

(** A value of the interface type. *)
Record AnyRule : Type := MkRule {
  ar_type : Type;
  ar_rule :: Rule ar_type;
  ar_value : ar_type;
}.
Arguments MkRule {ar_type ar_rule} ar_value.

Definition Evaluate1 (now : Z) (r : AnyRule) (ctx : PolicyContext) : option PolicyViolation :=
  rule_Evaluate now (ar_value r) ctx.

Definition Clock1 (r : AnyRule) (ctx : PolicyContext) : bool := rule_Clock (ar_value r) ctx.

(** ** engine.go *)

Record Engine : Type := New { rules : list AnyRule }.

Definition AddRule (e : Engine) (r : AnyRule) : Engine := New (rules e ++ [r]).

(** The clock as the rules after the first one see it. *)
Definition later (clock : nat → Z) : nat → Z := λ i, clock (S i).

Fixpoint evaluate_go (clock : nat → Z) (rs : list AnyRule) (ctx : PolicyContext)
    (violations : list PolicyViolation) : list PolicyViolation :=
  match rs with
  | [] => violations
  | r :: rs =>
      match Evaluate1 (clock 0%nat) r ctx with
      | Some v => evaluate_go (later clock) rs ctx (violations ++ [v])
      | None => evaluate_go (later clock) rs ctx violations
      end
  end.

(** [Engine.Evaluate] runs all rules and returns every violation. *)
Definition Evaluate (clock : nat → Z) (e : Engine) (ctx : PolicyContext) : list PolicyViolation :=
  evaluate_go clock (rules e) ctx [].

Fixpoint first_go (clock : nat → Z) (rs : list AnyRule) (ctx : PolicyContext) : option PolicyViolation :=
  match rs with
  | [] => None
  | r :: rs =>
      match Evaluate1 (clock 0%nat) r ctx with
      | Some v => Some v
      | None => first_go (later clock) rs ctx
      end
  end.

(** [Engine.First] returns the first violation. *)
Definition First (clock : nat → Z) (e : Engine) (ctx : PolicyContext) : option PolicyViolation :=
  first_go clock (rules e) ctx.

(** The readings of the clock that running all the rules takes. *)
Fixpoint readings (clock : nat → Z) (rs : list AnyRule) (ctx : PolicyContext) : list Z :=
  match rs with
  | [] => []
  | r :: rs => (if Clock1 r ctx then [clock 0%nat] else []) ++ readings (later clock) rs ctx
  end.

(** ** pci.go *)

Section pci.
  Context `{U : UnicodeTables}.

Definition containsScope (scopes : list string) (target : string) : bool :=
  existsb (λ s, EqualFold s target) scopes.

(** PCI 8.3.6 *)
Record PasswordComplexityRule : Type := MkPasswordComplexityRule {}.

Record char_classes : Type := {
  hasUpper : bool; hasLower : bool; hasDigit : bool; hasSpecial : bool
}.

(** One iteration of the loop over the password's runes. *)
Definition classify (f : char_classes) (c : Z) : char_classes :=
  if IsUpper c then
    {| hasUpper := true; hasLower := hasLower f; hasDigit := hasDigit f; hasSpecial := hasSpecial f |}
  else if IsLower c then
    {| hasUpper := hasUpper f; hasLower := true; hasDigit := hasDigit f; hasSpecial := hasSpecial f |}
  else if IsDigit c then
    {| hasUpper := hasUpper f; hasLower := hasLower f; hasDigit := true; hasSpecial := hasSpecial f |}
  else if negb (IsLetter c) && negb (IsDigit c) then
    {| hasUpper := hasUpper f; hasLower := hasLower f; hasDigit := hasDigit f; hasSpecial := true |}
  else f.

Definition no_classes : char_classes :=
  {| hasUpper := false; hasLower := false; hasDigit := false; hasSpecial := false |}.

Definition PasswordComplexity_Evaluate (id desc : string) (ctx : PolicyContext) : option PolicyViolation :=
  let p := pc_Password ctx in
  if bool_decide (p = "") then None
  else if Z.of_nat (String.length p) <? 12 then
    Some {| pv_RuleID := id; pv_Description := desc;
            pv_Message := "password must be at least 12 characters" |}
  else
    let f := fold_left classify (runes p) no_classes in
    if negb (hasUpper f) || negb (hasLower f) || negb (hasDigit f) || negb (hasSpecial f) then
      Some {| pv_RuleID := id; pv_Description := desc;
              pv_Message := "password must contain uppercase, lowercase, digit, and special character" |}
    else None.

#[export] Instance PasswordComplexity_rule : Rule PasswordComplexityRule := {|
  rule_ID _ := "PCI-8.3.6";
  rule_Description _ := "Password must be ≥12 chars with mixed case, digit, and special character";
  rule_Clock _ _ := false;
  rule_Evaluate _ _ ctx := PasswordComplexity_Evaluate "PCI-8.3.6"
    "Password must be ≥12 chars with mixed case, digit, and special character" ctx
|}.

(** PCI 8.3.9; the product with [24*time.Hour] is a 64-bit one. *)
Record PasswordAgeRule : Type := MkPasswordAgeRule { par_MaxDays : Z }.

Definition PasswordAge_Evaluate (id desc : string) (now : Z) (r : PasswordAgeRule)
    (ctx : PolicyContext) : option PolicyViolation :=
  match pc_User ctx with
  | None => None
  | Some u =>
      if u_MFAEnabled u then None
      else
        let age := time_Sub now (u_PasswordChangedAt u) in
        if age >? int64_wrap (int64_wrap (par_MaxDays r * 24) * Hour) then
          Some {| pv_RuleID := id; pv_Description := desc;
                  pv_Message := "password has expired; please reset your password" |}
        else None
  end.

#[export] Instance PasswordAge_rule : Rule PasswordAgeRule := {|
  rule_ID _ := "PCI-8.3.9";
  rule_Description _ := "Password must be changed at least every 90 days when MFA is not enabled";
  rule_Clock _ ctx := match pc_User ctx with Some u => negb (u_MFAEnabled u) | None => false end;
  rule_Evaluate now r ctx := PasswordAge_Evaluate "PCI-8.3.9"
    "Password must be changed at least every 90 days when MFA is not enabled" now r ctx
|}.

(** PCI 8.3.4 *)
Record AccountLockoutRule : Type := MkAccountLockoutRule { alr_MaxFailures : Z; alr_LockDuration : Z }.

Definition AccountLockout_Evaluate (id desc : string) (now : Z) (ctx : PolicyContext) : option PolicyViolation :=
  match pc_User ctx with
  | None => None
  | Some u =>
      match u_LockedUntil u with
      | Some t =>
          if now <? t then
            Some {| pv_RuleID := id; pv_Description := desc;
                    pv_Message := "account is temporarily locked; try again later" |}
          else None
      | None => None
      end
  end.

#[export] Instance AccountLockout_rule : Rule AccountLockoutRule := {|
  rule_ID _ := "PCI-8.3.4";
  rule_Description _ := "Account is locked after 10 consecutive failures";
  rule_Clock _ ctx :=
    match pc_User ctx with Some u => bool_decide (is_Some (u_LockedUntil u)) | None => false end;
  rule_Evaluate now _ ctx := AccountLockout_Evaluate "PCI-8.3.4"
    "Account is locked after 10 consecutive failures" now ctx
|}.

(** PCI 8.4.2 *)
Record MFARequiredRule : Type := MkMFARequiredRule {}.

Definition MFARequired_Evaluate (id desc : string) (ctx : PolicyContext) : option PolicyViolation :=
  match pc_Client ctx with
  | None => None
  | Some c =>
      if c_Public c then None
      else if negb (bool_decide (pc_Password ctx = "")) then
        match pc_User ctx with
        | Some u =>
            if u_MFAEnabled u then None
            else Some {| pv_RuleID := id; pv_Description := desc;
              pv_Message := "This client requires MFA. Enroll TOTP or a security key under /portal/account, then sign in again." |}
        | None => Some {| pv_RuleID := id; pv_Description := desc;
              pv_Message := "This client requires MFA. Enroll TOTP or a security key under /portal/account, then sign in again." |}
        end
      else if negb (pc_MFAVerified ctx) then
        Some {| pv_RuleID := id; pv_Description := desc; pv_Message := "MFA verification required" |}
      else None
  end.

#[export] Instance MFARequired_rule : Rule MFARequiredRule := {|
  rule_ID _ := "PCI-8.4.2";
  rule_Description _ := "MFA must be verified before tokens are issued to confidential clients";
  rule_Clock _ _ := false;
  rule_Evaluate _ _ ctx := MFARequired_Evaluate "PCI-8.4.2"
    "MFA must be verified before tokens are issued to confidential clients" ctx
|}.

(** PCI 8.2.8, idle timeout *)
Record SessionIdleTimeoutRule : Type := MkSessionIdleTimeoutRule { sir_MaxIdle : Z; sir_CDEScope : string }.

Definition SessionIdleTimeout_Evaluate (id desc : string) (r : SessionIdleTimeoutRule)
    (ctx : PolicyContext) : option PolicyViolation :=
  if negb (containsScope (pc_Scopes ctx) (sir_CDEScope r)) then None
  else if pc_LastActivity ctx >? sir_MaxIdle r then
    Some {| pv_RuleID := id; pv_Description := desc;
            pv_Message := "session has exceeded the 15-minute idle timeout" |}
  else None.

#[export] Instance SessionIdleTimeout_rule : Rule SessionIdleTimeoutRule := {|
  rule_ID _ := "PCI-8.2.8-idle";
  rule_Description _ := "Sessions accessing CDE must timeout after 15 minutes of inactivity";
  rule_Clock _ _ := false;
  rule_Evaluate _ r ctx := SessionIdleTimeout_Evaluate "PCI-8.2.8-idle"
    "Sessions accessing CDE must timeout after 15 minutes of inactivity" r ctx
|}.

(** PCI 8.2.8, token lifetime: never blocks *)
Record TokenLifetimeRule : Type := MkTokenLifetimeRule { tlr_MaxAccess : Z; tlr_MaxRefresh : Z }.

#[export] Instance TokenLifetime_rule : Rule TokenLifetimeRule := {|
  rule_ID _ := "PCI-8.2.8-lifetime";
  rule_Description _ := "Access tokens max 1h; refresh tokens max 24h";
  rule_Clock _ _ := false;
  rule_Evaluate _ _ _ := None
|}.

(** PCI 8.6.1 *)
Record ClientSecretAgeRule : Type := MkClientSecretAgeRule { csr_MaxAge : Z }.

Definition ClientSecretAge_Evaluate (id desc : string) (now : Z) (r : ClientSecretAgeRule)
    (ctx : PolicyContext) : option PolicyViolation :=
  match pc_Client ctx with
  | None => None
  | Some c =>
      if c_Public c then None
      else if time_Sub now (c_SecretRotatedAt c) >? csr_MaxAge r then
        Some {| pv_RuleID := id; pv_Description := desc;
                pv_Message := "client secret has not been rotated in over 12 months" |}
      else None
  end.

#[export] Instance ClientSecretAge_rule : Rule ClientSecretAgeRule := {|
  rule_ID _ := "PCI-8.6.1";
  rule_Description _ := "Machine client secrets must be rotated at least every 12 months";
  rule_Clock _ ctx := match pc_Client ctx with Some c => negb (c_Public c) | None => false end;
  rule_Evaluate now r ctx := ClientSecretAge_Evaluate "PCI-8.6.1"
    "Machine client secrets must be rotated at least every 12 months" now r ctx
|}.

Definition DefaultPCIRules : list AnyRule :=
  [ MkRule MkPasswordComplexityRule;
    MkRule (MkPasswordAgeRule 90);
    MkRule (MkAccountLockoutRule 10 (30 * Minute));
    MkRule MkMFARequiredRule;
    MkRule (MkSessionIdleTimeoutRule (15 * Minute) "cde");
    MkRule (MkTokenLifetimeRule Hour (24 * Hour));
    MkRule (MkClientSecretAgeRule (365 * 24 * Hour)) ].

End pci.

(** ** The engine *)

(** The rules paired with the reading each one takes. *)
Fixpoint timed (clock : nat → Z) (rs : list AnyRule) : list (Z * AnyRule) :=
  match rs with [] => [] | r :: rs => (clock 0%nat, r) :: timed (later clock) rs end.

Lemma evaluate_go_omap clock rs ctx vs :
  evaluate_go clock rs ctx vs = vs ++ omap (λ tr, Evaluate1 tr.1 tr.2 ctx) (timed clock rs).
Proof.
  revert clock vs. induction rs as [|r rs IH]; intros clock vs; simpl; [by rewrite app_nil_r|].
  destruct (Evaluate1 _ r ctx); rewrite IH; [|done]. by rewrite <- (assoc_L (++)).
Qed.

Lemma first_go_None clock rs ctx :
  first_go clock rs ctx = None ↔ Forall (λ tr, Evaluate1 tr.1 tr.2 ctx = None) (timed clock rs).
Proof.
  revert clock. induction rs as [|r rs IH]; intros clock; simpl; [done|].
  rewrite Forall_cons_iff. simpl. destruct (Evaluate1 _ r ctx); naive_solver.
Qed.

(** The engine's two entry points agree: [First] is the head of what
    [Evaluate] collects, for any set of rules and any readings of the clock. *)
Lemma First_is_head clock e ctx : First clock e ctx = head (Evaluate clock e ctx).
Proof.
  unfold First, Evaluate. rewrite evaluate_go_omap. simpl.
  generalize clock. induction (rules e) as [|r rs IH]; intros c; simpl; [done|].
  by destruct (Evaluate1 _ r ctx).
Qed.

(** A rule that takes no reading does not depend on the time it is given. *)
Lemma pci_clock_irrelevant `{U : UnicodeTables} r ctx t t' :
  r ∈ DefaultPCIRules → Clock1 r ctx = false → Evaluate1 t r ctx = Evaluate1 t' r ctx.
Proof.
  unfold DefaultPCIRules, Clock1, Evaluate1. rewrite !elem_of_cons, elem_of_nil.
  intros [->|[->|[->|[->|[->|[->|[->|[]]]]]]]]; simpl; try done.
  - unfold PasswordAge_Evaluate. destruct (pc_User ctx) as [u|]; [|done]. by destruct (u_MFAEnabled u).
  - unfold AccountLockout_Evaluate. destruct (pc_User ctx) as [u|]; [|done].
    destruct (u_LockedUntil u); [|done]. by rewrite bool_decide_eq_true_2 by eauto.
  - unfold ClientSecretAge_Evaluate. destruct (pc_Client ctx) as [c|]; [|done]. by destruct (c_Public c).
Qed.

(** ** What the PCI rules accept *)

Section accept.
  Context `{U : UnicodeTables}.

(** PCI 8.3.6 as a property of the password. *)
Definition strong_password (p : string) : Prop :=
  12 ≤ Z.of_nat (String.length p) ∧
  (∃ c, c ∈ runes p ∧ IsUpper c = true) ∧
  (∃ c, c ∈ runes p ∧ IsUpper c = false ∧ IsLower c = true) ∧
  (∃ c, c ∈ runes p ∧ IsUpper c = false ∧ IsLower c = false ∧ IsDigit c = true) ∧
  (∃ c, c ∈ runes p ∧ IsUpper c = false ∧ IsLower c = false ∧ IsDigit c = false ∧
        IsLetter c = false).

(** The account is not locked at [now] (PCI 8.3.4). *)
Definition not_locked (now : Z) (u : User) : Prop :=
  ∀ t, u_LockedUntil u = Some t → t ≤ now.

(** The password is recent enough, or MFA stands in for it (PCI 8.3.9). *)
Definition password_fresh (now : Z) (u : User) : Prop :=
  u_MFAEnabled u = true ∨ now - u_PasswordChangedAt u ≤ 90 * 24 * Hour.

(** A confidential client's tokens need MFA: enrolment at the password step,
    a verified challenge otherwise (PCI 8.4.2). *)
Definition mfa_satisfied (ctx : PolicyContext) : Prop :=
  (pc_Password ctx ≠ "" ∧ ∃ u, pc_User ctx = Some u ∧ u_MFAEnabled u = true) ∨
  (pc_Password ctx = "" ∧ pc_MFAVerified ctx = true).

(** A confidential client: MFA, and a secret no older than a year (PCI 8.4.2
    and 8.6.1). *)
Definition client_ok (now : Z) (ctx : PolicyContext) (c : Client) : Prop :=
  c_Public c = true ∨
  (mfa_satisfied ctx ∧ now - c_SecretRotatedAt c ≤ 365 * 24 * Hour).

(** The context with other scopes. *)
Definition pc_with_Scopes (scopes : list string) (ctx : PolicyContext) : PolicyContext :=
  {| pc_User := pc_User ctx; pc_Client := pc_Client ctx; pc_Scopes := scopes;
     pc_Password := pc_Password ctx; pc_MFAVerified := pc_MFAVerified ctx;
     pc_SessionAge := pc_SessionAge ctx; pc_LastActivity := pc_LastActivity ctx |}.

(** The whole PCI policy, stated without the rules: [ageAt], [lockAt] and
    [secretAt] are the times at which the age of the password, the lock and the
    age of the secret are looked at. *)
Definition pci_compliant_at (ageAt lockAt secretAt : Z) (ctx : PolicyContext) : Prop :=
  (pc_Password ctx = "" ∨ strong_password (pc_Password ctx)) ∧
  (∀ u, pc_User ctx = Some u → password_fresh ageAt u ∧ not_locked lockAt u) ∧
  (∀ c, pc_Client ctx = Some c → client_ok secretAt ctx c) ∧
  (containsScope (pc_Scopes ctx) "cde" = true → pc_LastActivity ctx ≤ 15 * Minute).

Definition has_special (c : Z) : bool :=
  negb (IsUpper c) && negb (IsLower c) && negb (IsDigit c) && negb (IsLetter c).

Lemma classify_fold cs f :
  fold_left classify cs f =
  {| hasUpper := hasUpper f || existsb IsUpper cs;
     hasLower := hasLower f || existsb (λ c, negb (IsUpper c) && IsLower c) cs;
     hasDigit := hasDigit f || existsb (λ c, negb (IsUpper c) && negb (IsLower c) && IsDigit c) cs;
     hasSpecial := hasSpecial f || existsb has_special cs |}.
Proof.
  revert f. induction cs as [|c cs IH]; intros [h1 h2 h3 h4]; simpl.
  - by rewrite !orb_false_r.
  - rewrite IH. unfold classify, has_special.
    destruct (IsUpper c) eqn:?, (IsLower c) eqn:?, (IsDigit c) eqn:?, (IsLetter c) eqn:?; simpl;
      f_equal; by rewrite ?orb_true_r, ?orb_true_l.
Qed.

Lemma existsb_elem {A} (f : A → bool) l : existsb f l = true ↔ ∃ x, x ∈ l ∧ f x = true.
Proof. rewrite existsb_exists. by setoid_rewrite list_elem_of_In. Qed.

Lemma PasswordComplexity_accepts id desc ctx :
  PasswordComplexity_Evaluate id desc ctx = None ↔
  pc_Password ctx = "" ∨ strong_password (pc_Password ctx).
Proof.
  unfold PasswordComplexity_Evaluate, strong_password. rewrite classify_fold. simpl.
  case_bool_decide as Hp; [naive_solver|].
  destruct (Z.ltb_spec (Z.of_nat (String.length (pc_Password ctx))) 12); [naive_solver lia|].
  set (rs := runes (pc_Password ctx)).
  assert (∀ f, (∃ c, c ∈ rs ∧ f c = true) ↔ existsb f rs = true) as HE
    by (intros; by rewrite existsb_elem).
  transitivity (existsb IsUpper rs && existsb (λ c, negb (IsUpper c) && IsLower c) rs
    && existsb (λ c, negb (IsUpper c) && negb (IsLower c) && IsDigit c) rs
    && existsb has_special rs = true).
  { repeat case_match; rewrite ?orb_true_iff, ?negb_true_iff, ?orb_false_iff, ?negb_false_iff in *;
      rewrite ?andb_true_iff; intuition congruence. }
  rewrite !andb_true_iff, <- !HE. unfold has_special.
  setoid_rewrite andb_true_iff. setoid_rewrite andb_true_iff. setoid_rewrite andb_true_iff.
  setoid_rewrite negb_true_iff. naive_solver.
Qed.

Lemma time_Sub_gtb t u d : minDuration ≤ d < maxDuration → (time_Sub t u >? d) = (t - u >? d).
Proof.
  unfold time_Sub. intros. rewrite !Z.gtb_ltb.
  destruct (Z.ltb_spec d (t - u)), (Z.ltb_spec d (Z.max minDuration (Z.min maxDuration (t - u))));
    try done; lia.
Qed.

Lemma PasswordAge_accepts id desc now ctx :
  PasswordAge_Evaluate id desc now (MkPasswordAgeRule 90) ctx = None ↔
  (∀ u, pc_User ctx = Some u → password_fresh now u).
Proof.
  unfold PasswordAge_Evaluate, password_fresh.
  change (int64_wrap (int64_wrap (par_MaxDays (MkPasswordAgeRule 90) * 24) * Hour))
    with (90 * 24 * Hour).
  destruct (pc_User ctx) as [u|]; [rewrite forall_Some_eq|naive_solver].
  destruct (u_MFAEnabled u) eqn:?; [naive_solver|].
  rewrite time_Sub_gtb by (vm_compute; split; congruence). rewrite Z.gtb_ltb.
  destruct (Z.ltb_spec (90 * 24 * Hour) (now - u_PasswordChangedAt u)); naive_solver lia.
Qed.

Lemma AccountLockout_accepts id desc now ctx :
  AccountLockout_Evaluate id desc now ctx = None ↔
  (∀ u, pc_User ctx = Some u → not_locked now u).
Proof.
  unfold AccountLockout_Evaluate, not_locked.
  destruct (pc_User ctx) as [u|]; [rewrite forall_Some_eq|naive_solver].
  destruct (u_LockedUntil u) as [t|] eqn:?; [rewrite forall_Some_eq|naive_solver].
  destruct (Z.ltb_spec now t); naive_solver lia.
Qed.

Lemma client_rules_accept id desc id' desc' now ctx :
  (MFARequired_Evaluate id desc ctx = None ∧
   ClientSecretAge_Evaluate id' desc' now (MkClientSecretAgeRule (365 * 24 * Hour)) ctx = None) ↔
  (∀ c, pc_Client ctx = Some c → client_ok now ctx c).
Proof.
  unfold MFARequired_Evaluate, ClientSecretAge_Evaluate, client_ok, mfa_satisfied.
  destruct (pc_Client ctx) as [c|]; [rewrite forall_Some_eq|naive_solver].
  destruct (c_Public c) eqn:?; [naive_solver|]. simpl.
  rewrite time_Sub_gtb by (vm_compute; split; congruence). rewrite Z.gtb_ltb.
  destruct (Z.ltb_spec (365 * 24 * Hour) (now - c_SecretRotatedAt c));
    case_bool_decide; simpl; destruct (pc_MFAVerified ctx), (pc_User ctx) as [u|];
    repeat case_match; try naive_solver lia.
  all: split; [by intros [? _]|intros [?|[[[_ (u0 & [= <-] & ?)]|[? _]] _]]; congruence].
Qed.

Lemma SessionIdleTimeout_accepts id desc ctx :
  SessionIdleTimeout_Evaluate id desc (MkSessionIdleTimeoutRule (15 * Minute) "cde") ctx = None ↔
  (containsScope (pc_Scopes ctx) "cde" = true → pc_LastActivity ctx ≤ 15 * Minute).
Proof.
  unfold SessionIdleTimeout_Evaluate. simpl sir_CDEScope. simpl sir_MaxIdle.
  destruct (containsScope (pc_Scopes ctx) "cde"); simpl; [|naive_solver].
  rewrite Z.gtb_ltb. destruct (Z.ltb_spec (15 * Minute) (pc_LastActivity ctx)); naive_solver lia.
Qed.

Lemma default_policy_iff clock ctx :
  First clock (New DefaultPCIRules) ctx = None ↔
  pci_compliant_at (clock 1%nat) (clock 2%nat) (clock 6%nat) ctx.
Proof.
  unfold First, pci_compliant_at. rewrite first_go_None. unfold DefaultPCIRules; cbn [rules timed].
  rewrite !Forall_cons_iff. unfold Evaluate1, later; simpl rule_Evaluate.
  rewrite PasswordComplexity_accepts, PasswordAge_accepts, AccountLockout_accepts,
    SessionIdleTimeout_accepts.
  rewrite <- (client_rules_accept "PCI-8.4.2" "MFA must be verified before tokens are issued to confidential clients"
    "PCI-8.6.1" "Machine client secrets must be rotated at least every 12 months").
  naive_solver.
Qed.

(** C36: the engine loaded with the default rules accepts a context exactly
    when it complies with the PCI policy: a strong password (if one is being
    checked), a password younger than 90 days unless MFA is enabled, no lock
    in force, MFA and a fresh secret for confidential clients, and activity
    within 15 minutes for the cde scope; each rule judges by its own reading of
    the clock.  The saturation of [time.Since] and the 64-bit products in the
    rules never change the verdict.

    The policy stated here is the one the code enforces, which differs from its
    comments and the README in three places: "12 characters" are 12 bytes
    ([len(p)]); no [offline_access] scope exempts a confidential client from
    MFA, although the comment on [MFARequiredRule] says so (the second
    conjunct: the verdict of a context without the cde scope does not depend on
    its scopes); and a secret older than a year is refused, not only flagged
    (the third conjunct). *)
Theorem default_policy_complete clock ctx :
  (First clock (New DefaultPCIRules) ctx = None ↔
   pci_compliant_at (clock 1%nat) (clock 2%nat) (clock 6%nat) ctx) ∧
  (∀ scopes, containsScope (pc_Scopes ctx) "cde" = false → containsScope scopes "cde" = false →
     First clock (New DefaultPCIRules) (pc_with_Scopes scopes ctx) = First clock (New DefaultPCIRules) ctx) ∧
  (∀ c, pc_Client ctx = Some c → c_Public c = false →
     365 * 24 * Hour < clock 6%nat - c_SecretRotatedAt c →
     First clock (New DefaultPCIRules) ctx ≠ None).
Proof.
  split; [apply default_policy_iff|]. split.
  - intros scopes H H'. unfold First, DefaultPCIRules; cbn [rules first_go]. unfold Evaluate1; simpl rule_Evaluate.
    unfold SessionIdleTimeout_Evaluate; simpl sir_CDEScope; simpl pc_Scopes. by rewrite H, H'.
  - intros c Hc Hp Hage. rewrite default_policy_iff. intros (_ & _ & Hcl & _).
    destruct (Hcl _ Hc) as [?|[_ ?]]; [congruence|lia].
Qed.

End accept.
