(* ===== verification/Tables.v ===== *)
(** * Relational schema

    The tables that the embedded migrations of [internal/store/sqlite] build,
    as finite maps from primary keys to rows.  Nullable columns are options.
    A table whose columns are exactly the fields of a domain struct holds that
    struct; the others have a row type of their own ([scanSession] and its
    siblings in the store files turn rows into structs).  The second half of
    the file states the schema's constraints (primary keys, UNIQUE columns,
    foreign keys) for any table, with the lemmas that insertion, update and
    deletion preserve them. *)
From stdpp Require Import sorting.
From S2P Require Import Prelude GoStrings Model.

(** A row of [grants]. *)
Record grant_row : Type := mk_grant_row {
  gr_id : uuid;
  gr_user_id : uuid;
  gr_client_id : uuid;
  gr_code_hash : string;
  gr_code_challenge : string;
  gr_nonce : string;
  gr_scopes : list string;
  gr_redirect_uri : string;
  gr_expires_at : Z;
  gr_used_at : option Z;
  gr_mfa_verified_at : option Z;
  gr_auth_time : option Z;
}.

(** A row of [sessions]; [user_id] is NULL for machine sessions. *)
Record session_row : Type := mk_session_row {
  sr_id : uuid;
  sr_user_id : option uuid;
  sr_client_id : uuid;
  sr_access_token_hash : string;
  sr_refresh_token_hash : string;
  sr_scopes : list string;
  sr_access_expires_at : Z;
  sr_refresh_expires_at : Z;
  sr_last_activity_at : Z;
  sr_mfa_verified : bool;
  sr_mfa_verified_at : option Z;
  sr_auth_time : option Z;
  sr_created_at : Z;
}.

(** A row of [webauthn_sessions]. *)
Record wa_session_row : Type := mk_wa_session_row {
  wsr_user_id : uuid;
  wsr_session_data : string;
  wsr_purpose : string;
  wsr_expires_at : Z;
  wsr_created_at : Z;
}.

(** A row of [scim_groups]. *)
Record group_row : Type := mk_group_row {
  gpr_id : uuid;
  gpr_display_name : string;
  gpr_created_at : Z;
  gpr_updated_at : Z;
}.

(** A row of [device_grants]; [scopes] is space-separated text. *)
Record device_row : Type := mk_device_row {
  dr_id : uuid;
  dr_device_code_hash : string;
  dr_user_code_hash : string;
  dr_client_id : uuid;
  dr_scopes : string;
  dr_status : string;
  dr_user_id : option uuid;
  dr_mfa_verified : bool;
  dr_mfa_verified_at : option Z;
  dr_approver_ip : string;
  dr_interval_sec : Z;
  dr_last_polled_at : option Z;
  dr_created_at : Z;
  dr_expires_at : Z;
}.

(** A row of [aws_roles]; [allowed_regions] is comma-separated text. *)
Record role_row : Type := mk_role_row {
  rr_id : uuid;
  rr_account_id : uuid;
  rr_role_arn : string;
  rr_slug : string;
  rr_display_name : string;
  rr_require_step_up_mfa : bool;
  rr_max_session_duration_sec : Z;
  rr_allowed_regions : string;
  rr_created_at : Z;
  rr_updated_at : Z;
}.

(** ** Column updates *)

Definition user_set_profile (name : string) (active : bool) (now : Z) (r : User) : User :=
  {| u_ID := u_ID r;
     u_Email := u_Email r;
     u_PasswordHash := u_PasswordHash r;
     u_Name := name;
     u_Active := active;
     u_SCIMExternalID := u_SCIMExternalID r;
     u_MFAEnabled := u_MFAEnabled r;
     u_IsAdmin := u_IsAdmin r;
     u_PasswordChangedAt := u_PasswordChangedAt r;
     u_FailedAttempts := u_FailedAttempts r;
     u_LockedUntil := u_LockedUntil r;
     u_MustChangePassword := u_MustChangePassword r;
     u_CreatedAt := u_CreatedAt r;
     u_UpdatedAt := now; |}.

Definition user_set_password (hash : string) (now : Z) (r : User) : User :=
  {| u_ID := u_ID r;
     u_Email := u_Email r;
     u_PasswordHash := hash;
     u_Name := u_Name r;
     u_Active := u_Active r;
     u_SCIMExternalID := u_SCIMExternalID r;
     u_MFAEnabled := u_MFAEnabled r;
     u_IsAdmin := u_IsAdmin r;
     u_PasswordChangedAt := now;
     u_FailedAttempts := u_FailedAttempts r;
     u_LockedUntil := u_LockedUntil r;
     u_MustChangePassword := false;
     u_CreatedAt := u_CreatedAt r;
     u_UpdatedAt := now; |}.

Definition user_set_must_change (flag : bool) (now : Z) (r : User) : User :=
  {| u_ID := u_ID r;
     u_Email := u_Email r;
     u_PasswordHash := u_PasswordHash r;
     u_Name := u_Name r;
     u_Active := u_Active r;
     u_SCIMExternalID := u_SCIMExternalID r;
     u_MFAEnabled := u_MFAEnabled r;
     u_IsAdmin := u_IsAdmin r;
     u_PasswordChangedAt := u_PasswordChangedAt r;
     u_FailedAttempts := u_FailedAttempts r;
     u_LockedUntil := u_LockedUntil r;
     u_MustChangePassword := flag;
     u_CreatedAt := u_CreatedAt r;
     u_UpdatedAt := now; |}.

Definition user_set_mfa (enabled : bool) (now : Z) (r : User) : User :=
  {| u_ID := u_ID r;
     u_Email := u_Email r;
     u_PasswordHash := u_PasswordHash r;
     u_Name := u_Name r;
     u_Active := u_Active r;
     u_SCIMExternalID := u_SCIMExternalID r;
     u_MFAEnabled := enabled;
     u_IsAdmin := u_IsAdmin r;
     u_PasswordChangedAt := u_PasswordChangedAt r;
     u_FailedAttempts := u_FailedAttempts r;
     u_LockedUntil := u_LockedUntil r;
     u_MustChangePassword := u_MustChangePassword r;
     u_CreatedAt := u_CreatedAt r;
     u_UpdatedAt := now; |}.

Definition user_set_failed (count : Z) (locked : option Z) (now : Z) (r : User) : User :=
  {| u_ID := u_ID r;
     u_Email := u_Email r;
     u_PasswordHash := u_PasswordHash r;
     u_Name := u_Name r;
     u_Active := u_Active r;
     u_SCIMExternalID := u_SCIMExternalID r;
     u_MFAEnabled := u_MFAEnabled r;
     u_IsAdmin := u_IsAdmin r;
     u_PasswordChangedAt := u_PasswordChangedAt r;
     u_FailedAttempts := count;
     u_LockedUntil := locked;
     u_MustChangePassword := u_MustChangePassword r;
     u_CreatedAt := u_CreatedAt r;
     u_UpdatedAt := now; |}.

Definition user_set_active (active : bool) (now : Z) (r : User) : User :=
  {| u_ID := u_ID r;
     u_Email := u_Email r;
     u_PasswordHash := u_PasswordHash r;
     u_Name := u_Name r;
     u_Active := active;
     u_SCIMExternalID := u_SCIMExternalID r;
     u_MFAEnabled := u_MFAEnabled r;
     u_IsAdmin := u_IsAdmin r;
     u_PasswordChangedAt := u_PasswordChangedAt r;
     u_FailedAttempts := u_FailedAttempts r;
     u_LockedUntil := u_LockedUntil r;
     u_MustChangePassword := u_MustChangePassword r;
     u_CreatedAt := u_CreatedAt r;
     u_UpdatedAt := now; |}.

Definition user_set_scim (ext : string) (now : Z) (r : User) : User :=
  {| u_ID := u_ID r;
     u_Email := u_Email r;
     u_PasswordHash := u_PasswordHash r;
     u_Name := u_Name r;
     u_Active := u_Active r;
     u_SCIMExternalID := ext;
     u_MFAEnabled := u_MFAEnabled r;
     u_IsAdmin := u_IsAdmin r;
     u_PasswordChangedAt := u_PasswordChangedAt r;
     u_FailedAttempts := u_FailedAttempts r;
     u_LockedUntil := u_LockedUntil r;
     u_MustChangePassword := u_MustChangePassword r;
     u_CreatedAt := u_CreatedAt r;
     u_UpdatedAt := now; |}.

Definition user_set_admin (isAdmin : bool) (now : Z) (r : User) : User :=
  {| u_ID := u_ID r;
     u_Email := u_Email r;
     u_PasswordHash := u_PasswordHash r;
     u_Name := u_Name r;
     u_Active := u_Active r;
     u_SCIMExternalID := u_SCIMExternalID r;
     u_MFAEnabled := u_MFAEnabled r;
     u_IsAdmin := isAdmin;
     u_PasswordChangedAt := u_PasswordChangedAt r;
     u_FailedAttempts := u_FailedAttempts r;
     u_LockedUntil := u_LockedUntil r;
     u_MustChangePassword := u_MustChangePassword r;
     u_CreatedAt := u_CreatedAt r;
     u_UpdatedAt := now; |}.

Definition client_set_core (name : string) (redirectURIs : list string) (scopes : list string) (public : bool) (bcl : option string) (r : Client) : Client :=
  {| c_ID := c_ID r;
     c_ClientID := c_ClientID r;
     c_ClientSecretHash := c_ClientSecretHash r;
     c_Name := name;
     c_RedirectURIs := redirectURIs;
     c_Scopes := scopes;
     c_Public := public;
     c_BackchannelLogoutURI := bcl;
     c_ShowInPortal := c_ShowInPortal r;
     c_LaunchURL := c_LaunchURL r;
     c_BrandColor := c_BrandColor r;
     c_IconURL := c_IconURL r;
     c_VisibleToAll := c_VisibleToAll r;
     c_AllowDeviceGrant := c_AllowDeviceGrant r;
     c_SecretRotatedAt := c_SecretRotatedAt r;
     c_CreatedAt := c_CreatedAt r; |}.

Definition client_set_device (allow : bool) (r : Client) : Client :=
  {| c_ID := c_ID r;
     c_ClientID := c_ClientID r;
     c_ClientSecretHash := c_ClientSecretHash r;
     c_Name := c_Name r;
     c_RedirectURIs := c_RedirectURIs r;
     c_Scopes := c_Scopes r;
     c_Public := c_Public r;
     c_BackchannelLogoutURI := c_BackchannelLogoutURI r;
     c_ShowInPortal := c_ShowInPortal r;
     c_LaunchURL := c_LaunchURL r;
     c_BrandColor := c_BrandColor r;
     c_IconURL := c_IconURL r;
     c_VisibleToAll := c_VisibleToAll r;
     c_AllowDeviceGrant := allow;
     c_SecretRotatedAt := c_SecretRotatedAt r;
     c_CreatedAt := c_CreatedAt r; |}.

Definition client_set_secret (hash : string) (now : Z) (r : Client) : Client :=
  {| c_ID := c_ID r;
     c_ClientID := c_ClientID r;
     c_ClientSecretHash := hash;
     c_Name := c_Name r;
     c_RedirectURIs := c_RedirectURIs r;
     c_Scopes := c_Scopes r;
     c_Public := c_Public r;
     c_BackchannelLogoutURI := c_BackchannelLogoutURI r;
     c_ShowInPortal := c_ShowInPortal r;
     c_LaunchURL := c_LaunchURL r;
     c_BrandColor := c_BrandColor r;
     c_IconURL := c_IconURL r;
     c_VisibleToAll := c_VisibleToAll r;
     c_AllowDeviceGrant := c_AllowDeviceGrant r;
     c_SecretRotatedAt := now;
     c_CreatedAt := c_CreatedAt r; |}.

Definition client_set_portal (show : bool) (launch : string) (brand : string) (icon : string) (visible : bool) (r : Client) : Client :=
  {| c_ID := c_ID r;
     c_ClientID := c_ClientID r;
     c_ClientSecretHash := c_ClientSecretHash r;
     c_Name := c_Name r;
     c_RedirectURIs := c_RedirectURIs r;
     c_Scopes := c_Scopes r;
     c_Public := c_Public r;
     c_BackchannelLogoutURI := c_BackchannelLogoutURI r;
     c_ShowInPortal := show;
     c_LaunchURL := launch;
     c_BrandColor := brand;
     c_IconURL := icon;
     c_VisibleToAll := visible;
     c_AllowDeviceGrant := c_AllowDeviceGrant r;
     c_SecretRotatedAt := c_SecretRotatedAt r;
     c_CreatedAt := c_CreatedAt r; |}.

Definition grant_set_used (now : Z) (r : grant_row) : grant_row :=
  {| gr_id := gr_id r;
     gr_user_id := gr_user_id r;
     gr_client_id := gr_client_id r;
     gr_code_hash := gr_code_hash r;
     gr_code_challenge := gr_code_challenge r;
     gr_nonce := gr_nonce r;
     gr_scopes := gr_scopes r;
     gr_redirect_uri := gr_redirect_uri r;
     gr_expires_at := gr_expires_at r;
     gr_used_at := Some now;
     gr_mfa_verified_at := gr_mfa_verified_at r;
     gr_auth_time := gr_auth_time r; |}.

Definition session_set_mfa (w : Z) (r : session_row) : session_row :=
  {| sr_id := sr_id r;
     sr_user_id := sr_user_id r;
     sr_client_id := sr_client_id r;
     sr_access_token_hash := sr_access_token_hash r;
     sr_refresh_token_hash := sr_refresh_token_hash r;
     sr_scopes := sr_scopes r;
     sr_access_expires_at := sr_access_expires_at r;
     sr_refresh_expires_at := sr_refresh_expires_at r;
     sr_last_activity_at := sr_last_activity_at r;
     sr_mfa_verified := true;
     sr_mfa_verified_at := Some w;
     sr_auth_time := sr_auth_time r;
     sr_created_at := sr_created_at r; |}.

Definition session_set_activity (t : Z) (r : session_row) : session_row :=
  {| sr_id := sr_id r;
     sr_user_id := sr_user_id r;
     sr_client_id := sr_client_id r;
     sr_access_token_hash := sr_access_token_hash r;
     sr_refresh_token_hash := sr_refresh_token_hash r;
     sr_scopes := sr_scopes r;
     sr_access_expires_at := sr_access_expires_at r;
     sr_refresh_expires_at := sr_refresh_expires_at r;
     sr_last_activity_at := t;
     sr_mfa_verified := sr_mfa_verified r;
     sr_mfa_verified_at := sr_mfa_verified_at r;
     sr_auth_time := sr_auth_time r;
     sr_created_at := sr_created_at r; |}.

Definition session_set_expiry (t : Z) (r : session_row) : session_row :=
  {| sr_id := sr_id r;
     sr_user_id := sr_user_id r;
     sr_client_id := sr_client_id r;
     sr_access_token_hash := sr_access_token_hash r;
     sr_refresh_token_hash := sr_refresh_token_hash r;
     sr_scopes := sr_scopes r;
     sr_access_expires_at := t;
     sr_refresh_expires_at := sr_refresh_expires_at r;
     sr_last_activity_at := sr_last_activity_at r;
     sr_mfa_verified := sr_mfa_verified r;
     sr_mfa_verified_at := sr_mfa_verified_at r;
     sr_auth_time := sr_auth_time r;
     sr_created_at := sr_created_at r; |}.

Definition session_rotate (ath : string) (rth : string) (aexp : Z) (rexp : Z) (r : session_row) : session_row :=
  {| sr_id := sr_id r;
     sr_user_id := sr_user_id r;
     sr_client_id := sr_client_id r;
     sr_access_token_hash := ath;
     sr_refresh_token_hash := rth;
     sr_scopes := sr_scopes r;
     sr_access_expires_at := aexp;
     sr_refresh_expires_at := rexp;
     sr_last_activity_at := sr_last_activity_at r;
     sr_mfa_verified := sr_mfa_verified r;
     sr_mfa_verified_at := sr_mfa_verified_at r;
     sr_auth_time := sr_auth_time r;
     sr_created_at := sr_created_at r; |}.

Definition totp_set_enabled  (r : TOTPCredential) : TOTPCredential :=
  {| totp_ID := totp_ID r;
     totp_UserID := totp_UserID r;
     totp_EncryptedSecret := totp_EncryptedSecret r;
     totp_EncryptedDEK := totp_EncryptedDEK r;
     totp_Enabled := true;
     totp_CreatedAt := totp_CreatedAt r; |}.

Definition wa_set_use (count : Z) (be : bool) (bs : bool) (t : Z) (r : WebAuthnCredential) : WebAuthnCredential :=
  {| wa_ID := wa_ID r;
     wa_UserID := wa_UserID r;
     wa_CredentialID := wa_CredentialID r;
     wa_PublicKey := wa_PublicKey r;
     wa_AAGUID := wa_AAGUID r;
     wa_SignCount := count;
     wa_BackupEligible := Some be;
     wa_BackupState := bs;
     wa_DeviceName := wa_DeviceName r;
     wa_CreatedAt := wa_CreatedAt r;
     wa_LastUsedAt := t; |}.

Definition group_set_name (name : string) (now : Z) (r : group_row) : group_row :=
  {| gpr_id := gpr_id r;
     gpr_display_name := name;
     gpr_created_at := gpr_created_at r;
     gpr_updated_at := now; |}.

Definition device_approve (user : uuid) (mfa : bool) (mfaAt : option Z) (ip : string) (r : device_row) : device_row :=
  {| dr_id := dr_id r;
     dr_device_code_hash := dr_device_code_hash r;
     dr_user_code_hash := dr_user_code_hash r;
     dr_client_id := dr_client_id r;
     dr_scopes := dr_scopes r;
     dr_status := DeviceGrantStatusApproved;
     dr_user_id := Some user;
     dr_mfa_verified := mfa;
     dr_mfa_verified_at := mfaAt;
     dr_approver_ip := ip;
     dr_interval_sec := dr_interval_sec r;
     dr_last_polled_at := dr_last_polled_at r;
     dr_created_at := dr_created_at r;
     dr_expires_at := dr_expires_at r; |}.

Definition device_deny (ip : string) (r : device_row) : device_row :=
  {| dr_id := dr_id r;
     dr_device_code_hash := dr_device_code_hash r;
     dr_user_code_hash := dr_user_code_hash r;
     dr_client_id := dr_client_id r;
     dr_scopes := dr_scopes r;
     dr_status := DeviceGrantStatusDenied;
     dr_user_id := dr_user_id r;
     dr_mfa_verified := dr_mfa_verified r;
     dr_mfa_verified_at := dr_mfa_verified_at r;
     dr_approver_ip := ip;
     dr_interval_sec := dr_interval_sec r;
     dr_last_polled_at := dr_last_polled_at r;
     dr_created_at := dr_created_at r;
     dr_expires_at := dr_expires_at r; |}.

Definition device_redeem  (r : device_row) : device_row :=
  {| dr_id := dr_id r;
     dr_device_code_hash := dr_device_code_hash r;
     dr_user_code_hash := dr_user_code_hash r;
     dr_client_id := dr_client_id r;
     dr_scopes := dr_scopes r;
     dr_status := DeviceGrantStatusRedeemed;
     dr_user_id := dr_user_id r;
     dr_mfa_verified := dr_mfa_verified r;
     dr_mfa_verified_at := dr_mfa_verified_at r;
     dr_approver_ip := dr_approver_ip r;
     dr_interval_sec := dr_interval_sec r;
     dr_last_polled_at := dr_last_polled_at r;
     dr_created_at := dr_created_at r;
     dr_expires_at := dr_expires_at r; |}.

Definition device_poll (now : Z) (interval : Z) (r : device_row) : device_row :=
  {| dr_id := dr_id r;
     dr_device_code_hash := dr_device_code_hash r;
     dr_user_code_hash := dr_user_code_hash r;
     dr_client_id := dr_client_id r;
     dr_scopes := dr_scopes r;
     dr_status := dr_status r;
     dr_user_id := dr_user_id r;
     dr_mfa_verified := dr_mfa_verified r;
     dr_mfa_verified_at := dr_mfa_verified_at r;
     dr_approver_ip := dr_approver_ip r;
     dr_interval_sec := interval;
     dr_last_polled_at := Some now;
     dr_created_at := dr_created_at r;
     dr_expires_at := dr_expires_at r; |}.

Definition device_forget_user  (r : device_row) : device_row :=
  {| dr_id := dr_id r;
     dr_device_code_hash := dr_device_code_hash r;
     dr_user_code_hash := dr_user_code_hash r;
     dr_client_id := dr_client_id r;
     dr_scopes := dr_scopes r;
     dr_status := dr_status r;
     dr_user_id := None;
     dr_mfa_verified := dr_mfa_verified r;
     dr_mfa_verified_at := dr_mfa_verified_at r;
     dr_approver_ip := dr_approver_ip r;
     dr_interval_sec := dr_interval_sec r;
     dr_last_polled_at := dr_last_polled_at r;
     dr_created_at := dr_created_at r;
     dr_expires_at := dr_expires_at r; |}.

Definition key_deactivate  (r : SigningKey) : SigningKey :=
  {| sk_ID := sk_ID r;
     sk_EncryptedPrivateKey := sk_EncryptedPrivateKey r;
     sk_EncryptedDEK := sk_EncryptedDEK r;
     sk_Algorithm := sk_Algorithm r;
     sk_KID := sk_KID r;
     sk_Active := false;
     sk_CreatedAt := sk_CreatedAt r; |}.

Definition integration_set (i : AppIntegration) (now : Z) (r : AppIntegration) : AppIntegration :=
  {| ai_ID := ai_ID r;
     ai_Name := ai_Name i;
     ai_Provider := ai_Provider i;
     ai_Enabled := ai_Enabled i;
     ai_Config := ai_Config i;
     ai_EncryptedToken := ai_EncryptedToken i;
     ai_EncryptedDEK := ai_EncryptedDEK i;
     ai_CreatedAt := ai_CreatedAt r;
     ai_UpdatedAt := now; |}.

Definition account_set (a : AWSAccount) (now : Z) (r : AWSAccount) : AWSAccount :=
  {| aa_ID := aa_ID r;
     aa_AccountID := aa_AccountID a;
     aa_Alias := aa_Alias a;
     aa_OIDCProviderARN := aa_OIDCProviderARN a;
     aa_CreatedAt := aa_CreatedAt r;
     aa_UpdatedAt := now; |}.

Definition role_set (a : AWSRole) (now : Z) (r : role_row) : role_row :=
  {| rr_id := rr_id r;
     rr_account_id := rr_account_id r;
     rr_role_arn := ar_RoleARN a;
     rr_slug := ar_Slug a;
     rr_display_name := ar_DisplayName a;
     rr_require_step_up_mfa := ar_RequireStepUpMFA a;
     rr_max_session_duration_sec := ar_MaxSessionDurationSec a;
     rr_allowed_regions := EncodeRegions (ar_AllowedRegions a);
     rr_created_at := rr_created_at r;
     rr_updated_at := now; |}.

(** ** The database *)

(** The tables of the schema the migrations build. *)
Record DB : Type := mk_DB {
  db_users : gmap uuid User;
  db_clients : gmap uuid Client;
  db_client_visibility : gmap (uuid * uuid) Z;
  db_grants : gmap uuid grant_row;
  db_sessions : gmap uuid session_row;
  db_retired_refresh_tokens : gmap string uuid;
  db_totp_credentials : gmap uuid TOTPCredential;
  db_webauthn_credentials : gmap uuid WebAuthnCredential;
  db_webauthn_sessions : gmap uuid wa_session_row;
  db_scim_groups : gmap uuid group_row;
  db_scim_group_members : gset (uuid * uuid);
  db_device_grants : gmap uuid device_row;
  db_aws_accounts : gmap uuid AWSAccount;
  db_aws_roles : gmap uuid role_row;
  db_aws_role_assignments : gmap uuid AWSRoleAssignment;
  db_aws_revoked_users : gmap (uuid * string) Z;
  db_external_ids : gmap (string * uuid) string;
  db_signing_keys : gmap uuid SigningKey;
  db_app_integrations : gmap uuid AppIntegration;
}.

Definition empty_db : DB :=
  {| db_users := ∅;
     db_clients := ∅;
     db_client_visibility := ∅;
     db_grants := ∅;
     db_sessions := ∅;
     db_retired_refresh_tokens := ∅;
     db_totp_credentials := ∅;
     db_webauthn_credentials := ∅;
     db_webauthn_sessions := ∅;
     db_scim_groups := ∅;
     db_scim_group_members := ∅;
     db_device_grants := ∅;
     db_aws_accounts := ∅;
     db_aws_roles := ∅;
     db_aws_role_assignments := ∅;
     db_aws_revoked_users := ∅;
     db_external_ids := ∅;
     db_signing_keys := ∅;
     db_app_integrations := ∅; |}.

Definition with_users (t : gmap uuid User) (r : DB) : DB :=
  {| db_users := t;
     db_clients := db_clients r;
     db_client_visibility := db_client_visibility r;
     db_grants := db_grants r;
     db_sessions := db_sessions r;
     db_retired_refresh_tokens := db_retired_refresh_tokens r;
     db_totp_credentials := db_totp_credentials r;
     db_webauthn_credentials := db_webauthn_credentials r;
     db_webauthn_sessions := db_webauthn_sessions r;
     db_scim_groups := db_scim_groups r;
     db_scim_group_members := db_scim_group_members r;
     db_device_grants := db_device_grants r;
     db_aws_accounts := db_aws_accounts r;
     db_aws_roles := db_aws_roles r;
     db_aws_role_assignments := db_aws_role_assignments r;
     db_aws_revoked_users := db_aws_revoked_users r;
     db_external_ids := db_external_ids r;
     db_signing_keys := db_signing_keys r;
     db_app_integrations := db_app_integrations r; |}.

Definition with_clients (t : gmap uuid Client) (r : DB) : DB :=
  {| db_users := db_users r;
     db_clients := t;
     db_client_visibility := db_client_visibility r;
     db_grants := db_grants r;
     db_sessions := db_sessions r;
     db_retired_refresh_tokens := db_retired_refresh_tokens r;
     db_totp_credentials := db_totp_credentials r;
     db_webauthn_credentials := db_webauthn_credentials r;
     db_webauthn_sessions := db_webauthn_sessions r;
     db_scim_groups := db_scim_groups r;
     db_scim_group_members := db_scim_group_members r;
     db_device_grants := db_device_grants r;
     db_aws_accounts := db_aws_accounts r;
     db_aws_roles := db_aws_roles r;
     db_aws_role_assignments := db_aws_role_assignments r;
     db_aws_revoked_users := db_aws_revoked_users r;
     db_external_ids := db_external_ids r;
     db_signing_keys := db_signing_keys r;
     db_app_integrations := db_app_integrations r; |}.

Definition with_client_visibility (t : gmap (uuid * uuid) Z) (r : DB) : DB :=
  {| db_users := db_users r;
     db_clients := db_clients r;
     db_client_visibility := t;
     db_grants := db_grants r;
     db_sessions := db_sessions r;
     db_retired_refresh_tokens := db_retired_refresh_tokens r;
     db_totp_credentials := db_totp_credentials r;
     db_webauthn_credentials := db_webauthn_credentials r;
     db_webauthn_sessions := db_webauthn_sessions r;
     db_scim_groups := db_scim_groups r;
     db_scim_group_members := db_scim_group_members r;
     db_device_grants := db_device_grants r;
     db_aws_accounts := db_aws_accounts r;
     db_aws_roles := db_aws_roles r;
     db_aws_role_assignments := db_aws_role_assignments r;
     db_aws_revoked_users := db_aws_revoked_users r;
     db_external_ids := db_external_ids r;
     db_signing_keys := db_signing_keys r;
     db_app_integrations := db_app_integrations r; |}.

Definition with_grants (t : gmap uuid grant_row) (r : DB) : DB :=
  {| db_users := db_users r;
     db_clients := db_clients r;
     db_client_visibility := db_client_visibility r;
     db_grants := t;
     db_sessions := db_sessions r;
     db_retired_refresh_tokens := db_retired_refresh_tokens r;
     db_totp_credentials := db_totp_credentials r;
     db_webauthn_credentials := db_webauthn_credentials r;
     db_webauthn_sessions := db_webauthn_sessions r;
     db_scim_groups := db_scim_groups r;
     db_scim_group_members := db_scim_group_members r;
     db_device_grants := db_device_grants r;
     db_aws_accounts := db_aws_accounts r;
     db_aws_roles := db_aws_roles r;
     db_aws_role_assignments := db_aws_role_assignments r;
     db_aws_revoked_users := db_aws_revoked_users r;
     db_external_ids := db_external_ids r;
     db_signing_keys := db_signing_keys r;
     db_app_integrations := db_app_integrations r; |}.

Definition with_sessions (t : gmap uuid session_row) (r : DB) : DB :=
  {| db_users := db_users r;
     db_clients := db_clients r;
     db_client_visibility := db_client_visibility r;
     db_grants := db_grants r;
     db_sessions := t;
     db_retired_refresh_tokens := db_retired_refresh_tokens r;
     db_totp_credentials := db_totp_credentials r;
     db_webauthn_credentials := db_webauthn_credentials r;
     db_webauthn_sessions := db_webauthn_sessions r;
     db_scim_groups := db_scim_groups r;
     db_scim_group_members := db_scim_group_members r;
     db_device_grants := db_device_grants r;
     db_aws_accounts := db_aws_accounts r;
     db_aws_roles := db_aws_roles r;
     db_aws_role_assignments := db_aws_role_assignments r;
     db_aws_revoked_users := db_aws_revoked_users r;
     db_external_ids := db_external_ids r;
     db_signing_keys := db_signing_keys r;
     db_app_integrations := db_app_integrations r; |}.

Definition with_retired_refresh_tokens (t : gmap string uuid) (r : DB) : DB :=
  {| db_users := db_users r;
     db_clients := db_clients r;
     db_client_visibility := db_client_visibility r;
     db_grants := db_grants r;
     db_sessions := db_sessions r;
     db_retired_refresh_tokens := t;
     db_totp_credentials := db_totp_credentials r;
     db_webauthn_credentials := db_webauthn_credentials r;
     db_webauthn_sessions := db_webauthn_sessions r;
     db_scim_groups := db_scim_groups r;
     db_scim_group_members := db_scim_group_members r;
     db_device_grants := db_device_grants r;
     db_aws_accounts := db_aws_accounts r;
     db_aws_roles := db_aws_roles r;
     db_aws_role_assignments := db_aws_role_assignments r;
     db_aws_revoked_users := db_aws_revoked_users r;
     db_external_ids := db_external_ids r;
     db_signing_keys := db_signing_keys r;
     db_app_integrations := db_app_integrations r; |}.

Definition with_totp_credentials (t : gmap uuid TOTPCredential) (r : DB) : DB :=
  {| db_users := db_users r;
     db_clients := db_clients r;
     db_client_visibility := db_client_visibility r;
     db_grants := db_grants r;
     db_sessions := db_sessions r;
     db_retired_refresh_tokens := db_retired_refresh_tokens r;
     db_totp_credentials := t;
     db_webauthn_credentials := db_webauthn_credentials r;
     db_webauthn_sessions := db_webauthn_sessions r;
     db_scim_groups := db_scim_groups r;
     db_scim_group_members := db_scim_group_members r;
     db_device_grants := db_device_grants r;
     db_aws_accounts := db_aws_accounts r;
     db_aws_roles := db_aws_roles r;
     db_aws_role_assignments := db_aws_role_assignments r;
     db_aws_revoked_users := db_aws_revoked_users r;
     db_external_ids := db_external_ids r;
     db_signing_keys := db_signing_keys r;
     db_app_integrations := db_app_integrations r; |}.

Definition with_webauthn_credentials (t : gmap uuid WebAuthnCredential) (r : DB) : DB :=
  {| db_users := db_users r;
     db_clients := db_clients r;
     db_client_visibility := db_client_visibility r;
     db_grants := db_grants r;
     db_sessions := db_sessions r;
     db_retired_refresh_tokens := db_retired_refresh_tokens r;
     db_totp_credentials := db_totp_credentials r;
     db_webauthn_credentials := t;
     db_webauthn_sessions := db_webauthn_sessions r;
     db_scim_groups := db_scim_groups r;
     db_scim_group_members := db_scim_group_members r;
     db_device_grants := db_device_grants r;
     db_aws_accounts := db_aws_accounts r;
     db_aws_roles := db_aws_roles r;
     db_aws_role_assignments := db_aws_role_assignments r;
     db_aws_revoked_users := db_aws_revoked_users r;
     db_external_ids := db_external_ids r;
     db_signing_keys := db_signing_keys r;
     db_app_integrations := db_app_integrations r; |}.

Definition with_webauthn_sessions (t : gmap uuid wa_session_row) (r : DB) : DB :=
  {| db_users := db_users r;
     db_clients := db_clients r;
     db_client_visibility := db_client_visibility r;
     db_grants := db_grants r;
     db_sessions := db_sessions r;
     db_retired_refresh_tokens := db_retired_refresh_tokens r;
     db_totp_credentials := db_totp_credentials r;
     db_webauthn_credentials := db_webauthn_credentials r;
     db_webauthn_sessions := t;
     db_scim_groups := db_scim_groups r;
     db_scim_group_members := db_scim_group_members r;
     db_device_grants := db_device_grants r;
     db_aws_accounts := db_aws_accounts r;
     db_aws_roles := db_aws_roles r;
     db_aws_role_assignments := db_aws_role_assignments r;
     db_aws_revoked_users := db_aws_revoked_users r;
     db_external_ids := db_external_ids r;
     db_signing_keys := db_signing_keys r;
     db_app_integrations := db_app_integrations r; |}.

Definition with_scim_groups (t : gmap uuid group_row) (r : DB) : DB :=
  {| db_users := db_users r;
     db_clients := db_clients r;
     db_client_visibility := db_client_visibility r;
     db_grants := db_grants r;
     db_sessions := db_sessions r;
     db_retired_refresh_tokens := db_retired_refresh_tokens r;
     db_totp_credentials := db_totp_credentials r;
     db_webauthn_credentials := db_webauthn_credentials r;
     db_webauthn_sessions := db_webauthn_sessions r;
     db_scim_groups := t;
     db_scim_group_members := db_scim_group_members r;
     db_device_grants := db_device_grants r;
     db_aws_accounts := db_aws_accounts r;
     db_aws_roles := db_aws_roles r;
     db_aws_role_assignments := db_aws_role_assignments r;
     db_aws_revoked_users := db_aws_revoked_users r;
     db_external_ids := db_external_ids r;
     db_signing_keys := db_signing_keys r;
     db_app_integrations := db_app_integrations r; |}.

Definition with_scim_group_members (t : gset (uuid * uuid)) (r : DB) : DB :=
  {| db_users := db_users r;
     db_clients := db_clients r;
     db_client_visibility := db_client_visibility r;
     db_grants := db_grants r;
     db_sessions := db_sessions r;
     db_retired_refresh_tokens := db_retired_refresh_tokens r;
     db_totp_credentials := db_totp_credentials r;
     db_webauthn_credentials := db_webauthn_credentials r;
     db_webauthn_sessions := db_webauthn_sessions r;
     db_scim_groups := db_scim_groups r;
     db_scim_group_members := t;
     db_device_grants := db_device_grants r;
     db_aws_accounts := db_aws_accounts r;
     db_aws_roles := db_aws_roles r;
     db_aws_role_assignments := db_aws_role_assignments r;
     db_aws_revoked_users := db_aws_revoked_users r;
     db_external_ids := db_external_ids r;
     db_signing_keys := db_signing_keys r;
     db_app_integrations := db_app_integrations r; |}.

Definition with_device_grants (t : gmap uuid device_row) (r : DB) : DB :=
  {| db_users := db_users r;
     db_clients := db_clients r;
     db_client_visibility := db_client_visibility r;
     db_grants := db_grants r;
     db_sessions := db_sessions r;
     db_retired_refresh_tokens := db_retired_refresh_tokens r;
     db_totp_credentials := db_totp_credentials r;
     db_webauthn_credentials := db_webauthn_credentials r;
     db_webauthn_sessions := db_webauthn_sessions r;
     db_scim_groups := db_scim_groups r;
     db_scim_group_members := db_scim_group_members r;
     db_device_grants := t;
     db_aws_accounts := db_aws_accounts r;
     db_aws_roles := db_aws_roles r;
     db_aws_role_assignments := db_aws_role_assignments r;
     db_aws_revoked_users := db_aws_revoked_users r;
     db_external_ids := db_external_ids r;
     db_signing_keys := db_signing_keys r;
     db_app_integrations := db_app_integrations r; |}.

Definition with_aws_accounts (t : gmap uuid AWSAccount) (r : DB) : DB :=
  {| db_users := db_users r;
     db_clients := db_clients r;
     db_client_visibility := db_client_visibility r;
     db_grants := db_grants r;
     db_sessions := db_sessions r;
     db_retired_refresh_tokens := db_retired_refresh_tokens r;
     db_totp_credentials := db_totp_credentials r;
     db_webauthn_credentials := db_webauthn_credentials r;
     db_webauthn_sessions := db_webauthn_sessions r;
     db_scim_groups := db_scim_groups r;
     db_scim_group_members := db_scim_group_members r;
     db_device_grants := db_device_grants r;
     db_aws_accounts := t;
     db_aws_roles := db_aws_roles r;
     db_aws_role_assignments := db_aws_role_assignments r;
     db_aws_revoked_users := db_aws_revoked_users r;
     db_external_ids := db_external_ids r;
     db_signing_keys := db_signing_keys r;
     db_app_integrations := db_app_integrations r; |}.

Definition with_aws_roles (t : gmap uuid role_row) (r : DB) : DB :=
  {| db_users := db_users r;
     db_clients := db_clients r;
     db_client_visibility := db_client_visibility r;
     db_grants := db_grants r;
     db_sessions := db_sessions r;
     db_retired_refresh_tokens := db_retired_refresh_tokens r;
     db_totp_credentials := db_totp_credentials r;
     db_webauthn_credentials := db_webauthn_credentials r;
     db_webauthn_sessions := db_webauthn_sessions r;
     db_scim_groups := db_scim_groups r;
     db_scim_group_members := db_scim_group_members r;
     db_device_grants := db_device_grants r;
     db_aws_accounts := db_aws_accounts r;
     db_aws_roles := t;
     db_aws_role_assignments := db_aws_role_assignments r;
     db_aws_revoked_users := db_aws_revoked_users r;
     db_external_ids := db_external_ids r;
     db_signing_keys := db_signing_keys r;
     db_app_integrations := db_app_integrations r; |}.

Definition with_aws_role_assignments (t : gmap uuid AWSRoleAssignment) (r : DB) : DB :=
  {| db_users := db_users r;
     db_clients := db_clients r;
     db_client_visibility := db_client_visibility r;
     db_grants := db_grants r;
     db_sessions := db_sessions r;
     db_retired_refresh_tokens := db_retired_refresh_tokens r;
     db_totp_credentials := db_totp_credentials r;
     db_webauthn_credentials := db_webauthn_credentials r;
     db_webauthn_sessions := db_webauthn_sessions r;
     db_scim_groups := db_scim_groups r;
     db_scim_group_members := db_scim_group_members r;
     db_device_grants := db_device_grants r;
     db_aws_accounts := db_aws_accounts r;
     db_aws_roles := db_aws_roles r;
     db_aws_role_assignments := t;
     db_aws_revoked_users := db_aws_revoked_users r;
     db_external_ids := db_external_ids r;
     db_signing_keys := db_signing_keys r;
     db_app_integrations := db_app_integrations r; |}.

Definition with_aws_revoked_users (t : gmap (uuid * string) Z) (r : DB) : DB :=
  {| db_users := db_users r;
     db_clients := db_clients r;
     db_client_visibility := db_client_visibility r;
     db_grants := db_grants r;
     db_sessions := db_sessions r;
     db_retired_refresh_tokens := db_retired_refresh_tokens r;
     db_totp_credentials := db_totp_credentials r;
     db_webauthn_credentials := db_webauthn_credentials r;
     db_webauthn_sessions := db_webauthn_sessions r;
     db_scim_groups := db_scim_groups r;
     db_scim_group_members := db_scim_group_members r;
     db_device_grants := db_device_grants r;
     db_aws_accounts := db_aws_accounts r;
     db_aws_roles := db_aws_roles r;
     db_aws_role_assignments := db_aws_role_assignments r;
     db_aws_revoked_users := t;
     db_external_ids := db_external_ids r;
     db_signing_keys := db_signing_keys r;
     db_app_integrations := db_app_integrations r; |}.

Definition with_external_ids (t : gmap (string * uuid) string) (r : DB) : DB :=
  {| db_users := db_users r;
     db_clients := db_clients r;
     db_client_visibility := db_client_visibility r;
     db_grants := db_grants r;
     db_sessions := db_sessions r;
     db_retired_refresh_tokens := db_retired_refresh_tokens r;
     db_totp_credentials := db_totp_credentials r;
     db_webauthn_credentials := db_webauthn_credentials r;
     db_webauthn_sessions := db_webauthn_sessions r;
     db_scim_groups := db_scim_groups r;
     db_scim_group_members := db_scim_group_members r;
     db_device_grants := db_device_grants r;
     db_aws_accounts := db_aws_accounts r;
     db_aws_roles := db_aws_roles r;
     db_aws_role_assignments := db_aws_role_assignments r;
     db_aws_revoked_users := db_aws_revoked_users r;
     db_external_ids := t;
     db_signing_keys := db_signing_keys r;
     db_app_integrations := db_app_integrations r; |}.

Definition with_signing_keys (t : gmap uuid SigningKey) (r : DB) : DB :=
  {| db_users := db_users r;
     db_clients := db_clients r;
     db_client_visibility := db_client_visibility r;
     db_grants := db_grants r;
     db_sessions := db_sessions r;
     db_retired_refresh_tokens := db_retired_refresh_tokens r;
     db_totp_credentials := db_totp_credentials r;
     db_webauthn_credentials := db_webauthn_credentials r;
     db_webauthn_sessions := db_webauthn_sessions r;
     db_scim_groups := db_scim_groups r;
     db_scim_group_members := db_scim_group_members r;
     db_device_grants := db_device_grants r;
     db_aws_accounts := db_aws_accounts r;
     db_aws_roles := db_aws_roles r;
     db_aws_role_assignments := db_aws_role_assignments r;
     db_aws_revoked_users := db_aws_revoked_users r;
     db_external_ids := db_external_ids r;
     db_signing_keys := t;
     db_app_integrations := db_app_integrations r; |}.

Definition with_app_integrations (t : gmap uuid AppIntegration) (r : DB) : DB :=
  {| db_users := db_users r;
     db_clients := db_clients r;
     db_client_visibility := db_client_visibility r;
     db_grants := db_grants r;
     db_sessions := db_sessions r;
     db_retired_refresh_tokens := db_retired_refresh_tokens r;
     db_totp_credentials := db_totp_credentials r;
     db_webauthn_credentials := db_webauthn_credentials r;
     db_webauthn_sessions := db_webauthn_sessions r;
     db_scim_groups := db_scim_groups r;
     db_scim_group_members := db_scim_group_members r;
     db_device_grants := db_device_grants r;
     db_aws_accounts := db_aws_accounts r;
     db_aws_roles := db_aws_roles r;
     db_aws_role_assignments := db_aws_role_assignments r;
     db_aws_revoked_users := db_aws_revoked_users r;
     db_external_ids := db_external_ids r;
     db_signing_keys := db_signing_keys r;
     db_app_integrations := t; |}.

(** ** Queries over a table *)

(** [SELECT ... WHERE b] for a condition on a UNIQUE column: at most one row
    satisfies it in a well-formed table. *)
Definition find_row {A} (b : A → bool) (m : gmap uuid A) : option A :=
  head (filter (λ x, b x = true) (map_to_list m).*2).

(** [DELETE ... WHERE b]. *)
Definition delete_where {K A} `{Countable K} (b : A → bool) (m : gmap K A) : gmap K A :=
  filter (λ kx, b kx.2 = false) m.

(** The order of an [ORDER BY key] clause. *)
Definition key_le {A} (key : A → Z) (x y : A) : Prop := (key x ≤ key y)%Z.

#[export] Instance key_le_dec {A} (key : A → Z) : RelDecision (key_le key).
Proof. unfold RelDecision, key_le. apply _. Defined.

(** [SELECT ... WHERE b ORDER BY key]. *)
Definition rows_by {A} (key : A → Z) (b : A → bool) (m : gmap uuid A) : list A :=
  merge_sort (key_le key) (filter (λ x, b x = true) (map_to_list m).*2).

Lemma elem_merge_sort {A} (R : relation A) `{!RelDecision R} (l : list A) x : x ∈ merge_sort R l ↔ x ∈ l.
Proof. by rewrite (merge_sort_Permutation R l). Qed.

Lemma elem_rows_by {A} (key : A → Z) b (m : gmap uuid A) x :
  x ∈ rows_by key b m ↔ b x = true ∧ ∃ i, m !! i = Some x.
Proof.
  unfold rows_by. rewrite elem_merge_sort, list_elem_of_filter, list_elem_of_fmap. split.
  - intros [Hb ([i y] & -> & Hin%elem_of_map_to_list)]. by eauto.
  - intros [Hb [i Hi]]. split; [done|]. exists (i, x). split; [done|]. by apply elem_of_map_to_list.
Qed.

(** Does some row satisfy the condition? *)
Definition some_row {A} (b : A → bool) (m : gmap uuid A) : bool :=
  match find_row b m with Some _ => true | None => false end.

(** ** Constraints *)

(** The primary key stored in a row is its key. *)
Definition keyed {A} (id : A → uuid) (m : gmap uuid A) : Prop :=
  ∀ i x, m !! i = Some x → id x = i.

(** A UNIQUE column. *)
Definition unique_on {A B} (f : A → B) (m : gmap uuid A) : Prop :=
  ∀ i j x y, m !! i = Some x → m !! j = Some y → f x = f y → i = j.

(** A (nullable) foreign key into table [t]. *)
Definition refers {K A B} `{Countable K} (f : A → option uuid) (m : gmap K A) (t : gmap uuid B) : Prop :=
  ∀ i x k, m !! i = Some x → f x = Some k → is_Some (t !! k).

Lemma keyed_insert {A} (id : A → uuid) m i x :
  keyed id m → id x = i → keyed id (<[i:=x]> m).
Proof. intros Hm Hx j y. rewrite lookup_insert. case_decide; naive_solver. Qed.

Lemma keyed_alter {A} (id : A → uuid) (f : A → A) m i :
  keyed id m → (∀ x, id (f x) = id x) → keyed id (alter f i m).
Proof.
  intros Hm Hf j y. rewrite lookup_alter. case_decide as Hij; [|apply Hm].
  subst. destruct (m !! j) eqn:E; simpl; [|done]. intros [= <-]. rewrite Hf. by apply Hm.
Qed.

Lemma keyed_delete_where {A} (id : A → uuid) b m : keyed id m → keyed id (delete_where b m).
Proof. intros Hm i x [? _]%map_lookup_filter_Some. by apply Hm. Qed.

Lemma keyed_delete {A} (id : A → uuid) i m : keyed id m → keyed id (delete i m).
Proof. intros Hm j x [_ ?]%lookup_delete_Some. by apply Hm. Qed.

Lemma keyed_fmap {A} (id : A → uuid) (f : A → A) m :
  keyed id m → (∀ x, id (f x) = id x) → keyed id (f <$> m).
Proof. intros Hm Hf i x. rewrite lookup_fmap_Some. intros (y & <- & ?). rewrite Hf. by apply Hm. Qed.

Lemma find_row_Some {A} (b : A → bool) m x :
  find_row b m = Some x → ∃ i, m !! i = Some x ∧ b x = true.
Proof.
  unfold find_row. intros H%head_Some_elem_of.
  apply list_elem_of_filter in H as [Hb H]. apply list_elem_of_fmap in H as ([i y] & -> & H).
  apply elem_of_map_to_list in H. eauto.
Qed.

Lemma find_row_None {A} (b : A → bool) m :
  find_row b m = None → ∀ i x, m !! i = Some x → b x = false.
Proof.
  unfold find_row. rewrite head_None. intros H i x Hx.
  destruct (b x) eqn:E; [|done]. exfalso.
  apply (filter_nil_not_elem_of _ _ x H E).
  apply list_elem_of_fmap. exists (i, x). split; [done|]. by apply elem_of_map_to_list.
Qed.

(** On a UNIQUE column the row found is the row. *)
Lemma find_row_unique {A B} `{EqDecision B} (f : A → B) m i x v :
  unique_on f m → m !! i = Some x → f x = v →
  find_row (λ r, bool_decide (f r = v)) m = Some x.
Proof.
  intros Hu Hx <-. destruct (find_row _ m) as [y|] eqn:E.
  - apply find_row_Some in E as (j & Hy & Heq%bool_decide_eq_true).
    rewrite (Hu _ _ _ _ Hy Hx Heq) in Hy. congruence.
  - pose proof (find_row_None _ _ E _ _ Hx) as H. by apply bool_decide_eq_false in H.
Qed.

Lemma some_row_false {A} (b : A → bool) m :
  some_row b m = false → ∀ i x, m !! i = Some x → b x = false.
Proof. unfold some_row. case_match; [done|]. intros _. by apply find_row_None. Qed.

Lemma unique_insert {A B} `{EqDecision B} (f : A → B) m i x :
  unique_on f m → m !! i = None → some_row (λ r, bool_decide (f r = f x)) m = false →
  unique_on f (<[i:=x]> m).
Proof.
  intros Hm Hi Hf. pose proof (some_row_false _ _ Hf) as Hn.
  intros j k y z. rewrite !lookup_insert. repeat case_decide; subst; intros Hy Hz He; simplify_eq.
  - done.
  - apply Hn in Hz. apply bool_decide_eq_false in Hz. congruence.
  - apply Hn in Hy. apply bool_decide_eq_false in Hy. congruence.
  - by eapply Hm.
Qed.

Lemma unique_alter {A B} (f : A → B) (g : A → A) m i :
  unique_on f m → (∀ x, f (g x) = f x) → unique_on f (alter g i m).
Proof.
  intros Hm Hg j k y z. rewrite !lookup_alter. repeat case_decide; subst.
  all: rewrite ?fmap_Some; intros; destruct_and?; simplify_eq;
    repeat match goal with H : ∃ _, _ |- _ => destruct H as (? & ? & ->) end;
    rewrite ?Hg in *; eauto.
Qed.

Lemma unique_fmap {A B} (f : A → B) (g : A → A) m :
  unique_on f m → (∀ x, f (g x) = f x) → unique_on f (g <$> m).
Proof.
  intros Hm Hg j k y z. rewrite !lookup_fmap_Some. intros (?&<-&?) (?&<-&?).
  rewrite !Hg. eauto.
Qed.

Lemma unique_delete_where {A B} (f : A → B) b m : unique_on f m → unique_on f (delete_where b m).
Proof.
  intros Hm i j x y [? _]%map_lookup_filter_Some [? _]%map_lookup_filter_Some. by eapply Hm.
Qed.

Lemma unique_delete {A B} (f : A → B) i m : unique_on f m → unique_on f (delete i m).
Proof. intros Hm j k x y [_ ?]%lookup_delete_Some [_ ?]%lookup_delete_Some. by eapply Hm. Qed.

(** An update that writes one value [v] into a UNIQUE column. *)
Lemma unique_alter_to {A B} `{EqDecision B} (id : A → uuid) (f : A → B) (g : A → A) m i v :
  keyed id m → unique_on f m → (∀ x, f (g x) = v) →
  some_row (λ r, negb (bool_decide (id r = i)) && bool_decide (f r = v)) m = false →
  unique_on f (alter g i m).
Proof.
  intros Hk Hm Hg Hs. pose proof (some_row_false _ _ Hs) as Hn.
  assert (∀ j y, m !! j = Some y → j ≠ i → f y ≠ v) as Hv.
  { intros j y Hy Hji Hf. specialize (Hn _ _ Hy). cbn beta in Hn. rewrite (Hk _ _ Hy), Hf in Hn.
    rewrite bool_decide_false, bool_decide_true in Hn; done. }
  intros j k y z. rewrite !lookup_alter. repeat case_decide; subst; rewrite ?fmap_Some; try done.
  - intros (y' & Hy & ->) Hz. rewrite Hg. intros Hv'. by destruct (Hv k z).
  - intros Hy (z' & Hz & ->). rewrite Hg. intros. by destruct (Hv j y).
  - by eapply Hm.
Qed.

Section refers.
  Context {K A B : Type} `{Countable K}.
  Implicit Types (f : A → option uuid) (m : gmap K A) (t : gmap uuid B).

Lemma refers_insert f m t i x :
  refers f m t → (∀ k, f x = Some k → is_Some (t !! k)) → refers f (<[i:=x]> m) t.
Proof. intros Hm Hx j y k. rewrite lookup_insert. case_decide; naive_solver. Qed.

Lemma refers_alter f (g : A → A) m t i :
  refers f m t → (∀ x, f (g x) = f x) → refers f (alter g i m) t.
Proof.
  intros Hm Hg j y k. rewrite lookup_alter. case_decide; subst; [|by apply Hm].
  destruct (m !! j) as [x|] eqn:E; simpl; [|done]. intros [= <-]. rewrite Hg. by apply Hm with j.
Qed.

Lemma refers_alter_to f (g : A → A) m t i :
  refers f m t → (∀ x k, f (g x) = Some k → is_Some (t !! k)) → refers f (alter g i m) t.
Proof.
  intros Hm Hg j y k. rewrite lookup_alter. case_decide; subst; [|by apply Hm].
  destruct (m !! j) as [x|] eqn:E; simpl; [|done]. intros [= <-]. apply Hg.
Qed.

Lemma refers_fmap f (g : A → A) m t :
  refers f m t → (∀ x, f (g x) = f x) → refers f (g <$> m) t.
Proof. intros Hm Hg i x k. rewrite lookup_fmap_Some. intros (y & <- & ?). rewrite Hg. by eapply Hm. Qed.

Lemma refers_delete_where f b m t : refers f m t → refers f (delete_where b m) t.
Proof. intros Hm i x k [? _]%map_lookup_filter_Some. by eapply Hm. Qed.

Lemma refers_delete f i m t : refers f m t → refers f (delete i m) t.
Proof. intros Hm j x k [_ ?]%lookup_delete_Some. by eapply Hm. Qed.

(** The referenced table may grow, or change rows in place. *)
Lemma refers_to_insert f m t k x : refers f m t → refers f m (<[k:=x]> t).
Proof. intros Hm i y j Hy Hj. rewrite lookup_insert_is_Some'. right. by eapply Hm. Qed.

Lemma refers_to_alter f m t (g : B → B) k : refers f m t → refers f m (alter g k t).
Proof. intros Hm i y j Hy Hj. rewrite lookup_alter_is_Some. by eapply Hm. Qed.

Lemma refers_to_fmap f m t (g : B → B) : refers f m t → refers f m (g <$> t).
Proof. intros Hm i y j Hy Hj. rewrite lookup_fmap, fmap_is_Some. by eapply Hm. Qed.

(** ON DELETE CASCADE: the rows that would dangle go with the one deleted. *)
Lemma refers_cascade f m t d :
  refers f m t → refers f (delete_where (λ x, bool_decide (f x = Some d)) m) (delete d t).
Proof.
  intros Hm i x k [Hx Hf]%map_lookup_filter_Some Hk. simpl in Hf.
  apply bool_decide_eq_false in Hf. rewrite lookup_delete_ne by congruence. by eapply Hm.
Qed.

(** The same for a deletion of several rows, where [m'] keeps only rows whose
    target is kept. *)
Lemma refers_cascade_where f m t b m' :
  refers f m t →
  (∀ i x, m' !! i = Some x → m !! i = Some x ∧
     ∀ k r, f x = Some k → t !! k = Some r → b r = false) →
  refers f m' (delete_where b t).
Proof.
  intros Hm Hk i x k Hx Hf. destruct (Hk _ _ Hx) as [Hx' Hb].
  destruct (Hm _ _ _ Hx' Hf) as [r Hr]. exists r. apply map_lookup_filter_Some. eauto.
Qed.

End refers.

(** Foreign keys that are part of a table's own key: the keys of [m] project
    into [t]. *)
Definition key_refers {K A B} `{Countable K} (f : K → uuid) (m : gmap K A) (t : gmap uuid B) : Prop :=
  ∀ k x, m !! k = Some x → is_Some (t !! f k).

Section key_refers.
  Context {K A B : Type} `{Countable K}.
  Implicit Types (f : K → uuid) (m : gmap K A) (t : gmap uuid B).

Lemma key_refers_insert f m t k x : key_refers f m t → is_Some (t !! f k) → key_refers f (<[k:=x]> m) t.
Proof. intros Hm Hk j y. rewrite lookup_insert. case_decide; naive_solver. Qed.

Lemma key_refers_delete f m t k : key_refers f m t → key_refers f (delete k m) t.
Proof. intros Hm j x [_ ?]%lookup_delete_Some. by eapply Hm. Qed.

Lemma key_refers_filter f m t (P : K * A → Prop) `{∀ x, Decision (P x)} :
  key_refers f m t → key_refers f (filter P m) t.
Proof. intros Hm j x [? _]%map_lookup_filter_Some. by eapply Hm. Qed.

Lemma key_refers_to_insert f m t k x : key_refers f m t → key_refers f m (<[k:=x]> t).
Proof. intros Hm j y Hy. rewrite lookup_insert_is_Some'. right. by eapply Hm. Qed.

Lemma key_refers_to_alter f m t (g : B → B) k : key_refers f m t → key_refers f m (alter g k t).
Proof. intros Hm j y Hy. rewrite lookup_alter_is_Some. by eapply Hm. Qed.

Lemma key_refers_cascade f m t d :
  key_refers f m t → key_refers f (filter (λ kv : K * A, f kv.1 ≠ d) m) (delete d t).
Proof.
  intros Hm j x [? ?]%map_lookup_filter_Some. rewrite lookup_delete_ne by done. by eapply Hm.
Qed.

End key_refers.

(** Foreign keys of a pure relation. *)
Definition set_refers {B : Type} (f : uuid * uuid → uuid) (s : gset (uuid * uuid)) (t : gmap uuid B) : Prop :=
  ∀ p, p ∈ s → is_Some (t !! f p).

Section set_refers.
  Context {B : Type}.
  Implicit Types (f : uuid * uuid → uuid) (s : gset (uuid * uuid)) (t : gmap uuid B).

Lemma set_refers_insert f s t p : set_refers f s t → is_Some (t !! f p) → set_refers f ({[p]} ∪ s) t.
Proof. intros Hs Hp q [->%elem_of_singleton|?]%elem_of_union; auto. Qed.

Lemma set_refers_filter f s t (P : uuid * uuid → Prop) `{∀ p, Decision (P p)} :
  set_refers f s t → set_refers f (filter P s) t.
Proof. intros Hs q [_ Hq]%elem_of_filter. by apply Hs. Qed.

Lemma set_refers_difference f s s' t : set_refers f s t → set_refers f (s ∖ s') t.
Proof. intros Hs q [Hq _]%elem_of_difference. by apply Hs. Qed.

Lemma set_refers_to_insert f s t k x : set_refers f s t → set_refers f s (<[k:=x]> t).
Proof. intros Hm j Hy. rewrite lookup_insert_is_Some'. right. by apply Hm. Qed.

Lemma set_refers_to_alter f s t (g : B → B) k : set_refers f s t → set_refers f s (alter g k t).
Proof. intros Hm j Hy. rewrite lookup_alter_is_Some. by apply Hm. Qed.

Lemma set_refers_cascade f s t d :
  set_refers f s t → set_refers f (filter (λ p, f p ≠ d) s) (delete d t).
Proof.
  intros Hm j [? ?]%elem_of_filter. rewrite lookup_delete_ne by done. by apply Hm.
Qed.

End set_refers.

Create HintDb store.
#[export] Hint Resolve keyed_insert keyed_alter keyed_delete_where keyed_delete keyed_fmap
  unique_insert unique_alter unique_fmap unique_delete_where unique_delete
  refers_insert refers_alter refers_fmap refers_delete_where refers_delete refers_cascade
  refers_to_insert refers_to_alter refers_to_fmap
  key_refers_insert key_refers_delete key_refers_filter key_refers_to_insert key_refers_to_alter
  key_refers_cascade
  set_refers_insert set_refers_filter set_refers_difference set_refers_to_insert set_refers_to_alter set_refers_cascade : store.
