(* ===== verification/SqliteUsers.v ===== *)
(** * SQLite store: users, clients, groups and second factors

    One definition per method of [internal/store/sqlite/sqlite_users.go],
    [sqlite_clients.go], [sqlite_groups.go] and [sqlite_mfa.go], as a function
    of the database.  A method that draws a fresh identifier ([uuid.New]) or
    reads the clock takes them as arguments [id] and [now].  A statement fails
    as the schema makes it fail: a clash on a primary key or a UNIQUE column is
    [ErrConflict] where the method maps it with [isUnique] and [ErrOther] where
    it does not, a dangling foreign key is [ErrOther].  The failed statement
    leaves the database as it was.  What a statement makes of a time is left to
    the dialect ([stamp], [column], [created] of [Dialect]): at [SQLite] these
    are the methods of the files above, at [PostgreSQL] their counterparts
    ([PgStore]). *)
From stdpp Require Import sorting.
From S2P Require Import Prelude GoStrings Model Dialect Tables.

(** A SELECT of one row: [sql.ErrNoRows] becomes [ErrNotFound]. *)
Definition one_row {A} (r : option A) : result A :=
  match r with Some x => Ok x | None => Err ErrNotFound end.

(** Is the key present? *)
Definition has {K A} `{Countable K} (m : gmap K A) (k : K) : bool := bool_decide (is_Some (m !! k)).

(** Restrict a table to the rows whose foreign key is not [d]. *)
Definition drop_fk {K A} `{Countable K} (f : A → uuid) (d : uuid) (m : gmap K A) : gmap K A :=
  delete_where (λ r, bool_decide (Some (f r) = Some d)) m.

Local Open Scope Z_scope.

Section methods.
  Context {dialect : Dialect}.

(** ** Users *)

Definition CreateUser (id : uuid) (now : Z) (email passwordHash name : string) (db : DB)
    : result User * DB :=
  let u := {| u_ID := id; u_Email := email; u_PasswordHash := passwordHash; u_Name := name;
              u_Active := true; u_SCIMExternalID := ""; u_MFAEnabled := false; u_IsAdmin := false;
              u_PasswordChangedAt := column now; u_FailedAttempts := 0; u_LockedUntil := None;
              u_MustChangePassword := false; u_CreatedAt := column now; u_UpdatedAt := column now |} in
  if has (db_users db) id || some_row (λ r, bool_decide (u_Email r = email)) (db_users db)
  then (Err ErrConflict, db)
  else (Ok u, with_users (<[id:=u]> (db_users db)) db).

Definition GetUserByID (id : uuid) (db : DB) : result User := one_row (db_users db !! id).

Definition GetUserByEmail (email : string) (db : DB) : result User :=
  one_row (find_row (λ r, bool_decide (u_Email r = email)) (db_users db)).

Definition CountUsers (db : DB) : result Z := Ok (Z.of_nat (size (db_users db))).

Definition ListUsers (db : DB) : result (list User) :=
  Ok (rows_by u_CreatedAt (λ _, true) (db_users db)).

(** [UPDATE users SET ... WHERE id = ?] *)
Definition update_user (f : User → User) (id : uuid) (db : DB) : result unit * DB :=
  (Ok tt, with_users (alter f id (db_users db)) db).

Definition UpdateUser (now : Z) (id : uuid) (name : string) (active : bool) : DB → result unit * DB :=
  update_user (user_set_profile name active (stamp now)) id.

Definition UpdateUserPassword (now : Z) (id : uuid) (passwordHash : string) : DB → result unit * DB :=
  update_user (user_set_password passwordHash (stamp now)) id.

Definition SetUserMustChangePassword (now : Z) (id : uuid) (flag : bool) : DB → result unit * DB :=
  update_user (user_set_must_change flag (stamp now)) id.

Definition UpdateUserMFAEnabled (now : Z) (id : uuid) (enabled : bool) : DB → result unit * DB :=
  update_user (user_set_mfa enabled (stamp now)) id.

Definition UpdateUserFailedAttempts (now : Z) (id : uuid) (count : Z) (lockedUntil : option Z)
    : DB → result unit * DB :=
  update_user (user_set_failed count (column <$> lockedUntil) (stamp now)) id.

Definition SetUserActive (now : Z) (id : uuid) (active : bool) : DB → result unit * DB :=
  update_user (user_set_active active (stamp now)) id.

Definition SetUserSCIMExternalID (now : Z) (id : uuid) (externalID : string) : DB → result unit * DB :=
  update_user (user_set_scim externalID (stamp now)) id.

Definition SetUserAdmin (now : Z) (id : uuid) (isAdmin : bool) : DB → result unit * DB :=
  update_user (user_set_admin isAdmin (stamp now)) id.

(** The retired refresh tokens whose session is among those deleted go with it. *)
Definition retired_after (b : session_row → bool) (db : DB) : gmap string uuid :=
  filter (λ kv : string * uuid,
    match db_sessions db !! kv.2 with Some r => b r | None => false end = false)
    (db_retired_refresh_tokens db).

(** [DELETE FROM sessions WHERE b], with its cascade. *)
Definition delete_sessions (b : session_row → bool) (db : DB) : DB :=
  with_sessions (delete_where b (db_sessions db))
    (with_retired_refresh_tokens (retired_after b db) db).

(** [ON DELETE SET NULL] of [device_grants.user_id]. *)
Definition forget_user (id : uuid) (r : device_row) : device_row :=
  if decide (dr_user_id r = Some id) then device_forget_user r else r.

(** The rows of the other tables that reference the user follow the foreign
    keys' ON DELETE actions. *)
Definition DeleteUser (id : uuid) (db : DB) : result unit * DB :=
  (Ok tt,
   with_users (delete id (db_users db))
   (with_grants (drop_fk gr_user_id id (db_grants db))
   (with_totp_credentials (drop_fk totp_UserID id (db_totp_credentials db))
   (with_webauthn_credentials (drop_fk wa_UserID id (db_webauthn_credentials db))
   (with_webauthn_sessions (drop_fk wsr_user_id id (db_webauthn_sessions db))
   (with_scim_group_members (filter (λ gu, gu.2 ≠ id) (db_scim_group_members db))
   (with_external_ids (filter (λ kv : (string * uuid) * string, kv.1.2 ≠ id) (db_external_ids db))
   (with_device_grants (forget_user id <$> db_device_grants db)
   (delete_sessions (λ r, bool_decide (sr_user_id r = Some id)) db))))))))).

(** ** Clients *)

Definition CreateClient (id : uuid) (now : Z) (clientID clientSecretHash name : string)
    (redirectURIs scopes : list string) (public : bool) (backchannelLogoutURI : option string)
    (db : DB) : result Client * DB :=
  let c := {| c_ID := id; c_ClientID := clientID; c_ClientSecretHash := clientSecretHash;
              c_Name := name; c_RedirectURIs := redirectURIs; c_Scopes := scopes;
              c_Public := public; c_BackchannelLogoutURI := backchannelLogoutURI;
              c_ShowInPortal := false; c_LaunchURL := ""; c_BrandColor := ""; c_IconURL := "";
              c_VisibleToAll := false; c_AllowDeviceGrant := false;
              c_SecretRotatedAt := column now; c_CreatedAt := column now |} in
  if has (db_clients db) id || some_row (λ r, bool_decide (c_ClientID r = clientID)) (db_clients db)
  then (Err ErrConflict, db)
  else (Ok c, with_clients (<[id:=c]> (db_clients db)) db).

Definition GetClientByID (id : uuid) (db : DB) : result Client := one_row (db_clients db !! id).

Definition GetClientByClientID (clientID : string) (db : DB) : result Client :=
  one_row (find_row (λ r, bool_decide (c_ClientID r = clientID)) (db_clients db)).

Definition ListClients (db : DB) : result (list Client) :=
  Ok (rows_by c_CreatedAt (λ _, true) (db_clients db)).

Definition UpdateClient (id : uuid) (name : string) (redirectURIs scopes : list string)
    (public : bool) (backchannelLogoutURI : option string) (db : DB) : result unit * DB :=
  (Ok tt, with_clients
     (alter (client_set_core name redirectURIs scopes public backchannelLogoutURI) id (db_clients db)) db).

(** An UPDATE whose method maps zero affected rows to [ErrNotFound]. *)
Definition update_client_row (f : Client → Client) (id : uuid) (db : DB) : result unit * DB :=
  if has (db_clients db) id
  then (Ok tt, with_clients (alter f id (db_clients db)) db)
  else (Err ErrNotFound, db).

Definition UpdateClientDeviceGrant (id : uuid) (allow : bool) : DB → result unit * DB :=
  update_client_row (client_set_device allow) id.

Definition UpdateClientSecret (now : Z) (id : uuid) (secretHash : string) (db : DB) : result unit * DB :=
  (Ok tt, with_clients
     (alter (client_set_secret secretHash (stamp now)) id (db_clients db)) db).

Definition DeleteClient (id : uuid) (db : DB) : result unit * DB :=
  (Ok tt,
   with_clients (delete id (db_clients db))
   (with_grants (drop_fk gr_client_id id (db_grants db))
   (with_client_visibility (filter (λ kv : (uuid * uuid) * Z, kv.1.1 ≠ id) (db_client_visibility db))
   (with_device_grants (drop_fk dr_client_id id (db_device_grants db))
   (delete_sessions (λ r, bool_decide (sr_client_id r = id)) db))))).

Definition UpdateClientPortalConfig (id : uuid) (showInPortal : bool)
    (launchURL brandColor iconURL : string) (visibleToAll : bool) : DB → result unit * DB :=
  update_client_row (client_set_portal showInPortal launchURL brandColor iconURL visibleToAll) id.

(** One INSERT of [ReplaceClientVisibility]'s loop (ON CONFLICT DO NOTHING). *)
Definition insert_visibility (db : DB) (clientID : uuid) (ts : Z) (gid : uuid)
    (vis : gmap (uuid * uuid) Z) : option (gmap (uuid * uuid) Z) :=
  if has vis (clientID, gid) then Some vis
  else if has (db_clients db) clientID && has (db_scim_groups db) gid
  then Some (<[(clientID, gid):=ts]> vis) else None.

Fixpoint insert_visibilities (db : DB) (clientID : uuid) (ts : Z) (gids : list uuid)
    (vis : gmap (uuid * uuid) Z) : option (gmap (uuid * uuid) Z) :=
  match gids with
  | [] => Some vis
  | gid :: gids =>
      match insert_visibility db clientID ts gid vis with
      | Some vis' => insert_visibilities db clientID ts gids vis'
      | None => None
      end
  end.

(** The transaction rolls back when one INSERT fails. *)
Definition ReplaceClientVisibility (now : Z) (clientID : uuid) (groupIDs : list uuid) (db : DB)
    : result unit * DB :=
  let kept := filter (λ kv : (uuid * uuid) * Z, kv.1.1 ≠ clientID) (db_client_visibility db) in
  match insert_visibilities db clientID (stamp now) groupIDs kept with
  | Some vis => (Ok tt, with_client_visibility vis db)
  | None => (Err ErrOther, db)
  end.

Definition ListClientVisibility (clientID : uuid) (db : DB) : result (list uuid) :=
  Ok ((merge_sort (key_le snd)
        (filter (λ kv, kv.1.1 = clientID) (map_to_list (db_client_visibility db)))).*1.*2).

(** Is the user in one of the groups the client is visible to (the two LEFT
    JOINs of [ListPortalClientsForUser])? *)
Definition visible_via_group (db : DB) (userID clientID : uuid) : bool :=
  bool_decide (filter (λ gu : uuid * uuid, gu.2 = userID ∧ is_Some (db_client_visibility db !! (clientID, gu.1)))
    (db_scim_group_members db) ≠ ∅).

(** [ORDER BY] a text column. *)
Definition name_order {A} (name : A → string) (x y : A) : Prop := text_le (name x) (name y) = true.

#[export] Instance name_order_dec {A} (name : A → string) : RelDecision (name_order name).
Proof. unfold RelDecision, name_order. apply _. Defined.

Definition ListPortalClientsForUser (userID : uuid) (db : DB) : result (list Client) :=
  Ok (merge_sort (name_order c_Name)
       (filter (λ c, c_ShowInPortal c && (c_VisibleToAll c || visible_via_group db userID (c_ID c)) = true)
         (map_to_list (db_clients db)).*2)).

(** ** Groups *)

Definition groupMembers (groupID : uuid) (db : DB) : list uuid :=
  merge_sort N.le ((filter (λ gu, gu.1 = groupID) (elements (db_scim_group_members db))).*2).

Definition scanGroup (db : DB) (r : group_row) : SCIMGroup :=
  {| grp_ID := gpr_id r; grp_DisplayName := gpr_display_name r;
     grp_Members := groupMembers (gpr_id r) db;
     grp_CreatedAt := gpr_created_at r; grp_UpdatedAt := gpr_updated_at r |}.

Definition CreateGroup (id : uuid) (now : Z) (displayName : string) (db : DB) : result SCIMGroup * DB :=
  if has (db_scim_groups db) id then (Err ErrOther, db)
  else (Ok {| grp_ID := id; grp_DisplayName := displayName; grp_Members := [];
              grp_CreatedAt := now; grp_UpdatedAt := now |},
        with_scim_groups (<[id := mk_group_row id displayName (column now) (column now)]> (db_scim_groups db)) db).

Definition GetGroupByID (id : uuid) (db : DB) : result SCIMGroup :=
  one_row (scanGroup db <$> db_scim_groups db !! id).

Definition ListGroups (db : DB) : result (list SCIMGroup) :=
  Ok (scanGroup db <$> rows_by gpr_created_at (λ _, true) (db_scim_groups db)).

Definition UpdateGroup (now : Z) (id : uuid) (displayName : string) (db : DB) : result unit * DB :=
  (Ok tt, with_scim_groups
     (alter (group_set_name displayName (stamp now)) id (db_scim_groups db)) db).

(** One INSERT into [scim_group_members] (ON CONFLICT DO NOTHING). *)
Definition insert_member (db : DB) (groupID uid : uuid) (ms : gset (uuid * uuid))
    : option (gset (uuid * uuid)) :=
  if decide ((groupID, uid) ∈ ms) then Some ms
  else if has (db_scim_groups db) groupID && has (db_users db) uid
  then Some ({[ (groupID, uid) ]} ∪ ms) else None.

Fixpoint insert_members (db : DB) (groupID : uuid) (uids : list uuid) (ms : gset (uuid * uuid))
    : option (gset (uuid * uuid)) :=
  match uids with
  | [] => Some ms
  | uid :: uids =>
      match insert_member db groupID uid ms with
      | Some ms' => insert_members db groupID uids ms'
      | None => None
      end
  end.

Definition ReplaceGroupMembers (groupID : uuid) (memberIDs : list uuid) (db : DB) : result unit * DB :=
  match insert_members db groupID memberIDs
          (filter (λ gu, gu.1 ≠ groupID) (db_scim_group_members db)) with
  | Some ms => (Ok tt, with_scim_group_members ms db)
  | None => (Err ErrOther, db)
  end.

Definition AddGroupMember (groupID userID : uuid) (db : DB) : result unit * DB :=
  match insert_member db groupID userID (db_scim_group_members db) with
  | Some ms => (Ok tt, with_scim_group_members ms db)
  | None => (Err ErrOther, db)
  end.

Definition RemoveGroupMember (groupID userID : uuid) (db : DB) : result unit * DB :=
  (Ok tt, with_scim_group_members (db_scim_group_members db ∖ {[ (groupID, userID) ]}) db).

Definition DeleteGroup (id : uuid) (db : DB) : result unit * DB :=
  (Ok tt,
   with_scim_groups (delete id (db_scim_groups db))
   (with_scim_group_members (filter (λ gu, gu.1 ≠ id) (db_scim_group_members db))
   (with_client_visibility (filter (λ kv : (uuid * uuid) * Z, kv.1.2 ≠ id) (db_client_visibility db))
   (with_aws_role_assignments (drop_fk ara_GroupID id (db_aws_role_assignments db)) db)))).

(** ** Second factors *)

(** [created_at] takes the column's default. *)
Definition CreateTOTPCredential (now : Z) (c : TOTPCredential) (db : DB) : result unit * DB :=
  if has (db_totp_credentials db) (totp_ID c)
     || some_row (λ r, bool_decide (totp_UserID r = totp_UserID c)) (db_totp_credentials db)
  then (Err ErrConflict, db)
  else if negb (has (db_users db) (totp_UserID c)) then (Err ErrOther, db)
  else (Ok tt, with_totp_credentials
    (<[totp_ID c := {| totp_ID := totp_ID c; totp_UserID := totp_UserID c;
                       totp_EncryptedSecret := totp_EncryptedSecret c;
                       totp_EncryptedDEK := totp_EncryptedDEK c; totp_Enabled := totp_Enabled c;
                       totp_CreatedAt := stamp now |}]> (db_totp_credentials db)) db).

Definition GetTOTPByUserID (userID : uuid) (db : DB) : result TOTPCredential :=
  one_row (find_row (λ r, bool_decide (totp_UserID r = userID)) (db_totp_credentials db)).

Definition EnableTOTP (id : uuid) (db : DB) : result unit * DB :=
  (Ok tt, with_totp_credentials (alter totp_set_enabled id (db_totp_credentials db)) db).

Definition DeleteTOTP (userID : uuid) (db : DB) : result unit * DB :=
  (Ok tt, with_totp_credentials (drop_fk totp_UserID userID (db_totp_credentials db)) db).

(** [created_at] and [last_used_at] take the columns' defaults. *)
Definition CreateWebAuthnCredential (now : Z) (c : WebAuthnCredential) (db : DB) : result unit * DB :=
  if has (db_webauthn_credentials db) (wa_ID c)
     || some_row (λ r, bool_decide (wa_CredentialID r = wa_CredentialID c)) (db_webauthn_credentials db)
  then (Err ErrConflict, db)
  else if negb (has (db_users db) (wa_UserID c)) then (Err ErrOther, db)
  else (Ok tt, with_webauthn_credentials
    (<[wa_ID c := {| wa_ID := wa_ID c; wa_UserID := wa_UserID c;
                     wa_CredentialID := wa_CredentialID c; wa_PublicKey := wa_PublicKey c;
                     wa_AAGUID := wa_AAGUID c; wa_SignCount := wa_SignCount c;
                     wa_BackupEligible := wa_BackupEligible c; wa_BackupState := wa_BackupState c;
                     wa_DeviceName := wa_DeviceName c; wa_CreatedAt := stamp now;
                     wa_LastUsedAt := stamp now |}]> (db_webauthn_credentials db)) db).

Definition ListWebAuthnCredentials (userID : uuid) (db : DB) : result (list WebAuthnCredential) :=
  Ok (rows_by wa_CreatedAt (λ r, bool_decide (wa_UserID r = userID)) (db_webauthn_credentials db)).

Definition UpdateWebAuthnCredentialUse (id : uuid) (signCount : Z) (backupEligible backupState : bool)
    (lastUsed : Z) (db : DB) : result unit * DB :=
  (Ok tt, with_webauthn_credentials
     (alter (wa_set_use signCount backupEligible backupState (column lastUsed)) id (db_webauthn_credentials db)) db).

Definition DeleteWebAuthnCredential (id userID : uuid) (db : DB) : result unit * DB :=
  (Ok tt, with_webauthn_credentials
     (delete_where (λ r, bool_decide (wa_ID r = id ∧ wa_UserID r = userID)) (db_webauthn_credentials db)) db).

(** A ceremony is good for five minutes ([datetime('now', '+5 minutes')]). *)
Definition CreateWebAuthnSession (id : uuid) (now : Z) (userID : uuid) (data purpose : string) (db : DB)
    : result uuid * DB :=
  if has (db_webauthn_sessions db) id || negb (has (db_users db) userID) then (Err ErrOther, db)
  else (Ok id, with_webauthn_sessions
    (<[id := mk_wa_session_row userID data purpose (stamp now + 5 * Minute)
               (stamp now)]> (db_webauthn_sessions db)) db).

Definition GetWebAuthnSession (now : Z) (id userID : uuid) (purpose : string) (db : DB) : result string :=
  match db_webauthn_sessions db !! id with
  | Some r =>
      if bool_decide (wsr_user_id r = userID) && bool_decide (wsr_purpose r = purpose)
         && (stamp now <? wsr_expires_at r)
      then Ok (wsr_session_data r) else Err ErrNotFound
  | None => Err ErrNotFound
  end.

Definition DeleteWebAuthnSession (id : uuid) (db : DB) : result unit * DB :=
  (Ok tt, with_webauthn_sessions (delete id (db_webauthn_sessions db)) db).

End methods.
