(* ===== verification/SqliteTokens.v ===== *)
(** * SQLite store: authorization codes, sessions and device grants

    One definition per method of [internal/store/sqlite/sqlite_grants.go],
    [sqlite_sessions.go] and [sqlite_device_grants.go]; the conventions are
    those of [SqliteUsers].  The three guarded updates that make a credential
    single-use ([MarkGrantUsed], [RotateRefreshToken] and the
    [MarkDeviceGrant...] family) are one SQL statement (or one transaction)
    each, so each is one step of the concurrent executions of [Server]. *)
From S2P Require Import Prelude GoStrings Model Dialect Tables SqliteUsers.

Local Open Scope Z_scope.

Section methods.
  Context {dialect : Dialect}.

(** Go's zero time is stored as NULL. *)
Definition time_arg (t : Z) : option Z := if IsZero t then None else Some t.

(** ** Authorization codes *)

Definition scanGrant (r : grant_row) : Grant :=
  {| g_ID := gr_id r; g_UserID := gr_user_id r; g_ClientID := gr_client_id r;
     g_CodeHash := gr_code_hash r; g_CodeChallenge := gr_code_challenge r; g_Nonce := gr_nonce r;
     g_Scopes := gr_scopes r; g_RedirectURI := gr_redirect_uri r; g_ExpiresAt := gr_expires_at r;
     g_UsedAt := gr_used_at r; g_MFAVerifiedAt := gr_mfa_verified_at r;
     g_AuthTime := default 0 (gr_auth_time r) |}.

(** The row the INSERT of [CreateGrant] writes; [used_at] starts NULL. *)
Definition grant_row_of (g : Grant) : grant_row :=
  {| gr_id := g_ID g; gr_user_id := g_UserID g; gr_client_id := g_ClientID g;
     gr_code_hash := g_CodeHash g; gr_code_challenge := g_CodeChallenge g; gr_nonce := g_Nonce g;
     gr_scopes := g_Scopes g; gr_redirect_uri := g_RedirectURI g; gr_expires_at := column (g_ExpiresAt g);
     gr_used_at := None; gr_mfa_verified_at := column <$> g_MFAVerifiedAt g;
     gr_auth_time := column <$> time_arg (g_AuthTime g) |}.

Definition CreateGrant (g : Grant) (db : DB) : result unit * DB :=
  if has (db_grants db) (g_ID g)
     || some_row (λ r, bool_decide (gr_code_hash r = g_CodeHash g)) (db_grants db)
     || negb (has (db_users db) (g_UserID g)) || negb (has (db_clients db) (g_ClientID g))
  then (Err ErrOther, db)
  else (Ok tt, with_grants (<[g_ID g := grant_row_of g]> (db_grants db)) db).

Definition GetGrantByCodeHash (codeHash : string) (db : DB) : result Grant :=
  one_row (scanGrant <$> find_row (λ r, bool_decide (gr_code_hash r = codeHash)) (db_grants db)).

(** [UPDATE ... WHERE id = ? AND used_at IS NULL], then [requireOneRow]. *)
Definition MarkGrantUsed (now : Z) (id : uuid) (db : DB) : result unit * DB :=
  match db_grants db !! id with
  | Some r =>
      match gr_used_at r with
      | None => (Ok tt, with_grants (alter (grant_set_used (stamp now)) id (db_grants db)) db)
      | Some _ => (Err ErrNotFound, db)
      end
  | None => (Err ErrNotFound, db)
  end.

Definition DeleteExpiredGrants (now : Z) (db : DB) : result unit * DB :=
  (Ok tt, with_grants (delete_where (λ r, gr_expires_at r <? stamp now) (db_grants db)) db).

(** ** Sessions *)

Definition scanSession (r : session_row) : Session :=
  {| s_ID := sr_id r; s_UserID := default uuid_nil (sr_user_id r); s_ClientID := sr_client_id r;
     s_AccessTokenHash := sr_access_token_hash r; s_RefreshTokenHash := sr_refresh_token_hash r;
     s_Scopes := sr_scopes r; s_AccessExpiresAt := sr_access_expires_at r;
     s_RefreshExpiresAt := sr_refresh_expires_at r; s_LastActivityAt := sr_last_activity_at r;
     s_MFAVerified := sr_mfa_verified r; s_MFAVerifiedAt := sr_mfa_verified_at r;
     s_AuthTime := default 0 (sr_auth_time r); s_CreatedAt := sr_created_at r |}.

(** The row the INSERT of [CreateSession] writes: the nil user is stored as
    NULL, [last_activity_at] and [created_at] take the columns' defaults. *)
Definition session_row_of (now : Z) (s : Session) : session_row :=
  {| sr_id := s_ID s;
     sr_user_id := if bool_decide (s_UserID s = uuid_nil) then None else Some (s_UserID s);
     sr_client_id := s_ClientID s;
     sr_access_token_hash := s_AccessTokenHash s; sr_refresh_token_hash := s_RefreshTokenHash s;
     sr_scopes := s_Scopes s; sr_access_expires_at := column (s_AccessExpiresAt s);
     sr_refresh_expires_at := column (s_RefreshExpiresAt s); sr_last_activity_at := stamp now;
     sr_mfa_verified := s_MFAVerified s; sr_mfa_verified_at := column <$> s_MFAVerifiedAt s;
     sr_auth_time := column <$> time_arg (s_AuthTime s); sr_created_at := stamp now |}.

(** Both token-hash columns are UNIQUE. *)
Definition session_clash (ath rth : string) (r : session_row) : bool :=
  bool_decide (sr_access_token_hash r = ath) || bool_decide (sr_refresh_token_hash r = rth).

Definition CreateSession (now : Z) (s : Session) (db : DB) : result unit * DB :=
  let r := session_row_of now s in
  if has (db_sessions db) (s_ID s)
     || some_row (session_clash (s_AccessTokenHash s) (s_RefreshTokenHash s)) (db_sessions db)
     || negb (match sr_user_id r with Some u => has (db_users db) u | None => true end)
     || negb (has (db_clients db) (s_ClientID s))
  then (Err ErrOther, db)
  else (Ok tt, with_sessions (<[s_ID s := r]> (db_sessions db)) db).

(** [UPDATE sessions SET ... WHERE id = ?] *)
Definition update_session (f : session_row → session_row) (id : uuid) (db : DB) : result unit * DB :=
  (Ok tt, with_sessions (alter f id (db_sessions db)) db).

Definition MarkSessionMFA (id : uuid) (when : Z) : DB → result unit * DB :=
  update_session (session_set_mfa (column when)) id.

Definition GetSessionByAccessTokenHash (hash : string) (db : DB) : result Session :=
  one_row (scanSession <$> find_row (λ r, bool_decide (sr_access_token_hash r = hash)) (db_sessions db)).

Definition GetSessionByRefreshTokenHash (hash : string) (db : DB) : result Session :=
  one_row (scanSession <$> find_row (λ r, bool_decide (sr_refresh_token_hash r = hash)) (db_sessions db)).

Definition UpdateSessionActivity (id : uuid) (lastActivity : Z) : DB → result unit * DB :=
  update_session (session_set_activity (column lastActivity)) id.

Definition ExtendSessionExpiry (id : uuid) (newExpiry : Z) : DB → result unit * DB :=
  update_session (session_set_expiry (column newExpiry)) id.

(** The UPDATE (guarded by the old refresh hash), [requireOneRow], and the
    INSERT that remembers the retired token (ON CONFLICT DO NOTHING), in one
    transaction. *)
Definition RotateRefreshToken (id : uuid) (oldRefreshHash newAccessHash newRefreshHash : string)
    (newAccessExpiry newRefreshExpiry : Z) (db : DB) : result unit * DB :=
  match db_sessions db !! id with
  | Some r =>
      if bool_decide (sr_refresh_token_hash r = oldRefreshHash) then
        if some_row (λ r', negb (bool_decide (sr_id r' = id))
                           && session_clash newAccessHash newRefreshHash r') (db_sessions db)
        then (Err ErrOther, db)
        else
          (Ok tt,
           with_sessions (alter (session_rotate newAccessHash newRefreshHash (column newAccessExpiry)
                                   (column newRefreshExpiry)) id (db_sessions db))
           (with_retired_refresh_tokens
              (if has (db_retired_refresh_tokens db) oldRefreshHash
               then db_retired_refresh_tokens db
               else <[oldRefreshHash := id]> (db_retired_refresh_tokens db)) db))
      else (Err ErrNotFound, db)
  | None => (Err ErrNotFound, db)
  end.

Definition GetSessionByRetiredRefreshTokenHash (hash : string) (db : DB) : result Session :=
  one_row (id ← db_retired_refresh_tokens db !! hash; scanSession <$> db_sessions db !! id).

Definition DeleteSession (id : uuid) (db : DB) : result unit * DB :=
  (Ok tt, delete_sessions (λ r, bool_decide (sr_id r = id)) db).

Definition DeleteSessionsByUserID (userID : uuid) (db : DB) : result unit * DB :=
  (Ok tt, delete_sessions (λ r, bool_decide (sr_user_id r = Some userID)) db).

Definition ListSessionClientIDsByUser (userID : uuid) (db : DB) : result (list uuid) :=
  Ok (remove_dups (sr_client_id <$>
        filter (λ r, sr_user_id r = Some userID) (map_to_list (db_sessions db)).*2)).

Definition DeleteExpiredSessions (now : Z) (db : DB) : result unit * DB :=
  (Ok tt, delete_sessions (λ r, sr_refresh_expires_at r <? stamp now) db).

(** ** Device grants (RFC 8628) *)

Definition scanDeviceGrant `{UnicodeTables} (r : device_row) : DeviceGrant :=
  {| dg_ID := dr_id r; dg_DeviceCodeHash := dr_device_code_hash r;
     dg_UserCodeHash := dr_user_code_hash r; dg_ClientID := dr_client_id r;
     dg_Scopes := if bool_decide (dr_scopes r = "") then [] else Fields (dr_scopes r);
     dg_Status := dr_status r; dg_UserID := dr_user_id r; dg_MFAVerified := dr_mfa_verified r;
     dg_MFAVerifiedAt := dr_mfa_verified_at r; dg_ApproverIP := dr_approver_ip r;
     dg_IntervalSec := dr_interval_sec r; dg_LastPolledAt := dr_last_polled_at r;
     dg_CreatedAt := dr_created_at r; dg_ExpiresAt := dr_expires_at r |}.

(** The row the INSERT writes, after the defaults for the identifier, the
    interval and the status. *)
Definition device_row_of (fresh : uuid) (now : Z) (g : DeviceGrant) : device_row :=
  {| dr_id := if bool_decide (dg_ID g = uuid_nil) then fresh else dg_ID g;
     dr_device_code_hash := dg_DeviceCodeHash g; dr_user_code_hash := dg_UserCodeHash g;
     dr_client_id := dg_ClientID g; dr_scopes := Join (dg_Scopes g) " ";
     dr_status := if bool_decide (dg_Status g = "") then DeviceGrantStatusPending else dg_Status g;
     dr_user_id := None; dr_mfa_verified := false; dr_mfa_verified_at := None; dr_approver_ip := "";
     dr_interval_sec := if dg_IntervalSec g =? 0 then 5 else dg_IntervalSec g;
     dr_last_polled_at := None; dr_created_at := stamp now;
     dr_expires_at := column (dg_ExpiresAt g) |}.

(** Both code-hash columns are UNIQUE. *)
Definition device_clash (dch uch : string) (r : device_row) : bool :=
  bool_decide (dr_device_code_hash r = dch) || bool_decide (dr_user_code_hash r = uch).

(** The caller's struct afterwards, with those defaults filled in. *)
Definition device_filled (fresh : uuid) (g : DeviceGrant) : DeviceGrant :=
  {| dg_ID := if bool_decide (dg_ID g = uuid_nil) then fresh else dg_ID g;
     dg_DeviceCodeHash := dg_DeviceCodeHash g; dg_UserCodeHash := dg_UserCodeHash g;
     dg_ClientID := dg_ClientID g; dg_Scopes := dg_Scopes g;
     dg_Status := if bool_decide (dg_Status g = "") then DeviceGrantStatusPending else dg_Status g;
     dg_UserID := dg_UserID g; dg_MFAVerified := dg_MFAVerified g; dg_MFAVerifiedAt := dg_MFAVerifiedAt g;
     dg_ApproverIP := dg_ApproverIP g;
     dg_IntervalSec := if dg_IntervalSec g =? 0 then 5 else dg_IntervalSec g;
     dg_LastPolledAt := dg_LastPolledAt g; dg_CreatedAt := dg_CreatedAt g; dg_ExpiresAt := dg_ExpiresAt g |}.

Definition CreateDeviceGrant (fresh : uuid) (now : Z) (g : DeviceGrant) (db : DB) : result DeviceGrant * DB :=
  let r := device_row_of fresh now g in
  if has (db_device_grants db) (dr_id r)
     || some_row (device_clash (dg_DeviceCodeHash g) (dg_UserCodeHash g)) (db_device_grants db)
  then (Err ErrConflict, db)
  else if negb (has (db_clients db) (dg_ClientID g)) then (Err ErrOther, db)
  else (Ok (device_filled fresh g), with_device_grants (<[dr_id r := r]> (db_device_grants db)) db).

Definition GetDeviceGrantByDeviceCodeHash `{UnicodeTables} (hash : string) (db : DB) : result DeviceGrant :=
  one_row (scanDeviceGrant <$>
    find_row (λ r, bool_decide (dr_device_code_hash r = hash)) (db_device_grants db)).

Definition GetDeviceGrantByUserCodeHash `{UnicodeTables} (hash : string) (db : DB) : result DeviceGrant :=
  one_row (scanDeviceGrant <$>
    find_row (λ r, bool_decide (dr_user_code_hash r = hash)) (db_device_grants db)).

(** [UPDATE ... WHERE id = ? AND status = from]; zero rows is [ErrNotFound]. *)
Definition device_transition (from : string) (f : device_row → device_row) (id : uuid) (db : DB)
    : result unit * DB :=
  match db_device_grants db !! id with
  | Some r =>
      if bool_decide (dr_status r = from)
      then (Ok tt, with_device_grants (alter f id (db_device_grants db)) db)
      else (Err ErrNotFound, db)
  | None => (Err ErrNotFound, db)
  end.

(** The user's foreign key is checked when a row is updated. *)
Definition MarkDeviceGrantApproved (id userID : uuid) (mfaVerified : bool) (mfaVerifiedAt : option Z)
    (approverIP : string) (db : DB) : result unit * DB :=
  if has (db_users db) userID
  then device_transition DeviceGrantStatusPending
         (device_approve userID mfaVerified (column <$> mfaVerifiedAt) approverIP) id db
  else match db_device_grants db !! id with
       | Some r => (Err (if bool_decide (dr_status r = DeviceGrantStatusPending) then ErrOther
                         else ErrNotFound), db)
       | None => (Err ErrNotFound, db)
       end.

Definition MarkDeviceGrantDenied (id : uuid) (approverIP : string) : DB → result unit * DB :=
  device_transition DeviceGrantStatusPending (device_deny approverIP) id.

Definition MarkDeviceGrantRedeemed (id : uuid) : DB → result unit * DB :=
  device_transition DeviceGrantStatusApproved device_redeem id.

Definition UpdateDeviceGrantPoll (id : uuid) (now : Z) (intervalSec : Z) (db : DB) : result unit * DB :=
  (Ok tt, with_device_grants (alter (device_poll (column now) intervalSec) id (db_device_grants db)) db).

Definition DeleteExpiredDeviceGrants (now : Z) (db : DB) : result Z * DB :=
  let kept := delete_where (λ r, dr_expires_at r <? stamp now) (db_device_grants db) in
  (Ok (Z.of_nat (size (db_device_grants db)) - Z.of_nat (size kept)), with_device_grants kept db).

End methods.
