(* ===== verification/SqliteAws.v ===== *)
(** * SQLite store: AWS catalogue, provisioning caches and signing keys

    One definition per method of [internal/store/sqlite/sqlite_awsfed.go],
    [sqlite_external_ids.go], [sqlite_signingkeys.go] and
    [sqlite_integrations.go]; the conventions are those of [SqliteUsers].  A
    method that fills in fields of the struct it is given ([ID], [CreatedAt],
    [UpdatedAt]) returns the filled-in struct. *)
From stdpp Require Import sorting.
From S2P Require Import Prelude GoStrings Model Dialect Tables SqliteUsers.

Local Open Scope Z_scope.

(** [if id == uuid.Nil { id = uuid.New() }] *)
Definition or_fresh (fresh id : uuid) : uuid := if bool_decide (id = uuid_nil) then fresh else id.

Section methods.
  Context {dialect : Dialect}.

(** ** Accounts *)

Definition CreateAWSAccount (fresh : uuid) (now : Z) (a : AWSAccount) (db : DB) : result AWSAccount * DB :=
  let a := {| aa_ID := or_fresh fresh (aa_ID a); aa_AccountID := aa_AccountID a; aa_Alias := aa_Alias a;
              aa_OIDCProviderARN := aa_OIDCProviderARN a;
              aa_CreatedAt := created now (aa_CreatedAt a); aa_UpdatedAt := column now |} in
  if has (db_aws_accounts db) (aa_ID a)
     || some_row (λ r, bool_decide (aa_AccountID r = aa_AccountID a)) (db_aws_accounts db)
  then (Err ErrConflict, db)
  else (Ok a, with_aws_accounts (<[aa_ID a := a]> (db_aws_accounts db)) db).

Definition GetAWSAccount (id : uuid) (db : DB) : result AWSAccount := one_row (db_aws_accounts db !! id).

Definition ListAWSAccounts (db : DB) : result (list AWSAccount) :=
  Ok (merge_sort (name_order aa_AccountID) (map_to_list (db_aws_accounts db)).*2).

Definition UpdateAWSAccount (now : Z) (a : AWSAccount) (db : DB) : result unit * DB :=
  if has (db_aws_accounts db) (aa_ID a) then
    if some_row (λ r, negb (bool_decide (aa_ID r = aa_ID a))
                      && bool_decide (aa_AccountID r = aa_AccountID a)) (db_aws_accounts db)
    then (Err ErrConflict, db)
    else (Ok tt, with_aws_accounts (alter (account_set a (column now)) (aa_ID a) (db_aws_accounts db)) db)
  else (Err ErrNotFound, db).

(** [DELETE FROM aws_roles WHERE b], with the cascade to the assignments and
    the revocations of the deleted roles. *)
Definition delete_roles (b : role_row → bool) (db : DB) : DB :=
  let gone i := match db_aws_roles db !! i with Some r => b r | None => false end in
  with_aws_roles (delete_where b (db_aws_roles db))
  (with_aws_role_assignments (delete_where (λ a, gone (ara_RoleID a)) (db_aws_role_assignments db))
  (with_aws_revoked_users
     (filter (λ kv : (uuid * string) * Z, gone kv.1.1 = false) (db_aws_revoked_users db)) db)).

Definition DeleteAWSAccount (id : uuid) (db : DB) : result unit * DB :=
  if has (db_aws_accounts db) id then
    (Ok tt, with_aws_accounts (delete id (db_aws_accounts db))
              (delete_roles (λ r, bool_decide (rr_account_id r = id)) db))
  else (Err ErrNotFound, db).

(** ** Roles *)

Definition scanAWSRole (r : role_row) : AWSRole :=
  {| ar_ID := rr_id r; ar_AccountID := rr_account_id r; ar_RoleARN := rr_role_arn r; ar_Slug := rr_slug r;
     ar_DisplayName := rr_display_name r; ar_RequireStepUpMFA := rr_require_step_up_mfa r;
     ar_MaxSessionDurationSec := rr_max_session_duration_sec r;
     ar_AllowedRegions := DecodeRegions (rr_allowed_regions r);
     ar_CreatedAt := rr_created_at r; ar_UpdatedAt := rr_updated_at r |}.

(** The defaults [CreateAWSRole] fills in. *)
Definition fill_role (fresh : uuid) (now : Z) (r : AWSRole) : AWSRole :=
  {| ar_ID := or_fresh fresh (ar_ID r); ar_AccountID := ar_AccountID r; ar_RoleARN := ar_RoleARN r;
     ar_Slug := ar_Slug r; ar_DisplayName := ar_DisplayName r;
     ar_RequireStepUpMFA := ar_RequireStepUpMFA r;
     ar_MaxSessionDurationSec :=
       if ar_MaxSessionDurationSec r =? 0 then 3600 else ar_MaxSessionDurationSec r;
     ar_AllowedRegions := ar_AllowedRegions r;
     ar_CreatedAt := created now (ar_CreatedAt r); ar_UpdatedAt := column now |}.

Definition role_row_of (r : AWSRole) : role_row :=
  {| rr_id := ar_ID r; rr_account_id := ar_AccountID r; rr_role_arn := ar_RoleARN r; rr_slug := ar_Slug r;
     rr_display_name := ar_DisplayName r; rr_require_step_up_mfa := ar_RequireStepUpMFA r;
     rr_max_session_duration_sec := ar_MaxSessionDurationSec r;
     rr_allowed_regions := EncodeRegions (ar_AllowedRegions r);
     rr_created_at := ar_CreatedAt r; rr_updated_at := ar_UpdatedAt r |}.

(** What the caller's struct holds afterwards: SQLite leaves it as filled in,
    PostgreSQL overwrites it with the row read back. *)
Definition role_answer (r : AWSRole) : AWSRole :=
  match dialect with SQLite => r | PostgreSQL _ => scanAWSRole (role_row_of r) end.

Definition CreateAWSRole (fresh : uuid) (now : Z) (r : AWSRole) (db : DB) : result AWSRole * DB :=
  let r := fill_role fresh now r in
  if has (db_aws_roles db) (ar_ID r)
     || some_row (λ x, bool_decide (rr_role_arn x = ar_RoleARN r)) (db_aws_roles db)
  then (Err ErrConflict, db)
  else if negb (has (db_aws_accounts db) (ar_AccountID r)) then (Err ErrOther, db)
  else (Ok (role_answer r), with_aws_roles (<[ar_ID r := role_row_of r]> (db_aws_roles db)) db).

Definition GetAWSRole (id : uuid) (db : DB) : result AWSRole := one_row (scanAWSRole <$> db_aws_roles db !! id).

Definition ListAWSRoles (db : DB) : result (list AWSRole) :=
  Ok (merge_sort (name_order ar_DisplayName) (scanAWSRole <$> (map_to_list (db_aws_roles db)).*2)).

Definition UpdateAWSRole (now : Z) (r : AWSRole) (db : DB) : result unit * DB :=
  if has (db_aws_roles db) (ar_ID r) then
    if some_row (λ x, negb (bool_decide (rr_id x = ar_ID r))
                      && bool_decide (rr_role_arn x = ar_RoleARN r)) (db_aws_roles db)
    then (Err ErrConflict, db)
    else (Ok tt, with_aws_roles (alter (role_set r (column now)) (ar_ID r) (db_aws_roles db)) db)
  else (Err ErrNotFound, db).

Definition DeleteAWSRole (id : uuid) (db : DB) : result unit * DB :=
  if has (db_aws_roles db) id
  then (Ok tt, delete_roles (λ r, bool_decide (rr_id r = id)) db)
  else (Err ErrNotFound, db).

(** ** Assignments *)

Definition CreateAWSRoleAssignment (fresh : uuid) (now : Z) (a : AWSRoleAssignment) (db : DB)
    : result AWSRoleAssignment * DB :=
  let a := {| ara_ID := or_fresh fresh (ara_ID a); ara_GroupID := ara_GroupID a; ara_RoleID := ara_RoleID a;
              ara_CreatedAt := created now (ara_CreatedAt a) |} in
  if has (db_aws_role_assignments db) (ara_ID a)
     || some_row (λ r, bool_decide ((ara_GroupID r, ara_RoleID r) = (ara_GroupID a, ara_RoleID a)))
          (db_aws_role_assignments db)
  then (Err ErrConflict, db)
  else if negb (has (db_scim_groups db) (ara_GroupID a)) || negb (has (db_aws_roles db) (ara_RoleID a))
  then (Err ErrOther, db)
  else (Ok a, with_aws_role_assignments (<[ara_ID a := a]> (db_aws_role_assignments db)) db).

Definition ListAWSRoleAssignments (db : DB) : result (list AWSRoleAssignment) :=
  Ok (rows_by ara_CreatedAt (λ _, true) (db_aws_role_assignments db)).

(** Is the role assigned to a group the user is in (the two JOINs of
    [ListAWSRolesForUser])? *)
Definition assigned_via_group (db : DB) (userID roleID : uuid) : bool :=
  some_row (λ a, bool_decide (ara_RoleID a = roleID)
                 && bool_decide ((ara_GroupID a, userID) ∈ db_scim_group_members db))
    (db_aws_role_assignments db).

Definition ListAWSRolesForUser (userID : uuid) (db : DB) : result (list AWSRole) :=
  Ok (merge_sort (name_order ar_DisplayName)
       (scanAWSRole <$> filter (λ r, assigned_via_group db userID (rr_id r) = true)
                          (map_to_list (db_aws_roles db)).*2)).

Definition DeleteAWSRoleAssignment (id : uuid) (db : DB) : result unit * DB :=
  if has (db_aws_role_assignments db) id
  then (Ok tt, with_aws_role_assignments (delete id (db_aws_role_assignments db)) db)
  else (Err ErrNotFound, db).

(** ** Revoked users *)

(** Upsert: a second revocation refreshes the time. *)
Definition AddAWSRevokedUser (now : Z) (roleID : uuid) (subUUID : string) (db : DB) : result unit * DB :=
  if has (db_aws_roles db) roleID
  then (Ok tt, with_aws_revoked_users (<[(roleID, subUUID) := column now]> (db_aws_revoked_users db)) db)
  else (Err ErrOther, db).

Definition revoked_of (kv : (uuid * string) * Z) : AWSRevokedUser :=
  {| arv_RoleID := kv.1.1; arv_SubUUID := kv.1.2; arv_RevokedAt := kv.2 |}.

Definition ListAWSRevokedUsers (roleID : uuid) (db : DB) : result (list AWSRevokedUser) :=
  Ok (merge_sort (key_le arv_RevokedAt)
       (filter (λ r, arv_RoleID r = roleID) (revoked_of <$> map_to_list (db_aws_revoked_users db)))).

Definition ListAWSRevokedUsersOlderThan (cutoff : Z) (db : DB) : result (list AWSRevokedUser) :=
  Ok (merge_sort (key_le arv_RevokedAt)
       (filter (λ r, arv_RevokedAt r < column cutoff) (revoked_of <$> map_to_list (db_aws_revoked_users db)))).

Definition DeleteAWSRevokedUser (roleID : uuid) (subUUID : string) (db : DB) : result unit * DB :=
  (Ok tt, with_aws_revoked_users (delete (roleID, subUUID) (db_aws_revoked_users db)) db).

(** ** External identifiers *)

Definition GetExternalID (provider : string) (userID : uuid) (db : DB) : result string :=
  one_row (db_external_ids db !! (provider, userID)).

Definition SetExternalID (provider : string) (userID : uuid) (externalID : string) (db : DB)
    : result unit * DB :=
  if has (db_users db) userID
  then (Ok tt, with_external_ids (<[(provider, userID) := externalID]> (db_external_ids db)) db)
  else (Err ErrOther, db).

Definition DeleteExternalID (provider : string) (userID : uuid) (db : DB) : result unit * DB :=
  (Ok tt, with_external_ids (delete (provider, userID) (db_external_ids db)) db).

(** ** Signing keys *)

Definition CreateSigningKey (now : Z) (k : SigningKey) (db : DB) : result unit * DB :=
  if has (db_signing_keys db) (sk_ID k)
     || some_row (λ r, bool_decide (sk_KID r = sk_KID k)) (db_signing_keys db)
  then (Err ErrOther, db)
  else (Ok tt, with_signing_keys
    (<[sk_ID k := {| sk_ID := sk_ID k; sk_EncryptedPrivateKey := sk_EncryptedPrivateKey k;
                     sk_EncryptedDEK := sk_EncryptedDEK k; sk_Algorithm := sk_Algorithm k;
                     sk_KID := sk_KID k; sk_Active := sk_Active k;
                     sk_CreatedAt := stamp now |}]> (db_signing_keys db)) db).

(** Newest first. *)
Definition ListActiveSigningKeys (db : DB) : result (list SigningKey) :=
  Ok (rows_by (λ k, - sk_CreatedAt k) sk_Active (db_signing_keys db)).

Definition GetActiveSigningKey (db : DB) : result SigningKey :=
  one_row (head (rows_by (λ k, - sk_CreatedAt k) sk_Active (db_signing_keys db))).

Definition DeactivateSigningKey (id : uuid) (db : DB) : result unit * DB :=
  (Ok tt, with_signing_keys (alter key_deactivate id (db_signing_keys db)) db).

(** ** Integrations *)

Definition CreateIntegration (fresh : uuid) (now : Z) (i : AppIntegration) (db : DB)
    : result AppIntegration * DB :=
  let i := {| ai_ID := or_fresh fresh (ai_ID i); ai_Name := ai_Name i; ai_Provider := ai_Provider i;
              ai_Enabled := ai_Enabled i; ai_Config := ai_Config i;
              ai_EncryptedToken := ai_EncryptedToken i; ai_EncryptedDEK := ai_EncryptedDEK i;
              ai_CreatedAt := created now (ai_CreatedAt i); ai_UpdatedAt := column now |} in
  if has (db_app_integrations db) (ai_ID i)
     || some_row (λ r, bool_decide (ai_Name r = ai_Name i)) (db_app_integrations db)
  then (Err ErrConflict, db)
  else (Ok i, with_app_integrations (<[ai_ID i := i]> (db_app_integrations db)) db).

Definition GetIntegration (id : uuid) (db : DB) : result AppIntegration :=
  one_row (db_app_integrations db !! id).

Definition GetIntegrationByName (name : string) (db : DB) : result AppIntegration :=
  one_row (find_row (λ r, bool_decide (ai_Name r = name)) (db_app_integrations db)).

Definition ListIntegrations (db : DB) : result (list AppIntegration) :=
  Ok (rows_by ai_CreatedAt (λ _, true) (db_app_integrations db)).

Definition ListEnabledIntegrations (db : DB) : result (list AppIntegration) :=
  Ok (rows_by ai_CreatedAt ai_Enabled (db_app_integrations db)).

Definition UpdateIntegration (now : Z) (i : AppIntegration) (db : DB) : result unit * DB :=
  if has (db_app_integrations db) (ai_ID i) then
    if some_row (λ r, negb (bool_decide (ai_ID r = ai_ID i)) && bool_decide (ai_Name r = ai_Name i))
         (db_app_integrations db)
    then (Err ErrConflict, db)
    else (Ok tt, with_app_integrations
            (alter (integration_set i (stamp now)) (ai_ID i) (db_app_integrations db)) db)
  else (Err ErrNotFound, db).

Definition DeleteIntegration (id : uuid) (db : DB) : result unit * DB :=
  if has (db_app_integrations db) id
  then (Ok tt, with_app_integrations (delete id (db_app_integrations db)) db)
  else (Err ErrNotFound, db).

End methods.
