(* ===== verification/Sql.v ===== *)
(** * SQL statements over a table

    What PostgreSQL does with the statements that [internal/store/postgres]
    sends, row by row: a SELECT keeps the rows its condition holds of, an
    INSERT or UPDATE is refused when it would leave two rows with one UNIQUE
    value ([unique_violation]) or a row whose foreign key dangles
    ([foreign_key_violation]), and a refused statement changes nothing.  No
    statement knows which column is the key of a table: that a condition on it
    picks one row is a fact about well-formed tables, proved here once for
    every table ([update_by_id], [select_by_id], [delete_by_id]). *)
From S2P Require Import Prelude GoStrings Model Dialect Tables SqliteUsers.

Local Open Scope Z_scope.

(** The SQLSTATE of a refused statement. *)
Inductive sqlstate : Set :=
| unique_violation
| foreign_key_violation.

(** [pgconn.PgError.Code]. *)
Definition Code (e : sqlstate) : string :=
  match e with unique_violation => "23505" | foreign_key_violation => "23503" end.

Definition pg_isUnique (e : sqlstate) : bool := bool_decide (Code e = "23505").

(** A table of the database, with its UNIQUE columns (do the two rows share the
    value of one of them?) and its foreign keys (do those of the row hit?). *)
Record table (K A : Type) `{Countable K} : Type := Table {
  t_rows : DB → gmap K A;
  t_with : gmap K A → DB → DB;
  t_unique : A → A → bool;
  t_refs : DB → A → bool;
}.
Arguments Table {K A _ _} _ _ _ _.
Arguments t_rows {K A _ _} _ _.
Arguments t_with {K A _ _} _ _ _.
Arguments t_unique {K A _ _} _ _ _.
Arguments t_refs {K A _ _} _ _ _.

(** Writing back the rows a table has changes nothing, what is written is read
    back, and sharing a UNIQUE value is symmetric. *)
Class TableOk {K A} `{Countable K} (t : table K A) : Prop := {
  with_rows d : t_with t (t_rows t d) d = d;
  rows_with m d : t_rows t (t_with t m d) = m;
  unique_sym x y : t_unique t x y = t_unique t y x;
}.

Section statements.
  Context {K A : Type} `{Countable K}.
  Implicit Types (t : table K A) (m : gmap K A) (b : A → bool) (f : A → A) (d : DB).

(** [SELECT ... WHERE b]; [map_to_list]'s order stands for the unspecified one. *)
Definition select b m : list A := filter (λ x, b x = true) (map_to_list m).*2.

(** [QueryRow(...).Scan]: the first row, [sql.ErrNoRows] becoming [ErrNotFound]. *)
Definition scan_one {B} (scan : A → B) (rows : list A) : result B :=
  match rows with [] => Err ErrNotFound | r :: _ => Ok (scan r) end.

(** The rows after [SET f WHERE b]. *)
Definition set_where b f m : gmap K A := (λ r, if b r then f r else r) <$> m.

(** Do two rows share a UNIQUE value? *)
Definition clash t m : bool :=
  existsb (λ kx, existsb (λ ky, negb (bool_decide (kx.1 = ky.1)) && t_unique t kx.2 ky.2) (map_to_list m))
    (map_to_list m).

(** [UPDATE ... SET f WHERE b]: the number of rows, or the refusal. *)
Definition update t b f d : (sqlstate + Z) * DB :=
  let m := set_where b f (t_rows t d) in
  let hit := select b (t_rows t d) in
  if clash t m then (inl unique_violation, d)
  else if forallb (λ r, t_refs t d (f r)) hit then (inr (Z.of_nat (length hit)), t_with t m d)
  else (inl foreign_key_violation, d).

(** Is the key taken, or a UNIQUE value? *)
Definition taken t (k : K) (row : A) d : bool :=
  has (t_rows t d) k || existsb (λ r, t_unique t r row) (map_to_list (t_rows t d)).*2.

(** [INSERT ... VALUES row] under the key [k]. *)
Definition insert_row t (k : K) (row : A) d : (sqlstate + A) * DB :=
  if taken t k row d then (inl unique_violation, d)
  else if t_refs t d row then (inr row, t_with t (<[k := row]> (t_rows t d)) d)
  else (inl foreign_key_violation, d).

(** [DELETE ... WHERE b] of a table nothing refers to: the number of rows. *)
Definition delete_rows t b d : Z * DB :=
  (Z.of_nat (length (select b (t_rows t d))), t_with t (delete_where b (t_rows t d)) d).

(** ** How the methods turn an outcome into Go's *)

(** [_, err := Exec(...); return err] *)
Definition just_err {B} (r : (sqlstate + B) * DB) : result unit * DB :=
  (match r.1 with inl _ => Err ErrOther | inr _ => Ok tt end, r.2).

(** [if isUnique(err) { return store.ErrConflict }; return err] *)
Definition err_or_conflict {B} (r : (sqlstate + B) * DB) : result B * DB :=
  (match r.1 with inl e => Err (if pg_isUnique e then ErrConflict else ErrOther) | inr x => Ok x end, r.2).

(** [if n, _ := res.RowsAffected(); n == 0 { return store.ErrNotFound }] *)
Definition require_row (r : result Z * DB) : result unit * DB :=
  (match r.1 with Err e => Err e | Ok n => if n =? 0 then Err ErrNotFound else Ok tt end, r.2).

Definition err_of {B} (r : (sqlstate + B) * DB) : result B * DB :=
  (match r.1 with inl _ => Err ErrOther | inr x => Ok x end, r.2).

(** ** A condition that picks one row *)

Lemma clash_false t m :
  clash t m = false ↔
  ∀ i j x y, m !! i = Some x → m !! j = Some y → t_unique t x y = true → i = j.
Proof.
  unfold clash. split.
  - intros Hc i j x y Hx Hy Hu. destruct (decide (i = j)) as [|Hne]; [done|].
    exfalso. apply not_true_iff_false in Hc. apply Hc. apply existsb_exists. exists (i, x).
    split; [by apply list_elem_of_In, elem_of_map_to_list|]. apply existsb_exists. exists (j, y).
    split; [by apply list_elem_of_In, elem_of_map_to_list|]. simpl.
    by rewrite bool_decide_eq_false_2, Hu.
  - intros Hall. apply not_true_iff_false. rewrite existsb_exists. intros ([i x] & Hx & Hy).
    apply existsb_exists in Hy as ([j y] & Hy & [Hne Hu]%andb_prop). simpl in *.
    apply list_elem_of_In, elem_of_map_to_list in Hx, Hy.
    apply negb_true_iff, bool_decide_eq_false in Hne. by apply Hne, (Hall i j x y).
Qed.

Lemma taken_false t k row d :
  taken t k row d = false ↔
  t_rows t d !! k = None ∧ ∀ i x, t_rows t d !! i = Some x → t_unique t x row = false.
Proof.
  unfold taken. rewrite orb_false_iff. unfold has. rewrite bool_decide_eq_false, <- eq_None_not_Some.
  apply and_iff_compat_l. rewrite <- not_true_iff_false, existsb_exists. split.
  - intros Hn i x Hx. apply not_true_iff_false. intros Hu. apply Hn. exists x. split; [|done].
    apply list_elem_of_In, list_elem_of_fmap. exists (i, x). split; [done|]. by apply elem_of_map_to_list.
  - intros Hall (x & ([i y] & -> & Hin%elem_of_map_to_list)%list_elem_of_In%list_elem_of_fmap & Hu).
    simpl in Hu. by rewrite (Hall i y) in Hu.
Qed.

End statements.

Lemma filter_none {A} (P : A → Prop) `{∀ x, Decision (P x)} (l : list A) :
  (∀ x, x ∈ l → ¬ P x) → filter P l = [].
Proof.
  intros Hn. destruct (filter P l) as [|x l'] eqn:E; [done|]. exfalso.
  assert (x ∈ filter P l) as [? ?]%list_elem_of_filter by (rewrite E; by left). by eapply Hn.
Qed.

Lemma has_intro {K A} `{Countable K} (m : gmap K A) k : is_Some (m !! k) → has m k = true.
Proof. apply bool_decide_eq_true_2. Qed.

Lemma alter_id_none {K A} `{Countable K} (f : A → A) (m : gmap K A) k : m !! k = None → alter f k m = m.
Proof. intros Hk. apply map_eq. intros j. rewrite lookup_alter. case_decide; by subst; rewrite ?Hk. Qed.

Lemma alter_const {K A} `{Countable K} (m : gmap K A) k x y : m !! k = Some x → alter (λ _, y) k m = <[k := y]> m.
Proof.
  intros Hk. apply map_eq. intros j. rewrite lookup_alter, lookup_insert. case_decide; subst; [by rewrite Hk|done].
Qed.

(** Filters that agree on a list's elements. *)
Lemma list_filter_iff' {A} (b b' : A → bool) (l : list A) :
  (∀ x, x ∈ l → b x = b' x) → filter (λ x, b x = true) l = filter (λ x, b' x = true) l.
Proof.
  induction l as [|x l IH]; [done|]. intros Hl. rewrite !filter_cons, (Hl x), IH; set_solver.
Qed.

(** Is [k] the key of a row that a DELETE with condition [b] removes? *)
Definition gone {A} (b : A → bool) (m : gmap uuid A) (k : uuid) : bool :=
  match m !! k with Some r => b r | None => false end.

Section by_column.
  Context {A : Type} (t : table uuid A).

Lemma scan_find {B} (scan : A → B) b (m : gmap uuid A) :
  scan_one scan (select b m) = one_row (scan <$> find_row b m).
Proof. unfold find_row, select. by destruct (filter _ _). Qed.

Lemma existsb_rows (b : A → bool) (m : gmap uuid A) : existsb b (map_to_list m).*2 = some_row b m.
Proof.
  unfold some_row, find_row. induction (map_to_list m).*2 as [|x l IH]; [done|]. simpl.
  rewrite filter_cons. destruct (b x); simpl; [done|]. by rewrite IH.
Qed.

Lemma existsb_false {B} (l : list B) : existsb (λ _, false) l = false.
Proof. by induction l. Qed.

Lemma insert_row_checks k row d :
  insert_row t k row d =
    if has (t_rows t d) k || some_row (λ r, t_unique t r row) (t_rows t d) then (inl unique_violation, d)
    else if t_refs t d row then (inr row, t_with t (<[k := row]> (t_rows t d)) d)
    else (inl foreign_key_violation, d).
Proof. unfold insert_row, taken. by rewrite existsb_rows. Qed.

Lemma clash_one_column {B} `{EqDecision B} (f : A → B) (m : gmap uuid A) :
  (∀ x y, t_unique t x y = bool_decide (f x = f y)) → unique_on f m → clash t m = false.
Proof.
  intros Hu Hm. apply clash_false. intros i j x y Hx Hy. rewrite Hu, bool_decide_eq_true. by apply Hm.
Qed.

Lemma clash_two_columns {B C} `{EqDecision B} `{EqDecision C} (f : A → B) (g : A → C) (m : gmap uuid A) :
  (∀ x y, t_unique t x y = bool_decide (f x = f y) || bool_decide (g x = g y)) →
  unique_on f m → unique_on g m → clash t m = false.
Proof.
  intros Hu Hm Hm'. apply clash_false. intros i j x y Hx Hy. rewrite Hu, orb_true_iff, !bool_decide_eq_true.
  intros [?|?]; [by eapply Hm|by eapply Hm'].
Qed.

Lemma clash_no_column (m : gmap uuid A) : (∀ x y, t_unique t x y = false) → clash t m = false.
Proof. intros Hu. apply clash_false. intros i j x y _ _. by rewrite Hu. Qed.

End by_column.

Section by_key.
  Context {A : Type} (id : A → uuid) (k : uuid) (m : gmap uuid A) (Hkey : keyed id m).
  Notation here := (λ r, bool_decide (id r = k)).

(** The condition on the key column picks the row under that key. *)
Lemma select_by_id : select here m = option_list (m !! k).
Proof.
  unfold select. destruct (m !! k) as [x|] eqn:Hx; simpl.
  - apply Permutation_singleton_r. rewrite <- (map_to_list_delete m k x Hx). simpl.
    rewrite filter_cons_True by (by apply bool_decide_eq_true_2, Hkey). apply Permutation_cons; [done|].
    rewrite filter_none; [done|]. intros y ([j z] & -> & Hin%elem_of_map_to_list)%list_elem_of_fmap.
    apply lookup_delete_Some in Hin as [Hne Hz]. simpl. rewrite (Hkey _ _ Hz).
    by rewrite bool_decide_eq_true.
  - apply filter_none. intros y ([j z] & -> & Hin%elem_of_map_to_list)%list_elem_of_fmap. simpl.
    rewrite (Hkey _ _ Hin), bool_decide_eq_true. congruence.
Qed.

Lemma set_where_by_id f : set_where here f m = alter f k m.
Proof.
  apply map_eq. intros j. unfold set_where. rewrite lookup_fmap, lookup_alter.
  destruct (m !! j) as [x|] eqn:Hx; simpl; [rewrite (Hkey _ _ Hx)|]; case_decide; subst; rewrite ?Hx; simpl.
  - by rewrite bool_decide_eq_true_2.
  - by rewrite bool_decide_eq_false_2.
  - done.
  - done.
Qed.

Lemma delete_where_by_id : delete_where here m = delete k m.
Proof.
  apply map_eq. intros j. destruct (decide (j = k)) as [->|Hne].
  - rewrite lookup_delete_eq. apply map_lookup_filter_None. right. intros x Hx. simpl.
    rewrite (Hkey _ _ Hx). by rewrite bool_decide_eq_true_2.
  - rewrite lookup_delete_ne by done. destruct (m !! j) as [x|] eqn:Hx.
    + apply map_lookup_filter_Some. split; [done|]. simpl. rewrite (Hkey _ _ Hx). by apply bool_decide_eq_false_2.
    + apply map_lookup_filter_None. by left.
Qed.

Lemma scan_by_id {B} (scan : A → B) : scan_one scan (select here m) = one_row (scan <$> m !! k).
Proof. rewrite select_by_id. by destruct (m !! k). Qed.

(** The keys of the rows a DELETE by key removes. *)
Lemma gone_by_id j : is_Some (m !! j) → gone here m j = bool_decide (j = k).
Proof. unfold gone. intros [x Hx]. by rewrite Hx, (Hkey _ _ Hx). Qed.

(** The rows it leaves dangling: those that refer to the key. *)
Lemma cascade_by_id {K' B} `{Countable K'} (fk : B → uuid) (m' : gmap K' B) :
  refers (Some ∘ fk) m' m → delete_where (λ x, gone here m (fk x)) m' = drop_fk fk k m'.
Proof.
  intros Hr. apply map_filter_ext. intros j x Hx. simpl.
  rewrite (gone_by_id (fk x)) by (by eapply Hr). repeat case_bool_decide; naive_solver.
Qed.

End by_key.

Section by_id.
  Context {A : Type} (t : table uuid A) `{!TableOk t} (id : A → uuid) (k : uuid) (d : DB).
  Notation m := (t_rows t d).
  Notation here := (λ r, bool_decide (id r = k)).
  Context (Hkey : keyed id m).

(** How many rows that is. *)
Definition hits : Z := if has m k then 1 else 0.

Lemma length_select_by_id : Z.of_nat (length (select here m)) = hits.
Proof. rewrite (select_by_id id k m Hkey). unfold hits, has. by destruct (m !! k). Qed.

(** An update that keeps the UNIQUE columns and the foreign keys. *)
Lemma update_by_id f :
  clash t m = false →
  (∀ x y, t_unique t (f x) y = t_unique t x y) →
  (∀ x, m !! k = Some x → t_refs t d (f x) = true) →
  update t here f d = (inr hits, t_with t (alter f k m) d).
Proof.
  intros Hc Hu Hr. unfold update. rewrite (set_where_by_id id k m Hkey), length_select_by_id, (select_by_id id k m Hkey).
  assert (clash t (alter f k m) = false) as ->.
  { rewrite clash_false in *. intros i j x y. rewrite !lookup_alter.
    assert (∀ x y, t_unique t x (f y) = t_unique t x y) as Hu' by (intros; by rewrite (unique_sym _ (f _)), Hu, unique_sym).
    repeat case_decide; subst; rewrite ?fmap_Some; intros; destruct_and?;
      repeat match goal with H : ∃ _, _ |- _ => destruct H as (? & ? & ->) end; rewrite ?Hu, ?Hu' in *; eauto. }
  destruct (m !! k) as [x|] eqn:Hx; simpl; [by rewrite Hr|done].
Qed.

(** An update that writes into UNIQUE columns what [clashes] tests for. *)
Lemma update_by_id_to f (clashes : A → bool) :
  clash t m = false →
  (∀ x y, t_unique t (f x) y = clashes y) →
  (∀ x, m !! k = Some x → t_refs t d (f x) = true) →
  update t here f d =
    if has m k && some_row (λ r, negb (bool_decide (id r = k)) && clashes r) m
    then (inl unique_violation, d) else (inr hits, t_with t (alter f k m) d).
Proof.
  intros Hc Hu Hr. unfold update. rewrite (set_where_by_id id k m Hkey), length_select_by_id, (select_by_id id k m Hkey).
  unfold has. destruct (m !! k) as [x|] eqn:Hx; cycle 1.
  { rewrite alter_id_none by done. by rewrite Hc. }
  rewrite bool_decide_eq_true_2 by eauto. simpl. rewrite (Hr x) by done. simpl.
  destruct (some_row _ _) eqn:Hs.
  - unfold some_row in Hs. destruct (find_row _ m) as [y|] eqn:Hf; [|done].
    apply find_row_Some in Hf as (j & Hy & [Hne Hcl]%andb_prop).
    rewrite (Hkey _ _ Hy) in Hne. apply negb_true_iff, bool_decide_eq_false in Hne.
    destruct (clash t (alter f k m)) eqn:E; [done|]. rewrite clash_false in E.
    exfalso. apply Hne. symmetry. apply (E k j (f x) y); [by rewrite lookup_alter_eq, Hx| |by rewrite Hu].
    by rewrite lookup_alter_ne.
  - assert (clash t (alter f k m) = false) as ->; [|done].
    assert (∀ j y, m !! j = Some y → j ≠ k → clashes y = false) as Hno.
    { intros j y Hy Hne. pose proof (some_row_false _ _ Hs _ _ Hy) as Hn. simpl in Hn.
      rewrite (Hkey _ _ Hy), bool_decide_eq_false_2 in Hn by done. done. }
    rewrite clash_false in *. intros i j y z. rewrite !lookup_alter.
    repeat case_decide; subst; rewrite ?Hx; simpl; intros; simplify_eq; try done.
    + match goal with H : t_unique t _ _ = true |- _ => rewrite Hu, (Hno _ _ ltac:(eassumption)) in H; done end.
    + match goal with H : t_unique t _ _ = true |- _ =>
        rewrite unique_sym, Hu, (Hno _ _ ltac:(eassumption)) in H; done end.
    + by eapply Hc.
Qed.

(** A guard beside the key: the update happens when the row satisfies it. *)
Lemma update_guarded (g : A → bool) f :
  clash t m = false →
  update t (λ r, bool_decide (id r = k) && g r) f d =
    match m !! k with
    | Some r => if g r then update t here f d else (inr 0, d)
    | None => (inr 0, d)
    end.
Proof.
  intros Hc.
  assert (∀ b : A → bool, (∀ j x, m !! j = Some x → b x = false) → update t b f d = (inr 0, d)) as Hnone.
  { intros b Hb. unfold update. replace (set_where b f m) with m.
    - rewrite Hc. unfold select. rewrite filter_none; [by rewrite with_rows|].
      intros y ([j z] & -> & Hin%elem_of_map_to_list)%list_elem_of_fmap. simpl. by rewrite (Hb j z).
    - apply map_eq. intros j. unfold set_where. rewrite lookup_fmap. destruct (m !! j) as [x|] eqn:Hx; [|done].
      simpl. by rewrite (Hb j x). }
  destruct (m !! k) as [r|] eqn:Hr; [destruct (g r) eqn:Hg|]; [| |].
  - assert (∀ j x, m !! j = Some x → bool_decide (id x = k) && g x = bool_decide (id x = k)) as Hsame.
    { intros j x Hx. case_bool_decide as He; [|done]. rewrite (Hkey _ _ Hx) in He. subst. by simplify_eq. }
    unfold update.
    assert (set_where (λ r, bool_decide (id r = k) && g r) f m = set_where here f m) as ->.
    { apply map_eq. intros j. unfold set_where. rewrite !lookup_fmap. destruct (m !! j) as [x|] eqn:Hx; [|done].
      simpl. by rewrite (Hsame j x). }
    assert (select (λ r, bool_decide (id r = k) && g r) m = select here m) as ->; [|done].
    unfold select. apply list_filter_iff'. intros x ([j y] & -> & Hin%elem_of_map_to_list)%list_elem_of_fmap.
    simpl. by rewrite (Hsame j y).
  - apply Hnone. intros j x Hx. case_bool_decide as He; [|done]. rewrite (Hkey _ _ Hx) in He. subst.
    by simplify_eq.
  - apply Hnone. intros j x Hx. case_bool_decide as He; [|done]. rewrite (Hkey _ _ Hx) in He. by simplify_eq.
Qed.

End by_id.
