(* ===== verification/PgUsers.v ===== *)
(** * PostgreSQL store: users, clients, groups and second factors

    One definition per method of [internal/store/postgres/postgres_users.go],
    [postgres_clients.go], [postgres_groups.go] and [postgres_mfa.go], as the
    statements they send ([Sql]).  [NOW()] is [stamp now]; a [time.Time]
    argument is cut to the column ([column]); a column an INSERT does not name
    takes its default, and [RETURNING] answers with the row as stored.  The
    [fresh] identifier is the column's [gen_random_uuid()] or the method's
    [uuid.New()].  [PgStore] proves that these methods and those of the
    [Sqlite] files, at the PostgreSQL dialect, are the same functions of a
    well-formed database. *)
From stdpp Require Import sorting.
From S2P Require Import Prelude GoStrings Model Dialect Tables SqliteUsers Sql.

Local Open Scope Z_scope.

(** ** Tables *)

(** The UNIQUE columns and the foreign keys of the migrations; the primary
    key is the index of the table. *)
Definition pg_users : table uuid User :=
  Table db_users with_users (λ r r', bool_decide (u_Email r = u_Email r')) (λ _ _, true).

Definition pg_clients : table uuid Client :=
  Table db_clients with_clients (λ r r', bool_decide (c_ClientID r = c_ClientID r')) (λ _ _, true).

Definition pg_groups : table uuid group_row :=
  Table db_scim_groups with_scim_groups (λ _ _, false) (λ _ _, true).

Definition pg_totp : table uuid TOTPCredential :=
  Table db_totp_credentials with_totp_credentials (λ r r', bool_decide (totp_UserID r = totp_UserID r'))
    (λ d r, has (db_users d) (totp_UserID r)).

Definition pg_webauthn : table uuid WebAuthnCredential :=
  Table db_webauthn_credentials with_webauthn_credentials
    (λ r r', bool_decide (wa_CredentialID r = wa_CredentialID r')) (λ d r, has (db_users d) (wa_UserID r)).

Definition pg_webauthn_sessions : table uuid wa_session_row :=
  Table db_webauthn_sessions with_webauthn_sessions (λ _ _, false) (λ d r, has (db_users d) (wsr_user_id r)).

Section methods.
  Context (collation : string → string → bool).
#[local] Instance pg : Dialect := PostgreSQL collation.

(** ** Users *)

(** The row the INSERT leaves: the columns it names, the others' defaults. *)
Definition pg_CreateUser (fresh : uuid) (now : Z) (email passwordHash name : string) (db : DB)
    : result User * DB :=
  err_or_conflict (insert_row pg_users fresh
    {| u_ID := fresh; u_Email := email; u_PasswordHash := passwordHash; u_Name := name; u_Active := true;
       u_SCIMExternalID := ""; u_MFAEnabled := false; u_IsAdmin := false; u_PasswordChangedAt := stamp now;
       u_FailedAttempts := 0; u_LockedUntil := None; u_MustChangePassword := false;
       u_CreatedAt := stamp now; u_UpdatedAt := stamp now |} db).

Definition pg_GetUserByID (id : uuid) (db : DB) : result User :=
  scan_one (λ u, u) (select (λ r, bool_decide (u_ID r = id)) (db_users db)).

Definition pg_GetUserByEmail (email : string) (db : DB) : result User :=
  scan_one (λ u, u) (select (λ r, bool_decide (u_Email r = email)) (db_users db)).

Definition pg_CountUsers (db : DB) : result Z := Ok (Z.of_nat (length (select (λ _, true) (db_users db)))).

Definition pg_ListUsers (db : DB) : result (list User) :=
  Ok (merge_sort (key_le u_CreatedAt) (select (λ _, true) (db_users db))).

(** [UPDATE users SET f WHERE id = $1] *)
Definition pg_update_user (f : User → User) (id : uuid) (db : DB) : result unit * DB :=
  just_err (update pg_users (λ r, bool_decide (u_ID r = id)) f db).

Definition pg_UpdateUser (now : Z) (id : uuid) (name : string) (active : bool) : DB → result unit * DB :=
  pg_update_user (user_set_profile name active (stamp now)) id.

Definition pg_UpdateUserPassword (now : Z) (id : uuid) (passwordHash : string) : DB → result unit * DB :=
  pg_update_user (user_set_password passwordHash (stamp now)) id.

Definition pg_SetUserMustChangePassword (now : Z) (id : uuid) (flag : bool) : DB → result unit * DB :=
  pg_update_user (user_set_must_change flag (stamp now)) id.

Definition pg_UpdateUserMFAEnabled (now : Z) (id : uuid) (enabled : bool) : DB → result unit * DB :=
  pg_update_user (user_set_mfa enabled (stamp now)) id.

Definition pg_UpdateUserFailedAttempts (now : Z) (id : uuid) (count : Z) (lockedUntil : option Z)
    : DB → result unit * DB :=
  pg_update_user (user_set_failed count (column <$> lockedUntil) (stamp now)) id.

Definition pg_SetUserActive (now : Z) (id : uuid) (active : bool) : DB → result unit * DB :=
  pg_update_user (user_set_active active (stamp now)) id.

Definition pg_SetUserSCIMExternalID (now : Z) (id : uuid) (externalID : string) : DB → result unit * DB :=
  pg_update_user (user_set_scim externalID (stamp now)) id.

Definition pg_SetUserAdmin (now : Z) (id : uuid) (isAdmin : bool) : DB → result unit * DB :=
  pg_update_user (user_set_admin isAdmin (stamp now)) id.

(** [DELETE FROM users WHERE id = $1]; the rows that refer to a deleted user
    are deleted (CASCADE) or forget it (SET NULL). *)
Definition pg_DeleteUser (id : uuid) (db : DB) : result unit * DB :=
  let dead := gone (λ u, bool_decide (u_ID u = id)) (db_users db) in
  (Ok tt,
   with_users (delete_where (λ u, bool_decide (u_ID u = id)) (db_users db))
   (with_grants (delete_where (λ r, dead (gr_user_id r)) (db_grants db))
   (with_totp_credentials (delete_where (λ r, dead (totp_UserID r)) (db_totp_credentials db))
   (with_webauthn_credentials (delete_where (λ r, dead (wa_UserID r)) (db_webauthn_credentials db))
   (with_webauthn_sessions (delete_where (λ r, dead (wsr_user_id r)) (db_webauthn_sessions db))
   (with_scim_group_members (filter (λ gu, dead gu.2 = false) (db_scim_group_members db))
   (with_external_ids (filter (λ kv : (string * uuid) * string, dead kv.1.2 = false) (db_external_ids db))
   (with_device_grants ((λ r, match dr_user_id r with
                              | Some u => if dead u then device_forget_user r else r
                              | None => r
                              end) <$> db_device_grants db)
   (delete_sessions (λ r, match sr_user_id r with Some u => dead u | None => false end) db))))))))).

(** ** Clients *)

Definition pg_CreateClient (fresh : uuid) (now : Z) (clientID clientSecretHash name : string)
    (redirectURIs scopes : list string) (public : bool) (backchannelLogoutURI : option string)
    (db : DB) : result Client * DB :=
  err_or_conflict (insert_row pg_clients fresh
    {| c_ID := fresh; c_ClientID := clientID; c_ClientSecretHash := clientSecretHash; c_Name := name;
       c_RedirectURIs := redirectURIs; c_Scopes := scopes; c_Public := public;
       c_BackchannelLogoutURI := backchannelLogoutURI; c_ShowInPortal := false; c_LaunchURL := "";
       c_BrandColor := ""; c_IconURL := ""; c_VisibleToAll := false; c_AllowDeviceGrant := false;
       c_SecretRotatedAt := stamp now; c_CreatedAt := stamp now |} db).

Definition pg_GetClientByID (id : uuid) (db : DB) : result Client :=
  scan_one (λ c, c) (select (λ r, bool_decide (c_ID r = id)) (db_clients db)).

Definition pg_GetClientByClientID (clientID : string) (db : DB) : result Client :=
  scan_one (λ c, c) (select (λ r, bool_decide (c_ClientID r = clientID)) (db_clients db)).

Definition pg_ListClients (db : DB) : result (list Client) :=
  Ok (merge_sort (key_le c_CreatedAt) (select (λ _, true) (db_clients db))).

(** [UPDATE clients SET f WHERE id = $1] *)
Definition pg_update_client (f : Client → Client) (id : uuid) (db : DB) : (sqlstate + Z) * DB :=
  update pg_clients (λ r, bool_decide (c_ID r = id)) f db.

Definition pg_UpdateClient (id : uuid) (name : string) (redirectURIs scopes : list string)
    (public : bool) (backchannelLogoutURI : option string) (db : DB) : result unit * DB :=
  just_err (pg_update_client (client_set_core name redirectURIs scopes public backchannelLogoutURI) id db).

Definition pg_UpdateClientDeviceGrant (id : uuid) (allow : bool) (db : DB) : result unit * DB :=
  require_row (err_of (pg_update_client (client_set_device allow) id db)).

Definition pg_UpdateClientSecret (now : Z) (id : uuid) (secretHash : string) (db : DB) : result unit * DB :=
  just_err (pg_update_client (client_set_secret secretHash (stamp now)) id db).

Definition pg_DeleteClient (id : uuid) (db : DB) : result unit * DB :=
  let dead := gone (λ c, bool_decide (c_ID c = id)) (db_clients db) in
  (Ok tt,
   with_clients (delete_where (λ c, bool_decide (c_ID c = id)) (db_clients db))
   (with_grants (delete_where (λ r, dead (gr_client_id r)) (db_grants db))
   (with_client_visibility (filter (λ kv : (uuid * uuid) * Z, dead kv.1.1 = false) (db_client_visibility db))
   (with_device_grants (delete_where (λ r, dead (dr_client_id r)) (db_device_grants db))
   (delete_sessions (λ r, dead (sr_client_id r)) db))))).

Definition pg_UpdateClientPortalConfig (id : uuid) (showInPortal : bool)
    (launchURL brandColor iconURL : string) (visibleToAll : bool) (db : DB) : result unit * DB :=
  require_row (err_of
    (pg_update_client (client_set_portal showInPortal launchURL brandColor iconURL visibleToAll) id db)).

(** The transaction's loop of INSERTs: [None] when one is refused (a client or
    group that does not exist), which rolls everything back. *)
Fixpoint pg_insert_visibility (db : DB) (clientID : uuid) (created : Z) (gids : list uuid)
    (vis : gmap (uuid * uuid) Z) : option (gmap (uuid * uuid) Z) :=
  match gids with
  | [] => Some vis
  | gid :: gids =>
      match vis !! (clientID, gid) with
      | Some _ => pg_insert_visibility db clientID created gids vis
      | None =>
          if has (db_clients db) clientID && has (db_scim_groups db) gid
          then pg_insert_visibility db clientID created gids (<[(clientID, gid) := created]> vis)
          else None
      end
  end.

Definition pg_ReplaceClientVisibility (now : Z) (clientID : uuid) (groupIDs : list uuid) (db : DB)
    : result unit * DB :=
  match pg_insert_visibility db clientID (stamp now) groupIDs
          (filter (λ kv : (uuid * uuid) * Z, kv.1.1 ≠ clientID) (db_client_visibility db)) with
  | Some vis => (Ok tt, with_client_visibility vis db)
  | None => (Err ErrOther, db)
  end.

Definition pg_ListClientVisibility (clientID : uuid) (db : DB) : result (list uuid) :=
  Ok ((λ kv : (uuid * uuid) * Z, kv.1.2) <$>
       merge_sort (key_le snd) (filter (λ kv, kv.1.1 = clientID) (map_to_list (db_client_visibility db)))).

(** The [m.user_id]s that the two LEFT JOINs pair a client with: a group it is
    visible to and that the user is in. *)
Definition pg_joined_members (db : DB) (userID clientID : uuid) : list uuid :=
  v ← map_to_list (db_client_visibility db);
  if bool_decide (v.1.1 = clientID) && bool_decide ((v.1.2, userID) ∈ db_scim_group_members db)
  then [userID] else [].

Definition pg_ListPortalClientsForUser (userID : uuid) (db : DB) : result (list Client) :=
  Ok (merge_sort (name_order c_Name)
       (select (λ c, c_ShowInPortal c
                     && (c_VisibleToAll c || bool_decide (userID ∈ pg_joined_members db userID (c_ID c))))
          (db_clients db))).

(** ** Groups *)

(** The struct has Go's time, the row the database's. *)
Definition pg_CreateGroup (fresh : uuid) (now : Z) (displayName : string) (db : DB) : result SCIMGroup * DB :=
  let r := err_of (insert_row pg_groups fresh (mk_group_row fresh displayName (stamp now) (stamp now)) db) in
  (match r.1 with
   | Ok _ => Ok {| grp_ID := fresh; grp_DisplayName := displayName; grp_Members := [];
                   grp_CreatedAt := now; grp_UpdatedAt := now |}
   | Err e => Err e
   end, r.2).

Definition pg_groupMembers (groupID : uuid) (db : DB) : list uuid :=
  merge_sort N.le ((filter (λ gu, gu.1 = groupID) (elements (db_scim_group_members db))).*2).

Definition pg_scan_group (db : DB) (r : group_row) : SCIMGroup :=
  {| grp_ID := gpr_id r; grp_DisplayName := gpr_display_name r;
     grp_Members := pg_groupMembers (gpr_id r) db;
     grp_CreatedAt := gpr_created_at r; grp_UpdatedAt := gpr_updated_at r |}.

Definition pg_GetGroupByID (id : uuid) (db : DB) : result SCIMGroup :=
  scan_one (pg_scan_group db) (select (λ r, bool_decide (gpr_id r = id)) (db_scim_groups db)).

Definition pg_ListGroups (db : DB) : result (list SCIMGroup) :=
  Ok (pg_scan_group db <$> merge_sort (key_le gpr_created_at) (select (λ _, true) (db_scim_groups db))).

Definition pg_UpdateGroup (now : Z) (id : uuid) (displayName : string) (db : DB) : result unit * DB :=
  just_err (update pg_groups (λ r, bool_decide (gpr_id r = id)) (group_set_name displayName (stamp now)) db).

(** The same loop as above, over the members. *)
Fixpoint pg_insert_members (db : DB) (groupID : uuid) (uids : list uuid) (ms : gset (uuid * uuid))
    : option (gset (uuid * uuid)) :=
  match uids with
  | [] => Some ms
  | uid :: uids =>
      if decide ((groupID, uid) ∈ ms) then pg_insert_members db groupID uids ms
      else if has (db_scim_groups db) groupID && has (db_users db) uid
      then pg_insert_members db groupID uids ({[ (groupID, uid) ]} ∪ ms)
      else None
  end.

Definition pg_ReplaceGroupMembers (groupID : uuid) (memberIDs : list uuid) (db : DB) : result unit * DB :=
  match pg_insert_members db groupID memberIDs
          (filter (λ gu, gu.1 ≠ groupID) (db_scim_group_members db)) with
  | Some ms => (Ok tt, with_scim_group_members ms db)
  | None => (Err ErrOther, db)
  end.

Definition pg_AddGroupMember (groupID userID : uuid) (db : DB) : result unit * DB :=
  match pg_insert_members db groupID [userID] (db_scim_group_members db) with
  | Some ms => (Ok tt, with_scim_group_members ms db)
  | None => (Err ErrOther, db)
  end.

Definition pg_RemoveGroupMember (groupID userID : uuid) (db : DB) : result unit * DB :=
  (Ok tt, with_scim_group_members
     (filter (λ gu, ¬ (gu.1 = groupID ∧ gu.2 = userID)) (db_scim_group_members db)) db).

Definition pg_DeleteGroup (id : uuid) (db : DB) : result unit * DB :=
  let dead := gone (λ g, bool_decide (gpr_id g = id)) (db_scim_groups db) in
  (Ok tt,
   with_scim_groups (delete_where (λ g, bool_decide (gpr_id g = id)) (db_scim_groups db))
   (with_scim_group_members (filter (λ gu, dead gu.1 = false) (db_scim_group_members db))
   (with_client_visibility (filter (λ kv : (uuid * uuid) * Z, dead kv.1.2 = false) (db_client_visibility db))
   (with_aws_role_assignments (delete_where (λ r, dead (ara_GroupID r)) (db_aws_role_assignments db)) db)))).

(** ** Second factors *)

Definition pg_CreateTOTPCredential (now : Z) (c : TOTPCredential) (db : DB) : result unit * DB :=
  let r := err_or_conflict (insert_row pg_totp (totp_ID c)
    {| totp_ID := totp_ID c; totp_UserID := totp_UserID c; totp_EncryptedSecret := totp_EncryptedSecret c;
       totp_EncryptedDEK := totp_EncryptedDEK c; totp_Enabled := totp_Enabled c;
       totp_CreatedAt := stamp now |} db) in
  (match r.1 with Ok _ => Ok tt | Err e => Err e end, r.2).

Definition pg_GetTOTPByUserID (userID : uuid) (db : DB) : result TOTPCredential :=
  scan_one (λ c, c) (select (λ r, bool_decide (totp_UserID r = userID)) (db_totp_credentials db)).

Definition pg_EnableTOTP (id : uuid) (db : DB) : result unit * DB :=
  just_err (update pg_totp (λ r, bool_decide (totp_ID r = id)) totp_set_enabled db).

Definition pg_DeleteTOTP (userID : uuid) (db : DB) : result unit * DB :=
  (Ok tt, (delete_rows pg_totp (λ r, bool_decide (totp_UserID r = userID)) db).2).

Definition pg_CreateWebAuthnCredential (now : Z) (c : WebAuthnCredential) (db : DB) : result unit * DB :=
  let r := err_or_conflict (insert_row pg_webauthn (wa_ID c)
    {| wa_ID := wa_ID c; wa_UserID := wa_UserID c; wa_CredentialID := wa_CredentialID c;
       wa_PublicKey := wa_PublicKey c; wa_AAGUID := wa_AAGUID c; wa_SignCount := wa_SignCount c;
       wa_BackupEligible := wa_BackupEligible c; wa_BackupState := wa_BackupState c;
       wa_DeviceName := wa_DeviceName c; wa_CreatedAt := stamp now; wa_LastUsedAt := stamp now |} db) in
  (match r.1 with Ok _ => Ok tt | Err e => Err e end, r.2).

Definition pg_ListWebAuthnCredentials (userID : uuid) (db : DB) : result (list WebAuthnCredential) :=
  Ok (merge_sort (key_le wa_CreatedAt)
       (select (λ r, bool_decide (wa_UserID r = userID)) (db_webauthn_credentials db))).

Definition pg_UpdateWebAuthnCredentialUse (id : uuid) (signCount : Z) (backupEligible backupState : bool)
    (lastUsed : Z) (db : DB) : result unit * DB :=
  just_err (update pg_webauthn (λ r, bool_decide (wa_ID r = id))
    (wa_set_use signCount backupEligible backupState (column lastUsed)) db).

Definition pg_DeleteWebAuthnCredential (id userID : uuid) (db : DB) : result unit * DB :=
  (Ok tt, (delete_rows pg_webauthn (λ r, bool_decide (wa_ID r = id) && bool_decide (wa_UserID r = userID)) db).2).

(** [expires_at] defaults to [NOW() + INTERVAL '5 minutes']. *)
Definition pg_CreateWebAuthnSession (fresh : uuid) (now : Z) (userID : uuid) (data purpose : string) (db : DB)
    : result uuid * DB :=
  let r := err_of (insert_row pg_webauthn_sessions fresh
    (mk_wa_session_row userID data purpose (stamp now + 5 * Minute) (stamp now)) db) in
  (match r.1 with Ok _ => Ok fresh | Err e => Err e end, r.2).

Definition pg_GetWebAuthnSession (now : Z) (id userID : uuid) (purpose : string) (db : DB) : result string :=
  scan_one (λ kr : uuid * wa_session_row, wsr_session_data kr.2)
    (filter (λ kr : uuid * wa_session_row,
       kr.1 = id ∧ wsr_user_id kr.2 = userID ∧ wsr_purpose kr.2 = purpose ∧ stamp now < wsr_expires_at kr.2)
       (map_to_list (db_webauthn_sessions db))).

Definition pg_DeleteWebAuthnSession (id : uuid) (db : DB) : result unit * DB :=
  (Ok tt, with_webauthn_sessions (filter (λ kr : uuid * wa_session_row, kr.1 ≠ id) (db_webauthn_sessions db)) db).

End methods.
