(* ===== verification/PgTokens.v ===== *)
(** * PostgreSQL store: authorization codes, sessions and device grants

    One definition per method of [internal/store/postgres/postgres_grants.go],
    [postgres_sessions.go] and [postgres_device_grants.go]; the conventions are
    those of [PgUsers].  The updates that make a credential single-use carry
    their guard in the WHERE clause and look at the number of rows. *)
From stdpp Require Import sorting.
From S2P Require Import Prelude GoStrings Model Dialect Tables SqliteUsers SqliteTokens Sql PgUsers.

Local Open Scope Z_scope.

Definition pg_grants : table uuid grant_row :=
  Table db_grants with_grants (λ r r', bool_decide (gr_code_hash r = gr_code_hash r'))
    (λ d r, has (db_users d) (gr_user_id r) && has (db_clients d) (gr_client_id r)).

(** [user_id] may be NULL. *)
Definition pg_sessions : table uuid session_row :=
  Table db_sessions with_sessions
    (λ r r', bool_decide (sr_access_token_hash r = sr_access_token_hash r')
             || bool_decide (sr_refresh_token_hash r = sr_refresh_token_hash r'))
    (λ d r, match sr_user_id r with Some u => has (db_users d) u | None => true end
            && has (db_clients d) (sr_client_id r)).

Definition pg_devices : table uuid device_row :=
  Table db_device_grants with_device_grants
    (λ r r', bool_decide (dr_device_code_hash r = dr_device_code_hash r')
             || bool_decide (dr_user_code_hash r = dr_user_code_hash r'))
    (λ d r, has (db_clients d) (dr_client_id r)
            && match dr_user_id r with Some u => has (db_users d) u | None => true end).

Section methods.
  Context (collation : string → string → bool).
#[local] Instance pg : Dialect := PostgreSQL collation.

(** ** Authorization codes *)

Definition pg_scanGrant (r : grant_row) : Grant :=
  {| g_ID := gr_id r; g_UserID := gr_user_id r; g_ClientID := gr_client_id r;
     g_CodeHash := gr_code_hash r; g_CodeChallenge := gr_code_challenge r; g_Nonce := gr_nonce r;
     g_Scopes := gr_scopes r; g_RedirectURI := gr_redirect_uri r; g_ExpiresAt := gr_expires_at r;
     g_UsedAt := gr_used_at r; g_MFAVerifiedAt := gr_mfa_verified_at r;
     g_AuthTime := match gr_auth_time r with Some t => t | None => 0 end |}.

Definition pg_CreateGrant (g : Grant) (db : DB) : result unit * DB :=
  just_err (insert_row pg_grants (g_ID g)
    {| gr_id := g_ID g; gr_user_id := g_UserID g; gr_client_id := g_ClientID g;
       gr_code_hash := g_CodeHash g; gr_code_challenge := g_CodeChallenge g; gr_nonce := g_Nonce g;
       gr_scopes := g_Scopes g; gr_redirect_uri := g_RedirectURI g; gr_expires_at := column (g_ExpiresAt g);
       gr_used_at := None; gr_mfa_verified_at := column <$> g_MFAVerifiedAt g;
       gr_auth_time := if IsZero (g_AuthTime g) then None else Some (column (g_AuthTime g)) |} db).

Definition pg_GetGrantByCodeHash (codeHash : string) (db : DB) : result Grant :=
  scan_one pg_scanGrant (select (λ r, bool_decide (gr_code_hash r = codeHash)) (db_grants db)).

(** [requireOneRow] of the result. *)
Definition pg_requireOneRow (n : Z) : result unit := if n =? 0 then Err ErrNotFound else Ok tt.

Definition pg_MarkGrantUsed (now : Z) (id : uuid) (db : DB) : result unit * DB :=
  let '(r, db') := update pg_grants
    (λ r, bool_decide (gr_id r = id) && bool_decide (gr_used_at r = None))
    (grant_set_used (stamp now)) db in
  match r with
  | inl _ => (Err ErrOther, db')
  | inr n => (pg_requireOneRow n, db')
  end.

Definition pg_DeleteExpiredGrants (now : Z) (db : DB) : result unit * DB :=
  (Ok tt, (delete_rows pg_grants (λ r, gr_expires_at r <? stamp now) db).2).

(** ** Sessions *)

Definition pg_scanSession (r : session_row) : Session :=
  {| s_ID := sr_id r; s_UserID := match sr_user_id r with Some u => u | None => uuid_nil end;
     s_ClientID := sr_client_id r;
     s_AccessTokenHash := sr_access_token_hash r; s_RefreshTokenHash := sr_refresh_token_hash r;
     s_Scopes := sr_scopes r; s_AccessExpiresAt := sr_access_expires_at r;
     s_RefreshExpiresAt := sr_refresh_expires_at r; s_LastActivityAt := sr_last_activity_at r;
     s_MFAVerified := sr_mfa_verified r; s_MFAVerifiedAt := sr_mfa_verified_at r;
     s_AuthTime := match sr_auth_time r with Some t => t | None => 0 end; s_CreatedAt := sr_created_at r |}.

Definition pg_CreateSession (now : Z) (s : Session) (db : DB) : result unit * DB :=
  just_err (insert_row pg_sessions (s_ID s)
    {| sr_id := s_ID s;
       sr_user_id := if bool_decide (s_UserID s = uuid_nil) then None else Some (s_UserID s);
       sr_client_id := s_ClientID s; sr_access_token_hash := s_AccessTokenHash s;
       sr_refresh_token_hash := s_RefreshTokenHash s; sr_scopes := s_Scopes s;
       sr_access_expires_at := column (s_AccessExpiresAt s);
       sr_refresh_expires_at := column (s_RefreshExpiresAt s); sr_last_activity_at := stamp now;
       sr_mfa_verified := s_MFAVerified s; sr_mfa_verified_at := column <$> s_MFAVerifiedAt s;
       sr_auth_time := if IsZero (s_AuthTime s) then None else Some (column (s_AuthTime s));
       sr_created_at := stamp now |} db).

(** [UPDATE sessions SET f WHERE id = $1] *)
Definition pg_update_session (f : session_row → session_row) (id : uuid) (db : DB) : result unit * DB :=
  just_err (update pg_sessions (λ r, bool_decide (sr_id r = id)) f db).

Definition pg_MarkSessionMFA (id : uuid) (when : Z) : DB → result unit * DB :=
  pg_update_session (session_set_mfa (column when)) id.

Definition pg_GetSessionByAccessTokenHash (hash : string) (db : DB) : result Session :=
  scan_one pg_scanSession (select (λ r, bool_decide (sr_access_token_hash r = hash)) (db_sessions db)).

Definition pg_GetSessionByRefreshTokenHash (hash : string) (db : DB) : result Session :=
  scan_one pg_scanSession (select (λ r, bool_decide (sr_refresh_token_hash r = hash)) (db_sessions db)).

Definition pg_UpdateSessionActivity (id : uuid) (lastActivity : Z) : DB → result unit * DB :=
  pg_update_session (session_set_activity (column lastActivity)) id.

Definition pg_ExtendSessionExpiry (id : uuid) (newExpiry : Z) : DB → result unit * DB :=
  pg_update_session (session_set_expiry (column newExpiry)) id.

(** The transaction: the guarded UPDATE, [requireOneRow], the INSERT (ON
    CONFLICT DO NOTHING) of the retired token; an error rolls it back. *)
Definition pg_RotateRefreshToken (id : uuid) (oldRefreshHash newAccessHash newRefreshHash : string)
    (newAccessExpiry newRefreshExpiry : Z) (db : DB) : result unit * DB :=
  let '(r, db1) := update pg_sessions
    (λ r, bool_decide (sr_id r = id) && bool_decide (sr_refresh_token_hash r = oldRefreshHash))
    (session_rotate newAccessHash newRefreshHash (column newAccessExpiry) (column newRefreshExpiry)) db in
  match r with
  | inl _ => (Err ErrOther, db)
  | inr n =>
      match pg_requireOneRow n with
      | Err e => (Err e, db)
      | Ok _ =>
          match db_retired_refresh_tokens db1 !! oldRefreshHash with
          | Some _ => (Ok tt, db1)
          | None =>
              if has (db_sessions db1) id
              then (Ok tt, with_retired_refresh_tokens
                             (<[oldRefreshHash := id]> (db_retired_refresh_tokens db1)) db1)
              else (Err ErrOther, db)
          end
      end
  end.

(** [WHERE id = (SELECT session_id FROM retired_refresh_tokens WHERE ...)] *)
Definition pg_GetSessionByRetiredRefreshTokenHash (hash : string) (db : DB) : result Session :=
  scan_one pg_scanSession
    (select (λ r, bool_decide (db_retired_refresh_tokens db !! hash = Some (sr_id r))) (db_sessions db)).

Definition pg_DeleteSession (id : uuid) (db : DB) : result unit * DB :=
  (Ok tt, delete_sessions (λ r, bool_decide (sr_id r = id)) db).

Definition pg_DeleteSessionsByUserID (userID : uuid) (db : DB) : result unit * DB :=
  (Ok tt, delete_sessions (λ r, bool_decide (sr_user_id r = Some userID)) db).

Definition pg_ListSessionClientIDsByUser (userID : uuid) (db : DB) : result (list uuid) :=
  Ok (remove_dups (sr_client_id <$> select (λ r, bool_decide (sr_user_id r = Some userID)) (db_sessions db))).

Definition pg_DeleteExpiredSessions (now : Z) (db : DB) : result unit * DB :=
  (Ok tt, delete_sessions (λ r, sr_refresh_expires_at r <? stamp now) db).

(** ** Device grants (RFC 8628) *)

Definition pg_scanDeviceGrant `{UnicodeTables} (r : device_row) : DeviceGrant :=
  {| dg_ID := dr_id r; dg_DeviceCodeHash := dr_device_code_hash r;
     dg_UserCodeHash := dr_user_code_hash r; dg_ClientID := dr_client_id r;
     dg_Scopes := if negb (bool_decide (dr_scopes r = "")) then Fields (dr_scopes r) else [];
     dg_Status := dr_status r; dg_UserID := dr_user_id r; dg_MFAVerified := dr_mfa_verified r;
     dg_MFAVerifiedAt := dr_mfa_verified_at r; dg_ApproverIP := dr_approver_ip r;
     dg_IntervalSec := dr_interval_sec r; dg_LastPolledAt := dr_last_polled_at r;
     dg_CreatedAt := dr_created_at r; dg_ExpiresAt := dr_expires_at r |}.

Definition pg_CreateDeviceGrant (fresh : uuid) (now : Z) (g : DeviceGrant) (db : DB) : result DeviceGrant * DB :=
  let g := device_filled fresh g in
  let r := err_or_conflict (insert_row pg_devices (dg_ID g)
    {| dr_id := dg_ID g; dr_device_code_hash := dg_DeviceCodeHash g; dr_user_code_hash := dg_UserCodeHash g;
       dr_client_id := dg_ClientID g; dr_scopes := Join (dg_Scopes g) " "; dr_status := dg_Status g;
       dr_user_id := None; dr_mfa_verified := false; dr_mfa_verified_at := None; dr_approver_ip := "";
       dr_interval_sec := dg_IntervalSec g; dr_last_polled_at := None; dr_created_at := stamp now;
       dr_expires_at := column (dg_ExpiresAt g) |} db) in
  (match r.1 with Ok _ => Ok g | Err e => Err e end, r.2).

Definition pg_GetDeviceGrantByDeviceCodeHash `{UnicodeTables} (hash : string) (db : DB) : result DeviceGrant :=
  scan_one pg_scanDeviceGrant (select (λ r, bool_decide (dr_device_code_hash r = hash)) (db_device_grants db)).

Definition pg_GetDeviceGrantByUserCodeHash `{UnicodeTables} (hash : string) (db : DB) : result DeviceGrant :=
  scan_one pg_scanDeviceGrant (select (λ r, bool_decide (dr_user_code_hash r = hash)) (db_device_grants db)).

(** [UPDATE device_grants SET f WHERE id = $1 AND status = from]; zero rows is
    [ErrNotFound]. *)
Definition pg_device_update (from : string) (f : device_row → device_row) (id : uuid) (db : DB)
    : result unit * DB :=
  require_row (err_of (update pg_devices
    (λ r, bool_decide (dr_id r = id) && bool_decide (dr_status r = from)) f db)).

Definition pg_MarkDeviceGrantApproved (id userID : uuid) (mfaVerified : bool) (mfaVerifiedAt : option Z)
    (approverIP : string) : DB → result unit * DB :=
  pg_device_update DeviceGrantStatusPending
    (device_approve userID mfaVerified (column <$> mfaVerifiedAt) approverIP) id.

Definition pg_MarkDeviceGrantDenied (id : uuid) (approverIP : string) : DB → result unit * DB :=
  pg_device_update DeviceGrantStatusPending (device_deny approverIP) id.

Definition pg_MarkDeviceGrantRedeemed (id : uuid) : DB → result unit * DB :=
  pg_device_update DeviceGrantStatusApproved device_redeem id.

Definition pg_UpdateDeviceGrantPoll (id : uuid) (now : Z) (intervalSec : Z) (db : DB) : result unit * DB :=
  just_err (update pg_devices (λ r, bool_decide (dr_id r = id)) (device_poll (column now) intervalSec) db).

Definition pg_DeleteExpiredDeviceGrants (now : Z) (db : DB) : result Z * DB :=
  let '(n, db') := delete_rows pg_devices (λ r, dr_expires_at r <? stamp now) db in (Ok n, db').

End methods.
