(* ===== verification/PgAws.v ===== *)
(** * PostgreSQL store: AWS catalogue, provisioning caches and signing keys

    One definition per method of [internal/store/postgres/postgres_awsfed.go],
    [postgres_external_ids.go], [postgres_signingkeys.go] and
    [postgres_integrations.go]; the conventions are those of [PgUsers].  A
    creation overwrites the caller's struct with the row [RETURNING] reads
    back, times included. *)
From stdpp Require Import sorting.
From S2P Require Import Prelude GoStrings Model Dialect Tables SqliteUsers SqliteAws Sql PgUsers.

Local Open Scope Z_scope.

Definition pg_accounts : table uuid AWSAccount :=
  Table db_aws_accounts with_aws_accounts (λ r r', bool_decide (aa_AccountID r = aa_AccountID r')) (λ _ _, true).

Definition pg_roles : table uuid role_row :=
  Table db_aws_roles with_aws_roles (λ r r', bool_decide (rr_role_arn r = rr_role_arn r'))
    (λ d r, has (db_aws_accounts d) (rr_account_id r)).

Definition pg_assignments : table uuid AWSRoleAssignment :=
  Table db_aws_role_assignments with_aws_role_assignments
    (λ r r', bool_decide ((ara_GroupID r, ara_RoleID r) = (ara_GroupID r', ara_RoleID r')))
    (λ d r, has (db_scim_groups d) (ara_GroupID r) && has (db_aws_roles d) (ara_RoleID r)).

Definition pg_keys : table uuid SigningKey :=
  Table db_signing_keys with_signing_keys (λ r r', bool_decide (sk_KID r = sk_KID r')) (λ _ _, true).

Definition pg_integrations : table uuid AppIntegration :=
  Table db_app_integrations with_app_integrations (λ r r', bool_decide (ai_Name r = ai_Name r')) (λ _ _, true).

Section methods.
  Context (collation : string → string → bool).
#[local] Instance pg : Dialect := PostgreSQL collation.

(** ** Accounts *)

Definition pg_CreateAWSAccount (fresh : uuid) (now : Z) (a : AWSAccount) (db : DB) : result AWSAccount * DB :=
  let id := if bool_decide (aa_ID a = uuid_nil) then fresh else aa_ID a in
  err_or_conflict (insert_row pg_accounts id
    {| aa_ID := id; aa_AccountID := aa_AccountID a; aa_Alias := aa_Alias a;
       aa_OIDCProviderARN := aa_OIDCProviderARN a; aa_CreatedAt := stamp now; aa_UpdatedAt := stamp now |} db).

Definition pg_GetAWSAccount (id : uuid) (db : DB) : result AWSAccount :=
  scan_one (λ a, a) (select (λ r, bool_decide (aa_ID r = id)) (db_aws_accounts db)).

Definition pg_ListAWSAccounts (db : DB) : result (list AWSAccount) :=
  Ok (merge_sort (name_order aa_AccountID) (select (λ _, true) (db_aws_accounts db))).

Definition pg_UpdateAWSAccount (now : Z) (a : AWSAccount) (db : DB) : result unit * DB :=
  require_row (err_or_conflict (update pg_accounts (λ r, bool_decide (aa_ID r = aa_ID a))
    (account_set a (stamp now)) db)).

(** The account's roles go with it, and theirs with them. *)
Definition pg_DeleteAWSAccount (id : uuid) (db : DB) : result unit * DB :=
  let dead := gone (λ a, bool_decide (aa_ID a = id)) (db_aws_accounts db) in
  let n := length (select (λ a, bool_decide (aa_ID a = id)) (db_aws_accounts db)) in
  let db' := with_aws_accounts (delete_where (λ a, bool_decide (aa_ID a = id)) (db_aws_accounts db))
               (delete_roles (λ r, dead (rr_account_id r)) db) in
  if (n =? 0)%nat then (Err ErrNotFound, db') else (Ok tt, db').

(** ** Roles *)

Definition pg_scanAWSRole (r : role_row) : AWSRole :=
  {| ar_ID := rr_id r; ar_AccountID := rr_account_id r; ar_RoleARN := rr_role_arn r; ar_Slug := rr_slug r;
     ar_DisplayName := rr_display_name r; ar_RequireStepUpMFA := rr_require_step_up_mfa r;
     ar_MaxSessionDurationSec := rr_max_session_duration_sec r;
     ar_AllowedRegions := DecodeRegions (rr_allowed_regions r);
     ar_CreatedAt := rr_created_at r; ar_UpdatedAt := rr_updated_at r |}.

Definition pg_CreateAWSRole (fresh : uuid) (now : Z) (r : AWSRole) (db : DB) : result AWSRole * DB :=
  let id := if bool_decide (ar_ID r = uuid_nil) then fresh else ar_ID r in
  let res := err_or_conflict (insert_row pg_roles id
    {| rr_id := id; rr_account_id := ar_AccountID r; rr_role_arn := ar_RoleARN r; rr_slug := ar_Slug r;
       rr_display_name := ar_DisplayName r; rr_require_step_up_mfa := ar_RequireStepUpMFA r;
       rr_max_session_duration_sec :=
         if ar_MaxSessionDurationSec r =? 0 then 3600 else ar_MaxSessionDurationSec r;
       rr_allowed_regions := EncodeRegions (ar_AllowedRegions r);
       rr_created_at := stamp now; rr_updated_at := stamp now |} db) in
  (match res.1 with Ok row => Ok (pg_scanAWSRole row) | Err e => Err e end, res.2).

Definition pg_GetAWSRole (id : uuid) (db : DB) : result AWSRole :=
  scan_one pg_scanAWSRole (select (λ r, bool_decide (rr_id r = id)) (db_aws_roles db)).

Definition pg_ListAWSRoles (db : DB) : result (list AWSRole) :=
  Ok (merge_sort (name_order ar_DisplayName) (pg_scanAWSRole <$> select (λ _, true) (db_aws_roles db))).

Definition pg_UpdateAWSRole (now : Z) (r : AWSRole) (db : DB) : result unit * DB :=
  require_row (err_or_conflict (update pg_roles (λ x, bool_decide (rr_id x = ar_ID r))
    (role_set r (stamp now)) db)).

Definition pg_DeleteAWSRole (id : uuid) (db : DB) : result unit * DB :=
  let n := length (select (λ r, bool_decide (rr_id r = id)) (db_aws_roles db)) in
  let db' := delete_roles (λ r, bool_decide (rr_id r = id)) db in
  if (n =? 0)%nat then (Err ErrNotFound, db') else (Ok tt, db').

(** ** Assignments *)

Definition pg_CreateAWSRoleAssignment (fresh : uuid) (now : Z) (a : AWSRoleAssignment) (db : DB)
    : result AWSRoleAssignment * DB :=
  let id := if bool_decide (ara_ID a = uuid_nil) then fresh else ara_ID a in
  err_or_conflict (insert_row pg_assignments id
    {| ara_ID := id; ara_GroupID := ara_GroupID a; ara_RoleID := ara_RoleID a;
       ara_CreatedAt := stamp now |} db).

Definition pg_ListAWSRoleAssignments (db : DB) : result (list AWSRoleAssignment) :=
  Ok (merge_sort (key_le ara_CreatedAt) (select (λ _, true) (db_aws_role_assignments db))).

(** The user's groups' assignments, joined with the roles; DISTINCT. *)
Definition pg_ListAWSRolesForUser (userID : uuid) (db : DB) : result (list AWSRole) :=
  let assigned := ara_RoleID <$> select (λ a, bool_decide ((ara_GroupID a, userID) ∈ db_scim_group_members db))
                                   (db_aws_role_assignments db) in
  Ok (merge_sort (name_order ar_DisplayName)
       (pg_scanAWSRole <$> select (λ r, bool_decide (rr_id r ∈ assigned)) (db_aws_roles db))).

Definition pg_DeleteAWSRoleAssignment (id : uuid) (db : DB) : result unit * DB :=
  let '(n, db') := delete_rows pg_assignments (λ r, bool_decide (ara_ID r = id)) db in
  if n =? 0 then (Err ErrNotFound, db') else (Ok tt, db').

(** ** Revoked users *)

Definition pg_AddAWSRevokedUser (now : Z) (roleID : uuid) (subUUID : string) (db : DB) : result unit * DB :=
  match db_aws_revoked_users db !! (roleID, subUUID) with
  | Some _ => (Ok tt, with_aws_revoked_users
                 (alter (λ _, stamp now) (roleID, subUUID) (db_aws_revoked_users db)) db)
  | None =>
      if has (db_aws_roles db) roleID
      then (Ok tt, with_aws_revoked_users (<[(roleID, subUUID) := stamp now]> (db_aws_revoked_users db)) db)
      else (Err ErrOther, db)
  end.

Definition pg_scan_revoked (kv : (uuid * string) * Z) : AWSRevokedUser :=
  {| arv_RoleID := kv.1.1; arv_SubUUID := kv.1.2; arv_RevokedAt := kv.2 |}.

Definition pg_ListAWSRevokedUsers (roleID : uuid) (db : DB) : result (list AWSRevokedUser) :=
  Ok (merge_sort (key_le arv_RevokedAt)
       (filter (λ r, arv_RoleID r = roleID) (pg_scan_revoked <$> map_to_list (db_aws_revoked_users db)))).

Definition pg_ListAWSRevokedUsersOlderThan (cutoff : Z) (db : DB) : result (list AWSRevokedUser) :=
  Ok (merge_sort (key_le arv_RevokedAt)
       (filter (λ r, arv_RevokedAt r < column cutoff) (pg_scan_revoked <$> map_to_list (db_aws_revoked_users db)))).

Definition pg_DeleteAWSRevokedUser (roleID : uuid) (subUUID : string) (db : DB) : result unit * DB :=
  (Ok tt, with_aws_revoked_users
     (filter (λ kv : (uuid * string) * Z, ¬ (kv.1.1 = roleID ∧ kv.1.2 = subUUID)) (db_aws_revoked_users db)) db).

(** ** External identifiers *)

Definition pg_GetExternalID (provider : string) (userID : uuid) (db : DB) : result string :=
  scan_one (λ kv : (string * uuid) * string, kv.2)
    (filter (λ kv : (string * uuid) * string, kv.1.1 = provider ∧ kv.1.2 = userID)
       (map_to_list (db_external_ids db))).

(** [ON CONFLICT (provider, user_id) DO UPDATE]. *)
Definition pg_SetExternalID (provider : string) (userID : uuid) (externalID : string) (db : DB)
    : result unit * DB :=
  match db_external_ids db !! (provider, userID) with
  | Some _ => (Ok tt, with_external_ids
                 (alter (λ _, externalID) (provider, userID) (db_external_ids db)) db)
  | None =>
      if has (db_users db) userID
      then (Ok tt, with_external_ids (<[(provider, userID) := externalID]> (db_external_ids db)) db)
      else (Err ErrOther, db)
  end.

Definition pg_DeleteExternalID (provider : string) (userID : uuid) (db : DB) : result unit * DB :=
  (Ok tt, with_external_ids
     (filter (λ kv : (string * uuid) * string, ¬ (kv.1.1 = provider ∧ kv.1.2 = userID)) (db_external_ids db)) db).

(** ** Signing keys *)

Definition pg_CreateSigningKey (now : Z) (k : SigningKey) (db : DB) : result unit * DB :=
  just_err (insert_row pg_keys (sk_ID k)
    {| sk_ID := sk_ID k; sk_EncryptedPrivateKey := sk_EncryptedPrivateKey k;
       sk_EncryptedDEK := sk_EncryptedDEK k; sk_Algorithm := sk_Algorithm k; sk_KID := sk_KID k;
       sk_Active := sk_Active k; sk_CreatedAt := stamp now |} db).

(** [WHERE active = TRUE ORDER BY created_at DESC] *)
Definition pg_active_keys (db : DB) : list SigningKey :=
  merge_sort (key_le (λ k, - sk_CreatedAt k)) (select sk_Active (db_signing_keys db)).

Definition pg_GetActiveSigningKey (db : DB) : result SigningKey := scan_one (λ k, k) (take 1 (pg_active_keys db)).

Definition pg_ListActiveSigningKeys (db : DB) : result (list SigningKey) := Ok (pg_active_keys db).

Definition pg_DeactivateSigningKey (id : uuid) (db : DB) : result unit * DB :=
  just_err (update pg_keys (λ k, bool_decide (sk_ID k = id)) key_deactivate db).

(** ** Integrations *)

Definition pg_CreateIntegration (fresh : uuid) (now : Z) (i : AppIntegration) (db : DB)
    : result AppIntegration * DB :=
  let id := if bool_decide (ai_ID i = uuid_nil) then fresh else ai_ID i in
  err_or_conflict (insert_row pg_integrations id
    {| ai_ID := id; ai_Name := ai_Name i; ai_Provider := ai_Provider i; ai_Enabled := ai_Enabled i;
       ai_Config := ai_Config i; ai_EncryptedToken := ai_EncryptedToken i;
       ai_EncryptedDEK := ai_EncryptedDEK i; ai_CreatedAt := stamp now; ai_UpdatedAt := stamp now |} db).

Definition pg_GetIntegration (id : uuid) (db : DB) : result AppIntegration :=
  scan_one (λ i, i) (select (λ r, bool_decide (ai_ID r = id)) (db_app_integrations db)).

Definition pg_GetIntegrationByName (name : string) (db : DB) : result AppIntegration :=
  scan_one (λ i, i) (select (λ r, bool_decide (ai_Name r = name)) (db_app_integrations db)).

(** [queryIntegrations]: the rows of a SELECT with the given condition. *)
Definition pg_queryIntegrations (b : AppIntegration → bool) (db : DB) : result (list AppIntegration) :=
  Ok (merge_sort (key_le ai_CreatedAt) (select b (db_app_integrations db))).

Definition pg_ListIntegrations (db : DB) : result (list AppIntegration) := pg_queryIntegrations (λ _, true) db.

Definition pg_ListEnabledIntegrations (db : DB) : result (list AppIntegration) := pg_queryIntegrations ai_Enabled db.

Definition pg_UpdateIntegration (now : Z) (i : AppIntegration) (db : DB) : result unit * DB :=
  require_row (err_or_conflict (update pg_integrations (λ r, bool_decide (ai_ID r = ai_ID i))
    (integration_set i (stamp now)) db)).

Definition pg_DeleteIntegration (id : uuid) (db : DB) : result unit * DB :=
  let '(n, db') := delete_rows pg_integrations (λ r, bool_decide (ai_ID r = id)) db in
  if n =? 0 then (Err ErrNotFound, db') else (Ok tt, db').

End methods.
