(* ===== verification/PgArray.v ===== *)
(** * Text arrays of the PostgreSQL store

    [stringArray] of [internal/store/postgres/postgres.go]: redirect URIs and
    scopes travel as [TEXT[]] literals.  [Value] writes every element in quotes;
    what comes back is the server's own rendering, in which an element is quoted
    only where it has to be. *)
From S2P Require Import Prelude GoStrings.

Local Open Scope Z_scope.
#[local] Arguments String.append !_ _ : simpl nomatch.

Definition backslash : ascii := "092".
Definition dquote : ascii := "034".
Definition comma : ascii := ",".

(** A one-byte string. *)
Definition byte_str (a : ascii) : string := String a EmptyString.

(** ** Encoding *)

(** [Builder.WriteRune] of a rune that [range] read: an invalid byte is written
    as U+FFFD. *)
Definition WriteRune (p : piece) : string :=
  if p.1 =? RuneError then String "239" (String "191" (String "189" EmptyString)) else p.2.

Definition escape_piece (p : piece) : string :=
  (if (p.1 =? 92) || (p.1 =? 34) then byte_str backslash else EmptyString) +:+ WriteRune p.

Definition escape_runes (s : string) : string := foldr String.append EmptyString (escape_piece <$> decode s).

Definition quote (s : string) : string := byte_str dquote +:+ (escape_runes s +:+ byte_str dquote).

(** A nil slice and an empty one are written alike. *)
Definition stringArray_Value (a : list string) : string := "{" +:+ (Join (quote <$> a) "," +:+ "}").

(** ** Decoding *)

(** The loop over the bytes between the braces: inside quotes or not, and the
    element so far. *)
Fixpoint parse_go (quoted : bool) (cur s : string) : list string :=
  match s with
  | EmptyString => [cur]
  | String c s =>
      if quoted then
        if Ascii.eqb c backslash then
          match s with
          | String d s' => parse_go true (cur +:+ byte_str d) s'
          | EmptyString => parse_go true (cur +:+ byte_str c) s
          end
        else if Ascii.eqb c dquote then parse_go false cur s
        else parse_go true (cur +:+ byte_str c) s
      else if Ascii.eqb c dquote then parse_go true cur s
      else if Ascii.eqb c comma then cur :: parse_go false EmptyString s
      else parse_go false (cur +:+ byte_str c) s
  end.

(** All but the last byte, and the last. *)
Fixpoint unsnoc (s : string) : option (string * ascii) :=
  match s with
  | EmptyString => None
  | String a s =>
      match unsnoc s with
      | None => Some (EmptyString, a)
      | Some (t, b) => Some (String a t, b)
      end
  end.

Definition parsePostgresTextArray (s : string) : result (list string) :=
  let s := TrimSpace s in
  if bool_decide (s = "{}") then Ok []
  else match s with
       | String a rest =>
           match unsnoc rest with
           | Some (inner, b) =>
               if Ascii.eqb a "{" && Ascii.eqb b "}" then
                 if bool_decide (inner = EmptyString) then Ok [] else Ok (parse_go false EmptyString inner)
               else Err ErrOther
           | None => Err ErrOther
           end
       | EmptyString => Err ErrOther
       end.

(** [Scan]: NULL is the empty list. *)
Definition stringArray_Scan (src : option string) : result (list string) :=
  match src with
  | None => Ok []
  | Some s => parsePostgresTextArray s
  end.

(** ** Renderings *)

(** Escaping byte by byte. *)
Fixpoint escape_bytes (s : string) : string :=
  match s with
  | EmptyString => EmptyString
  | String a s =>
      (if Ascii.eqb a backslash || Ascii.eqb a dquote then String backslash (byte_str a) else byte_str a)
        +:+ escape_bytes s
  end.

(** An element that needs no quotes. *)
Definition bare (s : string) : bool :=
  negb (bool_decide (s = EmptyString)) &&
  str_forallb (λ a, negb (Ascii.eqb a dquote || Ascii.eqb a comma || Ascii.eqb a backslash
                          || Ascii.eqb a "{" || Ascii.eqb a "}" || IsSpace (byteZ a))) s.

(** How the server may render an element: in quotes with escapes, or bare. *)
Definition rendered (s t : string) : Prop :=
  t = byte_str dquote +:+ (escape_bytes s +:+ byte_str dquote) ∨ t = s ∧ bare s = true.

(** Every rune is written back as the bytes it was read from: no byte of the
    string is invalid UTF-8. *)
Definition valid_utf8 (s : string) : bool := forallb (λ p, bool_decide (WriteRune p = p.2)) (decode s).

(** ** Lemmas *)

Lemma parse_quoted s : ∀ cur rest,
  parse_go true cur (escape_bytes s +:+ String dquote rest) = parse_go false (cur +:+ s) rest.
Proof.
  induction s as [|a s IH]; intros cur rest; cbn [escape_bytes].
  - simpl. by rewrite str_append_nil_r.
  - destruct (Ascii.eqb a backslash) eqn:Hb; [|destruct (Ascii.eqb a dquote) eqn:Hq]; cbn [orb].
    + apply Ascii.eqb_eq in Hb as ->. simpl. rewrite IH, <- str_append_assoc. done.
    + apply Ascii.eqb_eq in Hq as ->. simpl. rewrite IH, <- str_append_assoc. done.
    + simpl. rewrite Hb, Hq, IH, <- str_append_assoc. done.
Qed.

Lemma parse_bare s : ∀ cur rest,
  str_forallb (λ a, negb (Ascii.eqb a dquote || Ascii.eqb a comma || Ascii.eqb a backslash
                          || Ascii.eqb a "{" || Ascii.eqb a "}" || IsSpace (byteZ a))) s = true →
  parse_go false cur (s +:+ rest) = parse_go false (cur +:+ s) rest.
Proof.
  induction s as [|a s IH]; intros cur rest; cbn [str_forallb].
  - intros _. by rewrite str_append_nil_r.
  - intros [Ha Hs]%andb_prop. simpl. destruct (Ascii.eqb a dquote); [done|]. destruct (Ascii.eqb a comma); [done|].
    rewrite IH, <- str_append_assoc by done. done.
Qed.

(** One element, whatever its rendering, up to the next separator or the end. *)
Lemma parse_rendered s t rest : rendered s t → parse_go false EmptyString (t +:+ rest) = parse_go false s rest.
Proof.
  intros [->|[-> [_ Hb]%andb_prop]].
  - simpl. rewrite <- str_append_assoc. simpl. by rewrite parse_quoted.
  - by rewrite parse_bare.
Qed.

Lemma parse_elements l ts : Forall2 rendered l ts → l ≠ [] → parse_go false EmptyString (Join ts ",") = l.
Proof.
  induction 1 as [|s t l ts Hst Hall IH]; intros Hne; [done|]. destruct Hall as [|s' t' l ts Hst' Hall].
  - cbn [Join]. by rewrite <- (str_append_nil_r t), (parse_rendered s).
  - change (Join (t :: t' :: ts) ",") with (t +:+ String comma (Join (t' :: ts) ",")).
    rewrite (parse_rendered s) by done. cbn [parse_go]. simpl (Ascii.eqb comma _). cbv iota.
    rewrite IH by done. done.
Qed.

Lemma unsnoc_app s b : unsnoc (s +:+ byte_str b) = Some (s, b).
Proof. induction s as [|a s IH]; [done|]. simpl. by rewrite IH. Qed.

(** A string between non-space ASCII bytes is not trimmed. *)
Lemma TrimSpace_between a s b :
  byteZ a < 128 → byteZ b < 128 → IsSpace (byteZ a) = false → IsSpace (byteZ b) = false →
  TrimSpace (String a (s +:+ byte_str b)) = String a (s +:+ byte_str b).
Proof.
  intros Ha Hb Hsa Hsb. unfold TrimSpace.
  change (String a (s +:+ byte_str b)) with (String a s +:+ String b EmptyString).
  rewrite <- (encode_decode (String a s +:+ String b EmptyString)) at 2. f_equal.
  rewrite decode_app_ascii by done. rewrite (decode_ascii_cons a), (decode_ascii_cons b) by done. simpl.
  rewrite Hsa, reverse_cons, reverse_app. simpl. rewrite Hsb, reverse_cons, !reverse_app. simpl. by rewrite reverse_involutive.
Qed.

Lemma rendered_nonempty s t : rendered s t → t ≠ EmptyString.
Proof. intros [->|[-> [Hn _]%andb_prop]]; [done|]. by apply negb_true_iff, bool_decide_eq_false in Hn. Qed.

Lemma Join_cons_nonempty t ts sep : t ≠ EmptyString → Join (t :: ts) sep ≠ EmptyString.
Proof. by destruct t, ts. Qed.

Lemma parse_array l ts : Forall2 rendered l ts → parsePostgresTextArray ("{" +:+ (Join ts "," +:+ "}")) = Ok l.
Proof.
  intros Hall. unfold parsePostgresTextArray.
  change ("{" +:+ (Join ts "," +:+ "}")) with (String "{" (Join ts "," +:+ byte_str "}")).
  rewrite TrimSpace_between by done. destruct Hall as [|s t l ts Hst Hall]; [done|].
  set (inner := Join (t :: ts) ","). assert (inner ≠ EmptyString) as Hin.
  { apply Join_cons_nonempty. by eapply rendered_nonempty. }
  rewrite bool_decide_eq_false_2; [|by destruct inner as [|? []]]. rewrite unsnoc_app. simpl.
  rewrite bool_decide_eq_false_2 by done. f_equal. apply parse_elements; [by constructor|done].
Qed.

(** The bytes of a longer rune are all beyond ASCII, and so is the rune. *)
Lemma decode_head_multi a r c n :
  decode_head a r = (c, S n) →
  128 ≤ c ∧ str_forallb (λ b, 128 <=? byteZ b) (String a (str_take (S n) r)) = true.
Proof.
  unfold decode_head, lead_info, in_range, rune2, rune3, rune4. intros H.
  repeat (case_match; simplify_eq/=); repeat match goal with
  | H : (_ && _) = true |- _ => apply andb_prop in H as [? ?]
  | H : (_ && _) = false |- _ => clear H
  | H : (_ =? _) = true |- _ => apply Z.eqb_eq in H
  | H : (_ <=? _) = true |- _ => apply Z.leb_le in H
  | H : (_ <? _) = false |- _ => apply Z.ltb_ge in H
  end; try lia.
  all: split; [lia|]. all: rewrite ?andb_true_iff; split_and!; try done; apply Z.leb_le; lia.
Qed.

Lemma byteZ_eqb a b : Ascii.eqb a b = (byteZ a =? byteZ b).
Proof.
  destruct (Ascii.eqb_spec a b) as [->|Hne]; [symmetry; by apply Z.eqb_eq|].
  symmetry. apply Z.eqb_neq. unfold byteZ. intros ?%N2Z.inj. apply Hne.
  by rewrite <- (ascii_N_embedding a), <- (ascii_N_embedding b); f_equal.
Qed.

Lemma escape_bytes_app s t : escape_bytes (s +:+ t) = escape_bytes s +:+ escape_bytes t.
Proof. induction s as [|a s IH]; [done|]. simpl. by rewrite IH, str_append_assoc. Qed.

Lemma escape_bytes_high s : str_forallb (λ b, 128 <=? byteZ b) s = true → escape_bytes s = s.
Proof.
  induction s as [|a s IH]; [done|]. cbn [str_forallb escape_bytes]. intros [Ha%Z.leb_le Hs]%andb_prop.
  rewrite !byteZ_eqb, IH by done. change (byteZ backslash) with 92. change (byteZ dquote) with 34.
  by rewrite (proj2 (Z.eqb_neq _ _)), (proj2 (Z.eqb_neq _ _)) by lia.
Qed.

(** Escaping runes escapes bytes. *)
Lemma escape_runes_bytes s : valid_utf8 s = true → escape_runes s = escape_bytes s.
Proof.
  unfold valid_utf8, escape_runes. induction s as [|a r c n E IH] using decode_ind; [done|].
  rewrite decode_cons, E. cbn [forallb fmap list_fmap foldr]. intros [Hp%bool_decide_eq_true Hr]%andb_prop.
  rewrite (IH Hr).
  replace (String a r) with (String a (str_take n r) +:+ str_drop n r) by (simpl; by rewrite str_take_drop).
  rewrite escape_bytes_app. f_equal. unfold escape_piece. rewrite Hp. cbn [fst snd] in *. destruct n as [|n].
  - simpl. change (str_take 0 r) with EmptyString.
    assert (c = byteZ a) as ->.
    { unfold WriteRune in Hp. cbn [fst snd] in Hp. destruct (c =? RuneError) eqn:Hc; [done|].
      apply Z.eqb_neq in Hc. unfold decode_head in E. repeat (case_match; simplify_eq/=); done. }
    rewrite !byteZ_eqb. change (byteZ backslash) with 92. change (byteZ dquote) with 34.
    by destruct (byteZ a =? 92), (byteZ a =? 34).
  - apply decode_head_multi in E as [Hc Hb]. rewrite escape_bytes_high by done.
    by rewrite (proj2 (Z.eqb_neq c _)), (proj2 (Z.eqb_neq c _)) by lia.
Qed.

(** The decoder undoes the encoder. *)
Lemma text_array_scans l : forallb valid_utf8 l = true → parsePostgresTextArray (stringArray_Value l) = Ok l.
Proof.
  intros Hl. apply parse_array.
  apply Forall2_fmap_r. induction l as [|s l IH]; [constructor|]. apply andb_prop in Hl as [Hs Hl].
  constructor; [|by apply IH]. left. unfold quote. by rewrite escape_runes_bytes.
Qed.

(** ** A redirect URI with every special byte, and plain scopes *)

Definition fx_uris : list string :=
  [String "a" (String dquote (String backslash (String "," (String "{" (String "195" (byte_str "169")))))); "b c"; ""].
