(* ===== verification/SqArray.v ===== *)
(** * String lists of the SQLite store

    [stringArray] of [internal/store/sqlite/sqlite.go]: where PostgreSQL has
    [TEXT[]], SQLite keeps redirect URIs and scopes as the JSON text of
    [encoding/json], whose encoder and decoder for a slice of strings are
    written out here over the runes of the text.  The decoder is exact on the
    texts it accepts (white space, escapes, surrogate pairs, [null]); every
    other text, JSON of another shape or not JSON at all, is an error. *)
From S2P Require Import Prelude GoStrings GoNet PgArray.

Local Open Scope Z_scope.
#[local] Arguments String.append !_ _ : simpl nomatch.

(** ** Encoding *)

Definition u_escape (a b c d : ascii) : string :=
  String backslash (String "u" (String a (String b (String c (byte_str d))))).

(** [appendString] with HTML escaping, one rune at a time: the runes that are
    written as an escape. *)
Definition short_escape (c : Z) : option ascii :=
  if (c =? 34) || (c =? 92) then Some (ascii_of_N (Z.to_N c))
  else if c =? 8 then Some "b"%char else if c =? 12 then Some "f"%char else if c =? 10 then Some "n"%char
  else if c =? 13 then Some "r"%char else if c =? 9 then Some "t"%char else None.

(** A digit of ["0123456789abcdef"]. *)
Definition lower_hex (d : Z) : ascii := lower_byte (hex_digit d).

Definition json_piece (p : piece) : string :=
  let c := p.1 in
  if c <? 128 then
    match short_escape c with
    | Some e => String backslash (byte_str e)
    | None =>
        if (c <? 32) || (c =? 60) || (c =? 62) || (c =? 38)
        then u_escape "0" "0" (lower_hex (c / 16)) (lower_hex (c mod 16))
        else p.2
    end
  else if (c =? RuneError) && (String.length p.2 =? 1)%nat then u_escape "f" "f" "f" "d"
  else if (c =? 8232) || (c =? 8233) then u_escape "2" "0" "2" (lower_hex (c mod 16))
  else p.2.

Definition json_quote (s : string) : string :=
  byte_str dquote +:+ (foldr String.append EmptyString (json_piece <$> decode s) +:+ byte_str dquote).

(** A nil slice and an empty one are written alike. *)
Definition sq_Value (a : list string) : string := "[" +:+ (Join (json_quote <$> a) "," +:+ "]").

(** ** Decoding *)

Definition json_space (c : Z) : bool := (c =? 32) || (c =? 9) || (c =? 13) || (c =? 10).

(** The escapes of one letter. *)
Definition unescape (c : Z) : option ascii :=
  if (c =? 34) || (c =? 92) || (c =? 47) then Some (ascii_of_N (Z.to_N c))
  else if c =? 98 then Some "008"%char else if c =? 102 then Some "012"%char else if c =? 110 then Some "010"%char
  else if c =? 114 then Some "013"%char else if c =? 116 then Some "009"%char else None.

Definition hex_value (c : Z) : option Z :=
  if in_range 48 57 c then Some (c - 48)
  else if in_range 97 102 c then Some (c - 87)
  else if in_range 65 70 c then Some (c - 55)
  else None.

(** [getu4]. *)
Definition getu4 (a b c d : Z) : option Z :=
  a ← hex_value a; b ← hex_value b; c ← hex_value c; d ← hex_value d;
  Some (((a * 16 + b) * 16 + c) * 16 + d).

Definition IsSurrogate (c : Z) : bool := in_range 55296 57343 c.

(** [utf16.DecodeRune] of a pair, [None] for the replacement rune. *)
Definition DecodeRune (hi lo : Z) : option Z :=
  if in_range 55296 56319 hi && in_range 56320 57343 lo
  then Some ((hi - 55296) * 1024 + (lo - 56320) + 65536) else None.

Definition chr (c : Z) : ascii := ascii_of_N (Z.to_N c).

(** [utf8.EncodeRune]. *)
Definition EncodeRune (c : Z) : string :=
  if c <? 128 then byte_str (chr c)
  else if c <? 2048 then String (chr (192 + c / 64)) (byte_str (chr (128 + c mod 64)))
  else if c <? 65536 then
    String (chr (224 + c / 4096)) (String (chr (128 + c / 64 mod 64)) (byte_str (chr (128 + c mod 64))))
  else String (chr (240 + c / 262144)) (String (chr (128 + c / 4096 mod 64))
         (String (chr (128 + c / 64 mod 64)) (byte_str (chr (128 + c mod 64))))).

(** Where the decoder is: before an element (the first or a later one), in a
    string, after an element. *)
Inductive array_state : Type :=
| BeforeElement (first : bool)
| InString (cur : string)
| AfterElement.

(** The decoder of an array of strings, from behind the opening bracket. *)
Fixpoint scan_array (st : array_state) (ps : list piece) : option (list string) :=
  match ps with
  | [] => None
  | (c, bytes) :: ps =>
      match st with
      | BeforeElement first =>
          if json_space c then scan_array st ps
          else if c =? 34 then scan_array (InString "") ps
          else if (c =? 93) && first then if forallb json_space ps.*1 then Some [] else None
          else match ps with
          | (c1, _) :: (c2, _) :: (c3, _) :: ps' =>
              if (c =? 110) && (c1 =? 117) && (c2 =? 108) && (c3 =? 108)
              then cons "" <$> scan_array AfterElement ps' else None
          | _ => None
          end
      | AfterElement =>
          if json_space c then scan_array st ps
          else if c =? 44 then scan_array (BeforeElement false) ps
          else if c =? 93 then if forallb json_space ps.*1 then Some [] else None
          else None
      | InString cur =>
          if c =? 34 then cons cur <$> scan_array AfterElement ps
          else if c =? 92 then
            match ps with
            | (e, _) :: ps1 =>
                match unescape e with
                | Some b => scan_array (InString (cur +:+ byte_str b)) ps1
                | None =>
                    match ps1 with
                    | (h1, _) :: (h2, _) :: (h3, _) :: (h4, _) :: ps2 =>
                        if negb (e =? 117) then None
                        else match getu4 h1 h2 h3 h4 with
                        | None => None
                        | Some u =>
                            if negb (IsSurrogate u) then scan_array (InString (cur +:+ EncodeRune u)) ps2
                            else match ps2 with
                            | (b, _) :: (v, _) :: (l1, _) :: (l2, _) :: (l3, _) :: (l4, _) :: ps3 =>
                                match (if (b =? 92) && (v =? 117) then w ← getu4 l1 l2 l3 l4; DecodeRune u w else None) with
                                | Some r => scan_array (InString (cur +:+ EncodeRune r)) ps3
                                | None => scan_array (InString (cur +:+ EncodeRune RuneError)) ps2
                                end
                            | _ => scan_array (InString (cur +:+ EncodeRune RuneError)) ps2
                            end
                        end
                    | _ => None
                    end
                end
            | [] => None
            end
          else if c <? 32 then None
          else scan_array (InString (cur +:+ WriteRune (c, bytes))) ps
      end
  end.

(** [json.Unmarshal] into a [[]string]: [None] inside [Ok] is the nil slice. *)
Definition Unmarshal_strings (s : string) : result (option (list string)) :=
  match dropWhile (λ p, json_space p.1) (decode s) with
  | (c, _) :: ps =>
      if c =? 91 then
        match scan_array (BeforeElement true) ps with
        | Some l => Ok (Some l)
        | None => Err ErrOther
        end
      else match ps with
      | (c1, _) :: (c2, _) :: (c3, _) :: ps' =>
          if (c =? 110) && (c1 =? 117) && (c2 =? 108) && (c3 =? 108) && forallb json_space ps'.*1
          then Ok None else Err ErrOther
      | _ => Err ErrOther
      end
  | [] => Err ErrOther
  end.

(** NULL, blank text and [null] are the empty list. *)
Definition sq_Scan (src : option string) : result (list string) :=
  match src with
  | None => Ok []
  | Some s =>
      let s := TrimSpace s in
      if bool_decide (s = "") then Ok []
      else match Unmarshal_strings s with
      | Err e => Err e
      | Ok out => Ok (default [] out)
      end
  end.

(** ** Specification *)

(** The string with every invalid byte replaced by U+FFFD. *)
Definition sanitize (s : string) : string := foldr String.append EmptyString (WriteRune <$> decode s).

Lemma sanitize_valid s : valid_utf8 s = true → sanitize s = s.
Proof.
  unfold valid_utf8, sanitize. intros H. rewrite <- (encode_decode s) at 2. unfold encode.
  induction (decode s) as [|p ps IH]; [done|]. cbn in *.
  apply andb_prop in H as [Hp%bool_decide_eq_true Hr]. by rewrite Hp, IH.
Qed.

(** ** Lemmas *)

(** The pieces of a string of ASCII bytes. *)
Fixpoint ascii_pieces (s : string) : list piece :=
  match s with
  | EmptyString => []
  | String a s => (byteZ a, byte_str a) :: ascii_pieces s
  end.

Lemma decode_ascii_app s t :
  str_forallb (λ b, byteZ b <? 128) s = true → decode (s +:+ t) = ascii_pieces s ++ decode t.
Proof.
  induction s as [|a s IH]; [done|]. cbn [str_forallb]. intros [Ha%Z.ltb_lt Hs]%andb_prop.
  cbn [String.append ascii_pieces]. by rewrite decode_ascii_cons, IH.
Qed.

(** A complete rune is decoded the same whatever follows it. *)
Lemma decode_head_extend a r c n t :
  decode_head a r = (c, S n) → decode_head a (str_take (S n) r +:+ t) = (c, S n).
Proof.
  unfold decode_head. destruct (lead_info (byteZ a)) as [[[|[|[|[|[|?]]]]] lo] hi]; try done.
  all: destruct r as [|b1 [|b2 [|b3 r]]]; try done; repeat case_match; intros; simplify_eq/=;
    repeat case_match; simplify_eq/=; try done; congruence.
Qed.

Lemma decode_piece a r c n t :
  decode_head a r = (c, S n) →
  decode (String a (str_take (S n) r) +:+ t) = (c, String a (str_take (S n) r)) :: decode t.
Proof.
  intros E. cbn [String.append]. rewrite decode_cons, (decode_head_extend _ _ _ _ _ E).
  pose proof (decode_head_length a r) as Hn. rewrite E in Hn. cbn [snd] in Hn.
  pose proof (str_length_take (S n) r Hn) as Hl. rewrite str_take_app, str_drop_app by lia.
  f_equal; f_equal; [f_equal|]; clear -Hn.
  - revert r Hn. induction (S n) as [|m IH]; intros [|b r] Hn; cbn in *; [done..|lia|]. by rewrite IH by lia.
  - assert (str_drop (S n) (str_take (S n) r) = "") as ->; [|done].
    revert r Hn. induction (S n) as [|m IH]; intros [|b r] Hn; cbn in *; [done..|]. by rewrite IH by lia.
Qed.

(** One rune of the encoder is one rune of the decoder. *)
Lemma scan_ascii a cur t :
  byteZ a < 128 →
  scan_array (InString cur) (decode (json_piece (byteZ a, byte_str a) +:+ t)) =
  scan_array (InString (cur +:+ byte_str a)) (decode t).
Proof.
  intros Ha. rewrite decode_ascii_app.
  - destruct a as [[] [] [] [] [] [] [] []]; vm_compute in Ha; try discriminate Ha; reflexivity.
  - destruct a as [[] [] [] [] [] [] [] []]; vm_compute in Ha; try discriminate Ha; reflexivity.
Qed.

Lemma byte_is a n : byteZ a = n → chr n = a.
Proof. intros <-. unfold chr, byteZ. by rewrite N2Z.id, ascii_N_embedding. Qed.

(** The bytes of the three runes the encoder treats specially. *)
Lemma decode_head_bytes a r c n :
  decode_head a r = (c, S n) → c = 65533 ∨ c = 8232 ∨ c = 8233 → String a (str_take (S n) r) = EncodeRune c.
Proof.
  unfold decode_head, lead_info, in_range, rune2, rune3, rune4. intros H Hc.
  assert (Hb : ∀ x, 0 ≤ byteZ x < 256).
  { intros x. unfold byteZ. pose proof (N_ascii_bounded x). lia. }
  repeat (case_match; simplify_eq/=); repeat match goal with
  | H : (_ && _) = true |- _ => apply andb_prop in H as [? ?]
  | H : (_ && _) = false |- _ => clear H
  | H : (_ =? _) = true |- _ => apply Z.eqb_eq in H
  | H : (_ <=? _) = true |- _ => apply Z.leb_le in H
  | H : (_ <? _) = false |- _ => apply Z.ltb_ge in H
  end; try lia.
  all: repeat match goal with
    | |- context [str_take 0 ?x] => change (str_take 0 x) with ""
    end.
  all: match goal with |- String ?a (String ?b (String ?c _)) = _ =>
    destruct Hc as [Hc|[Hc|Hc]]; rewrite Hc;
    [ rewrite <- (byte_is a 239), <- (byte_is b 191), <- (byte_is c 189) by lia
    | rewrite <- (byte_is a 226), <- (byte_is b 128), <- (byte_is c 168) by lia
    | rewrite <- (byte_is a 226), <- (byte_is b 128), <- (byte_is c 169) by lia ]; reflexivity
  end.
Qed.

Lemma scan_piece a r c n cur t :
  decode_head a r = (c, n) →
  scan_array (InString cur) (decode (json_piece (c, String a (str_take n r)) +:+ t)) =
  scan_array (InString (cur +:+ WriteRune (c, String a (str_take n r)))) (decode t).
Proof.
  intros E. destruct n as [|n].
  - change (str_take 0 r) with "". destruct (Z.lt_ge_cases (byteZ a) 128) as [Ha|Ha].
    + assert (c = byteZ a) as ->.
      { unfold decode_head, lead_info in E. rewrite (proj2 (Z.ltb_lt _ _) Ha) in E. by simplify_eq. }
      unfold WriteRune. cbn [fst snd]. rewrite (proj2 (Z.eqb_neq (byteZ a) RuneError)) by (unfold RuneError; lia). by apply scan_ascii.
    + assert (c = RuneError) as ->; [|by rewrite decode_ascii_app].
      unfold decode_head in E. repeat (case_match; simplify_eq/=); try done.
      unfold lead_info in *. rewrite (proj2 (Z.ltb_ge _ _) Ha) in *. repeat (case_match; simplify_eq/=).
  - pose proof E as [Hc _]%decode_head_multi. pose proof (decode_head_bytes _ _ _ _ E) as Hbytes.
    unfold json_piece. cbn [fst snd]. rewrite (proj2 (Z.ltb_ge c 128)) by lia.
    assert ((String.length (String a (str_take (S n) r)) =? 1)%nat = false) as ->.
    { pose proof (decode_head_length a r) as Hn. rewrite E in Hn. cbn [snd] in Hn. cbn [String.length].
      rewrite str_length_take by lia. done. }
    rewrite andb_false_r. destruct ((c =? 8232) || (c =? 8233)) eqn:Hs.
    + assert (c = 8232 ∨ c = 8233) as Hc' by (apply orb_prop in Hs as [?%Z.eqb_eq|?%Z.eqb_eq]; auto).
      rewrite Hbytes by tauto. destruct Hc' as [-> | ->]; by rewrite decode_ascii_app.
    + rewrite (decode_piece _ _ _ _ _ E). cbn [scan_array].
      by rewrite (proj2 (Z.eqb_neq c 34)), (proj2 (Z.eqb_neq c 92)), (proj2 (Z.ltb_ge c 32)) by lia.
Qed.

Lemma scan_string s : ∀ cur t,
  scan_array (InString cur) (decode (foldr String.append EmptyString (json_piece <$> decode s) +:+ t)) =
  scan_array (InString (cur +:+ sanitize s)) (decode t).
Proof.
  unfold sanitize. induction s as [|a r c n E IH] using decode_ind; intros cur t.
  { cbn. by rewrite str_append_nil_r. }
  rewrite decode_cons, E. cbn [fmap list_fmap foldr]. rewrite <- str_append_assoc, (scan_piece _ _ _ _ _ _ E), IH.
  by rewrite str_append_assoc.
Qed.

Lemma scan_quoted st s t :
  st = BeforeElement true ∨ st = BeforeElement false →
  scan_array st (decode (json_quote s +:+ t)) = cons (sanitize s) <$> scan_array AfterElement (decode t).
Proof.
  intros Hst. unfold json_quote, byte_str at 1. cbn [String.append]. rewrite decode_ascii_cons by done.
  transitivity (scan_array (InString "")
    (decode (foldr String.append EmptyString (json_piece <$> decode s) +:+ (byte_str dquote +:+ t)))).
  - rewrite <- str_append_assoc. by destruct Hst as [-> | ->].
  - rewrite scan_string. unfold byte_str. cbn [String.append]. by rewrite decode_ascii_cons.
Qed.

Lemma scan_elements l s : ∀ st,
  st = BeforeElement true ∨ st = BeforeElement false →
  scan_array st (decode (Join (json_quote <$> s :: l) "," +:+ "]")) = Some (sanitize <$> s :: l).
Proof.
  revert s. induction l as [|s' l IH]; intros s st Hst.
  - cbn [fmap list_fmap Join]. by rewrite scan_quoted.
  - cbn [fmap list_fmap Join] in *. rewrite <- !str_append_assoc, scan_quoted by done.
    cbn [String.append]. rewrite decode_ascii_cons by done. cbn [scan_array].
    change (json_space _) with false. cbv iota. change (byteZ ","%char =? 44) with true. cbv iota.
    rewrite IH by auto. done.
Qed.

Lemma sq_scan_value l : sq_Scan (Some (sq_Value l)) = Ok (sanitize <$> l).
Proof.
  unfold sq_Scan, sq_Value.
  change ("[" +:+ (Join (json_quote <$> l) "," +:+ "]")) with (String "[" (Join (json_quote <$> l) "," +:+ byte_str "]")).
  rewrite TrimSpace_between by done. rewrite bool_decide_eq_false_2 by done.
  unfold Unmarshal_strings. rewrite decode_ascii_cons by done. cbn [dropWhile fst].
  change (json_space (byteZ "["%char)) with false. cbv iota. change (byteZ "["%char =? 91) with true. cbv iota.
  destruct l as [|s l]; [done|]. change (byte_str "]") with "]". rewrite scan_elements by auto. done.
Qed.

Lemma sq_array_read l : forallb valid_utf8 l = true → sq_Scan (Some (sq_Value l)) = Ok l.
Proof.
  intros Hl. rewrite sq_scan_value. f_equal. induction l as [|s l IH]; [done|]. apply andb_prop in Hl as [Hs Hl].
  cbn. by rewrite sanitize_valid, IH.
Qed.

(** C37: string lists survive both databases.  A list of valid UTF-8 strings,
    whatever quotes, backslashes, commas, brackets, control or HTML characters
    they contain, is read back as it was written: from the JSON text of the
    SQLite store, and from the [TEXT[]] literal of the PostgreSQL store in the
    form it was sent and in every rendering the server may answer with, in
    which elements are quoted or, when they contain nothing special, bare.  With
    SQLite every list is read back; each invalid byte has become U+FFFD. *)
Theorem string_lists_survive l :
  sq_Scan (Some (sq_Value l)) = Ok (sanitize <$> l) ∧
  (forallb valid_utf8 l = true →
     sq_Scan (Some (sq_Value l)) = Ok l ∧
     stringArray_Scan (Some (stringArray_Value l)) = Ok l ∧
     ∀ ts, Forall2 rendered l ts → stringArray_Scan (Some ("{" +:+ (Join ts "," +:+ "}"))) = Ok l).
Proof.
  split; [apply sq_scan_value|]. intros Hl.
  split; [by apply sq_array_read|split; [by apply text_array_scans|intros ts; apply parse_array]].
Qed.

(** ** Examples *)

(** A text in which apostrophes stand for quotes. *)
Definition quoted (s : string) : string := str_map (λ a, if Ascii.eqb a "'" then dquote else a) s.

(** White space, an element [null], escapes, a surrogate pair and half of one;
    [null] and blanks; texts that are refused. *)
Example scan_examples :
  sq_Scan (Some (quoted " [ 'a' , null ,'\u00E9\ud83d\ude00\ud83dx\/'] ")) =
    Ok ["a"; ""; EncodeRune 233 +:+ EncodeRune 128512 +:+ EncodeRune RuneError +:+ "x/"] ∧
  sq_Scan (Some " null ") = Ok [] ∧ sq_Scan (Some " ") = Ok [] ∧ sq_Scan None = Ok [] ∧
  sq_Value [] = "[]" ∧ sq_Value ["a<b"; EncodeRune 8232] = quoted "['a\u003cb','\u2028']" ∧
  Forall (λ s, sq_Scan (Some (quoted s)) = Err ErrOther)
    ["['a',]"; "['a'"; "['a'] x"; "[1]"; "'a'"; "{}"; "['\x']"; "['\ud83d\u00']"].
Proof.
  split_and!; [vm_compute; reflexivity..|].
  repeat (constructor; [vm_compute; reflexivity|]). constructor.
Qed.

Lemma string_lists_survive_witness :
  sq_Scan (Some (sq_Value fx_uris)) = Ok fx_uris ∧
  stringArray_Scan (Some (stringArray_Value fx_uris)) = Ok fx_uris ∧
  stringArray_Scan (Some "{openid,email}") = Ok ["openid"; "email"].
Proof.
  destruct (proj2 (string_lists_survive fx_uris) eq_refl) as (Hs & Hp & _). split_and!; [exact Hs|exact Hp|].
  destruct (proj2 (string_lists_survive ["openid"; "email"]) eq_refl) as (_ & _ & H).
  apply (H ["openid"; "email"]). repeat constructor; right; (split; [reflexivity|vm_compute; reflexivity]).
Defined.
