(* ===== verification/Rows.v ===== *)
(** * Rows and columns

    How the stores read rows: the lists of columns they select, by name, and the
    scanners that take the values of a row by position ([scanUser],
    [scanClient], [scanIntegration], [scanWebAuthnCredential],
    [scanAWSAccount], [scanGrant], [scanSession], [scanDeviceGrant] and
    [scanAWSRole] of both store packages), and [prefixCols], which qualifies a
    list of columns for a join.  The other files read whole records; the
    theorems here say that the scanners do deliver them. *)
From S2P Require Import Prelude GoStrings GoNet Model Dialect Tables SqliteTokens SqliteAws PgTokens PgAws PgArray SqArray.

Local Open Scope Z_scope.

(** ** Values and rows *)

(** A value the driver hands to [Scan]. *)
Inductive sqlval : Type :=
| SNull
| SUuid (u : uuid)
| SText (s : string)
| SBytes (s : string)
| SBool (b : bool)
| SInt (z : Z)
| STime (t : Z).

(** A row of a table: its columns by name. *)
Definition Row : Type := gmap string sqlval.

(** What [QueryRow] answers: no row, a failure, or the selected values. *)
Inductive row_answer : Type :=
| NoRows
| RowFailed
| Values (vs : list sqlval).

(** The columns a list names. *)
Definition columns `{UnicodeTables} (cols : string) : list string := TrimSpace <$> Split cols ",".

(** [SELECT cols] of a row. *)
Definition select `{UnicodeTables} (cols : string) (r : Row) : list sqlval := (λ c, default SNull (r !! c)) <$> columns cols.

(** [prefixCols]. *)
Definition prefixCols `{UnicodeTables} (prefix cols : string) : string :=
  Join ((λ p, prefix +:+ "." +:+ TrimSpace p) <$> Split cols ",") ", ".

(** ** Destinations of [Scan] *)

Definition to_uuid (v : sqlval) : result uuid := match v with SUuid u => Ok u | _ => Err ErrOther end.
Definition to_text (v : sqlval) : result string := match v with SText s => Ok s | _ => Err ErrOther end.
Definition to_bytes (v : sqlval) : result string := match v with SBytes s => Ok s | SText s => Ok s | SNull => Ok "" | _ => Err ErrOther end.
Definition to_bool (v : sqlval) : result bool := match v with SBool b => Ok b | _ => Err ErrOther end.
Definition to_int (v : sqlval) : result Z := match v with SInt z => Ok z | _ => Err ErrOther end.
Definition to_time (v : sqlval) : result Z := match v with STime t => Ok t | _ => Err ErrOther end.

(** A pointer, or one of the [sql.Null] types: NULL is nil. *)
Definition nullable {A} (f : sqlval → result A) (v : sqlval) : result (option A) :=
  match v with SNull => Ok None | v => match f v with Ok a => Ok (Some a) | Err e => Err e end end.

(** [stringArray], with the scanner of the dialect. *)
Definition to_array (scan : option string → result (list string)) (v : sqlval) : result (list string) :=
  match v with SNull => scan None | SText s => scan (Some s) | _ => Err ErrOther end.

Notation "'dest' x <- f ;; k" := (match f with Ok x => k | Err e => Err e end)
  (at level 60, f at level 59, right associativity, only parsing).

(** ** The scanners *)

Definition userCols : string :=
  "id, email, password_hash, name, active, scim_external_id, mfa_enabled, is_admin, password_changed_at, failed_attempts, locked_until, must_change_password, created_at, updated_at".

Definition scanUser (row : row_answer) : result User :=
  match row with
  | NoRows => Err ErrNotFound
  | Values [v1; v2; v3; v4; v5; v6; v7; v8; v9; v10; v11; v12; v13; v14] =>
      dest id <- to_uuid v1;; dest email <- to_text v2;; dest hash <- to_text v3;; dest name <- to_text v4;;
      dest active <- to_bool v5;; dest ext <- to_text v6;; dest mfa <- to_bool v7;; dest admin <- to_bool v8;;
      dest changed <- to_time v9;; dest failed <- to_int v10;; dest locked <- nullable to_time v11;;
      dest must <- to_bool v12;; dest created <- to_time v13;; dest updated <- to_time v14;;
      Ok {| u_ID := id; u_Email := email; u_PasswordHash := hash; u_Name := name; u_Active := active;
            u_SCIMExternalID := ext; u_MFAEnabled := mfa; u_IsAdmin := admin; u_PasswordChangedAt := changed;
            u_FailedAttempts := failed; u_LockedUntil := locked; u_MustChangePassword := must;
            u_CreatedAt := created; u_UpdatedAt := updated |}
  | _ => Err ErrOther
  end.

Definition clientCols : string :=
  "id, client_id, client_secret_hash, name, redirect_uris, scopes, public, backchannel_logout_uri, show_in_portal, launch_url, brand_color, icon_url, visible_to_all, allow_device_grant, secret_rotated_at, created_at".

(** [scan] is the array scanner of the dialect. *)
Definition scanClient (scan : option string → result (list string)) (row : row_answer) : result Client :=
  match row with
  | NoRows => Err ErrNotFound
  | Values [v1; v2; v3; v4; v5; v6; v7; v8; v9; v10; v11; v12; v13; v14; v15; v16] =>
      dest id <- to_uuid v1;; dest cid <- to_text v2;; dest secret <- to_text v3;; dest name <- to_text v4;;
      dest uris <- to_array scan v5;; dest scopes <- to_array scan v6;; dest public <- to_bool v7;;
      dest logout <- nullable to_text v8;; dest show <- to_bool v9;; dest launch <- to_text v10;;
      dest color <- to_text v11;; dest icon <- to_text v12;; dest visible <- to_bool v13;; dest device <- to_bool v14;;
      dest rotated <- to_time v15;; dest created <- to_time v16;;
      Ok {| c_ID := id; c_ClientID := cid; c_ClientSecretHash := secret; c_Name := name; c_RedirectURIs := uris;
            c_Scopes := scopes; c_Public := public; c_BackchannelLogoutURI := logout; c_ShowInPortal := show;
            c_LaunchURL := launch; c_BrandColor := color; c_IconURL := icon; c_VisibleToAll := visible;
            c_AllowDeviceGrant := device; c_SecretRotatedAt := rotated; c_CreatedAt := created |}
  | _ => Err ErrOther
  end.

Definition pg_scanClient : row_answer → result Client := scanClient stringArray_Scan.
Definition sqlite_scanClient `{UnicodeTables} : row_answer → result Client := scanClient sq_Scan.

Definition webAuthnCredentialCols : string :=
  "id, user_id, credential_id, public_key, aaguid, sign_count, backup_eligible, backup_state, device_name, created_at, last_used_at".

(** Read only inside a loop over rows: a missing row is any other error. *)
Definition scanWebAuthnCredential (row : row_answer) : result WebAuthnCredential :=
  match row with
  | Values [v1; v2; v3; v4; v5; v6; v7; v8; v9; v10; v11] =>
      dest id <- to_uuid v1;; dest user <- to_uuid v2;; dest cred <- to_bytes v3;; dest key <- to_bytes v4;;
      dest aaguid <- to_bytes v5;; dest count <- to_int v6;; dest be <- nullable to_bool v7;; dest bs <- to_bool v8;;
      dest device <- to_text v9;; dest created <- to_time v10;; dest used <- to_time v11;;
      Ok {| wa_ID := id; wa_UserID := user; wa_CredentialID := cred; wa_PublicKey := key; wa_AAGUID := aaguid;
            wa_SignCount := count; wa_BackupEligible := be; wa_BackupState := bs; wa_DeviceName := device;
            wa_CreatedAt := created; wa_LastUsedAt := used |}
  | _ => Err ErrOther
  end.

Definition awsAccountCols : string := "id, account_id, alias, oidc_provider_arn, created_at, updated_at".

Definition scanAWSAccount (row : row_answer) : result AWSAccount :=
  match row with
  | NoRows => Err ErrNotFound
  | Values [v1; v2; v3; v4; v5; v6] =>
      dest id <- to_uuid v1;; dest account <- to_text v2;; dest alias <- to_text v3;; dest arn <- to_text v4;;
      dest created <- to_time v5;; dest updated <- to_time v6;;
      Ok {| aa_ID := id; aa_AccountID := account; aa_Alias := alias; aa_OIDCProviderARN := arn;
            aa_CreatedAt := created; aa_UpdatedAt := updated |}
  | _ => Err ErrOther
  end.

Definition integrationCols : string :=
  "id, name, provider, enabled, config, encrypted_token, encrypted_dek, created_at, updated_at".

Section integrations.
  (** [json.Unmarshal] into the configuration struct. *)
  Context (config_Unmarshal : string → result AppIntegrationConfig).

Definition scanIntegration (row : row_answer) : result AppIntegration :=
  match row with
  | NoRows => Err ErrNotFound
  | Values [v1; v2; v3; v4; v5; v6; v7; v8; v9] =>
      dest id <- to_uuid v1;; dest name <- to_text v2;; dest provider <- to_text v3;; dest enabled <- to_bool v4;;
      dest raw <- to_bytes v5;; dest token <- nullable to_bytes v6;; dest dek <- nullable to_bytes v7;;
      dest created <- to_time v8;; dest updated <- to_time v9;;
      dest config <- (if bool_decide (raw = "") then Ok (mkAppIntegrationConfig "" 0 "") else config_Unmarshal raw);;
      Ok {| ai_ID := id; ai_Name := name; ai_Provider := provider; ai_Enabled := enabled; ai_Config := config;
            ai_EncryptedToken := token; ai_EncryptedDEK := dek; ai_CreatedAt := created; ai_UpdatedAt := updated |}
  | _ => Err ErrOther
  end.

(** The loop of [queryIntegrations]: the first row that cannot be read ends it. *)
Fixpoint queryIntegrations (rows : list row_answer) : result (list AppIntegration) :=
  match rows with
  | [] => Ok []
  | row :: rows => dest i <- scanIntegration row;; dest out <- queryIntegrations rows;; Ok (i :: out)
  end.

End integrations.

(** *** Tables whose rows differ from the records

    The calls of [row.Scan] of [scanGrant], [scanSession], [scanDeviceGrant] and
    [scanAWSRole]: NULL columns arrive as [None], lists of scopes as text.  What
    the functions make of the values is [scanGrant] and so on of SqliteTokens
    and SqliteAws. *)

Definition grantCols : string :=
  "id, user_id, client_id, code_hash, code_challenge, nonce, scopes, redirect_uri, expires_at, used_at, mfa_verified_at, auth_time".

Definition read_grant_row (scan : option string → result (list string)) (row : row_answer) : result grant_row :=
  match row with
  | NoRows => Err ErrNotFound
  | Values [v1; v2; v3; v4; v5; v6; v7; v8; v9; v10; v11; v12] =>
      dest id <- to_uuid v1;; dest user <- to_uuid v2;; dest client <- to_uuid v3;; dest hash <- to_text v4;;
      dest challenge <- to_text v5;; dest nonce <- to_text v6;; dest scopes <- to_array scan v7;;
      dest uri <- to_text v8;; dest expires <- to_time v9;; dest used <- nullable to_time v10;;
      dest mfa <- nullable to_time v11;; dest auth <- nullable to_time v12;;
      Ok (mk_grant_row id user client hash challenge nonce scopes uri expires used mfa auth)
  | _ => Err ErrOther
  end.

Definition sessionCols : string :=
  "id, user_id, client_id, access_token_hash, refresh_token_hash, scopes, access_expires_at, refresh_expires_at, last_activity_at, mfa_verified, mfa_verified_at, auth_time, created_at".

Definition read_session_row (scan : option string → result (list string)) (row : row_answer) : result session_row :=
  match row with
  | NoRows => Err ErrNotFound
  | Values [v1; v2; v3; v4; v5; v6; v7; v8; v9; v10; v11; v12; v13] =>
      dest id <- to_uuid v1;; dest user <- nullable to_uuid v2;; dest client <- to_uuid v3;;
      dest access <- to_text v4;; dest refresh <- to_text v5;; dest scopes <- to_array scan v6;;
      dest aexp <- to_time v7;; dest rexp <- to_time v8;; dest active <- to_time v9;; dest mfa <- to_bool v10;;
      dest mfaAt <- nullable to_time v11;; dest authAt <- nullable to_time v12;; dest created <- to_time v13;;
      Ok (mk_session_row id user client access refresh scopes aexp rexp active mfa mfaAt authAt created)
  | _ => Err ErrOther
  end.

Definition deviceGrantCols : string :=
  "id, device_code_hash, user_code_hash, client_id, scopes, status, user_id, mfa_verified, mfa_verified_at, approver_ip, interval_sec, last_polled_at, created_at, expires_at".

Definition read_device_row (row : row_answer) : result device_row :=
  match row with
  | NoRows => Err ErrNotFound
  | Values [v1; v2; v3; v4; v5; v6; v7; v8; v9; v10; v11; v12; v13; v14] =>
      dest id <- to_uuid v1;; dest device <- to_text v2;; dest code <- to_text v3;; dest client <- to_uuid v4;;
      dest scopes <- to_text v5;; dest status <- to_text v6;; dest user <- nullable to_uuid v7;;
      dest mfa <- to_bool v8;; dest mfaAt <- nullable to_time v9;; dest ip <- to_text v10;;
      dest interval <- to_int v11;; dest polled <- nullable to_time v12;; dest created <- to_time v13;;
      dest expires <- to_time v14;;
      Ok (mk_device_row id device code client scopes status user mfa mfaAt ip interval polled created expires)
  | _ => Err ErrOther
  end.

Definition awsRoleCols : string :=
  "id, account_id, role_arn, slug, display_name, require_step_up_mfa, max_session_duration_sec, allowed_regions, created_at, updated_at".

Definition read_role_row (row : row_answer) : result role_row :=
  match row with
  | NoRows => Err ErrNotFound
  | Values [v1; v2; v3; v4; v5; v6; v7; v8; v9; v10] =>
      dest id <- to_uuid v1;; dest account <- to_uuid v2;; dest arn <- to_text v3;; dest slug <- to_text v4;;
      dest name <- to_text v5;; dest stepup <- to_bool v6;; dest dur <- to_int v7;; dest regions <- to_text v8;;
      dest created <- to_time v9;; dest updated <- to_time v10;;
      Ok (mk_role_row id account arn slug name stepup dur regions created updated)
  | _ => Err ErrOther
  end.

(** ** The rows the tables hold *)

Definition maybe {A} (f : A → sqlval) (o : option A) : sqlval := match o with Some a => f a | None => SNull end.

Definition user_row (u : User) : Row := list_to_map
  [("id", SUuid (u_ID u)); ("email", SText (u_Email u)); ("password_hash", SText (u_PasswordHash u));
   ("name", SText (u_Name u)); ("active", SBool (u_Active u)); ("scim_external_id", SText (u_SCIMExternalID u));
   ("mfa_enabled", SBool (u_MFAEnabled u)); ("is_admin", SBool (u_IsAdmin u));
   ("password_changed_at", STime (u_PasswordChangedAt u)); ("failed_attempts", SInt (u_FailedAttempts u));
   ("locked_until", maybe STime (u_LockedUntil u)); ("must_change_password", SBool (u_MustChangePassword u));
   ("created_at", STime (u_CreatedAt u)); ("updated_at", STime (u_UpdatedAt u))].

(** [text] writes the lists of strings. *)
Definition client_row (text : list string → string) (c : Client) : Row := list_to_map
  [("id", SUuid (c_ID c)); ("client_id", SText (c_ClientID c)); ("client_secret_hash", SText (c_ClientSecretHash c));
   ("name", SText (c_Name c)); ("redirect_uris", SText (text (c_RedirectURIs c))); ("scopes", SText (text (c_Scopes c)));
   ("public", SBool (c_Public c)); ("backchannel_logout_uri", maybe SText (c_BackchannelLogoutURI c));
   ("show_in_portal", SBool (c_ShowInPortal c)); ("launch_url", SText (c_LaunchURL c));
   ("brand_color", SText (c_BrandColor c)); ("icon_url", SText (c_IconURL c));
   ("visible_to_all", SBool (c_VisibleToAll c)); ("allow_device_grant", SBool (c_AllowDeviceGrant c));
   ("secret_rotated_at", STime (c_SecretRotatedAt c)); ("created_at", STime (c_CreatedAt c))].

Definition credential_row (c : WebAuthnCredential) : Row := list_to_map
  [("id", SUuid (wa_ID c)); ("user_id", SUuid (wa_UserID c)); ("credential_id", SBytes (wa_CredentialID c));
   ("public_key", SBytes (wa_PublicKey c)); ("aaguid", SBytes (wa_AAGUID c)); ("sign_count", SInt (wa_SignCount c));
   ("backup_eligible", maybe SBool (wa_BackupEligible c)); ("backup_state", SBool (wa_BackupState c));
   ("device_name", SText (wa_DeviceName c)); ("created_at", STime (wa_CreatedAt c));
   ("last_used_at", STime (wa_LastUsedAt c))].

Definition account_row (a : AWSAccount) : Row := list_to_map
  [("id", SUuid (aa_ID a)); ("account_id", SText (aa_AccountID a)); ("alias", SText (aa_Alias a));
   ("oidc_provider_arn", SText (aa_OIDCProviderARN a)); ("created_at", STime (aa_CreatedAt a));
   ("updated_at", STime (aa_UpdatedAt a))].

Definition integration_row (config_Marshal : AppIntegrationConfig → string) (i : AppIntegration) : Row := list_to_map
  [("id", SUuid (ai_ID i)); ("name", SText (ai_Name i)); ("provider", SText (ai_Provider i));
   ("enabled", SBool (ai_Enabled i)); ("config", SText (config_Marshal (ai_Config i)));
   ("encrypted_token", maybe SBytes (ai_EncryptedToken i)); ("encrypted_dek", maybe SBytes (ai_EncryptedDEK i));
   ("created_at", STime (ai_CreatedAt i)); ("updated_at", STime (ai_UpdatedAt i))].

Definition grant_columns (text : list string → string) (r : grant_row) : Row := list_to_map
  [("id", SUuid (gr_id r)); ("user_id", SUuid (gr_user_id r)); ("client_id", SUuid (gr_client_id r));
   ("code_hash", SText (gr_code_hash r)); ("code_challenge", SText (gr_code_challenge r)); ("nonce", SText (gr_nonce r));
   ("scopes", SText (text (gr_scopes r))); ("redirect_uri", SText (gr_redirect_uri r)); ("expires_at", STime (gr_expires_at r));
   ("used_at", maybe STime (gr_used_at r)); ("mfa_verified_at", maybe STime (gr_mfa_verified_at r));
   ("auth_time", maybe STime (gr_auth_time r))].

Definition session_columns (text : list string → string) (r : session_row) : Row := list_to_map
  [("id", SUuid (sr_id r)); ("user_id", maybe SUuid (sr_user_id r)); ("client_id", SUuid (sr_client_id r));
   ("access_token_hash", SText (sr_access_token_hash r)); ("refresh_token_hash", SText (sr_refresh_token_hash r));
   ("scopes", SText (text (sr_scopes r))); ("access_expires_at", STime (sr_access_expires_at r));
   ("refresh_expires_at", STime (sr_refresh_expires_at r)); ("last_activity_at", STime (sr_last_activity_at r));
   ("mfa_verified", SBool (sr_mfa_verified r)); ("mfa_verified_at", maybe STime (sr_mfa_verified_at r));
   ("auth_time", maybe STime (sr_auth_time r)); ("created_at", STime (sr_created_at r))].

Definition device_columns (r : device_row) : Row := list_to_map
  [("id", SUuid (dr_id r)); ("device_code_hash", SText (dr_device_code_hash r)); ("user_code_hash", SText (dr_user_code_hash r));
   ("client_id", SUuid (dr_client_id r)); ("scopes", SText (dr_scopes r)); ("status", SText (dr_status r));
   ("user_id", maybe SUuid (dr_user_id r)); ("mfa_verified", SBool (dr_mfa_verified r));
   ("mfa_verified_at", maybe STime (dr_mfa_verified_at r)); ("approver_ip", SText (dr_approver_ip r));
   ("interval_sec", SInt (dr_interval_sec r)); ("last_polled_at", maybe STime (dr_last_polled_at r));
   ("created_at", STime (dr_created_at r)); ("expires_at", STime (dr_expires_at r))].

Definition role_columns (r : role_row) : Row := list_to_map
  [("id", SUuid (rr_id r)); ("account_id", SUuid (rr_account_id r)); ("role_arn", SText (rr_role_arn r));
   ("slug", SText (rr_slug r)); ("display_name", SText (rr_display_name r));
   ("require_step_up_mfa", SBool (rr_require_step_up_mfa r)); ("max_session_duration_sec", SInt (rr_max_session_duration_sec r));
   ("allowed_regions", SText (rr_allowed_regions r)); ("created_at", STime (rr_created_at r));
   ("updated_at", STime (rr_updated_at r))].

(** ** What is selected is what is read *)

Section roundtrip.
  Context `{U : UnicodeTables}.

Lemma user_read u : scanUser (Values (select userCols (user_row u))) = Ok u.
Proof. destruct u as [? ? ? ? ? ? ? ? ? ? [] ? ? ?]; vm_compute; reflexivity. Qed.

Lemma credential_read c : scanWebAuthnCredential (Values (select webAuthnCredentialCols (credential_row c))) = Ok c.
Proof. destruct c as [? ? ? ? ? ? [] ? ? ? ?]; vm_compute; reflexivity. Qed.

Lemma account_read a : scanAWSAccount (Values (select awsAccountCols (account_row a))) = Ok a.
Proof. destruct a; vm_compute; reflexivity. Qed.

(** The values of a client's row, in the order of [clientCols]. *)
Lemma client_selected text c :
  select clientCols (client_row text c) =
  [SUuid (c_ID c); SText (c_ClientID c); SText (c_ClientSecretHash c); SText (c_Name c); SText (text (c_RedirectURIs c));
   SText (text (c_Scopes c)); SBool (c_Public c); maybe SText (c_BackchannelLogoutURI c); SBool (c_ShowInPortal c);
   SText (c_LaunchURL c); SText (c_BrandColor c); SText (c_IconURL c); SBool (c_VisibleToAll c);
   SBool (c_AllowDeviceGrant c); STime (c_SecretRotatedAt c); STime (c_CreatedAt c)].
Proof. vm_compute. reflexivity. Qed.

Lemma client_read scan text c :
  scan (Some (text (c_RedirectURIs c))) = Ok (c_RedirectURIs c) → scan (Some (text (c_Scopes c))) = Ok (c_Scopes c) →
  scanClient scan (Values (select clientCols (client_row text c))) = Ok c.
Proof.
  intros H1 H2. rewrite client_selected. destruct c as [? ? ? ? ? ? ? [] ? ? ? ? ? ? ? ?]; cbn in *; by rewrite H1, H2.
Qed.

Lemma integration_selected config_Marshal i :
  select integrationCols (integration_row config_Marshal i) =
  [SUuid (ai_ID i); SText (ai_Name i); SText (ai_Provider i); SBool (ai_Enabled i); SText (config_Marshal (ai_Config i));
   maybe SBytes (ai_EncryptedToken i); maybe SBytes (ai_EncryptedDEK i); STime (ai_CreatedAt i); STime (ai_UpdatedAt i)].
Proof. vm_compute. reflexivity. Qed.

Lemma grant_row_read scan text r :
  scan (Some (text (gr_scopes r))) = Ok (gr_scopes r) →
  read_grant_row scan (Values (select grantCols (grant_columns text r))) = Ok r.
Proof.
  assert (Hs : select grantCols (grant_columns text r) =
    [SUuid (gr_id r); SUuid (gr_user_id r); SUuid (gr_client_id r); SText (gr_code_hash r); SText (gr_code_challenge r);
     SText (gr_nonce r); SText (text (gr_scopes r)); SText (gr_redirect_uri r); STime (gr_expires_at r);
     maybe STime (gr_used_at r); maybe STime (gr_mfa_verified_at r); maybe STime (gr_auth_time r)])
    by (vm_compute; reflexivity).
  intros H. rewrite Hs. destruct r as [? ? ? ? ? ? ? ? ? [] [] []]; cbn in *; by rewrite H.
Qed.

Lemma session_row_read scan text r :
  scan (Some (text (sr_scopes r))) = Ok (sr_scopes r) →
  read_session_row scan (Values (select sessionCols (session_columns text r))) = Ok r.
Proof.
  assert (Hs : select sessionCols (session_columns text r) =
    [SUuid (sr_id r); maybe SUuid (sr_user_id r); SUuid (sr_client_id r); SText (sr_access_token_hash r);
     SText (sr_refresh_token_hash r); SText (text (sr_scopes r)); STime (sr_access_expires_at r);
     STime (sr_refresh_expires_at r); STime (sr_last_activity_at r); SBool (sr_mfa_verified r);
     maybe STime (sr_mfa_verified_at r); maybe STime (sr_auth_time r); STime (sr_created_at r)])
    by (vm_compute; reflexivity).
  intros H. rewrite Hs. destruct r as [? [] ? ? ? ? ? ? ? ? [] [] ?]; cbn in *; by rewrite H.
Qed.

Lemma device_row_read r : read_device_row (Values (select deviceGrantCols (device_columns r))) = Ok r.
Proof. destruct r as [? ? ? ? ? ? [] ? [] ? ? [] ? ?]; vm_compute; reflexivity. Qed.

Lemma role_row_read r : read_role_row (Values (select awsRoleCols (role_columns r))) = Ok r.
Proof. destruct r; vm_compute; reflexivity. Qed.

(** The rows behind grants, sessions, device grants and roles are read back
    unchanged in both databases, and both packages make the same records of
    them. *)
Theorem table_rows_read (g : grant_row) (s : session_row) (d : device_row) (r : role_row) :
  forallb valid_utf8 (gr_scopes g) = true → forallb valid_utf8 (sr_scopes s) = true →
  (read_grant_row sq_Scan (Values (select grantCols (grant_columns sq_Value g))) = Ok g ∧
   read_grant_row stringArray_Scan (Values (select grantCols (grant_columns stringArray_Value g))) = Ok g ∧
   pg_scanGrant g = scanGrant g) ∧
  (read_session_row sq_Scan (Values (select sessionCols (session_columns sq_Value s))) = Ok s ∧
   read_session_row stringArray_Scan (Values (select sessionCols (session_columns stringArray_Value s))) = Ok s ∧
   pg_scanSession s = scanSession s) ∧
  (read_device_row (Values (select deviceGrantCols (device_columns d))) = Ok d ∧ pg_scanDeviceGrant d = scanDeviceGrant d) ∧
  (read_role_row (Values (select awsRoleCols (role_columns r))) = Ok r ∧ pg_scanAWSRole r = scanAWSRole r).
Proof.
  intros Hg Hs. split; [|split; [|split]].
  - split_and!; [apply grant_row_read; by apply sq_array_read|apply grant_row_read; by apply text_array_scans|reflexivity].
  - split_and!; [apply session_row_read; by apply sq_array_read|apply session_row_read; by apply text_array_scans|reflexivity].
  - split; [apply device_row_read|]. unfold pg_scanDeviceGrant, scanDeviceGrant. by destruct (bool_decide (dr_scopes d = "")).
  - split; [apply role_row_read|reflexivity].
Qed.

(** The configuration survives its JSON. *)
Context (config_Marshal : AppIntegrationConfig → string) (config_Unmarshal : string → result AppIntegrationConfig).
Hypothesis config_json : ∀ c, config_Marshal c ≠ "" ∧ config_Unmarshal (config_Marshal c) = Ok c.

Lemma integration_read i :
  scanIntegration config_Unmarshal (Values (select integrationCols (integration_row config_Marshal i))) = Ok i.
Proof.
  rewrite integration_selected. destruct i as [? ? ? ? c [] [] ? ?]; destruct (config_json c) as [Hne Hc]; cbn;
    rewrite bool_decide_false, Hc by done; done.
Qed.

Lemma integrations_read l :
  queryIntegrations config_Unmarshal ((λ i, Values (select integrationCols (integration_row config_Marshal i))) <$> l) = Ok l.
Proof. induction l as [|i l IH]; [done|]. rewrite fmap_cons. cbn [queryIntegrations]. by rewrite integration_read, IH. Qed.

(** Reading a row by position gives back the record it was stored for, in both
    databases: the columns are listed in the order the scanners expect. *)
Theorem rows_read (u : User) (c : Client) (w : WebAuthnCredential) (a : AWSAccount) (l : list AppIntegration) :
  forallb valid_utf8 (c_RedirectURIs c) = true → forallb valid_utf8 (c_Scopes c) = true →
  scanUser (Values (select userCols (user_row u))) = Ok u ∧
  sqlite_scanClient (Values (select clientCols (client_row sq_Value c))) = Ok c ∧
  pg_scanClient (Values (select clientCols (client_row stringArray_Value c))) = Ok c ∧
  scanWebAuthnCredential (Values (select webAuthnCredentialCols (credential_row w))) = Ok w ∧
  scanAWSAccount (Values (select awsAccountCols (account_row a))) = Ok a ∧
  queryIntegrations config_Unmarshal ((λ i, Values (select integrationCols (integration_row config_Marshal i))) <$> l) = Ok l.
Proof.
  intros Hu Hs. split_and!; [apply user_read| | |apply credential_read|apply account_read|apply integrations_read].
  - apply client_read; by apply sq_array_read.
  - apply client_read; by apply text_array_scans.
Qed.

(** Qualified columns name the same columns, in the same order. *)
Lemma prefixCols_columns : columns (prefixCols "c" clientCols) = (λ col, "c." +:+ col) <$> columns clientCols.
Proof. vm_compute. reflexivity. Qed.

End roundtrip.
