(* ===== verification/Store.v ===== *)
(** * The store interface and its invariant

    [Query] is the interface [store.Store] of [internal/store/store.go], one
    constructor per method; [run_query] is the implementation, over the dialect
    of the database.  The
    second half states what the schema promises ([db_wf]: primary keys, UNIQUE
    columns, foreign keys) and proves that every method keeps it, so that the
    handlers can rely on it whatever the interleaving of their calls. *)
From S2P Require Import Prelude GoStrings Model Dialect Tables SqliteUsers SqliteTokens SqliteAws.

(** [store.Store]. *)
Inductive Query : Type → Type :=
(* Users *)
| QCreateUser (email passwordHash name : string) : Query User
| QGetUserByID (id : uuid) : Query User
| QGetUserByEmail (email : string) : Query User
| QCountUsers : Query Z
| QListUsers : Query (list User)
| QUpdateUser (id : uuid) (name : string) (active : bool) : Query unit
| QUpdateUserPassword (id : uuid) (passwordHash : string) : Query unit
| QSetUserMustChangePassword (id : uuid) (flag : bool) : Query unit
| QUpdateUserMFAEnabled (id : uuid) (enabled : bool) : Query unit
| QUpdateUserFailedAttempts (id : uuid) (count : Z) (lockedUntil : option Z) : Query unit
| QSetUserActive (id : uuid) (active : bool) : Query unit
| QSetUserSCIMExternalID (id : uuid) (externalID : string) : Query unit
| QSetUserAdmin (id : uuid) (isAdmin : bool) : Query unit
| QDeleteUser (id : uuid) : Query unit
(* Clients *)
| QCreateClient (clientID clientSecretHash name : string) (redirectURIs scopes : list string) (public : bool) (backchannelLogoutURI : option string) : Query Client
| QGetClientByID (id : uuid) : Query Client
| QGetClientByClientID (clientID : string) : Query Client
| QListClients : Query (list Client)
| QUpdateClient (id : uuid) (name : string) (redirectURIs scopes : list string) (public : bool) (backchannelLogoutURI : option string) : Query unit
| QUpdateClientDeviceGrant (id : uuid) (allow : bool) : Query unit
| QUpdateClientSecret (id : uuid) (secretHash : string) : Query unit
| QDeleteClient (id : uuid) : Query unit
| QUpdateClientPortalConfig (id : uuid) (showInPortal : bool) (launchURL brandColor iconURL : string) (visibleToAll : bool) : Query unit
| QReplaceClientVisibility (clientID : uuid) (groupIDs : list uuid) : Query unit
| QListClientVisibility (clientID : uuid) : Query (list uuid)
| QListPortalClientsForUser (userID : uuid) : Query (list Client)
(* Groups *)
| QCreateGroup (displayName : string) : Query SCIMGroup
| QGetGroupByID (id : uuid) : Query SCIMGroup
| QListGroups : Query (list SCIMGroup)
| QUpdateGroup (id : uuid) (displayName : string) : Query unit
| QReplaceGroupMembers (groupID : uuid) (memberIDs : list uuid) : Query unit
| QAddGroupMember (groupID userID : uuid) : Query unit
| QRemoveGroupMember (groupID userID : uuid) : Query unit
| QDeleteGroup (id : uuid) : Query unit
(* Second factors *)
| QCreateTOTPCredential (c : TOTPCredential) : Query unit
| QGetTOTPByUserID (userID : uuid) : Query TOTPCredential
| QEnableTOTP (id : uuid) : Query unit
| QDeleteTOTP (userID : uuid) : Query unit
| QCreateWebAuthnCredential (c : WebAuthnCredential) : Query unit
| QListWebAuthnCredentials (userID : uuid) : Query (list WebAuthnCredential)
| QUpdateWebAuthnCredentialUse (id : uuid) (signCount : Z) (backupEligible backupState : bool) (lastUsed : Z) : Query unit
| QDeleteWebAuthnCredential (id userID : uuid) : Query unit
| QCreateWebAuthnSession (userID : uuid) (data purpose : string) : Query uuid
| QGetWebAuthnSession (id userID : uuid) (purpose : string) : Query string
| QDeleteWebAuthnSession (id : uuid) : Query unit
(* Authorization codes *)
| QCreateGrant (g : Grant) : Query unit
| QGetGrantByCodeHash (codeHash : string) : Query Grant
| QMarkGrantUsed (id : uuid) : Query unit
| QDeleteExpiredGrants : Query unit
(* Sessions *)
| QCreateSession (s : Session) : Query unit
| QMarkSessionMFA (id : uuid) (when : Z) : Query unit
| QGetSessionByAccessTokenHash (hash : string) : Query Session
| QGetSessionByRefreshTokenHash (hash : string) : Query Session
| QUpdateSessionActivity (id : uuid) (lastActivity : Z) : Query unit
| QExtendSessionExpiry (id : uuid) (newExpiry : Z) : Query unit
| QRotateRefreshToken (id : uuid) (oldRefreshHash newAccessHash newRefreshHash : string) (newAccessExpiry newRefreshExpiry : Z) : Query unit
| QGetSessionByRetiredRefreshTokenHash (hash : string) : Query Session
| QDeleteSession (id : uuid) : Query unit
| QDeleteSessionsByUserID (userID : uuid) : Query unit
| QListSessionClientIDsByUser (userID : uuid) : Query (list uuid)
| QDeleteExpiredSessions : Query unit
(* Device grants *)
| QCreateDeviceGrant (g : DeviceGrant) : Query DeviceGrant
| QGetDeviceGrantByDeviceCodeHash (hash : string) : Query DeviceGrant
| QGetDeviceGrantByUserCodeHash (hash : string) : Query DeviceGrant
| QMarkDeviceGrantApproved (id userID : uuid) (mfaVerified : bool) (mfaVerifiedAt : option Z) (approverIP : string) : Query unit
| QMarkDeviceGrantDenied (id : uuid) (approverIP : string) : Query unit
| QMarkDeviceGrantRedeemed (id : uuid) : Query unit
| QUpdateDeviceGrantPoll (id : uuid) (now : Z) (intervalSec : Z) : Query unit
| QDeleteExpiredDeviceGrants : Query Z
(* AWS federation *)
| QCreateAWSAccount (a : AWSAccount) : Query AWSAccount
| QGetAWSAccount (id : uuid) : Query AWSAccount
| QListAWSAccounts : Query (list AWSAccount)
| QUpdateAWSAccount (a : AWSAccount) : Query unit
| QDeleteAWSAccount (id : uuid) : Query unit
| QCreateAWSRole (r : AWSRole) : Query AWSRole
| QGetAWSRole (id : uuid) : Query AWSRole
| QListAWSRoles : Query (list AWSRole)
| QUpdateAWSRole (r : AWSRole) : Query unit
| QDeleteAWSRole (id : uuid) : Query unit
| QCreateAWSRoleAssignment (a : AWSRoleAssignment) : Query AWSRoleAssignment
| QListAWSRoleAssignments : Query (list AWSRoleAssignment)
| QListAWSRolesForUser (userID : uuid) : Query (list AWSRole)
| QDeleteAWSRoleAssignment (id : uuid) : Query unit
| QAddAWSRevokedUser (roleID : uuid) (subUUID : string) : Query unit
| QListAWSRevokedUsers (roleID : uuid) : Query (list AWSRevokedUser)
| QListAWSRevokedUsersOlderThan (cutoff : Z) : Query (list AWSRevokedUser)
| QDeleteAWSRevokedUser (roleID : uuid) (subUUID : string) : Query unit
(* Provisioning and keys *)
| QGetExternalID (provider : string) (userID : uuid) : Query string
| QSetExternalID (provider : string) (userID : uuid) (externalID : string) : Query unit
| QDeleteExternalID (provider : string) (userID : uuid) : Query unit
| QCreateSigningKey (k : SigningKey) : Query unit
| QGetActiveSigningKey : Query SigningKey
| QListActiveSigningKeys : Query (list SigningKey)
| QDeactivateSigningKey (id : uuid) : Query unit
| QCreateIntegration (i : AppIntegration) : Query AppIntegration
| QGetIntegration (id : uuid) : Query AppIntegration
| QGetIntegrationByName (name : string) : Query AppIntegration
| QListIntegrations : Query (list AppIntegration)
| QListEnabledIntegrations : Query (list AppIntegration)
| QUpdateIntegration (i : AppIntegration) : Query unit
| QDeleteIntegration (id : uuid) : Query unit.

(** A reading method leaves the database as it is. *)
Definition reading {A} (r : DB → result A) (db : DB) : result A * DB := (r db, db).

Definition run_query `{UnicodeTables} {dialect : Dialect} {A} (fresh : uuid) (now : Z) (q : Query A) : DB → result A * DB :=
  match q with
  | QCreateUser email passwordHash name => CreateUser fresh now email passwordHash name
  | QGetUserByID id => reading (GetUserByID id)
  | QGetUserByEmail email => reading (GetUserByEmail email)
  | QCountUsers => reading (CountUsers)
  | QListUsers => reading (ListUsers)
  | QUpdateUser id name active => UpdateUser now id name active
  | QUpdateUserPassword id passwordHash => UpdateUserPassword now id passwordHash
  | QSetUserMustChangePassword id flag => SetUserMustChangePassword now id flag
  | QUpdateUserMFAEnabled id enabled => UpdateUserMFAEnabled now id enabled
  | QUpdateUserFailedAttempts id count lockedUntil => UpdateUserFailedAttempts now id count lockedUntil
  | QSetUserActive id active => SetUserActive now id active
  | QSetUserSCIMExternalID id externalID => SetUserSCIMExternalID now id externalID
  | QSetUserAdmin id isAdmin => SetUserAdmin now id isAdmin
  | QDeleteUser id => DeleteUser id
  | QCreateClient clientID clientSecretHash name redirectURIs scopes public backchannelLogoutURI => CreateClient fresh now clientID clientSecretHash name redirectURIs scopes public backchannelLogoutURI
  | QGetClientByID id => reading (GetClientByID id)
  | QGetClientByClientID clientID => reading (GetClientByClientID clientID)
  | QListClients => reading (ListClients)
  | QUpdateClient id name redirectURIs scopes public backchannelLogoutURI => UpdateClient id name redirectURIs scopes public backchannelLogoutURI
  | QUpdateClientDeviceGrant id allow => UpdateClientDeviceGrant id allow
  | QUpdateClientSecret id secretHash => UpdateClientSecret now id secretHash
  | QDeleteClient id => DeleteClient id
  | QUpdateClientPortalConfig id showInPortal launchURL brandColor iconURL visibleToAll => UpdateClientPortalConfig id showInPortal launchURL brandColor iconURL visibleToAll
  | QReplaceClientVisibility clientID groupIDs => ReplaceClientVisibility now clientID groupIDs
  | QListClientVisibility clientID => reading (ListClientVisibility clientID)
  | QListPortalClientsForUser userID => reading (ListPortalClientsForUser userID)
  | QCreateGroup displayName => CreateGroup fresh now displayName
  | QGetGroupByID id => reading (GetGroupByID id)
  | QListGroups => reading (ListGroups)
  | QUpdateGroup id displayName => UpdateGroup now id displayName
  | QReplaceGroupMembers groupID memberIDs => ReplaceGroupMembers groupID memberIDs
  | QAddGroupMember groupID userID => AddGroupMember groupID userID
  | QRemoveGroupMember groupID userID => RemoveGroupMember groupID userID
  | QDeleteGroup id => DeleteGroup id
  | QCreateTOTPCredential c => CreateTOTPCredential now c
  | QGetTOTPByUserID userID => reading (GetTOTPByUserID userID)
  | QEnableTOTP id => EnableTOTP id
  | QDeleteTOTP userID => DeleteTOTP userID
  | QCreateWebAuthnCredential c => CreateWebAuthnCredential now c
  | QListWebAuthnCredentials userID => reading (ListWebAuthnCredentials userID)
  | QUpdateWebAuthnCredentialUse id signCount backupEligible backupState lastUsed => UpdateWebAuthnCredentialUse id signCount backupEligible backupState lastUsed
  | QDeleteWebAuthnCredential id userID => DeleteWebAuthnCredential id userID
  | QCreateWebAuthnSession userID data purpose => CreateWebAuthnSession fresh now userID data purpose
  | QGetWebAuthnSession id userID purpose => reading (GetWebAuthnSession now id userID purpose)
  | QDeleteWebAuthnSession id => DeleteWebAuthnSession id
  | QCreateGrant g => CreateGrant g
  | QGetGrantByCodeHash codeHash => reading (GetGrantByCodeHash codeHash)
  | QMarkGrantUsed id => MarkGrantUsed now id
  | QDeleteExpiredGrants => DeleteExpiredGrants now
  | QCreateSession s => CreateSession now s
  | QMarkSessionMFA id when => MarkSessionMFA id when
  | QGetSessionByAccessTokenHash hash => reading (GetSessionByAccessTokenHash hash)
  | QGetSessionByRefreshTokenHash hash => reading (GetSessionByRefreshTokenHash hash)
  | QUpdateSessionActivity id lastActivity => UpdateSessionActivity id lastActivity
  | QExtendSessionExpiry id newExpiry => ExtendSessionExpiry id newExpiry
  | QRotateRefreshToken id oldRefreshHash newAccessHash newRefreshHash newAccessExpiry newRefreshExpiry => RotateRefreshToken id oldRefreshHash newAccessHash newRefreshHash newAccessExpiry newRefreshExpiry
  | QGetSessionByRetiredRefreshTokenHash hash => reading (GetSessionByRetiredRefreshTokenHash hash)
  | QDeleteSession id => DeleteSession id
  | QDeleteSessionsByUserID userID => DeleteSessionsByUserID userID
  | QListSessionClientIDsByUser userID => reading (ListSessionClientIDsByUser userID)
  | QDeleteExpiredSessions => DeleteExpiredSessions now
  | QCreateDeviceGrant g => CreateDeviceGrant fresh now g
  | QGetDeviceGrantByDeviceCodeHash hash => reading (GetDeviceGrantByDeviceCodeHash hash)
  | QGetDeviceGrantByUserCodeHash hash => reading (GetDeviceGrantByUserCodeHash hash)
  | QMarkDeviceGrantApproved id userID mfaVerified mfaVerifiedAt approverIP => MarkDeviceGrantApproved id userID mfaVerified mfaVerifiedAt approverIP
  | QMarkDeviceGrantDenied id approverIP => MarkDeviceGrantDenied id approverIP
  | QMarkDeviceGrantRedeemed id => MarkDeviceGrantRedeemed id
  | QUpdateDeviceGrantPoll id now' intervalSec => UpdateDeviceGrantPoll id now' intervalSec
  | QDeleteExpiredDeviceGrants => DeleteExpiredDeviceGrants now
  | QCreateAWSAccount a => CreateAWSAccount fresh now a
  | QGetAWSAccount id => reading (GetAWSAccount id)
  | QListAWSAccounts => reading (ListAWSAccounts)
  | QUpdateAWSAccount a => UpdateAWSAccount now a
  | QDeleteAWSAccount id => DeleteAWSAccount id
  | QCreateAWSRole r => CreateAWSRole fresh now r
  | QGetAWSRole id => reading (GetAWSRole id)
  | QListAWSRoles => reading (ListAWSRoles)
  | QUpdateAWSRole r => UpdateAWSRole now r
  | QDeleteAWSRole id => DeleteAWSRole id
  | QCreateAWSRoleAssignment a => CreateAWSRoleAssignment fresh now a
  | QListAWSRoleAssignments => reading (ListAWSRoleAssignments)
  | QListAWSRolesForUser userID => reading (ListAWSRolesForUser userID)
  | QDeleteAWSRoleAssignment id => DeleteAWSRoleAssignment id
  | QAddAWSRevokedUser roleID subUUID => AddAWSRevokedUser now roleID subUUID
  | QListAWSRevokedUsers roleID => reading (ListAWSRevokedUsers roleID)
  | QListAWSRevokedUsersOlderThan cutoff => reading (ListAWSRevokedUsersOlderThan cutoff)
  | QDeleteAWSRevokedUser roleID subUUID => DeleteAWSRevokedUser roleID subUUID
  | QGetExternalID provider userID => reading (GetExternalID provider userID)
  | QSetExternalID provider userID externalID => SetExternalID provider userID externalID
  | QDeleteExternalID provider userID => DeleteExternalID provider userID
  | QCreateSigningKey k => CreateSigningKey now k
  | QGetActiveSigningKey => reading (GetActiveSigningKey)
  | QListActiveSigningKeys => reading (ListActiveSigningKeys)
  | QDeactivateSigningKey id => DeactivateSigningKey id
  | QCreateIntegration i => CreateIntegration fresh now i
  | QGetIntegration id => reading (GetIntegration id)
  | QGetIntegrationByName name => reading (GetIntegrationByName name)
  | QListIntegrations => reading (ListIntegrations)
  | QListEnabledIntegrations => reading (ListEnabledIntegrations)
  | QUpdateIntegration i => UpdateIntegration now i
  | QDeleteIntegration id => DeleteIntegration id
  end.

(** ** The schema's promises *)

Record db_wf (db : DB) : Prop := {
  wf_users : keyed u_ID (db_users db);
  wf_users_email : unique_on u_Email (db_users db);
  wf_clients : keyed c_ID (db_clients db);
  wf_clients_client_id : unique_on c_ClientID (db_clients db);
  wf_visibility_client : key_refers fst (db_client_visibility db) (db_clients db);
  wf_visibility_group : key_refers snd (db_client_visibility db) (db_scim_groups db);
  wf_grants : keyed gr_id (db_grants db);
  wf_grants_code : unique_on gr_code_hash (db_grants db);
  wf_grants_user : refers (Some ∘ gr_user_id) (db_grants db) (db_users db);
  wf_grants_client : refers (Some ∘ gr_client_id) (db_grants db) (db_clients db);
  wf_sessions : keyed sr_id (db_sessions db);
  wf_sessions_access : unique_on sr_access_token_hash (db_sessions db);
  wf_sessions_refresh : unique_on sr_refresh_token_hash (db_sessions db);
  wf_sessions_user : refers sr_user_id (db_sessions db) (db_users db);
  wf_sessions_client : refers (Some ∘ sr_client_id) (db_sessions db) (db_clients db);
  wf_retired : refers Some (db_retired_refresh_tokens db) (db_sessions db);
  wf_totp : keyed totp_ID (db_totp_credentials db);
  wf_totp_unique : unique_on totp_UserID (db_totp_credentials db);
  wf_totp_user : refers (Some ∘ totp_UserID) (db_totp_credentials db) (db_users db);
  wf_webauthn : keyed wa_ID (db_webauthn_credentials db);
  wf_webauthn_unique : unique_on wa_CredentialID (db_webauthn_credentials db);
  wf_webauthn_user : refers (Some ∘ wa_UserID) (db_webauthn_credentials db) (db_users db);
  wf_webauthn_sessions : refers (Some ∘ wsr_user_id) (db_webauthn_sessions db) (db_users db);
  wf_groups : keyed gpr_id (db_scim_groups db);
  wf_members_group : set_refers fst (db_scim_group_members db) (db_scim_groups db);
  wf_members_user : set_refers snd (db_scim_group_members db) (db_users db);
  wf_devices : keyed dr_id (db_device_grants db);
  wf_devices_device_code : unique_on dr_device_code_hash (db_device_grants db);
  wf_devices_user_code : unique_on dr_user_code_hash (db_device_grants db);
  wf_devices_client : refers (Some ∘ dr_client_id) (db_device_grants db) (db_clients db);
  wf_devices_user : refers dr_user_id (db_device_grants db) (db_users db);
  wf_accounts : keyed aa_ID (db_aws_accounts db);
  wf_accounts_unique : unique_on aa_AccountID (db_aws_accounts db);
  wf_roles : keyed rr_id (db_aws_roles db);
  wf_roles_arn : unique_on rr_role_arn (db_aws_roles db);
  wf_roles_account : refers (Some ∘ rr_account_id) (db_aws_roles db) (db_aws_accounts db);
  wf_assignments : keyed ara_ID (db_aws_role_assignments db);
  wf_assignments_unique : unique_on (λ a, (ara_GroupID a, ara_RoleID a)) (db_aws_role_assignments db);
  wf_assignments_group : refers (Some ∘ ara_GroupID) (db_aws_role_assignments db) (db_scim_groups db);
  wf_assignments_role : refers (Some ∘ ara_RoleID) (db_aws_role_assignments db) (db_aws_roles db);
  wf_revoked_role : key_refers fst (db_aws_revoked_users db) (db_aws_roles db);
  wf_external_user : key_refers snd (db_external_ids db) (db_users db);
  wf_keys : keyed sk_ID (db_signing_keys db);
  wf_keys_kid : unique_on sk_KID (db_signing_keys db);
  wf_integrations : keyed ai_ID (db_app_integrations db);
  wf_integrations_name : unique_on ai_Name (db_app_integrations db);
}.

(** ** Every method keeps them *)

Lemma has_true {K A} `{Countable K} (m : gmap K A) k : has m k = true → is_Some (m !! k).
Proof. by intros ?%bool_decide_eq_true. Qed.

Lemma has_false {K A} `{Countable K} (m : gmap K A) k : has m k = false → m !! k = None.
Proof. intros Hn%bool_decide_eq_false. by apply eq_None_not_Some. Qed.

Lemma some_row_or {A} (b c : A → bool) (m : gmap N A) :
  some_row (λ r, b r || c r) m = false → some_row b m = false ∧ some_row c m = false.
Proof.
  intros Hs. pose proof (some_row_false _ _ Hs) as Hn. unfold some_row.
  split; case_match eqn:Hf; try done; apply find_row_Some in Hf as (i & Hi & Hb);
    specialize (Hn _ _ Hi); cbn beta in Hn; rewrite Hb in Hn; [done|by rewrite orb_true_r in Hn].
Qed.

Lemma some_row_and_or {A} (a b c : A → bool) (m : gmap N A) :
  some_row (λ r, a r && (b r || c r)) m = false →
  some_row (λ r, a r && b r) m = false ∧ some_row (λ r, a r && c r) m = false.
Proof.
  intros Hs. apply some_row_or. unfold some_row, find_row in *.
  erewrite list_filter_iff; [exact Hs|]. intros x. simpl. by rewrite <- andb_orb_distrib_r.
Qed.

(** Turn the guards of a method into the side conditions of the table lemmas. *)
Ltac store_guards :=
  repeat match goal with
  | H : _ || _ = false |- _ => apply orb_false_elim in H as [? ?]
  | H : _ && _ = true |- _ => apply andb_prop in H as [? ?]
  | H : negb _ = false |- _ => apply negb_false_iff in H
  | H : has _ _ = true |- _ => apply has_true in H
  | H : has _ _ = false |- _ => apply has_false in H
  | H : some_row (session_clash _ _) _ = false |- _ => apply some_row_or in H as [? ?]
  | H : some_row (device_clash _ _) _ = false |- _ => apply some_row_or in H as [? ?]
  | H : some_row (λ _, _ && session_clash _ _ _) _ = false |- _ => apply some_row_and_or in H as [? ?]
  end.

#[local] Hint Extern 1 (∀ x, _ = _) => (intros; reflexivity) : store.
#[local] Hint Extern 1 (_ = _) => reflexivity : store.
#[local] Hint Extern 1 (∀ k, _ = Some k → is_Some _) => (intros ? [= <-]; assumption) : store.

(** A method that touches one or a few tables. *)
Ltac store_wf :=
  intros []; constructor; cbn; eauto 3 with store.

Lemma update_user_wf f id db :
  (∀ u, u_ID (f u) = u_ID u) → (∀ u, u_Email (f u) = u_Email u) →
  db_wf db → db_wf (update_user f id db).2.
Proof. intros ? ?. store_wf. Qed.

Lemma drop_fk_cascade {K A B} `{Countable K} (f : A → N) (m : gmap K A) (t : gmap N B) d :
  refers (Some ∘ f) m t → refers (Some ∘ f) (drop_fk f d m) (delete d t).
Proof. apply (refers_cascade (Some ∘ f)). Qed.

Lemma drop_fk_refers {K A B} `{Countable K} (g : A → N) (f : A → option N) (m : gmap K A) (t : gmap N B) d :
  refers f m t → refers f (drop_fk g d m) t.
Proof. apply refers_delete_where. Qed.

Lemma drop_fk_keyed {A} (g f : A → N) (m : gmap N A) d : keyed f m → keyed f (drop_fk g d m).
Proof. apply keyed_delete_where. Qed.

Lemma drop_fk_unique {A B} (g : A → N) (f : A → B) (m : gmap N A) d :
  unique_on f m → unique_on f (drop_fk g d m).
Proof. apply unique_delete_where. Qed.

#[local] Hint Resolve drop_fk_cascade drop_fk_refers drop_fk_keyed drop_fk_unique : store.

(** The cascade from sessions to retired refresh tokens. *)
Lemma retired_cascade b db :
  refers Some (db_retired_refresh_tokens db) (db_sessions db) →
  refers Some (retired_after b db) (delete_where b (db_sessions db)).
Proof.
  intros Hr. apply (refers_cascade_where _ _ _ _ _ Hr).
  intros h i [Hi Hb]%map_lookup_filter_Some. split; [done|].
  intros k r [= <-] Hk. simpl in Hb. by rewrite Hk in Hb.
Qed.

Lemma sessions_user_cascade db id :
  refers sr_user_id (db_sessions db) (db_users db) →
  refers sr_user_id (delete_where (λ r, bool_decide (sr_user_id r = Some id)) (db_sessions db))
    (delete id (db_users db)).
Proof. apply refers_cascade. Qed.

Lemma sessions_client_cascade db id :
  refers (Some ∘ sr_client_id) (db_sessions db) (db_clients db) →
  refers (Some ∘ sr_client_id) (delete_where (λ r, bool_decide (sr_client_id r = id)) (db_sessions db))
    (delete id (db_clients db)).
Proof.
  intros Hr i x k [Hx Hb]%map_lookup_filter_Some [= <-]. simpl in *.
  apply bool_decide_eq_false in Hb. rewrite lookup_delete_ne by done. by eapply Hr.
Qed.

Lemma forget_user_cascade db id :
  refers dr_user_id (db_device_grants db) (db_users db) →
  refers dr_user_id (forget_user id <$> db_device_grants db) (delete id (db_users db)).
Proof.
  intros Hr i x k. rewrite lookup_fmap_Some. intros (y & <- & Hy). unfold forget_user.
  case_decide as Hd; [done|]. intros Hk. rewrite lookup_delete_ne by congruence. by eapply Hr.
Qed.

Lemma forget_user_same {B} (f : device_row → B) id :
  (∀ r, f (device_forget_user r) = f r) → ∀ r, f (forget_user id r) = f r.
Proof. intros Hf r. unfold forget_user. case_decide; auto. Qed.

#[local] Hint Resolve retired_cascade sessions_user_cascade sessions_client_cascade
  forget_user_cascade : store.
#[local] Hint Extern 1 (∀ x, _ = _) => (apply forget_user_same; intros; reflexivity) : store.

Lemma delete_sessions_wf b db : db_wf db → db_wf (delete_sessions b db).
Proof. store_wf. Qed.

Lemma DeleteUser_wf id db : db_wf db → db_wf (DeleteUser id db).2.
Proof. store_wf. Qed.

Lemma DeleteClient_wf id db : db_wf db → db_wf (DeleteClient id db).2.
Proof. store_wf. Qed.

Lemma DeleteGroup_wf id db : db_wf db → db_wf (DeleteGroup id db).2.
Proof. store_wf. Qed.

(** The INSERT loops of the two [Replace...] transactions. *)
Lemma insert_visibilities_wf {B} db cid ts gids (f : N * N → N) vis vis' (t : gmap N B) :
  insert_visibilities db cid ts gids vis = Some vis' →
  (∀ g, has (db_clients db) cid = true → has (db_scim_groups db) g = true → is_Some (t !! f (cid, g))) →
  key_refers f vis t → key_refers f vis' t.
Proof.
  revert vis. induction gids as [|g gids IH]; intros vis; simpl; [by intros [= <-]|].
  unfold insert_visibility. intros Hi Ht Hv. destruct (has vis _); [by eapply IH|].
  destruct (has _ _ && _) eqn:Hg; [|done]. apply andb_prop in Hg as [? ?].
  eapply IH; [done..|]. eauto with store.
Qed.

Lemma insert_members_wf {B} db gid uids (f : N * N → N) ms ms' (t : gmap N B) :
  insert_members db gid uids ms = Some ms' →
  (∀ u, has (db_scim_groups db) gid = true → has (db_users db) u = true → is_Some (t !! f (gid, u))) →
  set_refers f ms t → set_refers f ms' t.
Proof.
  revert ms. induction uids as [|u uids IH]; intros ms; simpl; [by intros [= <-]|].
  unfold insert_member. intros Hi Ht Hv. case_decide; [by eapply IH|].
  destruct (has _ _ && _) eqn:Hg; [|done]. apply andb_prop in Hg as [? ?].
  eapply IH; [done..|]. eauto with store.
Qed.

Lemma AddGroupMember_insert gid uid db :
  AddGroupMember gid uid db =
  match insert_members db gid [uid] (db_scim_group_members db) with
  | Some ms => (Ok tt, with_scim_group_members ms db) | None => (Err ErrOther, db)
  end.
Proof. unfold AddGroupMember. simpl. by destruct (insert_member _ _ _ _). Qed.

Lemma ReplaceClientVisibility_wf {dialect : Dialect} now cid gids db :
  db_wf db → db_wf (ReplaceClientVisibility now cid gids db).2.
Proof.
  unfold ReplaceClientVisibility. destruct (insert_visibilities _ _ _ _ _) eqn:Hi; [|done].
  store_wf; eapply insert_visibilities_wf; eauto using has_true with store.
Qed.

Lemma ReplaceGroupMembers_wf gid uids db : db_wf db → db_wf (ReplaceGroupMembers gid uids db).2.
Proof.
  unfold ReplaceGroupMembers. destruct (insert_members _ _ _ _) eqn:Hi; [|done].
  store_wf; eapply insert_members_wf; eauto using has_true with store.
Qed.

Lemma AddGroupMember_wf gid uid db : db_wf db → db_wf (AddGroupMember gid uid db).2.
Proof.
  rewrite AddGroupMember_insert. destruct (insert_members _ _ _ _) eqn:Hi; [|done].
  store_wf; eapply insert_members_wf; eauto using has_true with store.
Qed.

Lemma RotateRefreshToken_wf {dialect : Dialect} id old a r ae re db :
  db_wf db → db_wf (RotateRefreshToken id old a r ae re db).2.
Proof.
  unfold RotateRefreshToken. destruct (db_sessions db !! id) as [row|] eqn:Hr; [|done].
  case_bool_decide; [|done]. destruct (some_row _ _) eqn:Hs; [done|]. store_guards.
  store_wf.
  - by apply (unique_alter_to sr_id _ _ _ _ a).
  - by apply (unique_alter_to sr_id _ _ _ _ r).
  - apply refers_to_alter. destruct (has _ _); [done|]. apply refers_insert; [done|]. intros k [= <-]. eauto.
Qed.

Lemma device_transition_wf from f id db :
  (∀ r, dr_id (f r) = dr_id r) → (∀ r, dr_device_code_hash (f r) = dr_device_code_hash r) →
  (∀ r, dr_user_code_hash (f r) = dr_user_code_hash r) → (∀ r, dr_client_id (f r) = dr_client_id r) →
  (∀ r k, dr_user_id (f r) = Some k → dr_user_id r = Some k ∨ is_Some (db_users db !! k)) →
  db_wf db → db_wf (device_transition from f id db).2.
Proof.
  intros ? ? ? Hc Hu. unfold device_transition. destruct (db_device_grants db !! id) as [row|] eqn:Hr; [|done].
  case_bool_decide; [|done]. store_wf.
  - apply refers_alter; [done|]. intros. simpl. by rewrite Hc.
  - intros j x k. rewrite lookup_alter. case_decide; subst; [|by eauto].
    rewrite Hr. simpl. intros [= <-] Hk. destruct (Hu _ _ Hk); eauto.
Qed.

Lemma MarkDeviceGrantApproved_wf {dialect : Dialect} id u mfa at' ip db :
  db_wf db → db_wf (MarkDeviceGrantApproved id u mfa at' ip db).2.
Proof.
  intros Hwf. unfold MarkDeviceGrantApproved.
  destruct (has (db_users db) u) eqn:Hu; [|by destruct (db_device_grants db !! id)].
  apply has_true in Hu. apply device_transition_wf; eauto with store. intros r k [= <-]. by right.
Qed.

(** Roles go with their account, assignments and revocations with their role. *)
Lemma delete_roles_wf b db : db_wf db → db_wf (delete_roles b db).
Proof.
  store_wf.
  - eapply refers_cascade_where; [done|]. intros i x [Hx Hb]%map_lookup_filter_Some.
    split; [done|]. intros k r [= <-] Hr. simpl in Hb. by rewrite Hr in Hb.
  - intros k x [Hx Hb]%map_lookup_filter_Some. simpl in Hb.
    destruct (wf_revoked_role0 _ _ Hx) as [r Hr]. rewrite Hr in Hb. exists r.
    by apply map_lookup_filter_Some.
Qed.

Lemma DeleteAWSAccount_wf id db : db_wf db → db_wf (DeleteAWSAccount id db).2.
Proof.
  intros Hwf. unfold DeleteAWSAccount. case_match; [|done].
  destruct (delete_roles_wf (λ r, bool_decide (rr_account_id r = id)) db Hwf), Hwf.
  constructor; cbn; eauto 3 with store.
  intros i x k [Hx Hb]%map_lookup_filter_Some [= <-]. simpl in *.
  apply bool_decide_eq_false in Hb. rewrite lookup_delete_ne by done. by eapply wf_roles_account1.
Qed.

Lemma MarkDeviceGrantDenied_wf id ip db : db_wf db → db_wf (MarkDeviceGrantDenied id ip db).2.
Proof. apply device_transition_wf; eauto with store. Qed.

Lemma MarkDeviceGrantRedeemed_wf id db : db_wf db → db_wf (MarkDeviceGrantRedeemed id db).2.
Proof. apply device_transition_wf; eauto with store. Qed.

(** The user of an inserted session exists, or the column is NULL. *)
Lemma session_user_refers {dialect : Dialect} now s db :
  refers sr_user_id (db_sessions db) (db_users db) →
  match sr_user_id (session_row_of now s) with Some u => has (db_users db) u | None => true end = true →
  refers sr_user_id (<[s_ID s := session_row_of now s]> (db_sessions db)) (db_users db).
Proof.
  intros Hr Hu. apply refers_insert; [done|]. intros k Hk. rewrite Hk in Hu. by apply has_true.
Qed.

#[local] Hint Resolve session_user_refers : store.
#[local] Hint Extern 2 (unique_on _ (alter (account_set ?a _) _ _)) =>
  apply (unique_alter_to aa_ID _ _ _ _ (aa_AccountID a)) : store.
#[local] Hint Extern 2 (unique_on _ (alter (role_set ?r _) _ _)) =>
  apply (unique_alter_to rr_id _ _ _ _ (ar_RoleARN r)) : store.
#[local] Hint Extern 2 (unique_on _ (alter (integration_set ?i _) _ _)) =>
  apply (unique_alter_to ai_ID _ _ _ _ (ai_Name i)) : store.

#[local] Hint Resolve delete_sessions_wf DeleteUser_wf DeleteClient_wf DeleteGroup_wf
  ReplaceClientVisibility_wf ReplaceGroupMembers_wf AddGroupMember_wf RotateRefreshToken_wf
  MarkDeviceGrantApproved_wf MarkDeviceGrantDenied_wf MarkDeviceGrantRedeemed_wf delete_roles_wf DeleteAWSAccount_wf : store.

#[export] Hint Unfold CreateUser CreateClient UpdateClient UpdateClientDeviceGrant UpdateClientSecret
  UpdateClientPortalConfig update_client_row CreateGroup UpdateGroup RemoveGroupMember
  CreateTOTPCredential EnableTOTP DeleteTOTP CreateWebAuthnCredential UpdateWebAuthnCredentialUse
  DeleteWebAuthnCredential CreateWebAuthnSession DeleteWebAuthnSession
  CreateGrant MarkGrantUsed DeleteExpiredGrants CreateSession update_session MarkSessionMFA
  UpdateSessionActivity ExtendSessionExpiry DeleteSession DeleteSessionsByUserID
  DeleteExpiredSessions CreateDeviceGrant UpdateDeviceGrantPoll DeleteExpiredDeviceGrants
  CreateAWSAccount UpdateAWSAccount CreateAWSRole UpdateAWSRole DeleteAWSRole
  CreateAWSRoleAssignment DeleteAWSRoleAssignment AddAWSRevokedUser DeleteAWSRevokedUser
  SetExternalID DeleteExternalID CreateSigningKey DeactivateSigningKey
  CreateIntegration UpdateIntegration DeleteIntegration : store.

(** A method guarded by constraint checks: refused, or one table changes. *)
Ltac store_method :=
  autounfold with store; cbv zeta;
  repeat match goal with
  | |- db_wf (if ?b then _ else _).2 => destruct b eqn:?; try assumption
  | |- db_wf (match ?x with Some _ => _ | None => _ end).2 => destruct x eqn:?; try assumption
  end;
  store_guards; cbn [snd]; eauto 2 with store.

Lemma store_user_methods_wf {dialect : Dialect} now id db :
  db_wf db →
  (∀ name active, db_wf (UpdateUser now id name active db).2) ∧
  (∀ h, db_wf (UpdateUserPassword now id h db).2) ∧
  (∀ b, db_wf (SetUserMustChangePassword now id b db).2) ∧
  (∀ b, db_wf (UpdateUserMFAEnabled now id b db).2) ∧
  (∀ n l, db_wf (UpdateUserFailedAttempts now id n l db).2) ∧
  (∀ b, db_wf (SetUserActive now id b db).2) ∧
  (∀ e, db_wf (SetUserSCIMExternalID now id e db).2) ∧
  (∀ b, db_wf (SetUserAdmin now id b db).2).
Proof. intros Hwf. repeat split; intros; by apply update_user_wf. Qed.

Lemma run_query_wf `{UnicodeTables} {dialect : Dialect} {A} fresh now (q : Query A) db :
  db_wf db → db_wf (run_query fresh now q db).2.
Proof.
  intros Hwf. destruct q; cbn [run_query reading snd]; try exact Hwf; eauto 2 with store;
    try (apply (store_user_methods_wf now id db Hwf)); store_method; revert Hwf; store_wf.
Qed.

(** ** Which methods touch a table *)

Definition touches_users {A} (q : Query A) : bool :=
  match q with
  | QCreateUser _ _ _ | QUpdateUser _ _ _ | QUpdateUserPassword _ _ | QSetUserMustChangePassword _ _
  | QUpdateUserMFAEnabled _ _ | QUpdateUserFailedAttempts _ _ _ | QSetUserActive _ _
  | QSetUserSCIMExternalID _ _ | QSetUserAdmin _ _ | QDeleteUser _ => true
  | _ => false
  end.

Definition touches_grants {A} (q : Query A) : bool :=
  match q with
  | QCreateGrant _ | QMarkGrantUsed _ | QDeleteExpiredGrants | QDeleteUser _ | QDeleteClient _ => true
  | _ => false
  end.

Definition touches_sessions {A} (q : Query A) : bool :=
  match q with
  | QCreateSession _ | QMarkSessionMFA _ _ | QUpdateSessionActivity _ _ | QExtendSessionExpiry _ _
  | QRotateRefreshToken _ _ _ _ _ _ | QDeleteSession _ | QDeleteSessionsByUserID _
  | QDeleteExpiredSessions | QDeleteUser _ | QDeleteClient _ => true
  | _ => false
  end.

Definition touches_devices {A} (q : Query A) : bool :=
  match q with
  | QCreateDeviceGrant _ | QMarkDeviceGrantApproved _ _ _ _ _ | QMarkDeviceGrantDenied _ _
  | QMarkDeviceGrantRedeemed _ | QUpdateDeviceGrantPoll _ _ _ | QDeleteExpiredDeviceGrants
  | QDeleteUser _ | QDeleteClient _ => true
  | _ => false
  end.

#[export] Hint Unfold update_user UpdateUser UpdateUserPassword SetUserMustChangePassword
  UpdateUserMFAEnabled UpdateUserFailedAttempts SetUserActive SetUserSCIMExternalID SetUserAdmin
  ReplaceClientVisibility ReplaceGroupMembers AddGroupMember RotateRefreshToken device_transition
  MarkDeviceGrantApproved MarkDeviceGrantDenied MarkDeviceGrantRedeemed DeleteAWSAccount : store.

(** A method leaves a table it does not touch as it is. *)
Ltac store_frame :=
  intros Ht; cbn [run_query reading snd]; try reflexivity; try discriminate Ht;
  repeat (autounfold with store; cbn [snd];
    match goal with
    | |- _ (snd (if ?b then _ else _)) = _ => destruct b
    | |- _ (snd (match ?x with _ => _ end)) = _ => destruct x
    end); reflexivity.

Section frame.
  Context `{UnicodeTables} {dialect : Dialect} {A : Type} (fresh : uuid) (t : Z) (q : Query A) (d : DB).

Lemma frame_users : touches_users q = false → db_users (run_query fresh t q d).2 = db_users d.
Proof. destruct q; store_frame. Qed.

Lemma frame_grants : touches_grants q = false → db_grants (run_query fresh t q d).2 = db_grants d.
Proof. destruct q; store_frame. Qed.

Lemma frame_sessions : touches_sessions q = false → db_sessions (run_query fresh t q d).2 = db_sessions d.
Proof. destruct q; store_frame. Qed.

Lemma frame_devices :
  touches_devices q = false → db_device_grants (run_query fresh t q d).2 = db_device_grants d.
Proof. destruct q; store_frame. Qed.

End frame.

(** ** The migrated database *)

Definition portalClientUUID : uuid := 1%N.

(** The row migration 005 seeds, for sessions of auth's own portal. *)
Definition portal_client {dialect : Dialect} (t : Z) : Client :=
  {| c_ID := portalClientUUID; c_ClientID := "portal"; c_ClientSecretHash := "";
     c_Name := "tokyo3-auth Portal"; c_RedirectURIs := []; c_Scopes := ["portal"; "admin"];
     c_Public := true; c_BackchannelLogoutURI := None; c_ShowInPortal := false; c_LaunchURL := "";
     c_BrandColor := ""; c_IconURL := ""; c_VisibleToAll := false; c_AllowDeviceGrant := false;
     c_SecretRotatedAt := stamp t; c_CreatedAt := stamp t |}.

(** What [Open] leaves on an empty file: every table empty but for that row. *)
Definition migrated_db {dialect : Dialect} (t : Z) : DB :=
  with_clients {[ portalClientUUID := portal_client t ]} empty_db.

Lemma migrated_db_wf {dialect : Dialect} t : db_wf (migrated_db t).
Proof.
  constructor; cbn [migrated_db with_clients empty_db db_users db_clients db_client_visibility db_grants
    db_sessions db_retired_refresh_tokens db_totp_credentials db_webauthn_credentials
    db_webauthn_sessions db_scim_groups db_scim_group_members db_device_grants db_aws_accounts
    db_aws_roles db_aws_role_assignments db_aws_revoked_users db_external_ids db_signing_keys
    db_app_integrations];
    try (intros ? ?; rewrite lookup_empty; done); try (intros ? ? ?; rewrite lookup_empty; done);
    try (intros ? ? ? ?; rewrite lookup_empty; done); try (intros ? ?%elem_of_empty; done).
  - by intros i x [<- <-]%lookup_singleton_Some.
  - intros i j x y [<- <-]%lookup_singleton_Some. by intros [<- <-]%lookup_singleton_Some.
Qed.
