(* ===== verification/PgStore.v ===== *)
(** * The PostgreSQL store is the store

    [pg_run_query] is [store.Store] as [internal/store/postgres] implements it.
    On a well-formed database it is, method by method, the function
    [run_query] is at the PostgreSQL dialect: the conditions of its statements
    pick the row under the key, its guards fire when the schema says so, its
    cascades remove what dangles.  So every theorem about the handlers, stated
    over [run_query], is about the store that [authd serve] opens. *)
From stdpp Require Import sorting.
From S2P Require Import Prelude GoStrings Model Dialect Tables SqliteUsers SqliteTokens SqliteAws Sql.
From S2P Require Import PgUsers PgTokens PgAws Store.

Local Open Scope Z_scope.

(** [store.Store], implemented by [*postgres.DB]. *)
Definition pg_run_query `{UnicodeTables} (collation : string → string → bool) {A} (fresh : uuid) (now : Z) (q : Query A)
    : DB → result A * DB :=
  match q with
  | QCreateUser email passwordHash name => pg_CreateUser collation fresh now email passwordHash name
  | QGetUserByID id => reading (pg_GetUserByID id)
  | QGetUserByEmail email => reading (pg_GetUserByEmail email)
  | QCountUsers => reading (pg_CountUsers)
  | QListUsers => reading (pg_ListUsers)
  | QUpdateUser id name active => pg_UpdateUser collation now id name active
  | QUpdateUserPassword id passwordHash => pg_UpdateUserPassword collation now id passwordHash
  | QSetUserMustChangePassword id flag => pg_SetUserMustChangePassword collation now id flag
  | QUpdateUserMFAEnabled id enabled => pg_UpdateUserMFAEnabled collation now id enabled
  | QUpdateUserFailedAttempts id count lockedUntil => pg_UpdateUserFailedAttempts collation now id count lockedUntil
  | QSetUserActive id active => pg_SetUserActive collation now id active
  | QSetUserSCIMExternalID id externalID => pg_SetUserSCIMExternalID collation now id externalID
  | QSetUserAdmin id isAdmin => pg_SetUserAdmin collation now id isAdmin
  | QDeleteUser id => pg_DeleteUser id
  | QCreateClient clientID clientSecretHash name redirectURIs scopes public backchannelLogoutURI => pg_CreateClient collation fresh now clientID clientSecretHash name redirectURIs scopes public backchannelLogoutURI
  | QGetClientByID id => reading (pg_GetClientByID id)
  | QGetClientByClientID clientID => reading (pg_GetClientByClientID clientID)
  | QListClients => reading (pg_ListClients)
  | QUpdateClient id name redirectURIs scopes public backchannelLogoutURI => pg_UpdateClient id name redirectURIs scopes public backchannelLogoutURI
  | QUpdateClientDeviceGrant id allow => pg_UpdateClientDeviceGrant id allow
  | QUpdateClientSecret id secretHash => pg_UpdateClientSecret collation now id secretHash
  | QDeleteClient id => pg_DeleteClient id
  | QUpdateClientPortalConfig id showInPortal launchURL brandColor iconURL visibleToAll => pg_UpdateClientPortalConfig id showInPortal launchURL brandColor iconURL visibleToAll
  | QReplaceClientVisibility clientID groupIDs => pg_ReplaceClientVisibility collation now clientID groupIDs
  | QListClientVisibility clientID => reading (pg_ListClientVisibility clientID)
  | QListPortalClientsForUser userID => reading (pg_ListPortalClientsForUser collation userID)
  | QCreateGroup displayName => pg_CreateGroup collation fresh now displayName
  | QGetGroupByID id => reading (pg_GetGroupByID id)
  | QListGroups => reading (pg_ListGroups)
  | QUpdateGroup id displayName => pg_UpdateGroup collation now id displayName
  | QReplaceGroupMembers groupID memberIDs => pg_ReplaceGroupMembers groupID memberIDs
  | QAddGroupMember groupID userID => pg_AddGroupMember groupID userID
  | QRemoveGroupMember groupID userID => pg_RemoveGroupMember groupID userID
  | QDeleteGroup id => pg_DeleteGroup id
  | QCreateTOTPCredential c => pg_CreateTOTPCredential collation now c
  | QGetTOTPByUserID userID => reading (pg_GetTOTPByUserID userID)
  | QEnableTOTP id => pg_EnableTOTP id
  | QDeleteTOTP userID => pg_DeleteTOTP userID
  | QCreateWebAuthnCredential c => pg_CreateWebAuthnCredential collation now c
  | QListWebAuthnCredentials userID => reading (pg_ListWebAuthnCredentials userID)
  | QUpdateWebAuthnCredentialUse id signCount backupEligible backupState lastUsed => pg_UpdateWebAuthnCredentialUse collation id signCount backupEligible backupState lastUsed
  | QDeleteWebAuthnCredential id userID => pg_DeleteWebAuthnCredential id userID
  | QCreateWebAuthnSession userID data purpose => pg_CreateWebAuthnSession collation fresh now userID data purpose
  | QGetWebAuthnSession id userID purpose => reading (pg_GetWebAuthnSession collation now id userID purpose)
  | QDeleteWebAuthnSession id => pg_DeleteWebAuthnSession id
  | QCreateGrant g => pg_CreateGrant collation g
  | QGetGrantByCodeHash codeHash => reading (pg_GetGrantByCodeHash codeHash)
  | QMarkGrantUsed id => pg_MarkGrantUsed collation now id
  | QDeleteExpiredGrants => pg_DeleteExpiredGrants collation now
  | QCreateSession s => pg_CreateSession collation now s
  | QMarkSessionMFA id when => pg_MarkSessionMFA collation id when
  | QGetSessionByAccessTokenHash hash => reading (pg_GetSessionByAccessTokenHash hash)
  | QGetSessionByRefreshTokenHash hash => reading (pg_GetSessionByRefreshTokenHash hash)
  | QUpdateSessionActivity id lastActivity => pg_UpdateSessionActivity collation id lastActivity
  | QExtendSessionExpiry id newExpiry => pg_ExtendSessionExpiry collation id newExpiry
  | QRotateRefreshToken id oldRefreshHash newAccessHash newRefreshHash newAccessExpiry newRefreshExpiry => pg_RotateRefreshToken collation id oldRefreshHash newAccessHash newRefreshHash newAccessExpiry newRefreshExpiry
  | QGetSessionByRetiredRefreshTokenHash hash => reading (pg_GetSessionByRetiredRefreshTokenHash hash)
  | QDeleteSession id => pg_DeleteSession id
  | QDeleteSessionsByUserID userID => pg_DeleteSessionsByUserID userID
  | QListSessionClientIDsByUser userID => reading (pg_ListSessionClientIDsByUser userID)
  | QDeleteExpiredSessions => pg_DeleteExpiredSessions collation now
  | QCreateDeviceGrant g => pg_CreateDeviceGrant collation fresh now g
  | QGetDeviceGrantByDeviceCodeHash hash => reading (pg_GetDeviceGrantByDeviceCodeHash hash)
  | QGetDeviceGrantByUserCodeHash hash => reading (pg_GetDeviceGrantByUserCodeHash hash)
  | QMarkDeviceGrantApproved id userID mfaVerified mfaVerifiedAt approverIP => pg_MarkDeviceGrantApproved collation id userID mfaVerified mfaVerifiedAt approverIP
  | QMarkDeviceGrantDenied id approverIP => pg_MarkDeviceGrantDenied id approverIP
  | QMarkDeviceGrantRedeemed id => pg_MarkDeviceGrantRedeemed id
  | QUpdateDeviceGrantPoll id now' intervalSec => pg_UpdateDeviceGrantPoll collation id now' intervalSec
  | QDeleteExpiredDeviceGrants => pg_DeleteExpiredDeviceGrants collation now
  | QCreateAWSAccount a => pg_CreateAWSAccount collation fresh now a
  | QGetAWSAccount id => reading (pg_GetAWSAccount id)
  | QListAWSAccounts => reading (pg_ListAWSAccounts collation)
  | QUpdateAWSAccount a => pg_UpdateAWSAccount collation now a
  | QDeleteAWSAccount id => pg_DeleteAWSAccount id
  | QCreateAWSRole r => pg_CreateAWSRole collation fresh now r
  | QGetAWSRole id => reading (pg_GetAWSRole id)
  | QListAWSRoles => reading (pg_ListAWSRoles collation)
  | QUpdateAWSRole r => pg_UpdateAWSRole collation now r
  | QDeleteAWSRole id => pg_DeleteAWSRole id
  | QCreateAWSRoleAssignment a => pg_CreateAWSRoleAssignment collation fresh now a
  | QListAWSRoleAssignments => reading (pg_ListAWSRoleAssignments)
  | QListAWSRolesForUser userID => reading (pg_ListAWSRolesForUser collation userID)
  | QDeleteAWSRoleAssignment id => pg_DeleteAWSRoleAssignment id
  | QAddAWSRevokedUser roleID subUUID => pg_AddAWSRevokedUser collation now roleID subUUID
  | QListAWSRevokedUsers roleID => reading (pg_ListAWSRevokedUsers roleID)
  | QListAWSRevokedUsersOlderThan cutoff => reading (pg_ListAWSRevokedUsersOlderThan collation cutoff)
  | QDeleteAWSRevokedUser roleID subUUID => pg_DeleteAWSRevokedUser roleID subUUID
  | QGetExternalID provider userID => reading (pg_GetExternalID provider userID)
  | QSetExternalID provider userID externalID => pg_SetExternalID provider userID externalID
  | QDeleteExternalID provider userID => pg_DeleteExternalID provider userID
  | QCreateSigningKey k => pg_CreateSigningKey collation now k
  | QGetActiveSigningKey => reading (pg_GetActiveSigningKey)
  | QListActiveSigningKeys => reading (pg_ListActiveSigningKeys)
  | QDeactivateSigningKey id => pg_DeactivateSigningKey id
  | QCreateIntegration i => pg_CreateIntegration collation fresh now i
  | QGetIntegration id => reading (pg_GetIntegration id)
  | QGetIntegrationByName name => reading (pg_GetIntegrationByName name)
  | QListIntegrations => reading (pg_ListIntegrations)
  | QListEnabledIntegrations => reading (pg_ListEnabledIntegrations)
  | QUpdateIntegration i => pg_UpdateIntegration collation now i
  | QDeleteIntegration id => pg_DeleteIntegration id
  end.

(** ** The tables *)

Ltac table_ok := split; [by intros []|by intros ? []|intros; cbn; repeat case_bool_decide; try done; congruence].

#[export] Instance pg_users_ok : TableOk pg_users. Proof. table_ok. Qed.
#[export] Instance pg_clients_ok : TableOk pg_clients. Proof. table_ok. Qed.
#[export] Instance pg_groups_ok : TableOk pg_groups. Proof. table_ok. Qed.
#[export] Instance pg_totp_ok : TableOk pg_totp. Proof. table_ok. Qed.
#[export] Instance pg_webauthn_ok : TableOk pg_webauthn. Proof. table_ok. Qed.
#[export] Instance pg_grants_ok : TableOk pg_grants. Proof. table_ok. Qed.
#[export] Instance pg_sessions_ok : TableOk pg_sessions. Proof. table_ok. Qed.
#[export] Instance pg_devices_ok : TableOk pg_devices. Proof. table_ok. Qed.
#[export] Instance pg_accounts_ok : TableOk pg_accounts. Proof. table_ok. Qed.
#[export] Instance pg_roles_ok : TableOk pg_roles. Proof. table_ok. Qed.
#[export] Instance pg_assignments_ok : TableOk pg_assignments. Proof. table_ok. Qed.
#[export] Instance pg_keys_ok : TableOk pg_keys. Proof. table_ok. Qed.
#[export] Instance pg_integrations_ok : TableOk pg_integrations. Proof. table_ok. Qed.

Section refinement.
  Context `{UnicodeTables} (collation : string → string → bool) (db : DB) (Hwf : db_wf db).
#[local] Instance pg : Dialect := PostgreSQL collation.

(** No two rows of a well-formed table share a UNIQUE value. *)
Lemma users_no_clash : clash pg_users (db_users db) = false.
Proof. apply (clash_one_column _ u_Email); [done|apply Hwf]. Qed.

Lemma clients_no_clash : clash pg_clients (db_clients db) = false.
Proof. apply (clash_one_column _ c_ClientID); [done|apply Hwf]. Qed.

Lemma sessions_no_clash : clash pg_sessions (db_sessions db) = false.
Proof. apply (clash_two_columns _ sr_access_token_hash sr_refresh_token_hash); [done|apply Hwf..]. Qed.

Lemma devices_no_clash : clash pg_devices (db_device_grants db) = false.
Proof. apply (clash_two_columns _ dr_device_code_hash dr_user_code_hash); [done|apply Hwf..]. Qed.

Lemma grants_no_clash : clash pg_grants (db_grants db) = false.
Proof. apply (clash_one_column _ gr_code_hash); [done|apply Hwf]. Qed.

(** The foreign keys of a well-formed table hit. *)
Lemma session_refs id r : db_sessions db !! id = Some r → t_refs pg_sessions db r = true.
Proof.
  intros Hr. cbn. apply andb_true_intro. split.
  - destruct (sr_user_id r) as [u|] eqn:Hu; [|done]. apply has_intro. by eapply (wf_sessions_user _ Hwf).
  - apply has_intro. by eapply (wf_sessions_client _ Hwf).
Qed.

Lemma device_refs id r : db_device_grants db !! id = Some r → t_refs pg_devices db r = true.
Proof.
  intros Hr. cbn. apply andb_true_intro. split.
  - apply has_intro. by eapply (wf_devices_client _ Hwf).
  - destruct (dr_user_id r) as [u|] eqn:Hu; [|done]. apply has_intro. by eapply (wf_devices_user _ Hwf).
Qed.

Lemma grant_refs id r : db_grants db !! id = Some r → t_refs pg_grants db r = true.
Proof.
  intros Hr. cbn. apply andb_true_intro.
  split; apply has_intro; [by eapply (wf_grants_user _ Hwf)|by eapply (wf_grants_client _ Hwf)].
Qed.

(** ** Users *)

Lemma pg_update_user_eq f id :
  (∀ r, u_Email (f r) = u_Email r) → pg_update_user f id db = update_user f id db.
Proof.
  intros Hf. unfold pg_update_user, update_user.
  rewrite (update_by_id pg_users u_ID); [done|apply Hwf|apply users_no_clash| |done].
  intros x y. cbn. by rewrite Hf.
Qed.

Lemma pg_CreateUser_eq fresh now email h name :
  pg_CreateUser collation fresh now email h name db = CreateUser fresh now email h name db.
Proof. unfold pg_CreateUser, CreateUser. rewrite insert_row_checks. cbn. by destruct (_ || _). Qed.

Lemma pg_GetUserByID_eq id : pg_GetUserByID id db = GetUserByID id db.
Proof.
  unfold pg_GetUserByID, GetUserByID. rewrite (scan_by_id u_ID id _ (wf_users _ Hwf)). cbn.
  by destruct (_ !! _).
Qed.

Lemma pg_CountUsers_eq : pg_CountUsers db = CountUsers db.
Proof.
  unfold pg_CountUsers, CountUsers, select. f_equal. f_equal. rewrite <- length_map_to_list, <- (length_fmap snd).
  f_equal. induction (map_to_list _).*2 as [|x l IH]; [done|]. rewrite filter_cons_True by done. by f_equal.
Qed.

(** Deleting by key: what referred to the row is what named its key. *)
Section cascade.
  Context {A : Type} (id : A → uuid) (k : uuid) (m : gmap uuid A) (Hkey : keyed id m).
  Notation here := (λ r, bool_decide (id r = k)).

Lemma cascade_keys {K B} `{Countable K} (f : K → uuid) (m' : gmap K B) :
  key_refers f m' m →
  filter (λ kv : K * B, gone here m (f kv.1) = false) m' = filter (λ kv : K * B, f kv.1 ≠ k) m'.
Proof.
  intros Hr. apply map_filter_ext. intros j x Hx. simpl.
  destruct (Hr _ _ Hx) as [r Hj]. unfold gone. rewrite Hj, (Hkey _ _ Hj), bool_decide_eq_false. done.
Qed.

Lemma cascade_set (f : uuid * uuid → uuid) (s : gset (uuid * uuid)) :
  set_refers f s m → filter (λ p, gone here m (f p) = false) s = filter (λ p, f p ≠ k) s.
Proof.
  intros Hr. apply set_eq. intros p. rewrite !elem_of_filter.
  assert (p ∈ s → gone here m (f p) = false ↔ f p ≠ k) as Hg; [|tauto].
  intros [r Hj]%Hr. unfold gone. by rewrite Hj, (Hkey _ _ Hj), bool_decide_eq_false.
Qed.

(** A nullable reference. *)
Lemma gone_opt {K B} `{Countable K} (fk : B → option uuid) (m' : gmap K B) j x :
  refers fk m' m → m' !! j = Some x →
  match fk x with Some u => gone here m u | None => false end = bool_decide (fk x = Some k).
Proof.
  intros Hr Hx. destruct (fk x) as [u|] eqn:Hu; [|by rewrite bool_decide_eq_false_2].
  destruct (Hr _ _ _ Hx Hu) as [r Hj]. unfold gone. rewrite Hj, (Hkey _ _ Hj).
  repeat case_bool_decide; naive_solver.
Qed.

End cascade.

(** A DELETE of sessions depends on its condition only at the sessions there are. *)
Lemma delete_sessions_ext b b' :
  (∀ i r, db_sessions db !! i = Some r → b r = b' r) → delete_sessions b db = delete_sessions b' db.
Proof.
  intros Hb. unfold delete_sessions. f_equal.
  - apply map_filter_ext. intros i r Hr. simpl. by rewrite (Hb i r).
  - f_equal. apply map_filter_ext. intros h i _. simpl. destruct (db_sessions db !! i) as [r|] eqn:Hr; [|done].
    by rewrite (Hb i r).
Qed.

Lemma pg_DeleteUser_eq id : pg_DeleteUser id db = DeleteUser id db.
Proof.
  unfold pg_DeleteUser, DeleteUser. f_equal. pose proof (wf_users _ Hwf) as Hk.
  rewrite (delete_where_by_id u_ID id _ Hk).
  rewrite !(cascade_by_id u_ID id _ Hk) by apply Hwf.
  rewrite (cascade_set u_ID id _ Hk snd) by apply Hwf.
  rewrite (cascade_keys u_ID id _ Hk snd) by apply Hwf.
  rewrite (delete_sessions_ext _ (λ r, bool_decide (sr_user_id r = Some id)))
    by (intros i r Hr; by eapply (gone_opt u_ID id _ Hk sr_user_id); [apply Hwf|]).
  do 7 f_equal. f_equal. apply map_eq. intros j. rewrite !lookup_fmap.
  destruct (db_device_grants db !! j) as [r|] eqn:Hr; [|done]. simpl. f_equal. unfold forget_user.
  pose proof (gone_opt u_ID id _ Hk dr_user_id _ _ _ (wf_devices_user _ Hwf) Hr) as Hg.
  destruct (dr_user_id r) as [u|]; [rewrite Hg|]; case_bool_decide; case_decide; done.
Qed.

(** ** Clients *)

Lemma pg_update_client_eq f id :
  (∀ r, c_ClientID (f r) = c_ClientID r) →
  pg_update_client f id db = (inr (hits pg_clients id db), with_clients (alter f id (db_clients db)) db).
Proof.
  intros Hf. unfold pg_update_client.
  rewrite (update_by_id pg_clients c_ID); [done|apply Hwf|apply clients_no_clash| |done].
  intros x y. cbn. by rewrite Hf.
Qed.

Lemma pg_update_client_row_eq f id :
  (∀ r, c_ClientID (f r) = c_ClientID r) →
  require_row (err_of (pg_update_client f id db)) = update_client_row f id db.
Proof.
  intros Hf. rewrite pg_update_client_eq by done. unfold update_client_row, require_row, hits. cbn.
  destruct (has (db_clients db) id) eqn:Hh; [done|]. f_equal. unfold has in Hh.
  apply bool_decide_eq_false, eq_None_not_Some in Hh.
  replace (alter f id (db_clients db)) with (db_clients db) by (symmetry; by apply alter_id_none).
  by destruct db.
Qed.

Lemma pg_CreateClient_eq fresh now cid h name uris scopes pub uri :
  pg_CreateClient collation fresh now cid h name uris scopes pub uri db
  = CreateClient fresh now cid h name uris scopes pub uri db.
Proof. unfold pg_CreateClient, CreateClient. rewrite insert_row_checks. cbn. by destruct (_ || _). Qed.

Lemma pg_GetClientByID_eq id : pg_GetClientByID id db = GetClientByID id db.
Proof.
  unfold pg_GetClientByID, GetClientByID. rewrite (scan_by_id c_ID id _ (wf_clients _ Hwf)). by destruct (_ !! _).
Qed.

Lemma pg_DeleteClient_eq id : pg_DeleteClient id db = DeleteClient id db.
Proof.
  unfold pg_DeleteClient, DeleteClient. f_equal. pose proof (wf_clients _ Hwf) as Hk.
  rewrite (delete_where_by_id c_ID id _ Hk).
  rewrite !(cascade_by_id c_ID id _ Hk) by apply Hwf.
  rewrite (cascade_keys c_ID id _ Hk fst) by apply Hwf.
  rewrite (delete_sessions_ext _ (λ r, bool_decide (sr_client_id r = id))); [done|].
  intros i r Hr. apply gone_by_id; [done|]. by eapply (wf_sessions_client _ Hwf).
Qed.

Lemma pg_insert_visibility_eq cid ts gids vis :
  pg_insert_visibility db cid ts gids vis = insert_visibilities db cid ts gids vis.
Proof.
  revert vis. induction gids as [|g gids IH]; intros vis; [done|]. cbn [pg_insert_visibility insert_visibilities].
  unfold insert_visibility, has at 3. destruct (vis !! (cid, g)) eqn:Hv.
  - rewrite bool_decide_eq_true_2 by eauto. apply IH.
  - rewrite bool_decide_eq_false_2 by (by intros []). destruct (_ && _); [apply IH|done].
Qed.

Lemma pg_ListPortalClientsForUser_eq uid :
  pg_ListPortalClientsForUser collation uid db = ListPortalClientsForUser uid db.
Proof.
  unfold pg_ListPortalClientsForUser, ListPortalClientsForUser, select. do 2 f_equal.
  apply list_filter_iff'. intros c _. f_equal. f_equal. unfold visible_via_group. apply bool_decide_ext.
  unfold pg_joined_members. rewrite list_elem_of_bind. split.
  - intros ([[c' g] ts] & Hin & Hv%elem_of_map_to_list). simpl in Hin.
    destruct (bool_decide (c' = c_ID c)) eqn:Hc; [|by apply elem_of_nil in Hin]. simpl in Hin.
    case_bool_decide as Hm; [|by apply elem_of_nil in Hin]. apply bool_decide_eq_true in Hc as ->.
    intros He. apply (not_elem_of_empty (C := gset (uuid * uuid)) (g, uid)). rewrite <- He.
    apply elem_of_filter. split; [|done]. split; [done|]. simpl. by eexists.
  - intros Hne. apply set_choose_L in Hne as [[g u] Hin]. apply elem_of_filter in Hin as [[Hu [ts Hts]] Hm].
    simpl in *. subst. exists ((c_ID c, g), ts). split; [|by apply elem_of_map_to_list]. simpl.
    rewrite !bool_decide_eq_true_2 by done. by left.
Qed.

(** ** Groups *)

Lemma pg_CreateGroup_eq fresh now name : pg_CreateGroup collation fresh now name db = CreateGroup fresh now name db.
Proof.
  unfold pg_CreateGroup, CreateGroup. rewrite insert_row_checks. cbn.
  replace (some_row (λ _ : group_row, false) (db_scim_groups db)) with false; [|by rewrite <- existsb_rows, existsb_false].
  rewrite orb_false_r. by destruct (has _ _).
Qed.

Lemma pg_GetGroupByID_eq id : pg_GetGroupByID id db = GetGroupByID id db.
Proof. unfold pg_GetGroupByID. by rewrite (scan_by_id gpr_id id _ (wf_groups _ Hwf)). Qed.

Lemma pg_UpdateGroup_eq now id name : pg_UpdateGroup collation now id name db = UpdateGroup now id name db.
Proof.
  unfold pg_UpdateGroup. rewrite (update_by_id pg_groups gpr_id); [done|apply Hwf| |done|done].
  by apply clash_no_column.
Qed.

Lemma pg_insert_members_eq gid uids ms : pg_insert_members db gid uids ms = insert_members db gid uids ms.
Proof.
  revert ms. induction uids as [|u uids IH]; intros ms; [done|]. cbn [pg_insert_members insert_members].
  unfold insert_member. case_decide; [apply IH|]. destruct (_ && _); [apply IH|done].
Qed.

Lemma pg_AddGroupMember_eq gid uid : pg_AddGroupMember gid uid db = AddGroupMember gid uid db.
Proof.
  unfold pg_AddGroupMember, AddGroupMember. rewrite pg_insert_members_eq. cbn [insert_members].
  by destruct (insert_member _ _ _ _).
Qed.

Lemma pg_RemoveGroupMember_eq gid uid : pg_RemoveGroupMember gid uid db = RemoveGroupMember gid uid db.
Proof.
  unfold pg_RemoveGroupMember, RemoveGroupMember. do 2 f_equal. apply set_eq. intros [g u].
  rewrite elem_of_filter, elem_of_difference, elem_of_singleton. simpl. naive_solver.
Qed.

Lemma pg_DeleteGroup_eq id : pg_DeleteGroup id db = DeleteGroup id db.
Proof.
  unfold pg_DeleteGroup, DeleteGroup. f_equal. pose proof (wf_groups _ Hwf) as Hk.
  rewrite (delete_where_by_id gpr_id id _ Hk), (cascade_by_id gpr_id id _ Hk) by apply Hwf.
  rewrite (cascade_set gpr_id id _ Hk fst) by apply Hwf.
  by rewrite (cascade_keys gpr_id id _ Hk snd) by apply Hwf.
Qed.

(** ** Second factors *)

Lemma pg_CreateTOTPCredential_eq now c :
  pg_CreateTOTPCredential collation now c db = CreateTOTPCredential now c db.
Proof.
  unfold pg_CreateTOTPCredential, CreateTOTPCredential. rewrite insert_row_checks. cbn.
  destruct (_ || _); [done|]. by destruct (has _ _).
Qed.

Lemma pg_EnableTOTP_eq id : pg_EnableTOTP id db = EnableTOTP id db.
Proof.
  unfold pg_EnableTOTP. rewrite (update_by_id pg_totp totp_ID); [done|apply Hwf| |done|].
  - apply (clash_one_column _ totp_UserID); [done|apply Hwf].
  - intros x Hx. apply has_intro. by eapply (wf_totp_user _ Hwf).
Qed.

Lemma pg_DeleteTOTP_eq uid : pg_DeleteTOTP uid db = DeleteTOTP uid db.
Proof.
  unfold pg_DeleteTOTP, DeleteTOTP, drop_fk, delete_rows. cbn. do 2 f_equal. apply map_filter_ext.
  intros i x _. simpl. repeat case_bool_decide; naive_solver.
Qed.

Lemma pg_CreateWebAuthnCredential_eq now c :
  pg_CreateWebAuthnCredential collation now c db = CreateWebAuthnCredential now c db.
Proof.
  unfold pg_CreateWebAuthnCredential, CreateWebAuthnCredential. rewrite insert_row_checks. cbn.
  destruct (_ || _); [done|]. by destruct (has _ _).
Qed.

Lemma pg_UpdateWebAuthnCredentialUse_eq id n be bs t :
  pg_UpdateWebAuthnCredentialUse collation id n be bs t db = UpdateWebAuthnCredentialUse id n be bs t db.
Proof.
  unfold pg_UpdateWebAuthnCredentialUse. rewrite (update_by_id pg_webauthn wa_ID); [done|apply Hwf| |done|].
  - apply (clash_one_column _ wa_CredentialID); [done|apply Hwf].
  - intros x Hx. apply has_intro. by eapply (wf_webauthn_user _ Hwf).
Qed.

Lemma pg_DeleteWebAuthnCredential_eq id uid :
  pg_DeleteWebAuthnCredential id uid db = DeleteWebAuthnCredential id uid db.
Proof.
  unfold pg_DeleteWebAuthnCredential, DeleteWebAuthnCredential, delete_rows. cbn. do 2 f_equal.
  apply map_filter_ext. intros i x _. simpl. repeat case_bool_decide; naive_solver.
Qed.

Lemma pg_CreateWebAuthnSession_eq fresh now uid data p :
  pg_CreateWebAuthnSession collation fresh now uid data p db = CreateWebAuthnSession fresh now uid data p db.
Proof.
  unfold pg_CreateWebAuthnSession, CreateWebAuthnSession. rewrite insert_row_checks. cbn.
  replace (some_row (λ _ : wa_session_row, false) (db_webauthn_sessions db)) with false;
    [|by rewrite <- existsb_rows, existsb_false].
  rewrite orb_false_r. destruct (has _ _); [done|]. by destruct (has _ _).
Qed.

(** The rows whose key satisfies a condition that pins it down. *)
Lemma filter_at_key {K A} `{Countable K} (P : K * A → Prop) `{∀ x, Decision (P x)} (m : gmap K A) (k : K) :
  (∀ kx, P kx → kx.1 = k) →
  filter P (map_to_list m) = match m !! k with Some x => if decide (P (k, x)) then [(k, x)] else [] | None => [] end.
Proof.
  intros HP. destruct (m !! k) as [x|] eqn:Hx; cycle 1.
  { apply filter_none. intros [j y] Hin%elem_of_map_to_list Hj. apply HP in Hj as Hk. simpl in Hk. by simplify_eq. }
  destruct (decide (P (k, x))) as [Hp|Hp].
  - apply Permutation_singleton_r. rewrite <- (map_to_list_delete m k x Hx), filter_cons_True by done.
    apply Permutation_cons; [done|]. rewrite filter_none; [done|].
    intros [j y] [Hne _]%elem_of_map_to_list%lookup_delete_Some Hj. apply HP in Hj. by simplify_eq/=.
  - apply filter_none. intros [j y] Hin%elem_of_map_to_list Hj. apply HP in Hj as Hk. by simplify_eq/=.
Qed.

Lemma pg_GetWebAuthnSession_eq now id uid p :
  pg_GetWebAuthnSession collation now id uid p db = GetWebAuthnSession now id uid p db.
Proof.
  unfold pg_GetWebAuthnSession, GetWebAuthnSession. rewrite (filter_at_key _ _ id) by naive_solver.
  destruct (db_webauthn_sessions db !! id) as [r|]; [|done]. cbn [fst snd].
  destruct (Z.ltb_spec (stamp now) (wsr_expires_at r)); repeat case_bool_decide; case_decide; naive_solver lia.
Qed.

Lemma pg_DeleteWebAuthnSession_eq id : pg_DeleteWebAuthnSession id db = DeleteWebAuthnSession id db.
Proof.
  unfold pg_DeleteWebAuthnSession, DeleteWebAuthnSession. do 2 f_equal. apply map_eq. intros j.
  apply option_eq. intros x. rewrite map_lookup_filter_Some, lookup_delete_Some. simpl. naive_solver.
Qed.

(** ** Authorization codes *)

Lemma pg_scanGrant_eq r : pg_scanGrant r = scanGrant r.
Proof. by destruct r as [? ? ? ? ? ? ? ? ? ? ? []]. Qed.

Lemma pg_CreateGrant_eq g : pg_CreateGrant collation g db = CreateGrant g db.
Proof.
  unfold pg_CreateGrant, CreateGrant. rewrite insert_row_checks. cbn.
  destruct (has (db_grants db) _); [done|]. destruct (some_row _ _); [done|].
  destruct (has (db_users db) _), (has (db_clients db) _); cbn; try done.
  unfold just_err. cbn. do 4 f_equal. unfold grant_row_of, time_arg. by destruct (IsZero _).
Qed.

Lemma pg_GetGrantByCodeHash_eq h : pg_GetGrantByCodeHash h db = GetGrantByCodeHash h db.
Proof.
  unfold pg_GetGrantByCodeHash, GetGrantByCodeHash. rewrite scan_find.
  destruct (find_row _ _); [|done]. cbn. by rewrite pg_scanGrant_eq.
Qed.

Lemma pg_MarkGrantUsed_eq now id : pg_MarkGrantUsed collation now id db = MarkGrantUsed now id db.
Proof.
  unfold pg_MarkGrantUsed, MarkGrantUsed.
  rewrite (update_guarded pg_grants gr_id id db (wf_grants _ Hwf) (λ r, bool_decide (gr_used_at r = None)));
    [|apply grants_no_clash]. cbn [t_rows pg_grants].
  destruct (db_grants db !! id) as [r|] eqn:Hr; [|done].
  destruct (gr_used_at r) eqn:Hu; [by rewrite bool_decide_eq_false_2|]. rewrite bool_decide_eq_true_2 by done.
  rewrite (update_by_id pg_grants gr_id); [|apply Hwf|apply grants_no_clash|done|].
  - unfold hits, has. cbn [t_rows pg_grants]. by rewrite Hr, bool_decide_eq_true_2 by eauto.
  - intros x Hx. by apply (grant_refs id x).
Qed.

(** ** Sessions *)

Lemma pg_scanSession_eq r : pg_scanSession r = scanSession r.
Proof. by destruct r as [? [] ? ? ? ? ? ? ? ? ? [] ?]. Qed.

Lemma pg_CreateSession_eq now s : pg_CreateSession collation now s db = CreateSession now s db.
Proof.
  unfold pg_CreateSession, CreateSession. rewrite insert_row_checks. cbn.
  replace (some_row _ (db_sessions db))
    with (some_row (session_clash (s_AccessTokenHash s) (s_RefreshTokenHash s)) (db_sessions db)) by done.
  destruct (has (db_sessions db) _); [done|]. destruct (some_row _ _); [done|].
  assert (∀ x, column <$> time_arg x = if IsZero x then None else Some (column x)) as Ht
    by (intros x; unfold time_arg; by destruct (IsZero x)).
  unfold session_row_of. rewrite Ht.
  destruct (if bool_decide (s_UserID s = 0%N) then None else Some (s_UserID s)); cbn;
    [destruct (has (db_users db) _); [|done]|]; by destruct (has (db_clients db) _).
Qed.

Lemma pg_update_session_eq f id :
  (∀ r, sr_access_token_hash (f r) = sr_access_token_hash r) →
  (∀ r, sr_refresh_token_hash (f r) = sr_refresh_token_hash r) →
  (∀ r, sr_user_id (f r) = sr_user_id r) → (∀ r, sr_client_id (f r) = sr_client_id r) →
  pg_update_session f id db = update_session f id db.
Proof.
  intros Ha Hr Hu Hc. unfold pg_update_session, update_session.
  rewrite (update_by_id pg_sessions sr_id); [done|apply Hwf|apply sessions_no_clash| |].
  - intros x y. cbn. by rewrite Ha, Hr.
  - intros x Hx. cbn. rewrite Hu, Hc. by apply (session_refs id x).
Qed.

Lemma pg_GetSession_eq (b : session_row → bool) :
  scan_one pg_scanSession (select b (db_sessions db)) = one_row (scanSession <$> find_row b (db_sessions db)).
Proof. rewrite scan_find. destruct (find_row _ _); [|done]. cbn. by rewrite pg_scanSession_eq. Qed.

Lemma pg_RotateRefreshToken_eq id old a r ae re :
  pg_RotateRefreshToken collation id old a r ae re db = RotateRefreshToken id old a r ae re db.
Proof.
  unfold pg_RotateRefreshToken, RotateRefreshToken.
  rewrite (update_guarded pg_sessions sr_id id db (wf_sessions _ Hwf)
             (λ r, bool_decide (sr_refresh_token_hash r = old))) by apply sessions_no_clash.
  cbn [t_rows pg_sessions]. destruct (db_sessions db !! id) as [row|] eqn:Hrow; [|done].
  case_bool_decide as Hold; [|done].
  rewrite (update_by_id_to pg_sessions sr_id id db (wf_sessions _ Hwf) _ (session_clash a r));
    [|apply sessions_no_clash| |]; cycle 1.
  { intros x y. cbn. unfold session_clash. f_equal; apply bool_decide_ext; done. }
  { intros x Hx. by apply (session_refs id x). }
  unfold hits, has at 1 2. cbn [t_rows pg_sessions]. rewrite Hrow, bool_decide_eq_true_2 by eauto. cbn [andb].
  destruct (some_row _ _); [done|]. cbn.
  unfold has. destruct (db_retired_refresh_tokens db !! old) eqn:Hret.
  - rewrite bool_decide_eq_true_2 by eauto. by destruct db.
  - rewrite (bool_decide_eq_false_2 (is_Some None)) by (by intros []).
    by rewrite lookup_alter_eq, Hrow.
Qed.

Lemma pg_GetSessionByRetiredRefreshTokenHash_eq h :
  pg_GetSessionByRetiredRefreshTokenHash h db = GetSessionByRetiredRefreshTokenHash h db.
Proof.
  unfold pg_GetSessionByRetiredRefreshTokenHash, GetSessionByRetiredRefreshTokenHash.
  destruct (db_retired_refresh_tokens db !! h) as [k|]; cbn.
  - rewrite <- (scan_by_id sr_id k _ (wf_sessions _ Hwf) scanSession), scan_find, scan_find.
    replace (find_row (λ r, bool_decide (Some k = Some (sr_id r))) (db_sessions db))
      with (find_row (λ r, bool_decide (sr_id r = k)) (db_sessions db)).
    + destruct (find_row _ _); [|done]. cbn. by rewrite pg_scanSession_eq.
    + unfold find_row. f_equal. apply list_filter_iff'. intros x _. apply bool_decide_ext. naive_solver.
  - unfold select. rewrite filter_none; [done|]. intros x _. by rewrite bool_decide_eq_true.
Qed.

Lemma pg_ListSessionClientIDsByUser_eq uid :
  pg_ListSessionClientIDsByUser uid db = ListSessionClientIDsByUser uid db.
Proof.
  unfold pg_ListSessionClientIDsByUser, ListSessionClientIDsByUser, select. do 3 f_equal.
  apply list_filter_iff. intros x. by rewrite bool_decide_eq_true.
Qed.

(** ** Device grants *)

Lemma pg_scanDeviceGrant_eq r : pg_scanDeviceGrant r = scanDeviceGrant r.
Proof. unfold pg_scanDeviceGrant, scanDeviceGrant. by destruct (bool_decide (dr_scopes r = "")). Qed.

Lemma pg_CreateDeviceGrant_eq fresh now g :
  pg_CreateDeviceGrant collation fresh now g db = CreateDeviceGrant fresh now g db.
Proof.
  unfold pg_CreateDeviceGrant, CreateDeviceGrant. rewrite insert_row_checks. cbn.
  replace (some_row _ (db_device_grants db))
    with (some_row (device_clash (dg_DeviceCodeHash g) (dg_UserCodeHash g)) (db_device_grants db)) by done.
  destruct (has (db_device_grants db) _); [done|]. destruct (some_row _ _); [done|]. cbn.
  by destruct (has (db_clients db) _).
Qed.

Lemma pg_GetDeviceGrant_eq (b : device_row → bool) :
  scan_one pg_scanDeviceGrant (select b (db_device_grants db))
  = one_row (scanDeviceGrant <$> find_row b (db_device_grants db)).
Proof. rewrite scan_find. destruct (find_row _ _); [|done]. cbn. by rewrite pg_scanDeviceGrant_eq. Qed.

(** The guarded update, when the new row's user exists, and when not. *)
Lemma pg_device_update_eq from f id :
  (∀ r, dr_device_code_hash (f r) = dr_device_code_hash r) →
  (∀ r, dr_user_code_hash (f r) = dr_user_code_hash r) → (∀ r, dr_client_id (f r) = dr_client_id r) →
  (∀ r, db_device_grants db !! id = Some r →
        match dr_user_id (f r) with Some u => has (db_users db) u | None => true end = true) →
  pg_device_update from f id db = device_transition from f id db.
Proof.
  intros Hd Hu Hc Hr. unfold pg_device_update, device_transition.
  rewrite (update_guarded pg_devices dr_id id db (wf_devices _ Hwf) (λ r, bool_decide (dr_status r = from)))
    by apply devices_no_clash. cbn [t_rows pg_devices].
  destruct (db_device_grants db !! id) as [row|] eqn:Hrow; [|done]. case_bool_decide; [|done].
  rewrite (update_by_id pg_devices dr_id); [|apply Hwf|apply devices_no_clash| |].
  - unfold hits, has. cbn [t_rows pg_devices]. by rewrite Hrow, bool_decide_eq_true_2 by eauto.
  - intros x y. cbn. by rewrite Hd, Hu.
  - intros x Hx. cbn. cbn in Hx. assert (x = row) as -> by congruence. rewrite Hc, Hr by done.
    apply andb_true_intro. split; [|done]. apply has_intro. by eapply (wf_devices_client _ Hwf).
Qed.

Lemma pg_MarkDeviceGrantApproved_eq id uid mfa at_ ip :
  pg_MarkDeviceGrantApproved collation id uid mfa at_ ip db = MarkDeviceGrantApproved id uid mfa at_ ip db.
Proof.
  unfold pg_MarkDeviceGrantApproved, MarkDeviceGrantApproved. destruct (has (db_users db) uid) eqn:Hu.
  - by apply pg_device_update_eq.
  - unfold pg_device_update.
    rewrite (update_guarded pg_devices dr_id id db (wf_devices _ Hwf)
               (λ r, bool_decide (dr_status r = DeviceGrantStatusPending))) by apply devices_no_clash.
    cbn [t_rows pg_devices]. destruct (db_device_grants db !! id) as [row|] eqn:Hrow; [|done].
    case_bool_decide; [|done]. unfold update. cbn [t_rows pg_devices].
    rewrite (set_where_by_id dr_id id _ (wf_devices _ Hwf)), (select_by_id dr_id id _ (wf_devices _ Hwf)), Hrow.
    destruct (clash _ _); cbn; [done|]. by rewrite Hu, andb_false_r.
Qed.

Lemma device_kept_user id r : db_device_grants db !! id = Some r →
  match dr_user_id r with Some u => has (db_users db) u | None => true end = true.
Proof.
  intros Hr. destruct (dr_user_id r) eqn:Hu; [|done]. apply has_intro. by eapply (wf_devices_user _ Hwf).
Qed.

Lemma pg_UpdateDeviceGrantPoll_eq id now n :
  pg_UpdateDeviceGrantPoll collation id now n db = UpdateDeviceGrantPoll id now n db.
Proof.
  unfold pg_UpdateDeviceGrantPoll. rewrite (update_by_id pg_devices dr_id); [done|apply Hwf|apply devices_no_clash|done|].
  intros x Hx. by apply (device_refs id x).
Qed.

(** The number of rows a DELETE removes. *)
Lemma length_select_where {A} (b : A → bool) (m : gmap uuid A) :
  Z.of_nat (length (select b m)) = Z.of_nat (size m) - Z.of_nat (size (delete_where b m)).
Proof.
  enough (length (select b m) + size (delete_where b m) = size m)%nat by lia.
  unfold select, delete_where. induction m as [|k x m Hk IH] using map_ind; [done|].
  rewrite map_size_insert_None by done. rewrite (map_to_list_insert _ _ _ Hk).
  cbn [fmap list_fmap]. rewrite filter_cons. cbn [snd]. destruct (b x) eqn:Hb.
  - rewrite map_filter_insert_False by (cbn; congruence). rewrite delete_id by done.
    rewrite decide_True by done. simpl. lia.
  - rewrite map_filter_insert_True by done. rewrite map_size_insert_None; [|apply map_lookup_filter_None; by left].
    rewrite decide_False by done. lia.
Qed.

Lemma pg_DeleteExpiredDeviceGrants_eq now :
  pg_DeleteExpiredDeviceGrants collation now db = DeleteExpiredDeviceGrants now db.
Proof. unfold pg_DeleteExpiredDeviceGrants, DeleteExpiredDeviceGrants, delete_rows. by rewrite length_select_where. Qed.

(** ** AWS catalogue *)

Lemma pg_CreateAWSAccount_eq fresh now a :
  pg_CreateAWSAccount collation fresh now a db = CreateAWSAccount fresh now a db.
Proof. unfold pg_CreateAWSAccount, CreateAWSAccount. rewrite insert_row_checks. cbn. by destruct (_ || _). Qed.

Lemma pg_GetAWSAccount_eq id : pg_GetAWSAccount id db = GetAWSAccount id db.
Proof.
  unfold pg_GetAWSAccount, GetAWSAccount. rewrite (scan_by_id aa_ID id _ (wf_accounts _ Hwf)). by destruct (_ !! _).
Qed.

(** An UPDATE whose method tells a clash ([ErrConflict]) from a missing row. *)
Lemma pg_update_or_conflict {A} (t : table uuid A) `{!TableOk t} (id : A → uuid) k f clashes :
  keyed id (t_rows t db) → clash t (t_rows t db) = false →
  (∀ x y, t_unique t (f x) y = clashes y) → (∀ x, t_rows t db !! k = Some x → t_refs t db (f x) = true) →
  require_row (err_or_conflict (update t (λ r, bool_decide (id r = k)) f db)) =
    if has (t_rows t db) k then
      if some_row (λ r, negb (bool_decide (id r = k)) && clashes r) (t_rows t db)
      then (Err ErrConflict, db) else (Ok tt, t_with t (alter f k (t_rows t db)) db)
    else (Err ErrNotFound, db).
Proof.
  intros Hk Hc Hu Hr. rewrite (update_by_id_to t id k db Hk f clashes) by done. unfold hits.
  destruct (has (t_rows t db) k) eqn:Hh; cbn; [by destruct (some_row _ _)|].
  unfold require_row. cbn. unfold has in Hh. apply bool_decide_eq_false, eq_None_not_Some in Hh.
  by rewrite alter_id_none, with_rows.
Qed.

Lemma pg_UpdateAWSAccount_eq now a : pg_UpdateAWSAccount collation now a db = UpdateAWSAccount now a db.
Proof.
  unfold pg_UpdateAWSAccount.
  rewrite (pg_update_or_conflict pg_accounts aa_ID _ _ (λ r, bool_decide (aa_AccountID r = aa_AccountID a)));
    [done|apply Hwf| | |done].
  - apply (clash_one_column _ aa_AccountID); [done|apply Hwf].
  - intros x y. cbn. by apply bool_decide_ext.
Qed.

(** A DELETE whose method maps zero rows to [ErrNotFound]. *)
Lemma length_select_has {A} (id : A → uuid) k (m : gmap uuid A) :
  keyed id m → length (select (λ r, bool_decide (id r = k)) m) = if has m k then 1%nat else 0%nat.
Proof. intros Hk. rewrite (select_by_id id k m Hk). unfold has. by destruct (m !! k). Qed.

Lemma pg_delete_or_missing {A} (t : table uuid A) `{!TableOk t} (id : A → uuid) k :
  keyed id (t_rows t db) →
  (let '(n, db') := delete_rows t (λ r, bool_decide (id r = k)) db in
   if n =? 0 then (Err ErrNotFound, db') else (Ok tt, db')) =
    if has (t_rows t db) k then (Ok tt, t_with t (delete k (t_rows t db)) db) else (Err ErrNotFound, db).
Proof.
  intros Hk. unfold delete_rows. rewrite (length_select_has id) by done.
  rewrite (delete_where_by_id id k _ Hk). destruct (has _ _) eqn:Hh; [done|]. cbn. unfold has in Hh.
  apply bool_decide_eq_false, eq_None_not_Some in Hh. by rewrite delete_id, with_rows.
Qed.

(** A DELETE of roles depends on its condition only at the roles there are. *)
Lemma delete_roles_ext b b' :
  (∀ i r, db_aws_roles db !! i = Some r → b r = b' r) → delete_roles b db = delete_roles b' db.
Proof.
  intros Hb. unfold delete_roles.
  assert (∀ i, match db_aws_roles db !! i with Some r => b r | None => false end
             = match db_aws_roles db !! i with Some r => b' r | None => false end) as Hg.
  { intros i. destruct (db_aws_roles db !! i) as [r|] eqn:Hr; [|done]. by apply (Hb i). }
  f_equal; [|f_equal; [|f_equal]]; apply map_filter_ext; intros i r Hr; simpl; by rewrite ?Hg, ?(Hb i r).
Qed.

(** Deleting roles none of which exists deletes nothing. *)
Lemma delete_roles_none b : (∀ i r, db_aws_roles db !! i = Some r → b r = false) → delete_roles b db = db.
Proof.
  intros Hb. rewrite (delete_roles_ext b (λ _, false)) by done. unfold delete_roles.
  assert (∀ i, match db_aws_roles db !! i with Some _ | None => false end = false) as Hg
    by (intros i; by destruct (_ !! i)).
  unfold delete_where. rewrite !map_filter_id; [by destruct db| | |]; intros; simpl; done || apply Hg.
Qed.

Lemma pg_DeleteAWSAccount_eq id : pg_DeleteAWSAccount id db = DeleteAWSAccount id db.
Proof.
  unfold pg_DeleteAWSAccount, DeleteAWSAccount. pose proof (wf_accounts _ Hwf) as Hk.
  rewrite (length_select_has aa_ID) by done. rewrite (delete_where_by_id aa_ID id _ Hk).
  rewrite (delete_roles_ext _ (λ r, bool_decide (rr_account_id r = id))); cycle 1.
  { intros i r Hr. apply gone_by_id; [done|]. by eapply (wf_roles_account _ Hwf). }
  destruct (has _ _) eqn:Hh; [done|]. cbn. unfold has in Hh. apply bool_decide_eq_false, eq_None_not_Some in Hh.
  rewrite delete_id by done. f_equal. rewrite delete_roles_none; [by destruct db|].
  intros i r Hr. apply bool_decide_eq_false. intros He.
  destruct (wf_roles_account _ Hwf _ _ _ Hr (eq_refl _)) as [x Hx]. simpl in Hx. congruence.
Qed.

Lemma pg_CreateAWSRole_eq fresh now r : pg_CreateAWSRole collation fresh now r db = CreateAWSRole fresh now r db.
Proof.
  unfold pg_CreateAWSRole, CreateAWSRole. rewrite insert_row_checks. cbn.
  destruct (_ || _); [done|]. by destruct (has _ _).
Qed.

Lemma pg_GetAWSRole_eq id : pg_GetAWSRole id db = GetAWSRole id db.
Proof. unfold pg_GetAWSRole. by rewrite (scan_by_id rr_id id _ (wf_roles _ Hwf)). Qed.

(** [SELECT] without a condition. *)
Lemma select_all {A} (m : gmap uuid A) : select (λ _, true) m = (map_to_list m).*2.
Proof. unfold select. induction (map_to_list m).*2 as [|x l IH]; [done|]. rewrite filter_cons_True by done. by f_equal. Qed.

Lemma pg_UpdateAWSRole_eq now r : pg_UpdateAWSRole collation now r db = UpdateAWSRole now r db.
Proof.
  unfold pg_UpdateAWSRole.
  rewrite (pg_update_or_conflict pg_roles rr_id _ _ (λ x, bool_decide (rr_role_arn x = ar_RoleARN r)));
    [done|apply Hwf| | |].
  - apply (clash_one_column _ rr_role_arn); [done|apply Hwf].
  - intros x y. cbn. by apply bool_decide_ext.
  - intros x Hx. apply has_intro. by eapply (wf_roles_account _ Hwf).
Qed.

Lemma pg_DeleteAWSRole_eq id : pg_DeleteAWSRole id db = DeleteAWSRole id db.
Proof.
  unfold pg_DeleteAWSRole, DeleteAWSRole. rewrite (length_select_has rr_id) by apply Hwf.
  destruct (has _ _) eqn:Hh; [done|]. cbn. f_equal. apply delete_roles_none. intros i r Hr.
  apply bool_decide_eq_false. intros He. unfold has in Hh. apply bool_decide_eq_false in Hh.
  apply Hh. rewrite <- He, (wf_roles _ Hwf _ _ Hr). eauto.
Qed.

Lemma pg_CreateAWSRoleAssignment_eq fresh now a :
  pg_CreateAWSRoleAssignment collation fresh now a db = CreateAWSRoleAssignment fresh now a db.
Proof.
  unfold pg_CreateAWSRoleAssignment, CreateAWSRoleAssignment. rewrite insert_row_checks. cbn.
  destruct (_ || _); [done|]. by destruct (has (db_scim_groups db) _), (has (db_aws_roles db) _).
Qed.

Lemma pg_ListAWSRolesForUser_eq uid :
  pg_ListAWSRolesForUser collation uid db = ListAWSRolesForUser uid db.
Proof.
  unfold pg_ListAWSRolesForUser, ListAWSRolesForUser. do 3 f_equal. unfold select at 1.
  apply list_filter_iff'. intros r _. unfold assigned_via_group. rewrite <- existsb_rows.
  apply eq_true_iff_eq. rewrite bool_decide_eq_true, existsb_exists, list_elem_of_fmap.
  unfold select. setoid_rewrite list_elem_of_filter. setoid_rewrite list_elem_of_In.
  setoid_rewrite andb_true_iff. setoid_rewrite bool_decide_eq_true. naive_solver.
Qed.

Lemma pg_AddAWSRevokedUser_eq now rid sub :
  pg_AddAWSRevokedUser collation now rid sub db = AddAWSRevokedUser now rid sub db.
Proof.
  unfold pg_AddAWSRevokedUser, AddAWSRevokedUser.
  destruct (db_aws_revoked_users db !! (rid, sub)) as [t|] eqn:Hr; [|done].
  rewrite has_intro by (eapply (wf_revoked_role _ Hwf _ _ Hr)). do 2 f_equal.
  by eapply alter_const.
Qed.

Lemma pg_SetExternalID_eq p uid e : pg_SetExternalID p uid e db = SetExternalID p uid e db.
Proof.
  unfold pg_SetExternalID, SetExternalID. destruct (db_external_ids db !! (p, uid)) as [x|] eqn:Hx; [|done].
  rewrite has_intro by (eapply (wf_external_user _ Hwf _ _ Hx)). do 2 f_equal. by eapply alter_const.
Qed.

(** The rows a DELETE by a two-column key leaves. *)
Lemma filter_not_key {K1 K2 A} `{Countable K1} `{Countable K2} (m : gmap (K1 * K2) A) k1 k2 :
  filter (λ kv : (K1 * K2) * A, ¬ (kv.1.1 = k1 ∧ kv.1.2 = k2)) m = delete (k1, k2) m.
Proof.
  apply map_eq. intros [j1 j2]. apply option_eq. intros x.
  rewrite map_lookup_filter_Some, lookup_delete_Some. simpl. naive_solver.
Qed.

Lemma pg_GetExternalID_eq p uid : pg_GetExternalID p uid db = GetExternalID p uid db.
Proof.
  unfold pg_GetExternalID, GetExternalID.
  rewrite (filter_at_key _ _ (p, uid)) by (intros [[]] []; simpl in *; by subst).
  destruct (db_external_ids db !! (p, uid)); [|done]. by rewrite decide_True.
Qed.

(** ** Keys and integrations *)

Lemma pg_CreateSigningKey_eq now k : pg_CreateSigningKey collation now k db = CreateSigningKey now k db.
Proof. unfold pg_CreateSigningKey, CreateSigningKey. rewrite insert_row_checks. cbn. by destruct (_ || _). Qed.

Lemma pg_GetActiveSigningKey_eq : pg_GetActiveSigningKey db = GetActiveSigningKey db.
Proof.
  unfold pg_GetActiveSigningKey, GetActiveSigningKey, rows_by. fold (select sk_Active (db_signing_keys db)).
  unfold pg_active_keys. by destruct (merge_sort _ _).
Qed.

Lemma pg_DeactivateSigningKey_eq id : pg_DeactivateSigningKey id db = DeactivateSigningKey id db.
Proof.
  unfold pg_DeactivateSigningKey. rewrite (update_by_id pg_keys sk_ID); [done|apply Hwf| |done|done].
  apply (clash_one_column _ sk_KID); [done|apply Hwf].
Qed.

Lemma pg_CreateIntegration_eq fresh now i :
  pg_CreateIntegration collation fresh now i db = CreateIntegration fresh now i db.
Proof. unfold pg_CreateIntegration, CreateIntegration. rewrite insert_row_checks. cbn. by destruct (_ || _). Qed.

Lemma pg_GetIntegration_eq id : pg_GetIntegration id db = GetIntegration id db.
Proof.
  unfold pg_GetIntegration, GetIntegration. rewrite (scan_by_id ai_ID id _ (wf_integrations _ Hwf)).
  by destruct (_ !! _).
Qed.

Lemma pg_UpdateIntegration_eq now i : pg_UpdateIntegration collation now i db = UpdateIntegration now i db.
Proof.
  unfold pg_UpdateIntegration.
  rewrite (pg_update_or_conflict pg_integrations ai_ID _ _ (λ r, bool_decide (ai_Name r = ai_Name i)));
    [done|apply Hwf| | |done].
  - apply (clash_one_column _ ai_Name); [done|apply Hwf].
  - intros x y. cbn. by apply bool_decide_ext.
Qed.

Lemma pg_ListClientVisibility_eq cid : pg_ListClientVisibility cid db = ListClientVisibility cid db.
Proof. unfold pg_ListClientVisibility, ListClientVisibility. f_equal. apply (list_fmap_compose fst snd). Qed.

Lemma pg_MarkDeviceGrantDenied_eq id ip : pg_MarkDeviceGrantDenied id ip db = MarkDeviceGrantDenied id ip db.
Proof. apply pg_device_update_eq; [done..|]. intros r Hr. by apply (device_kept_user id r). Qed.

Lemma pg_MarkDeviceGrantRedeemed_eq id : pg_MarkDeviceGrantRedeemed id db = MarkDeviceGrantRedeemed id db.
Proof. apply pg_device_update_eq; [done..|]. intros r Hr. by apply (device_kept_user id r). Qed.

Lemma pg_DeleteAWSRoleAssignment_eq id : pg_DeleteAWSRoleAssignment id db = DeleteAWSRoleAssignment id db.
Proof. apply (pg_delete_or_missing pg_assignments ara_ID), Hwf. Qed.

Lemma pg_DeleteIntegration_eq id : pg_DeleteIntegration id db = DeleteIntegration id db.
Proof. apply (pg_delete_or_missing pg_integrations ai_ID), Hwf. Qed.

(** ** Every method *)

#[local] Hint Rewrite pg_update_user_eq pg_update_client_row_eq pg_update_session_eq using done : pgstore.
#[local] Hint Rewrite pg_update_client_eq using done : pgstore_rest.
#[local] Hint Rewrite @scan_find @select_all @filter_not_key : pgstore_rest.
#[local] Hint Rewrite pg_CreateUser_eq pg_GetUserByID_eq pg_CountUsers_eq pg_DeleteUser_eq
  pg_CreateClient_eq pg_GetClientByID_eq pg_DeleteClient_eq pg_insert_visibility_eq pg_ListPortalClientsForUser_eq
  pg_CreateGroup_eq pg_GetGroupByID_eq pg_UpdateGroup_eq pg_insert_members_eq pg_AddGroupMember_eq
  pg_RemoveGroupMember_eq pg_DeleteGroup_eq
  pg_CreateTOTPCredential_eq pg_EnableTOTP_eq pg_DeleteTOTP_eq pg_CreateWebAuthnCredential_eq
  pg_UpdateWebAuthnCredentialUse_eq pg_DeleteWebAuthnCredential_eq pg_CreateWebAuthnSession_eq
  pg_GetWebAuthnSession_eq pg_DeleteWebAuthnSession_eq
  pg_CreateGrant_eq pg_GetGrantByCodeHash_eq pg_MarkGrantUsed_eq
  pg_CreateSession_eq pg_GetSession_eq pg_RotateRefreshToken_eq pg_GetSessionByRetiredRefreshTokenHash_eq
  pg_ListSessionClientIDsByUser_eq
  pg_CreateDeviceGrant_eq pg_GetDeviceGrant_eq pg_MarkDeviceGrantApproved_eq pg_UpdateDeviceGrantPoll_eq
  pg_DeleteExpiredDeviceGrants_eq
  pg_CreateAWSAccount_eq pg_GetAWSAccount_eq pg_UpdateAWSAccount_eq pg_DeleteAWSAccount_eq
  pg_CreateAWSRole_eq pg_GetAWSRole_eq pg_UpdateAWSRole_eq pg_DeleteAWSRole_eq
  pg_CreateAWSRoleAssignment_eq pg_ListAWSRolesForUser_eq pg_AddAWSRevokedUser_eq
  pg_GetExternalID_eq pg_SetExternalID_eq
  pg_CreateSigningKey_eq pg_GetActiveSigningKey_eq pg_DeactivateSigningKey_eq
  pg_CreateIntegration_eq pg_GetIntegration_eq pg_UpdateIntegration_eq
  pg_ListClientVisibility_eq pg_MarkDeviceGrantDenied_eq pg_MarkDeviceGrantRedeemed_eq
  pg_DeleteAWSRoleAssignment_eq pg_DeleteIntegration_eq : pgstore.

#[local] Hint Unfold pg_UpdateUser pg_UpdateUserPassword pg_SetUserMustChangePassword pg_UpdateUserMFAEnabled
  pg_UpdateUserFailedAttempts pg_SetUserActive pg_SetUserSCIMExternalID pg_SetUserAdmin pg_GetUserByEmail
  pg_GetClientByClientID pg_UpdateClient pg_UpdateClientDeviceGrant pg_UpdateClientSecret
  pg_UpdateClientPortalConfig pg_ReplaceClientVisibility pg_ReplaceGroupMembers pg_GetTOTPByUserID
  pg_MarkSessionMFA pg_UpdateSessionActivity pg_ExtendSessionExpiry pg_GetSessionByAccessTokenHash
  pg_GetSessionByRefreshTokenHash pg_GetDeviceGrantByDeviceCodeHash pg_GetDeviceGrantByUserCodeHash
  pg_DeleteExternalID pg_DeleteAWSRevokedUser pg_GetIntegrationByName pg_ListAWSAccounts pg_ListAWSRoles : pgstore.

Lemma one_row_id {A} (r : option A) : one_row ((λ x, x) <$> r) = one_row r.
Proof. by destruct r. Qed.

Lemma pg_run_query_eq {A} fresh now (q : Query A) :
  pg_run_query collation fresh now q db = run_query fresh now q db.
Proof.
  destruct q; cbn [pg_run_query run_query]; unfold reading; autounfold with pgstore; autorewrite with pgstore;
    autorewrite with pgstore_rest;     rewrite ?one_row_id; try reflexivity.
Qed.

End refinement.

(** C34: on a well-formed database every method of the PostgreSQL store, written
    as its SQL statements (conditions evaluated row by row, UNIQUE and foreign
    keys checked, cascades followed), answers and changes the database exactly
    as the interface [run_query] does at the PostgreSQL dialect, and leaves it
    well-formed: so it does along every sequence of calls from the migrated
    database. *)
Theorem postgres_store_equivalent `{UnicodeTables} collation {A} fresh now (q : Query A) db :
  db_wf db →
  pg_run_query collation fresh now q db = @run_query _ (PostgreSQL collation) A fresh now q db ∧
  db_wf (pg_run_query collation fresh now q db).2.
Proof. intros Hwf. rewrite pg_run_query_eq by done. split; [done|]. by apply run_query_wf. Qed.

Lemma postgres_store_equivalent_witness :
  let d := @migrated_db (PostgreSQL String.leb) 0 in
  let q := QDeleteClient portalClientUUID in
  @pg_run_query ascii_tables String.leb _ 7%N 0 q d = @run_query ascii_tables (PostgreSQL String.leb) _ 7%N 0 q d ∧
  db_wf (@pg_run_query ascii_tables String.leb _ 7%N 0 q d).2.
Proof. apply postgres_store_equivalent. apply migrated_db_wf. Defined.
