(* ===== verification/Pkce.v ===== *)
(** * SHA-256, base64url and PKCE

    [verifyPKCE] of [internal/api/oauth2.go] compares a code challenge with
    the unpadded base64url encoding of the SHA-256 digest of the verifier
    (RFC 7636, method S256).  The digest ([crypto/sha256], FIPS 180-4) and the
    encoding ([base64.RawURLEncoding]) are defined here so that the comparison
    evaluates; the encoding is proved to have a left inverse. *)
From S2P Require Import Prelude GoStrings.

Local Open Scope N_scope.

(** ** SHA-256 *)

(** 32-bit words. *)
Definition w32 (x : N) : N := x mod 2 ^ 32.
Definition add32 (x y : N) : N := w32 (x + y).
Definition not32 (x : N) : N := N.lxor x 0xffffffff.
Definition rotr (n x : N) : N := N.lor (N.shiftr x n) (w32 (N.shiftl x (32 - n))).

Definition Ch (x y z : N) : N := N.lxor (N.land x y) (N.land (not32 x) z).
Definition Maj (x y z : N) : N := N.lxor (N.lxor (N.land x y) (N.land x z)) (N.land y z).
Definition Sigma0 (x : N) : N := N.lxor (N.lxor (rotr 2 x) (rotr 13 x)) (rotr 22 x).
Definition Sigma1 (x : N) : N := N.lxor (N.lxor (rotr 6 x) (rotr 11 x)) (rotr 25 x).
Definition sigma0 (x : N) : N := N.lxor (N.lxor (rotr 7 x) (rotr 18 x)) (N.shiftr x 3).
Definition sigma1 (x : N) : N := N.lxor (N.lxor (rotr 17 x) (rotr 19 x)) (N.shiftr x 10).

(** The constants are the first 32 bits of the fractional parts of the cube
    (for the rounds) and square (for the initial state) roots of the first
    primes; they are computed from that description. *)
Definition is_prime (n : N) : bool :=
  forallb (λ d, negb (n mod N.of_nat d =? 0)) (seq 2 (N.to_nat (N.sqrt n) - 1)).

Definition first_primes (k : nat) : list N :=
  take k (filter (λ n, is_prime n = true) (N.of_nat <$> seq 2 312)).

(** The integer cube root of [n], bit by bit from bit [b]. *)
Fixpoint cbrt_from (b : nat) (acc n : N) : N :=
  match b with
  | O => acc
  | S b =>
      let c := acc + 2 ^ N.of_nat b in
      cbrt_from b (if c * c * c <=? n then c else acc) n
  end.

Definition cube_root_bits (p : N) : N := cbrt_from 40 0 (p * 2 ^ 96) mod 2 ^ 32.
Definition square_root_bits (p : N) : N := N.sqrt (p * 2 ^ 64) mod 2 ^ 32.

Definition K256 : list N := Eval vm_compute in cube_root_bits <$> first_primes 64.

Record hash_state : Type := mkH { hA : N; hB : N; hC : N; hD : N; hE : N; hF : N; hG : N; hH : N }.

Definition H0 : hash_state :=
  Eval vm_compute in
    match square_root_bits <$> first_primes 8 with
    | [a; b; c; d; e; f; g; h] => mkH a b c d e f g h
    | _ => mkH 0 0 0 0 0 0 0 0
    end.

(** One round, with the round constant and the schedule word. *)
Definition round (s : hash_state) (kw : N * N) : hash_state :=
  let t1 := add32 (hH s) (add32 (Sigma1 (hE s)) (add32 (Ch (hE s) (hF s) (hG s)) (add32 kw.1 kw.2))) in
  let t2 := add32 (Sigma0 (hA s)) (Maj (hA s) (hB s) (hC s)) in
  mkH (add32 t1 t2) (hA s) (hB s) (hC s) (add32 (hD s) t1) (hE s) (hF s) (hG s).

(** The message schedule, newest word first. *)
Fixpoint extend (n : nat) (ws : list N) : list N :=
  match n with
  | O => ws
  | S n =>
      let w i := nth i ws 0 in
      extend n (add32 (sigma1 (w 1%nat)) (add32 (w 6%nat) (add32 (sigma0 (w 14%nat)) (w 15%nat))) :: ws)
  end.

Definition compress (s : hash_state) (block : list N) : hash_state :=
  let ws := rev (extend 48 (rev block)) in
  let t := fold_left round (zip K256 ws) s in
  mkH (add32 (hA s) (hA t)) (add32 (hB s) (hB t)) (add32 (hC s) (hC t)) (add32 (hD s) (hD t))
      (add32 (hE s) (hE t)) (add32 (hF s) (hF t)) (add32 (hG s) (hG t)) (add32 (hH s) (hH t)).

(** Big-endian words. *)
Fixpoint words (bs : list N) : list N :=
  match bs with
  | a :: b :: c :: d :: bs => a * 2 ^ 24 + b * 2 ^ 16 + c * 2 ^ 8 + d :: words bs
  | _ => []
  end.

Definition bytes_of_word (w : N) : list N :=
  [w / 2 ^ 24 mod 256; w / 2 ^ 16 mod 256; w / 2 ^ 8 mod 256; w mod 256].

(** Padding: 0x80, zeros up to 56 modulo 64, the bit length on 8 bytes. *)
Definition pad (bs : list N) : list N :=
  let len := N.of_nat (length bs) in
  let zeros := N.to_nat ((119 - len mod 64) mod 64) in
  let bits := 8 * len in
  bs ++ [0x80] ++ replicate zeros 0 ++ bytes_of_word (bits / 2 ^ 32) ++ bytes_of_word (bits mod 2 ^ 32).

Fixpoint blocks (fuel : nat) (ws : list N) (s : hash_state) : hash_state :=
  match fuel, ws with
  | S fuel, _ :: _ => blocks fuel (drop 16 ws) (compress s (take 16 ws))
  | _, _ => s
  end.

Definition Sum256 (bs : list N) : list N :=
  let ws := words (pad bs) in
  let s := blocks (length ws) ws H0 in
  concat (bytes_of_word <$> [hA s; hB s; hC s; hD s; hE s; hF s; hG s; hH s]).

(** ** base64url *)

Definition url_alphabet : string := "ABCDEFGHIJKLMNOPQRSTUVWXYZabcdefghijklmnopqrstuvwxyz0123456789-_".

Definition enc_char (v : N) : ascii := default "="%char (String.get (N.to_nat v) url_alphabet).

(** [base64.RawURLEncoding.EncodeToString]. *)
Fixpoint EncodeToString (bs : list N) : string :=
  match bs with
  | a :: b :: c :: bs =>
      String (enc_char (a / 4)) (String (enc_char (a mod 4 * 16 + b / 16))
        (String (enc_char (b mod 16 * 4 + c / 64)) (String (enc_char (c mod 64)) (EncodeToString bs))))
  | [a; b] =>
      String (enc_char (a / 4)) (String (enc_char (a mod 4 * 16 + b / 16))
        (String (enc_char (b mod 16 * 4)) EmptyString))
  | [a] => String (enc_char (a / 4)) (String (enc_char (a mod 4 * 16)) EmptyString)
  | [] => EmptyString
  end.

(** Bytes of a Go string. *)
Fixpoint str_bytes (s : string) : list N :=
  match s with EmptyString => [] | String a s => N_of_ascii a :: str_bytes s end.

(** ** PKCE *)

Definition S256 (verifier : string) : string := EncodeToString (Sum256 (str_bytes verifier)).

Definition verifyPKCE (challenge verifier : string) : bool :=
  if bool_decide (challenge = "") then true else bool_decide (S256 verifier = challenge).

(** The example of RFC 7636, appendix B. *)
Example rfc7636_appendix_B :
  S256 "dBjftJeZ4CVP-mB92K27uhbUJU1p1r_wW1gFWFOEjXk" = "E9Melhoa2OwvFrEMTJguCHaoeK1t8URWbuGJSstw-cM".
Proof. vm_compute. reflexivity. Qed.

(** FIPS 180-4: the digest of the 56-byte message (two blocks). *)
Example fips_two_blocks :
  Sum256 (str_bytes "abcdbcdecdefdefgefghfghighijhijkijkljklmklmnlmnomnopnopq") =
  [0x24; 0x8d; 0x6a; 0x61; 0xd2; 0x06; 0x38; 0xb8; 0xe5; 0xc0; 0x26; 0x93; 0x0c; 0x3e; 0x60; 0x39;
   0xa3; 0x3c; 0xe4; 0x59; 0x64; 0xff; 0x21; 0x67; 0xf6; 0xec; 0xed; 0xd4; 0x19; 0xdb; 0x06; 0xc1].
Proof. vm_compute. reflexivity. Qed.

(** ** The encoding is injective *)

Fixpoint str_index (c : ascii) (s : string) : N :=
  match s with
  | EmptyString => 0
  | String a s => if Ascii.eqb a c then 0 else 1 + str_index c s
  end.

Definition dec_char (c : ascii) : N := str_index c url_alphabet.

(** The left inverse of [EncodeToString]. *)
Fixpoint decode64 (s : string) : list N :=
  match s with
  | String a (String b (String c (String d s))) =>
      let '(w, x, y, z) := (dec_char a, dec_char b, dec_char c, dec_char d) in
      w * 4 + x / 16 :: x mod 16 * 16 + y / 4 :: y mod 4 * 64 + z :: decode64 s
  | String a (String b (String c EmptyString)) =>
      let '(w, x, y) := (dec_char a, dec_char b, dec_char c) in
      [w * 4 + x / 16; x mod 16 * 16 + y / 4]
  | String a (String b EmptyString) => [dec_char a * 4 + dec_char b / 16]
  | _ => []
  end.

Lemma dec_enc_char v : v < 64 → dec_char (enc_char v) = v.
Proof.
  intros Hv.
  assert (Forall (λ n, dec_char (enc_char (N.of_nat n)) = N.of_nat n) (seq 0 64)) as Hall
    by (repeat constructor).
  rewrite Forall_forall in Hall. rewrite <- (N2Nat.id v). apply Hall.
  apply in_seq. lia.
Qed.

Lemma sextet_bounds a b c : a < 256 → b < 256 → c < 256 →
  a / 4 < 64 ∧ a mod 4 * 16 + b / 16 < 64 ∧ b mod 16 * 4 + c / 64 < 64 ∧ c mod 64 < 64 ∧
  a mod 4 * 16 < 64 ∧ b mod 16 * 4 < 64.
Proof.
  intros. pose proof (N.mod_lt a 4). pose proof (N.mod_lt b 16). pose proof (N.mod_lt c 64).
  assert (a / 4 < 64) by (apply N.Div0.div_lt_upper_bound; lia).
  assert (b / 16 < 16) by (apply N.Div0.div_lt_upper_bound; lia).
  assert (c / 64 < 4) by (apply N.Div0.div_lt_upper_bound; lia). lia.
Qed.

Lemma octet_rebuild a b c : a < 256 → b < 256 → c < 256 →
  a / 4 * 4 + (a mod 4 * 16 + b / 16) / 16 = a ∧
  (a mod 4 * 16 + b / 16) mod 16 * 16 + (b mod 16 * 4 + c / 64) / 4 = b ∧
  (b mod 16 * 4 + c / 64) mod 4 * 64 + c mod 64 = c.
Proof.
  intros.
  assert (b / 16 < 16) by (apply N.Div0.div_lt_upper_bound; lia).
  assert (c / 64 < 4) by (apply N.Div0.div_lt_upper_bound; lia).
  rewrite !N.div_add_l, !(N.div_small (b / 16)), !(N.div_small (c / 64)) by lia.
  rewrite !(N.add_comm (_ * 16)), !(N.add_comm (_ * 4)), !N.Div0.mod_add, !(N.mod_small (_ / _)) by lia.
  pose proof (N.div_mod a 4). pose proof (N.div_mod b 16). pose proof (N.div_mod c 64). lia.
Qed.

(** Induction by groups of three. *)
Lemma triple_ind {A} (P : list A → Prop) :
  P [] → (∀ a, P [a]) → (∀ a b, P [a; b]) → (∀ a b c l, P l → P (a :: b :: c :: l)) → ∀ l, P l.
Proof.
  intros H0 H1 H2 H3. fix IH 1. intros [|a [|b [|c l]]]; [exact H0|apply H1|apply H2|].
  apply H3, IH.
Qed.

Lemma decode64_encode bs : Forall (λ b, b < 256) bs → decode64 (EncodeToString bs) = bs.
Proof.
  induction bs as [| a | a b | a b c bs IH] using triple_ind; intros Hb; [done|..];
    rewrite ?Forall_cons_iff in Hb; destruct_and?.
  - destruct (sextet_bounds a 0 0) as (? & _ & _ & _ & ? & _); [lia..|].
    destruct (octet_rebuild a 0 0) as (? & _); [lia..|].
    cbn [EncodeToString decode64]. rewrite !dec_enc_char by done.
    rewrite N.Div0.div_0_l, N.add_0_r in *. by f_equal.
  - destruct (sextet_bounds a b 0) as (? & ? & _ & _ & _ & ?); [lia..|].
    destruct (octet_rebuild a b 0) as (? & ? & _); [lia..|].
    cbn [EncodeToString decode64]. rewrite !dec_enc_char by done.
    rewrite !N.Div0.div_0_l, !N.add_0_r in *. by repeat f_equal.
  - destruct (sextet_bounds a b c) as (? & ? & ? & ? & _ & _); [done..|].
    destruct (octet_rebuild a b c) as (? & ? & ?); [done..|].
    cbn [EncodeToString decode64]. rewrite !dec_enc_char by done. rewrite IH by done. by repeat f_equal.
Qed.

Lemma Sum256_bytes bs : Forall (λ b, b < 256) (Sum256 bs).
Proof.
  unfold Sum256, bytes_of_word. simpl. repeat constructor; by apply N.mod_lt.
Qed.

(** a non-empty code challenge binds the verifier: two verifiers that
    [verifyPKCE] accepts for it have the same SHA-256 digest (and the challenge
    is its unpadded base64url encoding); only the empty challenge accepts every
    verifier. *)
Theorem pkce_binding challenge v1 v2 :
  verifyPKCE challenge v1 = true → verifyPKCE challenge v2 = true →
  (challenge = "" ∨ Sum256 (str_bytes v1) = Sum256 (str_bytes v2) ∧ challenge = S256 v1).
Proof.
  unfold verifyPKCE. case_bool_decide as Hc; [by left|].
  intros H1%bool_decide_eq_true H2%bool_decide_eq_true. right. split; [|done].
  rewrite <- (decode64_encode (Sum256 (str_bytes v1))) by apply Sum256_bytes.
  rewrite <- (decode64_encode (Sum256 (str_bytes v2))) by apply Sum256_bytes.
  unfold S256 in *. by rewrite H1, H2.
Qed.

Lemma pkce_binding_witness :
  verifyPKCE "E9Melhoa2OwvFrEMTJguCHaoeK1t8URWbuGJSstw-cM" "dBjftJeZ4CVP-mB92K27uhbUJU1p1r_wW1gFWFOEjXk" = true ∧
  ("E9Melhoa2OwvFrEMTJguCHaoeK1t8URWbuGJSstw-cM" = "" ∨
   Sum256 (str_bytes "dBjftJeZ4CVP-mB92K27uhbUJU1p1r_wW1gFWFOEjXk")
   = Sum256 (str_bytes "dBjftJeZ4CVP-mB92K27uhbUJU1p1r_wW1gFWFOEjXk") ∧
   "E9Melhoa2OwvFrEMTJguCHaoeK1t8URWbuGJSstw-cM" = S256 "dBjftJeZ4CVP-mB92K27uhbUJU1p1r_wW1gFWFOEjXk").
Proof.
  split; [vm_compute; reflexivity|].
  apply (pkce_binding _ "dBjftJeZ4CVP-mB92K27uhbUJU1p1r_wW1gFWFOEjXk"); vm_compute; reflexivity.
Defined.
