(* ===== verification/Prog.v ===== *)
(** * Handlers as programs over effects

    A request handler is a tree of the calls it makes outside its own Go code:
    the store, the clock, the random sources, the audit journal, the token
    signer, the ciphers, the WebAuthn library, outgoing HTTP, AWS (STS and
    IAM), the registry of provisioning targets and the back-channel pushes.
    [Op] lists those calls, [prog] is the tree.  Two readings of a tree:

    - [exec] runs it alone against an environment and [run_pool] interleaves
      any number of handlers call by call, on one shared [World] (database,
      journal, outbox, registry, IAM), with calls that may fail before or
      after they take effect and a journal that may refuse entries;
    - [path] is the set of call sequences a handler can make for arbitrary
      answers, in which properties of all executions are proved.  [run_pool_path]
      connects the two: what a thread did in a concurrent run is a path of its
      program. *)
From S2P Require Import Prelude GoStrings Model Dialect Tables SqliteUsers SqliteTokens SqliteAws Store.

(** ** Data the calls carry *)

(** Values in the metadata of an audit record. *)
Inductive MetaVal : Type :=
| MStr (s : string)
| MStrs (l : list string)
| MBool (b : bool)
| MInt (z : Z).

(** [audit.Entry]; [Metadata] is kept as the map the publisher serialises. *)
Record Entry : Type := mkEntry {
  ent_ID : uuid;
  ent_Action : string;
  ent_UserID : option uuid;
  ent_UserEmail : string;
  ent_UserName : string;
  ent_ClientID : option uuid;
  ent_ClientName : string;
  ent_IP : string;
  ent_UserAgent : string;
  ent_Metadata : list (string * MetaVal);
  ent_OccurredAt : Z;
}.

(** The arguments of the signer's [MintIDToken]. *)
Record IDClaims : Type := mkIDClaims {
  idc_Sub : uuid;
  idc_Aud : string;
  idc_Email : string;
  idc_Name : string;
  idc_Nonce : string;
  idc_Scopes : list string;
  idc_MFA : bool;
  idc_AuthTime : Z;
  idc_SID : uuid;
  idc_Groups : list string;
}.

(** The arguments of [MintFederationToken]. *)
Record FedClaims : Type := mkFedClaims {
  fc_Sub : uuid;
  fc_Aud : string;
  fc_Email : string;
  fc_Name : string;
  fc_Groups : list string;
  fc_AMR : list string;
  fc_AuthTime : Z;
  fc_TTL : Z;
  fc_Tags : list (string * string);
}.

(** The arguments of [MintLogoutToken]. *)
Record LogoutClaims : Type := mkLogoutClaims {
  lc_Aud : string;
  lc_Sub : uuid;
  lc_SID : string;
  lc_JTI : uuid;
  lc_IssuedAt : Z;
}.

(** Work handed to a goroutine: one back-channel logout push per relying
    party. *)
Inductive Outbound : Type :=
| PushLogout (clientDBID : uuid) (logoutURI clientID : string) (sub : uuid) (sid : string).

(** A struct of the model handed to a page's template; [None] is a nil pointer. *)
Inductive ModelVal : Type :=
| VUser (u : option User)
| VClient (c : option Client)
| VGroup (g : SCIMGroup)
| VCredential (c : WebAuthnCredential)
| VIntegration (i : AppIntegration)
| VAccount (a : AWSAccount)
| VRole (r : AWSRole)
| VAssignment (a : AWSRoleAssignment).

(** A [url.URL]; [url_Hostname] is its method of that name. *)
Record URL : Type := mkURL {
  url_Scheme : string;
  url_Opaque : string;
  url_User : string;                    (* User.String() *)
  url_Hostname : string;                (* the host without its port *)
  url_Path : string;
  url_RawPath : string;
  url_Host : string;
  url_RawQuery : string;
  url_Fragment : string;
}.

(** JSON documents and template data as the code builds them, before encoding;
    a [time.Time] is kept as such, and [JURL] is the text of a parsed URL in
    whose query the parameters were set. *)
Inductive JVal : Type :=
| JModel (m : ModelVal)
| JStr (s : string)
| JInt (z : Z)
| JBool (b : bool)
| JTime (t : Z)
| JStrs (l : list string)
| JURL (u : URL) (params : list (string * string))
| JArr (l : list JVal)
| JObj (fields : list (string * JVal)).

(** An outgoing HTTP request; form parameters before encoding. *)
Inductive ReqBody : Type :=
| NoReqBody
| JsonBody (v : JVal)
| FormBody (kvs : list (string * string)).

Record HTTPRequest : Type := mkHTTPRequest {
  hr_Method : string;
  hr_URL : string;
  hr_Bearer : string;                   (* empty: no Authorization header *)
  hr_Body : ReqBody;
}.

Record HTTPResponse : Type := mkHTTPResponse { hs_Status : Z; hs_Body : string }.

(** [sts.AssumeRoleWithWebIdentityInput] and the region of the endpoint. *)
Record AssumeRoleInput : Type := mkAssumeRoleInput {
  ar_Region : string;
  ar_RoleArn : string;
  ar_RoleSessionName : string;
  ar_WebIdentityToken : string;
  ar_DurationSeconds : Z;
}.

Record Credentials : Type := mkCredentials {
  cr_AccessKeyId : string;
  cr_SecretAccessKey : string;
  cr_SessionToken : string;
  cr_Expiration : option Z;
}.

(** The policy document of [BuildRevocationPolicy] and the two IAM calls made
    with it. *)
Record PolicyStatement : Type := mkPolicyStatement {
  ps_Sid : string;
  ps_Effect : string;
  ps_Action : list string;
  ps_Resource : list string;
  ps_StringEquals : list (string * list string);
}.

Record PolicyDoc : Type := mkPolicyDoc { pd_Version : string; pd_Statement : list PolicyStatement }.

Inductive IAMCall : Type :=
| PutRolePolicy (roleName policyName : string) (doc : PolicyDoc)
| DeleteRolePolicy (roleName policyName : string).

(** A provisioning target of the registry: [scim.Provisioner] (cache key, name,
    base URL, bearer token) or [awsfed.Provisioner] (name). *)
Inductive Target : Type :=
| TScim (provider name baseURL token : string)
| TAwsFed (name : string).

(** What the WebAuthn library reports of a parsed assertion and of a verified
    credential. *)
Record WaAssertion : Type := mkWaAssertion { wa_RawID : string; wa_HasBackupEligible : bool }.

Record WaCredential : Type := mkWaCredential {
  wc_ID : string;
  wc_PublicKey : string;
  wc_AAGUID : string;
  wc_SignCount : Z;
  wc_BackupEligible : bool;
  wc_BackupState : bool;
  wc_CloneWarning : bool;
}.

(** [mfa.WAUser], the user as the WebAuthn library sees it. *)
Record WAUser : Type := mkWAUser {
  wu_ID : uuid;
  wu_Name : string;
  wu_DisplayName : string;
  wu_Credentials : list WaCredential;
}.

(** ** Effects *)

Inductive Op : Type → Type :=
| OpDb {A} (q : Query A) : Op (result A)
| OpNow : Op Z
| OpUUID : Op uuid
| OpRawToken : Op (result string)
| OpRand (n : nat) : Op (result (list N))
| OpHashPassword (pw : string) : Op (result string)
| OpTOTPKey (account : string) : Op (result (string * string))   (* secret, otpauth URL *)
| OpEncrypt (plain : string) : Op (result (string * string))     (* ciphertext, wrapped key *)
| OpDecrypt (encDEK encSecret : string) : Op (result string)
| OpValidateTOTP (secret code : string) : Op bool
| OpAppend (e : Entry) : Op (result unit)
| OpMintIDToken (c : IDClaims) : Op (result string)
| OpMintFederation (c : FedClaims) : Op (result string)
| OpMintLogout (c : LogoutClaims) : Op (result string)
| OpRSAKey : Op (result string)                                  (* a private key *)
| OpSeal (plain : string) : Op (result string)
| OpWaBegin (register : bool) (user : WAUser)
    : Op (result (string * string))                              (* options, session data *)
| OpWaRegister (user : WAUser) (session body : string)
    : Op (result WaCredential)
| OpWaValidate (user : WAUser) (session : string) (a : WaAssertion)
    : Op (result WaCredential)
| OpHTTP (r : HTTPRequest) : Op (result HTTPResponse)
| OpAssumeRole (i : AssumeRoleInput) : Op (result (option Credentials))
| OpIAM (c : IAMCall) : Op (result unit)
| OpSnapshot : Op (list Target)
| OpSetTargets (ts : list Target) : Op unit
| OpGo (o : Outbound) : Op unit.

Inductive prog (A : Type) : Type :=
| Ret (a : A)
| Vis {X} (op : Op X) (k : X → prog A).
Arguments Ret {A} a.
Arguments Vis {A X} op k.

Fixpoint bind {A B} (p : prog A) (f : A → prog B) : prog B :=
  match p with
  | Ret a => f a
  | Vis op k => Vis op (λ x, bind (k x) f)
  end.

Definition do_op {X} (op : Op X) : prog X := Vis op Ret.

Declare Scope prog_scope.
Delimit Scope prog_scope with prog.
Bind Scope prog_scope with prog.

(** [x <- p ;; q] is a call; [try x <- p else e => h ;; q] is the Go idiom
    [x, err := p; if err != nil { h }]; [when b return h ;; q] is an early return. *)
Notation "x <- p ;; q" := (bind p (λ x, q))
  (at level 60, p at level 59, right associativity) : prog_scope.
Notation "p ;;; q" := (bind p (λ _, q))
  (at level 60, right associativity) : prog_scope.
Notation "'try' x <- p 'else' e => h ;; q" :=
  (bind p (λ r, match r with Ok x => q | Err e => h end))
  (at level 60, x name, p at level 59, e name, h at level 59, right associativity) : prog_scope.
Notation "'when' b 'return' h ;; q" := (if b then h else q)
  (at level 60, b at level 59, h at level 59, right associativity, only parsing) : prog_scope.

Definition db {A} (q : Query A) : prog (result A) := do_op (OpDb q).
Definition now : prog Z := do_op OpNow.
Definition newUUID : prog uuid := do_op OpUUID.
Definition GenerateRawToken : prog (result string) := do_op OpRawToken.
Definition HashPassword (pw : string) : prog (result string) := do_op (OpHashPassword pw).

(** ** The environment *)

(** A call may fail before it takes effect, or after (the answer is lost).  The
    stores read the members of a group by a statement of its own and ignore its
    error ([g.Members, _ = s.groupMembers(...)]), so a read of groups may also
    succeed with members missing: [FaultMembers kept] is the failure of the
    member query of the groups [g] where [kept g] is a number, the rows that
    arrived before it failed. *)
Inductive fault : Set :=
| NoFault
| FaultBefore
| FaultAfter
| FaultMembers (kept : uuid → option nat).

Definition lose_members (kept : uuid → option nat) (g : SCIMGroup) : SCIMGroup :=
  match kept (grp_ID g) with
  | None => g
  | Some n => mkSCIMGroup (grp_ID g) (grp_DisplayName g) (take n (grp_Members g)) (grp_CreatedAt g) (grp_UpdatedAt g)
  end.

(** The two calls that read members. *)
Definition reads_members {A} (q : Query A) : bool :=
  match q with QGetGroupByID _ | QListGroups => true | _ => false end.

(** What reaches the caller of a store call whose member queries fail so. *)
Definition members_lost (kept : uuid → option nat) {A} (q : Query A) (r : result A) : result A :=
  match q in Query A return result A → result A with
  | QGetGroupByID _ => λ r, match r with Ok g => Ok (lose_members kept g) | Err e => Err e end
  | QListGroups => λ r, match r with Ok gs => Ok (lose_members kept <$> gs) | Err e => Err e end
  | _ => λ r, r
  end r.

(** What the outside answers to the [n]-th call of an execution. *)
Record Env : Type := {
  env_now : nat → Z;
  env_uuid : nat → uuid;
  env_token : nat → result string;
  env_rand : nat → nat → result (list N);
  env_pwhash : nat → string → result string;
  env_totpkey : nat → string → result (string * string);
  env_encrypt : nat → string → result (string * string);
  env_decrypt : nat → string → string → result string;
  env_totp : nat → string → string → bool;
  env_mint : nat → IDClaims → result string;
  env_fedmint : nat → FedClaims → result string;
  env_logoutmint : nat → LogoutClaims → result string;
  env_rsakey : nat → result string;
  env_seal : nat → string → result string;
  env_wabegin : nat → bool → WAUser → result (string * string);
  env_waregister : nat → WAUser → string → string → result WaCredential;
  env_wavalidate : nat → WAUser → string → WaAssertion → result WaCredential;
  env_http : nat → HTTPRequest → result HTTPResponse;
  env_assume : nat → AssumeRoleInput → result (option Credentials);
  env_fault : nat → fault;
}.

(** State outside the database: the registry's targets and, per role and policy
    name, the inline policies of the AWS accounts. *)
Record Outside : Type := mkOutside {
  o_targets : list Target;
  o_iam : gmap (string * string) PolicyDoc;
}.

Definition step_iam (c : IAMCall) (m : gmap (string * string) PolicyDoc)
    : result unit * gmap (string * string) PolicyDoc :=
  match c with
  | PutRolePolicy r p doc => (Ok tt, <[(r, p) := doc]> m)
  | DeleteRolePolicy r p =>
      match m !! (r, p) with
      | Some _ => (Ok tt, delete (r, p) m)
      | None => (Err ErrNotFound, m)     (* NoSuchEntityException *)
      end
  end.

Record World : Type := mkWorld {
  w_db : DB;
  w_step : nat;
  w_journal : list Entry;
  w_outbox : list Outbound;
  w_outside : Outside;
}.

Definition tick (w : World) : World :=
  mkWorld (w_db w) (S (w_step w)) (w_journal w) (w_outbox w) (w_outside w).

Definition step_op `{UnicodeTables} {dialect : Dialect} (env : Env) {X} (op : Op X) (w : World) : X * World :=
  let n := w_step w in
  match op in Op X return X * World with
  | OpDb q =>
      let '(r, d) := run_query (env_uuid env n) (env_now env n) q (w_db w) in
      match env_fault env n with
      | NoFault => (r, mkWorld d (S n) (w_journal w) (w_outbox w) (w_outside w))
      | FaultBefore => (Err ErrOther, tick w)
      | FaultAfter => (Err ErrOther, mkWorld d (S n) (w_journal w) (w_outbox w) (w_outside w))
      | FaultMembers kept =>
          (members_lost kept q r, mkWorld d (S n) (w_journal w) (w_outbox w) (w_outside w))
      end
  | OpNow => (env_now env n, tick w)
  | OpUUID => (env_uuid env n, tick w)
  | OpRawToken => (env_token env n, tick w)
  | OpRand k => (env_rand env n k, tick w)
  | OpHashPassword pw => (env_pwhash env n pw, tick w)
  | OpTOTPKey a => (env_totpkey env n a, tick w)
  | OpEncrypt a => (env_encrypt env n a, tick w)
  | OpDecrypt a b => (env_decrypt env n a b, tick w)
  | OpValidateTOTP s c => (env_totp env n s c, tick w)
  | OpAppend e =>
      let w' := mkWorld (w_db w) (S n) (w_journal w ++ [e]) (w_outbox w) (w_outside w) in
      match env_fault env n with
      | NoFault | FaultMembers _ => (Ok tt, w')
      | FaultBefore => (Err ErrOther, tick w)
      | FaultAfter => (Err ErrOther, w')
      end
  | OpMintIDToken c => (env_mint env n c, tick w)
  | OpMintFederation c => (env_fedmint env n c, tick w)
  | OpMintLogout c => (env_logoutmint env n c, tick w)
  | OpRSAKey => (env_rsakey env n, tick w)
  | OpSeal s => (env_seal env n s, tick w)
  | OpWaBegin b u => (env_wabegin env n b u, tick w)
  | OpWaRegister u s b => (env_waregister env n u s b, tick w)
  | OpWaValidate u s a => (env_wavalidate env n u s a, tick w)
  | OpHTTP r => (env_http env n r, tick w)
  | OpAssumeRole i => (env_assume env n i, tick w)
  | OpIAM c =>
      let '(r, m) := step_iam c (o_iam (w_outside w)) in
      let w' := mkWorld (w_db w) (S n) (w_journal w) (w_outbox w) (mkOutside (o_targets (w_outside w)) m) in
      match env_fault env n with
      | NoFault | FaultMembers _ => (r, w')
      | FaultBefore => (Err ErrOther, tick w)
      | FaultAfter => (Err ErrOther, w')
      end
  | OpSnapshot => (o_targets (w_outside w), tick w)
  | OpSetTargets ts =>
      (tt, mkWorld (w_db w) (S n) (w_journal w) (w_outbox w) (mkOutside ts (o_iam (w_outside w))))
  | OpGo o => (tt, mkWorld (w_db w) (S n) (w_journal w) (w_outbox w ++ [o]) (w_outside w))
  end.

Fixpoint exec `{UnicodeTables} {dialect : Dialect} (env : Env) {A} (p : prog A) (w : World) : A * World :=
  match p with
  | Ret a => (a, w)
  | Vis op k => let '(x, w') := step_op env op w in exec env (k x) w'
  end.

(** ** Traces *)

(** A call and its answer. *)
Inductive event : Type :=
| Ev {X} (op : Op X) (x : X).

(** The call sequences a program can make, whatever the answers are. *)
Fixpoint path {A} (p : prog A) (tr : list event) (a : A) : Prop :=
  match p with
  | Ret b => tr = [] ∧ a = b
  | Vis op k => ∃ x tr', tr = Ev op x :: tr' ∧ path (k x) tr' a
  end.

Lemma path_bind {A B} (p : prog A) (f : A → prog B) tr b :
  path (bind p f) tr b ↔ ∃ tr1 tr2 a, tr = tr1 ++ tr2 ∧ path p tr1 a ∧ path (f a) tr2 b.
Proof.
  revert tr. induction p as [a|X op k IH]; intros tr; simpl.
  - split; [intros ?; exists [], tr, a; by eauto|]. by intros (tr1 & tr2 & a' & -> & [-> ->] & ?).
  - split.
    + intros (x & tr' & -> & (tr1 & tr2 & a & -> & ? & ?)%IH).
      exists (Ev op x :: tr1), tr2, a. split_and!; eauto.
    + intros (tr1 & tr2 & a & -> & (x & tr' & -> & ?) & ?). exists x, (tr' ++ tr2).
      split; [done|]. apply IH. eauto 10.
Qed.

Lemma bind_assoc {A B C} (p : prog A) (f : A → prog B) (g : B → prog C) tr c :
  path (bind (bind p f) g) tr c ↔ path (bind p (λ a, bind (f a) g)) tr c.
Proof.
  rewrite !path_bind. split.
  - intros (tr1 & tr2 & b & -> & (tr3 & tr4 & a & -> & ? & ?)%path_bind & ?).
    exists tr3, (tr4 ++ tr2), a. rewrite path_bind. rewrite <- app_assoc. eauto 10.
  - intros (tr1 & tr2 & a & -> & ? & (tr3 & tr4 & b & -> & ? & ?)%path_bind).
    exists (tr1 ++ tr3), tr4, b. rewrite path_bind. rewrite app_assoc. eauto 10.
Qed.

(** Every call a program can make satisfies [P], whatever was answered so far. *)
Fixpoint calls (P : event → Prop) {A} (p : prog A) : Prop :=
  match p with
  | Ret _ => True
  | Vis op k => ∀ x, P (Ev op x) ∧ calls P (k x)
  end.

Lemma calls_path (P : event → Prop) {A} (p : prog A) tr a : calls P p → path p tr a → Forall P tr.
Proof.
  revert tr. induction p as [b|X op k IH]; intros tr; simpl; [by intros _ [-> _]|].
  intros Hc (x & tr' & -> & Ht). destruct (Hc x) as [Hx Hk]. constructor; [done|]. by apply (IH x).
Qed.

Lemma calls_bind (P : event → Prop) {A B} (p : prog A) (f : A → prog B) :
  calls P p → (∀ a, calls P (f a)) → calls P (bind p f).
Proof.
  intros Hp Hf. induction p as [b|X op k IH]; simpl; [done|].
  intros x. destruct (Hp x) as [Hx Hk]. auto.
Qed.

Lemma calls_impl (P Q : event → Prop) {A} (p : prog A) : (∀ e, P e → Q e) → calls P p → calls Q p.
Proof. intros HPQ. induction p as [b|X op k IH]; simpl; [done|]. intros H x. destruct (H x). eauto. Qed.

(** Lemmas about the calls of sub-programs. *)
Create HintDb calls.

(** Prove [calls P p] by walking through the program: [side] is tried on what
    is to be shown of each call. *)
Ltac solve_calls_with side :=
  repeat first
    [ progress intros
    | exact I
    | solve [eauto with calls nocore]
    | match goal with
      | |- calls _ (Ret _) => exact I
      | |- calls _ (bind (bind _ _) _) => apply calls_bind
      | |- calls _ (bind (if ?b then _ else _) _) => destruct b
      | |- calls _ (bind (match ?x with _ => _ end) _) => destruct x
      | |- calls _ (bind _ _) => apply calls_bind
      | |- calls _ (if ?b then _ else _) => destruct b
      | |- calls _ (match ?x with _ => _ end) => destruct x
      | |- calls _ (let _ := _ in _) => cbv zeta
      | |- calls _ (do_op _) => intros ?; split; [side|exact I]
      | |- calls _ (db _) => intros ?; split; [side|exact I]
      | |- calls _ now => intros ?; split; [side|exact I]
      | |- calls _ newUUID => intros ?; split; [side|exact I]
      | |- calls _ GenerateRawToken => intros ?; split; [side|exact I]
      | |- calls _ (HashPassword _) => intros ?; split; [side|exact I]
      | |- calls _ (Vis _ _) => intros ?; split; [side|]
      end ].
Ltac solve_calls := solve_calls_with ltac:(done).

(** ** Concurrent executions *)

(** The shared world, the threads (one handler each) and the log of the calls
    made so far, with the thread that made each. *)
Record pool (A : Type) : Type := mkPool {
  p_world : World;
  p_threads : list (prog A);
  p_log : list (nat * event);
}.
Arguments mkPool {A} _ _ _.
Arguments p_world {A} _.
Arguments p_threads {A} _.
Arguments p_log {A} _.

(** Thread [i] makes its next call. *)
Definition pool_step `{UnicodeTables} {dialect : Dialect} (env : Env) {A} (i : nat) (c : pool A) : pool A :=
  match p_threads c !! i with
  | Some (Vis op k) =>
      let '(x, w') := step_op env op (p_world c) in
      mkPool w' (<[i := k x]> (p_threads c)) (p_log c ++ [(i, Ev op x)])
  | _ => c
  end.

(** Any schedule: the list of the threads' turns. *)
Definition run_pool `{UnicodeTables} {dialect : Dialect} (env : Env) {A} (sched : list nat) (c : pool A) : pool A :=
  fold_left (λ c i, pool_step env i c) sched c.

(** The calls thread [i] made. *)
Definition thread_log (i : nat) (log : list (nat * event)) : list event :=
  (filter (λ e, e.1 = i) log).*2.

Lemma thread_log_app i l1 l2 : thread_log i (l1 ++ l2) = thread_log i l1 ++ thread_log i l2.
Proof. unfold thread_log. by rewrite list.filter_app, fmap_app. Qed.

(** A partial path: the calls made so far, and what is left of the program. *)
Fixpoint prefix_path {A} (p : prog A) (tr : list event) (q : prog A) {struct tr} : Prop :=
  match tr with
  | [] => p = q
  | e :: tr' =>
      match p with
      | Ret _ => False
      | Vis op k => ∃ x, e = Ev op x ∧ prefix_path (k x) tr' q
      end
  end.

Lemma prefix_path_snoc {A X} (p : prog A) tr (op : Op X) k x :
  prefix_path p tr (Vis op k) → prefix_path p (tr ++ [Ev op x]) (k x).
Proof.
  revert p. induction tr as [|e tr IH]; intros p; simpl.
  - intros ->. by exists x.
  - destruct p as [|Y op' k']; [done|]. intros (y & -> & ?). exists y. auto.
Qed.

Lemma prefix_path_done {A} (p : prog A) tr a : prefix_path p tr (Ret a) → path p tr a.
Proof.
  revert p. induction tr as [|e tr IH]; intros p; simpl; [by intros ->|].
  destruct p as [|X op k]; [done|]. intros (x & -> & ?). simpl. eauto.
Qed.

Section pool.
  Context `{UnicodeTables} {dialect : Dialect} (env : Env) {A : Type}.

Lemma run_pool_app s1 s2 (c : pool A) : run_pool env (s1 ++ s2) c = run_pool env s2 (run_pool env s1 c).
Proof. apply fold_left_app. Qed.

(** Invariants of concurrent executions. *)
Lemma run_pool_ind (I : pool A → Prop) sched c :
  (∀ i c, I c → I (pool_step env i c)) → I c → I (run_pool env sched c).
Proof. intros Hs. revert c. induction sched as [|i s IH]; intros c Hc; simpl; auto. Qed.

(** What a thread has done is a (partial) path of its program. *)
Lemma run_pool_prefix sched (c : pool A) i p q :
  p_threads c !! i = Some p → p_log c = [] →
  p_threads (run_pool env sched c) !! i = Some q →
  prefix_path p (thread_log i (p_log (run_pool env sched c))) q.
Proof.
  intros Hp Hl.
  cut (∃ q, p_threads (run_pool env sched c) !! i = Some q
            ∧ prefix_path p (thread_log i (p_log (run_pool env sched c))) q); [naive_solver|].
  apply (run_pool_ind (λ c', ∃ q, p_threads c' !! i = Some q ∧ prefix_path p (thread_log i (p_log c')) q));
    [|exists p; by rewrite Hl].
  intros j c' (q' & Hq' & Hpre). unfold pool_step.
  destruct (p_threads c' !! j) as [[|X op k]|] eqn:Hj; [by eauto| |by eauto].
  destruct (step_op env op (p_world c')) as [x w'] eqn:Hs. simpl.
  rewrite thread_log_app. destruct (decide (i = j)) as [->|Hij].
  - exists (k x). rewrite list_lookup_insert_eq by (by eapply lookup_lt_Some). split; [done|].
    unfold thread_log at 2. rewrite filter_cons_True by done. simpl.
    simplify_eq. by apply prefix_path_snoc.
  - exists q'. rewrite list_lookup_insert_ne by done. split; [done|].
    unfold thread_log at 2. rewrite filter_cons_False by done. simpl. by rewrite app_nil_r.
Qed.

(** A thread that has returned followed a path of its program. *)
Lemma run_pool_path sched (c : pool A) i p a :
  p_threads c !! i = Some p → p_log c = [] →
  p_threads (run_pool env sched c) !! i = Some (Ret a) →
  path p (thread_log i (p_log (run_pool env sched c))) a.
Proof. intros. apply prefix_path_done. by eapply run_pool_prefix. Qed.

(** No thread disappears. *)
Lemma run_pool_thread sched (c : pool A) i p :
  p_threads c !! i = Some p → ∃ q, p_threads (run_pool env sched c) !! i = Some q.
Proof.
  intros Hi. apply (run_pool_ind (λ c, ∃ q, p_threads c !! i = Some q)); [|by exists p].
  intros j c' [q Hq]. unfold pool_step. destruct (p_threads c' !! j) as [[|X op k]|] eqn:Hj; [by eauto| |by eauto].
  destruct (step_op env op (p_world c')) as [x w']. cbn [p_threads].
  destruct (decide (i = j)) as [->|Hij]; [|rewrite list_lookup_insert_ne by done; by eauto].
  rewrite list_lookup_insert_eq by (by eapply lookup_lt_Some). by eauto.
Qed.

End pool.

(** The calls of a handler that runs alone. *)
Fixpoint trace `{UnicodeTables} {dialect : Dialect} (env : Env) {A} (p : prog A) (w : World) : list event :=
  match p with
  | Ret _ => []
  | Vis op k => Ev op (step_op env op w).1 :: trace env (k (step_op env op w).1) (step_op env op w).2
  end.

Lemma exec_path `{UnicodeTables} {dialect : Dialect} env {A} (p : prog A) w : path p (trace env p w) (exec env p w).1.
Proof.
  revert w. induction p as [a|X op k IH]; intros w; simpl; [done|].
  eexists _, _. split; [done|]. destruct (step_op env op w) as [x w']. apply IH.
Qed.

(** ** Sequential executions without failures *)

Definition reliable (env : Env) : Prop := ∀ n, env_fault env n = NoFault.

Section exec.
  Context `{UnicodeTables} {dialect : Dialect} (env : Env).

Lemma exec_bind {A B} (p : prog A) (f : A → prog B) w :
  exec env (bind p f) w = exec env (f (exec env p w).1) (exec env p w).2.
Proof.
  revert w. induction p as [a|X op k IH]; intros w; simpl; [done|].
  destruct (step_op env op w) as [x w']. apply IH.
Qed.

(** A store call of a reliable environment. *)
Lemma exec_db {A B} (q : Query A) (f : result A → prog B) w :
  reliable env →
  exec env (bind (db q) f) w =
    exec env (f (run_query (env_uuid env (w_step w)) (env_now env (w_step w)) q (w_db w)).1)
      (mkWorld (run_query (env_uuid env (w_step w)) (env_now env (w_step w)) q (w_db w)).2
         (S (w_step w)) (w_journal w) (w_outbox w) (w_outside w)).
Proof.
  intros Hr. simpl. rewrite Hr. by destruct (run_query _ _ q (w_db w)).
Qed.

Lemma exec_now {B} (f : Z → prog B) w :
  exec env (bind now f) w = exec env (f (env_now env (w_step w))) (tick w).
Proof. done. Qed.

End exec.

(** ** Weakest preconditions

    What holds of the answer and the world a program leaves when it runs alone;
    the rules forget all of the world but its database, and programs that keep a
    view of the database are stepped over. *)

Section wp.
  Context `{UnicodeTables} {dialect : Dialect} (env : Env).

Definition wp {A} (p : prog A) (Q : A → World → Prop) (w : World) : Prop :=
  Q (exec env p w).1 (exec env p w).2.

Lemma wp_ret {A} (a : A) (Q : A → World → Prop) w : Q a w → wp (Ret a) Q w.
Proof. done. Qed.

Lemma wp_mono {A} (p : prog A) (P Q : A → World → Prop) w : wp p P w → (∀ a w', P a w' → Q a w') → wp p Q w.
Proof. unfold wp. auto. Qed.

Lemma wp_bind {A B} (p : prog A) (f : A → prog B) Q w : wp p (λ a, wp (f a) Q) w → wp (bind p f) Q w.
Proof. unfold wp. by rewrite exec_bind. Qed.

Lemma wp_db {A B} (q : Query A) (f : result A → prog B) Q w :
  reliable env →
  (∀ w' u t, w_db w' = (run_query u t q (w_db w)).2 → wp (f (run_query u t q (w_db w)).1) Q w') →
  wp (bind (db q) f) Q w.
Proof. intros Hr Hw. unfold wp. rewrite exec_db by done. by apply Hw. Qed.

(** The call leaves a view of the database as it is. *)
Definition keeps {V} (view : DB → V) (e : event) : Prop :=
  match e with Ev (OpDb q) _ => ∀ u t d, view (run_query u t q d).2 = view d | _ => True end.

Lemma exec_keeps {A V} (view : DB → V) (p : prog A) w :
  calls (keeps view) p → view (w_db (exec env p w).2) = view (w_db w).
Proof.
  revert w. induction p as [a|X op k IH]; intros w; [done|]. cbn [calls exec]. intros Hc.
  destruct (step_op env op w) as [x w'] eqn:Hs. destruct (Hc x) as [Hk Hkx]. rewrite (IH x w' Hkx). clear IH Hkx Hc.
  destruct op; cbn [step_op] in Hs; try (by simplify_eq).
  - specialize (Hk (env_uuid env (w_step w)) (env_now env (w_step w)) (w_db w)).
    destruct (run_query _ _ q (w_db w)) as [r d]. destruct (env_fault env (w_step w)); by simplify_eq/=.
  - destruct (env_fault env (w_step w)); by simplify_eq/=.
  - destruct (step_iam c _) as [r m]. destruct (env_fault env (w_step w)); by simplify_eq/=.
Qed.

Lemma wp_keeps {A B V} (view : DB → V) (p : prog A) (f : A → prog B) Q w :
  calls (keeps view) p →
  (∀ a w', a = (exec env p w).1 → view (w_db w') = view (w_db w) → wp (f a) Q w') → wp (bind p f) Q w.
Proof. intros Hc Hw. apply wp_bind. apply Hw; [done|]. by apply exec_keeps. Qed.

(** A call to something other than the store. *)
Lemma wp_outside {A B} (p : prog A) (f : A → prog B) Q w :
  calls (keeps (λ d, d)) p →
  (∀ a w', a = (exec env p w).1 → w_db w' = w_db w → wp (f a) Q w') → wp (bind p f) Q w.
Proof. apply (wp_keeps (λ d, d)). Qed.

End wp.

(** ** Reasoning about paths *)

(** Take a path apart: calls, returns, and the branches in between.  The
    sub-programs whose [simpl never] is set are left for their own lemmas. *)
Ltac path_step H :=
  lazymatch type of H with
  | path (Ret _) _ _ => destruct H as [-> H]
  | path (Vis _ _) _ _ => let x := fresh "x" in let tr := fresh "tr" in destruct H as (x & tr & -> & H)
  | path (if ?b then _ else _) _ _ => let E := fresh "Hb" in destruct b eqn:E
  | path (match ?x with _ => _ end) _ _ =>
      tryif is_var x then destruct x else (let E := fresh "Hm" in destruct x eqn:E)
  | path (do_op _) _ _ => let x := fresh "x" in let tr := fresh "tr" in destruct H as (x & tr & -> & H)
  | path (bind (db _) _) _ _ => let x := fresh "x" in let tr := fresh "tr" in destruct H as (x & tr & -> & H)
  | path (bind now _) _ _ => let x := fresh "t" in let tr := fresh "tr" in destruct H as (x & tr & -> & H)
  | path (bind newUUID _) _ _ => let x := fresh "id" in let tr := fresh "tr" in destruct H as (x & tr & -> & H)
  | path (bind GenerateRawToken _) _ _ => let x := fresh "x" in let tr := fresh "tr" in destruct H as (x & tr & -> & H)
  | path (bind (HashPassword _) _) _ _ => let x := fresh "x" in let tr := fresh "tr" in destruct H as (x & tr & -> & H)
  | path (bind (do_op _) _) _ _ => let x := fresh "x" in let tr := fresh "tr" in destruct H as (x & tr & -> & H)
  | path (bind (if ?b then _ else _) _) _ _ => let E := fresh "Hb" in destruct b eqn:E
  | path (bind (Ret _) _) _ _ => idtac
  end; cbn beta zeta iota in H; cbn [bind] in H.

(** The value of type [unit] that a successful call answers. *)
Ltac destruct_unit := repeat match goal with u : unit |- _ => destruct u end.

(** A sub-program call: split the path there. *)
Ltac path_call H :=
  apply path_bind in H;
  let tr1 := fresh "tr" in let tr2 := fresh "tr" in let a := fresh "a" in let H1 := fresh "Hcall" in
  destruct H as (tr1 & tr2 & a & -> & H1 & H); cbn beta zeta iota in H.

(** The listed events occur in the trace, in this order. *)
Ltac in_trace :=
  rewrite <- ?app_assoc; cbn [app];
  repeat first [apply sublist_skip | solve [apply sublist_inserts_r; reflexivity] | apply sublist_inserts_l
               | apply sublist_cons]; try apply sublist_nil_l.

(** Does the call change the database? *)
Definition writes (e : event) : bool :=
  match e with
  | Ev (OpDb q) _ =>
      match q with
      | QGetUserByID _ | QGetUserByEmail _ | QCountUsers | QListUsers | QGetClientByID _
      | QGetClientByClientID _ | QListClients | QListClientVisibility _ | QListPortalClientsForUser _
      | QGetGroupByID _ | QListGroups | QGetTOTPByUserID _ | QListWebAuthnCredentials _
      | QGetWebAuthnSession _ _ _ | QGetGrantByCodeHash _ | QGetSessionByAccessTokenHash _
      | QGetSessionByRefreshTokenHash _ | QGetSessionByRetiredRefreshTokenHash _
      | QListSessionClientIDsByUser _ | QGetDeviceGrantByDeviceCodeHash _
      | QGetDeviceGrantByUserCodeHash _ | QGetAWSAccount _ | QListAWSAccounts | QGetAWSRole _
      | QListAWSRoles | QListAWSRoleAssignments | QListAWSRolesForUser _ | QListAWSRevokedUsers _
      | QListAWSRevokedUsersOlderThan _ | QGetExternalID _ _ | QGetActiveSigningKey
      | QListActiveSigningKeys | QGetIntegration _ | QGetIntegrationByName _ | QListIntegrations
      | QListEnabledIntegrations => false
      | _ => true
      end
  | _ => false
  end.

(** The call changes the database, an AWS account, a downstream system or the
    registry, or starts a push. *)
Definition changes (e : event) : bool :=
  writes e ||
  match e with
  | Ev (OpIAM _) _ | Ev (OpHTTP _) _ | Ev (OpAssumeRole _) _ | Ev (OpSetTargets _) _ | Ev (OpGo _) _ => true
  | _ => false
  end.

(** The store writes of a trace, in order. *)
Definition writing (tr : list event) : list event := filter (λ e, writes e = true) tr.

Lemma writing_app tr1 tr2 : writing (tr1 ++ tr2) = writing tr1 ++ writing tr2.
Proof. apply list.filter_app. Qed.

Lemma writing_cons e tr : writing (e :: tr) = if writes e then e :: writing tr else writing tr.
Proof. unfold writing. rewrite filter_cons. destruct (writes e); [by rewrite decide_True|by rewrite decide_False]. Qed.

Lemma writing_reads tr : Forall (λ e, writes e = false) tr → writing tr = [].
Proof.
  induction 1 as [|e tr He _ IH]; [done|]. by rewrite writing_cons, He.
Qed.

(** Compute the writes of a trace of which the sub-traces of reading calls are
    known to be such. *)
Ltac solve_writing :=
  repeat match goal with
  | |- context [writing (_ ++ _)] => rewrite writing_app
  | |- context [writing (_ :: _)] => rewrite writing_cons; cbn [writes]
  | H : Forall _ ?tr |- context [writing ?tr] => rewrite (writing_reads tr H)
  end; reflexivity.

(** ** What a trace inserted *)

(** The values a partial function picks out of a trace. *)
Definition collect {A} (f : event → option A) (tr : list event) : list A := omap f tr.

(** [f] picks store writes only. *)
Class OfWrites {A} (f : event → option A) : Prop :=
  of_writes : ∀ e, writes e = false → f e = None.

Section collect.
  Context {A : Type} (f : event → option A).

Lemma collect_app tr1 tr2 : collect f (tr1 ++ tr2) = collect f tr1 ++ collect f tr2.
Proof. apply omap_app. Qed.

Lemma collect_cons e tr :
  collect f (e :: tr) = match f e with Some x => x :: collect f tr | None => collect f tr end.
Proof. done. Qed.

Lemma collect_none tr : Forall (λ e, f e = None) tr → collect f tr = [].
Proof. induction 1 as [|e tr He _ IH]; [done|]. by rewrite collect_cons, He, IH. Qed.

Lemma collect_reads `{!OfWrites f} tr : Forall (λ e, writes e = false) tr → collect f tr = [].
Proof. intros H. apply collect_none. eapply Forall_impl; [|exact H]. apply of_writes. Qed.

End collect.

(** The sessions, codes and accounts a handler inserted: the first two as
    attempts, an account when the store reported it created. *)
Definition created_session (e : event) : option Session :=
  match e with
  | Ev (OpDb q) _ => match q with QCreateSession s => Some s | _ => None end
  | _ => None
  end.

Definition created_grant (e : event) : option Grant :=
  match e with
  | Ev (OpDb q) _ => match q with QCreateGrant g => Some g | _ => None end
  | _ => None
  end.

Definition created_user (e : event) : option uuid :=
  match e with
  | Ev (OpDb q) x =>
      match q in Query A return result A → option uuid with
      | QCreateUser _ _ _ => λ r, match r with Ok u => Some (u_ID u) | Err _ => None end
      | _ => λ _, None
      end x
  | _ => None
  end.

#[export] Instance created_session_of_writes : OfWrites created_session.
Proof. intros [X op x]. destruct op; try done. by destruct q. Qed.

#[export] Instance created_grant_of_writes : OfWrites created_grant.
Proof. intros [X op x]. destruct op; try done. by destruct q. Qed.

#[export] Instance created_user_of_writes : OfWrites created_user.
Proof. intros [X op x]. destruct op; try done. by destruct q. Qed.

Notation sessions_created := (collect created_session).
Notation grants_created := (collect created_grant).
Notation users_created := (collect created_user).

(** What is in [collect f] of a trace put together from pieces. *)
Ltac collect_in H :=
  repeat match type of H with
  | context [collect _ (_ ++ _)] => rewrite collect_app in H
  | context [collect ?f (_ :: _)] => rewrite collect_cons in H; cbn [f] in H
  | context [collect ?f (@nil ?E)] => change (collect f (@nil E)) with (collect f []) in H; cbn [collect omap list_omap] in H
  | context [collect ?f ?tr] =>
      match goal with
      | H' : collect f tr = [] |- _ => rewrite H' in H
      | H' : Forall (λ e, writes e = false) tr |- _ => rewrite (collect_reads f tr H') in H
      end
  end; cbn [app] in H; rewrite ?app_nil_r in H; try (by apply not_elem_of_nil in H).
