(* ===== verification/SingleUse.v ===== *)
(** * What the store guarantees to concurrent handlers

    Facts about every interleaving of any number of handlers ([run_pool]),
    with store calls that fail before or after they take effect: the schema's
    promises hold throughout, and the three guarded updates the token endpoint
    relies on are single-use.  The handlers' own theorems are in the files of
    the handlers. *)
From S2P Require Import Prelude GoStrings Model Dialect Tables SqliteUsers SqliteTokens SqliteAws Store Prog.

(** ** One call *)

(** Lost members turn no error into a success, and concern reads of groups only. *)
Lemma members_lost_ok kept {A} (q : Query A) r a :
  members_lost kept q r = Ok a → ∃ a', r = Ok a' ∧ (reads_members q = false → a' = a).
Proof. destruct q; simpl; eauto; destruct r as [x|]; try done; exists x; done. Qed.

(** What a call does to the database: nothing, or what its query does; and a
    successful answer of the store is one of the query, with its effect. *)
Lemma step_op_db `{UnicodeTables} {dialect : Dialect} env {X} (op : Op X) w :
  match op in Op X return X * World → Prop with
  | OpDb q => λ xw,
      let r := run_query (env_uuid env (w_step w)) (env_now env (w_step w)) q (w_db w) in
      (w_db xw.2 = w_db w ∨ w_db xw.2 = r.2) ∧ (∀ a, xw.1 = Ok a → ∃ a', r = (Ok a', w_db xw.2) ∧ (reads_members q = false → a' = a))
  | _ => λ xw, w_db xw.2 = w_db w
  end (step_op env op w).
Proof.
  destruct op; simpl; try done.
  - destruct (run_query _ _ q (w_db w)) as [r d] eqn:Hq. destruct (env_fault env (w_step w)); simpl.
    + split; [by right|]. intros a ->. by eauto.
    + split; [by left|done].
    + split; [by right|done].
    + split; [by right|]. intros a (a' & -> & Ha)%members_lost_ok. by eauto.
  - by destruct (env_fault env (w_step w)).
  - by destruct (step_iam c (o_iam (w_outside w))), (env_fault env (w_step w)).
Qed.

Lemma step_op_wf `{UnicodeTables} {dialect : Dialect} env {X} (op : Op X) w : db_wf (w_db w) → db_wf (w_db (step_op env op w).2).
Proof.
  intros Hwf. pose proof (step_op_db env op w) as Hs. destruct op; try (by rewrite Hs).
  destruct Hs as [[->| ->] _]; [done|]. by apply run_query_wf.
Qed.

Lemma exec_wf `{UnicodeTables} {dialect : Dialect} env {A} (p : prog A) w : db_wf (w_db w) → db_wf (w_db (exec env p w).2).
Proof.
  revert w. induction p as [a|X op k IH]; intros w Hw; simpl; [done|].
  pose proof (step_op_wf env op _ Hw) as Hw'. destruct (step_op env op w) as [x w']. by apply IH.
Qed.

(** C4: in every concurrent execution of any handlers, whatever the schedule,
    the answers of the environment and the failures of store calls, the
    database keeps the schema's promises: the key stored in a row is its key,
    UNIQUE columns are unique (e-mail addresses, client identifiers,
    authorization-code, token, device-code and user-code hashes, credential
    identifiers, role ARNs), and no foreign key dangles, deletions cascading
    as the migrations say. *)
Theorem schema_invariant `{UnicodeTables} {dialect : Dialect} env {A} sched (c : pool A) :
  db_wf (w_db (p_world c)) → db_wf (w_db (p_world (run_pool env sched c))).
Proof.
  apply (run_pool_ind env (λ c, db_wf (w_db (p_world c)))). intros i c' Hc. unfold pool_step.
  destruct (p_threads c' !! i) as [[|X op k]|]; [done| |done].
  pose proof (step_op_wf env op _ Hc) as Hw. by destruct (step_op env op (p_world c')).
Qed.

(** ** Single-use credentials *)

(** How many calls of a log satisfy [f]. *)
Definition count_events (f : event → bool) (log : list (nat * event)) : nat :=
  length (filter (λ e, f e.2 = true) log).

Lemma count_events_snoc f log e :
  count_events f (log ++ [e]) = (count_events f log + Nat.b2n (f e.2))%nat.
Proof.
  unfold count_events. rewrite list.filter_app, length_app. f_equal.
  rewrite filter_cons. by destruct (f e.2) eqn:E; case_decide; simpl; try congruence.
Qed.

Section one_shot.
  Context `{UnicodeTables} {dialect : Dialect} (armed : DB → bool) (fire rearm : event → bool).

(** Firing needs the armed state and leaves it; only [rearm] enters it. *)
Definition one_shot : Prop :=
  ∀ env X (op : Op X) w,
    let '(x, w') := step_op env op w in
    (fire (Ev op x) = true → armed (w_db w) = true ∧ armed (w_db w') = false) ∧
    (armed (w_db w') = true → armed (w_db w) = true ∨ rearm (Ev op x) = true).

Lemma one_shot_count env {A} sched (c : pool A) :
  one_shot → p_log c = [] →
  (count_events fire (p_log (run_pool env sched c))
   ≤ Nat.b2n (armed (w_db (p_world c))) + count_events rearm (p_log (run_pool env sched c)))%nat.
Proof.
  intros Hos Hl.
  cut (count_events fire (p_log (run_pool env sched c)) + Nat.b2n (armed (w_db (p_world (run_pool env sched c))))
       ≤ Nat.b2n (armed (w_db (p_world c))) + count_events rearm (p_log (run_pool env sched c)))%nat; [lia|].
  apply (run_pool_ind env (λ c', (count_events fire (p_log c') + Nat.b2n (armed (w_db (p_world c')))
    ≤ Nat.b2n (armed (w_db (p_world c))) + count_events rearm (p_log c'))%nat)).
  - intros i c' IH. unfold pool_step.
    destruct (p_threads c' !! i) as [[|X op k]|]; [done| |done].
    pose proof (Hos env X op (p_world c')) as Hs. destruct (step_op env op (p_world c')) as [x w'].
    simpl. rewrite !count_events_snoc. simpl. destruct Hs as [Hf Ha].
    destruct (fire (Ev op x)); [destruct Hf as [Hf1 Hf2]; [done|]; rewrite Hf1 in IH; rewrite Hf2; simpl in *; lia|].
    destruct (armed (w_db w')); [|simpl; lia].
    destruct Ha as [Ha|Ha]; [done|rewrite Ha in IH|rewrite Ha]; simpl in *; destruct (armed (w_db (p_world c'))); simpl in *; lia.
  - rewrite Hl. simpl. unfold count_events. simpl. lia.
Qed.

End one_shot.

Definition is_ok {A} (r : result A) : bool := match r with Ok _ => true | Err _ => false end.

(** Calls of a given kind, and those of them that succeeded. *)
Definition on_query (f : ∀ A, Query A → bool) (e : event) : bool :=
  match e with Ev (OpDb q) _ => f _ q | _ => false end.

Definition on_success (f : ∀ A, Query A → bool) (e : event) : bool :=
  match e with
  | Ev op x =>
      match op in Op X return X → bool with
      | OpDb q => λ r, f _ q && is_ok r
      | _ => λ _, false
      end x
  end.

Lemma one_shot_queries `{UnicodeTables} {dialect : Dialect} armed (f r : ∀ A, Query A → bool) :
  (∀ A (q : Query A) u t d a, f A q = true → (run_query u t q d).1 = Ok a →
     armed d = true ∧ armed (run_query u t q d).2 = false) →
  (∀ A (q : Query A) u t d, armed (run_query u t q d).2 = true → armed d = true ∨ r A q = true) →
  one_shot armed (on_success f) (on_query r).
Proof.
  intros Hf Hr env X op w. pose proof (step_op_db env op w) as Hs.
  destruct (step_op env op w) as [x w'] eqn:E. clear E.
  destruct op; simpl in Hs; try (rewrite Hs; simpl; split; [done|by left]).
  destruct Hs as [Hd Ha]. simpl. split.
  - intros [Hq Hx]%andb_prop. destruct x as [a|]; [|done]. specialize (Ha a eq_refl).
    destruct Ha as (a' & Ha & _). destruct (Hf _ q (env_uuid env (w_step w)) (env_now env (w_step w)) (w_db w) a' Hq) as [H1 H2];
      [by rewrite Ha|]. by rewrite Ha in H2.
  - destruct Hd as [->| ->]; [by left|]. apply Hr.
Qed.

(** *** Authorization codes *)

(** The code exists and is unused. *)
Definition grant_unused (id : uuid) (d : DB) : bool :=
  match db_grants d !! id with Some r => bool_decide (gr_used_at r = None) | None => false end.

Definition marks_grant (id : uuid) : ∀ A, Query A → bool :=
  λ A q, match q with QMarkGrantUsed i => bool_decide (i = id) | _ => false end.

Definition creates_grant (id : uuid) : ∀ A, Query A → bool :=
  λ A q, match q with QCreateGrant g => bool_decide (g_ID g = id) | _ => false end.

(** Deleting rows does not arm anything. *)
Lemma delete_where_lookup {K B} `{Countable K} (b : B → bool) (m : gmap K B) i x :
  delete_where b m !! i = Some x → m !! i = Some x.
Proof. by intros [? _]%map_lookup_filter_Some. Qed.

Lemma grant_unused_deleted id d b :
  grant_unused id (with_grants (delete_where b (db_grants d)) d) = true → grant_unused id d = true.
Proof.
  unfold grant_unused. simpl. destruct (delete_where _ _ !! id) as [r|] eqn:E; [|done].
  by rewrite (delete_where_lookup _ _ _ _ E).
Qed.

Lemma MarkGrantUsed_fires {dialect : Dialect} t id d a :
  (MarkGrantUsed t id d).1 = Ok a →
  grant_unused id d = true ∧ grant_unused id (MarkGrantUsed t id d).2 = false.
Proof.
  unfold MarkGrantUsed, grant_unused. destruct (db_grants d !! id) as [r|] eqn:E; [|done].
  destruct (gr_used_at r) eqn:Eu; [done|]. intros _. simpl. split; [done|].
  by rewrite lookup_alter_eq, E.
Qed.

Lemma grant_arming `{UnicodeTables} {dialect : Dialect} id A (q : Query A) u t d :
  grant_unused id (run_query u t q d).2 = true → grant_unused id d = true ∨ creates_grant id A q = true.
Proof.
  destruct (touches_grants q) eqn:Ht; [|unfold grant_unused; rewrite frame_grants by done; by left].
  destruct q; try discriminate Ht; clear Ht; cbn [run_query creates_grant].
  - left. revert H0. apply (grant_unused_deleted id d).
  - left. revert H0. apply (grant_unused_deleted id d).
  - unfold CreateGrant, grant_unused. destruct (_ || _); [by left|]. simpl.
    rewrite lookup_insert. case_decide; [right; by apply bool_decide_eq_true|by left].
  - left. revert H0. unfold MarkGrantUsed, grant_unused.
    destruct (db_grants d !! id0) as [r|] eqn:E; [|done]. destruct (gr_used_at r) eqn:Eu; [done|]. simpl.
    rewrite lookup_alter. case_decide; [|done]. subst. by rewrite E.
  - left. revert H0. apply (grant_unused_deleted id d).
Qed.

Lemma grants_one_shot `{UnicodeTables} {dialect : Dialect} id :
  one_shot (grant_unused id) (on_success (marks_grant id)) (on_query (creates_grant id)).
Proof.
  apply one_shot_queries; [|by intros; eapply grant_arming].
  intros A q u t d a Hq. destruct q; try discriminate Hq. apply bool_decide_eq_true in Hq as ->.
  apply MarkGrantUsed_fires.
Qed.

(** *** Device codes *)

(** The device grant can still be redeemed: it is pending or approved. *)
Definition device_open (id : uuid) (d : DB) : bool :=
  match db_device_grants d !! id with
  | Some r => bool_decide (dr_status r = DeviceGrantStatusPending ∨ dr_status r = DeviceGrantStatusApproved)
  | None => false
  end.

Definition redeems_device (id : uuid) : ∀ A, Query A → bool :=
  λ A q, match q with QMarkDeviceGrantRedeemed i => bool_decide (i = id) | _ => false end.

(** An INSERT of the row [id] (or of a row whose identifier the store draws). *)
Definition creates_device (id : uuid) : ∀ A, Query A → bool :=
  λ A q, match q with
         | QCreateDeviceGrant g => bool_decide (dg_ID g = id ∨ dg_ID g = uuid_nil)
         | _ => false
         end.

Lemma device_open_deleted id d b :
  device_open id (with_device_grants (delete_where b (db_device_grants d)) d) = true → device_open id d = true.
Proof.
  unfold device_open. simpl. destruct (delete_where _ _ !! id) as [r|] eqn:E; [|done].
  by rewrite (delete_where_lookup _ _ _ _ E).
Qed.

(** A guarded transition moves one row, and only from its source status. *)
Lemma device_transition_lookup from f i d id r :
  db_device_grants (device_transition from f i d).2 !! id = Some r →
  db_device_grants d !! id = Some r ∨
  (i = id ∧ ∃ r0, db_device_grants d !! id = Some r0 ∧ dr_status r0 = from ∧ r = f r0).
Proof.
  unfold device_transition. destruct (db_device_grants d !! i) as [r0|] eqn:E; [|by left].
  case_bool_decide as Hs; [|by left]. simpl. rewrite lookup_alter. case_decide; [|by left].
  subst. rewrite E. intros [= <-]. right. eauto 10.
Qed.

Lemma device_open_transition from f i d id :
  (from = DeviceGrantStatusPending ∨ from = DeviceGrantStatusApproved) →
  device_open id (device_transition from f i d).2 = true → device_open id d = true.
Proof.
  intros Hfrom. unfold device_open.
  destruct (db_device_grants (device_transition _ _ _ _).2 !! id) as [r|] eqn:E; [|done].
  apply device_transition_lookup in E as [E|(-> & r0 & E & Hs & ->)]; rewrite E; [done|].
  intros _. apply bool_decide_eq_true. by rewrite Hs.
Qed.

Lemma MarkDeviceGrantRedeemed_fires id d a :
  (MarkDeviceGrantRedeemed id d).1 = Ok a →
  device_open id d = true ∧ device_open id (MarkDeviceGrantRedeemed id d).2 = false.
Proof.
  unfold MarkDeviceGrantRedeemed, device_transition, device_open.
  destruct (db_device_grants d !! id) as [r|] eqn:E; [|done].
  case_bool_decide as Hs; [|done]. intros _. simpl. rewrite lookup_alter_eq, E. simpl.
  split; [apply bool_decide_eq_true; auto|done].
Qed.

Lemma device_open_forget i d id :
  device_open id (with_device_grants (forget_user i <$> db_device_grants d) d) = device_open id d.
Proof.
  unfold device_open. simpl. rewrite lookup_fmap. destruct (db_device_grants d !! id) as [r|]; [|done].
  simpl. by rewrite (forget_user_same dr_status).
Qed.

Lemma device_arming `{UnicodeTables} {dialect : Dialect} id A (q : Query A) u t d :
  device_open id (run_query u t q d).2 = true → device_open id d = true ∨ creates_device id A q = true.
Proof.
  destruct (touches_devices q) eqn:Ht; [|unfold device_open; rewrite frame_devices by done; by left].
  destruct q; try discriminate Ht; clear Ht; cbn [run_query creates_device]; intros Ho.
  - left. rewrite <- (device_open_forget id0). exact Ho.
  - left. revert Ho. apply (device_open_deleted id d).
  - revert Ho. unfold CreateDeviceGrant. destruct (_ || _); [by left|].
    destruct (negb _); [by left|]. unfold device_open. simpl. rewrite lookup_insert.
    case_decide as Hi; [|by left]. intros _. right. apply bool_decide_eq_true.
    revert Hi. case_bool_decide; auto.
  - left. revert Ho. unfold MarkDeviceGrantApproved.
    destruct (has _ _); [apply device_open_transition; auto|].
    by destruct (db_device_grants d !! id0).
  - left. revert Ho. apply device_open_transition; auto.
  - left. revert Ho. apply device_open_transition; auto.
  - left. revert Ho. unfold device_open, UpdateDeviceGrantPoll. simpl. rewrite lookup_alter.
    case_decide; [|done]. subst. by destruct (db_device_grants d !! id).
  - left. revert Ho. apply (device_open_deleted id d).
Qed.

Lemma devices_one_shot `{UnicodeTables} {dialect : Dialect} id :
  one_shot (device_open id) (on_success (redeems_device id)) (on_query (creates_device id)).
Proof.
  apply one_shot_queries; [|by intros; eapply device_arming].
  intros A q u t d a Hq. destruct q; try discriminate Hq. apply bool_decide_eq_true in Hq as ->.
  apply MarkDeviceGrantRedeemed_fires.
Qed.

(** *** Refresh tokens *)

(** Session [id]'s current refresh token hashes to [h]. *)
Definition refresh_live (id : uuid) (h : string) (d : DB) : bool :=
  match db_sessions d !! id with Some r => bool_decide (sr_refresh_token_hash r = h) | None => false end.

(** Rotations away from [h] ... *)
Definition rotates (id : uuid) (h : string) : ∀ A, Query A → bool :=
  λ A q, match q with
         | QRotateRefreshToken i old _ new _ _ => bool_decide (i = id ∧ old = h ∧ new ≠ h)
         | _ => false
         end.

(** ... and the calls that write [h] into session [id]. *)
Definition writes_refresh (id : uuid) (h : string) : ∀ A, Query A → bool :=
  λ A q, match q with
         | QRotateRefreshToken i _ _ new _ _ => bool_decide (i = id ∧ new = h)
         | QCreateSession s => bool_decide (s_ID s = id ∧ s_RefreshTokenHash s = h)
         | _ => false
         end.

Lemma refresh_live_deleted id h d b :
  refresh_live id h (delete_sessions b d) = true → refresh_live id h d = true.
Proof.
  unfold refresh_live. simpl. destruct (delete_where _ _ !! id) as [r|] eqn:E; [|done].
  by rewrite (delete_where_lookup _ _ _ _ E).
Qed.

Lemma refresh_live_update id h f i d :
  (∀ r, sr_refresh_token_hash (f r) = sr_refresh_token_hash r) →
  refresh_live id h (update_session f i d).2 = refresh_live id h d.
Proof.
  intros Hf. unfold refresh_live, update_session. simpl. rewrite lookup_alter.
  case_decide; [|done]. subst. destruct (db_sessions d !! id); simpl; [|done]. by rewrite Hf.
Qed.

Lemma Rotate_lookup {dialect : Dialect} i old a new ae re d :
  (RotateRefreshToken i old a new ae re d).2 = d ∨
  ∃ r, db_sessions d !! i = Some r ∧ sr_refresh_token_hash r = old ∧
       (RotateRefreshToken i old a new ae re d).1 = Ok tt ∧
       db_sessions (RotateRefreshToken i old a new ae re d).2
       = alter (session_rotate a new (column ae) (column re)) i (db_sessions d).
Proof.
  unfold RotateRefreshToken. destruct (db_sessions d !! i) as [r|] eqn:E; [|by left].
  case_bool_decide; [|by left]. destruct (some_row _ _); [by left|]. right. eauto.
Qed.

Lemma Rotate_fires {dialect : Dialect} id h a new ae re d x :
  new ≠ h → (RotateRefreshToken id h a new ae re d).1 = Ok x →
  refresh_live id h d = true ∧ refresh_live id h (RotateRefreshToken id h a new ae re d).2 = false.
Proof.
  intros Hn Hok. unfold refresh_live, RotateRefreshToken in *.
  destruct (db_sessions d !! id) as [r|] eqn:E; [|done].
  case_bool_decide as Hr; [|done]. destruct (some_row _ _); [done|]. simpl.
  rewrite lookup_alter_eq, E. split; [done|]. by apply bool_decide_eq_false.
Qed.

Lemma refresh_arming `{UnicodeTables} {dialect : Dialect} id h A (q : Query A) u t d :
  refresh_live id h (run_query u t q d).2 = true → refresh_live id h d = true ∨ writes_refresh id h A q = true.
Proof.
  destruct (touches_sessions q) eqn:Ht; [|unfold refresh_live; rewrite frame_sessions by done; by left].
  destruct q; try discriminate Ht; clear Ht; cbn [run_query writes_refresh]; intros Ho;
    try (left; revert Ho; exact (refresh_live_deleted id h d _));
    try (left; revert Ho; unfold MarkSessionMFA, UpdateSessionActivity, ExtendSessionExpiry;
         by rewrite refresh_live_update).
  - revert Ho. unfold CreateSession, refresh_live. destruct (_ || _); [by left|]. simpl.
    rewrite lookup_insert. case_decide as Hi; [|by left]. intros Hr%bool_decide_eq_true.
    right. by apply bool_decide_eq_true.
  - destruct (Rotate_lookup id0 oldRefreshHash newAccessHash newRefreshHash newAccessExpiry newRefreshExpiry d)
      as [Hd|(r & Hr & Hold & _ & Hd)]; [rewrite Hd in Ho; by left|].
    unfold refresh_live in Ho. rewrite Hd, lookup_alter in Ho. case_decide; [|by left]. subst.
    rewrite Hr in Ho. simpl in Ho. apply bool_decide_eq_true in Ho. right. by apply bool_decide_eq_true.
Qed.

Lemma refresh_one_shot `{UnicodeTables} {dialect : Dialect} id h :
  one_shot (refresh_live id h) (on_success (rotates id h)) (on_query (writes_refresh id h)).
Proof.
  apply one_shot_queries; [|by intros; eapply refresh_arming].
  intros A q u t d a Hq. destruct q; try discriminate Hq.
  apply bool_decide_eq_true in Hq as (-> & -> & Hn). by apply Rotate_fires.
Qed.

(** *** From counts to threads *)

Lemma length_two {A} (x y : A) l : x ≠ y → x ∈ l → y ∈ l → (2 ≤ length l)%nat.
Proof.
  intros Hxy Hx Hy. destruct l as [|a [|b l]]; simpl; [|..|lia].
  - by apply not_elem_of_nil in Hx.
  - apply list_elem_of_singleton in Hx, Hy. congruence.
Qed.

Lemma elem_thread_log i e log : e ∈ thread_log i log ↔ (i, e) ∈ log.
Proof.
  unfold thread_log. rewrite list_elem_of_fmap. split.
  - intros ([j e'] & -> & [Hj He]%list_elem_of_filter). simpl in *. by subst.
  - intros He. exists (i, e). split; [done|]. by apply list_elem_of_filter.
Qed.

(** Two threads that both made such a call make two such calls. *)
Lemma count_two_threads f log i j e1 e2 :
  i ≠ j → e1 ∈ thread_log i log → e2 ∈ thread_log j log → f e1 = true → f e2 = true →
  (2 ≤ count_events f log)%nat.
Proof.
  intros Hij H1%elem_thread_log H2%elem_thread_log Hf1 Hf2. unfold count_events.
  apply (length_two (i, e1) (j, e2)); [congruence|..]; by apply list_elem_of_filter.
Qed.

Lemma count_events_0 f log : count_events f log = O → ∀ i e, (i, e) ∈ log → f e = false.
Proof.
  unfold count_events. intros H0%nil_length_inv i e He. destruct (f e) eqn:E; [|done]. exfalso.
  assert ((i, e) ∈ filter (λ e, f e.2 = true) log) as Hin by (by apply list_elem_of_filter).
  rewrite H0 in Hin. by apply not_elem_of_nil in Hin.
Qed.

Lemma count_events_le f g log :
  (∀ e, f e = true → g e = true) → (count_events f log ≤ count_events g log)%nat.
Proof.
  intros Hfg. unfold count_events. induction log as [|e log IH]; [done|]. rewrite !filter_cons.
  repeat case_decide; simpl; [lia| |lia|lia]. naive_solver.
Qed.

(** *** What lookups find, in every execution

    [only] is a property of the database that no call but [ins] can break, and
    that makes every event [good]. *)
Section lookups.
  Context `{UnicodeTables} {dialect : Dialect} (only : DB → Prop) (ins : ∀ A, Query A → bool) (good : event → Prop).
  Hypothesis only_query : ∀ A (q : Query A) u t d,
    ins A q = false → only d → only (run_query u t q d).2.

Lemma only_step env X (op : Op X) w :
  on_query ins (Ev op (step_op env op w).1) = false → only (w_db w) → only (w_db (step_op env op w).2).
Proof.
  intros Hi Ho. pose proof (step_op_db env op w) as Hs.
  destruct op; try (by rewrite Hs). destruct Hs as [[->| ->] _]; [done|]. by apply only_query.
Qed.

Lemma pool_only env {A} sched (c : pool A) :
  p_log c = [] → only (w_db (p_world c)) →
  count_events (on_query ins) (p_log (run_pool env sched c)) = O → only (w_db (p_world (run_pool env sched c))).
Proof.
  intros Hl Ho.
  apply (run_pool_ind env (λ c, count_events (on_query ins) (p_log c) = O → only (w_db (p_world c)))); [|done].
  intros j c' IH. unfold pool_step. destruct (p_threads c' !! j) as [[|X op k]|]; [done| |done].
  destruct (step_op env op (p_world c')) as [x w'] eqn:Es. cbn [p_log p_world]. rewrite count_events_snoc.
  intros Hc. pose proof (only_step env _ op (p_world c')) as Hs. rewrite Es in Hs. apply Hs; [|apply IH; lia].
  cbn [snd fst] in Hc |- *. destruct (on_query ins (Ev op x)); [cbn in Hc; lia|done].
Qed.

  Hypothesis good_step : ∀ env X (op : Op X) w,
    db_wf (w_db w) → only (w_db w) → good (Ev op (step_op env op w).1).

Lemma pool_lookups env {A} sched (c : pool A) :
  db_wf (w_db (p_world c)) → p_log c = [] → only (w_db (p_world c)) →
  count_events (on_query ins) (p_log (run_pool env sched c)) = O →
  ∀ i e, (i, e) ∈ p_log (run_pool env sched c) → good e.
Proof.
  intros Hwf Hl Ho.
  cut (count_events (on_query ins) (p_log (run_pool env sched c)) = O →
       db_wf (w_db (p_world (run_pool env sched c))) ∧ only (w_db (p_world (run_pool env sched c))) ∧
       ∀ i e, (i, e) ∈ p_log (run_pool env sched c) → good e); [naive_solver|].
  apply (run_pool_ind env (λ c, count_events (on_query ins) (p_log c) = O →
    db_wf (w_db (p_world c)) ∧ only (w_db (p_world c)) ∧ ∀ i e, (i, e) ∈ p_log c → good e)).
  - intros j c' IH. unfold pool_step. destruct (p_threads c' !! j) as [[|X op k]|]; [done| |done].
    destruct (step_op env op (p_world c')) as [x w'] eqn:Es. cbn [p_log p_world]. rewrite count_events_snoc.
    intros Hc. destruct IH as (Hw & Hoc & Hev); [lia|].
    pose proof (step_op_wf env op _ Hw) as Hw'. pose proof (good_step env _ op _ Hw Hoc) as Hf.
    pose proof (only_step env _ op (p_world c')) as Hs. rewrite Es in *.
    cbn [fst snd] in *. split_and!; [done| |].
    + apply Hs; [|done]. destruct (on_query ins (Ev op x)); [cbn in Hc; lia|done].
    + intros i e [?|[= -> ->]%list_elem_of_singleton]%elem_of_app; [by eapply Hev|done].
  - intros _. rewrite Hl. split_and!; [done..|]. by intros ? ? ?%not_elem_of_nil.
Qed.

End lookups.

(** *** Which code a hash finds *)

Definition inserts_code (h : string) : ∀ A, Query A → bool :=
  λ A q, match q with QCreateGrant g => bool_decide (g_CodeHash g = h) | _ => false end.

(** Row [id] is the only one with this code hash. *)
Definition only_code (id : uuid) (h : string) (d : DB) : Prop :=
  ∀ i r, db_grants d !! i = Some r → gr_code_hash r = h → i = id.

Lemma only_code_query `{UnicodeTables} {dialect : Dialect} id h A (q : Query A) u t d :
  inserts_code h A q = false → only_code id h d → only_code id h (run_query u t q d).2.
Proof.
  intros Hi Ho. destruct (touches_grants q) eqn:Ht; [|intros i r; rewrite frame_grants by done; apply Ho].
  intros i r.
  destruct q; try discriminate Ht; clear Ht; cbn [run_query];
    try (intros ?%delete_where_lookup; by apply Ho).
  - unfold CreateGrant. destruct (_ || _); [apply Ho|]. simpl. rewrite lookup_insert.
    case_decide; [|apply Ho]. intros [= <-] Hc. simpl in Hc. simpl in Hi.
    by apply bool_decide_eq_false in Hi.
  - unfold MarkGrantUsed. destruct (db_grants d !! id0) as [r0|] eqn:E; [|apply Ho].
    destruct (gr_used_at r0); [apply Ho|]. simpl. rewrite lookup_alter. case_decide; [|apply Ho].
    subst. destruct (db_grants d !! i) eqn:E'; [|done]. intros [= <-]. simpl. by apply Ho.
Qed.

(** The event is not a lookup of [h] that found a row other than [id]. *)
Definition finds_only (id : uuid) (h : string) (e : event) : Prop :=
  match e with
  | Ev op x =>
      match op in Op X return X → Prop with
      | OpDb q => match q in Query A return result A → Prop with
                  | QGetGrantByCodeHash h' => λ r, h' = h → ∀ g, r = Ok g → g_ID g = id
                  | _ => λ _, True
                  end
      | _ => λ _, True
      end x
  end.

Lemma finds_only_step `{UnicodeTables} {dialect : Dialect} env {X} (op : Op X) w id h :
  db_wf (w_db w) → only_code id h (w_db w) → finds_only id h (Ev op (step_op env op w).1).
Proof.
  intros Hwf Ho. pose proof (step_op_db env op w) as Hs. destruct op; try done.
  destruct q; try done. destruct Hs as [_ Ha]. simpl in *. intros -> g Hg.
  destruct (Ha _ Hg) as (a' & Hr & <-); [|done]. clear Hg Ha. unfold reading, GetGrantByCodeHash in Hr. simpl in Hr.
  destruct (find_row _ _) as [r|] eqn:E; simpl in Hr; [|done]. injection Hr as <- _.
  apply find_row_Some in E as (i & Hi & Hh%bool_decide_eq_true).
  simpl. rewrite (wf_grants _ Hwf _ _ Hi). by eapply Ho.
Qed.

Lemma code_lookups `{UnicodeTables} {dialect : Dialect} env {A} sched (c : pool A) id h :
  db_wf (w_db (p_world c)) → p_log c = [] → only_code id h (w_db (p_world c)) →
  count_events (on_query (inserts_code h)) (p_log (run_pool env sched c)) = O →
  ∀ i e, (i, e) ∈ p_log (run_pool env sched c) → finds_only id h e.
Proof.
  apply pool_lookups; intros; [by apply only_code_query|by apply finds_only_step].
Qed.

(** A row found by its hash in a well-formed database is the only one. *)
Lemma only_code_unique id h d r :
  db_wf d → db_grants d !! id = Some r → gr_code_hash r = h → only_code id h d.
Proof. intros Hwf Hr Hh i r' Hr' Hh'. eapply (wf_grants_code _ Hwf); [done..|]. congruence. Qed.

(** *** Which session a refresh hash finds *)

Definition inserts_refresh (h : string) : ∀ A, Query A → bool :=
  λ A q, match q with
         | QRotateRefreshToken _ _ _ new _ _ => bool_decide (new = h)
         | QCreateSession s => bool_decide (s_RefreshTokenHash s = h)
         | _ => false
         end.

Lemma writes_inserts_refresh id h e :
  on_query (writes_refresh id h) e = true → on_query (inserts_refresh h) e = true.
Proof.
  destruct e as [X op x]. destruct op; try done. destruct q; try done; simpl;
    intros [_ ?]%bool_decide_eq_true; by apply bool_decide_eq_true.
Qed.

Definition only_refresh (id : uuid) (h : string) (d : DB) : Prop :=
  ∀ i r, db_sessions d !! i = Some r → sr_refresh_token_hash r = h → i = id.

Lemma only_refresh_update id h f i d :
  (∀ r, sr_refresh_token_hash (f r) = sr_refresh_token_hash r) →
  only_refresh id h d → only_refresh id h (update_session f i d).2.
Proof.
  intros Hf Ho j r. simpl. rewrite lookup_alter. case_decide; [|apply Ho]. subst.
  destruct (db_sessions d !! j) eqn:E; [|done]. intros [= <-]. rewrite Hf. by apply Ho.
Qed.

Lemma only_refresh_query `{UnicodeTables} {dialect : Dialect} id h A (q : Query A) u t d :
  inserts_refresh h A q = false → only_refresh id h d → only_refresh id h (run_query u t q d).2.
Proof.
  intros Hi Ho. destruct (touches_sessions q) eqn:Ht; [|intros i r; rewrite frame_sessions by done; apply Ho].
  destruct q; try discriminate Ht; clear Ht; cbn [run_query];
    try (by apply only_refresh_update); intros i r; try (intros ?%delete_where_lookup; by apply Ho).
  - unfold CreateSession. destruct (_ || _); [apply Ho|]. simpl. rewrite lookup_insert.
    case_decide; [|apply Ho]. intros [= <-] Hc. simpl in *. by apply bool_decide_eq_false in Hi.
  - destruct (Rotate_lookup id0 oldRefreshHash newAccessHash newRefreshHash newAccessExpiry newRefreshExpiry d)
      as [->|(r0 & Hr & Hold & _ & ->)]; [apply Ho|].
    rewrite lookup_alter. case_decide; [|apply Ho]. subst. rewrite Hr. intros [= <-]. simpl in *.
    by apply bool_decide_eq_false in Hi.
Qed.

Definition refresh_finds_only (id : uuid) (h : string) (e : event) : Prop :=
  match e with
  | Ev op x =>
      match op in Op X return X → Prop with
      | OpDb q => match q in Query A return result A → Prop with
                  | QGetSessionByRefreshTokenHash h' => λ r, h' = h → ∀ s, r = Ok s → s_ID s = id
                  | _ => λ _, True
                  end
      | _ => λ _, True
      end x
  end.

Lemma refresh_finds_only_step `{UnicodeTables} {dialect : Dialect} env {X} (op : Op X) w id h :
  db_wf (w_db w) → only_refresh id h (w_db w) → refresh_finds_only id h (Ev op (step_op env op w).1).
Proof.
  intros Hwf Ho. pose proof (step_op_db env op w) as Hs. destruct op; try done.
  destruct q; try done. destruct Hs as [_ Ha]. simpl in *. intros -> s Hg.
  destruct (Ha _ Hg) as (a' & Hr & <-); [|done]. clear Hg Ha. unfold reading, GetSessionByRefreshTokenHash in Hr. simpl in Hr.
  destruct (find_row _ _) as [r|] eqn:E; simpl in Hr; [|done]. injection Hr as <- _.
  apply find_row_Some in E as (i & Hi & Hh%bool_decide_eq_true).
  simpl. rewrite (wf_sessions _ Hwf _ _ Hi). by eapply Ho.
Qed.

Lemma refresh_lookups `{UnicodeTables} {dialect : Dialect} env {A} sched (c : pool A) id h :
  db_wf (w_db (p_world c)) → p_log c = [] → only_refresh id h (w_db (p_world c)) →
  count_events (on_query (inserts_refresh h)) (p_log (run_pool env sched c)) = O →
  ∀ i e, (i, e) ∈ p_log (run_pool env sched c) → refresh_finds_only id h e.
Proof.
  apply pool_lookups; intros; [by apply only_refresh_query|by apply refresh_finds_only_step].
Qed.

Lemma only_refresh_unique id h d r :
  db_wf d → db_sessions d !! id = Some r → sr_refresh_token_hash r = h → only_refresh id h d.
Proof. intros Hwf Hr Hh i r' Hr' Hh'. eapply (wf_sessions_refresh _ Hwf); [done..|]. congruence. Qed.

(** *** Which grant a device code finds *)

Definition inserts_device (h : string) : ∀ A, Query A → bool :=
  λ A q, match q with QCreateDeviceGrant g => bool_decide (dg_DeviceCodeHash g = h) | _ => false end.

Definition only_device (id : uuid) (h : string) (d : DB) : Prop :=
  ∀ i r, db_device_grants d !! i = Some r → dr_device_code_hash r = h → i = id.

Lemma only_device_transition id h from f i d :
  (∀ r, dr_device_code_hash (f r) = dr_device_code_hash r) →
  only_device id h d → only_device id h (device_transition from f i d).2.
Proof.
  intros Hf Ho j r [Hr|(-> & r0 & Hr & _ & ->)]%device_transition_lookup; [by apply Ho|].
  rewrite Hf. by apply Ho.
Qed.

Lemma only_device_query `{UnicodeTables} {dialect : Dialect} id h A (q : Query A) u t d :
  inserts_device h A q = false → only_device id h d → only_device id h (run_query u t q d).2.
Proof.
  intros Hi Ho. destruct (touches_devices q) eqn:Ht; [|intros i r; rewrite frame_devices by done; apply Ho].
  destruct q; try discriminate Ht; clear Ht; cbn [run_query];
    try (by apply only_device_transition); intros i r; try (intros ?%delete_where_lookup; by apply Ho).
  - simpl. rewrite lookup_fmap_Some. intros (r0 & <- & Hr).
    rewrite (forget_user_same dr_device_code_hash) by done. by apply Ho.
  - unfold CreateDeviceGrant. destruct (_ || _); [apply Ho|]. destruct (negb _); [apply Ho|]. simpl.
    rewrite lookup_insert. case_decide; [|apply Ho]. intros [= <-] Hc. simpl in *.
    by apply bool_decide_eq_false in Hi.
  - unfold MarkDeviceGrantApproved. destruct (has _ _); [by apply only_device_transition|].
    destruct (db_device_grants d !! id0); apply Ho.
  - simpl. rewrite lookup_alter. case_decide; [|apply Ho]. subst.
    destruct (db_device_grants d !! i) eqn:E; [|done]. intros [= <-]. simpl. by apply Ho.
Qed.

Definition device_finds_only (id : uuid) (h : string) (e : event) : Prop :=
  match e with
  | Ev op x =>
      match op in Op X return X → Prop with
      | OpDb q => match q in Query A return result A → Prop with
                  | QGetDeviceGrantByDeviceCodeHash h' => λ r, h' = h → ∀ g, r = Ok g → dg_ID g = id
                  | _ => λ _, True
                  end
      | _ => λ _, True
      end x
  end.

Lemma device_finds_only_step `{UnicodeTables} {dialect : Dialect} env {X} (op : Op X) w id h :
  db_wf (w_db w) → only_device id h (w_db w) → device_finds_only id h (Ev op (step_op env op w).1).
Proof.
  intros Hwf Ho. pose proof (step_op_db env op w) as Hs. destruct op; try done.
  destruct q; try done. destruct Hs as [_ Ha]. simpl in *. intros -> s Hg.
  destruct (Ha _ Hg) as (a' & Hr & <-); [|done]. clear Hg Ha. unfold reading, GetDeviceGrantByDeviceCodeHash in Hr. simpl in Hr.
  destruct (find_row _ _) as [r|] eqn:E; simpl in Hr; [|done]. injection Hr as <- _.
  apply find_row_Some in E as (i & Hi & Hh%bool_decide_eq_true).
  simpl. rewrite (wf_devices _ Hwf _ _ Hi). by eapply Ho.
Qed.

Lemma device_lookups `{UnicodeTables} {dialect : Dialect} env {A} sched (c : pool A) id h :
  db_wf (w_db (p_world c)) → p_log c = [] → only_device id h (w_db (p_world c)) →
  count_events (on_query (inserts_device h)) (p_log (run_pool env sched c)) = O →
  ∀ i e, (i, e) ∈ p_log (run_pool env sched c) → device_finds_only id h e.
Proof.
  apply pool_lookups; intros; [by apply only_device_query|by apply device_finds_only_step].
Qed.

Lemma only_device_unique id h d r :
  db_wf d → db_device_grants d !! id = Some r → dr_device_code_hash r = h → only_device id h d.
Proof. intros Hwf Hr Hh i r' Hr' Hh'. eapply (wf_devices_device_code _ Hwf); [done..|]. congruence. Qed.
