(* ===== verification/Typed.v ===== *)
(** * Column types

    A timestamp column holds what its type can represent: any [time.Time] as
    text in SQLite, whole microseconds in PostgreSQL; and a column that only the
    clock of the statements writes ([CURRENT_TIMESTAMP], [datetime], [NOW()])
    holds what that clock shows, in SQLite whole seconds.  [db_typed] says it of
    every timestamp of every table, and every execution keeps it: a time read
    from the store and written back is unchanged, and the texts SQLite compares
    (SqlTime) are those of whole seconds where the statements rely on it. *)
From S2P Require Import Prelude GoStrings GoNet Model Dialect Policy Tables SqliteUsers SqliteTokens SqliteAws Store Pkce Prog SingleUse.

Local Open Scope Z_scope.

Section typed.
  Context `{U : UnicodeTables} {dialect : Dialect}.

(** A value of a timestamp column, and of one that may be NULL. *)
Definition fits (t : Z) : Prop := column t = t.
Definition fits_opt (o : option Z) : Prop := column <$> o = o.

(** A value of a column that only the clock of a statement writes. *)
Definition clocked (t : Z) : Prop := stamp t = t.

Definition user_fits (u : User) : Prop :=
  fits (u_PasswordChangedAt u) ∧ fits_opt (u_LockedUntil u) ∧ fits (u_CreatedAt u) ∧ fits (u_UpdatedAt u).
Definition client_fits (c : Client) : Prop := fits (c_SecretRotatedAt c) ∧ fits (c_CreatedAt c).
Definition grant_fits (g : grant_row) : Prop :=
  fits (gr_expires_at g) ∧ fits_opt (gr_used_at g) ∧ fits_opt (gr_mfa_verified_at g) ∧ fits_opt (gr_auth_time g).
Definition session_fits (s : session_row) : Prop :=
  fits (sr_access_expires_at s) ∧ fits (sr_refresh_expires_at s) ∧ fits (sr_last_activity_at s) ∧
  fits_opt (sr_mfa_verified_at s) ∧ fits_opt (sr_auth_time s) ∧ clocked (sr_created_at s).
Definition totp_fits (t : TOTPCredential) : Prop := clocked (totp_CreatedAt t).
Definition webauthn_fits (c : WebAuthnCredential) : Prop := clocked (wa_CreatedAt c) ∧ fits (wa_LastUsedAt c).
Definition wa_session_fits (r : wa_session_row) : Prop := clocked (wsr_expires_at r) ∧ clocked (wsr_created_at r).
Definition group_fits (g : group_row) : Prop := fits (gpr_created_at g) ∧ fits (gpr_updated_at g).
Definition device_fits (r : device_row) : Prop :=
  fits_opt (dr_mfa_verified_at r) ∧ fits_opt (dr_last_polled_at r) ∧ clocked (dr_created_at r) ∧ fits (dr_expires_at r).
Definition account_fits (a : AWSAccount) : Prop := fits (aa_CreatedAt a) ∧ fits (aa_UpdatedAt a).
Definition role_fits (r : role_row) : Prop := fits (rr_created_at r) ∧ fits (rr_updated_at r).
Definition assignment_fits (a : AWSRoleAssignment) : Prop := fits (ara_CreatedAt a).
Definition key_fits (k : SigningKey) : Prop := clocked (sk_CreatedAt k).
Definition integration_fits (i : AppIntegration) : Prop := fits (ai_CreatedAt i) ∧ fits (ai_UpdatedAt i).

(** Every row of a table. *)
Definition rows {K A} `{Countable K} (P : A → Prop) (m : gmap K A) : Prop := map_Forall (λ _, P) m.

Record db_typed (db : DB) : Prop := {
  ty_users : rows user_fits (db_users db);
  ty_clients : rows client_fits (db_clients db);
  ty_visibility : rows clocked (db_client_visibility db);
  ty_grants : rows grant_fits (db_grants db);
  ty_sessions : rows session_fits (db_sessions db);
  ty_totp : rows totp_fits (db_totp_credentials db);
  ty_webauthn : rows webauthn_fits (db_webauthn_credentials db);
  ty_webauthn_sessions : rows wa_session_fits (db_webauthn_sessions db);
  ty_groups : rows group_fits (db_scim_groups db);
  ty_devices : rows device_fits (db_device_grants db);
  ty_accounts : rows account_fits (db_aws_accounts db);
  ty_roles : rows role_fits (db_aws_roles db);
  ty_assignments : rows assignment_fits (db_aws_role_assignments db);
  ty_revoked : rows fits (db_aws_revoked_users db);
  ty_keys : rows key_fits (db_signing_keys db);
  ty_integrations : rows integration_fits (db_app_integrations db);
}.
(** ** What fits *)

Lemma fits_column t : fits (column t).
Proof. apply column_idemp. Qed.

Lemma fits_stamp t : fits (stamp t).
Proof. apply column_stamp. Qed.

Lemma fits_created now t : fits (created now t).
Proof. unfold created, fits. destruct dialect eqn:E; [done|]. apply (column_idemp (d := PostgreSQL _)). Qed.

Lemma fits_later t n : fits t → fits (t + n * Second).
Proof.
  unfold fits, column, Microsecond, Second. destruct dialect; [done|]. intros Ht.
  replace (t + n * 1000000000) with (t + n * 1000000 * 1000) by lia. rewrite Z.div_add by done. lia.
Qed.

Lemma clocked_stamp t : clocked (stamp t).
Proof.
  unfold clocked, stamp, current_timestamp. destruct dialect; by rewrite Z.div_mul.
Qed.

Lemma clocked_later t n : clocked t → clocked (t + n * Second).
Proof.
  unfold clocked, stamp, current_timestamp, Microsecond, Second. destruct dialect; intros Ht; [rewrite Z.div_add by done; lia|].
  replace (t + n * 1000000000) with (t + n * 1000000 * 1000) by lia. rewrite Z.div_add by done. lia.
Qed.

Lemma fits_opt_column o : fits_opt (column <$> o).
Proof. destruct o; [|done]. unfold fits_opt. cbn. by rewrite column_idemp. Qed.

Lemma fits_opt_some t : fits t → fits_opt (Some t).
Proof. intros Ht. unfold fits_opt. cbn. by f_equal. Qed.

Lemma fits_opt_none : fits_opt None.
Proof. done. Qed.

(** ** Tables *)

Section rows.
  Context {K A} `{Countable K} (P : A → Prop).
  Implicit Types m : gmap K A.

Lemma rows_insert m k x : rows P m → P x → rows P (<[k := x]> m).
Proof. intros. by apply map_Forall_insert_2. Qed.

Lemma rows_delete m k : rows P m → rows P (delete k m).
Proof. apply map_Forall_delete. Qed.

Lemma rows_filter (Q : K * A → Prop) `{!∀ x, Decision (Q x)} m : rows P m → rows P (filter Q m).
Proof. intros Hm k x [Hx _]%map_lookup_filter_Some. by eapply Hm. Qed.

Lemma rows_delete_where b m : rows P m → rows P (delete_where b m).
Proof. apply rows_filter. Qed.

Lemma rows_drop_fk f d m : rows P m → rows P (drop_fk f d m).
Proof. apply rows_delete_where. Qed.

Lemma rows_alter f m k : rows P m → (∀ x, P x → P (f x)) → rows P (alter f k m).
Proof. intros Hm Hf i x [(-> & y & Hy & ->)|[_ Hx]]%lookup_alter_Some; eauto. Qed.

Lemma rows_fmap (f : A → A) m : rows P m → (∀ x, P x → P (f x)) → rows P (f <$> m).
Proof. intros Hm Hf i x. rewrite lookup_fmap, fmap_Some. intros (y & Hy & ->). eauto. Qed.

End rows.

Lemma insert_visibilities_fit db c t gs : ∀ vis vis',
  insert_visibilities db c t gs vis = Some vis' → clocked t → rows clocked vis → rows clocked vis'.
Proof.
  induction gs as [|g gs IH]; intros vis vis' H Ht Hv; cbn in H; [by simplify_eq|].
  destruct (insert_visibility db c t g vis) as [vis1|] eqn:H1; [|done]. eapply IH; [done..|].
  unfold insert_visibility in H1. repeat case_match; simplify_eq; [done|]. by apply rows_insert.
Qed.

Hint Resolve clocked_stamp clocked_later fits_column fits_stamp fits_created fits_later fits_opt_column fits_opt_some fits_opt_none : fits.
Hint Resolve rows_insert rows_delete rows_filter rows_delete_where rows_drop_fk rows_alter rows_fmap : fits.

(** A row after an assignment to some of its columns. *)
Ltac row_fits :=
  intros; unfold user_fits, client_fits, grant_fits, session_fits, totp_fits, webauthn_fits, wa_session_fits,
    group_fits, device_fits, account_fits, role_fits, assignment_fits, key_fits, integration_fits in *;
  cbn in *; destruct_and?; split_and?; eauto 3 with fits.


(** A method: refused, or some columns of some tables change. *)
Ltac typed_method :=
  repeat (autounfold with store; cbv zeta; cbn [snd];
    match goal with
    | |- db_typed (snd (if ?b then _ else _)) => destruct b eqn:?
    | |- db_typed (snd (match ?x with _ => _ end)) => destruct x eqn:?
    end); cbn [snd]; try assumption.

Lemma run_query_typed {A} fresh now (q : Query A) db :
  db_typed db → db_typed (run_query fresh now q db).2.
Proof.
  intros Hty. destruct q; cbn [run_query reading snd]; try exact Hty; typed_method;
    destruct Hty; constructor; cbn; try assumption; eauto 4 with fits.
  all: try (first [apply rows_insert | apply rows_alter | apply rows_fmap]; [assumption|row_fits]).
  all: try (unfold forget_user; case_decide; cbn; assumption).
  - eapply insert_visibilities_fit; eauto with fits.
  - replace (5 * Minute) with (300 * Second) by done. auto with fits.
Qed.

Lemma step_op_typed env {X} (op : Op X) w : db_typed (w_db w) → db_typed (w_db (step_op env op w).2).
Proof.
  intros Hty. pose proof (step_op_db env op w) as Hs. destruct op; try (by rewrite Hs).
  destruct Hs as [[->| ->] _]; [done|]. by apply run_query_typed.
Qed.

Lemma migrated_db_typed t : db_typed (migrated_db t).
Proof.
  constructor; try apply map_Forall_empty. intros i x Hx. cbn [migrated_db with_clients db_clients] in Hx.
  apply lookup_singleton_Some in Hx as [<- <-]. split; apply fits_stamp.
Qed.

(** The database is well typed.  In the migrated database, and in every
    concurrent execution of any handlers on a well-typed one, whatever the
    schedule, the answers of the environment and the failures of store calls,
    every timestamp of every table is a value of its column: with PostgreSQL a
    whole number of microseconds, and in the columns the clock writes with SQLite
    a whole number of seconds. *)
Theorem timestamps_well_typed env {A} sched (c : pool A) t :
  db_typed (migrated_db t) ∧
  (db_typed (w_db (p_world c)) → db_typed (w_db (p_world (run_pool env sched c)))).
Proof.
  split; [apply migrated_db_typed|]. apply (run_pool_ind env (λ c, db_typed (w_db (p_world c)))). intros i c' Hi. unfold pool_step.
  destruct (p_threads c' !! i) as [[|X op k]|]; [done| |done].
  pose proof (step_op_typed env op _ Hi) as Hw. by destruct (step_op env op (p_world c')).
Qed.

End typed.
