(* ===== verification/Server.v ===== *)
(** * Requests, responses and the helpers every handler uses

    The parts of [internal/api] that the endpoint files share: requests and
    responses, the server's configuration, audit logging ([audit.go]), the
    helpers at the bottom of [oauth2.go] and the bearer middleware
    ([middleware.go]).  Functions of packages outside the repository are the
    fields of [Externals]; every definition and theorem holds for all of them. *)
From S2P Require Import Prelude GoStrings GoNet Model Dialect Policy Tables SqliteUsers SqliteTokens SqliteAws Store Pkce Prog.

Local Open Scope Z_scope.
Local Open Scope prog_scope.

(** ** Code outside the repository *)

(** [authState], sealed into the [auth_state] cookie between the password and
    the MFA step of [/authorize]. *)
Record authState : Type := mkAuthState {
  as_UserID : uuid;
  as_AuthTime : Z;
  as_MFAVerified : bool;
  as_MFAAMR : list string;
  as_ClientID : string;
  as_RedirectURI : string;
  as_Scopes : list string;
  as_State : string;
  as_Nonce : string;
  as_CodeChallenge : string;
  as_Exp : Z;
}.

(** [portalLoginState], sealed into the [portal_login] cookie. *)
Record portalLoginState : Type := mkPortalLoginState {
  pls_UserID : uuid;
  pls_Exp : Z;
}.

(** [totpPending], sealed into the [portal_totp] cookie during enrolment. *)
Record totpPending : Type := mkTotpPending {
  tp_OTPURI : string;
  tp_Secret : string;
  tp_Exp : Z;
}.

(** What [json.Decoder.Decode] makes of a response body: [io.EOF] on an empty
    one. *)
Inductive decoded (A : Type) : Type :=
| Decoded (a : A)
| DecodeEOF
| DecodeFailed.
Arguments Decoded {A} a.
Arguments DecodeEOF {A}.
Arguments DecodeFailed {A}.

(** Hashing and password checks of package [creds], the cookie cipher
    ([Open] undoes what the effect [OpSeal] does, base64 included), the JSON
    codecs of the cookie payloads, the parsers of URLs and durations, UUID
    text, the QR image, the WebAuthn library's parser and its session data,
    the key encodings of [crypto/x509] ([None]: a key that is not RSA; the
    public half of a private key is encoded for a kid and as a JWK) and the
    JSON answers the clients read (a string field of an object, by a decoder or
    by [json.Unmarshal]; the identifiers of a SCIM list), the JSON and the Go
    form of a string, the IP syntax, and the process environment: the SCIM
    client's TLS material ([false]: none) and the AWS configuration. *)
Class Externals : Type := {
  HashToken : string → string;
  CheckPassword : string → string → bool;
  Open : string → result string;
  authState_Marshal : authState → string;
  authState_Unmarshal : string → result authState;
  loginState_Marshal : portalLoginState → string;
  loginState_Unmarshal : string → result portalLoginState;
  url_Parse : string → result URL;
  time_ParseDuration : string → result Z;
  uuid_String : uuid → string;
  uuid_Parse : string → result uuid;
  totpPending_Marshal : totpPending → string;
  totpPending_Unmarshal : string → result totpPending;
  totpQRCode : string → result string;
  wa_ParseAssertion : string → result WaAssertion;
  waSession_Unmarshal : string → result string;
  x509_MarshalPKCS8 : string → result string;
  x509_ParsePKCS8 : string → result (option string);
  x509_MarshalPKIX : string → result string;
  PublicKeyToJWK : string → string → JVal;
  json_Field : string → string → decoded string;
  json_Unmarshal_Field : string → string → result string;
  json_ResourceIDs : string → decoded (list string);
  json_String : string → string;
  strconv_Quote : string → string;
  net_ParseIP : string → bool;
  scimTLSFromEnv : result bool;
  aws_LoadDefaultConfig : result unit;
}.

(** ** Requests and responses *)

(** A JSON body decoded into the struct of the endpoint that reads it: an
    absent string is empty, an absent list is empty. *)
Record JSONBody : Type := mkJSONBody {
  jb_Str : string → string;
  jb_Bool : string → option bool;
  jb_Strs : string → list string;
}.

(** An [http.Request], as far as the handlers read it. *)
Record Request : Type := mkRequest {
  rq_Method : string;
  rq_ParseOK : bool;                    (* ParseForm succeeded *)
  rq_FormValue : string → string;
  rq_Query : string → string;           (* URL.Query().Get *)
  rq_BasicAuth : option (string * string);
  rq_Authorization : string;
  rq_Cookie : string → option string;
  rq_UserAgent : string;
  rq_ClientIP : string;                 (* ipExtractor.FromRequest *)
  rq_PathID : string;                   (* PathValue("id") *)
  rq_Form : string → list string;       (* all values of a form field *)
  rq_JSON : option JSONBody;            (* the JSON body, if it decodes *)
  rq_Body : string;
  rq_Path : string;                     (* URL.EscapedPath() *)
  rq_Accept : string;                   (* the Accept header *)
}.

(** The request with the path segment the multiplexer found. *)
Definition with_path_id (id : string) (r : Request) : Request :=
  {| rq_Method := rq_Method r; rq_ParseOK := rq_ParseOK r; rq_FormValue := rq_FormValue r;
     rq_Query := rq_Query r; rq_BasicAuth := rq_BasicAuth r; rq_Authorization := rq_Authorization r;
     rq_Cookie := rq_Cookie r; rq_UserAgent := rq_UserAgent r; rq_ClientIP := rq_ClientIP r; rq_PathID := id;
     rq_Form := rq_Form r; rq_JSON := rq_JSON r; rq_Body := rq_Body r;
     rq_Path := rq_Path r; rq_Accept := rq_Accept r |}.

(** A redirect target: a path of the server, a path with an encoded query
    ([path + "?" + q.Encode()]), or a parsed URL in whose query parameters are
    set ([q := u.Query(); q.Set(k, v); u.RawQuery = q.Encode()]) and which is
    printed again ([u.String()]). *)
Inductive Location : Type :=
| LocPath (p : string)
| LocQuery (p : string) (params : list (string * string))
| LocParams (u : URL) (params : list (string * string)).

Inductive Body : Type :=
| Json (fields : list (string * JVal))
| Text (s : string)
| Redirect (l : Location)
| Page (template : string) (data : list (string * JVal))
| NoBody.

(** [http.SameSite]: the attribute is left out, or says Lax. *)
Inductive SameSite : Set := SameSiteDefault | SameSiteLaxMode.

(** [http.Cookie], the fields the code sets. *)
Record Cookie : Type := mkCookie {
  ck_Name : string;
  ck_Value : string;
  ck_Path : string;
  ck_MaxAge : Z;
  ck_HttpOnly : bool;
  ck_SameSite : SameSite;
}.

Record Response : Type := mkResponse {
  rs_Status : Z;
  rs_Cookies : list Cookie;
  rs_Body : Body;
}.

Definition StatusOK : Z := 200.
Definition StatusCreated : Z := 201.
Definition StatusNoContent : Z := 204.
Definition StatusFound : Z := 302.
Definition StatusBadRequest : Z := 400.
Definition StatusUnauthorized : Z := 401.
Definition StatusForbidden : Z := 403.
Definition StatusNotFound : Z := 404.
Definition StatusConflict : Z := 409.
Definition StatusInternalServerError : Z := 500.
Definition StatusBadGateway : Z := 502.
Definition StatusServiceUnavailable : Z := 503.

(** The text of an error, by its kind. *)
Definition err_Error (e : error) : string :=
  match e with ErrNotFound => "not found" | ErrConflict => "conflict" | ErrOther => "error" end.

Definition writeJSON (status : Z) (v : list (string * JVal)) : Response := mkResponse status [] (Json v).

Definition writeError (status : Z) (errCode desc : string) : Response :=
  writeJSON status [("error", JStr errCode); ("error_description", JStr desc)].

Definition httpError (msg : string) (status : Z) : Response := mkResponse status [] (Text msg).
Definition httpRedirect (l : Location) : Response := mkResponse StatusFound [] (Redirect l).
Definition render (template : string) (data : list (string * JVal)) : Response :=
  mkResponse StatusOK [] (Page template data).

(** [http.SetCookie] calls made before the response was written. *)
Definition with_cookies (cks : list Cookie) (r : Response) : Response :=
  mkResponse (rs_Status r) (cks ++ rs_Cookies r) (rs_Body r).

Definition clearCookie (name : string) : Cookie := mkCookie name "" "/" (-1) false SameSiteDefault.

(** What [recoverMiddleware] answers when a handler panics. *)
Definition panicked : Response := writeError StatusInternalServerError "server_error" "internal error".

(** ** Configuration *)

Record Server : Type := mkServer {
  srv_policy : Engine;
  srv_issuer : string;
  srv_allowReg : bool;
  srv_hasSigner : bool;
  srv_stepUpMFATTL : Z;
  srv_awsAudience : string;
  srv_awsRegions : list string;
  srv_awsDefaultRegion : string;
  srv_scimTLS : bool;                   (* a TLS configuration is present *)
}.

(** ** Time limits of oauth2.go *)

Definition authStateTTL : Z := 15 * Minute.
Definition accessTokenTTL : Z := 15 * Minute.
Definition refreshTokenTTL : Z := Hour.
Definition absoluteSessionTTL : Z := 4 * Hour.

Definition capByAbsolute (deadline createdAt : Z) : Z :=
  let hardCap := createdAt + absoluteSessionTTL in
  if hardCap <? deadline then hardCap else deadline.

(** ** audit.go *)

Definition ActionLogin : string := "auth.login".
Definition ActionLoginFailed : string := "auth.login.failed".
Definition ActionLoginMFA : string := "auth.login.mfa".
Definition ActionLoginMFAFailed : string := "auth.login.mfa.failed".
Definition ActionLogout : string := "auth.logout".
Definition ActionTokenIssued : string := "auth.token.issued".
Definition ActionTokenRevoked : string := "auth.token.revoked".
Definition ActionTokenRefreshed : string := "auth.token.refreshed".
Definition ActionTokenReuseDetected : string := "auth.token.refresh_reuse".
Definition ActionBackchannelLogout : string := "auth.logout.backchannel".
Definition ActionUserCreated : string := "admin.user.created".
Definition ActionUserUpdated : string := "admin.user.updated".
Definition ActionUserDeleted : string := "admin.user.deleted".
Definition ActionUserCompromisedReset : string := "admin.user.compromised_reset".
Definition ActionClientCreated : string := "admin.client.created".
Definition ActionClientUpdated : string := "admin.client.updated".
Definition ActionClientDeleted : string := "admin.client.deleted".
Definition ActionClientSecretRotated : string := "admin.client.secret.rotated".
Definition ActionGroupCreated : string := "admin.group.created".
Definition ActionGroupUpdated : string := "admin.group.updated".
Definition ActionGroupDeleted : string := "admin.group.deleted".
Definition ActionMFATOTPEnrolled : string := "mfa.totp.enrolled".
Definition ActionMFATOTPDeleted : string := "mfa.totp.deleted".
Definition ActionMFAWebAuthnEnrolled : string := "mfa.webauthn.enrolled".
Definition ActionMFAWebAuthnDeleted : string := "mfa.webauthn.deleted".
Definition ActionIntegrationCreated : string := "admin.integration.created".
Definition ActionIntegrationUpdated : string := "admin.integration.updated".
Definition ActionIntegrationDeleted : string := "admin.integration.deleted".
Definition ActionIntegrationTested : string := "admin.integration.tested".
Definition ActionIntegrationSynced : string := "admin.integration.synced".
Definition ActionAWSAccountCreated : string := "admin.aws.account.created".
Definition ActionAWSAccountUpdated : string := "admin.aws.account.updated".
Definition ActionAWSAccountDeleted : string := "admin.aws.account.deleted".
Definition ActionAWSRoleCreated : string := "admin.aws.role.created".
Definition ActionAWSRoleUpdated : string := "admin.aws.role.updated".
Definition ActionAWSRoleDeleted : string := "admin.aws.role.deleted".
Definition ActionAWSAssignmentCreated : string := "admin.aws.assignment.created".
Definition ActionAWSAssignmentDeleted : string := "admin.aws.assignment.deleted".
Definition ActionAWSConsoleAssumed : string := "aws.console.assumed".
Definition ActionAWSConsoleAssumeFailed : string := "aws.console.assume.failed".
Definition ActionAWSFederationRevoked : string := "aws.federation.revoked".
Definition ActionAWSFederationRevokedManual : string := "aws.federation.revoked.manual".
Definition ActionAWSFederationRevokeReaped : string := "aws.federation.revoke.reaped".
Definition ActionDeviceAuthorizationCreated : string := "auth.device.authorization.created".
Definition ActionDeviceCodeApproved : string := "auth.device.code.approved".
Definition ActionDeviceCodeDenied : string := "auth.device.code.denied".
Definition ActionDeviceCodeRedeemed : string := "auth.device.code.redeemed".

(** [logAudit]: best-effort name lookups, then one journal entry. *)
Definition logAudit (r : Request) (action : string) (userID clientID : option uuid)
    (meta : list (string * MetaVal)) : prog (result unit) :=
  names <- match userID with
           | Some id =>
               u <- db (QGetUserByID id);;
               Ret (match u with Ok u => (u_Email u, u_Name u) | Err _ => ("", "") end)
           | None => Ret ("", "")
           end;;
  cname <- match clientID with
           | Some id =>
               c <- db (QGetClientByID id);;
               Ret (match c with Ok c => c_Name c | Err _ => "" end)
           | None => Ret ""
           end;;
  id <- newUUID;;
  t <- now;;
  do_op (OpAppend
    {| ent_ID := id; ent_Action := action; ent_UserID := userID; ent_UserEmail := names.1;
       ent_UserName := names.2; ent_ClientID := clientID; ent_ClientName := cname;
       ent_IP := rq_ClientIP r; ent_UserAgent := rq_UserAgent r; ent_Metadata := meta;
       ent_OccurredAt := t |}).

(** The uniform fail-closed answer; [err] is the text of the error. *)
Definition auditFail (err : string) : Response :=
  httpError ("audit journal unreachable; request refused: " +:+ err) StatusServiceUnavailable.

(** [Engine.First] in a request: each rule reads the clock for itself when its
    [Evaluate] does, and the rules after the first violation are not run. *)
Fixpoint engine_First (rs : list AnyRule) (ctx : PolicyContext) : prog (option PolicyViolation) :=
  match rs with
  | [] => Ret None
  | r :: rs =>
      t <- (if Clock1 r ctx then now else Ret 0);;
      match Evaluate1 t r ctx with
      | Some v => Ret (Some v)
      | None => engine_First rs ctx
      end
  end.

Section helpers.
  Context `{U : UnicodeTables} {dialect : Dialect} `{X : Externals}.

(** ** middleware.go *)

Fixpoint containsStr (ss : list string) (target : string) : bool :=
  match ss with
  | [] => false
  | s :: ss => if EqualFold s target then true else containsStr ss target
  end.

Definition extractBearerToken (r : Request) : string :=
  match CutPrefix (rq_Authorization r) "Bearer " with Some raw => raw | None => "" end.

Definition sessionTokenLive (sess : Session) : prog bool :=
  t <- now;;
  when s_AccessExpiresAt sess <? t return Ret false;;
  when s_CreatedAt sess + absoluteSessionTTL <? t return Ret false;;
  Ret true.

(** The session is passed to [next] as an argument instead of through the
    request context. *)
Definition bearerAuth (next : Session → Request → prog Response) (r : Request) : prog Response :=
  let raw := extractBearerToken r in
  when bool_decide (raw = "") return
    Ret (writeError StatusUnauthorized "unauthorized" "missing token");;
  sess <- db (QGetSessionByAccessTokenHash (HashToken raw));;
  match sess with
  | Err ErrNotFound => Ret (writeError StatusUnauthorized "invalid_token" "token not found")
  | Err _ => Ret (writeError StatusInternalServerError "server_error" "internal error")
  | Ok sess =>
      live <- sessionTokenLive sess;;
      when negb live return
        Ret (writeError StatusUnauthorized "invalid_token" "access token expired");;
      next sess r
  end.

(** [strings.TrimPrefix(h, "Bearer ")]: a header without the prefix is taken whole. *)
Definition adminAuth (next : Session → Request → prog Response) (r : Request) : prog Response :=
  let raw := match CutPrefix (rq_Authorization r) "Bearer " with
             | Some raw => raw | None => rq_Authorization r end in
  when bool_decide (raw = "") return
    Ret (writeError StatusUnauthorized "unauthorized" "missing token");;
  sess <- db (QGetSessionByAccessTokenHash (HashToken raw));;
  match sess with
  | Err ErrNotFound => Ret (writeError StatusUnauthorized "invalid_token" "token not found")
  | Err _ => Ret (writeError StatusInternalServerError "server_error" "internal error")
  | Ok sess =>
      when negb (containsStr (s_Scopes sess) "admin") return
        Ret (writeError StatusForbidden "insufficient_scope" "admin scope required");;
      live <- sessionTokenLive sess;;
      when negb live return
        Ret (writeError StatusUnauthorized "invalid_token" "access token expired");;
      when bool_decide (s_UserID sess = uuid_nil) return next sess r;;
      user <- db (QGetUserByID (s_UserID sess));;
      match user with
      | Err ErrNotFound =>
          Ret (writeError StatusForbidden "insufficient_scope" "admin privileges required")
      | Err _ => Ret (writeError StatusInternalServerError "server_error" "internal error")
      | Ok user =>
          when negb (u_Active user) || negb (u_IsAdmin user) return
            Ret (writeError StatusForbidden "insufficient_scope" "admin privileges required");;
          next sess r
      end
  end.

(** ** Helpers of oauth2.go *)

Definition splitScopes (scope : string) : list string :=
  if bool_decide (scope = "") then [] else Fields scope.

(** The first requested scope the client is not registered for. *)
Fixpoint unregistered (registered scopes : list string) : string :=
  match scopes with
  | [] => ""
  | sc :: scopes => if containsStr registered sc then unregistered registered scopes else sc
  end.

Definition unregisteredScope (client : Client) (scopes : list string) : string :=
  unregistered (c_Scopes client) scopes.

Definition is_bracket (a : ascii) : bool := Ascii.eqb a "[" || Ascii.eqb a "]".

Definition isLoopbackHost (host : string) : bool :=
  let h := ToLower (Trim is_bracket host) in
  bool_decide (h = "127.0.0.1") || bool_decide (h = "::1") || bool_decide (h = "localhost").

(** The loop of [loopbackRedirectMatch] over the registered URIs. *)
Fixpoint loopback_scan (registered : list string) (path : string) : bool :=
  match registered with
  | [] => false
  | reg :: registered =>
      match url_Parse reg with
      | Err _ => loopback_scan registered path
      | Ok r =>
          if negb (bool_decide (url_Scheme r = "http")) then loopback_scan registered path
          else if negb (isLoopbackHost (url_Hostname r)) then loopback_scan registered path
          else if bool_decide (url_Path r = path) then true
          else loopback_scan registered path
      end
  end.

Definition loopbackRedirectMatch (registered : list string) (uri : string) : bool :=
  match url_Parse uri with
  | Err _ => false
  | Ok inn =>
      if negb (bool_decide (url_Scheme inn = "http")) then false
      else if negb (isLoopbackHost (url_Hostname inn)) then false
      else loopback_scan registered (url_Path inn)
  end.

Definition validRedirectURI (client : Client) (uri : string) : bool :=
  if str_contains (c_RedirectURIs client) uri then true
  else loopbackRedirectMatch (c_RedirectURIs client) uri.

(** The credentials a request carries: form fields, or HTTP Basic when the
    form names no client. *)
Definition clientCredentials (r : Request) : string * string :=
  match rq_BasicAuth r with
  | Some up => if bool_decide (rq_FormValue r "client_id" = "") then up
               else (rq_FormValue r "client_id", rq_FormValue r "client_secret")
  | None => (rq_FormValue r "client_id", rq_FormValue r "client_secret")
  end.

(** The error text of [authenticateClient], or the client. *)
Definition authenticateClient (r : Request) : prog (string + Client) :=
  let '(clientID, clientSecret) := clientCredentials r in
  client <- db (QGetClientByClientID clientID);;
  match client with
  | Err ErrNotFound => Ret (inl "unknown client")
  | Err _ => Ret (inl "internal error")
  | Ok client =>
      if c_Public client then Ret (inr client)
      else if bool_decide (clientSecret = "") then Ret (inl "client_secret required")
      else if bool_decide (HashToken clientSecret = c_ClientSecretHash client)
      then Ret (inr client) else Ret (inl "invalid client_secret")
  end.

(** The tenth consecutive failure locks the account for half an hour. *)
Definition incrementFailedAttempts (user : User) : prog unit :=
  let count := u_FailedAttempts user + 1 in
  locked <- (if 10 <=? count then t <- now;; Ret (Some (t + 30 * Minute)) else Ret None);;
  db (QUpdateUserFailedAttempts (u_ID user) count locked);;;
  Ret tt.

Definition sessionAuthTime (sess : Session) : prog Z :=
  if negb (IsZero (s_AuthTime sess)) then Ret (s_AuthTime sess)
  else if negb (IsZero (s_CreatedAt sess)) then Ret (s_CreatedAt sess)
  else now.

(** [groupNamesForUser] of web_portal_aws.go. *)
Definition groupNamesForUser (userID : uuid) : prog (result (list string)) :=
  groups <- db QListGroups;;
  Ret (match groups with
       | Err e => Err e
       | Ok groups => Ok (grp_DisplayName <$> filter (λ g, userID ∈ grp_Members g) groups)
       end).

(** [redirectWithOIDCError]. *)
Definition redirectWithOIDCError (redirectURI code state : string) : Response :=
  match url_Parse redirectURI with
  | Err _ => httpError "invalid redirect_uri" StatusBadRequest
  | Ok u => httpRedirect (LocParams u
              (("error", code) :: if bool_decide (state = "") then [] else [("state", state)]))
  end.

End helpers.

#[global] Arguments logAudit : simpl never.
#[global] Arguments engine_First : simpl never.
#[global] Arguments authenticateClient : simpl never.
#[global] Arguments sessionTokenLive : simpl never.
#[global] Arguments groupNamesForUser : simpl never.
#[global] Arguments sessionAuthTime : simpl never.
#[global] Arguments incrementFailedAttempts : simpl never.

(** ** What the helpers do *)

(** The engine reads only the clock, and its verdict is that of [First] at the
    readings the trace shows. *)
Lemma engine_First_path rs ctx tr v :
  path (engine_First rs ctx) tr v →
  Forall (λ e, ∃ t, e = Ev OpNow t) tr ∧
  ∃ clock, first_go clock rs ctx = v ∧ (v = None → tr = Ev OpNow <$> readings clock rs ctx).
Proof.
  revert tr. induction rs as [|r rs IH]; intros tr H; cbn [engine_First] in H.
  { destruct H as [-> ->]. split; [done|]. by exists (λ _, 0). }
  apply path_bind in H as (tr1 & tr2 & x & -> & Hcall & H).
  assert (tr1 = if Clock1 r ctx then [Ev OpNow x] else []) as ->.
  { destruct (Clock1 r ctx); [|by destruct Hcall as [-> _]]. by destruct Hcall as (? & ? & -> & -> & ->). }
  assert (Forall (λ e, ∃ t, e = Ev OpNow t) (if Clock1 r ctx then [Ev OpNow x] else [])).
  { destruct (Clock1 r ctx); eauto using Forall_nil, Forall_cons. }
  destruct (Evaluate1 x r ctx) as [v'|] eqn:Hv.
  - destruct H as [-> ->]. rewrite app_nil_r. split; [done|].
    exists (λ _, x). cbn [first_go]. rewrite Hv. by split.
  - destruct (IH _ H) as (Hr & clock & Hf & Htr). split; [by apply Forall_app|].
    exists (λ i, match i with O => x | S j => clock j end). cbn [first_go readings]. rewrite Hv.
    split; [exact Hf|]. intros Hn. rewrite (Htr Hn), fmap_app.
    f_equal. by destruct (Clock1 r ctx).
Qed.

Lemma engine_First_calls P rs ctx : (∀ t, P (Ev OpNow t)) → calls P (engine_First rs ctx).
Proof.
  intros HP. induction rs as [|r rs IH]; cbn [engine_First]; [done|].
  apply calls_bind; [destruct (Clock1 r ctx); [|done]; intros t; by split|].
  intros t. by destruct (Evaluate1 t r ctx).
Qed.

#[export] Hint Extern 1 (calls _ (engine_First _ _)) =>
  apply engine_First_calls; intros ?; first [reflexivity | exact I | split; reflexivity | left; reflexivity] : calls.

Lemma clock_reads tr : Forall (λ e, ∃ t, e = Ev OpNow t) tr → Forall (λ e, writes e = false) tr.
Proof. apply Forall_impl. by intros ? [t ->]. Qed.

(** [logAudit] reads, then appends one entry with the given fields, and
    answers what the journal answered. *)
Lemma logAudit_path r action u c meta tr x :
  path (logAudit r action u c meta) tr x →
  ∃ tr0 e, tr = tr0 ++ [Ev (OpAppend e) x] ∧ Forall (λ e, writes e = false) tr0 ∧
    ent_Action e = action ∧ ent_UserID e = u ∧ ent_ClientID e = c ∧ ent_Metadata e = meta.
Proof.
  unfold logAudit. intros H. path_call H. path_call H. repeat path_step H. subst.
  match goal with
  | |- ∃ tr0 e, ?a ++ ?b ++ [?c; ?d; Ev (OpAppend ?e) ?x] = _ ∧ _ => exists (a ++ b ++ [c; d]), e
  end.
  split; [by rewrite <- !app_assoc|]. split; [|done].
  apply Forall_app. split; [|apply Forall_app; split; [|by repeat constructor]].
  - destruct u; repeat path_step Hcall; by repeat constructor.
  - destruct c; repeat path_step Hcall0; by repeat constructor.
Qed.

(** A client has proved its identity: it is public, or presented its secret. *)
Definition authenticated `{Externals} (client : Client) (sec : string) : Prop :=
  c_Public client = true ∨ sec ≠ "" ∧ HashToken sec = c_ClientSecretHash client.

(** Client authentication is one read, of the client the request names. *)
Lemma authenticateClient_path `{Externals} r tr x :
  path (authenticateClient r) tr x →
  ∃ res, tr = [Ev (OpDb (QGetClientByClientID (clientCredentials r).1)) res] ∧
    ∀ client, x = inr client → res = Ok client ∧ authenticated client (clientCredentials r).2.
Proof.
  unfold authenticateClient, authenticated. destruct (clientCredentials r) as [cid sec].
  intros Hp. repeat path_step Hp; subst; eexists; (split; [reflexivity|]);
    intros client [= <-]; (split; [reflexivity|]); auto.
  right. apply bool_decide_eq_false in Hb0. by apply bool_decide_eq_true in Hb1.
Qed.

Lemma sessionTokenLive_path sess tr b :
  path (sessionTokenLive sess) tr b →
  ∃ t, tr = [Ev OpNow t] ∧
    b = (t <=? s_AccessExpiresAt sess) && (t <=? s_CreatedAt sess + absoluteSessionTTL).
Proof.
  unfold sessionTokenLive. intros H. repeat path_step H; subst; eexists; (split; [reflexivity|]);
    repeat match goal with H : (_ <? _) = _ |- _ => apply Z.ltb_lt in H || apply Z.ltb_ge in H end;
    symmetry; rewrite ?andb_true_iff, ?andb_false_iff, ?Z.leb_le, ?Z.leb_gt; lia.
Qed.

Lemma groupNamesForUser_path uid tr x :
  path (groupNamesForUser uid) tr x → Forall (λ e, writes e = false) tr.
Proof. unfold groupNamesForUser. intros H. repeat path_step H; by repeat constructor. Qed.

Lemma sessionAuthTime_path sess tr t :
  path (sessionAuthTime sess) tr t → Forall (λ e, writes e = false) tr.
Proof.
  unfold sessionAuthTime, now. intros H. repeat path_step H; by repeat constructor.
Qed.

(** With a reachable journal and store, [logAudit] succeeds: it appends its
    entry and changes nothing else. *)
Lemma exec_logAudit `{UnicodeTables} {dialect : Dialect} env r action u c meta w :
  reliable env →
  ∃ e n, exec env (logAudit r action u c meta) w
         = (Ok tt, mkWorld (w_db w) n (w_journal w ++ [e]) (w_outbox w) (w_outside w)) ∧
    ent_Action e = action ∧ ent_UserID e = u ∧ ent_ClientID e = c ∧ ent_Metadata e = meta.
Proof.
  intros Hr. unfold logAudit.
  destruct u, c; do 3 (cbn; rewrite ?Hr); eexists _, _; (split; [reflexivity|done]).
Qed.

(** ** Scopes *)

Section scopes.
  Context `{U : UnicodeTables} {dialect : Dialect} `{X : Externals}.

Lemma unregistered_ok registered scopes :
  "" ∉ scopes → unregistered registered scopes = "" →
  Forall (λ sc, containsStr registered sc = true) scopes.
Proof.
  induction scopes as [|sc scopes IH]; intros Hne Hu; [constructor|].
  apply not_elem_of_cons in Hne as [Hsc Hne]. simpl in Hu.
  destruct (containsStr registered sc) eqn:E; [|congruence]. constructor; auto.
Qed.

Lemma splitScopes_nonempty scope : "" ∉ splitScopes scope.
Proof.
  unfold splitScopes. case_bool_decide; [by apply not_elem_of_nil|].
  intros Hin%list_elem_of_In. pose proof (Fields_is_field scope) as Hf.
  rewrite Forall_forall in Hf. by destruct (Hf _ Hin).
Qed.

(** Every requested scope passed the registration check. *)
Lemma unregisteredScope_split client scope :
  unregisteredScope client (splitScopes scope) = "" →
  Forall (λ sc, containsStr (c_Scopes client) sc = true) (splitScopes scope).
Proof. apply unregistered_ok, splitScopes_nonempty. Qed.

(** ** The bearer gates *)

(** What a request through the gate did. *)
Lemma bearerAuth_path next r tr resp :
  path (bearerAuth next r) tr resp →
  (rs_Status resp = StatusUnauthorized ∨ rs_Status resp = StatusInternalServerError) ∧
    Forall (λ e, changes e = false) tr
  ∨ ∃ sess t tr',
      tr = Ev (OpDb (QGetSessionByAccessTokenHash (HashToken (extractBearerToken r)))) (Ok sess)
           :: Ev OpNow t :: tr' ∧
      extractBearerToken r ≠ "" ∧ t ≤ s_AccessExpiresAt sess ∧
      t ≤ s_CreatedAt sess + absoluteSessionTTL ∧ path (next sess r) tr' resp.
Proof.
  unfold bearerAuth. intros H. path_step H; [left; path_step H; subst; by auto|].
  apply bool_decide_eq_false in Hb. path_step H.
  path_step H; [|left; path_step H; path_step H; subst; split; by repeat constructor || auto].
  path_call H. apply sessionTokenLive_path in Hcall as (t & -> & ->).
  path_step H; [left; path_step H; subst; split; [by auto|by repeat constructor]|].
  apply negb_false_iff, andb_prop in Hb0 as [Ha%Z.leb_le Hc%Z.leb_le].
  right. by eauto 10.
Qed.

(** [bearerAuth] lets a request through to its handler only with a session
    found by the presented token's hash, before the token's expiry and within
    four hours of the session's creation, as the clock reads after the lookup;
    every other request is answered 401 or 500 without changing anything. *)
Theorem bearer_gate next r tr resp :
  path (bearerAuth next r) tr resp →
  (rs_Status resp = StatusUnauthorized ∨ rs_Status resp = StatusInternalServerError) ∧
    Forall (λ e, changes e = false) tr
  ∨ ∃ sess t tr',
      tr = Ev (OpDb (QGetSessionByAccessTokenHash (HashToken (extractBearerToken r)))) (Ok sess)
           :: Ev OpNow t :: tr' ∧
      extractBearerToken r ≠ "" ∧ t ≤ s_AccessExpiresAt sess ∧
      t ≤ s_CreatedAt sess + absoluteSessionTTL ∧ path (next sess r) tr' resp.
Proof. apply bearerAuth_path. Qed.

(** What a request through the gate did. *)
Lemma adminAuth_path next r tr resp :
  path (adminAuth next r) tr resp →
  (rs_Status resp = StatusUnauthorized ∨ rs_Status resp = StatusForbidden ∨
   rs_Status resp = StatusInternalServerError) ∧ Forall (λ e, changes e = false) tr
  ∨ ∃ h sess t tr',
      path (next sess r) tr' resp ∧ containsStr (s_Scopes sess) "admin" = true ∧
      t ≤ s_AccessExpiresAt sess ∧ t ≤ s_CreatedAt sess + absoluteSessionTTL ∧
      (s_UserID sess = uuid_nil ∧
         tr = Ev (OpDb (QGetSessionByAccessTokenHash h)) (Ok sess) :: Ev OpNow t :: tr'
       ∨ ∃ user, u_Active user = true ∧ u_IsAdmin user = true ∧
         tr = Ev (OpDb (QGetSessionByAccessTokenHash h)) (Ok sess) :: Ev OpNow t
              :: Ev (OpDb (QGetUserByID (s_UserID sess))) (Ok user) :: tr').
Proof.
  unfold adminAuth. intros H.
  destruct (match CutPrefix _ _ with Some _ => _ | None => _ end) as [|a raw]; cbn beta zeta in H.
  { path_step H; [left; path_step H; subst; by auto|]. by apply bool_decide_eq_false in Hb. }
  path_step H; [by apply bool_decide_eq_true in Hb|]. path_step H.
  path_step H; [|left; path_step H; path_step H; subst; split; by repeat constructor || auto].
  path_step H; [left; path_step H; subst; split; [by auto|by repeat constructor]|].
  path_call H. apply sessionTokenLive_path in Hcall as (t & -> & ->).
  path_step H; [left; path_step H; subst; split; [by auto|by repeat constructor]|].
  apply negb_false_iff in Hb0. apply negb_false_iff, andb_prop in Hb1 as [Ha%Z.leb_le Hc%Z.leb_le].
  path_step H; [apply bool_decide_eq_true in Hb1; right; by eauto 15|]. path_step H.
  path_step H; [|left; path_step H; path_step H; subst; split; by repeat constructor || auto].
  path_step H; [left; path_step H; subst; split; [by auto|by repeat constructor]|].
  apply orb_false_elim in Hb2 as [?%negb_false_iff ?%negb_false_iff]. right. by eauto 15.
Qed.

(** [adminAuth] lets a request through only with a live session that
    carries the admin scope and either has no user (a machine session) or
    belongs to a user that the store then reports as active and admin; every
    other request is answered 401, 403 or 500 without changing anything. *)
Theorem admin_gate next r tr resp :
  path (adminAuth next r) tr resp →
  (rs_Status resp = StatusUnauthorized ∨ rs_Status resp = StatusForbidden ∨
   rs_Status resp = StatusInternalServerError) ∧ Forall (λ e, changes e = false) tr
  ∨ ∃ h sess t tr',
      path (next sess r) tr' resp ∧ containsStr (s_Scopes sess) "admin" = true ∧
      t ≤ s_AccessExpiresAt sess ∧ t ≤ s_CreatedAt sess + absoluteSessionTTL ∧
      (s_UserID sess = uuid_nil ∧
         tr = Ev (OpDb (QGetSessionByAccessTokenHash h)) (Ok sess) :: Ev OpNow t :: tr'
       ∨ ∃ user, u_Active user = true ∧ u_IsAdmin user = true ∧
         tr = Ev (OpDb (QGetSessionByAccessTokenHash h)) (Ok sess) :: Ev OpNow t
              :: Ev (OpDb (QGetUserByID (s_UserID sess))) (Ok user) :: tr').
Proof. apply adminAuth_path. Qed.

End scopes.
