(* ===== verification/Provision.v ===== *)
(** * Provisioning

    [internal/provision]: the interface every downstream system implements,
    the fan-out over a set of targets ([Set]), the full synchronisation
    ([SyncAll]) and the SCIM client ([scim/client.go]).  The other
    implementation, the registry and the construction of targets are in
    [Awsfed]. *)
From stdpp Require Import sorting.
From S2P Require Import Prelude GoStrings GoNet Model Dialect Policy Tables SqliteUsers SqliteTokens SqliteAws Store Pkce Prog.
From S2P Require Import SingleUse Server.

Local Open Scope Z_scope.
Local Open Scope prog_scope.

(** ** provision.go *)

Inductive ProvOp : Type := OpCreate | OpUpdate | OpDeactivate | OpDelete.

Definition ProvOp_String (o : ProvOp) : string :=
  match o with
  | OpCreate => "create" | OpUpdate => "update" | OpDeactivate => "deactivate" | OpDelete => "delete"
  end.

(** What a downstream system offers. *)
Class Provisioner (P : Type) : Type := {
  Name : P → string;
  prov_User : P → ProvOp → User → list string → prog (result unit);
  prov_Group : P → ProvOp → SCIMGroup → list User → prog (result unit);
}.

(** A loop whose body may fail and never stops it: errors are logged. *)
Fixpoint for_each {A B} (l : list A) (body : A → prog B) : prog unit :=
  match l with
  | [] => Ret tt
  | a :: l => body a;;; for_each l body
  end.

(** The map the loops build from a slice of users: the last entry of an
    identifier wins. *)
Definition users_by_id (users : list User) : gmap N User :=
  foldl (λ m u, <[u_ID u := u]> m) ∅ users.

Section set.
  Context {P : Type} `{Provisioner P}.

(** [Set.User]; the user is nil when [None]. *)
Definition Set_User (provs : list P) (op : ProvOp) (u : option User) (groups : list string) : prog unit :=
  match u with
  | None => Ret tt
  | Some u => for_each provs (λ p, prov_User p op u groups)
  end.

Definition Set_Group (provs : list P) (op : ProvOp) (g : option SCIMGroup) (members : list User) : prog unit :=
  match g with
  | None => Ret tt
  | Some g => for_each provs (λ p, prov_Group p op g members)
  end.

(** ** sync.go *)

(** One pass over rows: how many pushes succeeded and how many failed. *)
Fixpoint sync_rows {A} (push : A → prog (result unit)) (l : list A) (ok fail : Z) : prog (Z * Z) :=
  match l with
  | [] => Ret (ok, fail)
  | a :: l =>
      r <- push a;;
      match r with
      | Err _ => sync_rows push l ok (fail + 1)
      | Ok _ => sync_rows push l (ok + 1) fail
      end
  end.

(** The counts (userOK, userFail, groupOK, groupFail). *)
Definition SyncAll (prov : P) : prog (Z * Z * Z * Z) :=
  try users <- db QListUsers else _e => Ret (0, 0, 0, 0);;
  uc <- sync_rows (λ u, prov_User prov OpCreate u []) users 0 0;;
  try groups <- db QListGroups else _e => Ret (uc.1, uc.2, 0, 0);;
  gc <- sync_rows (λ g, prov_Group prov OpCreate g
                          (omap (λ mid, users_by_id users !! mid) (grp_Members g))) groups 0 0;;
  Ret (uc.1, uc.2, gc.1, gc.2).

End set.

#[global] Arguments SyncAll : simpl never.

(** ** scim/client.go *)

Module Scim.

Definition ProviderName : string := "vault".
Definition schemaUser : string := "urn:ietf:params:scim:schemas:core:2.0:User".
Definition schemaGroup : string := "urn:ietf:params:scim:schemas:core:2.0:Group".
Definition schemaPatchOp : string := "urn:ietf:params:scim:api:messages:2.0:PatchOp".

(** [scim.Provisioner]: the HTTP client is the effect [OpHTTP]. *)
Record ScimClient : Type := mkClient {
  provider : string;
  name : string;
  baseURL : string;
  token : string;
}.

Definition is_slash (a : ascii) : bool := Ascii.eqb a "/".

(** [New]: defaults of the empty fields. *)
Definition New (provider name baseURL token : string) : ScimClient :=
  mkClient (if bool_decide (provider = "") then ProviderName else provider)
           (if bool_decide (name = "") then "vault-scim" else name)
           (str_trim_right is_slash baseURL) token.

Section client.
  Context `{X : Externals} (p : ScimClient).

(** [do]: one request.  [errStatusNotFound] is [ErrNotFound]; [dec] decodes the
    body into a value that is [zero] before. *)
Definition do {A} (method path : string) (body : ReqBody) (zero : A) (dec : string → decoded A)
    : prog (result A) :=
  try res <- do_op (OpHTTP (mkHTTPRequest method (baseURL p +:+ path) (token p) body)) else _e =>
    Ret (Err ErrOther);;
  Ret (if hs_Status res =? 404 then Err ErrNotFound
       else if 400 <=? hs_Status res then Err ErrOther
       else match dec (hs_Body res) with
            | Decoded a => Ok a
            | DecodeEOF => Ok zero
            | DecodeFailed => Err ErrOther
            end).

(** [do] with a nil [out]. *)
Definition do_ (method path : string) (body : ReqBody) : prog (result unit) :=
  do method path body tt (λ _, Decoded tt).

Definition cachedExternalID (userID : uuid) : prog (result string) :=
  r <- db (QGetExternalID (provider p) userID);;
  Ret (match r with Err ErrNotFound => Ok "" | r => r end).

Definition user_body (u : User) : ReqBody :=
  JsonBody (JObj [("schemas", JStrs [schemaUser]); ("userName", JStr (u_Email u));
    ("externalId", JStr (uuid_String (u_ID u))); ("name", JObj [("formatted", JStr (u_Name u))]);
    ("emails", JArr [JObj [("value", JStr (u_Email u)); ("primary", JBool true); ("type", JStr "work")]]);
    ("active", JBool (u_Active u))]).

(** One entry of a PATCH request. *)
Definition replace_op (path : string) (v : JVal) : JVal :=
  JObj [("op", JStr "Replace"); ("path", JStr path); ("value", v)].

Definition patch_body (ops : list JVal) : ReqBody :=
  JsonBody (JObj [("schemas", JStrs [schemaPatchOp]); ("Operations", JArr ops)]).

Definition createUser (u : User) : prog (result string) :=
  try id <- do "POST" "/Users" (user_body u) "" (λ b, json_Field b "id") else e => Ret (Err e);;
  when bool_decide (id = "") return Ret (Err ErrOther);;
  db (QSetExternalID (provider p) (u_ID u) id);;;
  Ret (Ok id).

Definition patchUser (vaultID : string) (u : User) : prog (result unit) :=
  do_ "PATCH" ("/Users/" +:+ PathEscape vaultID)
    (patch_body [replace_op "externalId" (JStr (uuid_String (u_ID u)));
                 replace_op "active" (JBool (u_Active u)); replace_op "name.formatted" (JStr (u_Name u))]).

Definition upsertUser (u : User) : prog (result string) :=
  try vaultID <- cachedExternalID (u_ID u) else e => Ret (Err e);;
  when bool_decide (vaultID = "") return createUser u;;
  patched <- patchUser vaultID u;;
  match patched with
  | Ok _ => Ret (Ok vaultID)
  | Err ErrNotFound =>
      db (QDeleteExternalID (provider p) (u_ID u));;;
      createUser u
  | Err e => Ret (Err e)
  end.

Definition findUserByExternalID (externalID : string) : prog (result string) :=
  try ids <- do "GET" ("/Users?" +:+ Values_Encode [("filter", "externalId eq " +:+ json_String externalID)])
               NoReqBody [] json_ResourceIDs else e => Ret (Err e);;
  Ret (Ok (hd "" ids)).

(** [Ok] of the empty string: the user does not exist downstream. *)
Definition resolveVaultUserID (u : User) : prog (result string) :=
  try id <- cachedExternalID (u_ID u) else e => Ret (Err e);;
  when negb (bool_decide (id = "")) return Ret (Ok id);;
  try id <- findUserByExternalID (uuid_String (u_ID u)) else e => Ret (Err e);;
  when bool_decide (id = "") return Ret (Ok "");;
  db (QSetExternalID (provider p) (u_ID u) id);;;
  Ret (Ok id).

Definition setUserActive (u : User) (active : bool) : prog (result unit) :=
  try vaultID <- resolveVaultUserID u else e => Ret (Err e);;
  when bool_decide (vaultID = "") return Ret (Ok tt);;
  patched <- do_ "PATCH" ("/Users/" +:+ PathEscape vaultID) (patch_body [replace_op "active" (JBool active)]);;
  match patched with
  | Err ErrNotFound => db (QDeleteExternalID (provider p) (u_ID u));;; Ret (Ok tt)
  | r => Ret r
  end.

Definition deleteUser (u : User) : prog (result unit) :=
  try vaultID <- resolveVaultUserID u else e => Ret (Err e);;
  when bool_decide (vaultID = "") return Ret (Ok tt);;
  deleted <- do_ "DELETE" ("/Users/" +:+ PathEscape vaultID) NoReqBody;;
  match deleted with
  | Ok _ | Err ErrNotFound => db (QDeleteExternalID (provider p) (u_ID u));;; Ret (Ok tt)
  | Err e => Ret (Err e)
  end.

(** The references of the members that could be resolved or created. *)
Fixpoint resolveGroupMembers (members : list User) : prog (list JVal) :=
  match members with
  | [] => Ret []
  | m :: members =>
      resolved <- resolveVaultUserID m;;
      found <- match resolved with
               | Err _ => Ret None
               | Ok id =>
                   if bool_decide (id = "") then
                     created <- createUser m;;
                     Ret (match created with Ok id => Some id | Err _ => None end)
                   else Ret (Some id)
               end;;
      rest <- resolveGroupMembers members;;
      Ret (match found with Some id => JObj [("value", JStr id)] :: rest | None => rest end)
  end.

Definition upsertGroup (g : SCIMGroup) (members : list User) : prog (result unit) :=
  memberRefs <- resolveGroupMembers members;;
  let groupID := uuid_String (grp_ID g) in
  let body := JsonBody (JObj [("schemas", JStrs [schemaGroup]); ("externalId", JStr groupID);
                ("displayName", JStr (grp_DisplayName g)); ("members", JArr memberRefs)]) in
  put <- do_ "PUT" ("/Groups/" +:+ PathEscape groupID) body;;
  match put with
  | Err ErrNotFound => do_ "POST" "/Groups" body
  | r => Ret r
  end.

Definition deleteGroup (g : SCIMGroup) : prog (result unit) :=
  deleted <- do_ "DELETE" ("/Groups/" +:+ PathEscape (uuid_String (grp_ID g))) NoReqBody;;
  Ret (match deleted with Err ErrNotFound => Ok tt | r => r end).

Definition push_User (op : ProvOp) (u : User) (_ : list string) : prog (result unit) :=
  match op with
  | OpCreate | OpUpdate => r <- upsertUser u;; Ret (match r with Ok _ => Ok tt | Err e => Err e end)
  | OpDeactivate => setUserActive u false
  | OpDelete => deleteUser u
  end.

Definition push_Group (op : ProvOp) (g : SCIMGroup) (members : list User) : prog (result unit) :=
  match op with
  | OpDelete => deleteGroup g
  | _ => upsertGroup g members
  end.

End client.

#[global] Instance provisioner `{Externals} : Provisioner ScimClient := {|
  Name := name; prov_User := push_User; prov_Group := push_Group |}.

End Scim.

(** ** What provisioning calls *)

Lemma calls_for_each (P : event → Prop) {A B} (l : list A) (body : A → prog B) :
  (∀ a, calls P (body a)) → calls P (for_each l body).
Proof. intros Hb. induction l as [|a l IH]; [exact I|]. cbn [for_each]. by apply calls_bind. Qed.

Lemma calls_sync_rows (P : event → Prop) {A} (push : A → prog (result unit)) l ok fail :
  (∀ a, calls P (push a)) → calls P (sync_rows push l ok fail).
Proof.
  intros Hp. revert ok fail. induction l as [|a l IH]; intros ok fail; [exact I|]. cbn [sync_rows].
  apply calls_bind; [done|]. intros []; apply IH.
Qed.

#[export] Hint Resolve calls_for_each calls_sync_rows : calls.

(** Calls to a downstream system, or to the store's bookkeeping of it. *)
Definition downstream (e : event) : Prop :=
  match e with
  | Ev (OpHTTP _) _ | Ev (OpIAM _) _ | Ev OpSnapshot _ => True
  | Ev (OpDb q) _ =>
      match q with
      | QGetExternalID _ _ | QSetExternalID _ _ _ | QDeleteExternalID _ _
      | QListAWSRoles | QAddAWSRevokedUser _ _ | QListAWSRevokedUsers _ | QDeleteAWSRevokedUser _ _ => True
      | _ => False
      end
  | _ => False
  end.

Section scim.
  Context `{X : Externals} (p : Scim.ScimClient).

Lemma scim_do_calls {A} m path body (z : A) dec : calls downstream (Scim.do p m path body z dec).
Proof. unfold Scim.do. solve_calls. Qed.

Lemma scim_do__calls m path body : calls downstream (Scim.do_ p m path body).
Proof. apply scim_do_calls. Qed.

#[local] Hint Resolve scim_do_calls scim_do__calls : calls.

Lemma scim_cached_calls id : calls downstream (Scim.cachedExternalID p id).
Proof. unfold Scim.cachedExternalID. solve_calls. Qed.

Lemma scim_create_calls u : calls downstream (Scim.createUser p u).
Proof. unfold Scim.createUser. solve_calls. Qed.

#[local] Hint Resolve scim_cached_calls scim_create_calls : calls.

Lemma scim_resolve_calls u : calls downstream (Scim.resolveVaultUserID p u).
Proof. unfold Scim.resolveVaultUserID, Scim.findUserByExternalID. solve_calls. Qed.

#[local] Hint Resolve scim_resolve_calls : calls.

Lemma scim_members_calls ms : calls downstream (Scim.resolveGroupMembers p ms).
Proof. induction ms as [|m ms IH]; cbn [Scim.resolveGroupMembers]; solve_calls. Qed.

#[local] Hint Resolve scim_members_calls : calls.

Lemma scim_User_calls op u gs : calls downstream (Scim.push_User p op u gs).
Proof.
  unfold Scim.push_User, Scim.upsertUser, Scim.patchUser, Scim.setUserActive, Scim.deleteUser. solve_calls.
Qed.

Lemma scim_Group_calls op g ms : calls downstream (Scim.push_Group p op g ms).
Proof. unfold Scim.push_Group, Scim.upsertGroup, Scim.deleteGroup. solve_calls. Qed.

End scim.

#[export] Hint Resolve scim_User_calls scim_Group_calls : calls.
