(* ===== verification/Awsfed.v ===== *)
(** * AWS session revocation

    [internal/provision/awsfed]: a deactivated user's identifier is put on the
    deny list of every federation role, an inline IAM policy rebuilt from the
    rows of [aws_revoked_users]; the reaper drops entries older than a role's
    longest session.  At the end, the registry of targets, built from the
    integration rows as [cmd/authd/main.go] does, and the two loops that run
    over it. *)
From stdpp Require Import sorting.
From S2P Require Import Prelude GoStrings GoNet Model Dialect Policy Tables SqliteUsers SqliteTokens SqliteAws Store Pkce Prog.
From S2P Require Import SingleUse Server Provision.

Local Open Scope Z_scope.
Local Open Scope prog_scope.

Definition RevocationPolicyName : string := "AuthRevokedUsers".
Definition SessionTagKey : string := "sub".

(** [awsfed.Provisioner]: the IAM client and the store are effects. *)
Record Federation : Type := mkFederation { fed_name : string }.

(** [awsfed.NewWithClient] and [awsfed.New]: an empty name takes the default;
    the client comes from the SDK's credential chain. *)
Definition fed_NewWithClient (name : string) : Federation :=
  mkFederation (if bool_decide (name = "") then "aws-federation" else name).

Definition fed_New `{Externals} (name : string) : result Federation :=
  match aws_LoadDefaultConfig with Err e => Err e | Ok _ => Ok (fed_NewWithClient name) end.

Definition name_le {A} (name : A → string) (x y : A) : Prop := String.leb (name x) (name y) = true.

#[export] Instance name_le_dec {A} (name : A → string) : RelDecision (name_le name).
Proof. unfold RelDecision, name_le. apply _. Defined.

Definition sort_Strings (l : list string) : list string := merge_sort (name_le id) l.

(** ** Policy documents and role names *)

(** The value before JSON encoding. *)
Definition BuildRevocationPolicy (subs : list string) : result PolicyDoc :=
  match subs with
  | [] => Err ErrOther
  | _ => Ok (mkPolicyDoc "2012-10-17"
           [mkPolicyStatement "AuthRevokedUsers" "Deny" ["*"] ["*"]
              [("aws:PrincipalTag/" +:+ SessionTagKey, subs)]])
  end.

(** Everything after the last slash; empty when there is none. *)
Fixpoint role_name_go (seen : option string) (arn : string) : string :=
  match arn with
  | EmptyString => default "" seen
  | String a arn => role_name_go (if Ascii.eqb a "/" then Some arn else seen) arn
  end.

Definition RoleNameFromARN (arn : string) : string := role_name_go None arn.

(** ** Revocation *)

Definition collectActiveRevokedSubs (roleID : uuid) : prog (result (list string)) :=
  try rows <- db (QListAWSRevokedUsers roleID) else e => Ret (Err e);;
  Ret (Ok (sort_Strings (arv_SubUUID <$> rows))).

Definition revokeOneRole (role : AWSRole) (subUUID : string) : prog (result unit) :=
  try _u <- db (QAddAWSRevokedUser (ar_ID role) subUUID) else e => Ret (Err e);;
  try subs <- collectActiveRevokedSubs (ar_ID role) else e => Ret (Err e);;
  match BuildRevocationPolicy subs with
  | Err e => Ret (Err e)
  | Ok policyDoc =>
      let roleName := RoleNameFromARN (ar_RoleARN role) in
      when bool_decide (roleName = "") return Ret (Err ErrOther);;
      do_op (OpIAM (PutRolePolicy roleName RevocationPolicyName policyDoc))
  end.

(** The loop continues past failures and reports the first. *)
Fixpoint revoke_roles (roles : list AWSRole) (subUUID : string) (firstErr : option error)
    : prog (result unit) :=
  match roles with
  | [] => Ret (match firstErr with Some e => Err e | None => Ok tt end)
  | role :: roles =>
      r <- revokeOneRole role subUUID;;
      revoke_roles roles subUUID
        (match r with
         | Ok _ => firstErr
         | Err e => match firstErr with Some e0 => Some e0 | None => Some e end
         end)
  end.

Definition revokeAcrossAllRoles (subUUID : string) : prog (result unit) :=
  try roles <- db QListAWSRoles else e => Ret (Err e);;
  revoke_roles roles subUUID None.

Definition RevokeUser (p : Federation) (subUUID : string) : prog (result unit) :=
  revokeAcrossAllRoles subUUID.

Definition fed_User `{Externals} (p : Federation) (op : ProvOp) (u : User) (_ : list string)
    : prog (result unit) :=
  match op with
  | OpCreate | OpUpdate => Ret (Ok tt)
  | OpDeactivate | OpDelete => RevokeUser p (uuid_String (u_ID u))
  end.

Definition fed_Group (p : Federation) (op : ProvOp) (g : SCIMGroup) (members : list User)
    : prog (result unit) := Ret (Ok tt).

#[export] Instance federation `{Externals} : Provisioner Federation := {|
  Name := fed_name; prov_User := fed_User; prov_Group := fed_Group |}.

(** ** The reaper *)

(** How long an entry of a role must stay: its longest session, an hour when
    that is not positive. *)
Definition reap_duration (role : AWSRole) : Z :=
  let dur := int64_wrap (ar_MaxSessionDurationSec role * Second) in
  if dur <=? 0 then Hour else dur.

(** Delete the rows older than the cutoff; how many were deleted. *)
Fixpoint reap_rows (roleID : uuid) (cutoff : Z) (rows : list AWSRevokedUser) (removed : Z) : prog Z :=
  match rows with
  | [] => Ret removed
  | e :: rows =>
      if arv_RevokedAt e <? cutoff then
        r <- db (QDeleteAWSRevokedUser roleID (arv_SubUUID e));;
        match r with
        | Err _ => reap_rows roleID cutoff rows removed
        | Ok _ => reap_rows roleID cutoff rows (removed + 1)
        end
      else reap_rows roleID cutoff rows removed
  end.

(** Push the trimmed list, or remove the policy when nothing is left. *)
Definition repush_role (role : AWSRole) : prog unit :=
  try subs <- collectActiveRevokedSubs (ar_ID role) else _e => Ret tt;;
  let roleName := RoleNameFromARN (ar_RoleARN role) in
  when bool_decide (roleName = "") return Ret tt;;
  when bool_decide (length subs = 0%nat) return
    (do_op (OpIAM (DeleteRolePolicy roleName RevocationPolicyName));;; Ret tt);;
  match BuildRevocationPolicy subs with
  | Err _ => Ret tt
  | Ok policyDoc => do_op (OpIAM (PutRolePolicy roleName RevocationPolicyName policyDoc));;; Ret tt
  end.

Definition reap_role (t : Z) (role : AWSRole) : prog unit :=
  let cutoff := t - reap_duration role in
  try rows <- db (QListAWSRevokedUsers (ar_ID role)) else _e => Ret tt;;
  removed <- reap_rows (ar_ID role) cutoff rows 0;;
  when removed =? 0 return Ret tt;;
  repush_role role.

Definition ReapExpired (p : Federation) (t : Z) : prog (result unit) :=
  try roles <- db QListAWSRoles else e => Ret (Err e);;
  for_each roles (reap_role t);;;
  Ret (Ok tt).

#[global] Arguments collectActiveRevokedSubs : simpl never.
#[global] Arguments revokeOneRole : simpl never.
#[global] Arguments revokeAcrossAllRoles : simpl never.
#[global] Arguments RevokeUser : simpl never.
#[global] Arguments repush_role : simpl never.
#[global] Arguments reap_role : simpl never.

(** ** Targets *)

Definition target_Name (t : Target) : string :=
  match t with TScim _ name _ _ => name | TAwsFed name => name end.

(** A target as a client of its package. *)
Definition scim_of (provider name baseURL token : string) : Scim.ScimClient :=
  Scim.mkClient provider name baseURL token.

#[export] Instance target `{Externals} : Provisioner Target := {|
  Name := target_Name;
  prov_User := λ t op u gs,
    match t with
    | TScim p n b k => prov_User (scim_of p n b k) op u gs
    | TAwsFed n => prov_User (mkFederation n) op u gs
    end;
  prov_Group := λ t op g ms,
    match t with
    | TScim p n b k => prov_Group (scim_of p n b k) op g ms
    | TAwsFed n => prov_Group (mkFederation n) op g ms
    end |}.

(** ** registry.go, and the handlers' view of it (api/provision.go) *)

Definition Snapshot : prog (list Target) := do_op OpSnapshot.

Section registry.
  Context `{X : Externals}.

Definition Registry_User (op : ProvOp) (u : option User) (groups : list string) : prog unit :=
  set <- Snapshot;;
  Set_User set op u groups.

Definition Registry_Group (op : ProvOp) (g : option SCIMGroup) (members : list User) : prog unit :=
  set <- Snapshot;;
  Set_Group set op g members.

Definition provisionUser (op : ProvOp) (user : option User) (groups : list string) : prog unit :=
  Registry_User op user groups.

Definition provisionGroup (op : ProvOp) (g : SCIMGroup) (members : list User) : prog unit :=
  Registry_Group op (Some g) members.

(** ** Building the targets (cmd/authd/main.go) *)

Definition AppIntegrationProviderSCIM : string := "scim".
Definition AppIntegrationProviderAWSFederation : string := "aws_federation".
Definition AppIntegrationAuthBearer : string := "bearer".
Definition AppIntegrationAuthMTLS : string := "mtls".

(** The TLS configuration itself is not kept: only whether there is one. *)
Definition scimTLSForURL (baseURL : string) : result unit :=
  match url_Parse baseURL with
  | Err _ => Ok tt
  | Ok u =>
      if negb (net_ParseIP (url_Hostname u)) then Ok tt
      else match scimTLSFromEnv with Err e => Err e | Ok _ => Ok tt end
  end.

Definition buildProvisioner (sv : Server) (i : AppIntegration) : prog (result Target) :=
  if bool_decide (ai_Provider i = AppIntegrationProviderSCIM) then
    when bool_decide (aic_BaseURL (ai_Config i) = "") return Ret (Err ErrOther);;
    let authMode := if bool_decide (aic_AuthMode (ai_Config i) = "") then AppIntegrationAuthBearer
                    else aic_AuthMode (ai_Config i) in
    let made token :=
      let c := Scim.New (ai_Name i) (ai_Name i) (aic_BaseURL (ai_Config i)) token in
      Ok (TScim (Scim.provider c) (Scim.name c) (Scim.baseURL c) (Scim.token c)) in
    if bool_decide (authMode = AppIntegrationAuthBearer) then
      let encToken := default "" (ai_EncryptedToken i) in
      let encDEK := default "" (ai_EncryptedDEK i) in
      when bool_decide (encToken = "") || bool_decide (encDEK = "") return Ret (Err ErrOther);;
      try token <- do_op (OpDecrypt encDEK encToken) else e => Ret (Err e);;
      Ret (made token)
    else if bool_decide (authMode = AppIntegrationAuthMTLS) then
      when negb (srv_scimTLS sv) return Ret (Err ErrOther);;
      Ret (match scimTLSForURL (aic_BaseURL (ai_Config i)) with Err e => Err e | Ok _ => made "" end)
    else Ret (Err ErrOther)
  else if bool_decide (ai_Provider i = AppIntegrationProviderAWSFederation) then
    Ret (match fed_New (ai_Name i) with Err e => Err e | Ok p => Ok (TAwsFed (fed_name p)) end)
  else Ret (Err ErrOther).

(** Rows that cannot be built are skipped. *)
Fixpoint build_targets (sv : Server) (rows : list AppIntegration) : prog (list Target) :=
  match rows with
  | [] => Ret []
  | row :: rows =>
      built <- buildProvisioner sv row;;
      rest <- build_targets sv rows;;
      Ret (match built with Ok t => t :: rest | Err _ => rest end)
  end.

Definition buildProvSet (sv : Server) : prog (result (list Target)) :=
  try rows <- db QListEnabledIntegrations else e => Ret (Err e);;
  set <- build_targets sv rows;;
  Ret (Ok set).

(** A failed build leaves the registry as it was. *)
Definition Reload (sv : Server) : prog (result unit) :=
  try next <- buildProvSet sv else e => Ret (Err e);;
  do_op (OpSetTargets next);;;
  Ret (Ok tt).

(** ** The background loops: one tick each *)

Definition provision_sync_tick : prog unit :=
  provs <- Snapshot;;
  for_each provs SyncAll.

(** [ReapExpired] of every federation target. *)
Definition awsfed_reaper_tick : prog unit :=
  t <- now;;
  provs <- Snapshot;;
  for_each provs (λ p, match p with TAwsFed n => ReapExpired (mkFederation n) t | TScim _ _ _ _ => Ret (Ok tt) end).

Definition device_grant_reaper_tick : prog unit :=
  db QDeleteExpiredDeviceGrants;;;
  Ret tt.

End registry.

#[global] Arguments provisionUser : simpl never.
#[global] Arguments provisionGroup : simpl never.
#[global] Arguments Registry_User : simpl never.
#[global] Arguments Reload : simpl never.
#[global] Arguments buildProvSet : simpl never.

(** ** What the targets call *)

Lemma revokeOneRole_calls role sub : calls downstream (revokeOneRole role sub).
Proof. unfold revokeOneRole, collectActiveRevokedSubs. solve_calls. Qed.

#[local] Hint Resolve revokeOneRole_calls : calls.

Lemma revoke_roles_calls roles sub e : calls downstream (revoke_roles roles sub e).
Proof. revert e. induction roles as [|r rs IH]; intros e; cbn [revoke_roles]; solve_calls. Qed.

#[local] Hint Resolve revoke_roles_calls : calls.

Lemma RevokeUser_calls p sub : calls downstream (RevokeUser p sub).
Proof. unfold RevokeUser, revokeAcrossAllRoles. solve_calls. Qed.

#[export] Hint Resolve RevokeUser_calls : calls.

Section targets.
  Context `{X : Externals}.

Lemma target_User_calls (t : Target) op u gs : calls downstream (prov_User t op u gs).
Proof. destruct t; [apply scim_User_calls|]. destruct op; [exact I|exact I|apply RevokeUser_calls..]. Qed.

Lemma target_Group_calls (t : Target) op g ms : calls downstream (prov_Group t op g ms).
Proof. destruct t; [apply scim_Group_calls|exact I]. Qed.

#[local] Hint Resolve target_User_calls target_Group_calls : calls.

Lemma provisionUser_calls op u gs : calls downstream (provisionUser op u gs).
Proof. unfold provisionUser, Registry_User, Snapshot, Set_User. solve_calls. Qed.

Lemma provisionGroup_calls op g ms : calls downstream (provisionGroup op g ms).
Proof. unfold provisionGroup, Registry_Group, Snapshot, Set_Group. solve_calls. Qed.

End targets.

#[export] Hint Resolve provisionUser_calls provisionGroup_calls : calls.
