(* ===== verification/Fixture.v ===== *)
(** * A concrete deployment

    A small instance of the model on which the witnesses evaluate: external
    functions that are easy to compute with (a token "hashes" to itself behind
    a prefix, a sealed cookie is its plaintext behind a prefix), an
    environment whose clock advances one second per call and whose store calls
    do not fail, and a database with one user, one confidential client, one
    authorization code, one session and one approved device grant, built from
    the migrated database by store calls. *)
From S2P Require Import Prelude GoStrings GoNet Model Dialect Policy Tables SqliteUsers SqliteTokens SqliteAws Store Pkce Prog.
From S2P Require Import SingleUse Server Provision Awsfed.

Local Open Scope Z_scope.

#[export] Existing Instance ascii_tables.

(** A PostgreSQL database with the "C" collation. *)
#[export] Instance fx_dialect : Dialect := PostgreSQL String.leb.

Definition fx_state : authState :=
  {| as_UserID := 7%N; as_AuthTime := 1000 * Second; as_MFAVerified := false; as_MFAAMR := [];
     as_ClientID := "rp"; as_RedirectURI := "https://rp.example/cb"; as_Scopes := ["openid"];
     as_State := "st"; as_Nonce := "nc"; as_CodeChallenge := ""; as_Exp := 100000 * Second |}.

(** A codec that gives every state back: numbers in binary, strings and lists
    with a mark before each element. *)
Class Codec (A : Type) : Type := {
  enc : A → string;
  dec : string → option (A * string);
  dec_enc : ∀ a rest, dec (enc a +:+ rest) = Some (a, rest);
}.

Lemma str_app_cons c (a b : string) : String c a +:+ b = String c (a +:+ b).
Proof. done. Qed.

Lemma str_app_assoc (a b c : string) : (a +:+ b) +:+ c = a +:+ b +:+ c.
Proof. induction a as [|x a IH]; [done|]. exact (f_equal (String x) IH). Qed.

Fixpoint fx_bits (p : positive) : string :=
  match p with xH => "." | xO p => String "0" (fx_bits p) | xI p => String "1" (fx_bits p) end.

Fixpoint fx_of_bits (s : string) : option (positive * string) :=
  match s with
  | String "." s => Some (xH, s)
  | String "0" s => prod_map xO id <$> fx_of_bits s
  | String "1" s => prod_map xI id <$> fx_of_bits s
  | _ => None
  end.

Lemma fx_of_bits_bits p rest : fx_of_bits (fx_bits p +:+ rest) = Some (p, rest).
Proof. revert rest. induction p as [p IH|p IH|]; intros rest; cbn [fx_bits];
    rewrite str_app_cons; cbn [fx_of_bits]; [by rewrite IH..|done].
Qed.

#[export] Instance Z_codec : Codec Z.
Proof.
  refine {|
    enc z := match z with Z0 => "z" | Zpos p => String "p" (fx_bits p) | Zneg p => String "n" (fx_bits p) end;
    dec s := match s with
             | String "z" s => Some (Z0, s)
             | String "p" s => prod_map Zpos id <$> fx_of_bits s
             | String "n" s => prod_map Zneg id <$> fx_of_bits s
             | _ => None
             end |}.
  intros [|p|p] rest; rewrite ?str_app_cons; [done|by rewrite fx_of_bits_bits..].
Defined.

#[export] Instance N_codec : Codec N.
Proof.
  refine {| enc (n : N) := enc (Z.of_N n); dec s := prod_map Z.to_N id <$> dec s |}.
  intros n rest. rewrite dec_enc. simpl. by rewrite N2Z.id.
Defined.

#[export] Instance bool_codec : Codec bool.
Proof.
  refine {| enc (b : bool) := if b then "t" else "f";
            dec s := match s with String "t" s => Some (true, s) | String "f" s => Some (false, s) | _ => None end |}.
  by intros [] rest.
Defined.

Fixpoint enc_string (s : string) : string :=
  match s with EmptyString => ";" | String c s => String "," (String c (enc_string s)) end.

Fixpoint dec_string (s : string) : option (string * string) :=
  match s with
  | String ";" s => Some ("", s)
  | String "," (String c s) => prod_map (String c) id <$> dec_string s
  | _ => None
  end.

#[export] Instance string_codec : Codec string.
Proof.
  refine {| enc := enc_string; dec := dec_string |}.
  induction a as [|c a IH]; intros rest; cbn [enc_string]; rewrite !str_app_cons; cbn [dec_string]; [done|by rewrite IH].
Defined.

Fixpoint enc_strings (l : list string) : string :=
  match l with [] => "]" | s :: l => String "[" (enc s +:+ enc_strings l) end.

Fixpoint dec_strings (fuel : nat) (s : string) : option (list string * string) :=
  match fuel, s with
  | S fuel, String "]" s => Some ([], s)
  | S fuel, String "[" s =>
      '(x, s) ← dec s;
      '(l, s) ← dec_strings fuel s;
      Some (x :: l, s)
  | _, _ => None
  end.

Lemma length_append (a b : string) : String.length (a +:+ b) = (String.length a + String.length b)%nat.
Proof. induction a as [|c a IH]; [done|]. rewrite str_app_cons. simpl. by rewrite IH. Qed.

Lemma dec_strings_enc l rest fuel :
  (String.length (enc_strings l) ≤ fuel)%nat → dec_strings fuel (enc_strings l +:+ rest) = Some (l, rest).
Proof.
  revert fuel. induction l as [|s l IH]; intros [|fuel] Hf; simpl in Hf; try lia; [done|].
  cbn [enc_strings]. rewrite str_app_cons. cbn [dec_strings]. rewrite str_app_assoc, dec_enc. cbn [mbind option_bind].
  rewrite length_append in Hf. rewrite IH by lia. done.
Qed.

#[export] Instance strings_codec : Codec (list string).
Proof.
  refine {| enc := enc_strings; dec s := dec_strings (String.length s) s |}.
  intros l rest. apply dec_strings_enc. rewrite length_append. lia.
Defined.

Definition state_enc (st : authState) : string :=
  enc (as_UserID st) +:+ enc (as_AuthTime st) +:+ enc (as_MFAVerified st) +:+ enc (as_MFAAMR st) +:+
  enc (as_ClientID st) +:+ enc (as_RedirectURI st) +:+ enc (as_Scopes st) +:+ enc (as_State st) +:+
  enc (as_Nonce st) +:+ enc (as_CodeChallenge st) +:+ enc (as_Exp st).

Definition state_dec (s : string) : option authState :=
  '(uid, s) ← dec s; '(at_, s) ← dec s; '(mfa, s) ← dec s; '(amr, s) ← dec s; '(cid, s) ← dec s;
  '(ruri, s) ← dec s; '(sc, s) ← dec s; '(st, s) ← dec s; '(nc, s) ← dec s; '(cc, s) ← dec s;
  '(exp, s) ← dec s; Some (mkAuthState uid at_ mfa amr cid ruri sc st nc cc exp).

Lemma str_app_nil (a : string) : a +:+ "" = a.
Proof. induction a as [|x a IH]; [done|]. exact (f_equal (String x) IH). Qed.

Lemma state_dec_enc st : state_dec (state_enc st) = Some st.
Proof.
  unfold state_dec, state_enc.
  do 10 (rewrite dec_enc; cbn [mbind option_bind]).
  rewrite <- (str_app_nil (enc (as_Exp st))), dec_enc. cbn [mbind option_bind]. by destruct st.
Qed.

#[export] Instance plain : Externals := {|
  HashToken := λ s, "#" +:+ s;
  CheckPassword := λ h p, bool_decide (h = "pw:" +:+ p);
  Open := λ s, match CutPrefix s "sealed:" with Some p => Ok p | None => Err ErrOther end;
  authState_Marshal := state_enc;
  authState_Unmarshal := λ s, match state_dec s with Some st => Ok st | None => Err ErrOther end;
  loginState_Marshal := λ _, "login";
  loginState_Unmarshal := λ s, if bool_decide (s = "login")
    then Ok (mkPortalLoginState 7%N (100000 * Second)) else Err ErrOther;
  url_Parse := λ s,
    if bool_decide (s = "https://rp.example/cb") then Ok (mkURL "https" "" "" "rp.example" "/cb" "" "rp.example" "" "")
    else if bool_decide (s = "http://127.0.0.1/callback") then Ok (mkURL "http" "" "" "127.0.0.1" "/callback" "" "127.0.0.1" "" "")
    else if bool_decide (s = "http://[::1]:5555/callback") then Ok (mkURL "http" "" "" "::1" "/callback" "" "[::1]:5555" "" "")
    else Err ErrOther;
  time_ParseDuration := λ s, if bool_decide (s = "60s") then Ok (60 * Second) else Err ErrOther;
  uuid_String := λ _, "uuid";
  uuid_Parse := λ s, if bool_decide (s = "") then Err ErrOther else Ok 30%N;
  totpPending_Marshal := λ _, "pending";
  totpPending_Unmarshal := λ _, Ok (mkTotpPending "otpauth://totp" "123456" (100000 * Second));
  totpQRCode := λ s, Ok ("qr:" +:+ s);
  wa_ParseAssertion := λ s, Ok (mkWaAssertion s false);
  waSession_Unmarshal := Ok;
  x509_MarshalPKCS8 := λ k, Ok ("der:" +:+ k);
  x509_ParsePKCS8 := λ s, match CutPrefix s "der:" with Some k => Ok (Some k) | None => Err ErrOther end;
  x509_MarshalPKIX := λ k, Ok ("pub:" +:+ k);
  PublicKeyToJWK := λ k kid, JObj [("kid", JStr kid); ("n", JStr ("pub:" +:+ k))];
  json_Field := λ s _, if bool_decide (s = "") then DecodeEOF else Decoded s;
  json_Unmarshal_Field := λ s _, Ok s;
  json_ResourceIDs := λ s, if bool_decide (s = "") then DecodeEOF else Decoded [s];
  json_String := λ s, "'" +:+ s +:+ "'";
  strconv_Quote := λ s, "'" +:+ s +:+ "'";
  net_ParseIP := λ _, false;
  scimTLSFromEnv := Ok true;
  aws_LoadDefaultConfig := Ok tt;
|}.

Definition fx_T0 : Z := 1000 * Second.

(** Tokens are distinct strings of growing length. *)
Fixpoint fx_token (n : nat) : string := match n with O => "t" | S n => String "t" (fx_token n) end.

Definition fx_env : Env := {|
  env_now := λ n, fx_T0 + Z.of_nat n * Second;
  env_uuid := λ n, (1000 + N.of_nat n)%N;
  env_token := λ n, Ok (fx_token n);
  env_rand := λ _ k, Ok (replicate k 200%N);
  env_pwhash := λ _ pw, Ok ("pw:" +:+ pw);
  env_totpkey := λ _ _, Ok ("123456", "otpauth://totp");
  env_encrypt := λ _ s, Ok (s, "dek");
  env_decrypt := λ _ _ s, Ok s;
  env_totp := λ _ s c, bool_decide (s = c);
  env_mint := λ _ _, Ok "jwt";
  env_fedmint := λ _ _, Ok "fedjwt";
  env_logoutmint := λ _ _, Ok "logoutjwt";
  env_rsakey := λ _, Ok "rsa";
  env_seal := λ _ s, Ok ("sealed:" +:+ s);
  env_wabegin := λ _ _ _, Ok ("options", "challenge");
  env_waregister := λ _ _ _ body, Ok (mkWaCredential body "pk" "aaguid" 0 false false false);
  env_wavalidate := λ _ _ _ a, Ok (mkWaCredential (wa_RawID a) "pk" "aaguid" 1 (wa_HasBackupEligible a) false false);
  env_http := λ _ _, Ok (mkHTTPResponse 200 "id1");
  env_assume := λ _ _, Ok (Some (mkCredentials "AKIA" "sk" "st" None));
  env_fault := λ _, NoFault;
|}.

Definition fx_grant : Grant :=
  {| g_ID := 20%N; g_UserID := 7%N; g_ClientID := 8%N; g_CodeHash := "#code"; g_CodeChallenge := "";
     g_Nonce := ""; g_Scopes := ["openid"; "groups"]; g_RedirectURI := "https://rp.example/cb";
     g_ExpiresAt := 2000 * Second; g_UsedAt := None; g_MFAVerifiedAt := Some (990 * Second);
     g_AuthTime := 980 * Second |}.

Definition fx_session : Session :=
  {| s_ID := 21%N; s_UserID := 7%N; s_ClientID := 8%N; s_AccessTokenHash := "#acc";
     s_RefreshTokenHash := "#ref"; s_Scopes := ["openid"]; s_AccessExpiresAt := 1800 * Second;
     s_RefreshExpiresAt := 4000 * Second; s_LastActivityAt := 0; s_MFAVerified := true;
     s_MFAVerifiedAt := Some (990 * Second); s_AuthTime := 980 * Second; s_CreatedAt := 0 |}.

Definition fx_device : DeviceGrant :=
  {| dg_ID := 30%N; dg_DeviceCodeHash := "#dev"; dg_UserCodeHash := "#ABCDEFGH"; dg_ClientID := 8%N;
     dg_Scopes := ["openid"; "groups"]; dg_Status := DeviceGrantStatusPending; dg_UserID := None;
     dg_MFAVerified := false; dg_MFAVerifiedAt := None; dg_ApproverIP := ""; dg_IntervalSec := 5;
     dg_LastPolledAt := None; dg_CreatedAt := 0; dg_ExpiresAt := 2000 * Second |}.

(** The client as the database below holds it. *)
Definition fx_client : Client :=
  {| c_ID := 8%N; c_ClientID := "rp"; c_ClientSecretHash := "#secret"; c_Name := "RP";
     c_RedirectURIs := ["https://rp.example/cb"; "http://127.0.0.1/callback"];
     c_Scopes := ["openid"; "groups"; "admin"]; c_Public := false; c_BackchannelLogoutURI := None;
     c_ShowInPortal := false; c_LaunchURL := ""; c_BrandColor := ""; c_IconURL := "";
     c_VisibleToAll := false; c_AllowDeviceGrant := true; c_SecretRotatedAt := fx_T0;
     c_CreatedAt := fx_T0 |}.

(** One store call, for its effect. *)
Definition effect {A} (u : uuid) (q : Query A) (d : DB) : DB := (run_query u fx_T0 q d).2.

Definition fx_db : DB :=
  effect 0%N (QCreateDeviceGrant fx_device)
  (effect 0%N (QCreateSession fx_session)
  (effect 0%N (QCreateGrant fx_grant)
  (effect 0%N (QUpdateClientDeviceGrant 8%N true)
  (effect 8%N (QCreateClient "rp" "#secret" "RP" ["https://rp.example/cb"; "http://127.0.0.1/callback"]
                 ["openid"; "groups"; "admin"] false None)
  (effect 7%N (QCreateUser "alice@example.com" "pw:Secret123!x" "Alice")
     (migrated_db fx_T0)))))).

(** The user as the database holds it. *)
Definition fx_user : User :=
  {| u_ID := 7%N; u_Email := "alice@example.com"; u_PasswordHash := "pw:Secret123!x"; u_Name := "Alice";
     u_Active := true; u_SCIMExternalID := ""; u_MFAEnabled := false; u_IsAdmin := false;
     u_PasswordChangedAt := fx_T0; u_FailedAttempts := 0; u_LockedUntil := None;
     u_MustChangePassword := false; u_CreatedAt := fx_T0; u_UpdatedAt := fx_T0 |}.

Lemma effect_wf {A} u (q : Query A) d : db_wf d → db_wf (effect u q d).
Proof. apply run_query_wf. Qed.

Lemma fx_db_wf : db_wf fx_db.
Proof. repeat apply effect_wf. apply migrated_db_wf. Qed.

(** No provisioning targets, no revocation policies. *)
Definition fx_outside : Outside := mkOutside [] ∅.

Definition fx_world : World := mkWorld fx_db 0 [] [] fx_outside.

Fixpoint assoc (kvs : list (string * string)) (k : string) : string :=
  match kvs with [] => "" | kv :: kvs => if bool_decide (kv.1 = k) then kv.2 else assoc kvs k end.

(** A request with the given form fields. *)
Definition form (kvs : list (string * string)) : Request :=
  {| rq_Method := "POST"; rq_ParseOK := true;
     rq_FormValue := assoc kvs;
     rq_Query := assoc kvs;
     rq_BasicAuth := None; rq_Authorization := "Bearer acc"; rq_Cookie := λ _, None;
     rq_UserAgent := "ua"; rq_ClientIP := "198.51.100.7"; rq_PathID := "";
     rq_Form := λ k, filter (λ v, v ≠ "") [assoc kvs k];
     rq_JSON := Some (mkJSONBody (assoc kvs) (λ _, None) (λ _, [])); rq_Body := assoc kvs "body";
     rq_Path := "/"; rq_Accept := "" |}.

(** The same request with an [Authorization] header. *)
Definition with_bearer (tok : string) (r : Request) : Request :=
  {| rq_Method := rq_Method r; rq_ParseOK := rq_ParseOK r; rq_FormValue := rq_FormValue r;
     rq_Query := rq_Query r; rq_BasicAuth := rq_BasicAuth r; rq_Authorization := "Bearer " +:+ tok;
     rq_Cookie := rq_Cookie r; rq_UserAgent := rq_UserAgent r; rq_ClientIP := rq_ClientIP r;
     rq_PathID := rq_PathID r; rq_Form := rq_Form r; rq_JSON := rq_JSON r; rq_Body := rq_Body r;
     rq_Path := rq_Path r; rq_Accept := rq_Accept r |}.

(** The same request with a cookie. *)
Definition with_cookie (name v : string) (r : Request) : Request :=
  {| rq_Method := rq_Method r; rq_ParseOK := rq_ParseOK r; rq_FormValue := rq_FormValue r;
     rq_Query := rq_Query r; rq_BasicAuth := rq_BasicAuth r; rq_Authorization := rq_Authorization r;
     rq_Cookie := λ n, if bool_decide (n = name) then Some v else rq_Cookie r n;
     rq_UserAgent := rq_UserAgent r; rq_ClientIP := rq_ClientIP r; rq_PathID := rq_PathID r;
     rq_Form := rq_Form r; rq_JSON := rq_JSON r; rq_Body := rq_Body r;
     rq_Path := rq_Path r; rq_Accept := rq_Accept r |}.

(** The default policy, registration open, a signing key. *)
Definition fx_sv : Server := mkServer (New DefaultPCIRules) "https://idp.example/" true true (5 * Minute)
  "sts.amazonaws.com" ["ap-east-2"; "eu-west-1"] "" false.

(** The deployment with calls that fail, and with another downstream server. *)
Definition fx_env_with (http : nat → HTTPRequest → result HTTPResponse) (faults : nat → fault) : Env := {|
  env_now := env_now fx_env; env_uuid := env_uuid fx_env; env_token := env_token fx_env;
  env_rand := env_rand fx_env; env_pwhash := env_pwhash fx_env;
  env_totpkey := env_totpkey fx_env; env_encrypt := env_encrypt fx_env; env_decrypt := env_decrypt fx_env;
  env_totp := env_totp fx_env; env_mint := env_mint fx_env; env_fedmint := env_fedmint fx_env;
  env_logoutmint := env_logoutmint fx_env; env_rsakey := env_rsakey fx_env; env_seal := env_seal fx_env;
  env_wabegin := env_wabegin fx_env; env_waregister := env_waregister fx_env;
  env_wavalidate := env_wavalidate fx_env; env_http := http; env_assume := env_assume fx_env;
  env_fault := faults;
|}.

(** One call is refused: the [n]-th. *)
Definition fx_env_fault (n : nat) : Env :=
  fx_env_with (env_http fx_env) (λ m, if bool_decide (m = n) then FaultBefore else NoFault).

Definition fx_pool (ps : list (prog Response)) : pool Response := mkPool fx_world ps [].

(** What a thread answered. *)
Definition answer (c : pool Response) (i : nat) : Response :=
  match p_threads c !! i with Some (Ret a) => a | _ => panicked end.

Lemma fx_reliable : reliable fx_env.
Proof. done. Qed.

Lemma fx_exec_wf {A} (p : prog A) w : db_wf (w_db w) → db_wf (w_db (exec fx_env p w).2).
Proof. apply exec_wf. Qed.
