(* ===== verification/ScimFacts.v ===== *)
(** * What provisioning pushes

    The SCIM client of [provision/scim/client.go] and the full synchronisation
    of [provision/sync.go], on every sequence of answers of the store and of the
    downstream server: what was accepted downstream when a push reports
    success, and what the counts of [SyncAll] mean. *)
From S2P Require Import Prelude GoStrings GoNet Model Dialect Policy Tables SqliteUsers SqliteTokens SqliteAws Store Prog.
From S2P Require Import SingleUse Server Provision Fixture.

Local Open Scope Z_scope.

(** ** Requests the downstream server accepted *)

Section pushes.
  Context `{X : Externals} (p : Scim.ScimClient).

Definition scim_request (method path : string) (body : ReqBody) : HTTPRequest :=
  mkHTTPRequest method (Scim.baseURL p +:+ path) (Scim.token p) body.

(** The request was answered with a status below 400. *)
Definition accepted (tr : list event) (method path : string) (body : ReqBody) : Prop :=
  ∃ res, Ev (OpHTTP (scim_request method path body)) (Ok res) ∈ tr ∧ hs_Status res < 400.

(** [u] was created downstream, or patched under some identifier. *)
Definition user_pushed (tr : list event) (u : User) : Prop :=
  accepted tr "POST" "/Users" (Scim.user_body u) ∨
  ∃ vaultID, vaultID ≠ "" ∧
    accepted tr "PATCH" ("/Users/" +:+ PathEscape vaultID)
      (Scim.patch_body [Scim.replace_op "externalId" (JStr (uuid_String (u_ID u)));
                        Scim.replace_op "active" (JBool (u_Active u));
                        Scim.replace_op "name.formatted" (JStr (u_Name u))]).

(** Where the identifier of a user downstream may come from: the cache, the
    first hit of a search for the user's own identifier, or the answer to the
    creation of the user. *)
Definition known_as (tr : list event) (u : User) (vaultID : string) : Prop :=
  vaultID ≠ "" ∧
  (Ev (OpDb (QGetExternalID (Scim.provider p) (u_ID u))) (Ok vaultID) ∈ tr ∨
   (∃ res ids, Ev (OpHTTP (scim_request "GET"
        ("/Users?" +:+ Values_Encode [("filter", "externalId eq " +:+ json_String (uuid_String (u_ID u)))]) NoReqBody)) (Ok res) ∈ tr ∧
      json_ResourceIDs (hs_Body res) = Decoded ids ∧ head ids = Some vaultID) ∨
   ∃ res, Ev (OpHTTP (scim_request "POST" "/Users" (Scim.user_body u))) (Ok res) ∈ tr ∧
      json_Field (hs_Body res) "id" = Decoded vaultID).

(** What [do] makes of the answer of the server. *)
Definition outcome {A} (zero : A) (dec : string → decoded A) (x : result HTTPResponse) : result A :=
  match x with
  | Err _ => Err ErrOther
  | Ok res =>
      if hs_Status res =? 404 then Err ErrNotFound
      else if 400 <=? hs_Status res then Err ErrOther
      else match dec (hs_Body res) with
           | Decoded a => Ok a
           | DecodeEOF => Ok zero
           | DecodeFailed => Err ErrOther
           end
  end.

(** No identifier was found for [u]: reading the cache failed, or the search
    did, or the creation did. *)
Definition unresolved (tr : list event) (u : User) : Prop :=
  (∃ e, Ev (OpDb (QGetExternalID (Scim.provider p) (u_ID u))) (Err e) ∈ tr ∧ e ≠ ErrNotFound) ∨
  (∃ x e, Ev (OpHTTP (scim_request "GET"
        ("/Users?" +:+ Values_Encode [("filter", "externalId eq " +:+ json_String (uuid_String (u_ID u)))]) NoReqBody)) x ∈ tr ∧
      outcome [] json_ResourceIDs x = Err e) ∨
  ∃ x, Ev (OpHTTP (scim_request "POST" "/Users" (Scim.user_body u))) x ∈ tr ∧
      ∀ id, outcome "" (λ b, json_Field b "id") x = Ok id → id = "".

Definition member_ref (vaultID : string) : JVal := JObj [("value", JStr vaultID)].

Definition group_body (g : SCIMGroup) (refs : list JVal) : ReqBody :=
  JsonBody (JObj [("schemas", JStrs [Scim.schemaGroup]); ("externalId", JStr (uuid_String (grp_ID g)));
    ("displayName", JStr (grp_DisplayName g)); ("members", JArr refs)]).

(** [refs] lists the members in order, each under an identifier that is its
    own, without those that could not be resolved. *)
Inductive refs_of (tr : list event) : list User → list JVal → Prop :=
| refs_nil : refs_of tr [] []
| refs_skip m ms refs : unresolved tr m → refs_of tr ms refs → refs_of tr (m :: ms) refs
| refs_cons m ms refs vaultID :
    known_as tr m vaultID → refs_of tr ms refs → refs_of tr (m :: ms) (member_ref vaultID :: refs).

(** The whole group, with such a list of members, was accepted. *)
Definition group_pushed (tr : list event) (g : SCIMGroup) (members : list User) : Prop :=
  ∃ refs, refs_of tr members refs ∧
    (accepted tr "PUT" ("/Groups/" +:+ PathEscape (uuid_String (grp_ID g))) (group_body g refs) ∨
     accepted tr "POST" "/Groups" (group_body g refs)).

(** ** Traces may grow *)

Lemma accepted_mono tr tr' m path body : tr ⊆ tr' → accepted tr m path body → accepted tr' m path body.
Proof. intros Hs (res & Hin & Hst). exists res. split; [by apply Hs|done]. Qed.

Lemma user_pushed_mono tr tr' u : tr ⊆ tr' → user_pushed tr u → user_pushed tr' u.
Proof. intros Hs [Ha|(v & Hv & Ha)]; [left|right; exists v; split; [done|]]; by eapply accepted_mono. Qed.

Lemma known_as_mono tr tr' u v : tr ⊆ tr' → known_as tr u v → known_as tr' u v.
Proof.
  intros Hs [Hv Hk]. split; [done|].
  destruct Hk as [?|[(res & ids & Hin & Hr)|(res & Hin & Hr)]]; [left; by apply Hs|right; left|right; right].
  - exists res, ids. split; [by apply Hs|done].
  - exists res. split; [by apply Hs|done].
Qed.

Lemma unresolved_mono tr tr' u : tr ⊆ tr' → unresolved tr u → unresolved tr' u.
Proof.
  intros Hs [(e & Hin & He)|[(x & e & Hin & He)|(x & Hin & He)]]; [left; exists e|right; left; exists x, e|right; right; exists x];
    split; [by apply Hs|done|by apply Hs|done|by apply Hs|done].
Qed.

Lemma refs_of_mono tr tr' ms refs : tr ⊆ tr' → refs_of tr ms refs → refs_of tr' ms refs.
Proof. intros Hs. induction 1; [constructor|apply refs_skip; [by eapply unresolved_mono|done]|apply refs_cons; [by eapply known_as_mono|done]]. Qed.

Lemma group_pushed_mono tr tr' g ms : tr ⊆ tr' → group_pushed tr g ms → group_pushed tr' g ms.
Proof.
  intros Hs (refs & Hr & Ha). exists refs. split; [by eapply refs_of_mono|].
  destruct Ha; [left|right]; by eapply accepted_mono.
Qed.

(** ** The client *)

Lemma do_path {A} method path body (zero : A) dec tr r :
  Prog.path (Scim.do p method path body zero dec) tr r →
  ∃ x, tr = [Ev (OpHTTP (scim_request method path body)) x] ∧ r = outcome zero dec x.
Proof. intros (x & tr' & -> & Hp). exists x. destruct x; by destruct Hp as [-> ->]. Qed.

(** A request that reports success was accepted and its body decoded. *)
Lemma do_ok {A} method path body (zero : A) dec tr a :
  Prog.path (Scim.do p method path body zero dec) tr (Ok a) →
  ∃ res, tr = [Ev (OpHTTP (scim_request method path body)) (Ok res)] ∧ hs_Status res < 400 ∧
    (dec (hs_Body res) = Decoded a ∨ a = zero).
Proof.
  intros ([res|] & -> & Ha)%do_path; [|done]. exists res. split; [done|]. simpl in Ha.
  destruct (hs_Status res =? 404) eqn:E1; [done|]. destruct (400 <=? hs_Status res) eqn:E2; [done|]. split; [lia|].
  destruct (dec (hs_Body res)); simplify_eq; auto.
Qed.

Lemma do_ok_accepted {A} method path body (zero : A) dec tr a :
  Prog.path (Scim.do p method path body zero dec) tr (Ok a) → accepted tr method path body.
Proof. intros (res & -> & Hst & _)%do_ok. exists res. split; [by left|done]. Qed.

Lemma createUser_ok u tr id :
  path (Scim.createUser p u) tr (Ok id) → accepted tr "POST" "/Users" (Scim.user_body u) ∧ known_as tr u id.
Proof.
  unfold Scim.createUser. intros H. path_call H. destruct a as [id'|]; [|by destruct H].
  path_step H; [by destruct H|]. path_step H. destruct H as [-> [= ->]].
  apply bool_decide_eq_false in Hb. split.
  - eapply accepted_mono; [|by eapply do_ok_accepted]. set_solver.
  - split; [done|]. right; right. apply do_ok in Hcall as (res & -> & Hst & [Hd|Hd]); [|done].
    exists res. split; [by left|done].
Qed.

Lemma upsertUser_ok u tr id : path (Scim.upsertUser p u) tr (Ok id) → user_pushed tr u.
Proof.
  unfold Scim.upsertUser. intros H. path_call H. clear Hcall. destruct a as [vid|]; [|by destruct H].
  path_step H.
  - left. apply createUser_ok in H as [Ha _]. eapply accepted_mono; [|done]. set_solver.
  - apply bool_decide_eq_false in Hb. path_call H. destruct a as [[]|[]]; try (by destruct H).
    + destruct H as [-> _]. right. exists vid. split; [done|].
      eapply accepted_mono; [|by eapply do_ok_accepted]. set_solver.
    + path_step H. left. apply createUser_ok in H as [Ha _]. eapply accepted_mono; [|done]. set_solver.
Qed.

Lemma cachedExternalID_ok uid tr id :
  path (Scim.cachedExternalID p uid) tr (Ok id) → id ≠ "" →
  Ev (OpDb (QGetExternalID (Scim.provider p) uid)) (Ok id) ∈ tr.
Proof.
  intros (x & tr' & -> & [-> Ha]) Hid. destruct x as [id'|[]]; simplify_eq; by left.
Qed.

Lemma resolveVaultUserID_ok u tr id :
  path (Scim.resolveVaultUserID p u) tr (Ok id) → id ≠ "" → known_as tr u id.
Proof.
  unfold Scim.resolveVaultUserID. intros H Hid. split; [done|]. path_call H.
  destruct a as [cid|]; [|by destruct H]. path_step H.
  { destruct H as [-> [= ->]]. left. apply elem_of_app. left. by eapply cachedExternalID_ok. }
  path_call H. destruct a as [fid|]; [|by destruct H]. path_step H.
  { by destruct H as [_ [= ->]]. }
  path_step H. destruct H as [-> [= ->]]. right; left. unfold Scim.findUserByExternalID in Hcall0.
  path_call Hcall0. destruct a as [ids|]; [|by destruct Hcall0]. destruct Hcall0 as [-> [= ->]].
  apply do_ok in Hcall1 as (res & -> & Hst & [Hd| ->]); [|done].
  exists res, ids. split; [set_solver|]. split; [done|]. by destruct ids.
Qed.

(** A failure to find or to create leaves a trace. *)
Lemma createUser_err u tr e : path (Scim.createUser p u) tr (Err e) → unresolved tr u.
Proof.
  unfold Scim.createUser. intros H. path_call H. apply do_path in Hcall as (x & -> & ->).
  destruct (outcome _ _ x) as [id|e'] eqn:E.
  - path_step H; [|path_step H; by destruct H]. apply bool_decide_eq_true in Hb as ->. right; right. exists x.
    split; [set_solver|]. rewrite E. by intros id [= <-].
  - right; right. exists x. split; [set_solver|]. by rewrite E.
Qed.

Lemma resolveVaultUserID_err u tr e : path (Scim.resolveVaultUserID p u) tr (Err e) → unresolved tr u.
Proof.
  unfold Scim.resolveVaultUserID. intros H. path_call H. destruct a as [cid|e'].
  - path_step H; [by destruct H|]. path_call H. destruct a as [fid|e'].
    + path_step H; [by destruct H|]. path_step H. by destruct H.
    + unfold Scim.findUserByExternalID in Hcall0. path_call Hcall0.
      apply do_path in Hcall1 as (x & -> & ->). destruct (outcome _ _ x) as [ids|e''] eqn:E; [by destruct Hcall0|].
      right; left. exists x, e''. split; [set_solver|done].
  - destruct Hcall as (x & tr' & -> & [-> Ha]). left. destruct x as [|[]]; try done; injection Ha as ->;
      eexists; (split; [by left|done]).
Qed.

Lemma resolveGroupMembers_refs ms tr refs : path (Scim.resolveGroupMembers p ms) tr refs → refs_of tr ms refs.
Proof.
  revert tr refs. induction ms as [|m ms IH]; intros tr refs H; [by destruct H as [-> ->]; constructor|].
  cbn [Scim.resolveGroupMembers] in H. path_call H. path_call H. path_call H. destruct H as [-> ->].
  apply IH in Hcall1. destruct a as [rid|e].
  - destruct (bool_decide (rid = "")) eqn:E.
    + path_call Hcall0. destruct a as [cid|]; destruct Hcall0 as [-> ->].
      * apply createUser_ok in Hcall2 as [_ Hk].
        apply refs_cons; [eapply known_as_mono|eapply refs_of_mono]; [|done| |done]; set_solver.
      * apply createUser_err in Hcall2.
        apply refs_skip; [eapply unresolved_mono|eapply refs_of_mono]; [|done| |done]; set_solver.
    + destruct Hcall0 as [-> ->]. apply bool_decide_eq_false in E. apply resolveVaultUserID_ok in Hcall; [|done].
      apply refs_cons; [eapply known_as_mono|eapply refs_of_mono]; [|done| |done]; set_solver.
  - destruct Hcall0 as [-> ->]. apply resolveVaultUserID_err in Hcall.
    apply refs_skip; [eapply unresolved_mono|eapply refs_of_mono]; [|done| |done]; set_solver.
Qed.

Lemma upsertGroup_ok g ms tr : path (Scim.upsertGroup p g ms) tr (Ok tt) → group_pushed tr g ms.
Proof.
  unfold Scim.upsertGroup. intros H. path_call H. path_call H. exists a. split.
  { eapply refs_of_mono; [|by apply resolveGroupMembers_refs]. set_solver. }
  destruct a0 as [[]|[]]; try (by destruct H).
  - left. destruct H as [-> _]. eapply accepted_mono; [|by eapply do_ok_accepted]. set_solver.
  - right. eapply accepted_mono; [|by eapply do_ok_accepted]. set_solver.
Qed.

(** ** The full synchronisation *)

(** The rows counted as successful are those whose push succeeded; the others
    are counted as failed. *)
Lemma sync_rows_counts {A} (push : A → prog (result unit)) l ok fail tr ok' fail' :
  path (sync_rows push l ok fail) tr (ok', fail') →
  ∃ good, good `sublist_of` l ∧ ok' = ok + Z.of_nat (length good) ∧
    fail' = fail + (Z.of_nat (length l) - Z.of_nat (length good)) ∧
    ∀ a, a ∈ good → ∃ tr', tr' ⊆ tr ∧ path (push a) tr' (Ok tt).
Proof.
  revert ok fail tr. induction l as [|a l IH]; intros ok fail tr H; cbn [sync_rows] in H.
  { destruct H as [-> [= -> ->]]. exists []. split_and!; [done|simpl; lia..|]. by intros a ?%elem_of_nil. }
  path_call H. destruct a0 as [[]|e]; apply IH in H as (good & Hsub & Hok & Hfail & Hgood).
  - exists (a :: good). split_and!; [by apply sublist_skip|simpl; lia..|].
    intros b [->|Hb]%elem_of_cons; [exists tr0; split; [set_solver|done]|].
    destruct (Hgood b Hb) as (tr' & ? & ?). exists tr'. split; [set_solver|done].
  - exists good. split_and!; [by apply sublist_cons|simpl; lia..|].
    intros b Hb. destruct (Hgood b Hb) as (tr' & ? & ?). exists tr'. split; [set_solver|done].
Qed.

(** What a synchronisation that answered the counts [(uok, ufail, gok, gfail)]
    pushed: [uok] of the [users] it listed, [gok] of the [groups]. *)
Definition users_synced (tr : list event) (users : list User) (uok ufail : Z) : Prop :=
  Ev (OpDb QListUsers) (Ok users) ∈ tr ∧
  ∃ good, good `sublist_of` users ∧ Z.of_nat (length good) = uok ∧
    uok + ufail = Z.of_nat (length users) ∧ ∀ u, u ∈ good → user_pushed tr u.

Definition groups_synced (tr : list event) (users : list User) (gok gfail : Z) : Prop :=
  ∃ groups, Ev (OpDb QListGroups) (Ok groups) ∈ tr ∧
  ∃ good, good `sublist_of` groups ∧ Z.of_nat (length good) = gok ∧
    gok + gfail = Z.of_nat (length groups) ∧
    ∀ g, g ∈ good → group_pushed tr g (omap (λ mid, users_by_id users !! mid) (grp_Members g)).

Lemma users_phase users tr uok ufail :
  path (sync_rows (λ u, prov_User p OpCreate u []) users 0 0) tr (uok, ufail) →
  ∃ good, good `sublist_of` users ∧ Z.of_nat (length good) = uok ∧
    uok + ufail = Z.of_nat (length users) ∧ ∀ u, u ∈ good → user_pushed tr u.
Proof.
  intros (good & Hsub & Hok & Hfail & Hgood)%sync_rows_counts. exists good. split_and!; [done|lia..|].
  intros u (tr' & Hs & Hp)%Hgood. path_call Hp. destruct Hp as [-> Ha]. destruct a as [id|]; [|done].
  eapply user_pushed_mono; [|by eapply upsertUser_ok]. set_solver.
Qed.

Lemma groups_phase users groups tr gok gfail :
  path (sync_rows (λ g, prov_Group p OpCreate g (omap (λ mid, users_by_id users !! mid) (grp_Members g))) groups 0 0)
    tr (gok, gfail) →
  ∃ good, good `sublist_of` groups ∧ Z.of_nat (length good) = gok ∧
    gok + gfail = Z.of_nat (length groups) ∧
    ∀ g, g ∈ good → group_pushed tr g (omap (λ mid, users_by_id users !! mid) (grp_Members g)).
Proof.
  intros (good & Hsub & Hok & Hfail & Hgood)%sync_rows_counts. exists good. split_and!; [done|lia..|].
  intros g (tr' & Hs & Hp)%Hgood. eapply group_pushed_mono; [done|]. by apply upsertGroup_ok.
Qed.

(** C21: the counts of a full synchronisation say what the downstream server
    accepted of what the store answered.  Either the users could not be listed
    and nothing is counted, or [userOK] of the users the store answered were
    accepted downstream and the rest are counted as failed; and either the
    groups could not be listed and none is counted, or [groupOK] of the groups
    the store answered were accepted, each as a whole with those of its members
    that are among the users of the first listing, in order, each under an
    identifier that the cache, a search or a creation gave for that very user;
    one of those members is left out of the push only if reading the cache, the
    search or the creation failed for it.

    The claim is relative to the two answers of the store: a member that is not
    among the listed users is dropped without an attempt, and a member that the
    store's own reading of the group lost is not pushed either, while the group
    counts as a success in both cases ([lost_members_empty_the_group]). *)
Theorem full_sync_counts tr uok ufail gok gfail :
  path (SyncAll p) tr (uok, ufail, gok, gfail) →
  (uok = 0 ∧ ufail = 0 ∧ gok = 0 ∧ gfail = 0 ∧ ∃ e, tr = [Ev (OpDb QListUsers) (Err e)]) ∨
  ∃ users, users_synced tr users uok ufail ∧
    ((gok = 0 ∧ gfail = 0 ∧ ∃ e, Ev (OpDb QListGroups) (Err e) ∈ tr) ∨ groups_synced tr users gok gfail).
Proof.
  unfold SyncAll. intros H. path_step H. destruct x as [users|e]; [|].
  2: { destruct H as [-> [= -> -> -> ->]]. left. eauto 10. }
  right. exists users. path_call H. destruct a as [u1 u2]. path_step H.
  destruct (users_phase _ _ _ _ Hcall) as (good & Hsub & Hlen & Hsum & Hgood). destruct x as [groups|e].
  - path_call H. destruct a as [g1 g2]. destruct H as [-> [= -> -> -> ->]]. split.
    + split; [set_solver|]. exists good. split_and!; [done..|]. intros u Hu.
      eapply user_pushed_mono; [|by apply Hgood]. set_solver.
    + right. exists groups. split; [set_solver|].
      destruct (groups_phase _ _ _ _ _ Hcall0) as (gg & Hgs & Hgl & Hgsum & Hgg). exists gg. split_and!; [done..|].
      intros g Hg. eapply group_pushed_mono; [|by apply Hgg]. set_solver.
  - destruct H as [-> [= -> -> -> ->]]. split.
    + split; [set_solver|]. exists good. split_and!; [done..|]. intros u Hu.
      eapply user_pushed_mono; [|by apply Hgood]. set_solver.
    + left. split_and!; [done..|]. exists e. set_solver.
Qed.

(** ** Ending access downstream *)

(** A deactivation that reports success: the server accepted [active = false]
    for an identifier of the user, or it knows no such user, or it answered 404
    for the identifier that was known, in which case that identifier is
    forgotten and nothing else is tried. *)
Lemma deactivation_outcomes u tr :
  path (Scim.setUserActive p u false) tr (Ok tt) →
  (∃ id, known_as tr u id ∧ accepted tr "PATCH" ("/Users/" +:+ PathEscape id)
           (Scim.patch_body [Scim.replace_op "active" (JBool false)])) ∨
  (∃ tr', tr' ⊆ tr ∧ path (Scim.resolveVaultUserID p u) tr' (Ok "")) ∨
  ∃ id res, known_as tr u id ∧ hs_Status res = 404 ∧
    Ev (OpHTTP (scim_request "PATCH" ("/Users/" +:+ PathEscape id)
         (Scim.patch_body [Scim.replace_op "active" (JBool false)]))) (Ok res) ∈ tr ∧
    ∃ tr' x, tr = tr' ++ [Ev (OpDb (QDeleteExternalID (Scim.provider p) (u_ID u))) x].
Proof.
  unfold Scim.setUserActive. intros H. path_call H. destruct a as [id|]; [|by destruct H]. path_step H.
  { apply bool_decide_eq_true in Hb as ->. right; left. exists tr0. split; [set_solver|done]. }
  apply bool_decide_eq_false in Hb. pose proof (resolveVaultUserID_ok _ _ _ Hcall Hb) as Hk. path_call H.
  destruct a as [[]|[]]; try (by destruct H).
  - destruct H as [-> _]. left. exists id. split; [eapply known_as_mono; [|done]; set_solver|].
    eapply accepted_mono; [|by eapply do_ok_accepted]. set_solver.
  - path_step H. destruct H as [-> _]. right; right. apply do_path in Hcall0 as ([res|] & -> & Ho); [|done].
    simpl in Ho. destruct (hs_Status res =? 404) eqn:E; [|by destruct (400 <=? hs_Status res)].
    exists id, res. split; [eapply known_as_mono; [|done]; set_solver|]. split; [lia|]. split; [set_solver|].
    eexists _, x. by rewrite app_assoc.
Qed.

End pushes.

(** ** A deployment with one group and one target *)

Definition fx_group_world : World :=
  mkWorld (effect 0%N (QAddGroupMember 41%N 7%N) (effect 41%N (QCreateGroup "ops") fx_db)) 0 [] [] fx_outside.

Definition fx_target : Scim.ScimClient := Scim.New "" "" "https://vault.example/scim/v2/" "tok".

Definition fx_sync_trace : list event := trace fx_env (SyncAll fx_target) fx_group_world.

(** One user and one group, both accepted. *)
Lemma full_sync_counts_witness :
  (exec fx_env (SyncAll fx_target) fx_group_world).1 = (1, 0, 1, 0) ∧
  ∃ users, users_synced fx_target fx_sync_trace users 1 0 ∧ groups_synced fx_target fx_sync_trace users 1 0.
Proof.
  split; [vm_compute; reflexivity|].
  destruct (full_sync_counts fx_target fx_sync_trace 1 0 1 0) as [(H & _)|(users & Hu & [(H & _)|Hg])].
  - exact (exec_path fx_env (SyncAll fx_target) fx_group_world).
  - discriminate H.
  - exists users. by split; [|discriminate H].
  - by exists users.
Defined.

(** When the statement that reads the members of a group fails, the store
    answers the group without members, and the synchronisation replaces the
    downstream group by an empty one and counts it as a success. *)
Definition fx_lost_members : Env :=
  fx_env_with (env_http fx_env) (λ n, if bool_decide (n = 4)%nat then FaultMembers (λ _, Some O) else NoFault).

Lemma lost_members_empty_the_group :
  match (exec fx_env (db QListGroups) fx_group_world).1 with Ok gs => grp_Members <$> gs | Err _ => [] end = [[7%N]] ∧
  (exec fx_lost_members (SyncAll fx_target) fx_group_world).1 = (1, 0, 1, 0) ∧
  head (reverse (trace fx_lost_members (SyncAll fx_target) fx_group_world)) =
    Some (Ev (OpHTTP (scim_request fx_target "PUT" "/Groups/uuid"
      (JsonBody (JObj [("schemas", JStrs [Scim.schemaGroup]); ("externalId", JStr "uuid");
        ("displayName", JStr "ops"); ("members", JArr [])])))) (Ok (mkHTTPResponse 200 "id1"))).
Proof. vm_compute. auto. Qed.

(** A server that knows the user under "id2" only, while the cache holds "id1":
    the deactivation is answered 404 and reported as a success, and the search
    that would find "id2" is not made. *)
Definition fx_moved : Env :=
  fx_env_with (λ _ r, if bool_decide (hr_Method r = "GET") then Ok (mkHTTPResponse 200 "id2")
                      else if bool_decide (hr_URL r = "https://vault.example/scim/v2/Users/id2") then Ok (mkHTTPResponse 200 "")
                      else Ok (mkHTTPResponse 404 "")) (λ _, NoFault).

Definition fx_cached_world : World :=
  mkWorld (effect 0%N (QSetExternalID "vault" 7%N "id1") fx_db) 0 [] [] fx_outside.

Definition is_http (e : event) : bool := match e with Ev (OpHTTP _) _ => true | _ => false end.

Lemma stale_identifier_loses_deactivation :
  let p := Scim.setUserActive fx_target fx_user false in
  (exec fx_moved p fx_cached_world).1 = Ok tt ∧
  filter is_http (trace fx_moved p fx_cached_world) =
    [Ev (OpHTTP (scim_request fx_target "PATCH" "/Users/id1"
       (Scim.patch_body [Scim.replace_op "active" (JBool false)]))) (Ok (mkHTTPResponse 404 ""))] ∧
  (exec fx_moved (Scim.findUserByExternalID fx_target "uuid") fx_cached_world).1 = Ok "id2".
Proof. vm_compute. auto. Qed.
