(* ===== verification/Contract.v ===== *)
(** * The store's contract: framework, core and operations

    [internal/store/storetest] is the behavioural contract that the repository
    runs against both stores, "so the two cannot drift apart".  A test is a
    program over the store interface with assertions: [t.Errorf] records a
    failure and goes on, [t.Fatalf] stops ([T], the effect programs of [Prog]
    with a failure flag and an early exit).  This file has the tests of
    [contract_core.go] and [contract_ops.go]; [ContractRun] the others and the
    theorem that the model passes them all with either database.  Reading a
    field of a struct whose call's error was discarded counts as [t.Fatal] when
    there was one (Go would panic). *)
From S2P Require Import Prelude GoStrings Model Dialect Tables SqliteUsers SqliteTokens SqliteAws Store Prog.
From S2P Require Import SingleUse Server Provision Awsfed.

Local Open Scope Z_scope.

(** ** Tests as programs *)

(** Did an assertion fail, and the value unless the test was stopped. *)
Definition T (A : Type) : Type := prog (bool * option A).

Definition t_ret {A} (a : A) : T A := Ret (false, Some a).

Definition t_bind {A B} (m : T A) (k : A → T B) : T B :=
  bind m (λ fa,
    match fa.2 with
    | None => Ret (fa.1, None)
    | Some a => bind (k a) (λ gb, Ret (fa.1 || gb.1, gb.2))
    end).

Declare Scope test_scope.
Delimit Scope test_scope with test.
Bind Scope test_scope with T.
Notation "x <~ m ;; k" := (t_bind m (λ x, k)) (at level 60, m at level 59, right associativity) : test_scope.
Notation "m ~;; k" := (t_bind m (λ _, k)) (at level 60, right associativity) : test_scope.
Local Open Scope test_scope.

Definition lift {A} (p : prog A) : T A := bind p t_ret.

(** [if wrong { t.Errorf(...) }] *)
Definition check (wrong : bool) : T unit := Ret (wrong, Some tt).

(** [if wrong { t.Fatalf(...) }] *)
Definition demand (wrong : bool) : T unit := Ret (wrong, if wrong then None else Some tt).

(** [x, err := db.M(...)] *)
Definition call {A} (q : Query A) : T (result A) := lift (db q).

(** [x, err := db.M(...); if err != nil { t.Fatalf(...) }], and the reads whose
    error is discarded before a field is used. *)
Definition must {A} (q : Query A) : T A :=
  r <~ call q;; match r with Ok a => t_ret a | Err _ => Ret (true, None) end.

(** [x, err := db.M(...); if err != nil || bad x { t.Errorf(...) }] *)
Definition check_ok {A} (q : Query A) (bad : A → bool) : T unit :=
  r <~ call q;; check (match r with Ok a => bad a | Err _ => true end).

(** [errors.Is(err, e)] *)
Definition is_err {A} (e : error) (r : result A) : bool :=
  match r with Err e' => bool_decide (e' = e) | Ok _ => false end.

(** [if _, err := db.M(...); err != want { t.Errorf(...) }] *)
Definition check_err {A} (want : error) (q : Query A) : T unit := r <~ call q;; check (negb (is_err want r)).

(** [for _, x := range l { body }] *)
Fixpoint t_each {A} (l : list A) (body : A → T unit) : T unit :=
  match l with [] => t_ret tt | x :: l => body x ~;; t_each l body end.

(** [time.Now()], [Truncate(time.Second)], [uuid.New()]. *)
Definition Now : T Z := lift now.
Definition Truncate (t : Z) : Z := t `div` Second * Second.
Definition NewUUID : T uuid := lift newUUID.

(** [string(rune('0' + n))] and the like, for ASCII. *)
Definition rune (c : ascii) (n : nat) : string := String (ascii_of_nat (nat_of_ascii c + n)) "".

(** ** storetest.go *)

Fixpoint sliceEq (a b : list string) : bool :=
  match a, b with
  | [], [] => true
  | x :: a, y :: b => bool_decide (x = y) && sliceEq a b
  | _, _ => false
  end.

Definition tileIDs (cs : list Client) : list uuid := c_ID <$> cs.

Definition contains (ids : list uuid) (target : uuid) : bool := bool_decide (target ∈ ids).

Definition is_empty {A} (l : list A) : bool := match l with [] => true | _ => false end.

(** ** Structs with the zero values of the fields a test leaves out *)

Definition a_grant (id user client : uuid) (code challenge nonce : string) (scopes : list string) (uri : string)
    (exp : Z) (mfaAt : option Z) (authTime : Z) : Grant :=
  {| g_ID := id; g_UserID := user; g_ClientID := client; g_CodeHash := code; g_CodeChallenge := challenge;
     g_Nonce := nonce; g_Scopes := scopes; g_RedirectURI := uri; g_ExpiresAt := exp; g_UsedAt := None;
     g_MFAVerifiedAt := mfaAt; g_AuthTime := authTime |}.

Definition a_session (id user client : uuid) (access refresh : string) (scopes : list string)
    (accessExp refreshExp : Z) (mfa : bool) (authTime : Z) : Session :=
  {| s_ID := id; s_UserID := user; s_ClientID := client; s_AccessTokenHash := access;
     s_RefreshTokenHash := refresh; s_Scopes := scopes; s_AccessExpiresAt := accessExp;
     s_RefreshExpiresAt := refreshExp; s_LastActivityAt := 0; s_MFAVerified := mfa; s_MFAVerifiedAt := None;
     s_AuthTime := authTime; s_CreatedAt := 0 |}.

Definition a_totp (id user : uuid) (secret dek : string) : TOTPCredential :=
  {| totp_ID := id; totp_UserID := user; totp_EncryptedSecret := secret; totp_EncryptedDEK := dek;
     totp_Enabled := false; totp_CreatedAt := 0 |}.

Definition a_webauthn (id user : uuid) (cred pk aaguid : string) (count : Z) (be : option bool) (dev : string)
    : WebAuthnCredential :=
  {| wa_ID := id; wa_UserID := user; wa_CredentialID := cred; wa_PublicKey := pk; wa_AAGUID := aaguid;
     wa_SignCount := count; wa_BackupEligible := be; wa_BackupState := false; wa_DeviceName := dev;
     wa_CreatedAt := 0; wa_LastUsedAt := 0 |}.

Definition a_key (id : uuid) (kid pk dek : string) : SigningKey :=
  {| sk_ID := id; sk_EncryptedPrivateKey := pk; sk_EncryptedDEK := dek; sk_Algorithm := "RS256"; sk_KID := kid;
     sk_Active := true; sk_CreatedAt := 0 |}.

(** ** contract_core.go *)

Definition testUserRoundTrip : T unit :=
  u <~ must (QCreateUser "alice@example.com" "hash" "Alice");;
  demand (bool_decide (u_ID u = uuid_nil)) ~;;
  check (negb (u_Active u)) ~;;
  check (bool_decide (u_LockedUntil u ≠ None)) ~;;
  t <~ Now;;
  let until := Truncate (t + 15 * Minute) in
  must (QUpdateUserFailedAttempts (u_ID u) 3 (Some until)) ~;;
  got <~ must (QGetUserByID (u_ID u));;
  check (negb (u_FailedAttempts got =? 3)) ~;;
  demand (bool_decide (u_LockedUntil got = None)) ~;;
  check (bool_decide (u_LockedUntil got ≠ Some until)) ~;;
  must (QUpdateUserFailedAttempts (u_ID u) 0 None) ~;;
  got <~ must (QGetUserByID (u_ID u));;
  check (bool_decide (u_LockedUntil got ≠ None)) ~;;
  check_err ErrConflict (QCreateUser "alice@example.com" "h" "A2") ~;;
  other <~ NewUUID;;
  check_err ErrNotFound (QGetUserByID other).

Definition testClientArrayRoundTrip : T unit :=
  let uris := ["https://app.example/callback"; "https://alt.example/cb"] in
  let scopes := ["openid"; "email"; "profile"] in
  c <~ must (QCreateClient "my-app" "secrethash" "My App" uris scopes false None);;
  got <~ must (QGetClientByID (c_ID c));;
  check (negb (sliceEq (c_RedirectURIs got) uris)) ~;;
  check (negb (sliceEq (c_Scopes got) scopes)) ~;;
  must (QUpdateClient (c_ID c) "Renamed" [] [] true None) ~;;
  got <~ must (QGetClientByID (c_ID c));;
  check (negb (is_empty (c_RedirectURIs got))) ~;;
  check (negb (is_empty (c_Scopes got))) ~;;
  check (negb (c_Public got)).

(** The identifier "00000000-0000-0000-0000-000000000001" is the number one. *)
Definition testPortalClientSeed : T unit :=
  c <~ must (QGetClientByClientID "portal");;
  check (negb (bool_decide (c_ID c = 1%N))) ~;;
  check (negb (c_Public c)) ~;;
  check (negb (sliceEq (c_Scopes c) ["portal"; "admin"])).

Definition testExternalIDsUpsert : T unit :=
  user <~ must (QCreateUser "carol@example.com" "h" "Carol");;
  must (QSetExternalID "vault" (u_ID user) "ext-1") ~;;
  got <~ must (QGetExternalID "vault" (u_ID user));;
  check (bool_decide (got ≠ "ext-1")) ~;;
  must (QSetExternalID "vault" (u_ID user) "ext-2") ~;;
  got <~ must (QGetExternalID "vault" (u_ID user));;
  check (bool_decide (got ≠ "ext-2")).

Definition testGroupMembersIdempotent : T unit :=
  u1 <~ must (QCreateUser "u1@example.com" "h" "U1");;
  u2 <~ must (QCreateUser "u2@example.com" "h" "U2");;
  g <~ must (QCreateGroup "engineers");;
  must (QAddGroupMember (grp_ID g) (u_ID u1)) ~;;
  must (QAddGroupMember (grp_ID g) (u_ID u1)) ~;;
  must (QReplaceGroupMembers (grp_ID g) [u_ID u1; u_ID u2; u_ID u1]) ~;;
  got <~ must (QGetGroupByID (grp_ID g));;
  check (bool_decide (length (grp_Members got) ≠ 2%nat)).

(** ** contract_ops.go; [name] is [t.Name()] *)

Section ops.
  Context (name : string).

Definition newUserAndClient : T (User * Client) :=
  u <~ must (QCreateUser (name +:+ "@example.com") "hash" name);;
  c <~ must (QCreateClient (name +:+ "-client") "sec" (name +:+ " app") ["https://app.example/cb"] ["openid"]
               false None);;
  t_ret (u, c).

Definition testGrantRoundTrip : T unit :=
  uc <~ newUserAndClient;; let '(u, c) := uc in
  id <~ NewUUID;;
  t <~ Now;;
  t' <~ Now;;
  let mfaAt := Truncate t' in
  let g := a_grant id (u_ID u) (c_ID c) "code-hash-1" "S256-challenge" "nonce-1" ["openid"; "email"]
             "https://app.example/cb" (Truncate (t + Minute)) (Some mfaAt) 0 in
  must (QCreateGrant g) ~;;
  got <~ must (QGetGrantByCodeHash "code-hash-1");;
  check (bool_decide (g_MFAVerifiedAt got ≠ Some mfaAt)) ~;;
  check (bool_decide (g_UsedAt got ≠ None)) ~;;
  check (negb (sliceEq (g_Scopes got) ["openid"; "email"])) ~;;
  must (QMarkGrantUsed (g_ID g)) ~;;
  got <~ must (QGetGrantByCodeHash "code-hash-1");;
  check (bool_decide (g_UsedAt got = None)) ~;;
  check_err ErrNotFound (QMarkGrantUsed (g_ID g)) ~;;
  check_err ErrNotFound (QGetGrantByCodeHash "missing").

Definition testGrantDeleteExpired : T unit :=
  uc <~ newUserAndClient;; let '(u, c) := uc in
  id1 <~ NewUUID;; t1 <~ Now;; id2 <~ NewUUID;; t2 <~ Now;;
  let fresh := a_grant id1 (u_ID u) (c_ID c) "fresh" "" "" [] "" (Truncate (t1 + 24 * Hour)) None 0 in
  let stale := a_grant id2 (u_ID u) (c_ID c) "stale" "" "" [] "" (Truncate (t2 - 24 * Hour)) None 0 in
  must (QCreateGrant fresh) ~;;
  must (QCreateGrant stale) ~;;
  must QDeleteExpiredGrants ~;;
  check_ok (QGetGrantByCodeHash "fresh") (λ _, false) ~;;
  check_err ErrNotFound (QGetGrantByCodeHash "stale").

Definition testSessionLifecycle : T unit :=
  uc <~ newUserAndClient;; let '(u, c) := uc in
  id <~ NewUUID;; t1 <~ Now;; t2 <~ Now;;
  let sess := a_session id (u_ID u) (c_ID c) "ah-1" "rh-1" ["openid"] (Truncate (t1 + Hour))
                (Truncate (t2 + 24 * Hour)) true 0 in
  must (QCreateSession sess) ~;;
  got <~ must (QGetSessionByAccessTokenHash "ah-1");;
  check (bool_decide (s_ID got ≠ s_ID sess)) ~;;
  check (negb (s_MFAVerified got)) ~;;
  got <~ must (QGetSessionByRefreshTokenHash "rh-1");;
  check (bool_decide (s_ID got ≠ s_ID sess)) ~;;
  t3 <~ Now;;
  let la := Truncate (t3 + 5 * Minute) in
  must (QUpdateSessionActivity (s_ID sess) la) ~;;
  got <~ must (QGetSessionByAccessTokenHash "ah-1");;
  check (bool_decide (s_LastActivityAt got ≠ la)) ~;;
  t4 <~ Now;;
  let newExp := Truncate (t4 + 2 * Hour) in
  must (QExtendSessionExpiry (s_ID sess) newExp) ~;;
  got <~ must (QGetSessionByAccessTokenHash "ah-1");;
  check (bool_decide (s_AccessExpiresAt got ≠ newExp)) ~;;
  t5 <~ Now;; t6 <~ Now;;
  let newAcc := Truncate (t5 + Hour) in
  let newRef := Truncate (t6 + 48 * Hour) in
  must (QRotateRefreshToken (s_ID sess) "rh-1" "ah-2" "rh-2" newAcc newRef) ~;;
  check_err ErrNotFound (QRotateRefreshToken (s_ID sess) "rh-1" "ah-3" "rh-3" newAcc newRef) ~;;
  check_ok (QGetSessionByAccessTokenHash "ah-2") (λ _, false) ~;;
  check_err ErrNotFound (QGetSessionByAccessTokenHash "ah-1") ~;;
  check_err ErrNotFound (QGetSessionByRefreshTokenHash "rh-1") ~;;
  check_ok (QGetSessionByRefreshTokenHash "rh-2") (λ _, false) ~;;
  ids <~ must (QListSessionClientIDsByUser (u_ID u));;
  check (bool_decide (ids ≠ [c_ID c])) ~;;
  must (QDeleteSession (s_ID sess)) ~;;
  check_err ErrNotFound (QGetSessionByAccessTokenHash "ah-1").

Definition testSessionsByUserBulkDelete : T unit :=
  uc <~ newUserAndClient;; let '(u, c) := uc in
  t_each [(0%nat, "a1"); (1%nat, "a2"); (2%nat, "a3")] (λ iah,
    id <~ NewUUID;; t1 <~ Now;; t2 <~ Now;;
    must (QCreateSession (a_session id (u_ID u) (c_ID c) iah.2 ("r" +:+ rune "1" iah.1) [] (t1 + Hour)
            (t2 + 24 * Hour) false 0)) ~;; t_ret tt) ~;;
  must (QDeleteSessionsByUserID (u_ID u)) ~;;
  t_each ["a1"; "a2"; "a3"] (λ ah, check_err ErrNotFound (QGetSessionByAccessTokenHash ah)).

Definition testSessionDeleteExpired : T unit :=
  uc <~ newUserAndClient;; let '(u, c) := uc in
  t1 <~ Now;; t2 <~ Now;;
  let future := Truncate (t1 + 24 * Hour) in
  let past := Truncate (t2 - 24 * Hour) in
  id1 <~ NewUUID;; id2 <~ NewUUID;;
  must (QCreateSession (a_session id1 (u_ID u) (c_ID c) "fresh-a" "fresh-r" [] future future false 0)) ~;;
  must (QCreateSession (a_session id2 (u_ID u) (c_ID c) "stale-a" "stale-r" [] past past false 0)) ~;;
  must QDeleteExpiredSessions ~;;
  check_ok (QGetSessionByAccessTokenHash "fresh-a") (λ _, false) ~;;
  check_err ErrNotFound (QGetSessionByAccessTokenHash "stale-a").

Definition testTOTPLifecycle : T unit :=
  uc <~ newUserAndClient;; let '(u, _) := uc in
  id <~ NewUUID;;
  must (QCreateTOTPCredential (a_totp id (u_ID u) "encrypted" "dek")) ~;;
  got <~ must (QGetTOTPByUserID (u_ID u));;
  check (totp_Enabled got) ~;;
  id2 <~ NewUUID;;
  check_err ErrConflict (QCreateTOTPCredential (a_totp id2 (u_ID u) "x" "y")) ~;;
  must (QEnableTOTP id) ~;;
  got <~ must (QGetTOTPByUserID (u_ID u));;
  check (negb (totp_Enabled got)) ~;;
  must (QDeleteTOTP (u_ID u)) ~;;
  check_err ErrNotFound (QGetTOTPByUserID (u_ID u)).

(** Byte strings are abbreviated by the hexadecimal text of their bytes. *)
Definition testWebAuthnCredentialLifecycle : T unit :=
  uc <~ newUserAndClient;; let '(u, _) := uc in
  id <~ NewUUID;;
  let cred := a_webauthn id (u_ID u) "01020304" "AABB" "CC" 7 None "yubikey" in
  must (QCreateWebAuthnCredential cred) ~;;
  list <~ must (QListWebAuthnCredentials (u_ID u));;
  check (bool_decide (wa_DeviceName <$> list ≠ ["yubikey"])) ~;;
  got <~ match list with x :: _ => t_ret x | [] => Ret (true, None) end;;
  check (negb (wa_SignCount got =? 7)) ~;;
  check (bool_decide (wa_BackupEligible got ≠ None) || wa_BackupState got) ~;;
  id2 <~ NewUUID;;
  check_err ErrConflict (QCreateWebAuthnCredential (a_webauthn id2 (u_ID u) "01020304" "01" "02" 0 None "")) ~;;
  t <~ Now;;
  let last := Truncate t in
  must (QUpdateWebAuthnCredentialUse (wa_ID cred) 42 true true last) ~;;
  list <~ must (QListWebAuthnCredentials (u_ID u));;
  got <~ match list with x :: _ => t_ret x | [] => Ret (true, None) end;;
  check (negb (wa_SignCount got =? 42) || bool_decide (wa_LastUsedAt got ≠ last)) ~;;
  check (bool_decide (wa_BackupEligible got ≠ Some true) || negb (wa_BackupState got)) ~;;
  id3 <~ NewUUID;;
  let key := a_webauthn id3 (u_ID u) "05060708" "01" "02" 0 (Some false) "" in
  must (QCreateWebAuthnCredential key) ~;;
  list <~ must (QListWebAuthnCredentials (u_ID u));;
  t_each list (λ c, check (bool_decide (wa_ID c = wa_ID key) && bool_decide (wa_BackupEligible c ≠ Some false))) ~;;
  demand (negb (contains (wa_ID <$> list) (wa_ID key))) ~;;
  must (QDeleteWebAuthnCredential (wa_ID key) (u_ID u)) ~;;
  other <~ NewUUID;;
  must (QDeleteWebAuthnCredential (wa_ID cred) other) ~;;
  list <~ must (QListWebAuthnCredentials (u_ID u));;
  check (bool_decide (length list ≠ 1%nat)) ~;;
  must (QDeleteWebAuthnCredential (wa_ID cred) (u_ID u)) ~;;
  list <~ must (QListWebAuthnCredentials (u_ID u));;
  check (negb (is_empty list)).

Definition testWebAuthnSessionLifecycle : T unit :=
  uc <~ newUserAndClient;; let '(u, _) := uc in
  sid <~ must (QCreateWebAuthnSession (u_ID u) "{some:data}" "register");;
  data <~ must (QGetWebAuthnSession sid (u_ID u) "register");;
  check (bool_decide (data ≠ "{some:data}")) ~;;
  check_err ErrNotFound (QGetWebAuthnSession sid (u_ID u) "login") ~;;
  other <~ NewUUID;;
  check_err ErrNotFound (QGetWebAuthnSession sid other "register") ~;;
  must (QDeleteWebAuthnSession sid) ~;;
  check_err ErrNotFound (QGetWebAuthnSession sid (u_ID u) "register").

Definition testSigningKeyLifecycle : T unit :=
  check_err ErrNotFound QGetActiveSigningKey ~;;
  id1 <~ NewUUID;;
  must (QCreateSigningKey (a_key id1 "kid-1" "p1" "d1")) ~;;
  got <~ must QGetActiveSigningKey;;
  check (bool_decide (sk_KID got ≠ "kid-1")) ~;;
  id2 <~ NewUUID;;
  must (QCreateSigningKey (a_key id2 "kid-2" "p2" "d2")) ~;;
  keys <~ must QListActiveSigningKeys;;
  check (bool_decide (length keys ≠ 2%nat)) ~;;
  must (QDeactivateSigningKey id1) ~;;
  keys <~ must QListActiveSigningKeys;;
  check (bool_decide (sk_KID <$> keys ≠ ["kid-2"])) ~;;
  got <~ must QGetActiveSigningKey;;
  check (bool_decide (sk_KID got ≠ "kid-2")).

(** The integration the test keeps, with the fields that it changes. *)
Definition an_integration (id : uuid) (enabled : bool) (timeout created updated : Z) : AppIntegration :=
  {| ai_ID := id; ai_Name := "scim-vault"; ai_Provider := AppIntegrationProviderSCIM; ai_Enabled := enabled;
     ai_Config := mkAppIntegrationConfig "https://vault.example/scim/v2" timeout AppIntegrationAuthBearer;
     ai_EncryptedToken := Some "etok"; ai_EncryptedDEK := Some "edek"; ai_CreatedAt := created;
     ai_UpdatedAt := updated |}.

Definition testIntegrationLifecycle : T unit :=
  i <~ must (QCreateIntegration (an_integration uuid_nil true 5000 0 0));;
  check (bool_decide (ai_ID i = uuid_nil)) ~;;
  check (IsZero (ai_CreatedAt i) || IsZero (ai_UpdatedAt i)) ~;;
  got <~ must (QGetIntegration (ai_ID i));;
  check (bool_decide (aic_BaseURL (ai_Config got) ≠ "https://vault.example/scim/v2")) ~;;
  check (bool_decide (aic_AuthMode (ai_Config got) ≠ AppIntegrationAuthBearer)) ~;;
  byName <~ must (QGetIntegrationByName "scim-vault");;
  check (bool_decide (ai_ID byName ≠ ai_ID i)) ~;;
  check_err ErrConflict (QCreateIntegration
    {| ai_ID := uuid_nil; ai_Name := "scim-vault"; ai_Provider := "scim"; ai_Enabled := true;
       ai_Config := mkAppIntegrationConfig "" 0 ""; ai_EncryptedToken := None; ai_EncryptedDEK := None;
       ai_CreatedAt := 0; ai_UpdatedAt := 0 |}) ~;;
  let i := an_integration (ai_ID i) false 9000 (ai_CreatedAt i) (ai_UpdatedAt i) in
  must (QUpdateIntegration i) ~;;
  got <~ must (QGetIntegration (ai_ID i));;
  check (ai_Enabled got) ~;;
  check (negb (aic_TimeoutMS (ai_Config got) =? 9000)) ~;;
  all <~ must QListIntegrations;;
  check (bool_decide (length all ≠ 1%nat)) ~;;
  enabled <~ must QListEnabledIntegrations;;
  check (negb (is_empty enabled)) ~;;
  must (QDeleteIntegration (ai_ID i)) ~;;
  check_err ErrNotFound (QDeleteIntegration (ai_ID i)) ~;;
  check_err ErrNotFound (QUpdateIntegration i) ~;;
  check_err ErrNotFound (QGetIntegrationByName "scim-vault").

Definition testExternalIDDelete : T unit :=
  uc <~ newUserAndClient;; let '(u, _) := uc in
  must (QSetExternalID "iam" (u_ID u) "AIDABC123") ~;;
  must (QDeleteExternalID "iam" (u_ID u)) ~;;
  check_err ErrNotFound (QGetExternalID "iam" (u_ID u)).

Definition testUserUpdatePaths : T unit :=
  uc <~ newUserAndClient;; let '(u, _) := uc in
  must (QUpdateUser (u_ID u) "Renamed" false) ~;;
  must (QUpdateUserPassword (u_ID u) "new-hash") ~;;
  must (QUpdateUserMFAEnabled (u_ID u) true) ~;;
  must (QSetUserActive (u_ID u) false) ~;;
  must (QSetUserSCIMExternalID (u_ID u) "scim-1") ~;;
  must (QSetUserAdmin (u_ID u) true) ~;;
  got <~ must (QGetUserByID (u_ID u));;
  check (bool_decide (u_Name got ≠ "Renamed") || u_Active got || negb (u_MFAEnabled got) || negb (u_IsAdmin got)
         || bool_decide (u_SCIMExternalID got ≠ "scim-1") || bool_decide (u_PasswordHash got ≠ "new-hash")) ~;;
  got2 <~ must (QGetUserByEmail (u_Email got));;
  check (bool_decide (u_ID got2 ≠ u_ID u)) ~;;
  check_ok QCountUsers (λ n, negb (n =? 1)) ~;;
  check_ok QListUsers (λ l, bool_decide (length l ≠ 1%nat)) ~;;
  must (QDeleteUser (u_ID u)) ~;;
  check_err ErrNotFound (QGetUserByID (u_ID u)).

Definition testClientUpdateSecretAndDelete : T unit :=
  uc <~ newUserAndClient;; let '(_, c) := uc in
  must (QUpdateClientSecret (c_ID c) "new-sec-hash") ~;;
  got <~ must (QGetClientByID (c_ID c));;
  check (bool_decide (c_ClientSecretHash got ≠ "new-sec-hash")) ~;;
  list <~ must QListClients;;
  check (bool_decide (length list < 2)%nat) ~;;
  must (QDeleteClient (c_ID c)) ~;;
  check_err ErrNotFound (QGetClientByID (c_ID c)).

Definition testGroupUpdateAndRemove : T unit :=
  uc <~ newUserAndClient;; let '(u, _) := uc in
  g <~ must (QCreateGroup "eng");;
  must (QAddGroupMember (grp_ID g) (u_ID u)) ~;;
  must (QUpdateGroup (grp_ID g) "engineering") ~;;
  got <~ must (QGetGroupByID (grp_ID g));;
  check (bool_decide (grp_DisplayName got ≠ "engineering")) ~;;
  check_ok QListGroups (λ l, bool_decide (length l ≠ 1%nat)) ~;;
  must (QRemoveGroupMember (grp_ID g) (u_ID u)) ~;;
  got <~ must (QGetGroupByID (grp_ID g));;
  check (negb (is_empty (grp_Members got))) ~;;
  must (QDeleteGroup (grp_ID g)) ~;;
  check_err ErrNotFound (QGetGroupByID (grp_ID g)).

End ops.
