(* ===== verification/ContractRun.v ===== *)
(** * The store's contract: races, portal, AWS, tokens, and the run

    The tests of [contract_extra.go], [contract_portal.go],
    [contract_awsfed.go] and [contract_tokens.go] of [internal/store/storetest],
    the list [Run] of them all, and the theorem that the store passes it, with
    SQLite and with PostgreSQL.  The goroutines of a race make one store call
    each, a call is one step, so a race is its calls in some order: the order
    is an argument.  A time has no zone here: zones are the subject of SqlTime. *)
From S2P Require Import Prelude GoStrings GoNet Model Dialect Policy Tables SqliteUsers SqliteTokens SqliteAws Store Pkce Prog.
From S2P Require Import SingleUse Server Provision Awsfed Fixture Contract.

Local Open Scope Z_scope.
Local Open Scope test_scope.

(** ** contract_extra.go *)

(** [raceN]: the goroutines of [order] call [fn]; their errors. *)
Fixpoint raceN {A} (order : list nat) (fn : nat → T (result A)) : T (list (nat * result A)) :=
  match order with
  | [] => t_ret []
  | i :: order => r <~ fn i;; rs <~ raceN order fn;; t_ret ((i, r) :: rs)
  end.

(** The goroutines whose call succeeded. *)
Definition winners {A} (rs : list (nat * result A)) : list nat :=
  (filter (λ ir : nat * result A, match ir.2 with Ok _ => true | Err _ => false end = true) rs).*1.

(** Those whose call answered [ErrNotFound]. *)
Definition losers {A} (rs : list (nat * result A)) : list nat :=
  (filter (λ ir : nat * result A, is_err ErrNotFound ir.2 = true) rs).*1.

Section extra.
  Context (name : string).

Definition testGrantSingleUseUnderConcurrency : T unit :=
  uc <~ newUserAndClient name;; let '(u, c) := uc in
  id <~ NewUUID;; t <~ Now;;
  must (QCreateGrant (a_grant id (u_ID u) (c_ID c) "race-code" "" "" ["openid"] "https://app.example/cb"
          (t + Minute) None 0)) ~;;
  rs <~ raceN (seq 0 16) (λ _, call (QMarkGrantUsed id));;
  check (bool_decide (length (winners rs) + length (losers rs) ≠ 16)%nat) ~;;
  demand (bool_decide (length (winners rs) ≠ 1%nat) || bool_decide (length (losers rs) ≠ 15%nat)).

(** [order] lists the numbers [seq.Add(1)] dealt out in the order in which the
    goroutines' rotations reach the store. *)
Definition testRefreshRotationUnderConcurrency (order : list nat) : T unit :=
  uc <~ newUserAndClient name;; let '(u, c) := uc in
  id <~ NewUUID;; t1 <~ Now;; t2 <~ Now;;
  let sess := a_session id (u_ID u) (c_ID c) "ah-0" "rh-0" ["openid"] (t1 + Hour) (t2 + 2 * Hour) false 0 in
  must (QCreateSession sess) ~;;
  rs <~ raceN order (λ n, a <~ Now;; r <~ Now;;
          call (QRotateRefreshToken (s_ID sess) "rh-0" ("ah-" +:+ rune "a" n) ("rh-" +:+ rune "a" n)
                  (a + Hour) (r + 2 * Hour)));;
  check (bool_decide (length (winners rs) + length (losers rs) ≠ length order)%nat) ~;;
  demand (bool_decide (length (winners rs) ≠ 1%nat)) ~;;
  n <~ match winners rs with n :: _ => t_ret n | [] => Ret (true, None) end;;
  check_ok (QGetSessionByAccessTokenHash ("ah-" +:+ rune "a" n)) (λ _, false) ~;;
  check_err ErrNotFound (QGetSessionByRefreshTokenHash "rh-0") ~;;
  check_err ErrNotFound (QGetSessionByAccessTokenHash "ah-0").

Definition testUserConflictsAndNotFound : T unit :=
  must (QCreateUser "dup@example.com" "h" "Dup") ~;;
  check_err ErrConflict (QCreateUser "dup@example.com" "h" "Dup2") ~;;
  other <~ NewUUID;;
  check_err ErrNotFound (QGetUserByID other) ~;;
  check_err ErrNotFound (QGetUserByEmail "nobody@example.com") ~;;
  check_err ErrNotFound (QGetClientByClientID "nope") ~;;
  must (QCreateClient "cid-dup" "" "A" [] [] true None) ~;;
  check_err ErrConflict (QCreateClient "cid-dup" "" "B" [] [] true None).

Definition a_device (dev usr : string) (client : uuid) (scopes : list string) (exp : Z) : DeviceGrant :=
  {| dg_ID := uuid_nil; dg_DeviceCodeHash := dev; dg_UserCodeHash := usr; dg_ClientID := client;
     dg_Scopes := scopes; dg_Status := ""; dg_UserID := None; dg_MFAVerified := false; dg_MFAVerifiedAt := None;
     dg_ApproverIP := ""; dg_IntervalSec := 0; dg_LastPolledAt := None; dg_CreatedAt := 0; dg_ExpiresAt := exp |}.

Definition testDeviceGrantLifecycle : T unit :=
  uc <~ newUserAndClient name;; let '(u, c) := uc in
  let mk dev usr exp := must (QCreateDeviceGrant (a_device dev usr (c_ID c) ["openid"; "profile"] exp)) in
  t <~ Now;;
  g <~ mk "dev-1" "usr-1" (t + 10 * Minute);;
  t <~ Now;;
  check_err ErrConflict (QCreateDeviceGrant (a_device "dev-1" "usr-x" (c_ID c) [] (t + Minute))) ~;;
  got <~ must (QGetDeviceGrantByDeviceCodeHash "dev-1");;
  check (bool_decide (dg_Status got ≠ DeviceGrantStatusPending) || negb (dg_IntervalSec got =? 5)
         || bool_decide (dg_UserID got ≠ None) || negb (sliceEq (dg_Scopes got) ["openid"; "profile"])) ~;;
  check_ok (QGetDeviceGrantByUserCodeHash "usr-1") (λ byUser, bool_decide (dg_ID byUser ≠ dg_ID g)) ~;;
  check_err ErrNotFound (QMarkDeviceGrantRedeemed (dg_ID g)) ~;;
  t <~ Now;;
  let polled := Truncate t in
  must (QUpdateDeviceGrantPoll (dg_ID g) polled 10) ~;;
  t <~ Now;;
  let mfaAt := Truncate t in
  must (QMarkDeviceGrantApproved (dg_ID g) (u_ID u) true (Some mfaAt) "203.0.113.9") ~;;
  check_err ErrNotFound (QMarkDeviceGrantApproved (dg_ID g) (u_ID u) false None "x") ~;;
  check_err ErrNotFound (QMarkDeviceGrantDenied (dg_ID g) "x") ~;;
  got <~ must (QGetDeviceGrantByDeviceCodeHash "dev-1");;
  check (bool_decide (dg_Status got ≠ DeviceGrantStatusApproved) || bool_decide (dg_UserID got ≠ Some (u_ID u))
         || negb (dg_MFAVerified got) || bool_decide (dg_MFAVerifiedAt got ≠ Some mfaAt)
         || bool_decide (dg_ApproverIP got ≠ "203.0.113.9") || negb (dg_IntervalSec got =? 10)
         || bool_decide (dg_LastPolledAt got ≠ Some polled)) ~;;
  rs <~ raceN (seq 0 8) (λ _, call (QMarkDeviceGrantRedeemed (dg_ID g)));;
  check (bool_decide (length (winners rs) + length (losers rs) ≠ 8)%nat) ~;;
  check (bool_decide (length (winners rs) ≠ 1%nat)) ~;;
  t <~ Now;;
  d <~ mk "dev-2" "usr-2" (t + 10 * Minute);;
  must (QMarkDeviceGrantDenied (dg_ID d) "198.51.100.1") ~;;
  check_err ErrNotFound (QMarkDeviceGrantApproved (dg_ID d) (u_ID u) false None "x") ~;;
  t <~ Now;;
  mk "dev-3" "usr-3" (t - Minute) ~;;
  check_ok QDeleteExpiredDeviceGrants (λ n, negb (n =? 1)) ~;;
  check_err ErrNotFound (QGetDeviceGrantByDeviceCodeHash "dev-3") ~;;
  check_ok (QGetDeviceGrantByDeviceCodeHash "dev-2") (λ _, false).

Definition testEmptyScopesRoundTrip : T unit :=
  uc <~ newUserAndClient name;; let '(u, c) := uc in
  id <~ NewUUID;; t1 <~ Now;; t2 <~ Now;;
  must (QCreateSession (a_session id (u_ID u) (c_ID c) "ah-empty" "rh-empty" [] (t1 + Hour) (t2 + 2 * Hour) false 0)) ~;;
  check_ok (QGetSessionByAccessTokenHash "ah-empty") (λ got, negb (is_empty (s_Scopes got))) ~;;
  id <~ NewUUID;; t <~ Now;;
  must (QCreateGrant (a_grant id (u_ID u) (c_ID c) "code-empty" "" "" [] "https://app.example/cb" (t + Minute) None 0)) ~;;
  check_ok (QGetGrantByCodeHash "code-empty") (λ got, negb (is_empty (g_Scopes got))) ~;;
  noScopes <~ must (QCreateClient "no-scope-client" "" "No scopes" [] [] true None);;
  check_ok (QGetClientByID (c_ID noScopes))
    (λ got, negb (is_empty (c_Scopes got)) || negb (is_empty (c_RedirectURIs got))).

(** One subtest, with the order in which Go happens to range over the map of the
    two expiries ([stale_first]).  Times are instants here, so [t.In(loc)] is not
    written out and the two zones give the same calls: what the test checks of
    the text in which a connection writes a time of another zone is the subject
    of SqlTime, not of this run. *)
Definition testExpiryIgnoresLocalZone (stale_first : bool) : T unit :=
  uc <~ newUserAndClient name;; let '(u, c) := uc in
  t1 <~ Now;; t2 <~ Now;;
  let stale := ("stale", t1 - Hour) in
  let fresh := ("fresh", t2 + Hour) in
  t_each (if stale_first then [stale; fresh] else [fresh; stale]) (λ ne,
    let '(n, exp) := ne in
    id <~ NewUUID;;
    must (QCreateGrant (a_grant id (u_ID u) (c_ID c) ("g-" +:+ n) "" "" [] "https://app.example/cb" exp None 0)) ~;;
    id <~ NewUUID;;
    must (QCreateSession (a_session id (u_ID u) (c_ID c) ("a-" +:+ n) ("r-" +:+ n) [] exp exp false 0)) ~;;
    must (QCreateDeviceGrant (a_device ("d-" +:+ n) ("u-" +:+ n) (c_ID c) [] exp)) ~;;
    t_ret tt) ~;;
  must QDeleteExpiredGrants ~;;
  must QDeleteExpiredSessions ~;;
  n <~ must QDeleteExpiredDeviceGrants;;
  demand (negb (n =? 1)) ~;;
  check_err ErrNotFound (QGetGrantByCodeHash "g-stale") ~;;
  check_ok (QGetGrantByCodeHash "g-fresh") (λ _, false) ~;;
  check_err ErrNotFound (QGetSessionByRefreshTokenHash "r-stale") ~;;
  check_ok (QGetSessionByRefreshTokenHash "r-fresh") (λ _, false) ~;;
  check_err ErrNotFound (QGetDeviceGrantByDeviceCodeHash "d-stale") ~;;
  check_ok (QGetDeviceGrantByDeviceCodeHash "d-fresh") (λ _, false).

(** ** contract_tokens.go *)

Definition testRetiredRefreshTokens : T unit :=
  uc <~ newUserAndClient name;; let '(u, c) := uc in
  id <~ NewUUID;; t1 <~ Now;; t2 <~ Now;;
  let sess := a_session id (u_ID u) (c_ID c) "ah-0" "rh-0" ["openid"] (t1 + Hour) (t2 + 2 * Hour) false 0 in
  must (QCreateSession sess) ~;;
  let rotate old new := a <~ Now;; r <~ Now;;
    call (QRotateRefreshToken (s_ID sess) old ("ah-" +:+ new) ("rh-" +:+ new) (a + Hour) (r + 2 * Hour)) in
  early <~ call (QGetSessionByRetiredRefreshTokenHash "rh-0");;
  demand (negb (is_err ErrNotFound early)) ~;;
  one <~ rotate "rh-0" "1";;
  demand (match one with Ok _ => false | Err _ => true end) ~;;
  two <~ rotate "rh-1" "2";;
  demand (match two with Ok _ => false | Err _ => true end) ~;;
  t_each ["rh-0"; "rh-1"] (λ old,
    check_ok (QGetSessionByRetiredRefreshTokenHash old) (λ got, bool_decide (s_ID got ≠ s_ID sess))) ~;;
  t_each ["rh-2"; "never-issued"] (λ hash, check_err ErrNotFound (QGetSessionByRetiredRefreshTokenHash hash)) ~;;
  replay <~ rotate "rh-0" "x";;
  demand (negb (is_err ErrNotFound replay)) ~;;
  check_err ErrNotFound (QGetSessionByRetiredRefreshTokenHash "rh-x") ~;;
  must (QDeleteSession (s_ID sess)) ~;;
  check_err ErrNotFound (QGetSessionByRetiredRefreshTokenHash "rh-0").

Definition testAuthTimeRoundTrip : T unit :=
  uc <~ newUserAndClient name;; let '(u, c) := uc in
  t <~ Now;;
  let at_ := Truncate (t - 30 * Minute) in
  t_each [("known", at_); ("unknown", 0)] (λ tc,
    let '(n, at_) := tc in
    id <~ NewUUID;; t <~ Now;;
    must (QCreateGrant (a_grant id (u_ID u) (c_ID c) ("code-" +:+ n) "" "" [] "https://app.example/cb"
            (t + Minute) None at_)) ~;;
    check_ok (QGetGrantByCodeHash ("code-" +:+ n)) (λ gg, bool_decide (g_AuthTime gg ≠ at_)) ~;;
    id <~ NewUUID;; t1 <~ Now;; t2 <~ Now;;
    must (QCreateSession (a_session id (u_ID u) (c_ID c) ("ah-" +:+ n) ("rh-" +:+ n) [] (t1 + Hour)
            (t2 + 2 * Hour) false at_)) ~;;
    check_ok (QGetSessionByAccessTokenHash ("ah-" +:+ n)) (λ ss, bool_decide (s_AuthTime ss ≠ at_))).

End extra.

(** ** contract_portal.go *)

Section portal.
  Context `{X : Externals}.

(** [hash, _ := creds.HashPassword(pw)] *)
Definition hashed (pw : string) : T string :=
  h <~ lift (HashPassword pw);; t_ret (match h with Ok s => s | Err _ => "" end).

Definition testListPortalClientsForUser : T unit :=
  hash <~ hashed "pw0rd-very-strong-123!";;
  alice <~ must (QCreateUser "alice@example.com" hash "Alice");;
  bob <~ must (QCreateUser "bob@example.com" hash "Bob");;
  engGroup <~ must (QCreateGroup "engineering");;
  must (QAddGroupMember (grp_ID engGroup) (u_ID alice)) ~;;
  let mkClient name showInPortal visibleToAll launchURL :=
    c <~ must (QCreateClient (name +:+ "-cid") (HashToken "sec") name ["http://localhost/cb"] ["openid"] false None);;
    must (QUpdateClientPortalConfig (c_ID c) showInPortal launchURL "" "" visibleToAll) ~;;
    t_ret (c_ID c) in
  hiddenID <~ mkClient "hidden-client" false false "https://hidden.example/login";;
  engOnlyID <~ mkClient "eng-only-client" true false "https://eng.example/login";;
  everyoneID <~ mkClient "everyone-client" true true "https://everyone.example/login";;
  must (QReplaceClientVisibility engOnlyID [grp_ID engGroup]) ~;;
  aliceTiles <~ must (QListPortalClientsForUser (u_ID alice));;
  let aliceIDs := tileIDs aliceTiles in
  check (negb (contains aliceIDs engOnlyID)) ~;;
  check (negb (contains aliceIDs everyoneID)) ~;;
  check (contains aliceIDs hiddenID) ~;;
  bobTiles <~ must (QListPortalClientsForUser (u_ID bob));;
  let bobIDs := tileIDs bobTiles in
  check (contains bobIDs engOnlyID) ~;;
  check (negb (contains bobIDs everyoneID)) ~;;
  check (contains bobIDs hiddenID) ~;;
  vis <~ must (QListClientVisibility engOnlyID);;
  check (bool_decide (vis ≠ [grp_ID engGroup])).

Definition testListPortalClientsForUserNoDuplicatesOnMultipleGroupMatch : T unit :=
  hash <~ hashed "pw0rd-very-strong-123!";;
  u <~ must (QCreateUser "alice@example.com" hash "Alice");;
  g1 <~ must (QCreateGroup "g1");;
  g2 <~ must (QCreateGroup "g2");;
  call (QAddGroupMember (grp_ID g1) (u_ID u)) ~;;
  call (QAddGroupMember (grp_ID g2) (u_ID u)) ~;;
  c <~ must (QCreateClient "shared-cid" (HashToken "sec") "shared" ["http://localhost/cb"] ["openid"] false None);;
  call (QUpdateClientPortalConfig (c_ID c) true "https://shared.example/login" "" "" false) ~;;
  call (QReplaceClientVisibility (c_ID c) [grp_ID g1; grp_ID g2]) ~;;
  tiles <~ must (QListPortalClientsForUser (u_ID u));;
  let count := length (filter (λ t, c_ID t = c_ID c) tiles) in
  check (bool_decide (count ≠ 1%nat)).

Definition testReplaceClientVisibilityRemovesPriorRows : T unit :=
  c <~ must (QCreateClient "test-cid" (HashToken "sec") "test" ["http://localhost/cb"] ["openid"] false None);;
  g1 <~ must (QCreateGroup "g1");;
  g2 <~ must (QCreateGroup "g2");;
  call (QReplaceClientVisibility (c_ID c) [grp_ID g1; grp_ID g2]) ~;;
  got <~ must (QListClientVisibility (c_ID c));;
  demand (bool_decide (length got ≠ 2%nat)) ~;;
  call (QReplaceClientVisibility (c_ID c) [grp_ID g1]) ~;;
  got <~ must (QListClientVisibility (c_ID c));;
  check (bool_decide (got ≠ [grp_ID g1])).

(** ** contract_awsfed.go *)

Definition an_account (id : uuid) (number alias arn : string) : AWSAccount :=
  {| aa_ID := id; aa_AccountID := number; aa_Alias := alias; aa_OIDCProviderARN := arn;
     aa_CreatedAt := 0; aa_UpdatedAt := 0 |}.

Definition a_role (id account : uuid) (arn slug display : string) (regions : list string) (max : Z) : AWSRole :=
  {| ar_ID := id; ar_AccountID := account; ar_RoleARN := arn; ar_Slug := slug; ar_DisplayName := display;
     ar_RequireStepUpMFA := false; ar_MaxSessionDurationSec := max; ar_AllowedRegions := regions;
     ar_CreatedAt := 0; ar_UpdatedAt := 0 |}.

Definition testAWSAccountCRUD : T unit :=
  let arn := "arn:aws:iam::111:oidc-provider/id.example.com" in
  a <~ must (QCreateAWSAccount (an_account uuid_nil "111111111111" "prod" arn));;
  check (bool_decide (aa_ID a = uuid_nil)) ~;;
  got <~ must (QGetAWSAccount (aa_ID a));;
  check (bool_decide (aa_AccountID got ≠ "111111111111") || bool_decide (aa_Alias got ≠ "prod")) ~;;
  must (QUpdateAWSAccount (an_account (aa_ID a) "111111111111" "production" arn)) ~;;
  got <~ must (QGetAWSAccount (aa_ID a));;
  check (bool_decide (aa_Alias got ≠ "production")) ~;;
  must (QDeleteAWSAccount (aa_ID a)) ~;;
  t_ret tt.

Definition testAWSRoleCRUDAndCascadeOnAccount : T unit :=
  acct <~ must (QCreateAWSAccount (an_account uuid_nil "222222222222" ""
                  "arn:aws:iam::222:oidc-provider/id.example.com"));;
  role <~ must (QCreateAWSRole (a_role uuid_nil (aa_ID acct) "arn:aws:iam::222:role/BackendDev" "backend-dev"
                  "Backend: dev" [] 0));;
  check (negb (ar_MaxSessionDurationSec role =? 3600)) ~;;
  must (QDeleteAWSAccount (aa_ID acct)) ~;;
  r <~ call (QGetAWSRole (ar_ID role));;
  check (match r with Ok _ => true | Err _ => false end).

(** [got] with other regions. *)
Definition with_regions (regions : list string) (r : AWSRole) : AWSRole :=
  {| ar_ID := ar_ID r; ar_AccountID := ar_AccountID r; ar_RoleARN := ar_RoleARN r; ar_Slug := ar_Slug r;
     ar_DisplayName := ar_DisplayName r; ar_RequireStepUpMFA := ar_RequireStepUpMFA r;
     ar_MaxSessionDurationSec := ar_MaxSessionDurationSec r; ar_AllowedRegions := regions;
     ar_CreatedAt := ar_CreatedAt r; ar_UpdatedAt := ar_UpdatedAt r |}.

Definition testAWSRoleAllowedRegions : T unit :=
  acct <~ must (QCreateAWSAccount (an_account uuid_nil "555555555555" ""
                  "arn:aws:iam::555:oidc-provider/id.example.com"));;
  role <~ must (QCreateAWSRole (a_role uuid_nil (aa_ID acct) "arn:aws:iam::555:role/R" "regions" "R"
                  ["ap-east-2"; "eu-west-1"] 0));;
  got <~ must (QGetAWSRole (ar_ID role));;
  check (bool_decide (ar_AllowedRegions got ≠ ["ap-east-2"; "eu-west-1"])) ~;;
  must (QUpdateAWSRole (with_regions ["eu-west-1"] got)) ~;;
  roles <~ must QListAWSRoles;;
  demand (bool_decide (ar_AllowedRegions <$> roles ≠ [["eu-west-1"]])) ~;;
  must (QUpdateAWSRole (with_regions [] got)) ~;;
  cleared <~ must (QGetAWSRole (ar_ID role));;
  check (negb (is_empty (ar_AllowedRegions cleared))).

Definition testListAWSRolesForUser : T unit :=
  hash <~ hashed "pw0rd-very-strong-123!";;
  user <~ must (QCreateUser "alice@example.com" hash "Alice");;
  group <~ must (QCreateGroup "platform");;
  must (QAddGroupMember (grp_ID group) (u_ID user)) ~;;
  acct <~ must (QCreateAWSAccount (an_account uuid_nil "333333333333" ""
                  "arn:aws:iam::333:oidc-provider/id.example.com"));;
  role1 <~ must (QCreateAWSRole (a_role uuid_nil (aa_ID acct) "arn:aws:iam::333:role/A" "role-a" "A" [] 0));;
  must (QCreateAWSRole (a_role uuid_nil (aa_ID acct) "arn:aws:iam::333:role/B" "role-b" "B" [] 0)) ~;;
  must (QCreateAWSRoleAssignment {| ara_ID := uuid_nil; ara_GroupID := grp_ID group; ara_RoleID := ar_ID role1;
                                    ara_CreatedAt := 0 |}) ~;;
  roles <~ must (QListAWSRolesForUser (u_ID user));;
  check (bool_decide (ar_ID <$> roles ≠ [ar_ID role1])).

Definition testAWSRevokedUsersAddIsIdempotentListAndReap : T unit :=
  acct <~ must (QCreateAWSAccount (an_account uuid_nil "444444444444" ""
                  "arn:aws:iam::444:oidc-provider/id.example.com"));;
  role <~ must (QCreateAWSRole (a_role uuid_nil (aa_ID acct) "arn:aws:iam::444:role/R" "role-r" "R" [] 0));;
  must (QAddAWSRevokedUser (ar_ID role) "alice-uuid") ~;;
  must (QAddAWSRevokedUser (ar_ID role) "alice-uuid") ~;;
  rows <~ must (QListAWSRevokedUsers (ar_ID role));;
  demand (bool_decide (length rows ≠ 1%nat)) ~;;
  must (QAddAWSRevokedUser (ar_ID role) "bob-uuid") ~;;
  t <~ Now;;
  past <~ must (QListAWSRevokedUsersOlderThan (t - Hour));;
  check (negb (is_empty past)) ~;;
  t <~ Now;;
  future <~ must (QListAWSRevokedUsersOlderThan (t + Hour));;
  let subs := arv_SubUUID <$> future in
  check (bool_decide (length future ≠ 2%nat) || negb (bool_decide ("alice-uuid" ∈ subs))
         || negb (bool_decide ("bob-uuid" ∈ subs))) ~;;
  must (QDeleteAWSRevokedUser (ar_ID role) "bob-uuid") ~;;
  t_ret tt.

(** ** The run *)

(** Every test, each from a fresh store: for the rotation race, every number as
    the first to reach the store; for the expiry test, both zones and both
    orders. *)
Definition Run : list (string * T unit) :=
  [("UserRoundTrip", testUserRoundTrip);
   ("ClientArrayRoundTrip", testClientArrayRoundTrip);
   ("PortalClientSeed", testPortalClientSeed);
   ("ExternalIDsUpsert", testExternalIDsUpsert);
   ("GroupMembersIdempotent", testGroupMembersIdempotent);
   ("GrantRoundTrip", testGrantRoundTrip "GrantRoundTrip");
   ("GrantDeleteExpired", testGrantDeleteExpired "GrantDeleteExpired");
   ("GrantSingleUseUnderConcurrency", testGrantSingleUseUnderConcurrency "GrantSingleUseUnderConcurrency");
   ("SessionLifecycle", testSessionLifecycle "SessionLifecycle");
   ("SessionsByUserBulkDelete", testSessionsByUserBulkDelete "SessionsByUserBulkDelete");
   ("SessionDeleteExpired", testSessionDeleteExpired "SessionDeleteExpired");
   ("TOTPLifecycle", testTOTPLifecycle "TOTPLifecycle");
   ("WebAuthnCredentialLifecycle", testWebAuthnCredentialLifecycle "WebAuthnCredentialLifecycle");
   ("WebAuthnSessionLifecycle", testWebAuthnSessionLifecycle "WebAuthnSessionLifecycle");
   ("SigningKeyLifecycle", testSigningKeyLifecycle);
   ("IntegrationLifecycle", testIntegrationLifecycle);
   ("ExternalIDDelete", testExternalIDDelete "ExternalIDDelete");
   ("UserUpdatePaths", testUserUpdatePaths "UserUpdatePaths");
   ("UserConflictsAndNotFound", testUserConflictsAndNotFound);
   ("ClientUpdateSecretAndDelete", testClientUpdateSecretAndDelete "ClientUpdateSecretAndDelete");
   ("GroupUpdateAndRemove", testGroupUpdateAndRemove "GroupUpdateAndRemove");
   ("ListPortalClientsForUser", testListPortalClientsForUser);
   ("ListPortalClientsNoDuplicates", testListPortalClientsForUserNoDuplicatesOnMultipleGroupMatch);
   ("ReplaceClientVisibilityRemovesPrior", testReplaceClientVisibilityRemovesPriorRows);
   ("AWSAccountCRUD", testAWSAccountCRUD);
   ("AWSRoleCRUDAndCascade", testAWSRoleCRUDAndCascadeOnAccount);
   ("ListAWSRolesForUser", testListAWSRolesForUser);
   ("AWSRoleAllowedRegions", testAWSRoleAllowedRegions);
   ("AWSRevokedUsersIdempotentListAndReap", testAWSRevokedUsersAddIsIdempotentListAndReap);
   ("RetiredRefreshTokens", testRetiredRefreshTokens "RetiredRefreshTokens");
   ("AuthTimeRoundTrip", testAuthTimeRoundTrip "AuthTimeRoundTrip");
   ("EmptyScopesRoundTrip", testEmptyScopesRoundTrip "EmptyScopesRoundTrip");
   ("DeviceGrantLifecycle", testDeviceGrantLifecycle "DeviceGrantLifecycle")]
  ++ ((λ k, ("RefreshRotationUnderConcurrency", testRefreshRotationUnderConcurrency
               "RefreshRotationUnderConcurrency" (rotate k (seq 1 16)))) <$> seq 0 16)
  ++ [("ExpiryIgnoresLocalZone/UTC+14", testExpiryIgnoresLocalZone "ExpiryIgnoresLocalZone/UTC+14" true);
      ("ExpiryIgnoresLocalZone/UTC+14", testExpiryIgnoresLocalZone "ExpiryIgnoresLocalZone/UTC+14" false);
      ("ExpiryIgnoresLocalZone/UTC-12", testExpiryIgnoresLocalZone "ExpiryIgnoresLocalZone/UTC-12" true);
      ("ExpiryIgnoresLocalZone/UTC-12", testExpiryIgnoresLocalZone "ExpiryIgnoresLocalZone/UTC-12" false)].

End portal.

(** A test passes: no assertion failed and nothing stopped it. *)
Definition passes {dialect : Dialect} (env : Env) (start : Z) (t : T unit) : bool :=
  match (exec env t (mkWorld (migrated_db start) 0 [] [] fx_outside)).1 with
  | (false, Some _) => true
  | _ => false
  end.

(** Clocks that start at [start] and advance [tick] nanoseconds a call. *)
Definition ct_env (start tick : Z) : Env := {|
  env_now := λ n, start + Z.of_nat n * tick;
  env_uuid := env_uuid fx_env; env_token := env_token fx_env;
  env_rand := env_rand fx_env; env_pwhash := env_pwhash fx_env;
  env_totpkey := env_totpkey fx_env; env_encrypt := env_encrypt fx_env; env_decrypt := env_decrypt fx_env;
  env_totp := env_totp fx_env; env_mint := env_mint fx_env; env_fedmint := env_fedmint fx_env;
  env_logoutmint := env_logoutmint fx_env; env_rsakey := env_rsakey fx_env; env_seal := env_seal fx_env;
  env_wabegin := env_wabegin fx_env; env_waregister := env_waregister fx_env;
  env_wavalidate := env_wavalidate fx_env; env_http := env_http fx_env; env_assume := env_assume fx_env;
  env_fault := env_fault fx_env;
|}.

Definition contract_ok (dialect : Dialect) (env : Env) (start : Z) : bool :=
  forallb (λ nt, passes env start nt.2) Run.

(** Noon of a day in 2025, give or take a fraction of a second. *)
Definition ct_start : Z := 63900000000 * Second + 123456789.

(** A run of the repository's contract on the model of the store: every test of
    [internal/store/storetest], run from a freshly migrated database, ends
    without a failed assertion, with SQLite and with PostgreSQL, whether the
    clock stands still between the calls, moves by less than a microsecond or
    by a little over a second, and whichever of sixteen racing rotations
    reaches the store first. *)
Theorem contract_holds dialect tick :
  dialect ∈ [SQLite; PostgreSQL String.leb] → tick ∈ [0; 77; 1000000123] →
  contract_ok dialect (ct_env ct_start tick) ct_start = true.
Proof.
  rewrite !elem_of_cons, !elem_of_nil.
  intros [-> | [-> | []]] [-> | [-> | [-> | []]]]; vm_compute; reflexivity.
Qed.

(** Witness of the contract: PostgreSQL, with a clock that moves by less than
    a microsecond. *)
Lemma contract_holds_witness :
  77 ∈ [0; 77; 1000000123] ∧ contract_ok (PostgreSQL String.leb) (ct_env ct_start 77) ct_start = true.
Proof.
  split; [by rewrite elem_of_cons, elem_of_cons; right; left|].
  apply (contract_holds (PostgreSQL String.leb) 77); rewrite !elem_of_cons; auto.
Defined.
