(* ===== verification/Migrate.v ===== *)
(** * Schema migrations

    [migrate] of [internal/store/postgres/postgres.go] and of
    [internal/store/sqlite/sqlite.go] (the two differ in the type of one
    timestamp column), which every start of [authd serve], every
    [authd migrate] and every [sqlite.Open] runs: each [.sql] file of the
    embedded directory is applied in one transaction together with the row of
    [schema_migrations] that records it.

    The files, what the database makes of a script and what becomes of each
    call are parameters.  A call may go through, fail without effect, or take
    effect with its answer lost; a process is a state machine whose steps are
    the statements and transactions, so that several starting processes
    interleave.  Only these processes write: the rows that serving processes
    write between two releases are not part of the state. *)
From S2P Require Import Prelude GoStrings GoNet.

(** What becomes of a call to the database. *)
Inductive outcome : Type :=
| Done
| Failed   (* not performed *)
| Unheard. (* performed, and the answer lost *)

(** [fs.DirEntry]. *)
Record DirEntry : Type := mkDirEntry { de_Name : string; de_IsDir : bool }.

(** [strings.HasSuffix]. *)
Definition HasSuffix (s suffix : string) : bool :=
  bool_decide (String.length suffix ≤ String.length s) &&
  bool_decide (str_drop (String.length s - String.length suffix) s = suffix).

Section migrate.
  (** The contents of the database beside [schema_migrations], what executing
      a script does to it ([None]: refused), and [migrationsFS.ReadFile]. *)
  Context {D : Type} (exec : string → D → option D) (ReadFile : string → result string).

(** [m_versions] is [None] before the table exists; its rows are kept in the
    order of their insertion.  [m_data] is what the scripts make of the database;
    what a serving process writes between two releases is not represented, so it
    stands for the schema and the rows the scripts insert. *)
Record mig_db : Type := mkMigDB { m_versions : option (list string); m_data : D }.

(** The [CREATE TABLE IF NOT EXISTS] of [schema_migrations]. *)
Definition create_table (o : outcome) (db : mig_db) : result unit * mig_db :=
  let db' := mkMigDB (Some (default [] (m_versions db))) (m_data db) in
  match o with
  | Done => (Ok tt, db')
  | Failed => (Err ErrOther, db)
  | Unheard => (Err ErrOther, db')
  end.

(** The count of the rows of [version]; the error of the query is ignored and
    leaves zero. *)
Definition already (o : outcome) (version : string) (db : mig_db) : nat :=
  match o with
  | Done => length (filter (version =.) (default [] (m_versions db)))
  | _ => 0
  end.

(** The transaction of one migration: the script, the row that records it
    (whose [version] is the primary key), the commit.  Any error rolls it
    back. *)
Definition apply_migration (o : outcome) (version data : string) (db : mig_db) : result unit * mig_db :=
  match exec data (m_data db), m_versions db with
  | Some d, Some vs =>
      if bool_decide (version ∈ vs) then (Err ErrOther, db)
      else
        let db' := mkMigDB (Some (vs ++ [version])) d in
        match o with
        | Done => (Ok tt, db')
        | Failed => (Err ErrOther, db)
        | Unheard => (Err ErrOther, db')
        end
  | _, _ => (Err ErrOther, db)
  end.

(** The files the loop does not skip. *)
Definition is_migration (e : DirEntry) : bool := negb (de_IsDir e) && HasSuffix (de_Name e) ".sql".

(** The loop of [migrate]; call number [n] of the run ends as [os n]. *)
Fixpoint migrate_go (os : nat → outcome) (n : nat) (entries : list DirEntry) (db : mig_db) : result unit * mig_db :=
  match entries with
  | [] => (Ok tt, db)
  | e :: es =>
      if negb (is_migration e) then migrate_go os n es db
      else if 0 <? already (os n) (de_Name e) db then migrate_go os (S n) es db
      else match ReadFile (de_Name e) with
      | Err err => (Err err, db)
      | Ok data =>
          let '(r, db') := apply_migration (os (S n)) (de_Name e) data db in
          match r with
          | Err err => (Err err, db')
          | Ok _ => migrate_go os (S (S n)) es db'
          end
      end
  end.

Definition migrate (os : nat → outcome) (entries : list DirEntry) (db : mig_db) : result unit * mig_db :=
  let '(r, db') := create_table (os 0) db in
  match r with
  | Err err => (Err err, db')
  | Ok _ => migrate_go os 1 entries db'
  end.

(** The same code one call at a time, as a process that shares the database
    with others. *)
Inductive mig_proc : Type :=
| Starting (entries : list DirEntry)
| Looking (entries : list DirEntry)
| Applying (version data : string) (entries : list DirEntry)
| Exited (r : result unit).

Definition mig_step (o : outcome) (p : mig_proc) (db : mig_db) : mig_proc * mig_db :=
  match p with
  | Starting es =>
      let '(r, db') := create_table o db in
      (match r with Ok _ => Looking es | Err e => Exited (Err e) end, db')
  | Looking [] => (Exited (Ok tt), db)
  | Looking (e :: es) =>
      (if negb (is_migration e) then Looking es
       else if 0 <? already o (de_Name e) db then Looking es
       else match ReadFile (de_Name e) with
       | Err err => Exited (Err err)
       | Ok data => Applying (de_Name e) data es
       end, db)
  | Applying v data es =>
      let '(r, db') := apply_migration o v data db in
      (match r with Ok _ => Looking es | Err e => Exited (Err e) end, db')
  | Exited r => (Exited r, db)
  end.

(** Any process makes the next step, with any outcome. *)
Inductive mig_sys : list mig_proc * mig_db → list mig_proc * mig_db → Prop :=
| mig_sys_step ps db i p o p' db' :
    ps !! i = Some p → mig_step o p db = (p', db') →
    mig_sys (ps, db) (<[i := p']> ps, db').

(** ** Opening a database *)

(** [tls.Config] and the [pgx.ConnConfig] of a parsed DSN, as far as the code
    touches them. *)
Record tls_config : Type := mkTLS { tls_ServerName : string; tls_material : string }.
Record conn_config : Type := mkConn { conn_Host : string; conn_TLS : option tls_config; conn_dsn : string }.

(** [pgx.ParseConfig] of a DSN and the ping of a connection; [sql.Open] of
    SQLite's path and its PRAGMAs. *)
Context (ParseConfig : string → result conn_config) (Ping : conn_config → result unit).
Context (sql_Open : string → result unit) (pragmas : string → result unit).

(** The caller's TLS configuration is used in place, named after the host if it
    names no server. *)
Definition openWithTLS (dsn : string) (tlsCfg : option tls_config) : result conn_config :=
  match ParseConfig dsn with
  | Err e => Err e
  | Ok connCfg =>
      match tlsCfg with
      | None => Ok connCfg
      | Some t =>
          let name := if bool_decide (tls_ServerName t = "") then conn_Host connCfg else tls_ServerName t in
          Ok (mkConn (conn_Host connCfg) (Some (mkTLS name (tls_material t))) (conn_dsn connCfg))
      end
  end.

(** The runtime connection, with its pool: at most 25 connections, 5 idle, each
    for five minutes. *)
Definition OpenWithTLS (dsn : string) (tlsCfg : option tls_config) : result (conn_config * (nat * nat * Z)) :=
  match openWithTLS dsn tlsCfg with
  | Err e => Err e
  | Ok conn =>
      match Ping conn with
      | Err e => Err e
      | Ok _ => Ok (conn, (25%nat, 5%nat, (5 * Minute)%Z))
      end
  end.

(** PostgreSQL: a connection of its own for the migrations. *)
Definition Migrate (os : nat → outcome) (entries : list DirEntry) (dsn : string) (tlsCfg : option tls_config)
    (db : mig_db) : result unit * mig_db :=
  match openWithTLS dsn tlsCfg with
  | Err e => (Err e, db)
  | Ok conn =>
      match Ping conn with
      | Err e => (Err e, db)
      | Ok _ => migrate os entries db
      end
  end.

Definition withUTCTimes (path : string) : string :=
  let sep := if Contains path "?" then "&" else "?" in
  path +:+ sep +:+ "_timezone=UTC".

(** SQLite: [Open] migrates before it returns. *)
Definition Open (os : nat → outcome) (entries : list DirEntry) (path : string) (db : mig_db) :
    result unit * mig_db :=
  match sql_Open (withUTCTimes path) with
  | Err e => (Err e, db)
  | Ok _ =>
      match pragmas (withUTCTimes path) with
      | Err e => (Err e, db)
      | Ok _ => migrate os entries db
      end
  end.

(** ** Specification *)

(** The names of the migrations of a release. *)
Definition migrations (es : list DirEntry) : list string := de_Name <$> filter is_migration es.

(** The database with the given migrations applied in order, each once. *)
Definition built_next (od : option D) (v : string) : option D :=
  d ← od; match ReadFile v with Ok data => exec data d | Err _ => None end.
Definition built (d : D) (vs : list string) : option D := foldl built_next (Some d) vs.

(** Some prefix of the migrations is recorded, and the database is what that
    prefix builds. *)
Definition at_version (d0 : D) (names : list string) (k : nat) (db : mig_db) : Prop :=
  k ≤ length names ∧ default [] (m_versions db) = take k names ∧ built d0 (take k names) = Some (m_data db).

(** ** Lemmas *)

Lemma built_snoc d vs v data d' d'' :
  built d vs = Some d' → ReadFile v = Ok data → exec data d' = Some d'' → built d (vs ++ [v]) = Some d''.
Proof. unfold built. intros H1 H2 H3. by rewrite foldl_app, H1; cbn; rewrite H2. Qed.

Lemma built_prefix d vs v d'' :
  built d (vs ++ [v]) = Some d'' →
  ∃ d' data, built d vs = Some d' ∧ ReadFile v = Ok data ∧ exec data d' = Some d''.
Proof.
  unfold built. rewrite foldl_app. cbn. intros H. apply bind_Some in H as (d' & H1 & H2).
  destruct (ReadFile v) as [data|] eqn:E; [|done]. by exists d', data.
Qed.

Lemma already_pos v db : (0 < already Done v db)%nat ↔ v ∈ default [] (m_versions db).
Proof.
  cbn. split.
  - intros H. destruct (filter _ _) as [|x l] eqn:E; [cbn in H; lia|].
    assert (Hx : x ∈ filter (v =.) (default [] (m_versions db))) by (rewrite E; left).
    apply list_elem_of_filter in Hx as [-> ?]. done.
  - intros H. assert (Hv : v ∈ filter (v =.) (default [] (m_versions db))) by (by apply list_elem_of_filter).
    destruct (filter _ _); [by apply not_elem_of_nil in Hv|cbn; lia].
Qed.

(** What builds a list builds its prefixes. *)
Lemma built_take d vs d' k : built d vs = Some d' → ∃ d'', built d (take k vs) = Some d''.
Proof.
  rewrite <- (take_drop k vs) at 1. unfold built. rewrite foldl_app.
  destruct (foldl built_next (Some d) (take k vs)); [eauto|]. induction (drop k vs); [done|auto].
Qed.

(** In a list without repetitions, the names at hand sit where they belong. *)
Lemma take_elem (names : list string) i k v :
  NoDup names → names !! i = Some v → v ∈ take k names ↔ (i < k)%nat.
Proof.
  intros Hnd Hi. rewrite list_elem_of_lookup. split.
  - intros [j [Hj ?]%lookup_take_Some]. by rewrite (NoDup_lookup names i j v Hnd Hi Hj).
  - intros. exists i. by rewrite lookup_take_lt.
Qed.

(** Where a process of a release with migrations [rel] stands when [k] of them
    are applied. *)
Definition standing (rel : list string) (k : nat) (db : mig_db) (p : mig_proc) : Prop :=
  match p with
  | Starting es => migrations es = rel
  | Looking es => is_Some (m_versions db) ∧ ∃ i, i ≤ k ∧ migrations es = drop i rel
  | Applying v data es =>
      is_Some (m_versions db) ∧ ReadFile v = Ok data ∧ ∃ i, i ≤ k ∧ v :: migrations es = drop i rel
  | Exited (Ok _) => length rel ≤ k
  | Exited (Err _) => True
  end.

Lemma standing_later rel k k' db db' p :
  k ≤ k' → (is_Some (m_versions db) → is_Some (m_versions db')) → standing rel k db p → standing rel k' db' p.
Proof.
  intros Hk Hc. destruct p as [| | |[]]; cbn; [done|..|lia|done].
  - intros (? & i & ? & ?). split; [auto|]. exists i. split; [lia|done].
  - intros (? & ? & i & ? & ?). split_and!; [auto|done|]. exists i. split; [lia|done].
Qed.

Lemma drop_cons_next {A} (l : list A) i x r : x :: r = drop i l → l !! i = Some x ∧ r = drop (S i) l.
Proof.
  intros H. split.
  - rewrite <- (Nat.add_0_r i), <- lookup_drop, <- H. done.
  - replace (S i) with (i + 1)%nat by lia. by rewrite <- drop_drop, <- H.
Qed.

Lemma migrations_cons e es :
  migrations (e :: es) = if is_migration e then de_Name e :: migrations es else migrations es.
Proof. unfold migrations. rewrite filter_cons. by destruct (is_migration e). Qed.

Section releases.
  Context (d0 : D) (names : list string) (Hnd : NoDup names).

Lemma create_table_spec o db r db' k :
  create_table o db = (r, db') → at_version d0 names k db →
  at_version d0 names k db' ∧ (is_Some (m_versions db) ∨ r = Ok tt → is_Some (m_versions db')).
Proof. unfold create_table, at_version. destruct o; intros [= <- <-]; cbn; naive_solver. Qed.

(** A migration that goes through is the next one. *)
Lemma apply_migration_spec o v data db r db' k i :
  apply_migration o v data db = (r, db') → at_version d0 names k db →
  names !! i = Some v → ReadFile v = Ok data → i ≤ k →
  (db' = db ∧ r = Err ErrOther) ∨ (i = k ∧ at_version d0 names (S k) db' ∧ is_Some (m_versions db')).
Proof.
  unfold apply_migration, at_version. intros Ha (Hk & Hv & Hb) Hi Hr Hik.
  destruct (exec data (m_data db)) as [d|] eqn:He; [|by left; simplify_eq].
  destruct (m_versions db) as [vs|] eqn:Hvs; [|by left; simplify_eq].
  case_bool_decide as Hin; [by left; simplify_eq|]. cbn in Hv. subst vs.
  rewrite (take_elem names i k v Hnd Hi) in Hin. assert (i = k) as -> by lia.
  assert (Hs : take (S k) names = take k names ++ [v]) by (by apply take_S_r).
  assert (S k ≤ length names)%nat by (apply lookup_lt_Some in Hi; lia).
  destruct o; simplify_eq; [right|by left|right]; cbn; rewrite Hs; split_and!; eauto using built_snoc.
Qed.

Lemma mig_step_standing rel k o p db p' db' :
  rel `prefix_of` names → at_version d0 names k db → standing rel k db p → mig_step o p db = (p', db') →
  ∃ k', k ≤ k' ∧ at_version d0 names k' db' ∧ standing rel k' db' p' ∧
        (is_Some (m_versions db) → is_Some (m_versions db')).
Proof.
  intros Hrel Hat Hst Hstep.
  assert (Hat_rel : ∀ i v, rel !! i = Some v → names !! i = Some v) by (intros; by eapply prefix_lookup_Some).
  clear Hrel. destruct p as [es|[|e es]|v data es|r]; cbn [standing mig_step] in Hst, Hstep.
  - destruct (create_table o db) as [r db1] eqn:Hc. simplify_eq.
    destruct (create_table_spec _ _ _ _ _ Hc Hat) as [? Hsome]. exists k. split_and!; auto.
    destruct r as [[]|]; [|done]. split; [auto|]. exists 0. split; [lia|]. by rewrite drop_0.
  - simplify_eq. exists k. split_and!; auto. destruct Hst as (_ & i & ? & Hd). cbn.
    symmetry in Hd. apply drop_nil_inv in Hd. lia.
  - simplify_eq. exists k. split_and!; auto. destruct Hst as (Hsome & i & Hi & Hd).
    rewrite migrations_cons in Hd. destruct (is_migration e); cbn [negb]; [|by split; [|exists i]].
    apply drop_cons_next in Hd as Hnext. destruct Hnext as [Hl Hn].
    destruct (0 <? already o (de_Name e) db')%nat eqn:Hal; [|destruct (ReadFile (de_Name e)) eqn:?; cbn; [eauto 10|done]].
    split; [done|]. exists (S i). split; [|done].
    apply Nat.ltb_lt in Hal. destruct o; cbn in Hal; [|lia..].
    apply (already_pos (de_Name e)) in Hal. destruct Hat as (_ & Hv & _). rewrite Hv in Hal.
    apply (take_elem names i) in Hal; [lia|done|by apply Hat_rel].
  - destruct (apply_migration o v data db) as [r db1] eqn:Ha. simplify_eq.
    destruct Hst as (Hsome & Hr & i & Hi & Hd). apply drop_cons_next in Hd as [Hl Hn].
    destruct (apply_migration_spec _ _ _ _ _ _ _ i Ha Hat) as [[-> ->]|(-> & ? & ?)]; [|done..| |].
    + by apply Hat_rel.
    + exists k. by split_and!.
    + exists (S k). split_and!; auto. destruct r; [|done]. cbn. eauto.
  - simplify_eq. exists k. by split_and!.
Qed.

(** The invariant of the whole system. *)
Lemma mig_sys_standing rels ps db ps' db' :
  Forall (λ rel, rel `prefix_of` names) rels → rtc mig_sys (ps, db) (ps', db') →
  (∃ k, at_version d0 names k db ∧ Forall2 (λ rel p, standing rel k db p) rels ps) →
  ∃ k, at_version d0 names k db' ∧ Forall2 (λ rel p, standing rel k db' p) rels ps'.
Proof.
  intros Hrels Hrtc. remember (ps, db) as s eqn:Es. remember (ps', db') as s' eqn:Es'.
  revert ps db Es. induction Hrtc as [s|s s1 s2 Hone _ IH]; intros ps db ->; [by simplify_eq|].
  intros (k & Hat & Hall). inversion Hone as [? ? i p o p1 db1 Hi Hstep]; subst.
  eapply IH; [done..|]. destruct (Forall2_lookup_r _ _ _ _ _ Hall Hi) as (rel & Hrel & Hst).
  destruct (mig_step_standing rel k o p db p1 db1) as (k' & Hk & Hat' & Hst' & Hsome); [|done..|].
  { exact (Forall_lookup_1 _ _ _ _ Hrels Hrel). }
  exists k'. split; [done|]. rewrite <- (list_insert_id rels i rel Hrel). apply Forall2_insert; [|done].
  eapply Forall2_impl; [|exact Hall]. intros rel' q Hq. by eapply (standing_later rel' k).
Qed.

(** With nothing failing, the loop applies exactly what is missing. *)
Lemma migrate_go_finishes d es : ∀ n k i db,
  built d0 names = Some d → at_version d0 names k db → is_Some (m_versions db) →
  i ≤ k → migrations es = drop i names →
  migrate_go (λ _, Done) n es db = (Ok tt, mkMigDB (Some names) d).
Proof.
  induction es as [|e es IH]; intros n k i db Hd Hat Hsome Hik Hes.
  - symmetry in Hes. apply drop_nil_inv in Hes. destruct Hat as (Hk & Hv & Hb), db as [[vs|] dd], Hsome; [|done].
    cbn in *. rewrite take_ge in Hv, Hb by lia. by simplify_eq.
  - cbn [migrate_go]. rewrite migrations_cons in Hes. destruct (is_migration e); cbn [negb]; [|by eapply IH].
    apply drop_cons_next in Hes as [Hl Hn]. pose proof Hat as (Hk & Hv & Hb).
    pose proof (already_pos (de_Name e) db) as Hal. rewrite Hv, (take_elem names i) in Hal by done.
    destruct (0 <? already Done (de_Name e) db)%nat eqn:Ha; [apply Nat.ltb_lt in Ha; apply Hal in Ha; eapply (IH _ k (S i)); try done; lia|].
    apply Nat.ltb_ge in Ha. assert (i = k) as -> by lia.
    destruct (built_take _ _ _ (S k) Hd) as [d' Hd'].
    rewrite (take_S_r names k (de_Name e)) in Hd' by done.
    apply built_prefix in Hd' as (d'' & data & Hb' & Hr & He). rewrite Hb in Hb'. simplify_eq.
    rewrite Hr. destruct (apply_migration Done (de_Name e) data db) as [r db1] eqn:Happ.
    destruct (apply_migration_spec _ _ _ _ _ _ _ k Happ Hat) as [[-> ->]|(_ & ? & ?)]; try done.
    + exfalso. unfold apply_migration in Happ. destruct db as [[vs|] dd], Hsome; [|done]. cbn in *.
      rewrite He in Happ. case_bool_decide as Hin; [|done]. subst vs. apply (take_elem names k) in Hin; [lia|done..].
    + assert (r = Ok tt) as ->; [|eapply (IH _ (S k) (S k)); done].
      unfold apply_migration in Happ. destruct db as [[vs|] dd], Hsome; [|done]. cbn in *.
      rewrite He in Happ. case_bool_decide as Hin; [|by simplify_eq]. subst vs. apply (take_elem names k) in Hin; [lia|done..].
Qed.

End releases.

(** A run of [migrate] is a process on its own. *)
Lemma migrate_go_steps os es : ∀ n db r db',
  migrate_go os n es db = (r, db') → rtc mig_sys ([Looking es], db) ([Exited r], db').
Proof.
  assert (Hone : ∀ o p db p' db', mig_step o p db = (p', db') → mig_sys ([p], db) ([p'], db')).
  { intros. by apply (mig_sys_step [_] _ 0 p o p' db'). }
  induction es as [|e es IH]; intros n db r db' H.
  { cbn in H. simplify_eq. apply rtc_once, (Hone Done). done. }
  cbn [migrate_go] in H. destruct (negb (is_migration e)) eqn:Hm.
  { eapply rtc_l; [apply (Hone Done); cbn [mig_step]; by rewrite Hm|by eapply IH]. }
  destruct (0 <? already (os n) (de_Name e) db)%nat eqn:Ha.
  { eapply rtc_l; [apply (Hone (os n)); cbn [mig_step]; by rewrite Hm, Ha|by eapply IH]. }
  eapply rtc_l; [apply (Hone (os n)); cbn [mig_step]; by rewrite Hm, Ha|].
  destruct (ReadFile (de_Name e)) as [data|]; [|by simplify_eq].
  destruct (apply_migration (os (S n)) (de_Name e) data db) as [r1 db1] eqn:Happ.
  eapply rtc_l; [apply (Hone (os (S n))); cbn [mig_step]; by rewrite Happ|].
  destruct r1; [by eapply IH|by simplify_eq].
Qed.

Lemma migrate_steps os es db r db' :
  migrate os es db = (r, db') → rtc mig_sys ([Starting es], db) ([Exited r], db').
Proof.
  unfold migrate. destruct (create_table (os 0) db) as [r1 db1] eqn:Hc. intros H.
  eapply rtc_l.
  { apply (mig_sys_step [_] _ 0 (Starting es) (os 0)); [done|]. cbn [mig_step]. by rewrite Hc. }
  destruct r1; [by eapply migrate_go_steps|by simplify_eq].
Qed.

Lemma migrate_finishes d0 names k es d db :
  NoDup names → at_version d0 names k db → migrations es = names → built d0 names = Some d →
  migrate (λ _, Done) es db = (Ok tt, mkMigDB (Some names) d).
Proof.
  intros Hnd Hat Hes Hd. unfold migrate. destruct (create_table Done db) as [r db1] eqn:Hc.
  destruct (create_table_spec d0 names _ _ _ _ _ Hc Hat) as [Hat1 Hsome].
  assert (r = Ok tt) as -> by (unfold create_table in Hc; by simplify_eq).
  eapply (migrate_go_finishes d0 names Hnd d es 1 k 0); eauto with lia.
Qed.

(** C35: migrations are applied once, in order, and a restart completes them.
    However many processes of however many releases start at once (the
    migrations of each release extending those of the one before), however
    their statements and transactions interleave, and whatever calls fail, take
    effect unheard or have their error ignored: the rows of
    [schema_migrations] are the first migrations of the directory and the
    database is what exactly those scripts build, each applied once; a process
    that reports success has all of its release's migrations in place; and from
    any such state a later run of the newest release in which nothing fails
    ends in success with the database an uninterrupted first run builds,
    through PostgreSQL's [Migrate] and through SQLite's [Open]. *)
Theorem migrations_applied_once d0 names releases ps db :
  NoDup names → Forall (λ es, migrations es `prefix_of` names) releases →
  rtc mig_sys (Starting <$> releases, mkMigDB None d0) (ps, db) →
  ∃ k, at_version d0 names k db ∧
    (∀ i es, releases !! i = Some es → ps !! i = Some (Exited (Ok tt)) → length (migrations es) ≤ k) ∧
    (∀ es d, migrations es = names → built d0 names = Some d →
      (∀ dsn tlsCfg conn, openWithTLS dsn tlsCfg = Ok conn → Ping conn = Ok tt →
         Migrate (λ _, Done) es dsn tlsCfg db = (Ok tt, mkMigDB (Some names) d)) ∧
      (∀ path, sql_Open (withUTCTimes path) = Ok tt → pragmas (withUTCTimes path) = Ok tt →
         Open (λ _, Done) es path db = (Ok tt, mkMigDB (Some names) d))).
Proof.
  intros Hnd Hrel Hrun.
  destruct (mig_sys_standing d0 names Hnd (migrations <$> releases) _ _ _ _ ltac:(by apply Forall_fmap) Hrun)
    as (k & Hat & Hall).
  { exists 0. split; [by split_and!; cbn; [lia|..]|]. apply Forall2_fmap, Forall_Forall2_diag.
    by apply Forall_true; intros; cbn. }
  exists k. split_and!; [done|..].
  - intros i es He Hp. rewrite Forall2_fmap_l in Hall.
    exact (Forall2_lookup_lr _ _ _ _ _ _ Hall He Hp).
  - intros es d Hes Hd. pose proof (migrate_finishes d0 names k es d db Hnd Hat Hes Hd).
    unfold Migrate, Open. split; [intros dsn tlsCfg conn Ho Hp|intros path Ho Hp]; by rewrite Ho, Hp.
Qed.

End migrate.

(** ** A run *)

(** The embedded directory of the PostgreSQL store. *)
Definition migration_files : list DirEntry :=
  (λ n, mkDirEntry n false) <$>
  ["001_initial.sql"; "002_mfa.sql"; "003_groups.sql"; "004_admin_flag.sql"; "005_portal_client.sql";
   "006_external_ids.sql"; "007_app_integrations.sql"; "008_drop_scim_tokens.sql"; "009_drop_audit_logs.sql";
   "010_session_token_split.sql"; "011_client_backchannel_logout_uri.sql"; "012_session_optional_user.sql";
   "013_aws_federation.sql"; "014_aws_role_slug.sql"; "015_client_portal.sql"; "016_must_change_password.sql";
   "017_session_mfa_verified_at.sql"; "018_device_grants.sql"; "019_clients_allow_device_grant.sql";
   "020_disable_aws_iam.sql"; "021_grants_mfa_verified_at.sql"; "022_auth_time_and_retired_refresh_tokens.sql";
   "023_aws_role_allowed_regions.sql"; "024_webauthn_backup_flags.sql"].

(** A database that remembers the scripts it ran and refuses to run one twice. *)
Definition fx_exec (script : string) (d : list string) : option (list string) :=
  if bool_decide (script ∈ d) then None else Some (d ++ [script]).
Definition fx_ReadFile (name : string) : result string := Ok ("script of " +:+ name).

(** Every fourth call is lost on the way back, and every seventh fails. *)
Definition fx_outcomes (n : nat) : outcome :=
  if n `mod` 4 =? 3 then Unheard else if n `mod` 7 =? 6 then Failed else Done.

(** The first release crashes on its way; the run after it completes. *)
Lemma migrations_applied_once_witness :
  ∃ db, migrate fx_exec fx_ReadFile fx_outcomes (take 9 migration_files) (mkMigDB None []) = (Err ErrOther, db) ∧
  (∃ k, at_version fx_exec fx_ReadFile [] (migrations migration_files) k db ∧ k = 2%nat) ∧
  Open fx_exec fx_ReadFile (λ _, Ok tt) (λ _, Ok tt) (λ _, Done) migration_files "auth.db" db =
    (Ok tt, mkMigDB (Some (migrations migration_files)) (append "script of " <$> migrations migration_files)).
Proof.
  eexists. split; [vm_compute; reflexivity|].
  edestruct (migrations_applied_once fx_exec fx_ReadFile (λ _, Err ErrOther) (λ _, Ok tt) (λ _, Ok tt) (λ _, Ok tt)
    [] (migrations migration_files) [take 9 migration_files]) as (k & Hat & _ & Hfin).
  - by apply (bool_decide_unpack _); vm_compute.
  - apply Forall_singleton. exists (migrations (drop 9 migration_files)). by vm_compute.
  - apply (migrate_steps _ _ fx_outcomes (take 9 migration_files)). by vm_compute.
  - split.
    + exists k. split; [exact Hat|]. destruct Hat as (Hk & Hv & _). apply (f_equal length) in Hv.
      rewrite length_take_le in Hv by done. by vm_compute in Hv.
    + apply (Hfin migration_files (append "script of " <$> migrations migration_files)); by vm_compute.
Defined.
