(* ===== verification/SqlTime.v ===== *)
(** * Times as text in the SQLite store

    SQLite has no type for times.  The store writes them as text: [dt] in the
    AWS tables, the driver's own format in the columns it binds, and
    [CURRENT_TIMESTAMP] and [datetime] where a statement or a default reads the
    clock; and the statements compare and order those texts byte by byte.  The
    functions of SqliteUsers, SqliteTokens and SqliteAws compare numbers
    instead.  Here the statements over text are shown to be those functions.

    The driver is not part of the repository.  What is assumed of it is what the
    comments of [Open] and [dt] say: it writes [time.Time.String()], in the zone
    of the value, or in UTC when the data source name has the option
    [_timezone=UTC].  (The list at the head of sqlite.go says RFC3339 instead.)
    That the option is there is derived from [withUTCTimes]; without it the
    statements over text do something else, as [local_times_out_of_order]
    shows.  Rows written by releases before the option was introduced are not
    covered. *)
From Stdlib Require Import Sorting.Sorted.
From stdpp Require Import sorting.
From S2P Require Import Prelude GoStrings GoNet Calendar Model Dialect Policy Tables SqliteUsers SqliteTokens SqliteAws Store Typed Migrate.

Local Open Scope Z_scope.

(** ** The formats *)

(** A whole second. *)
Definition seconds_text (secs : Z) : string := date_text (secs / 86400) +:+ " " +:+ clock_text (secs mod 86400).

(** [dt]: the layout [sqliteDateTime] of a UTC time. *)
Definition dt (t : Z) : string := seconds_text (t / Second) +:+ fraction (t mod Second) +:+ "+00:00".

(** [time.Time.String], in a zone given by its offset and the text that names it. *)
Definition time_String (offset : Z) (zone : string) (t : Z) : string :=
  seconds_text ((t + offset) / Second) +:+ fraction ((t + offset) mod Second) +:+ zone.

Definition utc_String : Z → string := time_String 0 " +0000 UTC".

(** [CURRENT_TIMESTAMP], and [datetime('now', '+n minutes')]. *)
Definition CURRENT_TIMESTAMP (now : Z) : string := seconds_text (now / Second).
Definition datetime_now (minutes now : Z) : string := seconds_text (now / Second + 60 * minutes).

(** ** The driver *)

(** The two sides of the first separator. *)
Fixpoint cut_at (sep : ascii) (s : string) : option (string * string) :=
  match s with
  | EmptyString => None
  | String a s =>
      if Ascii.eqb a sep then Some (EmptyString, s)
      else match cut_at sep s with Some (x, y) => Some (String a x, y) | None => None end
  end.

(** One setting of a query string; those that are malformed or hold a semicolon
    are skipped, as [url.ParseQuery] does. *)
Definition query_setting (piece : string) : option (string * string) :=
  if Contains piece ";" then None
  else let '(k, v) := default (piece, "") (cut_at "=" piece) in
       match QueryUnescape k, QueryUnescape v with Some k, Some v => Some (k, v) | _, _ => None end.

(** [Values.Get] of a query: the first value of the key. *)
Definition query_get (key query : string) : option string :=
  snd <$> head (filter (λ kv : string * string, kv.1 = key) (omap query_setting (Split query "&"))).

(** The options of a data source name follow the first question mark, which is
    not its first character. *)
Definition timezone_option (dsn : string) : option string :=
  match cut_at "?" dsn with
  | Some (String _ _, query) => query_get "_timezone" query
  | _ => None
  end.

(** The zone in which a connection writes an instant: its offset, and the text
    that names it. *)
Class TimeDriver : Type := { zone_at : string → Z → Z * string }.

(** The text a connection opened with that name binds for a [time.Time]. *)
Definition driver_text `{TimeDriver} (dsn : string) (t : Z) : string :=
  time_String (zone_at dsn t).1 (zone_at dsn t).2 t.

(** What the driver documents of its option. *)
Definition timezone_law (T : TimeDriver) : Prop :=
  ∀ dsn t, timezone_option dsn = Some "UTC" → zone_at dsn t = (0, " +0000 UTC").

Section cuts.
  #[local] Arguments String.append !_ _ : simpl nomatch.

Lemma split_go_sep sep s t : ∀ cur,
  split_go sep cur (s +:+ String sep t) = (split_go sep cur s ++ split_go sep "" t)%list.
Proof.
  induction s as [|a s IH]; intros cur; cbn [String.append split_go].
  - by rewrite Ascii.eqb_refl.
  - destruct (Ascii.eqb a sep); [cbn; f_equal|]; apply IH.
Qed.

Lemma cut_at_app sep s t :
  cut_at sep (s +:+ t) =
    match cut_at sep s with
    | Some (x, y) => Some (x, y +:+ t)
    | None => (λ xy : string * string, (s +:+ xy.1, xy.2)) <$> cut_at sep t
    end.
Proof.
  induction s as [|a s IH]; cbn; [by destruct (cut_at sep t) as [[]|]|].
  destruct (Ascii.eqb a sep); [done|]. rewrite IH. destruct (cut_at sep s) as [[]|]; [done|]. by destruct (cut_at sep t) as [[]|].
Qed.

Lemma cut_at_Contains sep s : Contains s (String sep "") = bool_decide (is_Some (cut_at sep s)).
Proof.
  induction s as [|a s IH]; [done|]. cbn [Contains cut_at String.prefix]. rewrite IH, (Ascii.eqb_sym a sep).
  destruct (ascii_dec sep a) as [<-|Hne].
  - rewrite Ascii.eqb_refl. cbn. by destruct s.
  - apply Ascii.eqb_neq in Hne as ->. cbn. destruct (cut_at sep s) as [[]|]; done.
Qed.

End cuts.

(** The path has a name, and no setting of its own for the zone. *)
Definition plain_path (path : string) : Prop :=
  path ≠ "" ∧ String.prefix "?" path = false ∧ timezone_option path = None.

(** [withUTCTimes] sets the option. *)
Lemma withUTCTimes_option path : plain_path path → timezone_option (withUTCTimes path) = Some "UTC".
Proof.
  intros (Hne & Hq & Hno). unfold withUTCTimes, timezone_option in *. rewrite cut_at_Contains, cut_at_app.
  destruct (cut_at "?" path) as [[x y]|] eqn:Hc.
  - rewrite bool_decide_true by done. destruct x as [|c x].
    { destruct path as [|a path]; [done|]. cbn in Hc, Hq. destruct (ascii_dec "?" a) as [<-|Hn]; [by destruct path|].
      rewrite (proj2 (Ascii.eqb_neq a "?")) in Hc by congruence. by destruct (cut_at "?" path) as [[]|]. }
    unfold query_get in *. unfold Split. change ("&" +:+ "_timezone=UTC") with (String "&" "_timezone=UTC").
    rewrite split_go_sep, omap_app, list.filter_app. fold (Split y "&").
    destruct (filter _ (omap query_setting (Split y "&"))); done.
  - rewrite bool_decide_false by (by intros [? ?]). destruct path; done.
Qed.

Lemma driver_text_UTC `{T : TimeDriver} path t :
  timezone_law T → plain_path path → driver_text (withUTCTimes path) t = utc_String t.
Proof. intros HT Hp. unfold driver_text. by rewrite HT by (by apply withUTCTimes_option). Qed.

(** The comparison [a < b] of two texts. *)
Definition text_lt (a b : string) : bool := String.ltb a b.

(** ** The order *)

(** Times up to the end of year 9999. *)
Definition in_range (t : Z) : Prop := 0 ≤ t < last_day * 86400 * Second.

Lemma seconds_text_length s : String.length (seconds_text s) = 19%nat.
Proof. unfold seconds_text. by rewrite !str_length_app, date_text_length, clock_text_length. Qed.

Lemma seconds_text_order s s' :
  0 ≤ s < last_day * 86400 → 0 ≤ s' < last_day * 86400 → (seconds_text s ?= seconds_text s')%string = (s ?= s').
Proof.
  intros Hs Hs'. unfold seconds_text. rewrite !str_compare_app by (by rewrite ?date_text_length).
  rewrite str_compare_refl. cbn [then_by].
  rewrite date_text_order by (split; [apply Z.div_pos|apply Z.div_lt_upper_bound]; lia).
  rewrite clock_text_order by (apply Z.mod_pos_bound; lia). by rewrite (compare_divmod 86400 s s').
Qed.

Lemma in_range_secs t : in_range t → 0 ≤ t / Second < last_day * 86400.
Proof. unfold in_range, Second. intros. split; [apply Z.div_pos|apply Z.div_lt_upper_bound]; lia. Qed.

(** Seconds, fraction, and a tail below the point. *)
Lemma text_order c tl t t' :
  (N_of_ascii c < 46)%N → in_range t → in_range t' →
  (seconds_text (t / Second) +:+ fraction (t mod Second) +:+ String c tl ?=
   seconds_text (t' / Second) +:+ fraction (t' mod Second) +:+ String c tl)%string = (t ?= t').
Proof.
  intros Hc Ht Ht'. rewrite str_compare_app by (by rewrite !seconds_text_length).
  rewrite seconds_text_order by (by apply in_range_secs).
  rewrite fraction_order by (try apply Z.mod_pos_bound; done). by rewrite (compare_divmod Second t t').
Qed.

Lemma dt_order t t' : in_range t → in_range t' → (dt t ?= dt t')%string = (t ?= t').
Proof. by apply text_order. Qed.

Lemma utc_order t t' : in_range t → in_range t' → (utc_String t ?= utc_String t')%string = (t ?= t').
Proof. intros. unfold utc_String, time_String. rewrite !Z.add_0_r. by apply text_order. Qed.

(** A time bound by the driver against the clock of a statement. *)
Lemma driver_expired t now :
  in_range t → in_range now → text_lt (utc_String t) (CURRENT_TIMESTAMP now) = (t <? current_timestamp now).
Proof.
  intros Ht Hn. unfold text_lt, String.ltb, utc_String, time_String, CURRENT_TIMESTAMP. rewrite !Z.add_0_r.
  rewrite <- (str_append_nil_r (seconds_text (now / Second))), str_compare_app by (by rewrite !seconds_text_length).
  rewrite seconds_text_order by (by apply in_range_secs).
  assert ((fraction (t mod Second) +:+ " +0000 UTC" ?= "")%string = Gt) as ->.
  { unfold fraction. by destruct (_ =? 0). }
  unfold current_timestamp. pose proof (Z.div_mod t Second). pose proof (Z.mod_pos_bound t Second).
  symmetry. destruct (Z.compare_spec (t / Second) (now / Second)); cbn; [apply Z.ltb_ge|apply Z.ltb_lt|apply Z.ltb_ge];
    unfold Second in *; lia.
Qed.

#[local] Instance sqlite : Dialect := SQLite.

(** What the clock of a statement wrote is a whole second. *)
Lemma clocked_seconds t : clocked t → t = t / Second * Second.
Proof. unfold clocked, stamp, current_timestamp. cbn. congruence. Qed.

(** Two times the clock wrote. *)
Lemma clock_order t t' :
  clocked t → clocked t' → in_range t → in_range t' → (CURRENT_TIMESTAMP t ?= CURRENT_TIMESTAMP t')%string = (t ?= t').
Proof.
  intros Hc Hc' Ht Ht'. unfold CURRENT_TIMESTAMP. rewrite seconds_text_order by (by apply in_range_secs).
  apply clocked_seconds in Hc, Hc'.
  destruct (Z.compare_spec (t / Second) (t' / Second)); symmetry; [apply Z.compare_eq_iff|apply Z.compare_lt_iff|apply Z.compare_gt_iff];
    unfold Second in *; lia.
Qed.

(** A challenge's expiry, as its default writes it. *)
Lemma datetime_text created : datetime_now 5 created = CURRENT_TIMESTAMP (stamp created + 5 * Minute).
Proof.
  unfold datetime_now, CURRENT_TIMESTAMP, stamp, current_timestamp, Minute. cbn.
  replace (created / Second * Second + 5 * (60 * Second)) with ((created / Second + 60 * 5) * Second) by lia.
  by rewrite Z.div_mul.
Qed.

(** A challenge's expiry against the clock. *)
Lemma challenge_open now t :
  clocked t → in_range t → in_range now →
  text_lt (CURRENT_TIMESTAMP now) (CURRENT_TIMESTAMP t) = (stamp now <? t).
Proof.
  intros Hc Ht Hn. unfold text_lt, String.ltb, CURRENT_TIMESTAMP. rewrite seconds_text_order by (by apply in_range_secs).
  apply clocked_seconds in Hc. unfold stamp, current_timestamp. cbn. rewrite Hc at 2.
  symmetry. destruct (Z.compare_spec (now / Second) (t / Second)); [apply Z.ltb_ge|apply Z.ltb_lt|apply Z.ltb_ge];
    unfold Second in *; lia.
Qed.

(** ** What a database must satisfy *)

(** Its times are of the years 1 to 9999, and the row the migration wrote has
    a whole second. *)
Record dated (db : DB) : Prop := {
  da_users : rows (λ u, in_range (u_CreatedAt u)) (db_users db);
  da_clients : rows (λ c, in_range (c_CreatedAt c) ∧ (c_ID c = portalClientUUID → clocked (c_CreatedAt c))) (db_clients db);
  da_visibility : rows in_range (db_client_visibility db);
  da_grants : rows (λ g, in_range (gr_expires_at g)) (db_grants db);
  da_sessions : rows (λ s, in_range (sr_refresh_expires_at s)) (db_sessions db);
  da_webauthn : rows (λ c, in_range (wa_CreatedAt c)) (db_webauthn_credentials db);
  da_challenges : rows (λ r, in_range (wsr_expires_at r)) (db_webauthn_sessions db);
  da_groups : rows (λ g, in_range (gpr_created_at g)) (db_scim_groups db);
  da_devices : rows (λ r, in_range (dr_expires_at r)) (db_device_grants db);
  da_assignments : rows (λ a, in_range (ara_CreatedAt a)) (db_aws_role_assignments db);
  da_revoked : rows in_range (db_aws_revoked_users db);
  da_keys : rows (λ k, in_range (sk_CreatedAt k)) (db_signing_keys db);
  da_integrations : rows (λ i, in_range (ai_CreatedAt i)) (db_app_integrations db);
}.

(** ** Statements that compare *)

Lemma delete_where_ext {K A} `{Countable K} (b b' : A → bool) (m : gmap K A) :
  map_Forall (λ _ x, b x = b' x) m → delete_where b m = delete_where b' m.
Proof. intros Hm. unfold delete_where. apply map_filter_ext. intros k x Hx. cbn. by rewrite (Hm k x Hx). Qed.

(** ** Statements that order *)

(** [ORDER BY] a text, and [ORDER BY ... DESC]. *)
Definition text_asc {A} (text : A → string) (x y : A) : Prop := String.leb (text x) (text y) = true.
Definition text_desc {A} (text : A → string) (x y : A) : Prop := text_asc text y x.

(** However the database orders rows of equal texts, the times come in the order
    of the list [rows]. *)
Definition listed {A} (key : A → Z) (R : relation A) (rows : list A) : Prop :=
  ∀ l, l ≡ₚ rows → Sorted R l → key <$> l = key <$> rows.

(** Sorting by the number and by the text. *)
Lemma Sorted_weaken {A} (P : A → Prop) (R R' : relation A) l :
  (∀ x y, P x → P y → R x y → R' x y) → Forall P l → Sorted R l → Sorted R' l.
Proof.
  intros HR HP Hs. induction Hs as [|x l Hs IH Hx]; [constructor|]. apply list.Forall_cons in HP as [Hpx HP].
  constructor; [by apply IH|]. destruct Hx as [|y l Hxy]; constructor. apply HR; [done| |done]. by inversion HP.
Qed.

Lemma listed_sorted {A} (P : A → Prop) (key : A → Z) (R : relation A) (l : list A) :
  (∀ x y, P x → P y → R x y → key x ≤ key y) → Forall P l → Sorted (key_le key) l → listed key R l.
Proof.
  intros HR HP Hsl l' Hl Hs. apply (Sorted_unique Z.le); [..|by rewrite Hl];
    (apply (Sorted_fmap key (key_le key) Z.le); [by intros x y|]); [|exact Hsl].
  eapply (Sorted_weaken P R); [exact HR| |exact Hs]. by rewrite Hl.
Qed.

Lemma sorted_by {A} (key : A → Z) (l : list A) : Sorted (key_le key) (merge_sort (key_le key) l).
Proof. apply Sorted_merge_sort. intros x y. unfold key_le. lia. Qed.

Lemma listed_by {A} (P : A → Prop) (key : A → Z) (R : relation A) (l : list A) :
  (∀ x y, P x → P y → R x y → key x ≤ key y) → Forall P l → listed key R (merge_sort (key_le key) l).
Proof. intros HR HP. apply (listed_sorted P); [done|by rewrite merge_sort_Permutation|apply sorted_by]. Qed.

(** The rows of a table that a statement selects. *)
Lemma selected_rows {A} (P : A → Prop) (key : A → Z) b (m : gmap uuid A) : rows P m → Forall P (rows_by key b m).
Proof. intros HP. apply list.Forall_forall. intros x (_ & i & Hi)%elem_rows_by. by eapply HP. Qed.

Lemma listed_rows {A} (P : A → Prop) (key : A → Z) (R : relation A) b (m : gmap uuid A) :
  (∀ x y, P x → P y → R x y → key x ≤ key y) → rows P m → listed key R (rows_by key b m).
Proof. intros HR HP. apply (listed_sorted P); [done|by apply selected_rows|apply sorted_by]. Qed.

Lemma selected_revocations (Q : AWSRevokedUser → Prop) `{!∀ r, Decision (Q r)} (m : gmap (uuid * string) Z) :
  rows in_range m → Forall (λ r, in_range (arv_RevokedAt r)) (filter Q (revoked_of <$> map_to_list m)).
Proof.
  intros HP. apply list.Forall_forall. intros x [_ Hx]%list_elem_of_filter.
  apply list_elem_of_fmap in Hx as ([k t] & -> & Hkt%elem_of_map_to_list). by apply (HP k).
Qed.

Lemma leb_order s s' (t t' : Z) : (s ?= s')%string = (t ?= t') → String.leb s s' = true → t ≤ t'.
Proof. unfold String.leb. intros ->. by destruct (Z.compare_spec t t'); [lia..|]. Qed.

(** The text of a client's creation: the migration wrote the portal's with the
    clock, the driver the others. *)
Definition client_text (driver : Z → string) (c : Client) : string :=
  if bool_decide (c_ID c = portalClientUUID) then CURRENT_TIMESTAMP (c_CreatedAt c) else driver (c_CreatedAt c).

(** A time the clock wrote and one the driver wrote, in either order. *)
Lemma clock_before_driver t t' :
  clocked t → in_range t → in_range t' → String.leb (CURRENT_TIMESTAMP t) (utc_String t') = true → t ≤ t'.
Proof.
  intros Hc Ht Ht'. unfold String.leb, CURRENT_TIMESTAMP, utc_String, time_String. rewrite Z.add_0_r.
  rewrite <- (str_append_nil_r (seconds_text (t / Second))), str_compare_app by (by rewrite !seconds_text_length).
  rewrite seconds_text_order by (by apply in_range_secs). apply clocked_seconds in Hc.
  pose proof (Z.div_mod t' Second). pose proof (Z.mod_pos_bound t' Second).
  destruct (Z.compare_spec (t / Second) (t' / Second)); cbn [then_by]; [..|done]; intros _; unfold Second in *; lia.
Qed.

Lemma driver_before_clock t t' :
  in_range t → in_range t' → String.leb (utc_String t) (CURRENT_TIMESTAMP t') = true → t ≤ t'.
Proof.
  intros Ht Ht' Hle. pose proof (driver_expired t t' Ht Ht') as Hx. unfold text_lt, String.ltb in Hx. unfold String.leb in Hle.
  assert ((utc_String t ?= CURRENT_TIMESTAMP t')%string ≠ Eq).
  { intros He%String.compare_eq_iff. apply (f_equal String.length) in He. unfold utc_String, time_String, CURRENT_TIMESTAMP in He.
    rewrite !str_length_app, !seconds_text_length in He. cbn in He. lia. }
  destruct (utc_String t ?= CURRENT_TIMESTAMP t')%string; [done| |done]. symmetry in Hx. apply Z.ltb_lt in Hx.
  pose proof (stamp_le t'). cbn in *. lia.
Qed.

Section statements.
  Context `{U : UnicodeTables} `{T : TimeDriver} (now : Z) (path : string) (db : DB).
  Hypothesis Hdriver : timezone_law T.
  Hypothesis Hpath : plain_path path.
  Hypothesis Htyped : db_typed db.
  Hypothesis Hdated : dated db.

(** The text the store's connection writes for a time. *)
Definition stored_text : Z → string := driver_text (withUTCTimes path).

(** [WHERE c < CURRENT_TIMESTAMP] of a column the driver wrote. *)
Definition expired_text (t : Z) : bool := text_lt (stored_text t) (CURRENT_TIMESTAMP now).

Lemma stored_UTC t : stored_text t = utc_String t.
Proof. by apply driver_text_UTC. Qed.

Lemma expired_as_number t : in_range now → in_range t → expired_text t = (t <? stamp now).
Proof. intros. unfold expired_text. rewrite stored_UTC. by apply driver_expired. Qed.

Lemma stored_order t t' : in_range t → in_range t' → String.leb (stored_text t) (stored_text t') = true → t ≤ t'.
Proof. intros Ht Ht'. rewrite !stored_UTC. apply leb_order. by apply utc_order. Qed.

Lemma client_order c c' :
  (in_range (c_CreatedAt c) ∧ (c_ID c = portalClientUUID → clocked (c_CreatedAt c))) →
  (in_range (c_CreatedAt c') ∧ (c_ID c' = portalClientUUID → clocked (c_CreatedAt c'))) →
  text_asc (client_text stored_text) c c' → c_CreatedAt c ≤ c_CreatedAt c'.
Proof.
  intros [Hr Hc] [Hr' Hc']. unfold text_asc, client_text. rewrite !stored_UTC.
  do 2 case_bool_decide; intros Hle.
  - eapply leb_order; [|exact Hle]. apply clock_order; auto.
  - apply clock_before_driver; auto.
  - by apply driver_before_clock.
  - eapply leb_order; [|exact Hle]. by apply utc_order.
Qed.

(** C38: the SQLite store keeps times as text and compares the texts byte by
    byte; the statements that compare do what the store's functions on numbers
    do.  Assumed is what the driver documents ([timezone_law]), that the database
    path has no zone option of its own ([plain_path]), that the clock-written
    columns hold whole seconds ([db_typed], which every execution keeps) and
    that the stored times are of the years 1 to 9999 ([dated]).  With the data
    source name that [withUTCTimes] builds, [DELETE ... WHERE expires_at <
    CURRENT_TIMESTAMP] deletes exactly the authorization codes, sessions (with
    the retired tokens their deletion cascades to) and device grants those
    functions delete; [GetWebAuthnSession] finds a challenge exactly if its user
    and purpose are asked for and the text of its expiry is above the clock's;
    and that text is the one the default [datetime('now', '+5 minutes')] gave it
    when it was created. *)
Theorem text_statements_agree :
  in_range now →
  DeleteExpiredGrants now db =
    (Ok tt, with_grants (delete_where (λ r, expired_text (gr_expires_at r)) (db_grants db)) db) ∧
  DeleteExpiredSessions now db = (Ok tt, delete_sessions (λ r, expired_text (sr_refresh_expires_at r)) db) ∧
  (DeleteExpiredDeviceGrants now db).2 =
    with_device_grants (delete_where (λ r, expired_text (dr_expires_at r)) (db_device_grants db)) db ∧
  (∀ id userID purpose data,
     GetWebAuthnSession now id userID purpose db = Ok data ↔
     ∃ r, db_webauthn_sessions db !! id = Some r ∧ wsr_user_id r = userID ∧ wsr_purpose r = purpose ∧
       text_lt (CURRENT_TIMESTAMP now) (CURRENT_TIMESTAMP (wsr_expires_at r)) = true ∧ wsr_session_data r = data) ∧
  (∀ id created userID data purpose r,
     (CreateWebAuthnSession id created userID data purpose db).1 = Ok id →
     db_webauthn_sessions (CreateWebAuthnSession id created userID data purpose db).2 !! id = Some r →
     CURRENT_TIMESTAMP (wsr_expires_at r) = datetime_now 5 created).
Proof.
  intros Hnow. destruct Hdated.
  unfold DeleteExpiredGrants, DeleteExpiredSessions, DeleteExpiredDeviceGrants, delete_sessions. split_and!.
  - do 2 f_equal. apply delete_where_ext. intros k r Hr. symmetry. apply expired_as_number; [done|]. by eapply da_grants0.
  - f_equal. f_equal; [|f_equal].
    + apply delete_where_ext. intros k r Hr. symmetry. apply expired_as_number; [done|]. by eapply da_sessions0.
    + apply map_filter_ext. intros k id _. cbn. destruct (db_sessions db !! id) as [r|] eqn:Hr; [|done].
      by rewrite expired_as_number by (try done; by eapply da_sessions0).
  - cbn. f_equal. apply delete_where_ext. intros k r Hr. symmetry. apply expired_as_number; [done|]. by eapply da_devices0.
  - intros id userID purpose data. unfold GetWebAuthnSession. destruct (db_webauthn_sessions db !! id) as [r|] eqn:Hr;
      [|by split; [|intros (? & ? & _)]].
    rewrite <- (challenge_open now (wsr_expires_at r)); [|by eapply (ty_webauthn_sessions _ Htyped)|by eapply da_challenges0|done].
    split; [|intros (r' & [= <-] & <- & <- & -> & <-); by rewrite !bool_decide_true].
    do 2 (case_bool_decide; [|done]). destruct (text_lt _ _) eqn:Ht; [|done]. intros [= <-]. by exists r.
  - intros id created userID data purpose r. unfold CreateWebAuthnSession. destruct (_ || _); [done|]. intros _. cbn.
    rewrite lookup_insert_eq. intros [= <-]. cbn. by rewrite datetime_text.
Qed.

(** C39: the SQLite statements that order by a time order by its text; under
    the same assumptions as for those that compare, every such listing
    is in the order of the times.  Whatever order the database chooses among
    equal texts, rows sorted by the texts of their column have the times of the
    store function's list, in its order: users, groups and integrations by the
    text the driver wrote, clients by that text or the migration's for the
    portal, security keys, the groups that see a client and (newest first)
    signing keys by the clock's text, AWS assignments and revocations by the
    text of [dt].  The newest active signing key is therefore one with the
    latest text. *)
Theorem text_listings_agree userID clientID roleID cutoff :
  let by_driver {A} (key : A → Z) := text_asc (λ x, stored_text (key x)) in
  let by_clock {A} (key : A → Z) := text_asc (λ x, CURRENT_TIMESTAMP (key x)) in
  let by_dt {A} (key : A → Z) := text_asc (λ x, dt (key x)) in
  (∃ l, ListUsers db = Ok l ∧ listed u_CreatedAt (by_driver u_CreatedAt) l) ∧
  (∃ l, ListClients db = Ok l ∧ listed c_CreatedAt (text_asc (client_text stored_text)) l) ∧
  (∃ l, ListGroups db = Ok l ∧ listed grp_CreatedAt (by_driver grp_CreatedAt) l) ∧
  (∃ l, ListIntegrations db = Ok l ∧ listed ai_CreatedAt (by_driver ai_CreatedAt) l) ∧
  (∃ l, ListEnabledIntegrations db = Ok l ∧ listed ai_CreatedAt (by_driver ai_CreatedAt) l) ∧
  (∃ l, ListWebAuthnCredentials userID db = Ok l ∧ listed wa_CreatedAt (by_clock wa_CreatedAt) l) ∧
  (∃ l : list ((uuid * uuid) * Z), ListClientVisibility clientID db = Ok l.*1.*2 ∧ listed snd (by_clock snd) l) ∧
  (∃ l, ListActiveSigningKeys db = Ok l ∧ GetActiveSigningKey db = one_row (head l) ∧
     listed (λ k, - sk_CreatedAt k) (text_desc (λ k, CURRENT_TIMESTAMP (sk_CreatedAt k))) l) ∧
  (∃ l, ListAWSRoleAssignments db = Ok l ∧ listed ara_CreatedAt (by_dt ara_CreatedAt) l) ∧
  (∃ l, ListAWSRevokedUsers roleID db = Ok l ∧ listed arv_RevokedAt (by_dt arv_RevokedAt) l) ∧
  (∃ l, ListAWSRevokedUsersOlderThan cutoff db = Ok l ∧ listed arv_RevokedAt (by_dt arv_RevokedAt) l).
Proof.
  destruct Hdated. cbv zeta.
  assert (∀ {A} (key : A → Z) x y, in_range (key x) → in_range (key y) →
    text_asc (λ x, stored_text (key x)) x y → key x ≤ key y) as Hdriven by (intros; by apply stored_order).
  assert (∀ {A} (key : A → Z) x y, in_range (key x) → in_range (key y) →
    text_asc (λ x, dt (key x)) x y → key x ≤ key y) as Hdt.
  { intros A key x y Hx Hy. apply leb_order. by apply dt_order. }
  assert (∀ {A} (key : A → Z) x y, (in_range (key x) ∧ clocked (key x)) → (in_range (key y) ∧ clocked (key y)) →
    text_asc (λ x, CURRENT_TIMESTAMP (key x)) x y → key x ≤ key y) as Hclock.
  { intros A key x y [Hx Hcx] [Hy Hcy]. apply leb_order. by apply clock_order. }
  split_and!; eexists; (split; [reflexivity|]).
  - eapply listed_rows; [apply Hdriven|done].
  - eapply listed_rows; [apply client_order|done].
  - eapply listed_sorted; [apply Hdriven|apply Forall_fmap, selected_rows; exact da_groups0|].
    eapply (Sorted_fmap (scanGroup db)); [|apply sorted_by]. by intros x y.
  - eapply listed_rows; [apply Hdriven|done].
  - eapply listed_rows; [apply Hdriven|done].
  - eapply listed_rows; [apply Hclock|]. intros k c Hc. split; [by eapply da_webauthn0|]. by apply (ty_webauthn _ Htyped) in Hc as [? _].
  - eapply listed_by; [apply Hclock|]. apply list.Forall_forall. intros [k t] [_ Hk%elem_of_map_to_list]%list_elem_of_filter.
    split; [by eapply da_visibility0|by eapply (ty_visibility _ Htyped)].
  - split; [done|]. eapply listed_rows.
    + intros x y Hx Hy Hle. apply Z.opp_le_mono. rewrite !Z.opp_involutive. by apply (Hclock _ sk_CreatedAt y x Hy Hx).
    + intros k c Hc. split; [by eapply da_keys0|by eapply (ty_keys _ Htyped)].
  - eapply listed_rows; [apply Hdt|done].
  - eapply listed_by; [apply Hdt|by apply selected_revocations].
  - eapply listed_by; [apply Hdt|by apply selected_revocations].
Qed.
End statements.

(** ** A database in another zone *)

(** A driver whose host is in Hong Kong, unless told otherwise. *)
#[local] Instance fx_driver : TimeDriver :=
  {| zone_at dsn _ := if decide (timezone_option dsn = Some "UTC") then (0, " +0000 UTC") else (8 * Hour, " +0800 HKT") |}.

Lemma fx_driver_law : timezone_law fx_driver.
Proof. intros dsn t H. cbn. by rewrite decide_True. Qed.

(** Names of databases, with and without options of their own. *)
Lemma fx_paths : plain_path "/var/lib/authd/auth.db" ∧ plain_path "file:auth.db?cache=shared&_txlock=immediate".
Proof. by vm_compute. Qed.

(** 2026-01-01 02:00:00 UTC, and a code that expires a minute later. *)
Definition fx_two_oclock : Z := (day_of (2026, 1, 1) * 86400 + 7200) * Second.

(** With the plain path the driver would write the expiry as ten o'clock, so that
    the code would outlive itself for hours; in New York as the evening before,
    so that it would be deleted at once.  With [withUTCTimes] neither happens. *)
Lemma local_times_out_of_order :
  let expires := fx_two_oclock + Minute in
  driver_text "auth.db" expires = "2026-01-01 10:01:00 +0800 HKT" ∧
  text_lt (driver_text "auth.db" expires) (CURRENT_TIMESTAMP (fx_two_oclock + 7 * Hour)) = false ∧
  text_lt (time_String (- (5 * Hour)) " -0500 EST" expires) (CURRENT_TIMESTAMP fx_two_oclock) = true ∧
  expired_text (fx_two_oclock + 7 * Hour) "auth.db" expires = true ∧ expired_text fx_two_oclock "auth.db" expires = false.
Proof. vm_compute. auto. Qed.

(** A code, a challenge and two revocations, a quarter of a second and a second
    after two o'clock, in a migrated database. *)
Definition fx_text_db : DB :=
  with_grants {[ 1%N := mk_grant_row 1%N 7%N 3%N "code" "" "" [] "" (fx_two_oclock + Minute) None None None ]}
  (with_webauthn_sessions {[ 5%N := mk_wa_session_row 7%N "challenge" "login" (fx_two_oclock + 5 * Minute) fx_two_oclock ]}
  (with_aws_revoked_users
     (<[(9%N, "b") := fx_two_oclock + 250000000]> {[ (9%N, "a") := fx_two_oclock + Second ]}) (migrated_db fx_two_oclock))).

Lemma fx_in_range n : 0 ≤ n ≤ 8 * Hour → in_range (fx_two_oclock + n).
Proof.
  intros Hn. unfold in_range. change fx_two_oclock with 63902829600000000000. change (last_day * 86400 * Second) with 315537897600000000000.
  unfold Hour, Minute, Second in Hn. lia.
Qed.

Lemma rows_one {K A} `{Countable K} (P : A → Prop) (k : K) (x : A) : P x → rows P {[ k := x ]}.
Proof. by intros Hx i y [<- <-]%lookup_singleton_Some. Qed.

Lemma fx_text_typed : db_typed fx_text_db.
Proof.
  destruct (migrated_db_typed fx_two_oclock). constructor; try assumption.
  - by refine (rows_one _ _ _ _).
  - by refine (rows_one _ _ _ _).
  - by refine (rows_insert _ _ _ _ (rows_one _ _ _ _) _).
Qed.

Lemma fx_text_dated : dated fx_text_db.
Proof.
  constructor; try apply map_Forall_empty.
  - refine (rows_one _ _ _ _). split; [by apply (fx_in_range 0)|by intros _].
  - refine (rows_one _ _ _ _). by apply (fx_in_range Minute).
  - refine (rows_one _ _ _ _). by apply (fx_in_range (5 * Minute)).
  - refine (rows_insert _ _ _ _ (rows_one _ _ _ _) _); by apply fx_in_range.
Qed.

Lemma text_statements_agree_witness :
  let now := fx_two_oclock + 7 * Hour in
  db_grants (DeleteExpiredGrants now fx_text_db).2 = ∅ ∧
  delete_where (λ r, expired_text now "auth.db" (gr_expires_at r)) (db_grants fx_text_db) = ∅ ∧
  GetWebAuthnSession (fx_two_oclock + 4 * Minute) 5%N 7%N "login" fx_text_db = Ok "challenge".
Proof.
  cbv zeta. split; [vm_compute; reflexivity|]. split.
  - destruct (text_statements_agree (fx_two_oclock + 7 * Hour) "auth.db" fx_text_db fx_driver_law ltac:(by vm_compute)
      fx_text_typed fx_text_dated ltac:(by apply fx_in_range)) as (Hg & _).
    apply (f_equal (λ p, db_grants p.2)) in Hg. cbn [snd db_grants with_grants] in Hg. rewrite <- Hg. vm_compute. reflexivity.
  - apply (text_statements_agree (fx_two_oclock + 4 * Minute) "auth.db" fx_text_db fx_driver_law ltac:(by vm_compute)
      fx_text_typed fx_text_dated ltac:(by apply fx_in_range)). eexists. split; [reflexivity|].
    split_and!; [reflexivity..|vm_compute; reflexivity|reflexivity].
Defined.

Lemma text_listings_agree_witness :
  dt <$> [fx_two_oclock + 250000000; fx_two_oclock + Second] =
    ["2026-01-01 02:00:00.25+00:00"; "2026-01-01 02:00:01+00:00"] ∧
  ∃ l, ListAWSRevokedUsers 9%N fx_text_db = Ok l ∧ arv_SubUUID <$> l = ["b"; "a"] ∧
    listed arv_RevokedAt (text_asc (λ r, dt (arv_RevokedAt r))) l.
Proof.
  split; [vm_compute; reflexivity|].
  destruct (text_listings_agree "auth.db" fx_text_db fx_driver_law ltac:(by vm_compute) fx_text_typed fx_text_dated
    7%N portalClientUUID 9%N fx_two_oclock) as (_ & _ & _ & _ & _ & _ & _ & _ & _ & (l & Hl & Hs) & _).
  exists l. split; [exact Hl|]. split; [|exact Hs]. assert (l = l) as _ by reflexivity.
  injection Hl as <-. vm_compute. reflexivity.
Defined.
