(* ===== verification/AwsCreds.v ===== *)
(** * auth-aws-creds

    [cmd/auth-aws-creds/main.go]: the credential helper the AWS tools run for
    a profile.  [get] answers from a cache of STS credentials on disk, one file
    per role, or asks [/aws/credentials] of the issuer with the user's access
    token and stores the answer; [login] and [logout] work on the sign-in the
    [oidcclient] package shares between the helpers.

    The package [oidcclient] is not part of the repository: its operations and
    the state it keeps are parameters, and so is the JSON text of the
    credentials.  The package [flag] and the path functions the program uses
    are written out. *)
From S2P Require Import Prelude GoStrings GoNet Model Tables Store Prog Migrate.

Local Open Scope Z_scope.

(** ** The standard library *)

(** [flag.FlagSet] with string, int and bool flags. *)
Inductive flag_kind : Type := FString | FInt | FBool.
Inductive flag_value : Type := VString (s : string) | VInt (n : Z) | VBool (b : bool).

(** [strconv.ParseBool]. *)
Definition parse_bool_flag (v : string) : option bool :=
  if str_contains ["1"; "t"; "T"; "TRUE"; "true"; "True"] v then Some true
  else if str_contains ["0"; "f"; "F"; "FALSE"; "false"; "False"] v then Some false
  else None.

Definition to_lower (a : ascii) : Z := byteZ (lower_byte a).

(** [underscoreOK]: underscores separate digits, and one may follow the base
    prefix.  [seen] is the class of the last byte: start, digit, underscore,
    other. *)
Inductive seen_class : Set := SeenStart | SeenDigit | SeenUnderscore | SeenOther.

Fixpoint underscore_go (hex : bool) (seen : seen_class) (s : string) : bool :=
  match s with
  | EmptyString => match seen with SeenUnderscore => false | _ => true end
  | String a s =>
      if in_range 48 57 (byteZ a) || hex && in_range 97 102 (to_lower a) then underscore_go hex SeenDigit s
      else if Ascii.eqb a "_" then match seen with SeenDigit => underscore_go hex SeenUnderscore s | _ => false end
      else match seen with SeenUnderscore => false | _ => underscore_go hex SeenOther s end
  end.

(** A base prefix and what follows it. *)
Definition base_prefix (s : string) : option (Z * string) :=
  match s with
  | String "0" (String b r) =>
      if to_lower b =? 98 then Some (2, r)
      else if to_lower b =? 111 then Some (8, r)
      else if to_lower b =? 120 then Some (16, r)
      else None
  | _ => None
  end.

Definition underscoreOK (s : string) : bool :=
  match base_prefix s with
  | Some (base, r) => underscore_go (base =? 16) SeenDigit r
  | None => underscore_go false SeenStart s
  end.

Fixpoint digits_value (base acc : Z) (s : string) : option Z :=
  match s with
  | EmptyString => Some acc
  | String a s =>
      if Ascii.eqb a "_" then digits_value base acc s
      else
        let d := if in_range 48 57 (byteZ a) then byteZ a - 48
                 else if in_range 97 122 (to_lower a) then to_lower a - 87 else 99 in
        if base <=? d then None else digits_value base (base * acc + d) s
  end.

(** [strconv.ParseUint] in base 0, before the range check. *)
Definition ParseUint0 (s : string) : option Z :=
  match s with
  | EmptyString => None
  | String a rest =>
      if negb (underscoreOK s) then None
      else if Ascii.eqb a "0" then
        match base_prefix s with
        | Some (base, EmptyString) => digits_value 8 0 rest
        | Some (base, r) => digits_value base 0 r
        | None => digits_value 8 0 rest
        end
      else digits_value 10 0 s
  end.

(** [strconv.ParseInt] in base 0 for an int. *)
Definition parse_int_flag (s : string) : option Z :=
  let '(neg, digits) :=
    match s with
    | String "-" r => (true, r)
    | String "+" r => (false, r)
    | _ => (false, s)
    end in
  n ← ParseUint0 digits;
  let v := if neg : bool then - n else n in
  if in_range (- 2 ^ 63) (2 ^ 63 - 1) v then Some v else None.

Definition set_flag (k : flag_kind) (v : string) : option flag_value :=
  match k with
  | FString => Some (VString v)
  | FInt => VInt <$> parse_int_flag v
  | FBool => VBool <$> parse_bool_flag v
  end.

(** The first [=] behind the first byte of a flag's name. *)
Fixpoint cut_eq (s : string) : string * option string :=
  match s with
  | EmptyString => (EmptyString, None)
  | String a r =>
      if Ascii.eqb a "=" then (EmptyString, Some r)
      else let '(n, v) := cut_eq r in (String a n, v)
  end.

(** What the first argument is to the parser: not a flag, the terminator, a
    malformed flag, or a flag with the value after its [=]. *)
Inductive flag_arg : Type :=
| NotAFlag
| Terminator
| BadFlag
| AFlag (name : string) (value : option string).

Definition flag_arg_of (s : string) : flag_arg :=
  match s with
  | String "-" (String b r) =>
      if Ascii.eqb b "-" && bool_decide (r = EmptyString) then Terminator
      else match (if Ascii.eqb b "-" then r else String b r) with
      | EmptyString => BadFlag
      | String c r =>
          if Ascii.eqb c "-" || Ascii.eqb c "=" then BadFlag
          else let '(n, v) := cut_eq r in AFlag (String c n) v
      end
  | _ => NotAFlag
  end.

(** [FlagSet.Parse]: the flags as they were set (later settings first), or an
    error. *)
Fixpoint flag_Parse (flags : list (string * flag_kind)) (args : list string) (set : list (string * flag_value)) :
    option (list (string * flag_value)) :=
  match args with
  | [] => Some set
  | s :: args =>
      match flag_arg_of s with
      | NotAFlag | Terminator => Some set
      | BadFlag => None
      | AFlag name value =>
          match find (λ f, bool_decide (f.1 = name)) flags with
          | None => None
          | Some (_, k) =>
              match k, value, args with
              | FBool, None, _ => flag_Parse flags args ((name, VBool true) :: set)
              | _, Some v, _ => match set_flag k v with Some x => flag_Parse flags args ((name, x) :: set) | None => None end
              | _, None, v :: args' =>
                  match set_flag k v with Some x => flag_Parse flags args' ((name, x) :: set) | None => None end
              | _, None, [] => None
              end
          end
      end
  end.

Definition flag_string (set : list (string * flag_value)) (name : string) : string :=
  match find (λ f, bool_decide (f.1 = name)) set with Some (_, VString s) => s | _ => "" end.
Definition flag_int (set : list (string * flag_value)) (name : string) : Z :=
  match find (λ f, bool_decide (f.1 = name)) set with Some (_, VInt n) => n | _ => 0 end.
Definition flag_bool (set : list (string * flag_value)) (name : string) : bool :=
  match find (λ f, bool_decide (f.1 = name)) set with Some (_, VBool b) => b | _ => false end.

(** [filepath.Clean]: the components kept, last first. *)
Definition clean_step (rooted : bool) (kept : list string) (c : string) : list string :=
  if bool_decide (c = "") || bool_decide (c = ".") then kept
  else if bool_decide (c = "..") then
    match kept with
    | k :: kept' => if bool_decide (k = "..") then c :: kept else kept'
    | [] => if rooted then [] else [c]
    end
  else c :: kept.

Definition Clean (path : string) : string :=
  let rooted := match path with String "/" _ => true | _ => false end in
  let kept := Join (reverse (foldl (clean_step rooted) [] (Split path "/"))) "/" in
  if rooted then "/" +:+ kept else if bool_decide (kept = "") then "." else kept.

Definition filepath_Join (elems : list string) : string :=
  match filter (λ e, e ≠ "") elems with
  | [] => ""
  | es => Clean (Join es "/")
  end.

Example flag_examples :
  flag_Parse [("role", FString); ("port", FInt); ("device", FBool)]
    ["--role=a=b"; "-port"; "0x1F"; "-device"; "x"; "-role"; "y"] [] =
    Some [("device", VBool true); ("port", VInt 31); ("role", VString "a=b")] ∧
  flag_Parse [("role", FString)] ["--role"] [] = None ∧ flag_Parse [("role", FString)] ["---role"; "x"] [] = None ∧
  flag_Parse [("port", FInt)] ["-port"; "1__0"] [] = None ∧ parse_int_flag "-1_000" = Some (-1000) ∧
  parse_int_flag "0" = Some 0 ∧ parse_int_flag "0x" = None ∧ parse_int_flag "08" = None ∧
  filepath_Join ["/home/u/.config/"; "sts"; "a.json"] = "/home/u/.config/sts/a.json" ∧
  Clean "/../a/./b//../c" = "/a/c" ∧ Clean "../../x" = "../../x" ∧ Clean "" = ".".
Proof. vm_compute. split_and!; reflexivity. Qed.

(** ** The program *)

Record awsCredentialsResponse : Type := mkCreds {
  acr_Version : Z;
  acr_AccessKeyID : string;
  acr_SecretAccessKey : string;
  acr_SessionToken : string;
  acr_Expiration : Z;
}.

Definition appCacheSubdir : string := "aws-creds".
Definition stsExpirySkew : Z := 60 * Second.
Definition accessTokenSkew : Z := 30 * Second.

Record oidc_Config : Type := mkOidcConfig { oc_Issuer : string; oc_ClientID : string }.
Record LoginOptions : Type := mkLoginOptions { lo_Port : Z; lo_Device : bool }.

(** The files under the cache directory, and the configuration and tokens
    [oidcclient] keeps in a form of its own. *)
Record machine (sso : Type) : Type := mkMachine { mc_sso : sso; mc_files : gmap string string }.
Arguments mkMachine {sso}.
Arguments mc_sso {sso}.
Arguments mc_files {sso}.

(** [oidcclient] ([EnsureFreshTokens] answers the access token), and
    [json.Unmarshal] and [json.MarshalIndent] of the credentials. *)
Class OidcClient (sso : Type) : Type := {
  oidc_Login : oidc_Config → LoginOptions → sso → result unit * sso;
  oidc_LoadConfig : sso → result oidc_Config;
  oidc_EnsureFreshTokens : oidc_Config → Z → sso → result string * sso;
  oidc_Logout : string → machine sso → result unit * machine sso;
  oidc_AppCacheDir : string → result string;
  oidc_SafeFilename : string → string;
  creds_Unmarshal : string → result awsCredentialsResponse;
  creds_MarshalIndent : awsCredentialsResponse → result string;
}.

(** One invocation: its arguments, the clock, the network, and what becomes of
    [MkdirAll] and of the atomic write. *)
Record invocation : Type := mkInvocation {
  iv_args : list string;
  iv_now : Z;
  iv_http : HTTPRequest → result HTTPResponse;
  iv_mkdir : result unit;
  iv_write : outcome;
}.

(** What the program prints on its standard output. *)
Inductive output : Type :=
| Usage
| Printed (c : awsCredentialsResponse).

Section helper.
  Context {sso : Type} `{C : OidcClient sso}.

(** Exit code, standard output and the machine afterwards. *)
Definition exit_of : Type := Z * list output * machine sso.

Definition cmdLogin (iv : invocation) (args : list string) (m : machine sso) : exit_of :=
  match flag_Parse [("issuer", FString); ("client-id", FString); ("port", FInt); ("device", FBool)] args [] with
  | None => (2, [], m)
  | Some fs =>
      if bool_decide (flag_string fs "issuer" = "") || bool_decide (flag_string fs "client-id" = "") then (2, [], m)
      else
        let '(r, s) := oidc_Login (mkOidcConfig (flag_string fs "issuer") (flag_string fs "client-id"))
                         (mkLoginOptions (flag_int fs "port") (flag_bool fs "device")) (mc_sso m) in
        (match r with Ok _ => 0 | Err _ => 1 end, [], mkMachine s (mc_files m))
  end.

(** The path of a role's cache file in the directory of the helper. *)
Definition sts_file (dir slug : string) : string :=
  filepath_Join [dir; "sts"; oidc_SafeFilename slug +:+ ".json"].

Definition loadSTSCache (now : Z) (slug : string) (m : machine sso) : option awsCredentialsResponse :=
  match oidc_AppCacheDir appCacheSubdir with
  | Err _ => None
  | Ok dir =>
      match mc_files m !! sts_file dir slug with
      | None => None
      | Some b =>
          match creds_Unmarshal b with
          | Err _ => None
          | Ok c => if time_Sub (acr_Expiration c) now <? stsExpirySkew then None else Some c
          end
      end
  end.

Definition saveSTSCache (iv : invocation) (slug : string) (c : awsCredentialsResponse) (m : machine sso) :
    result unit * machine sso :=
  match oidc_AppCacheDir appCacheSubdir with
  | Err e => (Err e, m)
  | Ok dir =>
      match iv_mkdir iv with
      | Err e => (Err e, m)
      | Ok _ =>
          match creds_MarshalIndent c with
          | Err e => (Err e, m)
          | Ok b =>
              let m' := mkMachine (mc_sso m) (<[sts_file dir slug := b]> (mc_files m)) in
              match iv_write iv with
              | Done => (Ok tt, m')
              | Failed => (Err ErrOther, m)
              | Unheard => (Err ErrOther, m')
              end
          end
      end
  end.

Definition aws_request (issuer accessToken slug : string) : HTTPRequest :=
  mkHTTPRequest "POST" (str_trim_right (Ascii.eqb "/") issuer +:+ "/aws/credentials") accessToken
    (FormBody [("role", slug)]).

(** At most 64 KiB of the answer are read. *)
Definition fetchAWSCredentials (iv : invocation) (issuer accessToken slug : string) : result awsCredentialsResponse :=
  match iv_http iv (aws_request issuer accessToken slug) with
  | Err e => Err e
  | Ok resp =>
      if negb (hs_Status resp =? 200) then Err ErrOther
      else creds_Unmarshal (str_take (64 * 1024) (hs_Body resp))
  end.

(** The role named by [--role], or by its old name. *)
Definition role_slug (fs : list (string * flag_value)) : string :=
  if bool_decide (flag_string fs "role" = "") then flag_string fs "audience" else flag_string fs "role".

(** The part of [cmdGet] behind the cache. *)
Definition get_fresh (iv : invocation) (slug : string) (m : machine sso) : exit_of :=
  match oidc_LoadConfig (mc_sso m) with
  | Err _ => (1, [], m)
  | Ok cfg =>
      let '(tokens, s) := oidc_EnsureFreshTokens cfg accessTokenSkew (mc_sso m) in
      let m := mkMachine s (mc_files m) in
      match tokens with
      | Err _ => (1, [], m)
      | Ok accessToken =>
          match fetchAWSCredentials iv (oc_Issuer cfg) accessToken slug with
          | Err _ => (1, [], m)
          | Ok creds => (0, [Printed creds], (saveSTSCache iv slug creds m).2)
          end
      end
  end.

Definition cmdGet (iv : invocation) (args : list string) (m : machine sso) : exit_of :=
  match flag_Parse [("role", FString); ("audience", FString)] args [] with
  | None => (2, [], m)
  | Some fs =>
      let slug := role_slug fs in
      if bool_decide (slug = "") then (2, [], m)
      else match loadSTSCache (iv_now iv) slug m with
      | Some cached => (0, [Printed cached], m)
      | None => get_fresh iv slug m
      end
  end.

Definition cmdLogout (args : list string) (m : machine sso) : exit_of :=
  let '(r, m') := oidc_Logout appCacheSubdir m in
  (match r with Ok _ => 0 | Err _ => 1 end, [], m').

(** [main]; the first argument is the command. *)
Definition helper_main (iv : invocation) (m : machine sso) : exit_of :=
  match iv_args iv with
  | [] => (2, [], m)
  | cmd :: args =>
      if bool_decide (cmd = "login") then cmdLogin iv args m
      else if bool_decide (cmd = "logout") then cmdLogout args m
      else if bool_decide (cmd = "get") then cmdGet iv args m
      else if str_contains ["-h"; "--help"; "help"] cmd then (0, [Usage], m)
      else (2, [], m)
  end.

(** An invocation that was run: the sign-in state it found, its exit code and
    its output. *)
Record ran : Type := mkRan { rn_iv : invocation; rn_sso : sso; rn_code : Z; rn_out : list output }.

(** The invocations one after the other. *)
Fixpoint helper_runs (ivs : list invocation) (m : machine sso) : list ran :=
  match ivs with
  | [] => []
  | iv :: ivs =>
      let '(code, out, m1) := helper_main iv m in
      mkRan iv (mc_sso m) code out :: helper_runs ivs m1
  end.

Lemma helper_runs_ivs ivs : ∀ m x, x ∈ helper_runs ivs m → rn_iv x ∈ ivs.
Proof.
  induction ivs as [|iv ivs IH]; intros m x; cbn [helper_runs]; [by intros ?%not_elem_of_nil|].
  destruct (helper_main iv m) as [[code out] m1]. intros [->|Hx]%elem_of_cons; [left|right]. by eapply IH.
Qed.

(** ** Specification *)

(** The role an invocation of [get] names. *)
Definition asks_for (iv : invocation) (slug : string) : Prop :=
  ∃ args fs, iv_args iv = "get" :: args ∧
    flag_Parse [("role", FString); ("audience", FString)] args [] = Some fs ∧ role_slug fs = slug.

(** The sign-in state [s] is configured for the issuer [cfg], and [oidcclient]
    hands out this access token for it. *)
Definition signed_in (s : sso) (cfg : oidc_Config) (accessToken : string) : Prop :=
  oidc_LoadConfig s = Ok cfg ∧ ∃ s', oidc_EnsureFreshTokens cfg accessTokenSkew s = (Ok accessToken, s').

(** The issuer the helper is configured for granted the credentials for the
    role during the invocation, to the access token of the helper's sign-in. *)
Definition granted (x : ran) (slug : string) (c : awsCredentialsResponse) : Prop :=
  asks_for (rn_iv x) slug ∧
  ∃ cfg accessToken resp,
    signed_in (rn_sso x) cfg accessToken ∧
    iv_http (rn_iv x) (aws_request (oc_Issuer cfg) accessToken slug) = Ok resp ∧ hs_Status resp = 200 ∧
    creds_Unmarshal (str_take (64 * 1024) (hs_Body resp)) = Ok c.

(** A sign-out that succeeded. *)
Definition signs_out (x : ran) : Prop := head (iv_args (rn_iv x)) = Some "logout" ∧ rn_code x = 0.

(** An earlier invocation, with no sign-out since, was granted the
    credentials. *)
Definition earned (hist : list ran) (slug : string) (c : awsCredentialsResponse) : Prop :=
  ∃ before x after, hist = before ++ x :: after ∧ granted x slug c ∧ Forall (λ x, ¬ signs_out x) after.

(** What an invocation may print, after those of [hist]: credentials for the
    role it names, granted just now, or earned and good for another minute. *)
Definition justified (hist : list ran) (x : ran) : Prop :=
  (rn_code x = 0 ∨ rn_code x = 1 ∨ rn_code x = 2) ∧ (rn_code x ≠ 0 → rn_out x = []) ∧
  ∀ c, Printed c ∈ rn_out x → rn_out x = [Printed c] ∧
    ∃ slug, asks_for (rn_iv x) slug ∧
      (granted x slug c ∨ earned hist slug c ∧ stsExpirySkew ≤ acr_Expiration c - iv_now (rn_iv x)).

(** The laws of the packages the program relies on: credentials that were read
    from JSON (their strings are valid UTF-8 and their year has four digits)
    survive being written and read again, a sign-out that succeeds leaves no
    file of the cache, and one that fails creates none. *)
Record client_laws : Prop := {
  law_json : ∀ b c b', creds_Unmarshal b = Ok c → creds_MarshalIndent c = Ok b' → creds_Unmarshal b' = Ok c;
  law_logout : ∀ m r m', oidc_Logout appCacheSubdir m = (r, m') → mc_files m' ⊆ mc_files m;
  law_cleared : ∀ m m' dir slug, oidc_Logout appCacheSubdir m = (Ok tt, m') →
    oidc_AppCacheDir appCacheSubdir = Ok dir → mc_files m' !! sts_file dir slug = None;
}.

(** The roles named are kept in different files: [SafeFilename] and the cleaning
    of the path do not map two of them to one name. *)
Definition kept_apart (slugs : list string) : Prop :=
  ∀ dir s s', oidc_AppCacheDir appCacheSubdir = Ok dir → s ∈ slugs → s' ∈ slugs →
    sts_file dir s = sts_file dir s' → s = s'.

(** The role names given to a sequence of invocations. *)
Definition roles_named (ivs : list invocation) : list string :=
  omap (λ iv, role_slug <$> flag_Parse [("role", FString); ("audience", FString)] (tail (iv_args iv)) []) ivs.

(** ** Lemmas *)

Section laws.
  Context (laws : client_laws) (slugs : list string) (apart : kept_apart slugs).

(** Every cached file was earned. *)
Definition cache_earned (hist : list ran) (m : machine sso) : Prop :=
  ∀ dir slug b c, oidc_AppCacheDir appCacheSubdir = Ok dir → slug ∈ slugs →
    mc_files m !! sts_file dir slug = Some b → creds_Unmarshal b = Ok c → earned hist slug c.

Lemma earned_snoc hist x slug c : earned hist slug c → ¬ signs_out x → earned (hist ++ [x]) slug c.
Proof.
  intros (before & y & after & -> & ? & ?) ?. exists before, y, (after ++ [x]).
  split_and!; [by rewrite <- app_assoc|done|]. apply Forall_app. auto.
Qed.

Lemma cache_earned_snoc hist x m m' :
  cache_earned hist m → ¬ signs_out x → mc_files m' ⊆ mc_files m → cache_earned (hist ++ [x]) m'.
Proof. intros Hm Hx Hsub dir slug b c ????. eapply earned_snoc, Hx. eapply Hm; eauto using lookup_weaken. Qed.

Lemma cache_hit hist now slug m c :
  cache_earned hist m → slug ∈ slugs → loadSTSCache now slug m = Some c →
  earned hist slug c ∧ stsExpirySkew ≤ acr_Expiration c - now.
Proof.
  unfold loadSTSCache. intros Hm Hs H.
  destruct (oidc_AppCacheDir appCacheSubdir) as [dir|] eqn:Hd; [|done].
  destruct (mc_files m !! sts_file dir slug) as [b|] eqn:Hb; [|done].
  destruct (creds_Unmarshal b) as [c'|] eqn:Hc; [|done].
  destruct (_ <? _) eqn:Hexp; [done|]. simplify_eq. split; [by eapply Hm|].
  apply Z.ltb_ge in Hexp. unfold time_Sub, stsExpirySkew, maxDuration, minDuration, Second in *. lia.
Qed.

Lemma fetch_granted iv s cfg token slug c code out :
  asks_for iv slug → signed_in s cfg token → fetchAWSCredentials iv (oc_Issuer cfg) token slug = Ok c →
  granted (mkRan iv s code out) slug c.
Proof.
  unfold fetchAWSCredentials. intros Ha Hin H.
  destruct (iv_http iv (aws_request (oc_Issuer cfg) token slug)) as [resp|] eqn:Hr; [|done].
  destruct (hs_Status resp =? 200) eqn:Hst; [|done]. apply Z.eqb_eq in Hst.
  split; [done|]. by exists cfg, token, resp.
Qed.

Lemma granted_read x slug c : granted x slug c → ∃ b, creds_Unmarshal b = Ok c.
Proof. intros (_ & cfg & token & resp & _ & _ & _ & Hc). eauto. Qed.

(** Saving what was just granted. *)
Lemma cache_earned_save hist x iv slug c m :
  cache_earned hist m → slug ∈ slugs → ¬ signs_out x → granted x slug c →
  cache_earned (hist ++ [x]) (saveSTSCache iv slug c m).2.
Proof.
  intros Hm Hs Hx Hg. unfold saveSTSCache.
  destruct (oidc_AppCacheDir appCacheSubdir) as [dir|] eqn:Hd; [|by eapply cache_earned_snoc].
  destruct (iv_mkdir iv); [|by eapply cache_earned_snoc].
  destruct (creds_MarshalIndent c) as [text|] eqn:Htext; [|by eapply cache_earned_snoc].
  assert (Hnew : cache_earned (hist ++ [x])
    (mkMachine (mc_sso m) (<[sts_file dir slug := text]> (mc_files m)))).
  { intros dir' slug' b c' Hd' Hs' Hb Hc. rewrite Hd in Hd'. simplify_eq. cbn in Hb.
    apply lookup_insert_Some in Hb as [[Hpath <-]|[_ Hb]].
    - apply (apart dir') in Hpath as <-; [|done..]. destruct (granted_read _ _ _ Hg) as [b0 Hb0].
      rewrite (law_json laws _ _ _ Hb0 Htext) in Hc. simplify_eq. exists hist, x, []. by split_and!.
    - eapply earned_snoc, Hx. by eapply Hm. }
  destruct (iv_write iv); [done|by eapply cache_earned_snoc|done].
Qed.

(** A step that prints nothing. *)
Lemma silent hist iv s code : code = 0 ∨ code = 1 ∨ code = 2 → justified hist (mkRan iv s code []).
Proof. intros. split_and!; [done..|]. by intros c ?%not_elem_of_nil. Qed.

Lemma quiet_step hist iv s code m m' :
  cache_earned hist m → ¬ signs_out (mkRan iv s code []) → mc_files m' ⊆ mc_files m →
  code = 0 ∨ code = 1 ∨ code = 2 →
  cache_earned (hist ++ [mkRan iv s code []]) m' ∧ justified hist (mkRan iv s code []).
Proof. intros. split; [by eapply cache_earned_snoc|by apply silent]. Qed.

Lemma get_step hist iv args m code out m' :
  iv_args iv = "get" :: args → (∀ slug, asks_for iv slug → slug ∈ slugs) → cache_earned hist m →
  cmdGet iv args m = (code, out, m') →
  cache_earned (hist ++ [mkRan iv (mc_sso m) code out]) m' ∧ justified hist (mkRan iv (mc_sso m) code out).
Proof.
  intros Hargs Hin Hm. assert (Hx : ∀ code out, ¬ signs_out (mkRan iv (mc_sso m) code out)).
  { intros code' out' [H _]. cbn in H. by rewrite Hargs in H. }
  unfold cmdGet. destruct (flag_Parse _ args []) as [fs|] eqn:Hfs.
  2: { intros [= <- <- <-]. eapply quiet_step; eauto. }
  case_bool_decide as Hne.
  { intros [= <- <- <-]. eapply quiet_step; eauto. }
  assert (Ha : asks_for iv (role_slug fs)) by (by exists args, fs).
  destruct (loadSTSCache (iv_now iv) (role_slug fs) m) as [c|] eqn:Hc.
  { intros [= <- <- <-]. split; [by eapply cache_earned_snoc|]. split_and!; [auto|done|].
    intros c' [= ->]%list_elem_of_singleton. split; [done|]. exists (role_slug fs). split; [done|right].
    by eapply cache_hit; eauto. }
  unfold get_fresh. destruct (oidc_LoadConfig (mc_sso m)) as [cfg|] eqn:Hcfg.
  2: { intros [= <- <- <-]. eapply quiet_step; eauto. }
  destruct (oidc_EnsureFreshTokens cfg accessTokenSkew (mc_sso m)) as [[token|] s] eqn:Htok.
  2: { intros [= <- <- <-]. eapply quiet_step; eauto. }
  destruct (fetchAWSCredentials iv _ _ _) as [c|] eqn:Hf.
  2: { intros [= <- <- <-]. eapply quiet_step; eauto. }
  assert (Hsigned : signed_in (mc_sso m) cfg token) by (split; [done|by exists s]).
  pose proof (fetch_granted _ _ _ _ _ _ 0 [Printed c] Ha Hsigned Hf) as Hg. intros [= <- <- <-]. split.
  - apply cache_earned_save; auto.
  - split_and!; [auto|done|]. intros c' [= ->]%list_elem_of_singleton. split; [done|]. eauto.
Qed.

Lemma helper_step hist iv m code out m' :
  (∀ slug, asks_for iv slug → slug ∈ slugs) → cache_earned hist m → helper_main iv m = (code, out, m') →
  cache_earned (hist ++ [mkRan iv (mc_sso m) code out]) m' ∧ justified hist (mkRan iv (mc_sso m) code out).
Proof.
  intros Hin Hm. unfold helper_main. destruct (iv_args iv) as [|cmd args] eqn:Hargs.
  { intros [= <- <- <-]. eapply quiet_step; eauto. intros [H _]. cbn in H. by rewrite Hargs in H. }
  assert (Hx : ∀ code out, cmd ≠ "logout" → ¬ signs_out (mkRan iv (mc_sso m) code out)).
  { intros code' out' Hc [H _]. cbn in H. rewrite Hargs in H. by simplify_eq/=. }
  case_bool_decide as H1.
  { subst. unfold cmdLogin. destruct (flag_Parse _ args []).
    2: { intros [= <- <- <-]. eapply quiet_step; eauto. }
    destruct (_ || _); [intros [= <- <- <-]; eapply quiet_step; eauto|].
    destruct (oidc_Login _ _ (mc_sso m)) as [r s]. intros [= <- <- <-].
    eapply quiet_step; eauto. destruct r; auto. }
  case_bool_decide as H2.
  { subst. unfold cmdLogout. destruct (oidc_Logout appCacheSubdir m) as [r m1] eqn:Hl. intros [= <- <- <-].
    split; [|apply silent; destruct r; auto]. destruct r as [[]|e].
    - intros dir slug b c Hd _ Hb _. by rewrite (law_cleared laws _ _ _ _ Hl Hd) in Hb.
    - eapply cache_earned_snoc; [done| |by eapply (law_logout laws)]. by intros [_ ?]. }
  case_bool_decide as H3; [subst; by apply get_step|].
  destruct (str_contains _ cmd); intros [= <- <- <-]; (split; [by eapply cache_earned_snoc; auto|]).
  - split_and!; [auto|done|]. intros c Hc. by apply list_elem_of_singleton in Hc.
  - apply silent; auto.
Qed.

Lemma runs_justified ivs : ∀ hist m before x after,
  (∀ iv slug, iv ∈ ivs → asks_for iv slug → slug ∈ slugs) → cache_earned hist m →
  helper_runs ivs m = before ++ x :: after → justified (hist ++ before) x.
Proof.
  induction ivs as [|iv0 ivs IH]; intros hist m before x after Hslugs Hm H; [by destruct before|].
  cbn in H. destruct (helper_main iv0 m) as [[code0 out0] m1] eqn:Hmain.
  destruct (helper_step hist iv0 m code0 out0 m1) as [Hm1 Hj]; [|done..|].
  { intros slug. apply Hslugs. left. }
  destruct before as [|y before]; cbn in H.
  { simplify_eq. by rewrite app_nil_r. }
  injection H as <- Hrest. rewrite cons_middle, app_assoc. eapply IH; [|done|done].
  intros iv' slug ?. apply Hslugs. by right.
Qed.

End laws.

(** From an empty cache. *)
Lemma helper_justified ivs s before x after :
  client_laws → kept_apart (roles_named ivs) →
  helper_runs ivs (mkMachine s ∅) = before ++ x :: after → justified before x.
Proof.
  intros laws apart. set (slugs := roles_named ivs) in apart.
  assert (Hslugs : ∀ iv slug, iv ∈ ivs → asks_for iv slug → slug ∈ slugs).
  { intros iv' slug Hiv (args & fs & Hargs & Hfs & <-). apply list_elem_of_omap. exists iv'.
    by rewrite Hargs; cbn [tail]; rewrite Hfs. }
  assert (Hm : cache_earned slugs [] (mkMachine s ∅)) by (intros ? ? ? ? _ _ H; cbn in H; by rewrite lookup_empty in H).
  intros H. by eapply (runs_justified laws slugs apart ivs []).
Qed.

(** C23: the helper hands out only what the issuer granted for the role.  Over
    any sequence of invocations, whatever their arguments, clocks and network,
    on a machine whose cache starts empty: an invocation exits with 0, 1 or 2
    and prints nothing unless with 0; and if it prints credentials, these are
    all it prints, and the issuer's [/aws/credentials] granted them for the
    very role it names, either to this invocation or, with a minute still to
    live, to an earlier one since which no sign-out succeeded.  The issuer is the
    one the sign-in state of that invocation is configured for, and it granted
    them to the access token [oidcclient] handed out for that state
    ([signed_in]).

    Assumed are the laws of [oidcclient] and [encoding/json] ([client_laws]), and
    that the role names used are kept in different cache files ([kept_apart]):
    two names that [SafeFilename] maps to one file would share its content. *)
Theorem helper_prints_granted ivs s before x after :
  client_laws → kept_apart (roles_named ivs) →
  helper_runs ivs (mkMachine s ∅) = before ++ x :: after → justified before x.
Proof. apply helper_justified. Qed.

End helper.

(** ** A client and a morning's work *)

(** Any injective text serves as the JSON of the credentials; these are the
    bits of their code. *)
#[export] Instance creds_eq_dec : EqDecision awsCredentialsResponse.
Proof. solve_decision. Defined.

#[export] Instance creds_countable : Countable awsCredentialsResponse.
Proof.
  refine (inj_countable' (λ c, (acr_Version c, acr_AccessKeyID c, acr_SecretAccessKey c, acr_SessionToken c, acr_Expiration c))
    (λ '(v, a, s, t, e), mkCreds v a s t e) _). by intros [].
Defined.

Fixpoint bits (p : positive) : string :=
  match p with xH => "." | xO p => String "0" (bits p) | xI p => String "1" (bits p) end.
Fixpoint of_bits (s : string) : option positive :=
  match s with
  | EmptyString => None
  | String a s =>
      if Ascii.eqb a "0" then xO <$> of_bits s
      else if Ascii.eqb a "1" then xI <$> of_bits s
      else if bool_decide (s = "") then Some xH else None
  end.

Lemma of_bits_bits p : of_bits (bits p) = Some p.
Proof. induction p as [p IH|p IH|]; cbn; by rewrite ?IH. Qed.

(** A text cut short is not a text. *)
Lemma of_bits_take p : ∀ n q, of_bits (str_take n (bits p)) = Some q → q = p.
Proof.
  induction p as [p IH|p IH|]; intros [|n] q H; cbn in H; try done.
  - apply fmap_Some in H as (q' & Hq & ->). by rewrite (IH n q').
  - apply fmap_Some in H as (q' & Hq & ->). by rewrite (IH n q').
  - destruct n; cbn in H; (rewrite bool_decide_eq_true_2 in H by done); by simplify_eq.
Qed.

#[export] Instance fx_oidc : OidcClient (option oidc_Config) := {|
  oidc_Login cfg _ _ := (Ok tt, Some cfg);
  oidc_LoadConfig s := match s with Some cfg => Ok cfg | None => Err ErrNotFound end;
  oidc_EnsureFreshTokens _ _ s := (Ok "acc", s);
  oidc_Logout _ m := (Ok tt, mkMachine (mc_sso m) ∅);
  oidc_AppCacheDir sub := Ok ("/home/user/.config/auth-sso/" +:+ sub);
  oidc_SafeFilename slug := slug;
  creds_Unmarshal b := match p ← of_bits b; countable.decode p with Some c => Ok c | None => Err ErrOther end;
  creds_MarshalIndent c := Ok (bits (countable.encode c));
|}.

Lemma fx_oidc_laws : client_laws.
Proof.
  split; cbn.
  - intros _ c b _ [= <-]. rewrite of_bits_bits. cbn [mbind option_bind]. by rewrite decode_encode.
  - intros m r m' [= <- <-]. cbn. apply map_empty_subseteq.
  - by intros m m' dir slug [= <-] _.
Qed.

Definition fx_creds : awsCredentialsResponse := mkCreds 1 "AKIA" "secret" "session" (3600 * Second).

(** A network that grants the credentials to the right question. *)
Definition fx_online (r : HTTPRequest) : result HTTPResponse :=
  if bool_decide (hr_URL r = "https://id.example.com/aws/credentials") && bool_decide (hr_Bearer r = "acc")
  then Ok (mkHTTPResponse 200 (bits (countable.encode fx_creds))) else Err ErrOther.

Definition fx_call (args : list string) (now : Z) (online : bool) : invocation :=
  mkInvocation args now (λ r, if online then fx_online r else Err ErrOther) (Ok tt) Done.

(** Sign in, fetch, use the cache until a minute before the end, sign out. *)
Definition fx_morning : list invocation :=
  [fx_call ["login"; "--issuer"; "https://id.example.com/"; "--client-id=cli"] 0 true;
   fx_call ["get"; "--role"; "prod"] (10 * Second) true;
   fx_call ["get"; "--audience=prod"] (3540 * Second) false;
   fx_call ["get"; "--role"; "prod"] (3541 * Second) false;
   fx_call ["logout"] (20 * Second) false;
   fx_call ["get"; "--role"; "prod"] (30 * Second) false;
   fx_call ["get"] (30 * Second) true].

Definition fx_signed_in : option oidc_Config := Some (mkOidcConfig "https://id.example.com/" "cli").

Lemma helper_prints_granted_witness :
  (λ x, (rn_code x, rn_out x)) <$> helper_runs fx_morning (mkMachine None ∅) =
    [(0, []); (0, [Printed fx_creds]); (0, [Printed fx_creds]); (1, []); (0, []); (1, []); (2, [])] ∧
  justified (take 2 (helper_runs fx_morning (mkMachine None ∅)))
    (mkRan (fx_call ["get"; "--audience=prod"] (3540 * Second) false) fx_signed_in 0 [Printed fx_creds]).
Proof.
  split; [vm_compute; reflexivity|].
  refine (helper_prints_granted fx_morning None (take 2 (helper_runs fx_morning (mkMachine None ∅))) _
    (drop 3 (helper_runs fx_morning (mkMachine None ∅))) fx_oidc_laws _ _).
  - intros dir s s' [= <-] Hs Hs' Hpath.
    change (s ∈ ["prod"; "prod"; "prod"; ""; "prod"; ""]) in Hs.
    change (s' ∈ ["prod"; "prod"; "prod"; ""; "prod"; ""]) in Hs'.
    rewrite !elem_of_cons, elem_of_nil in Hs, Hs'.
    destruct_or!; subst; try done; vm_compute in Hpath; discriminate Hpath.
  - vm_compute. reflexivity.
Defined.
