(* ===== verification/Mfa.v ===== *)
(** * Time-based one-time passwords

    [internal/mfa/totp.go], the second factor's life cycle: enrolment stores a
    disabled credential with a fresh secret, confirmation enables it after a
    first valid code, verification accepts codes of an enabled credential
    only; and the bearer endpoints of [internal/api/mfa_api.go] over it.  Key
    generation, envelope encryption and the code check itself are calls
    outside the repository. *)
From S2P Require Import Prelude GoStrings GoNet Model Dialect Policy Tables SqliteUsers SqliteTokens SqliteAws Store Pkce Prog.
From S2P Require Import SingleUse Server Provision Awsfed Fixture.

Local Open Scope Z_scope.
Local Open Scope prog_scope.

Record TOTPEnrollResponse : Type := mkTOTPEnrollResponse {
  ter_CredentialID : uuid;
  ter_Secret : string;
  ter_OTPURI : string;
}.

Definition decryptTOTPSecret (cred : TOTPCredential) : prog (result string) :=
  do_op (OpDecrypt (totp_EncryptedDEK cred) (totp_EncryptedSecret cred)).

Definition validateTOTP (secret code : string) : prog bool := do_op (OpValidateTOTP secret code).

Definition EnrollTOTP (user : User) : prog (result TOTPEnrollResponse) :=
  try key <- do_op (OpTOTPKey (u_Email user)) else e => Ret (Err e);;
  try enc <- do_op (OpEncrypt key.1) else e => Ret (Err e);;
  db (QDeleteTOTP (u_ID user));;;
  id <- newUUID;;
  try _u <- db (QCreateTOTPCredential
      {| totp_ID := id; totp_UserID := u_ID user; totp_EncryptedSecret := enc.1;
         totp_EncryptedDEK := enc.2; totp_Enabled := false; totp_CreatedAt := 0 |})
    else e => Ret (Err e);;
  Ret (Ok (mkTOTPEnrollResponse id key.1 key.2)).

Definition ConfirmTOTP (userID : uuid) (code : string) : prog (result unit) :=
  try cred <- db (QGetTOTPByUserID userID) else e => Ret (Err e);;
  try sec <- decryptTOTPSecret cred else e => Ret (Err e);;
  ok <- validateTOTP sec code;;
  if ok then db (QEnableTOTP (totp_ID cred)) else Ret (Err ErrOther).

Definition VerifyTOTP (userID : uuid) (code : string) : prog (result unit) :=
  try cred <- db (QGetTOTPByUserID userID) else e => Ret (Err e);;
  when negb (totp_Enabled cred) return Ret (Err ErrOther);;
  try sec <- decryptTOTPSecret cred else e => Ret (Err e);;
  ok <- validateTOTP sec code;;
  Ret (if ok then Ok tt else Err ErrOther).

#[global] Arguments VerifyTOTP : simpl never.
#[global] Arguments ConfirmTOTP : simpl never.
#[global] Arguments EnrollTOTP : simpl never.

(** ** mfa_api.go, behind [bearerAuth] *)

Section handlers.
  Context `{U : UnicodeTables} {dialect : Dialect} `{X : Externals}.

Definition handleTOTPEnroll (sess : Session) (r : Request) : prog Response :=
  try user <- db (QGetUserByID (s_UserID sess)) else _e =>
    Ret (writeError StatusInternalServerError "server_error" "user not found");;
  try resp <- EnrollTOTP user else _e =>
    Ret (writeError StatusInternalServerError "server_error" "enrollment failed");;
  Ret (writeJSON StatusOK [("credential_id", JStr (uuid_String (ter_CredentialID resp)));
                           ("secret", JStr (ter_Secret resp)); ("otp_uri", JStr (ter_OTPURI resp))]).

(** The [code] field of a JSON body. *)
Definition json_code (r : Request) : string :=
  match rq_JSON r with Some f => jb_Str f "code" | None => "" end.

(** The message of the 400 is the error's text, here by kind. *)
Definition handleTOTPConfirm (sess : Session) (r : Request) : prog Response :=
  when bool_decide (json_code r = "") return
    Ret (writeError StatusBadRequest "invalid_request" "code required");;
  try _u <- ConfirmTOTP (s_UserID sess) (json_code r) else _e =>
    Ret (writeError StatusBadRequest "invalid_code" "invalid TOTP code");;
  db (QUpdateUserMFAEnabled (s_UserID sess) true);;;
  try _u <- logAudit r ActionMFATOTPEnrolled (Some (s_UserID sess)) None [] else e => Ret (auditFail (err_Error e));;
  Ret (mkResponse StatusNoContent [] NoBody).

Definition handleTOTPVerify (sess : Session) (r : Request) : prog Response :=
  when bool_decide (json_code r = "") return
    Ret (writeError StatusBadRequest "invalid_request" "code required");;
  try _u <- VerifyTOTP (s_UserID sess) (json_code r) else _e =>
    Ret (writeError StatusBadRequest "invalid_code" "invalid TOTP code");;
  t <- now;;
  db (QUpdateSessionActivity (s_ID sess) t);;;
  Ret (writeJSON StatusOK [("verified", JBool true)]).

Definition handleTOTPDelete (sess : Session) (r : Request) : prog Response :=
  try _u <- logAudit r ActionMFATOTPDeleted (Some (s_UserID sess)) None [] else e => Ret (auditFail (err_Error e));;
  deleted <- db (QDeleteTOTP (s_UserID sess));;
  let gone := db (QUpdateUserMFAEnabled (s_UserID sess) false);;; Ret (mkResponse StatusNoContent [] NoBody) in
  match deleted with
  | Ok _ | Err ErrNotFound => gone
  | Err _ => Ret (writeError StatusInternalServerError "server_error" "delete failed")
  end.

End handlers.

(** ** Properties *)

(** A code is accepted only against the decrypted secret of a credential of
    the user that is enabled; verification changes nothing. *)
Lemma VerifyTOTP_path uid code tr x :
  path (VerifyTOTP uid code) tr x →
  Forall (λ e, writes e = false) tr ∧
  (x = Ok tt → ∃ cred sec,
     totp_Enabled cred = true ∧
     tr = [Ev (OpDb (QGetTOTPByUserID uid)) (Ok cred);
           Ev (OpDecrypt (totp_EncryptedDEK cred) (totp_EncryptedSecret cred)) (Ok sec);
           Ev (OpValidateTOTP sec code) true]).
Proof.
  unfold VerifyTOTP. intros H.
  path_step H. path_step H; [|path_step H; subst; split; [by repeat constructor|done]].
  path_step H; [path_step H; subst; split; [by repeat constructor|done]|].
  unfold decryptTOTPSecret, validateTOTP in H. path_step H.
  path_step H; [|path_step H; subst; split; [by repeat constructor|done]].
  path_step H. path_step H. subst. apply negb_false_iff in Hb.
  split; [by repeat constructor|]. destruct x0; [|done]. intros _. eauto 10.
Qed.

(** The user's credential is [cred]. *)
Definition holds_totp (uid : uuid) (cred : TOTPCredential) (d : DB) : Prop :=
  unique_on totp_UserID (db_totp_credentials d) ∧ totp_UserID cred = uid ∧
  db_totp_credentials d !! totp_ID cred = Some cred.

Lemma GetTOTP_held uid cred d : holds_totp uid cred d → GetTOTPByUserID uid d = Ok cred.
Proof. intros (Hu & Huid & Hc). unfold GetTOTPByUserID. by rewrite (find_row_unique totp_UserID _ _ _ _ Hu Hc). Qed.

(** Replacing a user's credential always succeeds. *)
Lemma CreateTOTP_after_delete {dialect : Dialect} t d cred row :
  db_wf d → db_users d !! totp_UserID cred = Some row → db_totp_credentials d !! totp_ID cred = None →
  let d0 := (DeleteTOTP (totp_UserID cred) d).2 in
  (CreateTOTPCredential t cred d0).1 = Ok tt ∧
  ∃ cred', holds_totp (totp_UserID cred) cred' (CreateTOTPCredential t cred d0).2 ∧
    totp_ID cred' = totp_ID cred ∧ totp_Enabled cred' = totp_Enabled cred ∧
    totp_EncryptedSecret cred' = totp_EncryptedSecret cred ∧
    totp_EncryptedDEK cred' = totp_EncryptedDEK cred.
Proof.
  intros Hwf Hu Hid d0.
  assert (db_totp_credentials d0 !! totp_ID cred = None) as Hid0
    by (apply map_lookup_filter_None; by left).
  assert (some_row (λ r, bool_decide (totp_UserID r = totp_UserID cred)) (db_totp_credentials d0) = false) as Hno.
  { apply not_true_is_false. unfold some_row. destruct (find_row _ _) eqn:Hf; [|done]. intros _.
    apply find_row_Some in Hf as (i & [_ Hx]%map_lookup_filter_Some & He%bool_decide_eq_true).
    simpl in Hx. rewrite He, bool_decide_true in Hx; done. }
  unfold CreateTOTPCredential. rewrite Hno. unfold has at 1 3.
  rewrite (bool_decide_false (is_Some (db_totp_credentials d0 !! totp_ID cred)))
    by (rewrite Hid0; apply is_Some_None).
  replace (has (db_users d0) (totp_UserID cred)) with true
    by (symmetry; apply bool_decide_eq_true; exists row; exact Hu).
  simpl. split; [done|].
  match goal with |- context [insert _ ?c] => exists c end. split; [|done].
  split; [|split; [done|simpl; by rewrite lookup_insert_eq]].
  apply unique_insert; [apply unique_delete_where, Hwf|exact Hid0|exact Hno].
Qed.

Lemma EnableTOTP_held uid cred d :
  holds_totp uid cred d → holds_totp uid (totp_set_enabled cred) (EnableTOTP (totp_ID cred) d).2.
Proof.
  intros (Hu & Huid & Hc). split_and!; simpl; [by apply unique_alter|done|].
  by rewrite lookup_alter_eq, Hc.
Qed.

(** Verification and confirmation of a held credential. *)
Lemma exec_VerifyTOTP `{UnicodeTables} {dialect : Dialect} env uid cred sec code w :
  reliable env → holds_totp uid cred (w_db w) →
  (∀ n, env_decrypt env n (totp_EncryptedDEK cred) (totp_EncryptedSecret cred) = Ok sec) →
  (exec env (VerifyTOTP uid code) w).1 =
    if totp_Enabled cred then
      if env_totp env (2 + w_step w) sec code then Ok tt else Err ErrOther
    else Err ErrOther.
Proof.
  intros Hr Hh Hd. unfold VerifyTOTP. rewrite exec_db by done. cbn [run_query reading fst snd].
  rewrite (GetTOTP_held _ _ _ Hh). destruct (totp_Enabled cred); [|done].
  simpl. by rewrite Hd.
Qed.

Lemma exec_ConfirmTOTP `{UnicodeTables} {dialect : Dialect} env uid cred sec code w :
  reliable env → holds_totp uid cred (w_db w) →
  (∀ n, env_decrypt env n (totp_EncryptedDEK cred) (totp_EncryptedSecret cred) = Ok sec) →
  let '(x, w') := exec env (ConfirmTOTP uid code) w in
  if env_totp env (2 + w_step w) sec code
  then x = Ok tt ∧ holds_totp uid (totp_set_enabled cred) (w_db w')
  else x = Err ErrOther ∧ w_db w' = w_db w.
Proof.
  intros Hr Hh Hd. unfold ConfirmTOTP. rewrite exec_db by done. cbn [run_query reading fst snd].
  rewrite (GetTOTP_held _ _ _ Hh). simpl. rewrite Hd. simpl.
  destruct (env_totp env _ _ _); simpl; [|done]. rewrite Hr. split; [done|]. by apply EnableTOTP_held.
Qed.

(** A second factor counts only once confirmed.  When nothing fails,
    enrolment answers with a fresh secret and replaces whatever factor the user
    had by a disabled one: no code passes verification.  Confirmation with a
    code that is not valid for the secret changes nothing; with a valid one it
    enables the factor, and verification then accepts exactly the codes valid
    for the enrolled secret. *)
Theorem totp_counts_once_confirmed `{UnicodeTables} {dialect : Dialect} env user row key enc w code code' :
  reliable env → db_wf (w_db w) → db_users (w_db w) !! u_ID user = Some row →
  env_totpkey env (w_step w) (u_Email user) = Ok key →
  env_encrypt env (1 + w_step w) key.1 = Ok enc →
  (∀ n, env_decrypt env n enc.2 enc.1 = Ok key.1) →
  db_totp_credentials (w_db w) !! env_uuid env (3 + w_step w) = None →
  let '(enrolled, w1) := exec env (EnrollTOTP user) w in
  let '(confirmed, w2) := exec env (ConfirmTOTP (u_ID user) code) w1 in
  enrolled = Ok (mkTOTPEnrollResponse (env_uuid env (3 + w_step w)) key.1 key.2) ∧
  (exec env (VerifyTOTP (u_ID user) code') w1).1 = Err ErrOther ∧
  if env_totp env (2 + w_step w1) key.1 code
  then confirmed = Ok tt ∧
       (exec env (VerifyTOTP (u_ID user) code') w2).1 =
         (if env_totp env (2 + w_step w2) key.1 code' then Ok tt else Err ErrOther)
  else confirmed = Err ErrOther ∧ w_db w2 = w_db w1.
Proof.
  intros Hr Hwf Hu Hk He Hd Hid. cbn [Nat.add] in He, Hid. unfold EnrollTOTP. cbn [exec bind do_op step_op]. rewrite Hk.
  cbn [exec bind do_op step_op tick w_step]. rewrite He. rewrite exec_db by done.
  unfold newUUID. cbn [exec bind do_op step_op tick w_step run_query]. rewrite exec_db by done.
  cbn [run_query tick w_step w_db w_journal w_outbox].
  match goal with |- context [CreateTOTPCredential ?t ?c _] =>
    destruct (CreateTOTP_after_delete t (w_db w) c row Hwf Hu Hid)
      as (Hok & cred' & Hh & Hid' & Hen & Hs & Hdek) end.
  cbn [totp_UserID totp_ID totp_Enabled totp_EncryptedSecret totp_EncryptedDEK] in *.
  rewrite Hok. cbn [exec]. 
  match goal with |- context [exec env (ConfirmTOTP _ _) ?w1] => set (wE := w1) in * end.
  rewrite <- Hs, <- Hdek in Hd.
  pose proof (exec_ConfirmTOTP env (u_ID user) cred' key.1 code wE Hr Hh Hd) as Hc.
  destruct (exec env (ConfirmTOTP (u_ID user) code) wE) as [conf w2].
  split; [done|]. split.
  - rewrite (exec_VerifyTOTP env (u_ID user) cred' key.1) by done. by rewrite Hen.
  - destruct (env_totp env _ _ _); [|done]. destruct Hc as [-> Hh2]. split; [done|].
    by rewrite (exec_VerifyTOTP env (u_ID user) (totp_set_enabled cred') key.1).
Qed.

Lemma totp_counts_once_confirmed_witness :
  let '(enrolled, w1) := exec fx_env (EnrollTOTP fx_user) fx_world in
  let '(confirmed, w2) := exec fx_env (ConfirmTOTP 7%N "123456") w1 in
  enrolled = Ok (mkTOTPEnrollResponse 1003%N "123456" "otpauth://totp") ∧
  (exec fx_env (VerifyTOTP 7%N "123456") w1).1 = Err ErrOther ∧
  if env_totp fx_env (2 + w_step w1) "123456" "123456"
  then confirmed = Ok tt ∧
       (exec fx_env (VerifyTOTP 7%N "123456") w2).1 =
         (if env_totp fx_env (2 + w_step w2) "123456" "123456" then Ok tt else Err ErrOther)
  else confirmed = Err ErrOther ∧ w_db w2 = w_db w1.
Proof.
  apply (totp_counts_once_confirmed fx_env fx_user fx_user ("123456", "otpauth://totp")
           ("123456", "dek") fx_world "123456" "123456");
    [exact fx_reliable|exact fx_db_wf|vm_compute; reflexivity|reflexivity|reflexivity|reflexivity
    |vm_compute; reflexivity].
Defined.
