(* ===== verification/Tokens.v ===== *)
(** * The token endpoint

    [POST /token] for the authorization-code, refresh-token and
    client-credentials grants, [POST /revoke] and [GET /userinfo]
    ([internal/api/oauth2.go]; the device-code grant is in [Device]).  Each
    handler is translated whole, every early return included; responses that
    are JSON maps are lists of fields. *)
From S2P Require Import Prelude GoStrings GoNet Model Dialect Policy Tables SqliteUsers SqliteTokens SqliteAws Store Pkce Prog.
From S2P Require Import SingleUse Server Provision Awsfed Fixture.

Local Open Scope Z_scope.
Local Open Scope prog_scope.

Section handlers.
  Context `{U : UnicodeTables} {dialect : Dialect} `{X : Externals}.

(** The session row and the raw tokens of a new bearer session. *)
Definition new_session (id : uuid) (user : User) (client : Client) (scopes : list string)
    (mfaVerified : bool) (mfaVerifiedAt : option Z) (authTime : Z) (access refresh : string) (t : Z)
    : Session :=
  {| s_ID := id; s_UserID := u_ID user; s_ClientID := c_ID client;
     s_AccessTokenHash := HashToken access; s_RefreshTokenHash := HashToken refresh;
     s_Scopes := scopes; s_AccessExpiresAt := t + accessTokenTTL;
     s_RefreshExpiresAt := t + refreshTokenTTL; s_LastActivityAt := 0;
     s_MFAVerified := mfaVerified; s_MFAVerifiedAt := mfaVerifiedAt; s_AuthTime := authTime;
     s_CreatedAt := 0 |}.

(** The ID token that accompanies a session with the [openid] scope; groups
    are looked up when the [groups] scope was granted. *)
Definition mintIDToken (user : User) (client : Client) (sess : Session) (nonce : string)
    : prog (result string) :=
  groups <- (if containsStr (s_Scopes sess) "groups"
             then g <- groupNamesForUser (s_UserID sess);; Ret (match g with Ok g => g | Err _ => [] end)
             else Ret []);;
  at' <- sessionAuthTime sess;;
  do_op (OpMintIDToken
    {| idc_Sub := s_UserID sess; idc_Aud := c_ClientID client; idc_Email := u_Email user;
       idc_Name := u_Name user; idc_Nonce := nonce; idc_Scopes := s_Scopes sess;
       idc_MFA := s_MFAVerified sess; idc_AuthTime := at'; idc_SID := s_ID sess;
       idc_Groups := groups |}).

Definition mintTokenResponseWithMFAAt (user : User) (client : Client) (scopes : list string)
    (mfaVerified : bool) (mfaVerifiedAt : option Z) (authTime : Z) (nonce : string)
    : prog (result (list (string * JVal))) :=
  try rawAccess <- GenerateRawToken else e => Ret (Err e);;
  try rawRefresh <- GenerateRawToken else e => Ret (Err e);;
  t <- now;;
  id <- newUUID;;
  let sess := new_session id user client scopes mfaVerified mfaVerifiedAt authTime rawAccess rawRefresh t in
  try _u <- db (QCreateSession sess) else e => Ret (Err e);;
  let resp := [("access_token", JStr rawAccess); ("token_type", JStr "Bearer");
               ("expires_in", JInt (Seconds accessTokenTTL)); ("refresh_token", JStr rawRefresh);
               ("scope", JStr (Join scopes " "))] in
  if containsStr scopes "openid" then
    try idToken <- mintIDToken user client sess nonce else e => Ret (Err e);;
    Ret (Ok (resp ++ [("id_token", JStr idToken)]))
  else Ret (Ok resp).

Definition handleTokenAuthCode (r : Request) : prog Response :=
  let code := rq_FormValue r "code" in
  let codeVerifier := rq_FormValue r "code_verifier" in
  let redirectURI := rq_FormValue r "redirect_uri" in
  auth <- authenticateClient r;;
  match auth with
  | inl msg => Ret (writeError StatusUnauthorized "invalid_client" msg)
  | inr client =>
  grant <- db (QGetGrantByCodeHash (HashToken code));;
  match grant with
  | Err ErrNotFound => Ret (writeError StatusBadRequest "invalid_grant" "code not found or already used")
  | Err _ => Ret (writeError StatusInternalServerError "server_error" "internal error")
  | Ok grant =>
  when bool_decide (g_UsedAt grant ≠ None) return
    Ret (writeError StatusBadRequest "invalid_grant" "code not found or already used");;
  when bool_decide (g_ClientID grant ≠ c_ID client) return
    Ret (writeError StatusBadRequest "invalid_grant" "client mismatch");;
  when bool_decide (g_RedirectURI grant ≠ redirectURI) return
    Ret (writeError StatusBadRequest "invalid_grant" "redirect_uri mismatch");;
  t <- now;;
  when g_ExpiresAt grant <? t return
    Ret (writeError StatusBadRequest "invalid_grant" "code expired");;
  when negb (verifyPKCE (g_CodeChallenge grant) codeVerifier) return
    Ret (writeError StatusBadRequest "invalid_grant" "PKCE verification failed");;
  marked <- db (QMarkGrantUsed (g_ID grant));;
  match marked with
  | Err ErrNotFound => Ret (writeError StatusBadRequest "invalid_grant" "code not found or already used")
  | Err _ => Ret (writeError StatusInternalServerError "server_error" "internal error")
  | Ok _ =>
  try user <- db (QGetUserByID (g_UserID grant)) else _e =>
    Ret (writeError StatusInternalServerError "server_error" "user not found");;
  try resp <- mintTokenResponseWithMFAAt user client (g_Scopes grant)
                (bool_decide (g_MFAVerifiedAt grant ≠ None)) (g_MFAVerifiedAt grant) (g_AuthTime grant)
                (g_Nonce grant) else _e =>
    Ret (writeError StatusInternalServerError "server_error" "token issuance failed");;
  try _u <- logAudit r ActionTokenIssued (Some (u_ID user)) (Some (c_ID client))
              [("scopes", MStrs (g_Scopes grant))] else e => Ret (auditFail (err_Error e));;
  Ret (writeJSON StatusOK resp)
  end end end.

(** The response written, or [None] when the token is simply unknown. *)
Definition revokeOnRefreshReuse (r : Request) (client : Client) (rawRefresh : string)
    : prog (option Response) :=
  sess <- db (QGetSessionByRetiredRefreshTokenHash (HashToken rawRefresh));;
  match sess with
  | Err ErrNotFound => Ret None
  | Err _ => Ret (Some (writeError StatusInternalServerError "server_error" "internal error"))
  | Ok sess =>
  when bool_decide (s_ClientID sess ≠ c_ID client) return Ret None;;
  try _u <- db (QDeleteSession (s_ID sess)) else _e =>
    Ret (Some (writeError StatusInternalServerError "server_error" "internal error"));;
  let userID := if bool_decide (s_UserID sess = uuid_nil) then None else Some (s_UserID sess) in
  try _u <- logAudit r ActionTokenReuseDetected userID (Some (c_ID client))
              [("session_id", MStr (uuid_String (s_ID sess)))] else e => Ret (Some (auditFail (err_Error e)));;
  Ret (Some (writeError StatusBadRequest "invalid_grant" "refresh token not found"))
  end.

(** [if !s.revokeOnRefreshReuse(...) { writeError(...) }; return] *)
Definition refresh_unknown (r : Request) (client : Client) (rawRefresh : string) : prog Response :=
  wrote <- revokeOnRefreshReuse r client rawRefresh;;
  Ret (match wrote with
       | Some resp => resp
       | None => writeError StatusBadRequest "invalid_grant" "refresh token not found"
       end).

Definition handleTokenRefresh (r : Request) : prog Response :=
  let rawRefresh := rq_FormValue r "refresh_token" in
  auth <- authenticateClient r;;
  match auth with
  | inl msg => Ret (writeError StatusUnauthorized "invalid_client" msg)
  | inr client =>
  sess <- db (QGetSessionByRefreshTokenHash (HashToken rawRefresh));;
  match sess with
  | Err ErrNotFound => refresh_unknown r client rawRefresh
  | Err _ => Ret (writeError StatusInternalServerError "server_error" "internal error")
  | Ok sess =>
  when bool_decide (s_ClientID sess ≠ c_ID client) return
    Ret (writeError StatusBadRequest "invalid_grant" "client mismatch");;
  t <- now;;
  when s_RefreshExpiresAt sess <? t return
    Ret (writeError StatusBadRequest "invalid_grant" "refresh token expired");;
  when s_CreatedAt sess + absoluteSessionTTL <? t return
    Ret (writeError StatusBadRequest "invalid_grant" "session age cap exceeded; re-authenticate");;
  try user <- db (QGetUserByID (s_UserID sess)) else _e =>
    Ret (writeError StatusInternalServerError "server_error" "user not found");;
  try newAccess <- GenerateRawToken else _e =>
    Ret (writeError StatusInternalServerError "server_error" "token generation failed");;
  try newRefresh <- GenerateRawToken else _e =>
    Ret (writeError StatusInternalServerError "server_error" "token generation failed");;
  let newAccessExp := capByAbsolute (t + accessTokenTTL) (s_CreatedAt sess) in
  let newRefreshExp := capByAbsolute (t + refreshTokenTTL) (s_CreatedAt sess) in
  rotated <- db (QRotateRefreshToken (s_ID sess) (HashToken rawRefresh) (HashToken newAccess)
                   (HashToken newRefresh) newAccessExp newRefreshExp);;
  match rotated with
  | Err ErrNotFound => refresh_unknown r client rawRefresh
  | Err _ => Ret (writeError StatusInternalServerError "server_error" "internal error")
  | Ok _ =>
  try idToken <- (if containsStr (s_Scopes sess) "openid" then mintIDToken user client sess ""
                  else Ret (Ok "")) else _e =>
    Ret (writeError StatusInternalServerError "server_error" "id token failed");;
  t' <- now;;
  let resp := [("access_token", JStr newAccess); ("token_type", JStr "Bearer");
               ("expires_in", JInt (Seconds (time_Sub newAccessExp t')));
               ("refresh_token", JStr newRefresh); ("scope", JStr (Join (s_Scopes sess) " "))]
              ++ if bool_decide (idToken = "") then [] else [("id_token", JStr idToken)] in
  try _u <- logAudit r ActionTokenRefreshed (Some (s_UserID sess)) (Some (s_ClientID sess)) []
    else e => Ret (auditFail (err_Error e));;
  Ret (writeJSON StatusOK resp)
  end end end.

(** The refresh credential of a machine session is a placeholder the client
    never sees. *)
Definition handleTokenClientCreds (r : Request) : prog Response :=
  auth <- authenticateClient r;;
  match auth with
  | inl msg => Ret (writeError StatusUnauthorized "invalid_client" msg)
  | inr client =>
  when c_Public client return
    Ret (writeError StatusUnauthorized "invalid_client" "public clients cannot use client_credentials");;
  try rawAccess <- GenerateRawToken else _e =>
    Ret (writeError StatusInternalServerError "server_error" "token generation failed");;
  try rawRefresh <- GenerateRawToken else _e =>
    Ret (writeError StatusInternalServerError "server_error" "token generation failed");;
  let scopes := splitScopes (rq_FormValue r "scope") in
  let bad := unregisteredScope client scopes in
  when bool_decide (bad ≠ "") return
    Ret (writeError StatusBadRequest "invalid_scope" ("scope not registered for this client: " +:+ bad));;
  t <- now;;
  id <- newUUID;;
  let sess := {| s_ID := id; s_UserID := uuid_nil; s_ClientID := c_ID client;
                 s_AccessTokenHash := HashToken rawAccess; s_RefreshTokenHash := HashToken rawRefresh;
                 s_Scopes := scopes; s_AccessExpiresAt := t + accessTokenTTL;
                 s_RefreshExpiresAt := t + refreshTokenTTL; s_LastActivityAt := 0;
                 s_MFAVerified := false; s_MFAVerifiedAt := None; s_AuthTime := 0; s_CreatedAt := 0 |} in
  try _u <- db (QCreateSession sess) else _e =>
    Ret (writeError StatusInternalServerError "server_error" "internal error");;
  try _u <- logAudit r ActionTokenIssued None (Some (c_ID client))
              [("grant_type", MStr "client_credentials")] else e => Ret (auditFail (err_Error e));;
  Ret (writeJSON StatusOK [("access_token", JStr rawAccess); ("token_type", JStr "Bearer");
                           ("expires_in", JInt (Seconds accessTokenTTL));
                           ("scope", JStr (Join scopes " "))])
  end.

(** Behind [bearerAuth]. *)
Definition handleUserInfo (sess : Session) (r : Request) : prog Response :=
  when bool_decide (s_UserID sess = uuid_nil) return
    Ret (writeError StatusForbidden "insufficient_scope"
           "userinfo is not available for client_credentials tokens");;
  try user <- db (QGetUserByID (s_UserID sess)) else _e =>
    Ret (writeError StatusInternalServerError "server_error" "user not found");;
  Ret (writeJSON StatusOK
    ([("sub", JStr (uuid_String (s_UserID sess))); ("email", JStr (u_Email user));
      ("preferred_username", JStr (u_Email user))]
     ++ if containsStr (s_Scopes sess) "profile" then [("name", JStr (u_Name user))] else [])).

(** Audit first, then delete: the body of both branches of [handleRevoke]. *)
Definition revoke_session (r : Request) (sess : Session) : prog Response :=
  try _u <- logAudit r ActionTokenRevoked (Some (s_UserID sess)) (Some (s_ClientID sess)) []
    else e => Ret (auditFail (err_Error e));;
  _d <- db (QDeleteSession (s_ID sess));;
  Ret (mkResponse StatusOK [] NoBody).

Definition handleRevoke (r : Request) : prog Response :=
  let token := rq_FormValue r "token" in
  when bool_decide (token = "") return Ret (mkResponse StatusOK [] NoBody);;
  let hash := HashToken token in
  sess <- db (QGetSessionByAccessTokenHash hash);;
  match sess with
  | Ok sess => revoke_session r sess
  | Err _ =>
      sess <- db (QGetSessionByRefreshTokenHash hash);;
      match sess with
      | Ok sess => revoke_session r sess
      | Err _ => Ret (mkResponse StatusOK [] NoBody)
      end
  end.

End handlers.

#[global] Arguments mintIDToken : simpl never.
#[global] Arguments mintTokenResponseWithMFAAt : simpl never.
#[global] Arguments revokeOnRefreshReuse : simpl never.
#[global] Arguments refresh_unknown : simpl never.

Section tokens.
  Context `{U : UnicodeTables} {dialect : Dialect} `{X : Externals}.

(** Minting an ID token only reads. *)
Lemma mintIDToken_path user client sess nonce tr x :
  path (mintIDToken user client sess nonce) tr x → Forall (λ e, writes e = false) tr.
Proof.
  unfold mintIDToken. intros H. path_call H. path_call H. apply sessionAuthTime_path in Hcall0.
  path_step H. path_step H. subst. rewrite !Forall_app. split_and!; [|done|by repeat constructor].
  path_step Hcall; [|path_step Hcall; subst; constructor].
  path_call Hcall. apply groupNamesForUser_path in Hcall1. path_step Hcall. subst. by rewrite app_nil_r.
Qed.

Lemma mint_or_empty_path (b : bool) user client sess nonce tr x :
  path (if b then mintIDToken user client sess nonce else Ret (Ok "")) tr x →
  Forall (λ e, writes e = false) tr.
Proof. destruct b; [apply mintIDToken_path|by intros [-> _]]. Qed.

(** A successful mint stored the session it answers for; a mint never touches
    a code, a device grant or another session. *)
Lemma mint_path user client scopes mfa mfaAt authTime nonce tr resp :
  path (mintTokenResponseWithMFAAt user client scopes mfa mfaAt authTime nonce) tr (Ok resp) →
  ∃ tr1 tr2 id access refresh t,
    tr = tr1 ++ Ev (OpDb (QCreateSession
           (new_session id user client scopes mfa mfaAt authTime access refresh t))) (Ok tt) :: tr2 ∧
    Forall (λ e, writes e = false) tr1 ∧ Forall (λ e, writes e = false) tr2.
Proof.
  unfold mintTokenResponseWithMFAAt. intros H. path_step H. path_step H; [|by repeat path_step H].
  path_step H. path_step H; [|by repeat path_step H]. path_step H. path_step H. path_step H.
  path_step H; [|by repeat path_step H]. destruct_unit.
  eexists [_; _; _; _], _, _, _, _, _. split; [reflexivity|]. split; [by repeat constructor|].
  path_step H; [|path_step H; subst; constructor].
  path_call H. apply mintIDToken_path in Hcall.
  apply Forall_app. split; [done|]. path_step H; path_step H; subst; constructor.
Qed.

(** What a successful redemption of an authorization code consists of: the
    checks, and the calls in the order they were made. *)
Record redemption (r : Request) (client : Client) (grant : Grant) (user : User) (tr : list event) : Prop := {
  rd_client : Ev (OpDb (QGetClientByClientID (clientCredentials r).1)) (Ok client) ∈ tr;
  rd_secret : authenticated client (clientCredentials r).2;
  rd_unused : g_UsedAt grant = None;
  rd_client_id : g_ClientID grant = c_ID client;
  rd_redirect : g_RedirectURI grant = rq_FormValue r "redirect_uri";
  rd_pkce : verifyPKCE (g_CodeChallenge grant) (rq_FormValue r "code_verifier") = true;
  rd_calls : ∃ t id access refresh ts e,
    t ≤ g_ExpiresAt grant ∧
    ent_Action e = ActionTokenIssued ∧ ent_UserID e = Some (u_ID user) ∧
    ent_ClientID e = Some (c_ID client) ∧
    [Ev (OpDb (QGetGrantByCodeHash (HashToken (rq_FormValue r "code")))) (Ok grant);
     Ev OpNow t;
     Ev (OpDb (QMarkGrantUsed (g_ID grant))) (Ok tt);
     Ev (OpDb (QGetUserByID (g_UserID grant))) (Ok user);
     Ev (OpDb (QCreateSession (new_session id user client (g_Scopes grant)
          (bool_decide (g_MFAVerifiedAt grant ≠ None)) (g_MFAVerifiedAt grant) (g_AuthTime grant)
          access refresh ts))) (Ok tt);
     Ev (OpAppend e) (Ok tt)] `sublist_of` tr ∧
    writing tr =
      [Ev (OpDb (QMarkGrantUsed (g_ID grant))) (Ok tt);
       Ev (OpDb (QCreateSession (new_session id user client (g_Scopes grant)
          (bool_decide (g_MFAVerifiedAt grant ≠ None)) (g_MFAVerifiedAt grant) (g_AuthTime grant)
          access refresh ts))) (Ok tt)];
}.

Lemma handleTokenAuthCode_ok r tr resp :
  path (handleTokenAuthCode r) tr resp → rs_Status resp = StatusOK →
  ∃ client grant user, redemption r client grant user tr.
Proof.
  unfold handleTokenAuthCode. intros H Hst. path_call H.
  apply authenticateClient_path in Hcall as (res & -> & Hauth).
  path_step H; [by path_step H; subst|]. destruct (Hauth _ eq_refl) as [-> Hsec].
  path_step H. path_step H; [|path_step H; by path_step H; subst].
  path_step H; [by path_step H; subst|]. path_step H; [by path_step H; subst|].
  path_step H; [by path_step H; subst|]. path_step H. path_step H; [by path_step H; subst|].
  path_step H; [by path_step H; subst|]. path_step H.
  path_step H; [|path_step H; by path_step H; subst]. destruct_unit.
  path_step H. path_step H; [|by path_step H; subst].
  path_call H. path_step H; [|by path_step H; subst].
  apply mint_path in Hcall as (tra & trb & id & acc & ref & ts & -> & Hra & Hrb).
  path_call H. path_step H; [|by path_step H; subst]. destruct_unit.
  apply logAudit_path in Hcall as (tr0' & e & -> & Hra' & He1 & He2 & He3 & _). path_step H.
  repeat match goal with
  | H : bool_decide _ = false |- _ => apply bool_decide_eq_false, dec_stable in H
  | H : negb _ = false |- _ => apply negb_false_iff in H
  | H : (_ <? _) = false |- _ => apply Z.ltb_ge in H
  end.
  eexists _, _, _. constructor; [by left|done..|].
  exists t, id, acc, ref, ts, e. split_and!; [done..|in_trace|]. subst. solve_writing.
Qed.

(** A successful redemption marked the grant its code hash found. *)
Lemma handleTokenAuthCode_marks r tr resp id :
  path (handleTokenAuthCode r) tr resp → rs_Status resp = StatusOK →
  Forall (finds_only id (HashToken (rq_FormValue r "code"))) tr →
  ∃ e, e ∈ tr ∧ on_success (marks_grant id) e = true.
Proof.
  intros Hp Hok Hf. destruct (handleTokenAuthCode_ok _ _ _ Hp Hok) as (client & grant & user & []).
  destruct rd_calls0 as (? & ? & ? & ? & ? & ? & _ & _ & _ & _ & Hs & _).
  eexists. split; [eapply elem_of_sublist; [|exact Hs]; do 2 right; left|].
  assert (g_ID grant = id) as <-.
  { rewrite Forall_forall in Hf. eapply (Hf (Ev (OpDb (QGetGrantByCodeHash _)) (Ok grant))); [|done..].
    apply list_elem_of_In. eapply elem_of_sublist; [|exact Hs]. by left. }
  simpl. by rewrite bool_decide_true.
Qed.

(** C1: an authorization code is redeemed at most once.  Take any number of
    concurrent handlers on a well-formed database, in any interleaving, with
    any failures of store calls before or after they take effect.  Of the
    [/token] requests that present the code of an existing grant, at most one
    is answered with tokens, provided no other grant with the same identifier
    or code hash is inserted meanwhile. *)
Theorem code_redeemed_at_most_once env sched (c : pool Response) id row i j ri rj a b :
  db_wf (w_db (p_world c)) → p_log c = [] →
  db_grants (w_db (p_world c)) !! id = Some row →
  p_threads c !! i = Some (handleTokenAuthCode ri) →
  p_threads c !! j = Some (handleTokenAuthCode rj) → i ≠ j →
  HashToken (rq_FormValue ri "code") = gr_code_hash row →
  HashToken (rq_FormValue rj "code") = gr_code_hash row →
  count_events (on_query (inserts_code (gr_code_hash row))) (p_log (run_pool env sched c)) = O →
  count_events (on_query (creates_grant id)) (p_log (run_pool env sched c)) = O →
  p_threads (run_pool env sched c) !! i = Some (Ret a) →
  p_threads (run_pool env sched c) !! j = Some (Ret b) →
  ¬ (rs_Status a = StatusOK ∧ rs_Status b = StatusOK).
Proof.
  intros Hwf Hl Hrow Hi Hj Hij Hci Hcj Hins Hcr Hai Hbj [Ha Hb].
  pose proof (code_lookups env sched c id (gr_code_hash row) Hwf Hl
    (only_code_unique _ _ _ _ Hwf Hrow eq_refl) Hins) as Hf.
  assert (∀ k, Forall (finds_only id (gr_code_hash row)) (thread_log k (p_log (run_pool env sched c)))) as Hk.
  { intros k. apply Forall_forall. intros e He%list_elem_of_In%elem_thread_log. by eapply Hf. }
  destruct (handleTokenAuthCode_marks ri _ a id (run_pool_path env sched c i _ a Hi Hl Hai) Ha) as (e1 & He1 & Hm1);
    [by rewrite Hci|].
  destruct (handleTokenAuthCode_marks rj _ b id (run_pool_path env sched c j _ b Hj Hl Hbj) Hb) as (e2 & He2 & Hm2);
    [by rewrite Hcj|].
  pose proof (count_two_threads _ _ i j e1 e2 Hij He1 He2 Hm1 Hm2).
  pose proof (one_shot_count _ _ _ env sched c (grants_one_shot id) Hl) as Hle.
  rewrite Hcr in Hle. destruct (grant_unused _ _); simpl in Hle; lia.
Qed.

(** ** Refresh tokens *)

(** A successful exchange: the session was found by the presented token, is the
    client's, not past its refresh expiry nor its absolute lifetime, and was
    rotated to expiries within that lifetime. *)
Record exchange (r : Request) (client : Client) (sess : Session) (t : Z) (tr : list event) : Prop := {
  ex_client : Ev (OpDb (QGetClientByClientID (clientCredentials r).1)) (Ok client) ∈ tr;
  ex_secret : authenticated client (clientCredentials r).2;
  ex_client_id : s_ClientID sess = c_ID client;
  ex_refresh_live : t ≤ s_RefreshExpiresAt sess;
  ex_session_live : t ≤ s_CreatedAt sess + absoluteSessionTTL;
  ex_calls : ∃ access refresh e,
    ent_Action e = ActionTokenRefreshed ∧
    [Ev (OpDb (QGetSessionByRefreshTokenHash (HashToken (rq_FormValue r "refresh_token")))) (Ok sess);
     Ev OpNow t;
     Ev (OpDb (QRotateRefreshToken (s_ID sess) (HashToken (rq_FormValue r "refresh_token"))
          (HashToken access) (HashToken refresh)
          (capByAbsolute (t + accessTokenTTL) (s_CreatedAt sess))
          (capByAbsolute (t + refreshTokenTTL) (s_CreatedAt sess)))) (Ok tt);
     Ev (OpAppend e) (Ok tt)] `sublist_of` tr ∧
    writing tr =
      [Ev (OpDb (QRotateRefreshToken (s_ID sess) (HashToken (rq_FormValue r "refresh_token"))
          (HashToken access) (HashToken refresh)
          (capByAbsolute (t + accessTokenTTL) (s_CreatedAt sess))
          (capByAbsolute (t + refreshTokenTTL) (s_CreatedAt sess)))) (Ok tt)];
}.

(** The answers of the two branches for an unknown token are errors. *)
Lemma refresh_unknown_fails r client tok tr resp :
  path (refresh_unknown r client tok) tr resp → rs_Status resp ≠ StatusOK.
Proof.
  unfold refresh_unknown. intros H. path_call H. path_step H.
  unfold revokeOnRefreshReuse in Hcall. path_step Hcall. path_step Hcall;
    [|path_step Hcall; path_step Hcall; by subst].
  path_step Hcall; [path_step Hcall; by subst|].
  path_step Hcall. path_step Hcall; [|path_step Hcall; by subst].
  path_call Hcall. path_step Hcall; path_step Hcall; by subst.
Qed.

Lemma handleTokenRefresh_ok r tr resp :
  path (handleTokenRefresh r) tr resp → rs_Status resp = StatusOK →
  ∃ client sess t, exchange r client sess t tr.
Proof.
  unfold handleTokenRefresh. intros H Hst. path_call H.
  apply authenticateClient_path in Hcall as (res & -> & Hauth).
  path_step H; [by path_step H; subst|]. destruct (Hauth _ eq_refl) as [-> Hsec].
  path_step H. path_step H;
    [|path_step H; try (by path_step H; subst); by apply refresh_unknown_fails in H].
  path_step H; [by path_step H; subst|]. path_step H. path_step H; [by path_step H; subst|].
  path_step H; [by path_step H; subst|]. path_step H. path_step H; [|by path_step H; subst].
  path_step H. path_step H; [|by path_step H; subst]. path_step H. path_step H; [|by path_step H; subst].
  path_step H. path_step H;
    [|path_step H; try (by path_step H; subst); by apply refresh_unknown_fails in H]. destruct_unit.
  path_call H. path_step H; [|by path_step H; subst]. path_step H.
  apply mint_or_empty_path in Hcall.
  path_call H. path_step H; [|by path_step H; subst]. destruct_unit.
  apply logAudit_path in Hcall0 as (tr0' & e & -> & Hra & He & _). path_step H.
  repeat match goal with
  | H : bool_decide _ = false |- _ => apply bool_decide_eq_false, dec_stable in H
  | H : (_ <? _) = false |- _ => apply Z.ltb_ge in H
  end.
  eexists _, _, _. constructor; [by left|done..|].
  eexists _, _, e. split; [done|]. split; [in_trace|]. subst. solve_writing.
Qed.

(** A successful exchange rotated the session its token found. *)
Lemma handleTokenRefresh_rotates r tr resp id :
  path (handleTokenRefresh r) tr resp → rs_Status resp = StatusOK →
  Forall (refresh_finds_only id (HashToken (rq_FormValue r "refresh_token"))) tr →
  (∀ e, e ∈ tr → on_query (inserts_refresh (HashToken (rq_FormValue r "refresh_token"))) e = false) →
  ∃ e, e ∈ tr ∧ on_success (rotates id (HashToken (rq_FormValue r "refresh_token"))) e = true.
Proof.
  intros Hp Hok Hf Hins. destruct (handleTokenRefresh_ok _ _ _ Hp Hok) as (client & sess & t & []).
  destruct ex_calls0 as (access & refresh & e & _ & Hs & _).
  assert (s_ID sess = id) as <-.
  { rewrite Forall_forall in Hf. eapply (Hf (Ev (OpDb (QGetSessionByRefreshTokenHash _)) (Ok sess))); [|done..].
    apply list_elem_of_In. eapply elem_of_sublist; [|exact Hs]. by left. }
  eexists. split; [eapply elem_of_sublist; [|exact Hs]; do 2 right; left|].
  simpl. rewrite bool_decide_true; [done|]. split_and!; [done..|].
  assert (Ev (OpDb (QRotateRefreshToken (s_ID sess) (HashToken (rq_FormValue r "refresh_token"))
          (HashToken access) (HashToken refresh)
          (capByAbsolute (t + accessTokenTTL) (s_CreatedAt sess))
          (capByAbsolute (t + refreshTokenTTL) (s_CreatedAt sess)))) (Ok tt) ∈ tr) as Hin.
  { eapply elem_of_sublist; [|exact Hs]. do 2 right; by left. }
  apply Hins in Hin. simpl in Hin. by apply bool_decide_eq_false in Hin.
Qed.

(** C2: a refresh token is exchanged at most once.  In any interleaving of any
    handlers, with any failures, at most one of the [/token] requests that
    present the current refresh token of a session is answered with tokens,
    provided no session is given that same token again meanwhile. *)
Theorem refresh_token_rotated_at_most_once env sched (c : pool Response) id row i j ri rj a b :
  db_wf (w_db (p_world c)) → p_log c = [] →
  db_sessions (w_db (p_world c)) !! id = Some row →
  p_threads c !! i = Some (handleTokenRefresh ri) →
  p_threads c !! j = Some (handleTokenRefresh rj) → i ≠ j →
  HashToken (rq_FormValue ri "refresh_token") = sr_refresh_token_hash row →
  HashToken (rq_FormValue rj "refresh_token") = sr_refresh_token_hash row →
  count_events (on_query (inserts_refresh (sr_refresh_token_hash row))) (p_log (run_pool env sched c)) = O →
  p_threads (run_pool env sched c) !! i = Some (Ret a) →
  p_threads (run_pool env sched c) !! j = Some (Ret b) →
  ¬ (rs_Status a = StatusOK ∧ rs_Status b = StatusOK).
Proof.
  intros Hwf Hl Hrow Hi Hj Hij Hci Hcj Hins Hai Hbj [Ha Hb].
  pose proof (refresh_lookups env sched c id (sr_refresh_token_hash row) Hwf Hl
    (only_refresh_unique _ _ _ _ Hwf Hrow eq_refl) Hins) as Hf.
  pose proof (count_events_0 _ _ Hins) as Hno.
  assert (∀ k, Forall (refresh_finds_only id (sr_refresh_token_hash row))
                 (thread_log k (p_log (run_pool env sched c)))) as Hk.
  { intros k. apply Forall_forall. intros e He%list_elem_of_In%elem_thread_log. by eapply Hf. }
  destruct (handleTokenRefresh_rotates ri _ a id (run_pool_path env sched c i _ a Hi Hl Hai) Ha) as (e1 & He1 & Hm1);
    [by rewrite Hci|intros e He%elem_thread_log; rewrite Hci; by eapply Hno|].
  destruct (handleTokenRefresh_rotates rj _ b id (run_pool_path env sched c j _ b Hj Hl Hbj) Hb) as (e2 & He2 & Hm2);
    [by rewrite Hcj|intros e He%elem_thread_log; rewrite Hcj; by eapply Hno|].
  rewrite Hci in Hm1. rewrite Hcj in Hm2.
  pose proof (count_two_threads _ _ i j e1 e2 Hij He1 He2 Hm1 Hm2).
  pose proof (one_shot_count _ _ _ env sched c (refresh_one_shot id (sr_refresh_token_hash row)) Hl) as Hle.
  pose proof (count_events_le _ _ (p_log (run_pool env sched c)) (writes_inserts_refresh id (sr_refresh_token_hash row))).
  destruct (refresh_live _ _ _); simpl in Hle; lia.
Qed.

(** ** Replay and revocation, run to the end *)

(** The client and the session a request is about, in the database. *)
Lemma GetClientByClientID_row d client :
  db_wf d → db_clients d !! c_ID client = Some client →
  GetClientByClientID (c_ClientID client) d = Ok client.
Proof.
  intros Hwf Hc. unfold GetClientByClientID.
  by rewrite (find_row_unique c_ClientID _ _ _ _ (wf_clients_client_id _ Hwf) Hc).
Qed.

Lemma exec_authenticateClient env r w client B (f : string + Client → prog B) :
  reliable env → db_wf (w_db w) → db_clients (w_db w) !! c_ID client = Some client →
  (clientCredentials r).1 = c_ClientID client → authenticated client (clientCredentials r).2 →
  exec env (bind (authenticateClient r) f) w = exec env (f (inr client)) (tick w).
Proof.
  intros Hr Hwf Hc Hid Hauth. unfold authenticateClient. destruct (clientCredentials r) as [cid sec].
  simpl in *. subst cid. rewrite Hr. rewrite GetClientByClientID_row by done. simpl.
  destruct (c_Public client) eqn:Hp; [done|]. destruct Hauth as [?|[Hs Hh]]; [congruence|].
  rewrite (bool_decide_false (sec = "")), bool_decide_true by done. done.
Qed.

(** Deleting session [i] leaves no row [i]. *)
Lemma delete_session_gone d i row :
  keyed sr_id (db_sessions d) → db_sessions d !! i = Some row →
  db_sessions (DeleteSession i d).2 !! i = None.
Proof.
  intros Hk Hi. simpl. apply map_lookup_filter_None. right. intros x Hx. simpl.
  rewrite (Hk _ _ Hx), bool_decide_true by done. done.
Qed.

Lemma scanSession_ID r : s_ID (scanSession r) = sr_id r.
Proof. done. Qed.

(** C12: replaying a refresh token that was rotated away ends the session.  When
    an authenticated client presents a retired token of one of its sessions
    (and no live session has it), the request is refused, the session and with
    it its current tokens are deleted, and the reuse is journalled. *)
Theorem refresh_replay_revokes env r w client sid row :
  reliable env → db_wf (w_db w) → db_clients (w_db w) !! c_ID client = Some client →
  (clientCredentials r).1 = c_ClientID client → authenticated client (clientCredentials r).2 →
  db_retired_refresh_tokens (w_db w) !! HashToken (rq_FormValue r "refresh_token") = Some sid →
  db_sessions (w_db w) !! sid = Some row → sr_client_id row = c_ID client →
  (∀ i r', db_sessions (w_db w) !! i = Some r' →
     sr_refresh_token_hash r' ≠ HashToken (rq_FormValue r "refresh_token")) →
  let '(resp, w') := exec env (handleTokenRefresh r) w in
  rs_Status resp = StatusBadRequest ∧ db_sessions (w_db w') !! sid = None ∧
  ∃ e, w_journal w' = w_journal w ++ [e] ∧ ent_Action e = ActionTokenReuseDetected ∧
       ent_ClientID e = Some (c_ID client).
Proof.
  intros Hr Hwf Hc Hid Hauth Hret Hrow Hcl Hno. unfold handleTokenRefresh.
  rewrite (exec_authenticateClient env r w client) by done.
  rewrite exec_db by done. unfold tick; cbn [run_query reading fst snd w_db w_step].
  unfold GetSessionByRefreshTokenHash.
  destruct (find_row _ _) as [x|] eqn:Ef.
  { apply find_row_Some in Ef as (i & Hi & Hx%bool_decide_eq_true). by destruct (Hno _ _ Hi). }
  cbn [fmap option_fmap option_map one_row]. unfold refresh_unknown. rewrite exec_bind.
  unfold revokeOnRefreshReuse. rewrite exec_db by done.
  cbn [run_query reading fst snd w_db w_step]. unfold GetSessionByRetiredRefreshTokenHash.
  rewrite Hret. cbn [mbind option_bind]. rewrite Hrow. cbn [fmap option_fmap option_map one_row].
  rewrite bool_decide_false by (simpl; naive_solver). rewrite exec_db by done.
  cbn [run_query DeleteSession fst snd]. rewrite exec_bind.
  match goal with |- context [exec env (logAudit ?r ?a ?u ?c ?m) ?w] =>
    destruct (exec_logAudit env r a u c m w Hr) as (e & n & -> & He1 & _ & He3 & _) end.
  simpl. split; [done|]. split; [|by eauto].
  rewrite (wf_sessions _ Hwf _ _ Hrow). eapply delete_session_gone; [by apply wf_sessions|done].
Qed.

(** C7: [/token] answers a code with tokens only after the whole protocol: the
    client authenticated; the grant found by the code's hash was unused, this
    client's, for this redirect URI, not expired, and its PKCE challenge
    answered; then, in this order, the grant was marked used, the user loaded,
    one session stored with the grant's user, scopes and MFA provenance, and
    the issuance journalled. *)
Theorem code_exchange_sound r tr resp :
  path (handleTokenAuthCode r) tr resp → rs_Status resp = StatusOK →
  ∃ client grant user, redemption r client grant user tr.
Proof. apply handleTokenAuthCode_ok. Qed.

Lemma capByAbsolute_le d c : capByAbsolute d c ≤ d ∧ capByAbsolute d c ≤ c + absoluteSessionTTL.
Proof. unfold capByAbsolute. destruct (_ <? _) eqn:E; [apply Z.ltb_lt in E|apply Z.ltb_ge in E]; lia. Qed.

(** C8: a refresh never outlives the session.  [/token] answers a refresh token
    with new tokens only for a live session of the authenticated client, found
    by that token; its only write is one rotation of that session, to expiries
    at most fifteen minutes (access) and an hour (refresh) ahead and never more
    than four hours after the session was created. *)
Theorem refresh_exchange_capped r tr resp :
  path (handleTokenRefresh r) tr resp → rs_Status resp = StatusOK →
  ∃ client sess t, exchange r client sess t tr ∧
    ∃ old a n aexp rexp,
      writing tr = [Ev (OpDb (QRotateRefreshToken (s_ID sess) old a n aexp rexp)) (Ok tt)] ∧
      aexp ≤ t + 15 * Minute ∧ rexp ≤ t + Hour ∧
      aexp ≤ s_CreatedAt sess + 4 * Hour ∧ rexp ≤ s_CreatedAt sess + 4 * Hour.
Proof.
  intros H Hok. destruct (handleTokenRefresh_ok _ _ _ H Hok) as (client & sess & t & Hex).
  exists client, sess, t. split; [done|]. destruct Hex as [_ _ _ _ _ (a & n & e & _ & _ & ->)].
  eexists _, _, _, _, _. split; [reflexivity|].
  pose proof (capByAbsolute_le (t + accessTokenTTL) (s_CreatedAt sess)).
  pose proof (capByAbsolute_le (t + refreshTokenTTL) (s_CreatedAt sess)).
  unfold accessTokenTTL, refreshTokenTTL, absoluteSessionTTL in *. lia.
Qed.

(** C9: The client-credentials grant is for confidential clients only: a token
    is answered only to a client that is not public and presented its secret,
    for scopes it is registered for, on one new session that belongs to no
    user, expires in fifteen minutes and carries no MFA. *)
Theorem client_credentials_sound r tr resp :
  path (handleTokenClientCreds r) tr resp → rs_Status resp = StatusOK →
  ∃ client sess e t,
    [Ev (OpDb (QGetClientByClientID (clientCredentials r).1)) (Ok client); Ev OpNow t;
     Ev (OpDb (QCreateSession sess)) (Ok tt); Ev (OpAppend e) (Ok tt)] `sublist_of` tr ∧
    c_Public client = false ∧ HashToken (clientCredentials r).2 = c_ClientSecretHash client ∧
    s_UserID sess = uuid_nil ∧ s_ClientID sess = c_ID client ∧ s_MFAVerified sess = false ∧
    s_AccessExpiresAt sess = t + accessTokenTTL ∧
    s_Scopes sess = splitScopes (rq_FormValue r "scope") ∧
    Forall (λ sc, containsStr (c_Scopes client) sc = true) (s_Scopes sess) ∧
    ent_Action e = ActionTokenIssued ∧ ent_ClientID e = Some (c_ID client).
Proof.
  unfold handleTokenClientCreds. intros H Hst. path_call H.
  apply authenticateClient_path in Hcall as (res & -> & Hauth).
  path_step H; [by path_step H; subst|]. destruct (Hauth _ eq_refl) as [-> Hsec].
  path_step H; [by path_step H; subst|].
  path_step H. path_step H; [|by path_step H; subst]. path_step H. path_step H; [|by path_step H; subst].
  path_step H; [by path_step H; subst|]. path_step H. path_step H. path_step H.
  path_step H; [|by path_step H; subst]. destruct_unit.
  path_call H. path_step H; [|by path_step H; subst]. destruct_unit.
  apply logAudit_path in Hcall as (tr0' & e & -> & _ & He1 & _ & He3 & _).
  apply bool_decide_eq_false, dec_stable in Hb0. destruct Hsec as [?|[_ Hsec]]; [congruence|].
  eexists _, _, e, _. split; [in_trace|]. split_and!; try done. simpl. by apply unregisteredScope_split.
Qed.

Lemma GetSessionByAccessTokenHash_row d sid row h :
  db_wf d → db_sessions d !! sid = Some row → h = sr_access_token_hash row →
  GetSessionByAccessTokenHash h d = Ok (scanSession row).
Proof.
  intros Hwf Hrow ->. unfold GetSessionByAccessTokenHash.
  by rewrite (find_row_unique sr_access_token_hash _ _ _ _ (wf_sessions_access _ Hwf) Hrow).
Qed.

Lemma DeleteSession_sessions d sid :
  db_wf d → db_sessions (DeleteSession sid d).2 = delete sid (db_sessions d).
Proof.
  intros Hwf. apply map_eq. intros i. simpl. rewrite lookup_delete. case_decide as Hi; [subst|].
  - destruct (db_sessions d !! i) eqn:E; [|apply map_lookup_filter_None; auto].
    by eapply delete_session_gone; [apply wf_sessions|].
  - destruct (db_sessions d !! i) as [x|] eqn:E; [|apply map_lookup_filter_None; auto].
    apply map_lookup_filter_Some. split; [done|]. simpl.
    by rewrite (wf_sessions _ Hwf _ _ E), bool_decide_false by done.
Qed.

(** Nothing is found by the value a unique column had in a deleted row. *)
Lemma find_row_deleted {A B} `{EqDecision B} (f : A → B) m i x :
  unique_on f m → m !! i = Some x →
  find_row (λ y, bool_decide (f y = f x)) (delete i m) = None.
Proof.
  intros Hu Hx. destruct (find_row _ _) as [y|] eqn:E; [|done].
  apply find_row_Some in E as (j & [Hj Hy]%lookup_delete_Some & He%bool_decide_eq_true).
  by destruct Hj; eapply Hu.
Qed.

(** A revoked token is dead.  When nothing fails, [/revoke] with the access
    token of a session answers 200, deletes the session and journals it; a
    bearer request with that token is then refused with 401, and presenting
    the session's refresh hash finds no session either. *)
Theorem revoked_token_refused env r r' w sid row next :
  reliable env → db_wf (w_db w) → db_sessions (w_db w) !! sid = Some row →
  rq_FormValue r "token" ≠ "" → HashToken (rq_FormValue r "token") = sr_access_token_hash row →
  extractBearerToken r' = rq_FormValue r "token" →
  let '(resp, w') := exec env (handleRevoke r) w in
  rs_Status resp = StatusOK ∧ db_sessions (w_db w') = delete sid (db_sessions (w_db w)) ∧
  (∃ e, w_journal w' = w_journal w ++ [e] ∧ ent_Action e = ActionTokenRevoked) ∧
  rs_Status (exec env (bearerAuth next r') w').1 = StatusUnauthorized ∧
  GetSessionByRefreshTokenHash (sr_refresh_token_hash row) (w_db w') = Err ErrNotFound.
Proof.
  intros Hr Hwf Hrow Hne Hh Hb. unfold handleRevoke. rewrite bool_decide_false by done.
  rewrite exec_db by done. cbn [run_query reading fst snd].
  rewrite (GetSessionByAccessTokenHash_row _ _ _ _ Hwf Hrow Hh). unfold revoke_session.
  rewrite exec_bind.
  match goal with |- context [exec env (logAudit ?r ?a ?u ?c ?m) ?w] =>
    destruct (exec_logAudit env r a u c m w Hr) as (e & n & -> & He1 & _) end.
  cbn [fst snd]. rewrite exec_db by done. cbn [run_query fst snd exec w_db w_journal].
  rewrite scanSession_ID, (wf_sessions _ Hwf _ _ Hrow).
  pose proof (DeleteSession_sessions (w_db w) sid Hwf) as Hd. rewrite Hd.
  split_and!; [done|done|by eauto| |].
  - unfold bearerAuth. rewrite Hb, bool_decide_false by done. rewrite exec_db by done.
    cbn [run_query reading fst snd w_db]. unfold GetSessionByAccessTokenHash. rewrite Hd, Hh.
    by rewrite (find_row_deleted sr_access_token_hash _ _ _ (wf_sessions_access _ Hwf) Hrow).
  - unfold GetSessionByRefreshTokenHash. rewrite Hd.
    by rewrite (find_row_deleted sr_refresh_token_hash _ _ _ (wf_sessions_refresh _ Hwf) Hrow).
Qed.

End tokens.

(** Two concurrent redemptions of the same code, call by call in turn. *)
Definition fx_code_request : Request :=
  form [("client_id", "rp"); ("client_secret", "secret"); ("code", "code");
        ("redirect_uri", "https://rp.example/cb")].

Definition fx_race : pool Response :=
  run_pool fx_env (concat (replicate 20 [0%nat; 1%nat]))
    (fx_pool [handleTokenAuthCode fx_code_request; handleTokenAuthCode fx_code_request]).

Lemma code_redeemed_at_most_once_witness :
  rs_Status (answer fx_race 0) = StatusOK ∧ rs_Status (answer fx_race 1) = StatusBadRequest ∧
  ¬ (rs_Status (answer fx_race 0) = StatusOK ∧ rs_Status (answer fx_race 1) = StatusOK).
Proof.
  split; [vm_compute; reflexivity|]. split; [vm_compute; reflexivity|].
  apply (code_redeemed_at_most_once fx_env (concat (replicate 20 [0%nat; 1%nat]))
    (fx_pool [handleTokenAuthCode fx_code_request; handleTokenAuthCode fx_code_request])
    20%N (grant_row_of fx_grant) 0 1 fx_code_request fx_code_request);
    [exact fx_db_wf|reflexivity|vm_compute; reflexivity|reflexivity|reflexivity|lia|..];
    vm_compute; reflexivity.
Defined.

Lemma schema_invariant_witness : db_wf (w_db (p_world fx_race)).
Proof. apply schema_invariant. exact fx_db_wf. Defined.

(** The session's token is exchanged, then presented again. *)
Definition fx_refresh_request : Request :=
  form [("client_id", "rp"); ("client_secret", "secret"); ("refresh_token", "ref")].

Definition fx_refreshed : World := (exec fx_env (handleTokenRefresh fx_refresh_request) fx_world).2.

Definition fx_refresh_race : pool Response :=
  run_pool fx_env (concat (replicate 20 [0%nat; 1%nat]))
    (fx_pool [handleTokenRefresh fx_refresh_request; handleTokenRefresh fx_refresh_request]).

Lemma refresh_token_rotated_at_most_once_witness :
  rs_Status (answer fx_refresh_race 0) = StatusOK ∧
  ¬ (rs_Status (answer fx_refresh_race 0) = StatusOK ∧ rs_Status (answer fx_refresh_race 1) = StatusOK).
Proof.
  split; [vm_compute; reflexivity|].
  apply (refresh_token_rotated_at_most_once fx_env (concat (replicate 20 [0%nat; 1%nat]))
    (fx_pool [handleTokenRefresh fx_refresh_request; handleTokenRefresh fx_refresh_request])
    21%N (session_row_of fx_T0 fx_session) 0 1 fx_refresh_request fx_refresh_request);
    [exact fx_db_wf|reflexivity|vm_compute; reflexivity|reflexivity|reflexivity|lia|..];
    vm_compute; reflexivity.
Defined.

Definition fx_rotated_row : session_row :=
  default (session_row_of 0 fx_session) (db_sessions (w_db fx_refreshed) !! 21%N).

Lemma refresh_replay_revokes_witness :
  let '(resp, w') := exec fx_env (handleTokenRefresh fx_refresh_request) fx_refreshed in
  rs_Status resp = StatusBadRequest ∧ db_sessions (w_db w') !! 21%N = None ∧
  ∃ e, w_journal w' = w_journal fx_refreshed ++ [e] ∧ ent_Action e = ActionTokenReuseDetected ∧
       ent_ClientID e = Some (c_ID fx_client).
Proof.
  apply (refresh_replay_revokes fx_env fx_refresh_request fx_refreshed fx_client 21%N fx_rotated_row);
    [exact fx_reliable|apply fx_exec_wf, fx_db_wf|vm_compute; reflexivity|vm_compute; reflexivity
    |right; split; [discriminate|vm_compute; reflexivity]|vm_compute; reflexivity|vm_compute; reflexivity
    |vm_compute; reflexivity|].
  apply (bool_decide_unpack (map_Forall (λ _ r', sr_refresh_token_hash r' ≠ "#ref")
           (db_sessions (w_db fx_refreshed)))).
  vm_compute. exact I.
Defined.

(** The single exchanges, run alone. *)
Lemma code_exchange_sound_witness :
  ∃ client grant user,
    redemption fx_code_request client grant user
      (trace fx_env (handleTokenAuthCode fx_code_request) fx_world).
Proof.
  apply (code_exchange_sound fx_code_request
    (trace fx_env (handleTokenAuthCode fx_code_request) fx_world)
    (exec fx_env (handleTokenAuthCode fx_code_request) fx_world).1);
    [apply exec_path|vm_compute; reflexivity].
Defined.

Lemma refresh_exchange_capped_witness :
  ∃ client sess t,
    exchange fx_refresh_request client sess t (trace fx_env (handleTokenRefresh fx_refresh_request) fx_world) ∧
    ∃ old a n aexp rexp,
      writing (trace fx_env (handleTokenRefresh fx_refresh_request) fx_world)
        = [Ev (OpDb (QRotateRefreshToken (s_ID sess) old a n aexp rexp)) (Ok tt)] ∧
      aexp ≤ t + 15 * Minute ∧ rexp ≤ t + Hour ∧
      aexp ≤ s_CreatedAt sess + 4 * Hour ∧ rexp ≤ s_CreatedAt sess + 4 * Hour.
Proof.
  apply (refresh_exchange_capped fx_refresh_request
    (trace fx_env (handleTokenRefresh fx_refresh_request) fx_world)
    (exec fx_env (handleTokenRefresh fx_refresh_request) fx_world).1);
    [apply exec_path|vm_compute; reflexivity].
Defined.

(** A machine obtains an admin token. *)
Definition fx_machine_request : Request :=
  form [("client_id", "rp"); ("client_secret", "secret"); ("scope", "admin openid")].

Definition fx_machine_world : World := (exec fx_env (handleTokenClientCreds fx_machine_request) fx_world).2.

Lemma client_credentials_sound_witness :
  ∃ client sess e t,
    [Ev (OpDb (QGetClientByClientID "rp")) (Ok client); Ev OpNow t;
     Ev (OpDb (QCreateSession sess)) (Ok tt); Ev (OpAppend e) (Ok tt)] `sublist_of`
       trace fx_env (handleTokenClientCreds fx_machine_request) fx_world ∧
    c_Public client = false ∧ HashToken "secret" = c_ClientSecretHash client ∧
    s_UserID sess = uuid_nil ∧ s_ClientID sess = c_ID client ∧ s_MFAVerified sess = false ∧
    s_AccessExpiresAt sess = t + accessTokenTTL ∧
    s_Scopes sess = splitScopes "admin openid" ∧
    Forall (λ sc, containsStr (c_Scopes client) sc = true) (s_Scopes sess) ∧
    ent_Action e = ActionTokenIssued ∧ ent_ClientID e = Some (c_ID client).
Proof.
  apply (client_credentials_sound fx_machine_request
    (trace fx_env (handleTokenClientCreds fx_machine_request) fx_world)
    (exec fx_env (handleTokenClientCreds fx_machine_request) fx_world).1);
    [apply exec_path|vm_compute; reflexivity].
Defined.

(** Revocation of the session's access token, then a bearer request with it. *)
Definition fx_revoke_request : Request := form [("token", "acc")].

Lemma revoked_token_refused_witness :
  let '(resp, w') := exec fx_env (handleRevoke fx_revoke_request) fx_world in
  rs_Status resp = StatusOK ∧ db_sessions (w_db w') = delete 21%N (db_sessions (w_db fx_world)) ∧
  (∃ e, w_journal w' = w_journal fx_world ++ [e] ∧ ent_Action e = ActionTokenRevoked) ∧
  rs_Status (exec fx_env (bearerAuth handleUserInfo fx_revoke_request) w').1 = StatusUnauthorized ∧
  GetSessionByRefreshTokenHash "#ref" (w_db w') = Err ErrNotFound.
Proof.
  apply (revoked_token_refused fx_env fx_revoke_request fx_revoke_request fx_world 21%N
           (session_row_of fx_T0 fx_session) handleUserInfo);
    [exact fx_reliable|exact fx_db_wf|vm_compute; reflexivity|discriminate|vm_compute; reflexivity
    |vm_compute; reflexivity].
Defined.

(** Before the revocation the same request reached its handler; and the
    machine's token reaches a handler behind [adminAuth]. *)
Lemma bearer_gate_witness :
  let p := bearerAuth handleUserInfo fx_revoke_request in
  rs_Status (exec fx_env p fx_world).1 = StatusOK ∧
  ((rs_Status (exec fx_env p fx_world).1 = StatusUnauthorized ∨
    rs_Status (exec fx_env p fx_world).1 = StatusInternalServerError) ∧
     Forall (λ e, changes e = false) (trace fx_env p fx_world)
   ∨ ∃ sess t tr',
       trace fx_env p fx_world
         = Ev (OpDb (QGetSessionByAccessTokenHash (HashToken (extractBearerToken fx_revoke_request)))) (Ok sess)
           :: Ev OpNow t :: tr' ∧
       extractBearerToken fx_revoke_request ≠ "" ∧ t ≤ s_AccessExpiresAt sess ∧
       t ≤ s_CreatedAt sess + absoluteSessionTTL ∧
       path (handleUserInfo sess fx_revoke_request) tr' (exec fx_env p fx_world).1).
Proof.
  intros p. split; [vm_compute; reflexivity|].
  apply (bearer_gate handleUserInfo fx_revoke_request (trace fx_env p fx_world) (exec fx_env p fx_world).1).
  apply exec_path.
Defined.

Definition fx_admin_request : Request := with_bearer (fx_token 1) fx_machine_request.

Definition fx_ok (sess : Session) (r : Request) : prog Response := Ret (writeJSON StatusOK []).

Lemma admin_gate_witness :
  let p := adminAuth fx_ok fx_admin_request in
  rs_Status (exec fx_env p fx_machine_world).1 = StatusOK ∧
  ((rs_Status (exec fx_env p fx_machine_world).1 = StatusUnauthorized ∨
    rs_Status (exec fx_env p fx_machine_world).1 = StatusForbidden ∨
    rs_Status (exec fx_env p fx_machine_world).1 = StatusInternalServerError) ∧
     Forall (λ e, changes e = false) (trace fx_env p fx_machine_world)
   ∨ ∃ h sess t tr',
      path (fx_ok sess fx_admin_request) tr' (exec fx_env p fx_machine_world).1 ∧
      containsStr (s_Scopes sess) "admin" = true ∧
      t ≤ s_AccessExpiresAt sess ∧ t ≤ s_CreatedAt sess + absoluteSessionTTL ∧
      (s_UserID sess = uuid_nil ∧
         trace fx_env p fx_machine_world
           = Ev (OpDb (QGetSessionByAccessTokenHash h)) (Ok sess) :: Ev OpNow t :: tr'
       ∨ ∃ user, u_Active user = true ∧ u_IsAdmin user = true ∧
         trace fx_env p fx_machine_world
           = Ev (OpDb (QGetSessionByAccessTokenHash h)) (Ok sess) :: Ev OpNow t
              :: Ev (OpDb (QGetUserByID (s_UserID sess))) (Ok user) :: tr')).
Proof.
  intros p. split; [vm_compute; reflexivity|].
  apply (admin_gate fx_ok fx_admin_request (trace fx_env p fx_machine_world)
           (exec fx_env p fx_machine_world).1).
  apply exec_path.
Defined.
