(* ===== verification/Portal.v ===== *)
(** * Portal sessions: cookies, login, logout, registration

    The cookie-based half of [internal/api]: the [auth_portal] cookie and the
    middleware behind it, the login flow of [web_portal.go] (password, forced
    rotation, TOTP), sign-out with its back-channel broadcast
    ([backchannel_logout.go]), and self-registration ([web_portal.go],
    [web_sso.go]).  Cookies set before a response is written are collected in
    the response.  The security-key variant of the second factor is in
    [WebAuthn]. *)
From S2P Require Import Prelude GoStrings GoNet Model Dialect Policy Tables SqliteUsers SqliteTokens SqliteAws Store Pkce Prog.
From S2P Require Import SingleUse Server Provision Awsfed Fixture Mfa.

Local Open Scope Z_scope.
Local Open Scope prog_scope.

Definition portalCookie : string := "auth_portal".
Definition portalLoginCookie : string := "portal_login".
Definition portalCookieTTL : Z := 15 * Minute.
Definition portalLoginCookieTTL : Z := 10 * Minute.

Record portalCtx : Type := mkPortalCtx { px_Session : Session; px_User : User }.

(** The outcome of [createPortalSession]: the cookie is set, or an error that
    wraps [errAuditUnavailable], or another error. *)
Inductive seated : Type :=
| Seated (c : Cookie)
| AuditUnavailable (e : error)
| NotSeated.

(** A session's expiry as the handler sees it after a slide. *)
Definition session_with_access_expiry (t : Z) (s : Session) : Session :=
  {| s_ID := s_ID s; s_UserID := s_UserID s; s_ClientID := s_ClientID s;
     s_AccessTokenHash := s_AccessTokenHash s; s_RefreshTokenHash := s_RefreshTokenHash s;
     s_Scopes := s_Scopes s; s_AccessExpiresAt := t; s_RefreshExpiresAt := s_RefreshExpiresAt s;
     s_LastActivityAt := s_LastActivityAt s; s_MFAVerified := s_MFAVerified s;
     s_MFAVerifiedAt := s_MFAVerifiedAt s; s_AuthTime := s_AuthTime s; s_CreatedAt := s_CreatedAt s |}.

Definition user_made_admin (u : User) : User :=
  {| u_ID := u_ID u; u_Email := u_Email u; u_PasswordHash := u_PasswordHash u; u_Name := u_Name u;
     u_Active := u_Active u; u_IsAdmin := true; u_MFAEnabled := u_MFAEnabled u;
     u_FailedAttempts := u_FailedAttempts u; u_LockedUntil := u_LockedUntil u;
     u_PasswordChangedAt := u_PasswordChangedAt u; u_MustChangePassword := u_MustChangePassword u;
     u_SCIMExternalID := u_SCIMExternalID u; u_CreatedAt := u_CreatedAt u; u_UpdatedAt := u_UpdatedAt u |}.

(** A policy question about a user, a client and a password. *)
Definition ask (u : option User) (c : option Client) (password : string) (mfa : bool) : PolicyContext :=
  {| pc_User := u; pc_Client := c; pc_Scopes := []; pc_Password := password; pc_MFAVerified := mfa;
     pc_SessionAge := 0; pc_LastActivity := 0 |}.

Section portal.
  Context `{U : UnicodeTables} {dialect : Dialect} `{X : Externals}.

(** [s.policy.First(...)]. *)
Definition policy_First (sv : Server) (ctx : PolicyContext) : prog (option PolicyViolation) :=
  engine_First (rules (srv_policy sv)) ctx.

(** ** Cookies *)

Definition setPortalCookie (rawToken : string) (ttl : Z) (name : string) : prog (result Cookie) :=
  try enc <- do_op (OpSeal rawToken) else e => Ret (Err e);;
  Ret (Ok (mkCookie name enc "/" (Seconds ttl) true SameSiteLaxMode)).

Definition setPortalLoginCookie (userID : uuid) : prog (result Cookie) :=
  t <- now;;
  try enc <- do_op (OpSeal (loginState_Marshal (mkPortalLoginState userID (t + portalLoginCookieTTL))))
    else e => Ret (Err e);;
  Ret (Ok (mkCookie portalLoginCookie enc "/" (Seconds portalLoginCookieTTL) true SameSiteLaxMode)).

Definition getPortalLoginCookie (r : Request) : prog (result portalLoginState) :=
  match rq_Cookie r portalLoginCookie with
  | None => Ret (Err ErrOther)
  | Some v =>
      match Open v with
      | Err e => Ret (Err e)
      | Ok raw =>
          match loginState_Unmarshal raw with
          | Err e => Ret (Err e)
          | Ok st => t <- now;; Ret (if pls_Exp st <? t then Err ErrOther else Ok st)
          end
      end
  end.

(** ** The portal session *)

(** [Ok None] is a browser without the cookie. *)
Definition readAuthPortalSession (r : Request) : prog (result (option (Session * User * string))) :=
  match rq_Cookie r portalCookie with
  | None => Ret (Ok None)
  | Some v =>
      match Open v with
      | Err e => Ret (Err e)
      | Ok rawToken =>
          try sess <- db (QGetSessionByAccessTokenHash (HashToken rawToken)) else e => Ret (Err e);;
          t <- now;;
          when s_AccessExpiresAt sess <? t return Ret (Err ErrOther);;
          when s_CreatedAt sess + absoluteSessionTTL <? t return Ret (Err ErrOther);;
          try user <- db (QGetUserByID (s_UserID sess)) else e => Ret (Err e);;
          Ret (Ok (Some (sess, user, rawToken)))
      end
  end.

(** The session with its new expiry, and the re-issued cookie. *)
Definition slidePortalSession (sess : Session) (rawToken : string) : prog (Session * list Cookie) :=
  t <- now;;
  let newExpiry := capByAbsolute (t + portalCookieTTL) (s_CreatedAt sess) in
  extended <- db (QExtendSessionExpiry (s_ID sess) newExpiry);;
  let sess' := match extended with Ok _ => session_with_access_expiry newExpiry sess | Err _ => sess end in
  db (QUpdateSessionActivity (s_ID sess) t);;;
  t' <- now;;
  let cookieMaxAge := if time_Sub newExpiry t' <=? 0 then Second else time_Sub newExpiry t' in
  ck <- setPortalCookie rawToken cookieMaxAge portalCookie;;
  Ret (sess', match ck with Ok c => [c] | Err _ => [] end).

Definition portalAuth (next : portalCtx → Request → prog Response) (r : Request) : prog Response :=
  got <- readAuthPortalSession r;;
  match got with
  | Ok (Some (sess, user, rawToken)) =>
      slid <- slidePortalSession sess rawToken;;
      resp <- next (mkPortalCtx slid.1 user) r;;
      Ret (with_cookies slid.2 resp)
  | _ => Ret (with_cookies [clearCookie portalCookie] (httpRedirect (LocPath "/portal/login")))
  end.

Definition portalAdminAuth (next : portalCtx → Request → prog Response) : Request → prog Response :=
  portalAuth (λ pc r,
    if negb (u_IsAdmin (px_User pc)) then Ret (httpError "forbidden" StatusForbidden)
    else next pc r).

(** ** Back-channel logout *)

(** The loop of [broadcastLogout]. *)
Fixpoint push_all (clientIDs : list uuid) (sub : uuid) (sid : string) : prog unit :=
  match clientIDs with
  | [] => Ret tt
  | cid :: clientIDs =>
      if bool_decide (cid = portalClientUUID) then push_all clientIDs sub sid
      else
        client <- db (QGetClientByID cid);;
        match client with
        | Err _ => push_all clientIDs sub sid
        | Ok client =>
            match c_BackchannelLogoutURI client with
            | None => push_all clientIDs sub sid
            | Some uri =>
                if bool_decide (TrimSpace uri = "") then push_all clientIDs sub sid
                else
                  do_op (OpGo (PushLogout (c_ID client) uri (c_ClientID client) sub sid));;;
                  push_all clientIDs sub sid
            end
        end
  end.

Definition broadcastLogout (sv : Server) (userID : uuid) (sid : string) : prog unit :=
  when negb (srv_hasSigner sv) return Ret tt;;
  try clientIDs <- db (QListSessionClientIDsByUser userID) else _e => Ret tt;;
  when bool_decide (length clientIDs = 0%nat) return Ret tt;;
  try user <- db (QGetUserByID userID) else _e => Ret tt;;
  push_all clientIDs (u_ID user) sid.

(** Behind [portalAuth], which always supplies the context. *)
Definition handlePortalLogout (sv : Server) (pc : portalCtx) (r : Request) : prog Response :=
  broadcastLogout sv (u_ID (px_User pc)) "";;;
  db (QDeleteSessionsByUserID (u_ID (px_User pc)));;;
  logAudit r ActionLogout (Some (u_ID (px_User pc))) None [("via", MStr "portal")];;;
  Ret (with_cookies [clearCookie portalCookie] (httpRedirect (LocPath "/portal/login"))).

(** ** New portal sessions *)

Definition portal_scopes (user : User) : list string :=
  if u_IsAdmin user then ["portal"; "admin"] else ["portal"].

(** The session row both functions below insert. *)
Definition portal_session (id : uuid) (user : User) (access refresh : string) (t : Z) : Session :=
  {| s_ID := id; s_UserID := u_ID user; s_ClientID := portalClientUUID;
     s_AccessTokenHash := HashToken access; s_RefreshTokenHash := HashToken refresh;
     s_Scopes := portal_scopes user; s_AccessExpiresAt := t + portalCookieTTL;
     s_RefreshExpiresAt := t + portalCookieTTL; s_LastActivityAt := 0;
     s_MFAVerified := u_MFAEnabled user;
     s_MFAVerifiedAt := if u_MFAEnabled user then Some t else None;
     s_AuthTime := 0; s_CreatedAt := 0 |}.

(** [ensurePortalCookie]: the cookies it set.  A different user's session in
    the same browser is ended first, with all sessions of that user. *)
Definition ensurePortalCookie (sv : Server) (r : Request) (user : User) : prog (list Cookie) :=
  prev <- readAuthPortalSession r;;
  match prev with
  | Ok (Some (_, prevUser, _)) =>
      if bool_decide (u_ID prevUser ≠ u_ID user) then
        broadcastLogout sv (u_ID prevUser) "";;;
        db (QDeleteSessionsByUserID (u_ID prevUser));;;
        logAudit r ActionLogout (Some (u_ID prevUser)) None
          [("via", MStr "user_switch"); ("by", MStr (u_Email user))];;;
        Ret tt
      else Ret tt
  | _ => Ret tt
  end;;;
  try rawAccess <- GenerateRawToken else _e => Ret [];;
  try rawRefresh <- GenerateRawToken else _e => Ret [];;
  t <- now;;
  id <- newUUID;;
  try _u <- db (QCreateSession (portal_session id user rawAccess rawRefresh t)) else _e => Ret [];;
  ck <- setPortalCookie rawAccess portalCookieTTL portalCookie;;
  Ret (match ck with Ok c => [c] | Err _ => [] end).

Definition createPortalSession (r : Request) (user : User) : prog seated :=
  try rawAccess <- GenerateRawToken else _e => Ret NotSeated;;
  try rawRefresh <- GenerateRawToken else _e => Ret NotSeated;;
  t <- now;;
  id <- newUUID;;
  try _u <- db (QCreateSession (portal_session id user rawAccess rawRefresh t)) else _e => Ret NotSeated;;
  try _u <- logAudit r ActionLogin (Some (u_ID user)) None [("via", MStr "portal")]
    else e => Ret (AuditUnavailable e);;
  ck <- setPortalCookie rawAccess portalCookieTTL portalCookie;;
  Ret (match ck with Ok c => Seated c | Err _ => NotSeated end).

(** [auditFail] on [fmt.Errorf("%w: %v", errAuditUnavailable, err)]. *)
Definition seat_unaudited (e : error) : Response := auditFail ("audit unavailable: " +:+ err_Error e).

(** The tail every login path shares: seat the session and go to the portal,
    503 when the journal is down, [failed] otherwise. *)
Definition seat_and_go (r : Request) (user : User) (failed : Response) : prog Response :=
  seat <- createPortalSession r user;;
  Ret (match seat with
       | AuditUnavailable e => seat_unaudited e
       | NotSeated => failed
       | Seated c => with_cookies [c] (httpRedirect (LocPath "/portal"))
       end).

(** ** Login *)

Definition login_email (r : Request) : string := ToLower (TrimSpace (rq_FormValue r "email")).

Definition handlePortalLoginGET (sv : Server) (r : Request) : prog Response :=
  let form := render "portal_login.html"
    [("Error", JStr (rq_Query r "error")); ("Email", JStr ""); ("AllowRegister", JBool (srv_allowReg sv))] in
  when bool_decide (rq_Query r "prompt" = "login") return Ret form;;
  got <- readAuthPortalSession r;;
  Ret (match got with Ok (Some _) => httpRedirect (LocPath "/portal") | _ => form end).

(** A failed password check: count it when the user exists, journal it, and
    show the form again. *)
Definition login_refused (r : Request) (user : option User) (client : option uuid)
    (meta : list (string * MetaVal)) (form : Response) : prog Response :=
  match user with Some u => incrementFailedAttempts u | None => Ret tt end;;;
  try _u <- logAudit r ActionLoginFailed None client meta else e => Ret (auditFail (err_Error e));;
  Ret form.

Definition portal_login_error (sv : Server) (r : Request) (msg : string) : Response :=
  render "portal_login.html"
    [("Error", JStr msg); ("Email", JStr (login_email r)); ("AllowRegister", JBool (srv_allowReg sv))].

(** After the password and policy checks of [handlePortalLoginPOST]. *)
Definition portal_login_continue (sv : Server) (r : Request) (user : User) : prog Response :=
  db (QUpdateUserFailedAttempts (u_ID user) 0 None);;;
  if u_MustChangePassword user then
    ck <- setPortalLoginCookie (u_ID user);;
    Ret (match ck with
         | Ok c => with_cookies [c] (httpRedirect (LocPath "/portal/login/change-password"))
         | Err _ => portal_login_error sv r "An error occurred. Please try again."
         end)
  else if u_MFAEnabled user then
    ck <- setPortalLoginCookie (u_ID user);;
    Ret (match ck with
         | Ok c => with_cookies [c] (httpRedirect (LocPath "/portal/login/mfa"))
         | Err _ => portal_login_error sv r "An error occurred. Please try again."
         end)
  else seat_and_go r user (portal_login_error sv r "An error occurred. Please try again.").

Definition handlePortalLoginPOST (sv : Server) (r : Request) : prog Response :=
  let email := login_email r in
  let refused user := login_refused r user None [("email", MStr email); ("via", MStr "portal")]
                        (portal_login_error sv r "Invalid email or password.") in
  user <- db (QGetUserByEmail email);;
  match user with
  | Err ErrNotFound => refused None
  | Err _ => Ret (portal_login_error sv r "An error occurred. Please try again.")
  | Ok user =>
      when negb (CheckPassword (u_PasswordHash user) (rq_FormValue r "password")) return refused (Some user);;
      when negb (u_Active user) return Ret (portal_login_error sv r "Account is disabled.");;
      v <- policy_First sv (ask (Some user) None "" false);;
      match v with
      | Some v => Ret (portal_login_error sv r (pv_Message v))
      | None => portal_login_continue sv r user
      end
  end.

(** Forced rotation: GET shows the form, any other method processes it. *)
Definition handlePortalChangePassword (sv : Server) (r : Request) : prog Response :=
  try st <- getPortalLoginCookie r else _e => Ret (httpRedirect (LocPath "/portal/login"));;
  try user <- db (QGetUserByID (pls_UserID st)) else _e => Ret (httpRedirect (LocPath "/portal/login"));;
  when negb (u_MustChangePassword user) return
    Ret (with_cookies [clearCookie portalLoginCookie] (httpRedirect (LocPath "/portal/login")));;
  let showForm u msg := render "portal_change_password.html" [("Error", JStr msg); ("Email", JStr (u_Email u))] in
  when bool_decide (rq_Method r = "GET") return Ret (showForm user "");;
  let newPw := rq_FormValue r "new_password" in
  when bool_decide (newPw = "") return Ret (showForm user "New password is required.");;
  when bool_decide (newPw ≠ rq_FormValue r "confirm") return Ret (showForm user "Passwords do not match.");;
  v <- policy_First sv (ask (Some user) None newPw false);;
  match v with
  | Some v => Ret (showForm user (pv_Message v))
  | None =>
  try hash <- HashPassword newPw else _e => Ret (showForm user "An error occurred. Please try again.");;
  try _u <- db (QUpdateUserPassword (u_ID user) hash) else _e =>
    Ret (showForm user "An error occurred. Please try again.");;
  try _u <- logAudit r ActionUserUpdated (Some (u_ID user)) None
              [("field", MStr "password"); ("via", MStr "forced_rotation")] else e => Ret (auditFail (err_Error e));;
  reloaded <- db (QGetUserByID (u_ID user));;
  match reloaded with
  | Err _ => Ret panicked (* the error branch's form reads the nil user *)
  | Ok user =>
      if u_MFAEnabled user then Ret (httpRedirect (LocPath "/portal/login/mfa"))
      else
        resp <- seat_and_go r user (showForm user "An error occurred. Please try again.");;
        Ret (with_cookies [clearCookie portalLoginCookie] resp)
  end end.

(** ** The second factor of the portal login *)

Definition portalMFAMethods (userID : uuid) : prog (bool * bool) :=
  totp <- db (QGetTOTPByUserID userID);;
  waCreds <- db (QListWebAuthnCredentials userID);;
  Ret (match totp with Ok c => totp_Enabled c | Err _ => false end,
       match waCreds with Ok l => (0 <? length l)%nat | Err _ => false end).

Definition handlePortalLoginMFA (r : Request) : prog Response :=
  try st <- getPortalLoginCookie r else _e => Ret (httpRedirect (LocPath "/portal/login"));;
  try user <- db (QGetUserByID (pls_UserID st)) else _e => Ret (httpRedirect (LocPath "/portal/login"));;
  when u_MustChangePassword user return Ret (httpRedirect (LocPath "/portal/login/change-password"));;
  methods <- portalMFAMethods (u_ID user);;
  let show msg := render "portal_login_mfa.html"
    [("Error", JStr msg); ("HasTOTP", JBool methods.1); ("HasWebAuthn", JBool methods.2)] in
  when bool_decide (rq_Method r = "GET") return Ret (show "");;
  try _u <- VerifyTOTP (u_ID user) (rq_FormValue r "code") else _e =>
    (try _u <- logAudit r ActionLoginMFAFailed (Some (u_ID user)) None [("via", MStr "portal")]
       else e => Ret (auditFail (err_Error e));;
     Ret (show "Invalid code. Please try again."));;
  resp <- seat_and_go r user (show "An error occurred. Please try again.");;
  Ret (with_cookies [clearCookie portalLoginCookie] resp).

(** ** Registration *)

(** The first user becomes an administrator. *)
Definition promoteIfFirstUser (u : User) : prog User :=
  try n <- db QCountUsers else _e => Ret u;;
  when negb (n =? 1) return Ret u;;
  try _u <- db (QSetUserAdmin (u_ID u) true) else _e => Ret u;;
  Ret (user_made_admin u).

(** [undoOnAuditFailure] with [DeleteUser]: best effort. *)
Definition undo_user (id : uuid) : prog unit := db (QDeleteUser id);;; Ret tt.

Definition handlePortalRegisterGET (sv : Server) (r : Request) : prog Response :=
  when negb (srv_allowReg sv) return Ret (httpRedirect (LocPath "/portal/login"));;
  got <- readAuthPortalSession r;;
  Ret (match got with
       | Ok (Some _) => httpRedirect (LocPath "/portal")
       | _ => render "portal_register.html" [("Error", JStr ""); ("Email", JStr ""); ("Name", JStr "")]
       end).

(** The part of registration both forms share after their own checks: create,
    promote, audit or undo, provision. *)
Definition create_and_audit (r : Request) (email hash name : string) (meta : list (string * MetaVal))
    (showErr : string → Response) : prog (Response + User) :=
  created <- db (QCreateUser email hash name);;
  match created with
  | Err ErrConflict => Ret (inl (showErr "An account with that email already exists."))
  | Err _ => Ret (inl (showErr "An error occurred. Please try again."))
  | Ok user =>
      user <- promoteIfFirstUser user;;
      audited <- logAudit r ActionUserCreated (Some (u_ID user)) None meta;;
      match audited with
      | Err e => undo_user (u_ID user);;; Ret (inl (auditFail (err_Error e)))
      | Ok _ => provisionUser OpCreate (Some user) [];;; Ret (inr user)
      end
  end.

Definition handlePortalRegisterPOST (sv : Server) (r : Request) : prog Response :=
  when negb (srv_allowReg sv) return Ret (httpRedirect (LocPath "/portal/login"));;
  let email := login_email r in
  let name0 := TrimSpace (rq_FormValue r "name") in
  let password := rq_FormValue r "password" in
  (* the error form shows the name as it is when the error occurs *)
  let showErr name msg := render "portal_register.html"
    [("Error", JStr msg); ("Email", JStr email); ("Name", JStr name)] in
  when bool_decide (password ≠ rq_FormValue r "confirm") return Ret (showErr name0 "Passwords do not match.");;
  try hash <- HashPassword password else _e => Ret (showErr name0 "An error occurred. Please try again.");;
  let name := if bool_decide (name0 = "") then hd "" (Split email "@") else name0 in
  v <- policy_First sv (ask None None password false);;
  match v with
  | Some v => Ret (showErr name (pv_Message v))
  | None =>
      reg <- create_and_audit r email hash name [("via", MStr "portal_register")] (showErr name);;
      match reg with
      | inl resp => Ret resp
      | inr user => seat_and_go r user (httpRedirect (LocPath "/portal/login"))
      end
  end.

(** The pages of the authorize flow, with the parameters of the request; the
    page's query string is built from the same values. *)
Definition sso_params : list string :=
  ["client_id"; "code_challenge"; "code_challenge_method"; "nonce"; "redirect_uri"; "response_type";
   "scope"; "state"].

Definition ssoDataFromForm (sv : Server) (r : Request) (clientName errMsg email name : string)
    : list (string * JVal) :=
  let get key := if bool_decide (rq_Method r = "POST") then rq_FormValue r key else rq_Query r key in
  [("ClientName", JStr clientName); ("Email", JStr email); ("Name", JStr name); ("Error", JStr errMsg);
   ("AllowRegistration", JBool (srv_allowReg sv))] ++ ((λ k, (k, JStr (get k))) <$> sso_params).

Definition handleRegisterGET (sv : Server) (r : Request) : prog Response :=
  when negb (srv_allowReg sv) return Ret (httpError "registration disabled" StatusForbidden);;
  Ret (render "register.html" (ssoDataFromForm sv r "" "" (rq_FormValue r "email") "")).

Definition handleRegisterPOST (sv : Server) (r : Request) : prog Response :=
  when negb (srv_allowReg sv) return Ret (httpError "registration disabled" StatusForbidden);;
  when negb (rq_ParseOK r) return Ret (httpError "bad request" StatusBadRequest);;
  let showErr msg :=
    render "register.html" (ssoDataFromForm sv r "" msg (rq_FormValue r "email") (rq_FormValue r "name")) in
  let name := TrimSpace (rq_FormValue r "name") in
  let email := login_email r in
  let password := rq_FormValue r "password" in
  when bool_decide (name = "") || bool_decide (email = "") || bool_decide (password = "") return
    Ret (showErr "All fields are required.");;
  v <- policy_First sv (ask None None password false);;
  match v with
  | Some v => Ret (showErr (pv_Message v))
  | None =>
      try hash <- HashPassword password else _e => Ret (showErr "An error occurred. Please try again.");;
      reg <- create_and_audit r email hash name
               [("email", MStr email); ("via", MStr "self-registration")] showErr;;
      match reg with
      | inl resp => Ret resp
      | inr _ => Ret (httpRedirect (LocQuery "/authorize" ((λ k, (k, rq_FormValue r k)) <$> sso_params)))
      end
  end.

End portal.

#[global] Arguments readAuthPortalSession : simpl never.
#[global] Arguments slidePortalSession : simpl never.
#[global] Arguments setPortalCookie : simpl never.
#[global] Arguments setPortalLoginCookie : simpl never.
#[global] Arguments getPortalLoginCookie : simpl never.
#[global] Arguments broadcastLogout : simpl never.
#[global] Arguments ensurePortalCookie : simpl never.
#[global] Arguments createPortalSession : simpl never.
#[global] Arguments seat_and_go : simpl never.
#[global] Arguments policy_First : simpl never.
#[global] Arguments portalMFAMethods : simpl never.
#[global] Arguments promoteIfFirstUser : simpl never.
#[global] Arguments login_refused : simpl never.
#[global] Arguments create_and_audit : simpl never.
