(* ===== verification/PortalFacts.v ===== *)
(** * Portal sessions: properties

    What the handlers of [Portal] guarantee: a session is opened only after
    the checks its flow requires, the cookie middleware admits only live
    sessions, sign-out reaches every relying party and ends every session,
    wrong passwords lock the account, and no account exists unaudited. *)
From S2P Require Import Prelude GoStrings GoNet Model Dialect Policy Tables SqliteUsers SqliteTokens SqliteAws Store Pkce Prog.
From S2P Require Import SingleUse Typed Server Provision Awsfed Fixture Mfa Portal.

Local Open Scope Z_scope.
Local Open Scope prog_scope.

(** ** What the traces of the portal handlers contain *)

Section properties.
  Context `{U : UnicodeTables} {dialect : Dialect} `{X : Externals}.

Lemma logAudit_sessions r a u c m tr x : path (logAudit r a u c m) tr x → sessions_created tr = [].
Proof.
  intros (tr0 & e & -> & Hr & _)%logAudit_path. by rewrite collect_app, (collect_reads _ _ Hr).
Qed.

Lemma setPortalCookie_path tok ttl name tr x :
  path (setPortalCookie tok ttl name) tr x → Forall (λ e, writes e = false) tr.
Proof. unfold setPortalCookie. intros H. path_step H. path_step H; path_step H; subst; by repeat constructor. Qed.

Lemma setPortalLoginCookie_path uid tr x :
  path (setPortalLoginCookie uid) tr x → Forall (λ e, writes e = false) tr.
Proof.
  unfold setPortalLoginCookie. intros H. path_step H. path_step H.
  path_step H; path_step H; subst; by repeat constructor.
Qed.

(** A login state comes from an unexpired cookie that opened and decoded. *)
Lemma getPortalLoginCookie_path r tr x :
  path (getPortalLoginCookie r) tr x →
  Forall (λ e, writes e = false) tr ∧
  (∀ st, x = Ok st → ∃ v raw t, rq_Cookie r portalLoginCookie = Some v ∧ Open v = Ok raw ∧
     loginState_Unmarshal raw = Ok st ∧ tr = [Ev OpNow t] ∧ t ≤ pls_Exp st).
Proof.
  unfold getPortalLoginCookie. intros H.
  path_step H; [|path_step H; by subst]. path_step H; [|path_step H; by subst].
  path_step H; [|path_step H; by subst]. path_step H. path_step H. subst.
  split; [by repeat constructor|]. intros st.
  destruct (_ <? _) eqn:E; [done|]. intros [= <-]. apply Z.ltb_ge in E. eauto 10.
Qed.

(** The portal session behind a cookie is live, and reading it writes nothing. *)
Lemma readAuthPortalSession_path r tr x :
  path (readAuthPortalSession r) tr x →
  Forall (λ e, writes e = false) tr ∧
  ∀ sess user tok, x = Ok (Some (sess, user, tok)) →
    ∃ v t, rq_Cookie r portalCookie = Some v ∧ Open v = Ok tok ∧
      tr = [Ev (OpDb (QGetSessionByAccessTokenHash (HashToken tok))) (Ok sess); Ev OpNow t;
            Ev (OpDb (QGetUserByID (s_UserID sess))) (Ok user)] ∧
      t ≤ s_AccessExpiresAt sess ∧ t ≤ s_CreatedAt sess + absoluteSessionTTL.
Proof.
  unfold readAuthPortalSession. intros H.
  path_step H; [|path_step H; by subst]. path_step H; [|path_step H; by subst].
  path_step H. path_step H; [|path_step H; subst; split; [by repeat constructor|done]].
  path_step H. path_step H; [path_step H; subst; split; [by repeat constructor|done]|].
  path_step H; [path_step H; subst; split; [by repeat constructor|done]|].
  path_step H. path_step H; [|path_step H; subst; split; [by repeat constructor|done]].
  path_step H. subst. apply Z.ltb_ge in Hb, Hb0. split; [by repeat constructor|].
  intros sess user tok [= <- <- <-]. eauto 10.
Qed.

(** A new portal session is the given user's, and its cookie is set only when
    its creation and its journal entry both succeeded. *)
Lemma createPortalSession_path r user tr x :
  path (createPortalSession r user) tr x →
  (∀ s, s ∈ sessions_created tr → ∃ id a n t, s = portal_session id user a n t) ∧
  (∀ c, x = Seated c → ∃ id a n t e,
     [Ev (OpDb (QCreateSession (portal_session id user a n t))) (Ok tt); Ev (OpAppend e) (Ok tt)]
       `sublist_of` tr ∧
     ent_Action e = ActionLogin ∧ ent_UserID e = Some (u_ID user) ∧ ck_Name c = portalCookie).
Proof.
  unfold createPortalSession. intros H.
  path_step H. path_step H; [|path_step H; subst; split; [intros s Hs; by apply not_elem_of_nil in Hs|done]].
  path_step H. path_step H; [|path_step H; subst; split; [intros s Hs; by apply not_elem_of_nil in Hs|done]].
  path_step H. path_step H. path_step H.
  assert (∀ res rest, sessions_created rest = [] →
    ∀ s, s ∈ sessions_created (Ev OpRawToken (Ok a) :: Ev OpRawToken (Ok a0) :: Ev OpNow t :: Ev OpUUID id
      :: Ev (OpDb (QCreateSession (portal_session id user a a0 t))) res :: rest) →
    ∃ id a n t, s = portal_session id user a n t) as Hone.
  { intros res rest Hrest s. rewrite !collect_cons. cbn [created_session].
    rewrite Hrest, list_elem_of_singleton. intros ->. by eauto. }
  path_step H; [|path_step H; subst; split; [by apply Hone|done]]. destruct_unit.
  path_call H. pose proof (logAudit_sessions _ _ _ _ _ _ _ Hcall) as Hl.
  apply logAudit_path in Hcall as (tr0 & e & -> & Hr & He1 & He2 & _).
  path_step H; [|path_step H; subst; split; [|done]; apply Hone; by rewrite app_nil_r]. destruct_unit.
  path_call H. path_step H. subst.
  unfold setPortalCookie in Hcall. path_step Hcall.
  split.
  - apply Hone. rewrite collect_app, Hl. path_step Hcall; path_step Hcall; by subst.
  - intros c. path_step Hcall; path_step Hcall; subst; [|done]. intros [= <-].
    exists id, a, a0, t, e. split; [in_trace|done].
Qed.

Lemma seat_and_go_path r user failed tr x :
  path (seat_and_go r user failed) tr x →
  ∀ s, s ∈ sessions_created tr → ∃ id a n t, s = portal_session id user a n t.
Proof.
  unfold seat_and_go. intros H. path_call H. path_step H. subst. rewrite app_nil_r.
  by apply createPortalSession_path in Hcall as [? _].
Qed.

Lemma login_refused_path r user client meta form tr x :
  path (login_refused r user client meta form) tr x → sessions_created tr = [].
Proof.
  unfold login_refused. intros H. path_call H. path_call H. apply logAudit_sessions in Hcall0 as Hl.
  assert (sessions_created tr0 = []) as H0.
  { path_step Hcall; [|path_step Hcall; by subst]. unfold incrementFailedAttempts in Hcall.
    path_call Hcall. path_step Hcall. path_step Hcall. subst.
    path_step Hcall1; [path_step Hcall1|]; path_step Hcall1; by subst. }
  rewrite !collect_app, H0, Hl. path_step H; path_step H; by subst.
Qed.

(** The policy is asked with the readings of the clock the trace shows. *)
Lemma policy_First_path sv ctx tr v :
  path (policy_First sv ctx) tr v →
  Forall (λ e, writes e = false) tr ∧ Forall (λ e, ∃ t, e = Ev OpNow t) tr ∧
  ∃ clock, First clock (srv_policy sv) ctx = v ∧
    (v = None → tr = Ev OpNow <$> readings clock (rules (srv_policy sv)) ctx).
Proof. intros [? ?]%engine_First_path. split; [by apply clock_reads|done]. Qed.

(** C13: the password alone opens a portal session only for an account that
    needs nothing more.  [POST /portal/login] inserts a session only for the
    user with the given address, whose password it checked, who is active,
    has no violation of the policy at that moment (lockout, expired
    password), need not change the password and has no second factor. *)
Theorem portal_login_sound sv r tr resp s :
  path (handlePortalLoginPOST sv r) tr resp → s ∈ sessions_created tr →
  ∃ user clock,
    Ev (OpDb (QGetUserByEmail (login_email r))) (Ok user)
      :: (Ev OpNow <$> readings clock (rules (srv_policy sv)) (ask (Some user) None "" false)) `sublist_of` tr ∧
    CheckPassword (u_PasswordHash user) (rq_FormValue r "password") = true ∧
    u_Active user = true ∧ u_MustChangePassword user = false ∧ u_MFAEnabled user = false ∧
    First clock (srv_policy sv) (ask (Some user) None "" false) = None ∧
    s_UserID s = u_ID user ∧ s_ClientID s = portalClientUUID ∧ s_MFAVerified s = false ∧
    (u_IsAdmin user = false → "admin" ∉ s_Scopes s).
Proof.
  unfold handlePortalLoginPOST. intros H Hs. path_step H.
  path_step H; [|path_step H; try (path_step H; subst; collect_in Hs);
                 apply login_refused_path in H; collect_in Hs].
  path_step H; [apply login_refused_path in H; collect_in Hs|].
  path_step H; [path_step H; subst; collect_in Hs|]. path_call H.
  apply policy_First_path in Hcall as (Hnow & _ & clock & Hf & Hclock).
  path_step H; [path_step H; subst; collect_in Hs|].
  unfold portal_login_continue in H. path_step H.
  path_step H; [path_call H; apply setPortalLoginCookie_path in Hcall; path_step H; subst; collect_in Hs|].
  path_step H; [path_call H; apply setPortalLoginCookie_path in Hcall; path_step H; subst; collect_in Hs|].
  pose proof (seat_and_go_path _ _ _ _ _ H s) as Hc. collect_in Hs. destruct (Hc Hs) as (id & acc & n & t' & ->).
  exists a, clock. rewrite negb_false_iff in Hb, Hb0. rewrite (Hclock eq_refl). split_and!; try done.
  - apply sublist_skip, sublist_inserts_r. done.
  - simpl. unfold portal_scopes. intros ->. set_solver.
Qed.

(** With a second factor enrolled, a portal session takes a code.  [POST
    /portal/login/mfa] inserts a session only for the user named by an
    unexpired login cookie, when no password change is due and the submitted
    code is valid for the secret of an enabled credential of that user; a
    wrong code is journalled. *)
Theorem portal_mfa_sound r tr resp s :
  path (handlePortalLoginMFA r) tr resp → s ∈ sessions_created tr →
  ∃ v raw st t user cred sec,
    rq_Cookie r portalLoginCookie = Some v ∧ Open v = Ok raw ∧ loginState_Unmarshal raw = Ok st ∧
    t ≤ pls_Exp st ∧ u_MustChangePassword user = false ∧ totp_Enabled cred = true ∧
    [Ev OpNow t; Ev (OpDb (QGetUserByID (pls_UserID st))) (Ok user);
     Ev (OpDb (QGetTOTPByUserID (u_ID user))) (Ok cred);
     Ev (OpDecrypt (totp_EncryptedDEK cred) (totp_EncryptedSecret cred)) (Ok sec);
     Ev (OpValidateTOTP sec (rq_FormValue r "code")) true] `sublist_of` tr ∧
    s_UserID s = u_ID user ∧ s_ClientID s = portalClientUUID.
Proof.
  unfold handlePortalLoginMFA. intros H Hs. path_call H.
  apply getPortalLoginCookie_path in Hcall as [Hr1 Hst].
  path_step H; [|path_step H; subst; collect_in Hs].
  destruct (Hst _ eq_refl) as (v & raw & t & Hv & Ho & Hu & -> & Ht).
  path_step H. path_step H; [|path_step H; subst; collect_in Hs].
  path_step H; [path_step H; subst; collect_in Hs|].
  path_call H. unfold portalMFAMethods in Hcall. do 3 path_step Hcall. subst.
  path_step H; [path_step H; subst; collect_in Hs|].
  path_call H. apply VerifyTOTP_path in Hcall as [Hr2 Hok].
  path_step H; [|path_call H; apply logAudit_sessions in Hcall; path_step H; path_step H; subst; collect_in Hs].
  destruct_unit. destruct (Hok eq_refl) as (cred & sec & Hen & ->).
  path_call H. path_step H. subst. pose proof (seat_and_go_path _ _ _ _ _ Hcall s) as Hc.
  collect_in Hs. destruct (Hc Hs) as (id & acc & n & t' & ->).
  eexists v, raw, _, t, _, cred, sec. split_and!; try done. in_trace.
Qed.

(** What a request through the gate did. *)
Lemma portalAuth_path next r tr resp :
  path (portalAuth next r) tr resp →
  resp = with_cookies [clearCookie portalCookie] (httpRedirect (LocPath "/portal/login")) ∧
    Forall (λ e, writes e = false) tr
  ∨ ∃ v tok sess user t t1 exp sess' tr1 tr2 resp' cks r1 r2,
      rq_Cookie r portalCookie = Some v ∧ Open v = Ok tok ∧
      t ≤ s_AccessExpiresAt sess ∧ t ≤ s_CreatedAt sess + absoluteSessionTTL ∧
      exp ≤ t1 + 15 * Minute ∧ exp ≤ s_CreatedAt sess + 4 * Hour ∧
      tr = Ev (OpDb (QGetSessionByAccessTokenHash (HashToken tok))) (Ok sess) :: Ev OpNow t
           :: Ev (OpDb (QGetUserByID (s_UserID sess))) (Ok user) :: Ev OpNow t1
           :: Ev (OpDb (QExtendSessionExpiry (s_ID sess) exp)) r1
           :: Ev (OpDb (QUpdateSessionActivity (s_ID sess) t1)) r2 :: tr1 ++ tr2 ∧
      Forall (λ e, writes e = false) tr1 ∧ s_ID sess' = s_ID sess ∧
      path (next (mkPortalCtx sess' user) r) tr2 resp' ∧ resp = with_cookies cks resp'.
Proof.
  unfold portalAuth. intros H. path_call H. apply readAuthPortalSession_path in Hcall as [Hr Hlive].
  path_step H; [|path_step H; subst; left; by rewrite app_nil_r].
  path_step H; [|path_step H; subst; left; by rewrite app_nil_r].
  destruct p as [[sess user] tok]. destruct (Hlive _ _ _ eq_refl) as (v & t & Hv & Ho & -> & Ha & Hc).
  right. path_call H. path_call H. path_step H. subst. unfold slidePortalSession in Hcall.
  do 4 path_step Hcall. path_call Hcall. apply setPortalCookie_path in Hcall1. path_step Hcall. subst.
  match goal with
  | Hck : Forall _ ?trc, Hn : path (next (mkPortalCtx ?s' _) _) ?trn ?rn |- _ =>
      exists v, tok, sess, user, t, t0, (capByAbsolute (t0 + portalCookieTTL) (s_CreatedAt sess)),
        s', (Ev OpNow t1 :: trc), trn, rn; eexists _, _, _
  end.
  split_and!; [done..| | | | | |exact Hcall0|reflexivity].
  - unfold capByAbsolute, portalCookieTTL. destruct (_ <? _) eqn:E; [apply Z.ltb_lt in E|]; lia.
  - unfold capByAbsolute, absoluteSessionTTL. destruct (_ <? _) eqn:E; [|apply Z.ltb_ge in E]; lia.
  - cbn [app]. rewrite !app_nil_r. reflexivity.
  - by repeat constructor.
  - simpl. case_match; done.
Qed.

(** C14: what [portalAuth] lets through.  The handler behind it runs only with a
    session found by the cookie's token, unexpired and within four hours of
    its creation, and its user; the session's expiry is then moved at most
    fifteen minutes ahead and never past those four hours, the activity
    recorded, and the cookie re-issued.  Without such a session the browser is
    sent to the login page, its cookie cleared and nothing written. *)
Theorem portal_gate next r tr resp :
  path (portalAuth next r) tr resp →
  resp = with_cookies [clearCookie portalCookie] (httpRedirect (LocPath "/portal/login")) ∧
    Forall (λ e, writes e = false) tr
  ∨ ∃ v tok sess user t t1 exp sess' tr1 tr2 resp' cks r1 r2,
      rq_Cookie r portalCookie = Some v ∧ Open v = Ok tok ∧
      t ≤ s_AccessExpiresAt sess ∧ t ≤ s_CreatedAt sess + absoluteSessionTTL ∧
      exp ≤ t1 + 15 * Minute ∧ exp ≤ s_CreatedAt sess + 4 * Hour ∧
      tr = Ev (OpDb (QGetSessionByAccessTokenHash (HashToken tok))) (Ok sess) :: Ev OpNow t
           :: Ev (OpDb (QGetUserByID (s_UserID sess))) (Ok user) :: Ev OpNow t1
           :: Ev (OpDb (QExtendSessionExpiry (s_ID sess) exp)) r1
           :: Ev (OpDb (QUpdateSessionActivity (s_ID sess) t1)) r2 :: tr1 ++ tr2 ∧
      Forall (λ e, writes e = false) tr1 ∧ s_ID sess' = s_ID sess ∧
      path (next (mkPortalCtx sess' user) r) tr2 resp' ∧ resp = with_cookies cks resp'.
Proof. apply portalAuth_path. Qed.

End properties.

(** ** Sign-out *)

(** The back-channel pushes a user's sign-out owes, from the database. *)
Definition logout_push (d : DB) (sub : uuid) (sid : string) (cid : uuid) : option Outbound :=
  if bool_decide (cid = portalClientUUID) then None
  else
    client ← db_clients d !! cid;
    uri ← c_BackchannelLogoutURI client;
    if bool_decide (TrimSpace uri = "") then None
    else Some (PushLogout (c_ID client) uri (c_ClientID client) sub sid).

Section runs.
  Context `{U : UnicodeTables} {dialect : Dialect} `{X : Externals} (env : Env) (Hr : reliable env).

Lemma exec_push_all cids sub sid w :
  ∃ n, exec env (push_all cids sub sid) w =
    (tt, mkWorld (w_db w) n (w_journal w) (w_outbox w ++ omap (logout_push (w_db w) sub sid) cids)
      (w_outside w)).
Proof.
  revert w. induction cids as [|cid cids IH]; intros w.
  { exists (w_step w). simpl. rewrite app_nil_r. by destruct w. }
  cbn [push_all omap list_omap]. unfold logout_push at 1.
  destruct (bool_decide (cid = portalClientUUID)); [apply IH|].
  rewrite exec_db by done. cbn [run_query reading fst snd]. unfold GetClientByID.
  destruct (db_clients (w_db w) !! cid) as [c|]; cbn [one_row mbind option_bind];
    [|exact (IH (tick w))].
  destruct (c_BackchannelLogoutURI c) as [uri|]; cbn [mbind option_bind]; [|exact (IH (tick w))].
  destruct (bool_decide (TrimSpace uri = "")); [exact (IH (tick w))|].
  rewrite exec_bind. cbn [exec do_op step_op fst snd w_db w_step w_journal w_outbox w_outside].
  destruct (IH (mkWorld (w_db w) (S (S (w_step w))) (w_journal w)
    (w_outbox w ++ [PushLogout (c_ID c) uri (c_ClientID c) sub sid]) (w_outside w))) as [n ->].
  exists n. cbn [w_db w_journal w_outbox w_outside]. by rewrite <- app_assoc.
Qed.

(** The relying parties that hold a session of the user. *)
Definition session_clients (uid : uuid) (d : DB) : list uuid :=
  remove_dups (sr_client_id <$> filter (λ r, sr_user_id r = Some uid) (map_to_list (db_sessions d)).*2).

Lemma elem_session_clients uid d cid :
  cid ∈ session_clients uid d ↔
  ∃ i row, db_sessions d !! i = Some row ∧ sr_user_id row = Some uid ∧ sr_client_id row = cid.
Proof.
  unfold session_clients. rewrite elem_of_remove_dups, list_elem_of_fmap. split.
  - intros (row & -> & [Hu Hin]%list_elem_of_filter).
    apply list_elem_of_fmap in Hin as ([i x] & -> & Hin%elem_of_map_to_list). by eauto.
  - intros (i & row & Hi & Hu & <-). exists row. split; [done|]. apply list_elem_of_filter. split; [done|].
    apply list_elem_of_fmap. exists (i, row). split; [done|]. by apply elem_of_map_to_list.
Qed.

Lemma exec_broadcastLogout sv uid user w :
  srv_hasSigner sv = true → db_users (w_db w) !! uid = Some user → u_ID user = uid →
  ∃ n, exec env (broadcastLogout sv uid "") w =
    (tt, mkWorld (w_db w) n (w_journal w)
           (w_outbox w ++ omap (logout_push (w_db w) uid "") (session_clients uid (w_db w))) (w_outside w)).
Proof.
  intros Hsig Hu Hid. unfold broadcastLogout. rewrite Hsig. cbn [negb].
  rewrite exec_db by done. cbn [run_query reading fst snd]. unfold ListSessionClientIDsByUser.
  fold (session_clients uid (w_db w)). cbv beta iota.
  destruct (session_clients uid (w_db w)) as [|c cs] eqn:Ec.
  { cbn [length]. rewrite bool_decide_true by done. eexists. simpl. by rewrite app_nil_r. }
  rewrite bool_decide_false by done. rewrite exec_db by done. cbn [run_query reading fst snd w_db].
  unfold GetUserByID. rewrite Hu. cbn [one_row]. rewrite Hid.
  match goal with |- context [exec env (push_all ?a ?b ?c) ?w] =>
    destruct (exec_push_all a b c w) as [n ->] end.
  by eexists.
Qed.

(** C15: signing out signs out everywhere.  When nothing fails, [POST
    /portal/logout] hands to the network, in the order of the user's session
    clients, exactly one user-wide logout push for every relying party that
    holds a session of the user and has a back-channel URI (the pushes are
    collected before the sessions go), then deletes every session of that
    user and no other, journals the sign-out and clears the cookie. *)
Theorem logout_everywhere sv pc r w user :
  srv_hasSigner sv = true → db_users (w_db w) !! u_ID (px_User pc) = Some user →
  u_ID user = u_ID (px_User pc) →
  let uid := u_ID (px_User pc) in
  let '(resp, w') := exec env (handlePortalLogout sv pc r) w in
  resp = with_cookies [clearCookie portalCookie] (httpRedirect (LocPath "/portal/login")) ∧
  w_outbox w' = w_outbox w ++ omap (logout_push (w_db w) uid "") (session_clients uid (w_db w)) ∧
  db_sessions (w_db w') = filter (λ kr, sr_user_id kr.2 ≠ Some uid) (db_sessions (w_db w)) ∧
  (∃ e, w_journal w' = w_journal w ++ [e] ∧ ent_Action e = ActionLogout ∧ ent_UserID e = Some uid) ∧
  ∀ i row c uri, db_sessions (w_db w) !! i = Some row → sr_user_id row = Some uid →
    db_clients (w_db w) !! sr_client_id row = Some c → sr_client_id row ≠ portalClientUUID →
    c_BackchannelLogoutURI c = Some uri → TrimSpace uri ≠ "" →
    PushLogout (c_ID c) uri (c_ClientID c) uid "" ∈ w_outbox w'.
Proof.
  intros Hsig Hu Hid uid. unfold handlePortalLogout. rewrite exec_bind.
  destruct (exec_broadcastLogout sv _ user w Hsig Hu Hid) as [n ->]. cbn [fst snd].
  rewrite exec_db by done. cbn [run_query fst snd w_step w_db]. rewrite exec_bind.
  match goal with |- context [exec env (logAudit ?r ?a ?u ?c ?m) ?w] =>
    destruct (exec_logAudit env r a u c m w Hr) as (e & n' & -> & He1 & He2 & _) end.
  cbn [fst snd exec w_db w_journal w_outbox DeleteSessionsByUserID].
  split; [done|]. split; [done|]. split; [|split; [by eauto|]].
  - apply map_filter_strong_ext. intros i row. simpl. rewrite bool_decide_eq_false. done.
  - intros i row c uri Hi Hrow Hc Hp Huri Ht. apply elem_of_app. right. apply list_elem_of_omap.
    exists (sr_client_id row). split; [apply elem_session_clients; by eauto|].
    unfold logout_push. rewrite bool_decide_false by done. rewrite Hc. simpl. rewrite Huri. simpl.
    by rewrite bool_decide_false.
Qed.

End runs.

(** ** Registration *)

Section registration.
  Context `{U : UnicodeTables} {dialect : Dialect} `{X : Externals}.

(** The calls that hand an account on: to the registry and its targets. *)
Definition provisions (e : event) : bool :=
  match e with Ev OpSnapshot _ | Ev (OpHTTP _) _ | Ev (OpIAM _) _ => true | _ => false end.

(** Calls that create no account, open no session and provision nothing. *)
Definition quiet (e : event) : Prop :=
  created_user e = None ∧ created_session e = None ∧ provisions e = false.

Lemma quiet_users tr : Forall quiet tr → users_created tr = [].
Proof. intros H. apply collect_none. eapply Forall_impl; [|exact H]. by intros ? []. Qed.

Lemma quiet_sessions tr : Forall quiet tr → sessions_created tr = [].
Proof. intros H. apply collect_none. eapply Forall_impl; [|exact H]. by intros ? (_ & ? & _). Qed.

Lemma quiet_provisions tr : Forall quiet tr → existsb provisions tr = false.
Proof. induction 1 as [|e tr He _ IH]; [done|]. cbn. rewrite IH. by destruct He as (_ & _ & ->). Qed.

Lemma logAudit_quiet r a u c m tr x : path (logAudit r a u c m) tr x → Forall quiet tr.
Proof.
  unfold logAudit. intros H. path_call H. path_call H. repeat path_step H. subst.
  rewrite !Forall_app. split_and!; [| |by repeat constructor].
  - destruct u; repeat path_step Hcall; by repeat constructor.
  - destruct c; repeat path_step Hcall0; by repeat constructor.
Qed.

Lemma clock_quiet tr : Forall (λ e, ∃ t, e = Ev OpNow t) tr → Forall quiet tr.
Proof. apply Forall_impl. by intros ? [t ->]. Qed.

Lemma promoteIfFirstUser_path u tr x :
  path (promoteIfFirstUser u) tr x → Forall quiet tr ∧ u_ID x = u_ID u.
Proof.
  unfold promoteIfFirstUser. intros H. path_step H. path_step H; [|path_step H; subst; by repeat constructor].
  path_step H; [path_step H; subst; by repeat constructor|]. path_step H.
  path_step H; path_step H; subst; by repeat constructor.
Qed.

(** Provisioning creates no account. *)
Lemma provisionUser_users op u gs tr x : path (provisionUser op u gs) tr x → users_created tr = [].
Proof.
  intros H. apply collect_none. eapply Forall_impl; [|eapply calls_path; [apply provisionUser_calls|exact H]].
  intros [Y o y]. destruct o; try done. by destruct q.
Qed.

(** What both registration forms do once their checks passed: create, then
    journal and provision, or undo. *)
Lemma create_and_audit_path r email hash name meta showErr tr x :
  path (create_and_audit r email hash name meta showErr) tr x →
  match x with
  | inr user => ∃ u0 mid e tp, u_ID user = u_ID u0 ∧ ent_Action e = ActionUserCreated ∧
      ent_UserID e = Some (u_ID u0) ∧ Forall quiet mid ∧ users_created tp = [] ∧
      tr = Ev (OpDb (QCreateUser email hash name)) (Ok u0) :: mid ++ Ev (OpAppend e) (Ok tt) :: tp
  | inl resp =>
      Forall quiet tr ∨
      (∃ err, resp = auditFail err) ∧ ∃ u0 mid e err d, Forall quiet mid ∧
        tr = Ev (OpDb (QCreateUser email hash name)) (Ok u0) :: mid
             ++ [Ev (OpAppend e) (Err err); Ev (OpDb (QDeleteUser (u_ID u0))) d]
  end.
Proof.
  unfold create_and_audit. intros H. path_step H.
  path_step H; [|path_step H; path_step H; subst; left; by repeat constructor].
  path_call H. apply promoteIfFirstUser_path in Hcall as [Hs1 Hid].
  path_call H. pose proof (logAudit_quiet _ _ _ _ _ _ _ Hcall) as Hs2.
  apply logAudit_path in Hcall as (trr & e & -> & _ & He1 & He2 & _).
  apply Forall_app in Hs2 as [Hs2 _].
  path_step H.
  - destruct_unit. path_call H. apply provisionUser_users in Hcall as Hp. path_step H. subst.
    exists a. eexists (_ ++ trr), e, _. split_and!; [done..|congruence| |exact Hp|].
    + apply Forall_app. split; [exact Hs1|exact Hs2].
    + by rewrite <- !app_assoc, app_nil_r.
  - path_call H. unfold undo_user in Hcall. do 2 path_step Hcall. path_step H. subst.
    right. split; [by eexists|]. exists a. eexists (_ ++ trr), e, _, _. split.
    + apply Forall_app. split; [exact Hs1|exact Hs2].
    + rewrite <- !app_assoc, Hid. reflexivity.
Qed.

Lemma seat_and_go_users r user failed tr x :
  path (seat_and_go r user failed) tr x → users_created tr = [].
Proof.
  unfold seat_and_go, createPortalSession. intros H. path_call H. path_step H. subst. rewrite app_nil_r.
  path_step Hcall. path_step Hcall; [|path_step Hcall; by subst].
  path_step Hcall. path_step Hcall; [|path_step Hcall; by subst].
  do 3 path_step Hcall. path_step Hcall; [|path_step Hcall; by subst].
  path_call Hcall. apply logAudit_quiet in Hcall0.
  rewrite !collect_cons. cbn [created_user]. rewrite collect_app, (quiet_users _ Hcall0).
  path_step Hcall; [|path_step Hcall; by subst].
  path_call Hcall. path_step Hcall. subst. unfold setPortalCookie in Hcall1. path_step Hcall1.
  path_step Hcall1; path_step Hcall1; by subst.
Qed.

(** The two outcomes of a handler around [create_and_audit]. *)
Definition audited_or_undone (tr : list event) (resp : Response) (id : uuid) : Prop :=
  (∃ e, ent_Action e = ActionUserCreated ∧ ent_UserID e = Some id ∧ Ev (OpAppend e) (Ok tt) ∈ tr) ∨
  (∃ err, resp = auditFail err) ∧ sessions_created tr = [] ∧ existsb provisions tr = false ∧
    ∃ tr0 d, tr = tr0 ++ [Ev (OpDb (QDeleteUser id)) d].

Lemma register_tail r email hash name meta showErr next pre tr resp id :
  (∀ u tr x, path (next u) tr x → users_created tr = []) → Forall quiet pre →
  path (reg <- create_and_audit r email hash name meta showErr;;
        match reg with inl resp => Ret resp | inr user => next user end) tr resp →
  id ∈ users_created (pre ++ tr) → audited_or_undone (pre ++ tr) resp id.
Proof.
  intros Hnext Hpre H Hin. path_call H. apply create_and_audit_path in Hcall.
  rewrite collect_app, (quiet_users _ Hpre) in Hin.
  destruct a as [resp'|user].
  - path_step H. subst. rewrite app_nil_r in Hin |- *. destruct Hcall as [Hq|([err0 ->] & u0 & mid & e & err & d & Hq & ->)].
    + rewrite (quiet_users _ Hq) in Hin. by apply not_elem_of_nil in Hin.
    + rewrite collect_cons, collect_app, (quiet_users _ Hq) in Hin. cbn in Hin.
      apply list_elem_of_singleton in Hin as ->. right. split; [by eexists|].
      rewrite !collect_app, collect_cons, !collect_app. cbn [created_session].
      rewrite (quiet_sessions _ Hpre), (quiet_sessions _ Hq), existsb_app, (quiet_provisions _ Hpre).
      cbn [existsb provisions]. rewrite existsb_app, (quiet_provisions _ Hq). split_and!; [done..|].
      exists (pre ++ Ev (OpDb (QCreateUser email hash name)) (Ok u0) :: mid ++ [Ev (OpAppend e) (Err err)]), d.
      rewrite <- app_assoc. cbn [app]. by rewrite <- app_assoc.
  - destruct Hcall as (u0 & mid & e & tp & Hid & He1 & He2 & Hq & Hp & ->). left. exists e. split; [done|].
    apply Hnext in H. rewrite collect_app, H, collect_cons, collect_app, (quiet_users _ Hq), collect_cons, Hp in Hin.
    cbn in Hin. apply list_elem_of_singleton in Hin as ->. split; [done|].
    rewrite !elem_of_app, elem_of_cons, elem_of_app, elem_of_cons. auto 10.
Qed.

(** No account exists unaudited.  If [POST /portal/register] or [POST
    /register] created an account, then its creation was journalled, or the
    answer is 503, no session was opened, nothing was provisioned, and the
    handler's last call deletes the account. *)
Theorem registration_audited_or_undone sv r tr resp id :
  path (handlePortalRegisterPOST sv r) tr resp ∨ path (handleRegisterPOST sv r) tr resp →
  id ∈ users_created tr → audited_or_undone tr resp id.
Proof.
  intros [H|H] Hin.
  - unfold handlePortalRegisterPOST in H. path_step H; [path_step H; subst; by apply not_elem_of_nil in Hin|].
    path_step H; [path_step H; subst; by apply not_elem_of_nil in Hin|].
    path_step H. path_step H; [|path_step H; subst; by apply not_elem_of_nil in Hin].
    path_call H. apply policy_First_path in Hcall as (_ & Hnow%clock_quiet & _).
    path_step H; [path_step H; subst; rewrite ?app_nil_r, ?collect_cons, (quiet_users _ Hnow) in Hin;
                  by apply not_elem_of_nil in Hin|].
    eapply (register_tail _ _ _ _ _ _ _ (_ :: _)); [|by constructor|exact H|exact Hin].
    intros u tr' x. apply seat_and_go_users.
  - unfold handleRegisterPOST in H. path_step H; [path_step H; subst; by apply not_elem_of_nil in Hin|].
    path_step H; [path_step H; subst; by apply not_elem_of_nil in Hin|].
    path_step H; [path_step H; subst; by apply not_elem_of_nil in Hin|].
    path_call H. apply policy_First_path in Hcall as (_ & Hnow%clock_quiet & _).
    path_step H; [path_step H; subst; rewrite ?app_nil_r, ?collect_cons, (quiet_users _ Hnow) in Hin;
                  by apply not_elem_of_nil in Hin|].
    path_step H. path_step H; [|path_step H; subst; rewrite collect_app, (quiet_users _ Hnow) in Hin;
                                by apply not_elem_of_nil in Hin].
    rewrite cons_middle, app_assoc in Hin |- *.
    eapply (register_tail _ _ _ _ _ _ (λ _, Ret _) (_ ++ [_])); [|by apply Forall_app_2; [|repeat constructor]|exact H|exact Hin].
    intros u tr' x [-> _]. done.
Qed.

End registration.

(** ** Witnesses *)

Definition fx_login_request : Request := form [("email", " Alice@Example.com"); ("password", "Secret123!x")].
Definition fx_login : prog Response := handlePortalLoginPOST fx_sv fx_login_request.

(** The session the login opens. *)
Definition fx_portal_session : Session :=
  default fx_session (head (sessions_created (trace fx_env fx_login fx_world))).

Lemma portal_login_sound_witness :
  ∃ user clock,
    Ev (OpDb (QGetUserByEmail (login_email fx_login_request))) (Ok user)
      :: (Ev OpNow <$> readings clock (rules (srv_policy fx_sv)) (ask (Some user) None "" false))
      `sublist_of` trace fx_env fx_login fx_world ∧
    CheckPassword (u_PasswordHash user) "Secret123!x" = true ∧
    u_Active user = true ∧ u_MustChangePassword user = false ∧ u_MFAEnabled user = false ∧
    First clock (srv_policy fx_sv) (ask (Some user) None "" false) = None ∧
    s_UserID fx_portal_session = u_ID user ∧ s_ClientID fx_portal_session = portalClientUUID ∧
    s_MFAVerified fx_portal_session = false ∧
    (u_IsAdmin user = false → "admin" ∉ s_Scopes fx_portal_session).
Proof.
  apply (portal_login_sound fx_sv fx_login_request (trace fx_env fx_login fx_world)
           (exec fx_env fx_login fx_world).1 fx_portal_session); [apply exec_path|].
  vm_compute. left.
Defined.

(** Alice enrols and confirms a second factor, then logs in with it. *)
Definition fx_mfa_world : World :=
  (exec fx_env (ConfirmTOTP 7%N "123456") (exec fx_env (EnrollTOTP fx_user) fx_world).2).2.
Definition fx_mfa_request : Request := with_cookie portalLoginCookie "sealed:login" (form [("code", "123456")]).
Definition fx_mfa_session : Session :=
  default fx_session (head (sessions_created (trace fx_env (handlePortalLoginMFA fx_mfa_request) fx_mfa_world))).

Lemma portal_mfa_sound_witness :
  ∃ v raw st t user cred sec,
    rq_Cookie fx_mfa_request portalLoginCookie = Some v ∧ Open v = Ok raw ∧ loginState_Unmarshal raw = Ok st ∧
    t ≤ pls_Exp st ∧ u_MustChangePassword user = false ∧ totp_Enabled cred = true ∧
    [Ev OpNow t; Ev (OpDb (QGetUserByID (pls_UserID st))) (Ok user);
     Ev (OpDb (QGetTOTPByUserID (u_ID user))) (Ok cred);
     Ev (OpDecrypt (totp_EncryptedDEK cred) (totp_EncryptedSecret cred)) (Ok sec);
     Ev (OpValidateTOTP sec (rq_FormValue fx_mfa_request "code")) true]
      `sublist_of` trace fx_env (handlePortalLoginMFA fx_mfa_request) fx_mfa_world ∧
    s_UserID fx_mfa_session = u_ID user ∧ s_ClientID fx_mfa_session = portalClientUUID.
Proof.
  apply (portal_mfa_sound fx_mfa_request (trace fx_env (handlePortalLoginMFA fx_mfa_request) fx_mfa_world)
    (exec fx_env (handlePortalLoginMFA fx_mfa_request) fx_mfa_world).1 fx_mfa_session);
    [apply exec_path|]. vm_compute. left.
Defined.

(** The browser comes back with the cookie of the login. *)
Definition fx_portal_world : World := (exec fx_env fx_login fx_world).2.
Definition fx_portal_request : Request := with_cookie portalCookie "sealed:tttt" (form []).
Definition fx_portal_get : prog Response :=
  portalAuth (λ _ _, Ret (render "portal_home.html" [])) fx_portal_request.

Lemma portal_gate_witness :
  rs_Body (exec fx_env fx_portal_get fx_portal_world).1 = Page "portal_home.html" [] ∧
  ((exec fx_env fx_portal_get fx_portal_world).1
     = with_cookies [clearCookie portalCookie] (httpRedirect (LocPath "/portal/login")) ∧
     Forall (λ e, writes e = false) (trace fx_env fx_portal_get fx_portal_world)
   ∨ ∃ v tok sess user t t1 exp sess' tr1 tr2 resp' cks r1 r2,
      rq_Cookie fx_portal_request portalCookie = Some v ∧ Open v = Ok tok ∧
      t ≤ s_AccessExpiresAt sess ∧ t ≤ s_CreatedAt sess + absoluteSessionTTL ∧
      exp ≤ t1 + 15 * Minute ∧ exp ≤ s_CreatedAt sess + 4 * Hour ∧
      trace fx_env fx_portal_get fx_portal_world
        = Ev (OpDb (QGetSessionByAccessTokenHash (HashToken tok))) (Ok sess) :: Ev OpNow t
           :: Ev (OpDb (QGetUserByID (s_UserID sess))) (Ok user) :: Ev OpNow t1
           :: Ev (OpDb (QExtendSessionExpiry (s_ID sess) exp)) r1
           :: Ev (OpDb (QUpdateSessionActivity (s_ID sess) t1)) r2 :: tr1 ++ tr2 ∧
      Forall (λ e, writes e = false) tr1 ∧ s_ID sess' = s_ID sess ∧
      path (Ret (render "portal_home.html" [])) tr2 resp' ∧
      (exec fx_env fx_portal_get fx_portal_world).1 = with_cookies cks resp').
Proof.
  split; [vm_compute; reflexivity|].
  apply (portal_gate (λ _ _, Ret (render "portal_home.html" [])) fx_portal_request
    (trace fx_env fx_portal_get fx_portal_world) (exec fx_env fx_portal_get fx_portal_world).1).
  apply exec_path.
Defined.

(** The relying party registers a back-channel URI; Alice signs out. *)
Definition fx_logout_world : World :=
  mkWorld (effect 0%N (QUpdateClient 8%N "RP" ["https://rp.example/cb"] ["openid"] false
                         (Some "https://rp.example/logout")) fx_db) 0 [] [] fx_outside.
Definition fx_logout : prog Response := handlePortalLogout fx_sv (mkPortalCtx fx_session fx_user) (form []).

Lemma logout_everywhere_witness :
  w_outbox (exec fx_env fx_logout fx_logout_world).2
    = [PushLogout 8%N "https://rp.example/logout" "rp" 7%N ""] ∧
  let uid := u_ID fx_user in
  let '(resp, w') := exec fx_env fx_logout fx_logout_world in
  resp = with_cookies [clearCookie portalCookie] (httpRedirect (LocPath "/portal/login")) ∧
  w_outbox w' = w_outbox fx_logout_world
    ++ omap (logout_push (w_db fx_logout_world) uid "") (session_clients uid (w_db fx_logout_world)) ∧
  db_sessions (w_db w') = filter (λ kr, sr_user_id kr.2 ≠ Some uid) (db_sessions (w_db fx_logout_world)) ∧
  (∃ e, w_journal w' = w_journal fx_logout_world ++ [e] ∧ ent_Action e = ActionLogout ∧ ent_UserID e = Some uid) ∧
  ∀ i row c uri, db_sessions (w_db fx_logout_world) !! i = Some row → sr_user_id row = Some uid →
    db_clients (w_db fx_logout_world) !! sr_client_id row = Some c → sr_client_id row ≠ portalClientUUID →
    c_BackchannelLogoutURI c = Some uri → TrimSpace uri ≠ "" →
    PushLogout (c_ID c) uri (c_ClientID c) uid "" ∈ w_outbox w'.
Proof.
  split; [vm_compute; reflexivity|].
  apply (logout_everywhere fx_env fx_reliable fx_sv (mkPortalCtx fx_session fx_user) (form []) fx_logout_world fx_user);
    [reflexivity|vm_compute; reflexivity|reflexivity].
Defined.

(** The journal refuses the record of a registration. *)
Definition fx_register_request : Request :=
  form [("email", "bob@example.com"); ("name", "Bob"); ("password", "Secret123!xyz"); ("confirm", "Secret123!xyz")].
Definition fx_register : prog Response := handlePortalRegisterPOST fx_sv fx_register_request.

Lemma registration_audited_or_undone_witness :
  rs_Status (exec (fx_env_fault 6) fx_register fx_world).1 = StatusServiceUnavailable ∧
  db_users (w_db (exec (fx_env_fault 6) fx_register fx_world).2) !! 1001%N = None ∧
  audited_or_undone (trace (fx_env_fault 6) fx_register fx_world)
    (exec (fx_env_fault 6) fx_register fx_world).1 1001%N.
Proof.
  split; [vm_compute; reflexivity|]. split; [vm_compute; reflexivity|].
  apply (registration_audited_or_undone fx_sv fx_register_request
    (trace (fx_env_fault 6) fx_register fx_world) (exec (fx_env_fault 6) fx_register fx_world).1 1001%N);
    [left; apply exec_path|vm_compute; left].
Defined.

(** Two registrations race for the first account of a fresh deployment. *)
Definition fx_fresh_race : pool Response :=
  run_pool fx_env (concat (replicate 20 [0%nat; 1%nat]))
    (mkPool (mkWorld (migrated_db (1000 * Second + 1234)) 0 [] [] fx_outside) [fx_register; fx_register] []).

Lemma timestamps_well_typed_witness :
  size (db_users (w_db (p_world fx_fresh_race))) = 1%nat ∧ db_typed (w_db (p_world fx_fresh_race)).
Proof.
  split; [vm_compute; reflexivity|].
  destruct (timestamps_well_typed fx_env (concat (replicate 20 [0%nat; 1%nat]))
    (mkPool (mkWorld (migrated_db (1000 * Second + 1234)) 0 [] [] fx_outside) [fx_register; fx_register] [])
    (1000 * Second + 1234)) as [Hmigrated Hkept].
  exact (Hkept Hmigrated).
Defined.

