(* ===== verification/Authorize.v ===== *)
(** * The authorization endpoint

    [GET] and [POST /authorize] and the TOTP step between the password and the
    code ([internal/api/oauth2.go]): redirect URI and scope checks, silent
    single sign-on from the portal session, the password login, the encrypted
    state carried through the MFA step, and the issuance of authorization
    codes.  The page of the WebAuthn variant of the MFA step is here; its
    begin and finish endpoints are in [WebAuthn]. *)
From S2P Require Import Prelude GoStrings GoNet Model Dialect Policy Tables SqliteUsers SqliteTokens SqliteAws Store Pkce Prog.
From S2P Require Import SingleUse Server Provision Awsfed Fixture Mfa Portal PortalFacts.

Local Open Scope Z_scope.
Local Open Scope prog_scope.

Definition authStateCookie : string := "auth_state".

Section authorize.
  Context `{U : UnicodeTables} {dialect : Dialect} `{X : Externals}.

(** ** The state cookie of the MFA step *)

Definition setAuthStateCookie (st : authState) : prog (result Cookie) :=
  try enc <- do_op (OpSeal (authState_Marshal st)) else e => Ret (Err e);;
  Ret (Ok (mkCookie authStateCookie enc "/" (Seconds authStateTTL) true SameSiteLaxMode)).

Definition getAuthStateCookie (r : Request) : prog (result authState) :=
  match rq_Cookie r authStateCookie with
  | None => Ret (Err ErrOther)
  | Some v =>
      match Open v with
      | Err e => Ret (Err e)
      | Ok plain =>
          match authState_Unmarshal plain with
          | Err e => Ret (Err e)
          | Ok st => t <- now;; Ret (if as_Exp st <? t then Err ErrOther else Ok st)
          end
      end
  end.

(** ** Issuing a code *)

(** The grant row of a new code. *)
Definition new_grant (id : uuid) (user : User) (client : Client) (scopes : list string)
    (nonce codeChallenge redirectURI : string) (mfaVerifiedAt : option Z) (authTime : Z)
    (rawCode : string) (t : Z) : Grant :=
  {| g_ID := id; g_UserID := u_ID user; g_ClientID := c_ID client; g_CodeHash := HashToken rawCode;
     g_CodeChallenge := codeChallenge; g_Nonce := nonce; g_Scopes := scopes; g_RedirectURI := redirectURI;
     g_ExpiresAt := t + 10 * Minute; g_UsedAt := None; g_MFAVerifiedAt := mfaVerifiedAt;
     g_AuthTime := authTime |}.

(** A redirect URI that does not parse makes [redirect] nil: the handler
    panics after the grant was stored. *)
Definition issueCodeAndRedirect (user : User) (client : Client) (scopes : list string)
    (state nonce codeChallenge redirectURI : string) (mfaVerifiedAt : option Z) (authTime : Z)
    : prog Response :=
  try rawCode <- GenerateRawToken else _e => Ret (httpError "internal error" StatusInternalServerError);;
  id <- newUUID;;
  t <- now;;
  try _u <- db (QCreateGrant (new_grant id user client scopes nonce codeChallenge redirectURI
                                mfaVerifiedAt authTime rawCode t))
    else _e => Ret (httpError "internal error" StatusInternalServerError);;
  match url_Parse redirectURI with
  | Err _ => Ret panicked
  | Ok redirect => Ret (httpRedirect (LocParams redirect
              (("code", rawCode) :: if bool_decide (state = "") then [] else [("state", state)])))
  end.

(** ** GET /authorize *)

(** [max_age] given, positive, and elapsed since the session was created. *)
Definition max_age_elapsed (r : Request) (sess : Session) : prog bool :=
  let mas := rq_Query r "max_age" in
  when bool_decide (mas = "") return Ret false;;
  match time_ParseDuration (mas +:+ "s") with
  | Err _ => Ret false
  | Ok maxAge =>
      when negb (0 <? maxAge) return Ret false;;
      t <- now;;
      Ret (maxAge <? time_Sub t (s_CreatedAt sess))
  end.

(** The MFA provenance a code inherits from the portal session. *)
Definition inherited_mfa (sess : Session) : option Z :=
  if s_MFAVerified sess then
    match s_MFAVerifiedAt sess with Some t => Some t | None => Some (s_CreatedAt sess) end
  else None.

(** [None]: no response was written. *)
Definition trySilentSSO (sv : Server) (r : Request) (client : Client) : prog (option Response) :=
  got <- readAuthPortalSession r;;
  match got with
  | Ok (Some (sess, user, rawToken)) =>
      when negb (u_Active user) return Ret None;;
      when u_MFAEnabled user && negb (s_MFAVerified sess) return Ret None;;
      let hint := rq_Query r "login_hint" in
      when negb (bool_decide (hint = "")) && negb (EqualFold (TrimSpace hint) (u_Email user)) return Ret None;;
      elapsed <- max_age_elapsed r sess;;
      when (elapsed : bool) return Ret None;;
      v <- policy_First sv (ask (Some user) (Some client) "" (s_MFAVerified sess));;
      match v with
      | Some _ => Ret None
      | None =>
          slid <- slidePortalSession sess rawToken;;
          audited <- logAudit r ActionLogin (Some (u_ID user)) (Some (c_ID client)) [("via", MStr "silent_sso")];;
          match audited with
          | Err e => Ret (Some (with_cookies slid.2 (auditFail (err_Error e))))
          | Ok _ =>
              resp <- issueCodeAndRedirect user client (splitScopes (rq_Query r "scope")) (rq_Query r "state")
                        (rq_Query r "nonce") (rq_Query r "code_challenge") (rq_Query r "redirect_uri")
                        (inherited_mfa sess) (s_CreatedAt sess);;
              Ret (Some (with_cookies slid.2 resp))
          end
      end
  | _ => Ret None
  end.

Definition handleAuthorizeGET (sv : Server) (r : Request) : prog Response :=
  try client <- db (QGetClientByClientID (rq_Query r "client_id")) else _e =>
    Ret (httpError "invalid client_id" StatusBadRequest);;
  let redirectURI := rq_Query r "redirect_uri" in
  when negb (validRedirectURI client redirectURI) return Ret (httpError "invalid redirect_uri" StatusBadRequest);;
  when negb (bool_decide (unregisteredScope client (splitScopes (rq_Query r "scope")) = "")) return
    Ret (redirectWithOIDCError redirectURI "invalid_scope" (rq_Query r "state"));;
  let prompt := rq_Query r "prompt" in
  let login := render "login.html" (ssoDataFromForm sv r (c_Name client) "" (rq_FormValue r "email") "") in
  when bool_decide (prompt = "login") return Ret login;;
  sso <- trySilentSSO sv r client;;
  match sso with
  | Some resp => Ret resp
  | None =>
      if bool_decide (prompt = "none")
      then Ret (redirectWithOIDCError redirectURI "login_required" (rq_Query r "state"))
      else Ret login
  end.

(** ** POST /authorize *)

(** The login form again, with a message. *)
Definition authorize_login_error (sv : Server) (r : Request) (client : Client) (msg : string) : Response :=
  render "login.html" (ssoDataFromForm sv r (c_Name client) msg (login_email r) "").

(** The password step passed and a second factor is enrolled. *)
Definition authorize_to_mfa (sv : Server) (r : Request) (client : Client) (user : User) (authTime : Z)
    : prog Response :=
  t <- now;;
  try ck <- setAuthStateCookie
    {| as_UserID := u_ID user; as_AuthTime := authTime; as_MFAVerified := false; as_MFAAMR := [];
       as_ClientID := rq_FormValue r "client_id"; as_RedirectURI := rq_FormValue r "redirect_uri";
       as_Scopes := splitScopes (rq_FormValue r "scope"); as_State := rq_FormValue r "state";
       as_Nonce := rq_FormValue r "nonce"; as_CodeChallenge := rq_FormValue r "code_challenge";
       as_Exp := t + authStateTTL |}
    else _e => Ret (authorize_login_error sv r client "An error occurred. Please try again.");;
  totpCred <- db (QGetTOTPByUserID (u_ID user));;
  Ret (with_cookies [ck]
    (match totpCred with
     | Ok c => if totp_Enabled c then render "mfa_totp.html" [("AuthState", JStr ""); ("Error", JStr "")]
               else httpRedirect (LocPath "/authorize/mfa/webauthn")
     | Err _ => httpRedirect (LocPath "/authorize/mfa/webauthn")
     end)).

Definition handleAuthorizePost (sv : Server) (r : Request) : prog Response :=
  when negb (rq_ParseOK r) return Ret (httpError "bad request" StatusBadRequest);;
  let redirectURI := rq_FormValue r "redirect_uri" in
  let scope := rq_FormValue r "scope" in
  let email := login_email r in
  let password := rq_FormValue r "password" in
  try client <- db (QGetClientByClientID (rq_FormValue r "client_id")) else _e =>
    Ret (httpError "invalid client" StatusBadRequest);;
  when negb (validRedirectURI client redirectURI) return Ret (httpError "invalid client" StatusBadRequest);;
  let bad := unregisteredScope client (splitScopes scope) in
  when negb (bool_decide (bad = "")) return Ret (httpError ("invalid_scope: " +:+ bad) StatusBadRequest);;
  let refused user := login_refused r user (Some (c_ID client)) [("email", MStr email)]
                        (authorize_login_error sv r client "Invalid email or password.") in
  user <- db (QGetUserByEmail email);;
  match user with
  | Err ErrNotFound => refused None
  | Err _ => Ret (authorize_login_error sv r client "An error occurred. Please try again.")
  | Ok user =>
      when negb (CheckPassword (u_PasswordHash user) password) return refused (Some user);;
      when negb (u_Active user) return Ret (authorize_login_error sv r client "Account is disabled.");;
      v <- policy_First sv (ask (Some user) (Some client) password false);;
      match v with
      | Some v => Ret (authorize_login_error sv r client (pv_Message v))
      | None =>
          db (QUpdateUserFailedAttempts (u_ID user) 0 None);;;
          authTime <- now;;
          when u_MFAEnabled user return authorize_to_mfa sv r client user authTime;;
          try _u <- logAudit r ActionLogin (Some (u_ID user)) (Some (c_ID client)) [] else e => Ret (auditFail (err_Error e));;
          cks <- ensurePortalCookie sv r user;;
          resp <- issueCodeAndRedirect user client (splitScopes scope) (rq_FormValue r "state")
                    (rq_FormValue r "nonce") (rq_FormValue r "code_challenge") redirectURI None authTime;;
          Ret (with_cookies cks resp)
      end
  end.

(** ** POST /authorize/mfa/totp *)

Definition handleMFATOTPPost (sv : Server) (r : Request) : prog Response :=
  when negb (rq_ParseOK r) return Ret (httpError "bad request" StatusBadRequest);;
  try st <- getAuthStateCookie r else _e => Ret (httpRedirect (LocPath "/authorize"));;
  try user <- db (QGetUserByID (as_UserID st)) else _e => Ret (httpError "user not found" StatusBadRequest);;
  try _u <- VerifyTOTP (u_ID user) (rq_FormValue r "code") else _e =>
    (try _u <- logAudit r ActionLoginMFAFailed (Some (u_ID user)) None [] else e => Ret (auditFail (err_Error e));;
     Ret (render "mfa_totp.html" [("AuthState", JStr ""); ("Error", JStr "Invalid code. Please try again.")]));;
  try client <- db (QGetClientByClientID (as_ClientID st)) else _e =>
    Ret (httpError "invalid client" StatusBadRequest);;
  let cleared := with_cookies [clearCookie authStateCookie] in
  try _u <- logAudit r ActionLoginMFA (Some (u_ID user)) (Some (c_ID client)) [] else e =>
    Ret (cleared (auditFail (err_Error e)));;
  try _u <- logAudit r ActionLogin (Some (u_ID user)) (Some (c_ID client)) [] else e =>
    Ret (cleared (auditFail (err_Error e)));;
  cks <- ensurePortalCookie sv r user;;
  mfaAt <- now;;
  resp <- issueCodeAndRedirect user client (as_Scopes st) (as_State st) (as_Nonce st) (as_CodeChallenge st)
            (as_RedirectURI st) (Some mfaAt) (as_AuthTime st);;
  Ret (cleared (with_cookies cks resp)).

Definition handleSSOWebAuthnPage (r : Request) : prog Response :=
  try _st <- getAuthStateCookie r else _e => Ret (httpRedirect (LocPath "/authorize"));;
  Ret (render "mfa_webauthn.html" [("Error", JStr "")]).

End authorize.

#[global] Arguments setAuthStateCookie : simpl never.
#[global] Arguments getAuthStateCookie : simpl never.
#[global] Arguments issueCodeAndRedirect : simpl never.
#[global] Arguments trySilentSSO : simpl never.
#[global] Arguments max_age_elapsed : simpl never.
