(* ===== verification/AuthorizeFacts.v ===== *)
(** * The authorization endpoint: properties

    Which redirect URIs are accepted, what the password step and silent sign-on
    have checked when they store a code (the MFA steps follow in [CodeOrigin]),
    and that no error or code is sent to a URI that was not accepted. *)
From S2P Require Import Prelude GoStrings GoNet Model Dialect Policy Tables SqliteUsers SqliteTokens SqliteAws Store Pkce Prog.
From S2P Require Import SingleUse Server Provision Awsfed Fixture Mfa Portal PortalFacts Authorize.

Local Open Scope Z_scope.
Local Open Scope prog_scope.

Section facts.
  Context `{U : UnicodeTables} {dialect : Dialect} `{X : Externals}.

(** ** Redirect URIs *)

Lemma loopback_scan_true registered path :
  loopback_scan registered path = true ↔
  ∃ reg u, reg ∈ registered ∧ url_Parse reg = Ok u ∧ url_Scheme u = "http" ∧
           isLoopbackHost (url_Hostname u) = true ∧ url_Path u = path.
Proof.
  induction registered as [|reg l IH]; simpl.
  { split; [done|]. intros (? & ? & Hin & _). by apply not_elem_of_nil in Hin. }
  assert (Hskip : (∀ u, url_Parse reg = Ok u → url_Scheme u = "http" →
                        isLoopbackHost (url_Hostname u) = true → url_Path u ≠ path) →
    (∃ reg u, reg ∈ l ∧ url_Parse reg = Ok u ∧ url_Scheme u = "http" ∧
       isLoopbackHost (url_Hostname u) = true ∧ url_Path u = path) ↔
    (∃ reg0 u, reg0 ∈ reg :: l ∧ url_Parse reg0 = Ok u ∧ url_Scheme u = "http" ∧
       isLoopbackHost (url_Hostname u) = true ∧ url_Path u = path)).
  { intros Hno. split; intros (r0 & u0 & Hin & Hp & Hs & Hh & He); exists r0, u0; split_and!; try done.
    - by right.
    - apply elem_of_cons in Hin as [->|?]; [|done]. by destruct (Hno _ Hp Hs Hh). }
  destruct (url_Parse reg) as [u|e] eqn:Hu; [|rewrite IH; apply Hskip; congruence].
  destruct (bool_decide_reflect (url_Scheme u = "http")); simpl; [|rewrite IH; apply Hskip; congruence].
  destruct (isLoopbackHost (url_Hostname u)) eqn:Hl; simpl; [|rewrite IH; apply Hskip; congruence].
  case_bool_decide; [|rewrite IH; apply Hskip; congruence].
  split; [intros _|done]. exists reg, u. split; [by left|done].
Qed.

(** A redirect URI is accepted exactly when it is registered verbatim, or
    both it and some registered URI are plain-HTTP loopback URLs with the same
    path (RFC 8252: the port is free, nothing else is). *)
Theorem redirect_uri_accepted client uri :
  validRedirectURI client uri = true ↔
  uri ∈ c_RedirectURIs client ∨
  ∃ u reg v, url_Parse uri = Ok u ∧ url_Scheme u = "http" ∧ isLoopbackHost (url_Hostname u) = true ∧
    reg ∈ c_RedirectURIs client ∧ url_Parse reg = Ok v ∧ url_Scheme v = "http" ∧
    isLoopbackHost (url_Hostname v) = true ∧ url_Path v = url_Path u.
Proof.
  unfold validRedirectURI, str_contains, loopbackRedirectMatch.
  destruct (bool_decide_reflect (uri ∈ c_RedirectURIs client)) as [Hin|Hin]; [tauto|].
  assert (∀ P : Prop, (uri ∈ c_RedirectURIs client ∨ P) ↔ P) as -> by tauto.
  destruct (url_Parse uri) as [u|e]; [|split; [done|by intros (? & ? & ? & [=] & _)]].
  destruct (bool_decide_reflect (url_Scheme u = "http")) as [Hs|Hs]; simpl;
    [|split; [done|by intros (? & ? & ? & [= <-] & ? & _)]].
  destruct (isLoopbackHost (url_Hostname u)) eqn:Hh; simpl;
    [|split; [done|intros (? & ? & ? & [= <-] & _ & ? & _); congruence]].
  rewrite loopback_scan_true. split.
  - intros (reg & v & ?). exists u, reg, v. tauto.
  - intros (u' & reg & v & [= <-] & _ & _ & ?). eauto.
Qed.

(** ** Sub-programs that issue no code *)

Lemma logAudit_grants r a u c m tr x : path (logAudit r a u c m) tr x → grants_created tr = [].
Proof.
  intros (tr0 & e & -> & Hr & _)%logAudit_path. by rewrite collect_app, (collect_reads _ _ Hr).
Qed.

Lemma login_refused_grants r user client meta form tr x :
  path (login_refused r user client meta form) tr x → grants_created tr = [].
Proof.
  unfold login_refused. intros H. path_call H. path_call H. apply logAudit_grants in Hcall0 as Hl.
  match type of Hcall with path _ ?tr0 _ => assert (grants_created tr0 = []) as H0 end.
  { path_step Hcall; [|path_step Hcall; by subst]. unfold incrementFailedAttempts in Hcall.
    path_call Hcall. path_step Hcall. path_step Hcall. subst.
    path_step Hcall1; [path_step Hcall1|]; path_step Hcall1; by subst. }
  rewrite !collect_app, H0, Hl. path_step H; path_step H; by subst.
Qed.

Lemma slidePortalSession_grants sess tok tr x : path (slidePortalSession sess tok) tr x → grants_created tr = [].
Proof.
  unfold slidePortalSession. intros H. do 4 path_step H. path_call H.
  apply setPortalCookie_path in Hcall. path_step H. subst.
  rewrite !collect_cons. cbn [created_grant]. by rewrite collect_app, (collect_reads _ _ Hcall).
Qed.

Lemma push_all_grants cids sub sid tr x : path (push_all cids sub sid) tr x → grants_created tr = [].
Proof.
  revert tr. induction cids as [|cid cids IH]; intros tr H; simpl in H; [by destruct H as [-> _]|].
  path_step H; [by apply IH|]. path_step H. rewrite collect_cons. cbn [created_grant].
  path_step H; [|by apply IH]. path_step H; [|by apply IH]. path_step H; [by apply IH|].
  path_step H. rewrite collect_cons. by apply IH.
Qed.

Lemma broadcastLogout_grants sv uid sid tr x : path (broadcastLogout sv uid sid) tr x → grants_created tr = [].
Proof.
  unfold broadcastLogout. intros H. path_step H; [path_step H; by subst|].
  path_step H. path_step H; [|path_step H; by subst]. path_step H; [path_step H; by subst|].
  path_step H. path_step H; [|path_step H; by subst]. rewrite !collect_cons. by apply push_all_grants in H.
Qed.

Lemma ensurePortalCookie_grants sv r user tr x : path (ensurePortalCookie sv r user) tr x → grants_created tr = [].
Proof.
  unfold ensurePortalCookie. intros H. path_call H. apply readAuthPortalSession_path in Hcall as [Hr _].
  path_call H. rewrite !collect_app, (collect_reads _ _ Hr). cbn [app].
  match type of Hcall with path _ ?tr1 _ => assert (grants_created tr1 = []) as -> end.
  { path_step Hcall; [|path_step Hcall; by subst]. path_step Hcall; [|path_step Hcall; by subst].
    destruct p as [[??]?]. path_step Hcall; [|path_step Hcall; by subst].
    path_call Hcall. apply broadcastLogout_grants in Hcall0. path_step Hcall.
    path_call Hcall. apply logAudit_grants in Hcall1. path_step Hcall. subst.
    rewrite !collect_app, collect_cons, collect_app, Hcall0, Hcall1. done. }
  path_step H. path_step H; [|path_step H; by subst]. path_step H. path_step H; [|path_step H; by subst].
  do 3 path_step H. path_step H; [|path_step H; by subst].
  path_call H. apply setPortalCookie_path in Hcall0. path_step H. subst.
  rewrite !collect_cons. cbn [created_grant]. by rewrite collect_app, (collect_reads _ _ Hcall0).
Qed.

(** The one grant a code issuance stores. *)
Lemma issueCodeAndRedirect_grants user client scopes state nonce cc ruri mfaAt authTime tr x g :
  path (issueCodeAndRedirect user client scopes state nonce cc ruri mfaAt authTime) tr x →
  g ∈ grants_created tr →
  ∃ id code t, g = new_grant id user client scopes nonce cc ruri mfaAt authTime code t.
Proof.
  unfold issueCodeAndRedirect. intros H Hg.
  path_step H. path_step H; [|path_step H; subst; collect_in Hg]. do 3 path_step H.
  path_step H; [path_step H|]; path_step H; subst; collect_in Hg;
    apply list_elem_of_singleton in Hg as ->; eauto.
Qed.

Lemma getAuthStateCookie_path r tr x :
  path (getAuthStateCookie r) tr x →
  Forall (λ e, writes e = false) tr ∧
  (∀ st, x = Ok st → ∃ v raw t, rq_Cookie r authStateCookie = Some v ∧ Open v = Ok raw ∧
     authState_Unmarshal raw = Ok st ∧ tr = [Ev OpNow t] ∧ t ≤ as_Exp st).
Proof.
  unfold getAuthStateCookie. intros H.
  path_step H; [|path_step H; by subst]. path_step H; [|path_step H; by subst].
  path_step H; [|path_step H; by subst]. path_step H. path_step H. subst.
  split; [by repeat constructor|]. intros st.
  destruct (_ <? _) eqn:E; [done|]. intros [= <-]. apply Z.ltb_ge in E. eauto 10.
Qed.

(** ** Where codes come from *)

(** A code of the password step: the client exists, the redirect URI and every
    scope are registered, the user's password was checked, the account is
    active, passes the policy and has no second factor. *)
Definition password_code (sv : Server) (r : Request) (g : Grant) (tr : list event) : Prop :=
  ∃ client user clock,
    Ev (OpDb (QGetClientByClientID (rq_FormValue r "client_id"))) (Ok client)
     :: Ev (OpDb (QGetUserByEmail (login_email r))) (Ok user)
     :: (Ev OpNow <$> readings clock (rules (srv_policy sv))
           (ask (Some user) (Some client) (rq_FormValue r "password") false)) `sublist_of` tr ∧
    validRedirectURI client (g_RedirectURI g) = true ∧
    Forall (λ sc, containsStr (c_Scopes client) sc = true) (g_Scopes g) ∧
    CheckPassword (u_PasswordHash user) (rq_FormValue r "password") = true ∧
    u_Active user = true ∧ u_MFAEnabled user = false ∧
    First clock (srv_policy sv) (ask (Some user) (Some client) (rq_FormValue r "password") false) = None ∧
    g_UserID g = u_ID user ∧ g_ClientID g = c_ID client ∧ g_MFAVerifiedAt g = None ∧
    g_CodeChallenge g = rq_FormValue r "code_challenge".

(** A code of silent sign-on: a live portal session of an active user that has
    passed the second factor if one is enrolled, and the policy. *)
Definition silent_code (sv : Server) (r : Request) (g : Grant) (tr : list event) : Prop :=
  ∃ client v tok sess user t clock,
    rq_Cookie r portalCookie = Some v ∧ Open v = Ok tok ∧
    Ev (OpDb (QGetClientByClientID (rq_Query r "client_id"))) (Ok client)
     :: Ev (OpDb (QGetSessionByAccessTokenHash (HashToken tok))) (Ok sess) :: Ev OpNow t
     :: Ev (OpDb (QGetUserByID (s_UserID sess))) (Ok user)
     :: (Ev OpNow <$> readings clock (rules (srv_policy sv))
           (ask (Some user) (Some client) "" (s_MFAVerified sess))) `sublist_of` tr ∧
    t ≤ s_AccessExpiresAt sess ∧ t ≤ s_CreatedAt sess + absoluteSessionTTL ∧
    rq_Query r "prompt" ≠ "login" ∧
    validRedirectURI client (g_RedirectURI g) = true ∧
    Forall (λ sc, containsStr (c_Scopes client) sc = true) (g_Scopes g) ∧
    u_Active user = true ∧ (u_MFAEnabled user = true → s_MFAVerified sess = true) ∧
    First clock (srv_policy sv) (ask (Some user) (Some client) "" (s_MFAVerified sess)) = None ∧
    g_UserID g = u_ID user ∧ g_ClientID g = c_ID client ∧ g_MFAVerifiedAt g = inherited_mfa sess ∧
    g_AuthTime g = s_CreatedAt sess.

Lemma handleAuthorizePost_grant sv r tr resp g :
  path (handleAuthorizePost sv r) tr resp → g ∈ grants_created tr → password_code sv r g tr.
Proof.
  unfold handleAuthorizePost. intros H Hg. path_step H; [path_step H; subst; collect_in Hg|].
  path_step H. path_step H; [|path_step H; subst; collect_in Hg].
  path_step H; [path_step H; subst; collect_in Hg|]. path_step H; [path_step H; subst; collect_in Hg|].
  path_step H. path_step H;
    [|path_step H; try (path_step H; subst; collect_in Hg); apply login_refused_grants in H; collect_in Hg].
  path_step H; [apply login_refused_grants in H; collect_in Hg|].
  path_step H; [path_step H; subst; collect_in Hg|]. path_call H.
  apply policy_First_path in Hcall as (Hnow & _ & clock & Hf & Hclock).
  path_step H; [path_step H; subst; collect_in Hg|]. do 2 path_step H.
  path_step H.
  { unfold authorize_to_mfa, setAuthStateCookie in H. path_step H. path_call H.
    path_step Hcall. path_step Hcall; path_step Hcall; subst; path_step H; [|subst; collect_in Hg].
    path_step H. subst. collect_in Hg. }
  path_call H. apply logAudit_grants in Hcall. path_step H; [|path_step H; subst; collect_in Hg].
  path_call H. apply ensurePortalCookie_grants in Hcall0. path_call H. path_step H. subst.
  pose proof (issueCodeAndRedirect_grants _ _ _ _ _ _ _ _ _ _ _ g Hcall1) as Hi. collect_in Hg.
  destruct (Hi Hg) as (id & code & tt0 & ->).
  rewrite negb_false_iff in *. apply bool_decide_eq_true in Hb1.
  eexists _, _, clock. rewrite (Hclock eq_refl). split_and!; try done; [in_trace|]. simpl. by apply unregisteredScope_split.
Qed.

Lemma max_age_elapsed_path r sess tr x : path (max_age_elapsed r sess) tr x → Forall (λ e, writes e = false) tr.
Proof.
  unfold max_age_elapsed. intros H. path_step H; [path_step H; by subst|].
  path_step H; [|path_step H; by subst]. path_step H; [path_step H; by subst|].
  do 2 path_step H. subst. by repeat constructor.
Qed.

Lemma handleAuthorizeGET_grant sv r tr resp g :
  path (handleAuthorizeGET sv r) tr resp → g ∈ grants_created tr → silent_code sv r g tr.
Proof.
  unfold handleAuthorizeGET. intros H Hg. path_step H. path_step H; [|path_step H; subst; collect_in Hg].
  path_step H; [path_step H; subst; collect_in Hg|]. path_step H; [path_step H; subst; collect_in Hg|].
  path_step H; [path_step H; subst; collect_in Hg|].
  path_call H.
  match type of H with path _ ?t _ => assert (t = []) as -> by
    (path_step H; [|path_step H]; by path_step H) end. clear H.
  unfold trySilentSSO in Hcall. path_call Hcall. apply readAuthPortalSession_path in Hcall0 as [Hr Hlive].
  path_step Hcall; [|path_step Hcall; subst; collect_in Hg].
  path_step Hcall; [|path_step Hcall; subst; collect_in Hg]. destruct p as [[sess user] tok].
  destruct (Hlive _ _ _ eq_refl) as (v & t & Hv & Ho & -> & Ha & Hc).
  path_step Hcall; [path_step Hcall; subst; collect_in Hg|].
  path_step Hcall; [path_step Hcall; subst; collect_in Hg|].
  path_step Hcall; [path_step Hcall; subst; collect_in Hg|].
  path_call Hcall. apply max_age_elapsed_path in Hcall0.
  path_step Hcall; [path_step Hcall; subst; collect_in Hg|].
  path_call Hcall. apply policy_First_path in Hcall1 as (Hnow & _ & clock & Hf & Hclock).
  path_step Hcall; [path_step Hcall; subst; collect_in Hg|].
  path_call Hcall. apply slidePortalSession_grants in Hcall1.
  path_call Hcall. apply logAudit_grants in Hcall2. path_step Hcall; [|path_step Hcall; subst; collect_in Hg].
  path_call Hcall. path_step Hcall. subst.
  pose proof (issueCodeAndRedirect_grants _ _ _ _ _ _ _ _ _ _ _ g Hcall3) as Hi. collect_in Hg.
  destruct (Hi Hg) as (id & code & tt0 & ->).
  rewrite negb_false_iff in *. apply bool_decide_eq_true in Hb0. apply bool_decide_eq_false in Hb1.
  eexists _, v, tok, sess, user, t, clock. rewrite (Hclock eq_refl). split_and!; try done; [in_trace| |].
  - simpl. by apply unregisteredScope_split.
  - intros Hm. rewrite Hm in *. by destruct (s_MFAVerified sess).
Qed.

(** ** No open redirects *)

(** The response sends the browser to the URL [u], with parameters. *)
Definition goes_to (resp : Response) (u : URL) : Prop :=
  ∃ params, rs_Body resp = Redirect (LocParams u params).

Lemma issueCodeAndRedirect_goes user client scopes state nonce cc ruri mfaAt authTime tr x u :
  path (issueCodeAndRedirect user client scopes state nonce cc ruri mfaAt authTime) tr x →
  goes_to x u → url_Parse ruri = Ok u.
Proof.
  unfold issueCodeAndRedirect, goes_to. intros H [ps Hb].
  path_step H. path_step H; [|path_step H; by subst]. do 3 path_step H.
  path_step H; [|path_step H; by subst]. path_step H; path_step H; subst; simpl in Hb; congruence.
Qed.

Lemma redirectWithOIDCError_goes ruri code state u :
  goes_to (redirectWithOIDCError ruri code state) u → url_Parse ruri = Ok u.
Proof. unfold redirectWithOIDCError, goes_to. destruct (url_Parse ruri); intros [ps Hb]; simpl in Hb; congruence. Qed.

Lemma login_refused_goes r user client meta form tr x u :
  (∀ l, rs_Body form ≠ Redirect l) → path (login_refused r user client meta form) tr x → ¬ goes_to x u.
Proof.
  unfold login_refused. intros Hf H [ps Hb]. path_call H. path_call H.
  path_step H; path_step H; subst; [by eapply Hf|done].
Qed.

Lemma trySilentSSO_goes sv r client tr resp u :
  path (trySilentSSO sv r client) tr (Some resp) → goes_to resp u → url_Parse (rq_Query r "redirect_uri") = Ok u.
Proof.
  unfold trySilentSSO. intros H Hb. path_call H.
  path_step H; [|by path_step H]. path_step H; [|by path_step H]. destruct p as [[sess user] tok].
  path_step H; [by path_step H|]. path_step H; [by path_step H|]. path_step H; [by path_step H|].
  path_call H. path_step H; [by path_step H|]. path_call H. path_step H; [by path_step H|].
  path_call H. path_call H. path_step H; [|path_step H; simplify_eq; by destruct Hb].
  path_call H. path_step H. simplify_eq. by eapply issueCodeAndRedirect_goes.
Qed.

(** C33: no open redirects.  When [GET] or [POST /authorize] sends the browser to
    a redirect URI, with a code or with an error, that URI is the requested
    one, parsed, and was accepted for the client the request names. *)
Theorem no_open_redirect sv r tr resp u :
  goes_to resp u →
  (path (handleAuthorizeGET sv r) tr resp → ∃ client,
     Ev (OpDb (QGetClientByClientID (rq_Query r "client_id"))) (Ok client) ∈ tr ∧
     url_Parse (rq_Query r "redirect_uri") = Ok u ∧
     validRedirectURI client (rq_Query r "redirect_uri") = true) ∧
  (path (handleAuthorizePost sv r) tr resp → ∃ client,
     Ev (OpDb (QGetClientByClientID (rq_FormValue r "client_id"))) (Ok client) ∈ tr ∧
     url_Parse (rq_FormValue r "redirect_uri") = Ok u ∧
     validRedirectURI client (rq_FormValue r "redirect_uri") = true).
Proof.
  intros Hb. split; intros H.
  - unfold handleAuthorizeGET in H. path_step H. path_step H; [|path_step H; subst; by destruct Hb].
    path_step H; [path_step H; subst; by destruct Hb|]. rewrite negb_false_iff in Hb0.
    exists a. split; [by left|].
    cut (url_Parse (rq_Query r "redirect_uri") = Ok u); [done|].
    path_step H; [path_step H; subst; by eapply redirectWithOIDCError_goes|].
    path_step H; [path_step H; subst; by destruct Hb|]. path_call H.
    path_step H; [path_step H; subst; by eapply trySilentSSO_goes|].
    path_step H; path_step H; subst; [by eapply redirectWithOIDCError_goes|by destruct Hb].
  - unfold handleAuthorizePost in H. path_step H; [path_step H; subst; by destruct Hb|].
    path_step H. path_step H; [|path_step H; subst; by destruct Hb].
    path_step H; [path_step H; subst; by destruct Hb|]. rewrite negb_false_iff in Hb1.
    exists a. split; [by left|].
    cut (url_Parse (rq_FormValue r "redirect_uri") = Ok u); [done|].
    path_step H; [path_step H; subst; by destruct Hb|]. path_step H.
    path_step H; [|path_step H; try (path_step H; subst; by destruct Hb);
                   by eapply login_refused_goes in Hb; [..|exact H]].
    path_step H; [by eapply login_refused_goes in Hb; [..|exact H]|].
    path_step H; [path_step H; subst; by destruct Hb|]. path_call H.
    path_step H; [path_step H; subst; by destruct Hb|]. do 2 path_step H.
    path_step H.
    { unfold authorize_to_mfa in H. path_step H. path_call H. path_step H; [|path_step H; subst; by destruct Hb].
      do 2 path_step H. subst. destruct Hb as [ps Hb]. simpl in Hb.
      destruct x0 as [c|]; [destruct (totp_Enabled c)|]; done. }
    path_call H. path_step H; [|path_step H; subst; by destruct Hb].
    path_call H. path_call H. path_step H. subst. by eapply issueCodeAndRedirect_goes.
Qed.

End facts.

(** ** Witnesses *)

(** A request for a scope the client does not have is answered at its
    redirect URI. *)
Definition fx_bad_scope_request : Request :=
  form [("client_id", "rp"); ("redirect_uri", "https://rp.example/cb"); ("scope", "root"); ("state", "s")].
Definition fx_bad_scope : prog Response := handleAuthorizeGET fx_sv fx_bad_scope_request.

Definition fx_rp_url : URL := mkURL "https" "" "" "rp.example" "/cb" "" "rp.example" "" "".

Lemma no_open_redirect_witness :
  ∃ client,
    Ev (OpDb (QGetClientByClientID (rq_Query fx_bad_scope_request "client_id"))) (Ok client)
      ∈ trace fx_env fx_bad_scope fx_world ∧
    url_Parse (rq_Query fx_bad_scope_request "redirect_uri") = Ok fx_rp_url ∧
    validRedirectURI client (rq_Query fx_bad_scope_request "redirect_uri") = true.
Proof.
  destruct (no_open_redirect fx_sv fx_bad_scope_request (trace fx_env fx_bad_scope fx_world)
    (exec fx_env fx_bad_scope fx_world).1 fx_rp_url) as [H _];
    [eexists; vm_compute; reflexivity|]. apply H, exec_path.
Defined.
