(* ===== verification/WebAuthn.v ===== *)
(** * Security keys

    [internal/mfa/webauthn.go] (the ceremonies around the WebAuthn library and
    the store) and every endpoint over it: the bearer endpoints of
    [mfa_api.go], the MFA step of [/authorize] ([web_sso.go]) and of the portal
    login ([web_portal.go]).  The library's calls (challenge generation,
    attestation and assertion checks) are effects; what the code adds, and what
    is proved here, is the handling of challenges, credentials and counters. *)
From S2P Require Import Prelude GoStrings GoNet Model Dialect Policy Tables SqliteUsers SqliteTokens SqliteAws Store Pkce Prog.
From S2P Require Import SingleUse Server Provision Awsfed Fixture Mfa Portal PortalFacts Authorize AuthorizeFacts.

Local Open Scope Z_scope.
Local Open Scope prog_scope.

Section webauthn.
  Context `{U : UnicodeTables} {dialect : Dialect} `{X : Externals}.

(** ** webauthn.go *)

(** [None] from a store read is an empty list ([creds, _ := ...]). *)
Definition or_nil {A} (r : result (list A)) : list A := match r with Ok l => l | Err _ => [] end.

(** [modelToWACreds]: the credentials as the library compares them with what an
    authenticator presents. *)
Definition modelToWACreds (creds : list WebAuthnCredential) : list WaCredential :=
  (λ c, {| wc_ID := wa_CredentialID c; wc_PublicKey := wa_PublicKey c; wc_AAGUID := wa_AAGUID c;
           wc_SignCount := wa_SignCount c; wc_BackupEligible := default false (wa_BackupEligible c);
           wc_BackupState := wa_BackupState c; wc_CloneWarning := false |}) <$> creds.

(** [newWAUser] and the methods of the adapter. *)
Definition newWAUser (u : User) (creds : list WebAuthnCredential) : WAUser :=
  mkWAUser (u_ID u) (u_Email u) (u_Name u) (modelToWACreds creds).

(** The options for the browser, and the identifier of the stored challenge. *)
Definition BeginRegistration (user : User) : prog (result (string * uuid)) :=
  creds <- db (QListWebAuthnCredentials (u_ID user));;
  try begun <- do_op (OpWaBegin true (newWAUser user (or_nil creds))) else e => Ret (Err e);;
  try sessionID <- db (QCreateWebAuthnSession (u_ID user) begun.2 "register") else e => Ret (Err e);;
  Ret (Ok (begun.1, sessionID)).

Definition FinishRegistration (user : User) (sessionID : uuid) (r : Request) (deviceName : string)
    : prog (result WebAuthnCredential) :=
  try sessionBytes <- db (QGetWebAuthnSession sessionID (u_ID user) "register") else _e => Ret (Err ErrOther);;
  db (QDeleteWebAuthnSession sessionID);;;
  match waSession_Unmarshal sessionBytes with
  | Err e => Ret (Err e)
  | Ok sessionData =>
      creds <- db (QListWebAuthnCredentials (u_ID user));;
      try cred <- do_op (OpWaRegister (newWAUser user (or_nil creds)) sessionData (rq_Body r)) else e => Ret (Err e);;
      id <- newUUID;;
      let m := {| wa_ID := id; wa_UserID := u_ID user; wa_CredentialID := wc_ID cred;
                  wa_PublicKey := wc_PublicKey cred; wa_AAGUID := wc_AAGUID cred;
                  wa_SignCount := wc_SignCount cred; wa_BackupEligible := Some (wc_BackupEligible cred);
                  wa_BackupState := wc_BackupState cred; wa_DeviceName := deviceName;
                  wa_CreatedAt := 0; wa_LastUsedAt := 0 |} in
      try _u <- db (QCreateWebAuthnCredential m) else e => Ret (Err e);;
      Ret (Ok m)
  end.

Definition BeginLogin (user : User) : prog (result (string * uuid)) :=
  try creds <- db (QListWebAuthnCredentials (u_ID user)) else _e => Ret (Err ErrOther);;
  when bool_decide (length creds = 0%nat) return Ret (Err ErrOther);;
  try begun <- do_op (OpWaBegin false (newWAUser user creds)) else e => Ret (Err e);;
  try sessionID <- db (QCreateWebAuthnSession (u_ID user) begun.2 "login") else e => Ret (Err e);;
  Ret (Ok (begun.1, sessionID)).

(** A credential enrolled before the backup-eligibility flag was stored adopts
    the flag the authenticator reports. *)
Definition adopt_one (parsed : WaAssertion) (c : WebAuthnCredential) : WebAuthnCredential :=
  if bool_decide (wa_BackupEligible c = None) && bool_decide (wa_CredentialID c = wa_RawID parsed) then
    {| wa_ID := wa_ID c; wa_UserID := wa_UserID c; wa_CredentialID := wa_CredentialID c;
       wa_PublicKey := wa_PublicKey c; wa_AAGUID := wa_AAGUID c; wa_SignCount := wa_SignCount c;
       wa_BackupEligible := Some (wa_HasBackupEligible parsed); wa_BackupState := wa_BackupState c;
       wa_DeviceName := wa_DeviceName c; wa_CreatedAt := wa_CreatedAt c; wa_LastUsedAt := wa_LastUsedAt c |}
  else c.

Definition adoptLegacyBackupEligible (creds : list WebAuthnCredential) (parsed : WaAssertion)
    : list WebAuthnCredential := adopt_one parsed <$> creds.

(** The loop that records the use of the verified credential. *)
Fixpoint record_use (creds : list WebAuthnCredential) (cred : WaCredential) : prog (result string) :=
  match creds with
  | [] => Ret (Err ErrOther)
  | c :: creds =>
      if bool_decide (wa_CredentialID c ≠ wc_ID cred) then record_use creds cred
      else
        t <- now;;
        try _u <- db (QUpdateWebAuthnCredentialUse (wa_ID c) (wc_SignCount cred) (wc_BackupEligible cred)
                        (wc_BackupState cred) t) else e => Ret (Err e);;
        Ret (Ok "hwk")
  end.

Definition FinishLogin (user : User) (sessionID : uuid) (r : Request) : prog (result string) :=
  try sessionBytes <- db (QGetWebAuthnSession sessionID (u_ID user) "login") else _e => Ret (Err ErrOther);;
  db (QDeleteWebAuthnSession sessionID);;;
  match waSession_Unmarshal sessionBytes with
  | Err e => Ret (Err e)
  | Ok sessionData =>
      match wa_ParseAssertion (rq_Body r) with
      | Err e => Ret (Err e)
      | Ok parsed =>
          try creds <- db (QListWebAuthnCredentials (u_ID user)) else e => Ret (Err e);;
          let creds := adoptLegacyBackupEligible creds parsed in
          try cred <- do_op (OpWaValidate (newWAUser user creds) sessionData parsed) else e => Ret (Err e);;
          when wc_CloneWarning cred return Ret (Err ErrOther);;
          record_use creds cred
      end
  end.

(** ** Bearer endpoints (mfa_api.go) *)

(** The challenge, as all endpoints return it. *)
Definition challenge_json (begun : string * uuid) : list (string * JVal) :=
  [("options", JStr begun.1); ("session_id", JStr (uuid_String begun.2))].

Definition handleWebAuthnRegisterBegin (sess : Session) (r : Request) : prog Response :=
  try user <- db (QGetUserByID (s_UserID sess)) else _e =>
    Ret (writeError StatusInternalServerError "server_error" "user not found");;
  try begun <- BeginRegistration user else _e =>
    Ret (writeError StatusInternalServerError "server_error" "registration failed");;
  Ret (writeJSON StatusOK (challenge_json begun)).

Definition handleWebAuthnRegisterFinish (sess : Session) (r : Request) : prog Response :=
  match uuid_Parse (rq_Query r "session_id") with
  | Err _ => Ret (writeError StatusBadRequest "invalid_request" "invalid session_id")
  | Ok sessionID =>
      try user <- db (QGetUserByID (s_UserID sess)) else _e =>
        Ret (writeError StatusInternalServerError "server_error" "user not found");;
      try cred <- FinishRegistration user sessionID r (rq_Query r "device_name") else e =>
        Ret (writeError StatusBadRequest "invalid_request" (err_Error e));;
      db (QUpdateUserMFAEnabled (s_UserID sess) true);;;
      try _u <- logAudit r ActionMFAWebAuthnEnrolled (Some (s_UserID sess)) None
                  [("credential_id", MStr (uuid_String (wa_ID cred)))] else e => Ret (auditFail (err_Error e));;
      Ret (writeJSON StatusOK [("id", JStr (uuid_String (wa_ID cred))); ("device_name", JStr (wa_DeviceName cred))])
  end.

(** The [email] of the JSON body is not normalised. *)
Definition handleWebAuthnLoginBegin (r : Request) : prog Response :=
  let email := match rq_JSON r with Some b => jb_Str b "email" | None => "" end in
  when bool_decide (email = "") return Ret (writeError StatusBadRequest "invalid_request" "email required");;
  try user <- db (QGetUserByEmail email) else _e =>
    Ret (writeError StatusBadRequest "invalid_request" "no WebAuthn credentials registered");;
  try begun <- BeginLogin user else e => Ret (writeError StatusBadRequest "invalid_request" (err_Error e));;
  Ret (writeJSON StatusOK (challenge_json begun ++ [("user_id", JStr (uuid_String (u_ID user)))])).

Definition handleWebAuthnLoginFinish (r : Request) : prog Response :=
  match uuid_Parse (rq_Query r "session_id") with
  | Err _ => Ret (writeError StatusBadRequest "invalid_request" "invalid session_id")
  | Ok sessionID =>
  match uuid_Parse (rq_Query r "user_id") with
  | Err _ => Ret (writeError StatusBadRequest "invalid_request" "invalid user_id")
  | Ok userID =>
      try user <- db (QGetUserByID userID) else _e =>
        Ret (writeError StatusUnauthorized "invalid_request" "user not found");;
      try _amr <- FinishLogin user sessionID r else _e =>
        Ret (writeError StatusUnauthorized "invalid_request" "WebAuthn verification failed");;
      try _u <- logAudit r ActionLoginMFA (Some (u_ID user)) None [("method", MStr "webauthn")]
        else e => Ret (auditFail (err_Error e));;
      Ret (writeJSON StatusOK [("verified", JBool true)])
  end end.

(** Turn MFA off when no key and no TOTP row is left. *)
Definition disable_if_last (userID : uuid) : prog unit :=
  creds <- db (QListWebAuthnCredentials userID);;
  totp <- db (QGetTOTPByUserID userID);;
  if bool_decide (length (or_nil creds) = 0%nat) && (match totp with Ok _ => false | Err _ => true end)
  then db (QUpdateUserMFAEnabled userID false);;; Ret tt
  else Ret tt.

(** [slices.ContainsFunc(owned, ...)] *)
Definition owns (owned : list WebAuthnCredential) (credID : uuid) : bool :=
  existsb (λ c, bool_decide (wa_ID c = credID)) owned.

Definition handleWebAuthnDelete (sess : Session) (r : Request) : prog Response :=
  match uuid_Parse (rq_PathID r) with
  | Err _ => Ret (writeError StatusBadRequest "invalid_request" "invalid credential id")
  | Ok credID =>
      owned <- db (QListWebAuthnCredentials (s_UserID sess));;
      when negb (owns (or_nil owned) credID) return
        Ret (writeError StatusNotFound "not_found" "credential not found");;
      try _u <- logAudit r ActionMFAWebAuthnDeleted (Some (s_UserID sess)) None
                  [("credential_id", MStr (uuid_String credID))] else e => Ret (auditFail (err_Error e));;
      deleted <- db (QDeleteWebAuthnCredential credID (s_UserID sess));;
      match deleted with
      | Err ErrNotFound => Ret (writeError StatusNotFound "not_found" "credential not found")
      | Err _ => Ret (writeError StatusInternalServerError "server_error" "delete failed")
      | Ok _ =>
          disable_if_last (s_UserID sess);;;
          Ret (mkResponse StatusNoContent [] NoBody)
      end
  end.

(** ** The MFA step of /authorize (web_sso.go) *)

Definition handleSSOWebAuthnBegin (r : Request) : prog Response :=
  try st <- getAuthStateCookie r else _e =>
    Ret (writeError StatusUnauthorized "invalid_request" "missing or expired auth state");;
  try user <- db (QGetUserByID (as_UserID st)) else _e =>
    Ret (writeError StatusUnauthorized "invalid_request" "user not found");;
  try begun <- BeginLogin user else e => Ret (writeError StatusBadRequest "invalid_request" (err_Error e));;
  Ret (writeJSON StatusOK (challenge_json begun)).

(** The code is issued inline; the redirect goes to the page's script. *)
Definition sso_issue (st : authState) (user : User) (client : Client) : prog Response :=
  try rawCode <- GenerateRawToken else _e =>
    Ret (writeError StatusInternalServerError "server_error" "internal error");;
  mfaAt <- now;;
  id <- newUUID;;
  t <- now;;
  try _u <- db (QCreateGrant (new_grant id user client (as_Scopes st) (as_Nonce st) (as_CodeChallenge st)
                                (as_RedirectURI st) (Some mfaAt) (as_AuthTime st) rawCode t))
    else _e => Ret (writeError StatusInternalServerError "server_error" "internal error");;
  match url_Parse (as_RedirectURI st) with
  | Err _ => Ret panicked
  | Ok redirect =>
      Ret (writeJSON StatusOK [("redirect_to", JURL redirect
        (("code", rawCode) :: if bool_decide (as_State st = "") then [] else [("state", as_State st)]))])
  end.

Definition handleSSOWebAuthnFinish (sv : Server) (r : Request) : prog Response :=
  try st <- getAuthStateCookie r else _e =>
    Ret (writeError StatusUnauthorized "invalid_request" "missing or expired auth state");;
  match uuid_Parse (rq_Query r "session_id") with
  | Err _ => Ret (writeError StatusBadRequest "invalid_request" "invalid session_id")
  | Ok sessionID =>
      try user <- db (QGetUserByID (as_UserID st)) else _e =>
        Ret (writeError StatusUnauthorized "invalid_request" "user not found");;
      try _amr <- FinishLogin user sessionID r else _e =>
        Ret (writeError StatusUnauthorized "invalid_request" "WebAuthn verification failed");;
      try client <- db (QGetClientByClientID (as_ClientID st)) else _e =>
        Ret (writeError StatusBadRequest "invalid_request" "client not found");;
      let cleared := with_cookies [clearCookie authStateCookie] in
      try _u <- logAudit r ActionLoginMFA (Some (u_ID user)) (Some (c_ID client)) [("method", MStr "webauthn")]
        else e => Ret (cleared (auditFail (err_Error e)));;
      try _u <- logAudit r ActionLogin (Some (u_ID user)) (Some (c_ID client)) []
        else e => Ret (cleared (auditFail (err_Error e)));;
      cks <- ensurePortalCookie sv r user;;
      resp <- sso_issue st user client;;
      Ret (cleared (with_cookies cks resp))
  end.

(** ** The MFA step of the portal login (web_portal.go) *)

Definition handlePortalLoginMFAWebAuthnBegin (r : Request) : prog Response :=
  try st <- getPortalLoginCookie r else _e =>
    Ret (writeError StatusUnauthorized "unauthorized" "no login session");;
  try user <- db (QGetUserByID (pls_UserID st)) else _e =>
    Ret (writeError StatusUnauthorized "unauthorized" "user not found");;
  try begun <- BeginLogin user else _e =>
    Ret (writeError StatusInternalServerError "server_error" "begin login failed");;
  Ret (writeJSON StatusOK (challenge_json begun)).

Definition handlePortalLoginMFAWebAuthnFinish (r : Request) : prog Response :=
  try st <- getPortalLoginCookie r else _e =>
    Ret (writeError StatusUnauthorized "unauthorized" "no login session");;
  try user <- db (QGetUserByID (pls_UserID st)) else _e =>
    Ret (writeError StatusUnauthorized "unauthorized" "user not found");;
  match uuid_Parse (rq_Query r "session_id") with
  | Err _ => Ret (writeError StatusBadRequest "invalid_request" "invalid session_id")
  | Ok sessionID =>
      try _amr <- FinishLogin user sessionID r else _e =>
        (try _u <- logAudit r ActionLoginMFAFailed (Some (u_ID user)) None [("via", MStr "portal_webauthn")]
           else e => Ret (auditFail (err_Error e));;
         Ret (writeError StatusUnauthorized "unauthorized" "webauthn verification failed"));;
      seat <- createPortalSession r user;;
      Ret (with_cookies [clearCookie portalLoginCookie]
        (match seat with
         | AuditUnavailable e => seat_unaudited e
         | NotSeated => writeError StatusInternalServerError "server_error" "session creation failed"
         | Seated c => with_cookies [c] (writeJSON StatusOK [("redirect_to", JStr "/portal")])
         end))
  end.

End webauthn.

#[global] Arguments BeginRegistration : simpl never.
#[global] Arguments FinishRegistration : simpl never.
#[global] Arguments BeginLogin : simpl never.
#[global] Arguments FinishLogin : simpl never.
#[global] Arguments record_use : simpl never.
#[global] Arguments disable_if_last : simpl never.
#[global] Arguments sso_issue : simpl never.
