(* ===== verification/AwsConsole.v ===== *)
(** * AWS federation

    [internal/api/web_portal_aws.go], [aws_credentials.go],
    [web_portal_step_up.go] and the launcher tiles of [web_portal_apps.go]: a
    signed-in user assumes a role of the catalogue that one of the user's
    groups is assigned to, in a region the server offers for that role, after a
    fresh second factor when the role asks for it.  STS, IAM and the sign-in
    endpoint are effects. *)
From stdpp Require Import sorting.
From S2P Require Import Prelude GoStrings GoNet Model Dialect Policy Tables SqliteUsers SqliteTokens SqliteAws Store Pkce Prog.
From S2P Require Import SingleUse Server Provision Awsfed Fixture Mfa Portal PortalFacts Authorize AuthorizeFacts WebAuthn.

Local Open Scope Z_scope.
Local Open Scope prog_scope.

Definition federationTokenTTL : Z := 15 * Minute.

(** ** Regions *)

Record awsDoor : Type := mkDoor { stsRegion : string; signinFed : string; consoleHome : string }.

Definition doorFor (region : string) : awsDoor :=
  if bool_decide (region = "") then
    mkDoor "aws-global" "https://signin.aws.amazon.com/federation" "https://console.aws.amazon.com/"
  else
    mkDoor region ("https://" +:+ region +:+ ".signin.aws.amazon.com/federation")
      ("https://" +:+ region +:+ ".console.aws.amazon.com/console/home?region=" +:+ region).

(** [^[a-z0-9-]{1,20}$] *)
Definition awsRegionPattern (s : string) : bool :=
  str_forallb (λ a, is_lower_alnum a || Ascii.eqb a "-") s &&
  (1 <=? String.length s)%nat && (String.length s <=? 20)%nat.

Definition sanitizeAWSRegion (region : string) : string :=
  if bool_decide (region = "") || awsRegionPattern region then region else "".

Definition splitRegions (lst : string) : list string :=
  FieldsFunc (λ c, (c =? 44) || IsSpace c) lst.

(** [if !slices.Contains(out, r) { out = append(out, r) }] *)
Definition append_new (out : list string) (r : string) : list string :=
  if str_contains out r then out else out ++ [r].

(** The loop over the configured list: [None] when a name is not valid. *)
Fixpoint parse_regions_go (out : list string) (rs : list string) : option (list string) :=
  match rs with
  | [] => Some out
  | r :: rs => if awsRegionPattern r then parse_regions_go (append_new out r) rs else None
  end.

(** The regions and the default; [None] is the error. *)
Definition ParseAWSRegions (lst def : string) : option (list string * string) :=
  match parse_regions_go [] (splitRegions lst) with
  | None => None
  | Some regions =>
      let def := TrimSpace def in
      if bool_decide (def = "") then Some (regions, def)
      else if negb (awsRegionPattern def) then None
      else Some (append_new regions def, def)
  end.

Record regionOption : Type := mkRegionOption { ro_Value : string; ro_Label : string; ro_Selected : bool }.

Definition eligibleAWSRegions (sv : Server) (role : AWSRole) : list string * bool :=
  if bool_decide (length (ar_AllowedRegions role) = 0%nat) then (srv_awsRegions sv, false)
  else (filter (λ r, str_contains (ar_AllowedRegions role) r = true) (srv_awsRegions sv), true).

Definition awsRegionOptions (sv : Server) (role : AWSRole) : list regionOption :=
  let '(eligible, restricted) := eligibleAWSRegions sv role in
  match eligible with
  | [] => []
  | first :: _ =>
      let includeGlobal := negb restricted && bool_decide (srv_awsDefaultRegion sv = "") in
      let def := if str_contains eligible (srv_awsDefaultRegion sv) then srv_awsDefaultRegion sv
                 else if negb includeGlobal then first else "" in
      (if includeGlobal then [mkRegionOption "" "Global (default)" true] else []) ++
      ((λ r, let sel := bool_decide (r = def) in
             mkRegionOption r (if sel then r +:+ " (default)" else r) sel) <$> eligible)
  end.

Definition awsRegionsBlocked (sv : Server) (role : AWSRole) : bool :=
  (0 <? length (srv_awsRegions sv))%nat && bool_decide (length (awsRegionOptions sv role) = 0%nat).

Fixpoint find_option (requested : string) (os : list regionOption) : option string :=
  match os with
  | [] => None
  | o :: os =>
      if bool_decide (requested = "") && ro_Selected o
         || negb (bool_decide (requested = "")) && bool_decide (ro_Value o = requested)
      then Some (ro_Value o) else find_option requested os
  end.

(** [None]: not allowed. *)
Definition resolveAWSRegion (sv : Server) (role : AWSRole) (requested : string) : option string :=
  if bool_decide (length (srv_awsRegions sv) = 0%nat)
  then (if bool_decide (requested = "") then Some "" else None)
  else find_option requested (awsRegionOptions sv role).

(** ** Session names *)

(** [time.Time.Unix]: seconds since 1970. *)
Definition Unix (t : Z) : Z := t / Second - 62135596800.

Definition session_name_byte (c : ascii) : ascii :=
  if is_alnum c || Ascii.eqb c "=" || Ascii.eqb c "," || Ascii.eqb c "." || Ascii.eqb c "@" || Ascii.eqb c "-"
  then c else "-"%char.

(** [strings.Cut(email, "@")], the part before. *)
Definition email_local (email : string) : string := hd "" (Split email "@").

Definition int32_wrap (z : Z) : Z := (z + 2 ^ 31) `mod` 2 ^ 32 - 2 ^ 31.

(** ** The exchange *)

(** What can go wrong: [errFederationUnconfigured], or another error. *)
Inductive fed_error : Type := FedUnconfigured | FedErr (e : error).

Definition fed_text (e : fed_error) : string :=
  match e with
  | FedUnconfigured => "AUTHD_AWS_AUDIENCE is not set; aws federation is disabled"
  | FedErr e => err_Error e
  end.

Section aws.
  Context `{U : UnicodeTables} {dialect : Dialect} `{X : Externals}.

Definition buildRoleSessionName (email : string) (userID : uuid) : prog string :=
  let uid := uuid_String userID in
  let uid := if (8 <? String.length uid)%nat then str_take 8 uid else uid in
  t <- now;;
  let raw := email_local email +:+ "-" +:+ uid +:+ "-" +:+ Itoa (Unix t) in
  let out := str_map session_name_byte raw in
  Ret (if (64 <? String.length out)%nat then str_take 64 out else out).

(** The groups that give the user the role, sorted by name. *)
Definition authorizingGroupsForRole (userID roleID : uuid) : prog (result (list string)) :=
  try assigns <- db QListAWSRoleAssignments else e => Ret (Err e);;
  let authorizing := ara_GroupID <$> filter (λ a, ara_RoleID a = roleID) assigns in
  when bool_decide (length authorizing = 0%nat) return Ret (Ok []);;
  try groups <- db QListGroups else e => Ret (Err e);;
  Ret (Ok (sort_Strings (grp_DisplayName <$>
        filter (λ g, grp_ID g ∈ authorizing ∧ userID ∈ grp_Members g) groups))).

(** The session tags of the federation token. *)
Definition principal_tags (user : User) (authzGroups : list string) : list (string * string) :=
  [("sub", uuid_String (u_ID user))] ++
  (if bool_decide (u_Email user = "") then [] else [("email", u_Email user)]) ++
  match authzGroups with [] => [] | g :: _ => [("team", g)] end.

(** The STS answer (or why there is none) and the session name. *)
Definition assumeRoleForUser (sv : Server) (user : User) (sess : Session) (role : AWSRole) (region : string)
    : prog (fed_error + (option Credentials * string)) :=
  when bool_decide (srv_awsAudience sv = "") return Ret (inl FedUnconfigured);;
  groups <- groupNamesForUser (u_ID user);;
  try authzGroups <- authorizingGroupsForRole (u_ID user) (ar_ID role) else e => Ret (inl (FedErr e));;
  try idToken <- do_op (OpMintFederation
      {| fc_Sub := u_ID user; fc_Aud := srv_awsAudience sv; fc_Email := u_Email user; fc_Name := u_Name user;
         fc_Groups := or_nil groups; fc_AMR := if s_MFAVerified sess then ["pwd"; "mfa"] else ["pwd"];
         fc_AuthTime := s_CreatedAt sess; fc_TTL := federationTokenTTL;
         fc_Tags := principal_tags user authzGroups |})
    else e => Ret (inl (FedErr e));;
  sessionName <- buildRoleSessionName (u_Email user) (u_ID user);;
  try out <- do_op (OpAssumeRole
      {| ar_Region := stsRegion (doorFor region); ar_RoleArn := ar_RoleARN role;
         ar_RoleSessionName := sessionName; ar_WebIdentityToken := idToken;
         ar_DurationSeconds := int32_wrap (ar_MaxSessionDurationSec role) |})
    else e => Ret (inl (FedErr e));;
  Ret (inr (out, sessionName)).

(** The role, and whether the user may assume it. *)
Definition resolveAuthorizedAWSRole (userID roleID : uuid) : prog (result (AWSRole * bool)) :=
  try role <- db (QGetAWSRole roleID) else e => Ret (Err e);;
  try authorized <- db (QListAWSRolesForUser userID) else e => Ret (Err e);;
  Ret (Ok (role, existsb (λ ar, bool_decide (ar_ID ar = roleID)) authorized)).

Definition signin_session (c : Credentials) : string :=
  "{" +:+ json_String "sessionId" +:+ ":" +:+ json_String (cr_AccessKeyId c) +:+ "," +:+
  json_String "sessionKey" +:+ ":" +:+ json_String (cr_SecretAccessKey c) +:+ "," +:+
  json_String "sessionToken" +:+ ":" +:+ json_String (cr_SessionToken c) +:+ "}".

Definition exchangeSigninToken (creds : option Credentials) (region : string) : prog (result string) :=
  match creds with
  | None => Ret (Err ErrOther)
  | Some c =>
      let q := Values_Encode [("Action", "getSigninToken"); ("Session", signin_session c)] in
      try resp <- do_op (OpHTTP (mkHTTPRequest "GET" (signinFed (doorFor region) +:+ "?" +:+ q) "" NoReqBody))
        else e => Ret (Err e);;
      Ret (if negb (hs_Status resp =? 200) then Err ErrOther
           else match json_Field (hs_Body resp) "SigninToken" with
                | Decoded tok => if bool_decide (tok = "") then Err ErrOther else Ok tok
                | _ => Err ErrOther
                end)
  end.

Definition buildConsoleLoginURL (signinToken issuerURL destination fedURL : string) : string :=
  fedURL +:+ "?" +:+ Values_Encode [("Action", "login"); ("Issuer", issuerURL); ("Destination", destination);
                                    ("SigninToken", signinToken)].

Definition assume_failed (r : Request) (user : User) (meta : list (string * MetaVal)) : prog (result unit) :=
  logAudit r ActionAWSConsoleAssumeFailed (Some (u_ID user)) None meta.

(** The console address, or the text of the error. *)
Definition buildAWSConsoleURL (sv : Server) (r : Request) (pc : portalCtx) (role : AWSRole) (region : string)
    : prog (string + string) :=
  let user := px_User pc in
  let rid := uuid_String (ar_ID role) in
  match resolveAWSRegion sv role region with
  | None =>
      assume_failed r user [("role_id", MStr rid); ("reason", MStr "region_not_allowed")];;;
      Ret (inl "region not available")
  | Some region =>
  got <- assumeRoleForUser sv user (px_Session pc) role region;;
  match got with
  | inl e =>
      assume_failed r user [("role_id", MStr rid); ("role_arn", MStr (ar_RoleARN role));
                            ("reason", MStr "sts_error"); ("err", MStr (fed_text e))];;;
      Ret (inl ("AWS rejected the federation request: " +:+ fed_text e))
  | inr (out, sessionName) =>
  tok <- exchangeSigninToken out region;;
  match tok with
  | Err e =>
      assume_failed r user [("role_id", MStr rid); ("reason", MStr "signin_token_error"); ("err", MStr (err_Error e))];;;
      Ret (inl ("AWS console federation failed: " +:+ err_Error e))
  | Ok signinToken =>
      let refreshURL := srv_issuer sv +:+ "/portal/aws/refresh?" +:+
                        Values_Encode [("role_id", rid); ("region", region)] in
      let d := doorFor region in
      try _u <- logAudit r ActionAWSConsoleAssumed (Some (u_ID user)) None
            [("role_id", MStr rid); ("role_arn", MStr (ar_RoleARN role)); ("role_slug", MStr (ar_Slug role));
             ("audience", MStr (srv_awsAudience sv)); ("role_session_name", MStr sessionName);
             ("step_up", MBool (ar_RequireStepUpMFA role));
             ("mfa_authenticated", MBool (s_MFAVerified (px_Session pc))); ("region", MStr region)]
        else e => Ret (inl (err_Error e));;
      Ret (inr (buildConsoleLoginURL signinToken refreshURL (consoleHome d) (signinFed d)))
  end end end.

Definition stepUpMFAFresh (sv : Server) (sess : Session) : prog bool :=
  match s_MFAVerifiedAt sess with
  | None => Ret false
  | Some t0 => t <- now;; Ret (time_Sub t t0 <=? srv_stepUpMFATTL sv)
  end.

(** A form value, or the query parameter of that name when it is empty. *)
Definition form_or_query (r : Request) (key : string) : string :=
  if bool_decide (rq_FormValue r key = "") then rq_Query r key else rq_FormValue r key.

Definition aws_error (msg : string) : Response :=
  httpRedirect (LocPath ("/portal/aws?error=" +:+ QueryEscape msg)).

(** Behind [portalAuth]. *)
Definition handlePortalAWSConsole (sv : Server) (pc : portalCtx) (r : Request) : prog Response :=
  let user := px_User pc in
  match uuid_Parse (form_or_query r "role_id") with
  | Err _ => Ret (aws_error "invalid role_id")
  | Ok roleID =>
  let region := sanitizeAWSRegion (form_or_query r "region") in
  let rid := uuid_String roleID in
  try found <- resolveAuthorizedAWSRole (u_ID user) roleID else _e => Ret (aws_error "lookup failed");;
  let role := found.1 in
  when negb found.2 return
    (assume_failed r user [("role_id", MStr rid); ("reason", MStr "not_assigned")];;;
     Ret (httpError "forbidden" StatusForbidden));;
  match resolveAWSRegion sv role region with
  | None =>
      assume_failed r user [("role_id", MStr rid); ("reason", MStr "region_not_allowed")];;;
      Ret (aws_error "region not available")
  | Some region =>
  fresh <- (if ar_RequireStepUpMFA role then stepUpMFAFresh sv (px_Session pc) else Ret true);;
  when negb fresh return
    (assume_failed r user [("role_id", MStr rid); ("reason", MStr "step_up_required");
                           ("mfa_authenticated", MBool (s_MFAVerified (px_Session pc)))];;;
     Ret (httpRedirect (LocPath ("/portal/step-up?" +:+
            Values_Encode [("next", "aws_console"); ("role_id", rid); ("region", region)]))));;
  built <- buildAWSConsoleURL sv r pc role region;;
  Ret (match built with
       | inl msg => aws_error msg
       | inr url => httpRedirect (LocPath url)
       end)
  end end.

Definition handlePortalAWSRefresh := handlePortalAWSConsole.

(** ** aws_credentials.go, behind [bearerAuth] *)

(** The role with the slug among those the user may assume. *)
Definition resolveAWSRoleBySlugForUser (userID : uuid) (slug : string) : prog (result (option AWSRole)) :=
  try roles <- db (QListAWSRolesForUser userID) else e => Ret (Err e);;
  Ret (Ok (find (λ r, bool_decide (ar_Slug r = slug)) roles)).

Definition handleAWSCredentials (sv : Server) (sess : Session) (r : Request) : prog Response :=
  when bool_decide (srv_awsAudience sv = "") return
    Ret (writeError StatusServiceUnavailable "federation_disabled"
           "AWS federation is not configured (AUTHD_AWS_AUDIENCE is unset)");;
  when bool_decide (s_UserID sess = uuid_nil) return
    Ret (writeError StatusUnauthorized "unauthorized" "no session");;
  try user <- db (QGetUserByID (s_UserID sess)) else _e =>
    Ret (writeError StatusUnauthorized "unauthorized" "user not found");;
  when negb (u_Active user) return
    Ret (writeError StatusForbidden "user_inactive" "user is deactivated");;
  let slug := if bool_decide (TrimSpace (rq_FormValue r "role") = "") then TrimSpace (rq_FormValue r "audience")
              else TrimSpace (rq_FormValue r "role") in
  when bool_decide (slug = "") return Ret (writeError StatusBadRequest "invalid_request" "role is required");;
  try found <- resolveAWSRoleBySlugForUser (u_ID user) slug else _e =>
    Ret (writeError StatusInternalServerError "server_error" "role lookup failed");;
  match found with
  | None =>
      assume_failed r user [("role_slug", MStr slug); ("reason", MStr "not_assigned"); ("via", MStr "api")];;;
      Ret (writeError StatusForbidden "forbidden" "no role with that slug is assigned to you")
  | Some role =>
  let rid := uuid_String (ar_ID role) in
  when ar_RequireStepUpMFA role && negb (s_MFAVerified sess) return
    (assume_failed r user [("role_id", MStr rid); ("role_slug", MStr slug); ("reason", MStr "step_up_required");
                           ("mfa_authenticated", MBool false); ("via", MStr "api")];;;
     Ret (writeError StatusForbidden "step_up_required"
            "this role requires MFA; enroll TOTP or a security key and re-authenticate"));;
  got <- assumeRoleForUser sv user sess role "";;
  match got with
  | inl FedUnconfigured =>
      Ret (writeError StatusServiceUnavailable "federation_disabled" (fed_text FedUnconfigured))
  | inl e =>
      assume_failed r user [("role_id", MStr rid); ("role_slug", MStr slug); ("role_arn", MStr (ar_RoleARN role));
                            ("reason", MStr "sts_error"); ("err", MStr (fed_text e)); ("via", MStr "api")];;;
      Ret (writeError StatusBadGateway "sts_error" ("AWS rejected the federation request: " +:+ fed_text e))
  | inr (None, _) => Ret (writeError StatusBadGateway "sts_error" "AWS returned no credentials")
  | inr (Some c, sessionName) =>
      try _u <- logAudit r ActionAWSConsoleAssumed (Some (u_ID user)) None
            [("role_id", MStr rid); ("role_arn", MStr (ar_RoleARN role)); ("role_slug", MStr (ar_Slug role));
             ("audience", MStr (srv_awsAudience sv)); ("role_session_name", MStr sessionName);
             ("step_up", MBool (ar_RequireStepUpMFA role)); ("mfa_authenticated", MBool (s_MFAVerified sess));
             ("via", MStr "api")] else e => Ret (auditFail (err_Error e));;
      Ret (writeJSON StatusOK [("Version", JInt 1); ("AccessKeyId", JStr (cr_AccessKeyId c));
             ("SecretAccessKey", JStr (cr_SecretAccessKey c)); ("SessionToken", JStr (cr_SessionToken c));
             ("Expiration", JTime (default 0 (cr_Expiration c)))])
  end end.

(** ** web_portal_step_up.go, behind [portalAuth] *)

(** The session as the rest of the request sees it after the challenge. *)
Definition session_stepped_up (t : Z) (s : Session) : Session :=
  {| s_ID := s_ID s; s_UserID := s_UserID s; s_ClientID := s_ClientID s;
     s_AccessTokenHash := s_AccessTokenHash s; s_RefreshTokenHash := s_RefreshTokenHash s;
     s_Scopes := s_Scopes s; s_AccessExpiresAt := s_AccessExpiresAt s; s_RefreshExpiresAt := s_RefreshExpiresAt s;
     s_LastActivityAt := s_LastActivityAt s; s_MFAVerified := true;
     s_MFAVerifiedAt := Some t; s_AuthTime := s_AuthTime s; s_CreatedAt := s_CreatedAt s |}.

(** The context with the session stepped up. *)
Definition markStepUpSuccess (pc : portalCtx) : prog (result portalCtx) :=
  t <- now;;
  try _u <- db (QMarkSessionMFA (s_ID (px_Session pc)) t) else e => Ret (Err e);;
  Ret (Ok (mkPortalCtx (session_stepped_up t (px_Session pc)) (px_User pc))).

(** Where to go, or the text of the error. *)
Definition dispatchStepUpNext (sv : Server) (r : Request) (pc : portalCtx) (next roleIDStr region : string)
    : prog (string + string) :=
  if bool_decide (next = "aws_console") then
    match uuid_Parse roleIDStr with
    | Err _ => Ret (inl "invalid role_id")
    | Ok roleID =>
        try found <- resolveAuthorizedAWSRole (u_ID (px_User pc)) roleID else e =>
          Ret (inl ("role lookup failed: " +:+ err_Error e));;
        when negb found.2 return Ret (inl "not authorized for that role");;
        buildAWSConsoleURL sv r pc found.1 region
    end
  else Ret (inr "/portal").

Definition no_factor_message : string :=
  "This action requires MFA, but no factors are enrolled on your account. Enroll one in /portal/account first.".

Definition handlePortalStepUp (sv : Server) (pc : portalCtx) (r : Request) : prog Response :=
  let next := form_or_query r "next" in
  let roleID := form_or_query r "role_id" in
  let region := sanitizeAWSRegion (form_or_query r "region") in
  methods <- portalMFAMethods (u_ID (px_User pc));;
  when negb methods.1 && negb methods.2 return
    Ret (httpRedirect (LocPath ("/portal?error=" +:+ QueryEscape no_factor_message)));;
  let show msg := render "portal_step_up.html"
    [("Error", JStr msg); ("Next", JStr next); ("RoleID", JStr roleID); ("Region", JStr region);
     ("HasTOTP", JBool methods.1); ("HasWebAuthn", JBool methods.2)] in
  when bool_decide (rq_Method r = "GET") return Ret (show "");;
  try _u <- VerifyTOTP (u_ID (px_User pc)) (rq_FormValue r "code") else _e =>
    (logAudit r ActionLoginMFAFailed (Some (u_ID (px_User pc))) None [("via", MStr "step_up")];;;
     Ret (show "Invalid code. Please try again."));;
  try pc <- markStepUpSuccess pc else _e => Ret (show "Server error. Please try again.");;
  dest <- dispatchStepUpNext sv r pc next roleID region;;
  Ret (match dest with
       | inl msg => httpRedirect (LocPath ("/portal?error=" +:+ QueryEscape msg))
       | inr url => httpRedirect (LocPath url)
       end).

Definition handlePortalStepUpWebAuthnBegin (pc : portalCtx) (r : Request) : prog Response :=
  try begun <- BeginLogin (px_User pc) else _e =>
    Ret (writeError StatusInternalServerError "server_error" "begin login failed");;
  Ret (writeJSON StatusOK (challenge_json begun)).

Definition handlePortalStepUpWebAuthnFinish (sv : Server) (pc : portalCtx) (r : Request) : prog Response :=
  match uuid_Parse (rq_Query r "session_id") with
  | Err _ => Ret (writeError StatusBadRequest "invalid_request" "invalid session_id")
  | Ok sessionID =>
      try _amr <- FinishLogin (px_User pc) sessionID r else _e =>
        (logAudit r ActionLoginMFAFailed (Some (u_ID (px_User pc))) None [("via", MStr "step_up_webauthn")];;;
         Ret (writeError StatusUnauthorized "unauthorized" "webauthn verification failed"));;
      try pc <- markStepUpSuccess pc else _e =>
        Ret (writeError StatusInternalServerError "server_error" "mark session failed");;
      dest <- dispatchStepUpNext sv r pc (rq_Query r "next") (rq_Query r "role_id")
                (sanitizeAWSRegion (rq_Query r "region"));;
      Ret (match dest with
           | inl msg => writeError StatusBadGateway "dispatch_failed" msg
           | inr url => writeJSON StatusOK [("redirect_to", JStr url)]
           end)
  end.

(** ** web_portal_apps.go *)

Record appTile : Type := mkAppTile {
  tile_Kind : string; tile_ID : string; tile_DisplayName : string; tile_Subtitle : string;
  tile_LaunchURL : string; tile_BrandColor : string; tile_IconURL : string; tile_StepUpMFA : bool;
  tile_TTLSeconds : Z; tile_VisibleToAll : bool; tile_Regions : list regionOption; tile_NoRegion : bool;
}.

Definition client_tile (c : Client) : appTile :=
  {| tile_Kind := "oidc"; tile_ID := uuid_String (c_ID c); tile_DisplayName := c_Name c; tile_Subtitle := "";
     tile_LaunchURL := c_LaunchURL c; tile_BrandColor := c_BrandColor c; tile_IconURL := c_IconURL c;
     tile_StepUpMFA := false; tile_TTLSeconds := 0; tile_VisibleToAll := c_VisibleToAll c;
     tile_Regions := []; tile_NoRegion := false |}.

(** The account of a role, in the map the handler builds. *)
Definition accounts_by_id (accounts : list AWSAccount) : gmap N AWSAccount :=
  foldl (λ m a, <[aa_ID a := a]> m) ∅ accounts.

Definition role_subtitle (accounts : list AWSAccount) (role : AWSRole) : string :=
  match accounts_by_id accounts !! ar_AccountID role with
  | Some a => "AWS · " +:+ aa_AccountID a +:+
              (if bool_decide (aa_Alias a = "") then "" else " (" +:+ aa_Alias a +:+ ")")
  | None => "AWS"
  end.

Definition role_tile (sv : Server) (accounts : list AWSAccount) (role : AWSRole) : appTile :=
  {| tile_Kind := "aws"; tile_ID := uuid_String (ar_ID role); tile_DisplayName := ar_DisplayName role;
     tile_Subtitle := role_subtitle accounts role; tile_LaunchURL := ""; tile_BrandColor := ""; tile_IconURL := "";
     tile_StepUpMFA := ar_RequireStepUpMFA role; tile_TTLSeconds := ar_MaxSessionDurationSec role;
     tile_VisibleToAll := false; tile_Regions := awsRegionOptions sv role;
     tile_NoRegion := awsRegionsBlocked sv role |}.

(** [inl]: the text of the error. *)
Definition portalAppTiles (sv : Server) (pc : portalCtx) : prog (string + list appTile) :=
  try clients <- db (QListPortalClientsForUser (u_ID (px_User pc))) else e =>
    Ret (inl ("list portal clients: " +:+ err_Error e));;
  try awsRoles <- db (QListAWSRolesForUser (u_ID (px_User pc))) else e =>
    Ret (inl ("list aws roles: " +:+ err_Error e));;
  accounts <- db QListAWSAccounts;;
  Ret (inr ((client_tile <$> filter (λ c, c_LaunchURL c ≠ "") clients) ++
            (role_tile sv (or_nil accounts) <$> awsRoles))).

End aws.

#[global] Arguments assumeRoleForUser : simpl never.
#[global] Arguments resolveAuthorizedAWSRole : simpl never.
#[global] Arguments resolveAWSRoleBySlugForUser : simpl never.
#[global] Arguments exchangeSigninToken : simpl never.
#[global] Arguments buildAWSConsoleURL : simpl never.
#[global] Arguments stepUpMFAFresh : simpl never.
#[global] Arguments assume_failed : simpl never.
#[global] Arguments markStepUpSuccess : simpl never.
#[global] Arguments dispatchStepUpNext : simpl never.
#[global] Arguments portalAppTiles : simpl never.
#[global] Arguments authorizingGroupsForRole : simpl never.
#[global] Arguments buildRoleSessionName : simpl never.
