(* ===== verification/AwsFacts.v ===== *)
(** * What AWS federation grants

    Whatever the outside answers, STS is asked for credentials only for a role
    that the catalogue lists for the signed-in user, in a region the server
    offers for it, with a token minted for that user, after a fresh second
    factor when the role asks for one; and what STS answers leaves the server
    only once the journal has accepted an entry. *)
From S2P Require Import Prelude GoStrings GoNet Model Dialect Policy Tables SqliteUsers SqliteTokens SqliteAws Store Pkce Prog.
From S2P Require Import SingleUse Server Provision Awsfed Fixture Mfa Portal PortalFacts Authorize AuthorizeFacts WebAuthn AwsConsole.

Local Open Scope Z_scope.
Local Open Scope prog_scope.

(** The role a trace asked STS for. *)
Definition assumed (e : event) : option AssumeRoleInput :=
  match e with Ev (OpAssumeRole i) _ => Some i | _ => None end.

Notation roles_assumed := (collect assumed).

Lemma calls_collect {A B} (f : event → option B) (p : prog A) tr a :
  calls (λ e, f e = None) p → path p tr a → collect f tr = [].
Proof. intros Hc Hp. apply collect_none. by eapply calls_path. Qed.

(** ** Regions *)

(** A region the server offers for a role: the global endpoint when no region
    restricts it, or a configured one within the role's own list. *)
Definition offered (sv : Server) (role : AWSRole) (region : string) : Prop :=
  region = "" ∧ (srv_awsRegions sv = [] ∨ ar_AllowedRegions role = [] ∧ srv_awsDefaultRegion sv = "") ∨
  region ∈ srv_awsRegions sv ∧ (ar_AllowedRegions role = [] ∨ region ∈ ar_AllowedRegions role).

Lemma find_option_In req os v : find_option req os = Some v → ∃ o, o ∈ os ∧ ro_Value o = v.
Proof.
  induction os as [|o os IH]; simpl; [done|]. case_match; [intros [= <-]; exists o; by split; [left|]|].
  intros (o' & ? & ?)%IH. exists o'. split; [by right|done].
Qed.

Lemma resolveAWSRegion_offered sv role req region :
  resolveAWSRegion sv role req = Some region → offered sv role region.
Proof.
  unfold resolveAWSRegion, offered. case_bool_decide as Hl.
  { apply length_zero_iff_nil in Hl. case_bool_decide; [|done]. intros [= <-]. auto. }
  intros (o & Ho & <-)%find_option_In. revert Ho. unfold awsRegionOptions, eligibleAWSRegions.
  case_bool_decide as Hr; cbn [fst snd].
  - apply length_zero_iff_nil in Hr. destruct (srv_awsRegions sv) as [|f rs] eqn:Hs; [done|].
    intros [Ho|Ho]%elem_of_app.
    + case_match eqn:Hg; [|by apply not_elem_of_nil in Ho]. apply list_elem_of_singleton in Ho as ->.
      apply andb_prop in Hg as [_ Hd%bool_decide_eq_true]. auto.
    + apply list_elem_of_fmap in Ho as (r & -> & Hin). simpl. right. auto.
  - destruct (filter _ _) as [|f rs] eqn:Hf; [by intros ?%not_elem_of_nil|].
    intros [Ho|Ho]%elem_of_app; [by apply not_elem_of_nil in Ho|].
    apply list_elem_of_fmap in Ho as (r & -> & Hin). rewrite <- Hf in Hin.
    apply list_elem_of_filter in Hin as [Hc Hin]. right. split; [done|]. right. by apply bool_decide_eq_true in Hc.
Qed.

(** ** The exchange *)

Section exchange.
  Context `{U : UnicodeTables} {dialect : Dialect} `{X : Externals}.

Notation none := (λ e, assumed e = None).

Lemma logAudit_assumes r a u c m : calls none (logAudit r a u c m).
Proof. unfold logAudit. solve_calls. Qed.

Lemma groupNamesForUser_assumes uid : calls none (groupNamesForUser uid).
Proof. unfold groupNamesForUser. solve_calls. Qed.

Lemma authorizingGroupsForRole_assumes uid rid : calls none (authorizingGroupsForRole uid rid).
Proof. unfold authorizingGroupsForRole. solve_calls. Qed.

Lemma buildRoleSessionName_assumes e uid : calls none (buildRoleSessionName e uid).
Proof. unfold buildRoleSessionName. solve_calls. Qed.

Lemma exchangeSigninToken_assumes c region : calls none (exchangeSigninToken c region).
Proof. unfold exchangeSigninToken. solve_calls. Qed.

(** Which token STS was shown. *)
Definition minted_for (sv : Server) (user : User) (tok : string) (tr : list event) : Prop :=
  srv_awsAudience sv ≠ "" ∧
  ∃ fc, Ev (OpMintFederation fc) (Ok tok) ∈ tr ∧ fc_Sub fc = u_ID user ∧ fc_Aud fc = srv_awsAudience sv.

(** STS is asked at most for the given role, in the given region, with a token
    minted for the user. *)
Lemma assumeRoleForUser_path sv user sess role region tr x i :
  path (assumeRoleForUser sv user sess role region) tr x → i ∈ roles_assumed tr →
  ar_RoleArn i = ar_RoleARN role ∧ ar_Region i = stsRegion (doorFor region) ∧
  ar_DurationSeconds i = int32_wrap (ar_MaxSessionDurationSec role) ∧
  minted_for sv user (ar_WebIdentityToken i) tr.
Proof.
  unfold assumeRoleForUser, minted_for. intros H Hi.
  path_step H; [path_step H; subst; by apply not_elem_of_nil in Hi|]. apply bool_decide_eq_false in Hb.
  path_call H. apply (calls_collect assumed) in Hcall as Hg; [|apply groupNamesForUser_assumes].
  path_call H. apply (calls_collect assumed) in Hcall0 as Ha; [|apply authorizingGroupsForRole_assumes].
  path_step H; [|path_step H; subst; collect_in Hi].
  path_step H. path_step H; [|path_step H; subst; collect_in Hi].
  path_call H. apply (calls_collect assumed) in Hcall1 as Hs; [|apply buildRoleSessionName_assumes].
  path_step H. assert (i = {| ar_Region := stsRegion (doorFor region); ar_RoleArn := ar_RoleARN role;
    ar_RoleSessionName := a2; ar_WebIdentityToken := a1; ar_DurationSeconds := int32_wrap (ar_MaxSessionDurationSec role) |}) as ->.
  { path_step H; path_step H; subst; collect_in Hi; by rewrite list_elem_of_singleton in Hi. }
  split_and!; [done..|]. eexists. split; [rewrite !elem_of_app; do 2 right; left|done].
Qed.

(** The console address leaves the server only after its entry was accepted. *)
Lemma buildAWSConsoleURL_path sv r pc role region tr x :
  path (buildAWSConsoleURL sv r pc role region) tr x →
  (∀ i, i ∈ roles_assumed tr → ∃ region', resolveAWSRegion sv role region = Some region' ∧
     ar_RoleArn i = ar_RoleARN role ∧ ar_Region i = stsRegion (doorFor region') ∧
     ar_DurationSeconds i = int32_wrap (ar_MaxSessionDurationSec role) ∧
     minted_for sv (px_User pc) (ar_WebIdentityToken i) tr) ∧
  (∀ url, x = inr url → ∃ en, Ev (OpAppend en) (Ok tt) ∈ tr ∧ ent_Action en = ActionAWSConsoleAssumed ∧
     ent_UserID en = Some (u_ID (px_User pc))).
Proof.
  unfold buildAWSConsoleURL, assume_failed. intros H. path_step H.
  2: { path_call H. apply (calls_collect assumed) in Hcall; [|apply logAudit_assumes]. path_step H. subst.
       split; [|done]. intros i Hi. collect_in Hi. }
  path_call H. pose proof (λ i, assumeRoleForUser_path _ _ _ _ _ _ _ i Hcall) as Hi.
  assert (∀ tr', roles_assumed tr' = [] → ∀ i, i ∈ roles_assumed (tr0 ++ tr') →
    ∃ region', Some s = Some region' ∧ ar_RoleArn i = ar_RoleARN role ∧ ar_Region i = stsRegion (doorFor region') ∧
     ar_DurationSeconds i = int32_wrap (ar_MaxSessionDurationSec role) ∧
     minted_for sv (px_User pc) (ar_WebIdentityToken i) (tr0 ++ tr')) as Hrest.
  { intros tr' Htr' i. rewrite collect_app, Htr', app_nil_r. intros (? & ? & ? & ? & fc & ? & ?)%Hi.
    exists s. split_and!; [done..|]. split; [done|]. exists fc. split; [set_solver|done]. }
  path_step H.
  { path_call H. apply (calls_collect assumed) in Hcall0; [|apply logAudit_assumes]. path_step H. subst.
    split; [|done]. apply Hrest. by rewrite app_nil_r. }
  destruct p as [out name]. path_call H.
  apply (calls_collect assumed) in Hcall0 as He; [|apply exchangeSigninToken_assumes].
  path_step H.
  2: { path_call H. apply (calls_collect assumed) in Hcall1; [|apply logAudit_assumes]. path_step H. subst.
       split; [|done]. apply Hrest. by rewrite app_nil_r, collect_app, He, Hcall1. }
  path_call H. apply (calls_collect assumed) in Hcall1 as Hl; [|apply logAudit_assumes].
  apply logAudit_path in Hcall1 as (tr' & en & -> & _ & Ha & Hu & _).
  path_step H; path_step H; subst; rewrite app_nil_r.
  - split; [apply Hrest; by rewrite collect_app, He, Hl|]. intros url _. exists en. destruct_unit.
    split; [set_solver|done].
  - split; [apply Hrest; by rewrite collect_app, He, Hl|done].
Qed.

Lemma resolveAuthorizedAWSRole_path uid rid tr x :
  path (resolveAuthorizedAWSRole uid rid) tr x →
  roles_assumed tr = [] ∧
  ∀ role, x = Ok (role, true) → ∃ roles, Ev (OpDb (QGetAWSRole rid)) (Ok role) ∈ tr ∧
    Ev (OpDb (QListAWSRolesForUser uid)) (Ok roles) ∈ tr ∧ ∃ ar, ar ∈ roles ∧ ar_ID ar = rid.
Proof.
  unfold resolveAuthorizedAWSRole. intros H. repeat path_step H; subst; (split; [reflexivity|]); try done.
  intros role [= -> He]. eexists. split; [left|]. split; [right; left|].
  apply existsb_exists in He as (ar & Hin%list_elem_of_In & Hid%bool_decide_eq_true). eauto.
Qed.

Lemma stepUpMFAFresh_path sv sess tr b :
  path (stepUpMFAFresh sv sess) tr b →
  roles_assumed tr = [] ∧
  (b = true → ∃ t0 t, s_MFAVerifiedAt sess = Some t0 ∧ Ev OpNow t ∈ tr ∧ time_Sub t t0 <= srv_stepUpMFATTL sv).
Proof.
  unfold stepUpMFAFresh. intros H. repeat path_step H; subst; (split; [reflexivity|]); [|done].
  intros Hb%Z.leb_le. eexists _, _. split_and!; [done|left|done].
Qed.

End exchange.

(** ** A deployment: Alice's group is assigned to a role that requires step-up. *)

Definition fx_role : AWSRole :=
  {| ar_ID := uuid_nil; ar_AccountID := 40%N; ar_RoleARN := "arn:aws:iam::1:role/ops"; ar_Slug := "ops";
     ar_DisplayName := "Ops"; ar_RequireStepUpMFA := true; ar_MaxSessionDurationSec := 3600;
     ar_AllowedRegions := ["eu-west-1"]; ar_CreatedAt := 0; ar_UpdatedAt := 0 |}.

Definition fx_aws_db : DB :=
  effect 42%N (QCreateAWSRoleAssignment {| ara_ID := uuid_nil; ara_GroupID := 41%N; ara_RoleID := 30%N; ara_CreatedAt := 0 |})
    (effect 0%N (QAddGroupMember 41%N 7%N)
      (effect 41%N (QCreateGroup "ops")
        (effect 30%N (QCreateAWSRole fx_role)
          (effect 40%N (QCreateAWSAccount {| aa_ID := uuid_nil; aa_AccountID := "1"; aa_Alias := "";
             aa_OIDCProviderARN := "arn:aws:iam::1:oidc-provider/idp"; aa_CreatedAt := 0; aa_UpdatedAt := 0 |}) fx_db)))).

Definition fx_aws_world : World := mkWorld fx_aws_db 0 [] [] fx_outside.

(** Alice's portal session, a minute after her second factor. *)
Definition fx_fresh : portalCtx :=
  mkPortalCtx (session_stepped_up (fx_T0 - Minute) fx_session) fx_user.

Definition fx_console_request : Request := form [("role_id", "30"); ("region", "eu-west-1")].
Definition fx_console : prog Response := handlePortalAWSConsole fx_sv fx_fresh fx_console_request.
