(* ===== verification/AwsFlow.v ===== *)
(** * From the command line to AWS and back

    The credential helper of [AwsCreds] against the server's
    [POST /aws/credentials] ([AwsConsole.handleAWSCredentials] behind
    [bearerAuth]): the request the helper sends arrives at the handler, the
    handler's answer is what the helper reads.  Between the two lies the wire,
    a parameter with the laws of HTTP and JSON the programs rely on. *)
From S2P Require Import Prelude GoStrings GoNet Model Dialect Policy Tables SqliteUsers SqliteTokens SqliteAws PgArray Store Pkce Prog.
From S2P Require Import SingleUse Server Provision Awsfed Fixture Migrate AwsCreds Mfa Portal PortalFacts Authorize AuthorizeFacts WebAuthn AwsConsole AwsFacts.

Local Open Scope Z_scope.
Local Open Scope prog_scope.

Section server.
  Context `{U : UnicodeTables} {dialect : Dialect} `{X : Externals}.

(** ** The handler *)

(** What the handler's success answers. *)
Definition creds_answer (c : Credentials) : Response :=
  writeJSON StatusOK [("Version", JInt 1); ("AccessKeyId", JStr (cr_AccessKeyId c));
    ("SecretAccessKey", JStr (cr_SecretAccessKey c)); ("SessionToken", JStr (cr_SessionToken c));
    ("Expiration", JTime (default 0 (cr_Expiration c)))].

(** The role a request names, as the handler reads it. *)
Definition requested_slug (r : Request) : string :=
  if bool_decide (TrimSpace (rq_FormValue r "role") = "") then TrimSpace (rq_FormValue r "audience")
  else TrimSpace (rq_FormValue r "role").

(** The calls of a run that exchanged a session for credentials of a role. *)
Definition exchanged (sv : Server) (sess : Session) (slug : string) (c : Credentials) (tr : list event) : Prop :=
  ∃ user roles role i en,
    Ev (OpDb (QGetUserByID (s_UserID sess))) (Ok user) ∈ tr ∧ u_Active user = true ∧
    Ev (OpDb (QListAWSRolesForUser (u_ID user))) (Ok roles) ∈ tr ∧ role ∈ roles ∧ ar_Slug role = slug ∧ slug ≠ "" ∧
    (ar_RequireStepUpMFA role = true → s_MFAVerified sess = true) ∧
    Ev (OpAssumeRole i) (Ok (Some c)) ∈ tr ∧ ar_RoleArn i = ar_RoleARN role ∧
    minted_for sv user (ar_WebIdentityToken i) tr ∧
    Ev (OpAppend en) (Ok tt) ∈ tr ∧ ent_Action en = ActionAWSConsoleAssumed ∧ ent_UserID en = Some (u_ID user).

Lemma assumeRole_answer sv user sess role region tr c name :
  path (assumeRoleForUser sv user sess role region) tr (inr (Some c, name)) →
  ∃ i, Ev (OpAssumeRole i) (Ok (Some c)) ∈ tr ∧ ar_RoleArn i = ar_RoleARN role ∧
       minted_for sv user (ar_WebIdentityToken i) tr.
Proof.
  unfold assumeRoleForUser, minted_for. intros H.
  path_step H; [by path_step H|]. apply bool_decide_eq_false in Hb.
  path_call H. path_call H. path_step H; [|by path_step H].
  path_step H. path_step H; [|by path_step H]. path_call H. path_step H. path_step H; path_step H; simplify_eq.
  eexists. split; [rewrite !elem_of_app, elem_of_cons, elem_of_app, list_elem_of_singleton; do 4 right; reflexivity|].
  split; [done|]. split; [done|]. eexists. split; [rewrite !elem_of_app, elem_of_cons; do 2 right; left; reflexivity|done].
Qed.

Lemma resolveBySlug_path uid slug tr role :
  path (resolveAWSRoleBySlugForUser uid slug) tr (Ok (Some role)) →
  ∃ roles, Ev (OpDb (QListAWSRolesForUser uid)) (Ok roles) ∈ tr ∧ role ∈ roles ∧ ar_Slug role = slug.
Proof.
  unfold resolveAWSRoleBySlugForUser. intros H. path_step H. path_step H; path_step H; simplify_eq.
  symmetry in H. apply find_some in H as [Hin%list_elem_of_In Hs%bool_decide_eq_true].
  eexists. split; [left|done].
Qed.

Lemma handleAWSCredentials_path sv sess r tr resp :
  path (handleAWSCredentials sv sess r) tr resp → rs_Status resp = StatusOK →
  ∃ c, resp = creds_answer c ∧ exchanged sv sess (requested_slug r) c tr.
Proof.
  unfold handleAWSCredentials, assume_failed. fold (requested_slug r). intros H Hok.
  path_step H; [by path_step H; subst|]. path_step H; [by path_step H; subst|].
  path_step H. path_step H; [|by path_step H; subst].
  path_step H; [by path_step H; subst|]. apply negb_false_iff in Hb1. fold (requested_slug r) in H.
  path_step H; [by path_step H; subst|]. apply bool_decide_eq_false in Hb2.
  path_call H. path_step H; [|by path_step H; subst].
  path_step H; [|path_call H; by path_step H; subst].
  apply resolveBySlug_path in Hcall as (roles & Hroles & Hin & Hslug).
  path_step H; [path_call H; by path_step H; subst|].
  path_call H. path_step H; [path_step H; [by path_step H; subst|path_call H; by path_step H; subst]|].
  destruct p as [[c|] name]; [|by path_step H; subst].
  apply assumeRole_answer in Hcall as (i & Hi & Harn & Haud & fc & Hmint & Hfc).
  path_call H. apply logAudit_path in Hcall as (tr' & en & -> & _ & Ha & Hu & _).
  path_step H; path_step H; subst; [|done]. destruct_unit. exists c. split; [reflexivity|].
  exists a, roles, a0, i, en. rewrite app_nil_r.
  split_and!; [set_solver|done|set_solver|done|done|done| |set_solver|done| |set_solver|done|done].
  - intros Hreq. rewrite Hreq in Hb3. by apply negb_false_iff in Hb3.
  - split; [done|]. exists fc. split; [set_solver|done].
Qed.

End server.

(** ** The helper against the server *)

Section flow.
  Context `{U : UnicodeTables} {dialect : Dialect} `{X : Externals} {sso : Type} `{C : OidcClient sso}.
  (** How a response travels, and what else the server sees of its peer. *)
  Context (wire : Response → HTTPResponse) (peer : Request).

Definition form_field (kvs : list (string * string)) (k : string) : string :=
  match find (λ kv, bool_decide (kv.1 = k)) kvs with Some kv => kv.2 | None => "" end.

(** The request as it arrives at the handler. *)
Definition arrived (q : HTTPRequest) : Request :=
  let field k := match hr_Body q with FormBody kvs => form_field kvs k | _ => "" end in
  {| rq_Method := hr_Method q; rq_ParseOK := true; rq_FormValue := field; rq_Query := rq_Query peer;
     rq_BasicAuth := None; rq_Authorization := "Bearer " +:+ hr_Bearer q; rq_Cookie := rq_Cookie peer;
     rq_UserAgent := rq_UserAgent peer; rq_ClientIP := rq_ClientIP peer; rq_PathID := "";
     rq_Form := λ k, [field k]; rq_JSON := None; rq_Body := ""; rq_Path := "/aws/credentials";
     rq_Accept := "application/json" |}.

(** The route. *)
Definition aws_route (sv : Server) (q : HTTPRequest) : prog Response :=
  bearerAuth (handleAWSCredentials sv) (arrived q).

(** The address of the route at an issuer, as the helper writes it. *)
Definition credentials_url (issuer : string) : string := hr_URL (aws_request issuer "" "").

(** The network of an invocation leads requests to the server's address to the
    server, in the state and with the failures it meets there; other addresses
    are not restricted. *)
Definition leads_to (net : HTTPRequest → result HTTPResponse) (sv : Server) (env : Env) (w : World) : Prop :=
  ∀ q, hr_URL q = credentials_url (srv_issuer sv) → net q = Ok (wire (exec env (aws_route sv q) w).1).

(** The credentials of STS as the helper prints them. *)
Definition printed (k : Credentials) : awsCredentialsResponse :=
  mkCreds 1 (cr_AccessKeyId k) (cr_SecretAccessKey k) (cr_SessionToken k) (default 0 (cr_Expiration k)).

(** Credentials whose JSON gives them back: their strings are valid UTF-8 and
    the year of their expiry has at most four digits. *)
Definition creds_text (k : Credentials) : Prop :=
  forallb valid_utf8 [cr_AccessKeyId k; cr_SecretAccessKey k; cr_SessionToken k] = true ∧
  json_time (default 0 (cr_Expiration k)).

(** The status travels; the JSON of an answer, if it decodes, decodes to what
    was encoded. *)
Record wire_laws : Prop := {
  wire_status : ∀ resp, hs_Status (wire resp) = rs_Status resp;
  wire_json : ∀ k c, creds_text k → creds_Unmarshal (str_take (64 * 1024) (hs_Body (wire (creds_answer k)))) = Ok c → c = printed k;
}.

Lemma requested_arrived issuer token slug sv sess c tr :
  exchanged sv sess (requested_slug (arrived (aws_request issuer token slug))) c tr →
  exchanged sv sess (TrimSpace slug) c tr.
Proof.
  unfold requested_slug. cbn. case_bool_decide as Hs; [|done].
  intros (? & ? & ? & ? & ? & _ & _ & _ & _ & _ & Hne & _). by destruct Hne.
Qed.

Lemma bearer_arrived q : extractBearerToken (arrived q) = hr_Bearer q.
Proof. unfold extractBearerToken. cbn. by destruct (hr_Bearer q). Qed.

(** The helper's sign-in is configured for the server. *)
Definition configured_for (sv : Server) (x : ran) : Prop :=
  ∀ cfg, oidc_LoadConfig (rn_sso x) = Ok cfg → credentials_url (oc_Issuer cfg) = credentials_url (srv_issuer sv).

(** What was granted was exchanged, for the session of the helper's own access
    token. *)
Lemma granted_exchanged sv env w x slug c :
  wire_laws → leads_to (iv_http (rn_iv x)) sv env w → configured_for sv x → granted x slug c →
  ∃ cfg token sess k t tr,
    let q := aws_request (oc_Issuer cfg) token slug in
    signed_in (rn_sso x) cfg token ∧
    trace env (aws_route sv q) w =
      Ev (OpDb (QGetSessionByAccessTokenHash (HashToken token))) (Ok sess) :: Ev OpNow t :: tr ∧
    t ≤ s_AccessExpiresAt sess ∧ (creds_text k → c = printed k) ∧ exchanged sv sess (TrimSpace slug) k tr.
Proof.
  intros laws Hnet Hconf (_ & cfg & token & resp & Hsigned & Hresp & Hst & Hjson).
  rewrite Hnet in Hresp by (by apply Hconf, Hsigned).
  injection Hresp as <-. set (q := aws_request (oc_Issuer cfg) token slug) in *.
  rewrite (wire_status laws) in Hst. pose proof (exec_path env (aws_route sv q) w) as Hp.
  apply bearerAuth_path in Hp as [[[Hbad|Hbad] _]|(sess & t & tr & Htr & _ & Hlive & _ & Hnext)].
  - by rewrite Hst in Hbad.
  - by rewrite Hst in Hbad.
  - apply handleAWSCredentials_path in Hnext as (k & Hk & Hex); [|done].
    rewrite Hk in Hjson. pose proof (λ Ht, wire_json laws _ _ Ht Hjson) as Hc. apply requested_arrived in Hex.
    exists cfg, token, sess, k, t, tr. rewrite bearer_arrived in Htr. by split_and!.
Qed.

(** C24: whoever gets AWS credentials on the command line was entitled to them.
    If the network leads the server's address to the server, whatever the state
    and the failures it meets there, and the helper's sign-in is configured for
    that server, then credentials the helper prints for the role named are those
    STS answered to the server when it handled a request of this or an earlier
    invocation: with the access token of the helper's own sign-in at that
    invocation, which is the token of a live session of an active user, for the
    role of that name among those assigned to the user's groups, after a second
    factor if the role requires one, with a token minted for that user, and with
    the assumption accepted by the journal first.  (Credentials with text JSON
    cannot carry, [creds_text], would arrive altered.)

    Assumed are the laws of [oidcclient] and [encoding/json] ([client_laws]), of
    the wire ([wire_laws]), and that the role names used are kept in different
    cache files ([kept_apart]). *)
Theorem helper_credentials_authorised sv ivs s before x after c :
  client_laws → kept_apart (roles_named ivs) → wire_laws →
  (∀ iv, iv ∈ ivs → ∃ env w, leads_to (iv_http iv) sv env w) →
  (∀ y, y ∈ helper_runs ivs (mkMachine s ∅) → configured_for sv y) →
  helper_runs ivs (mkMachine s ∅) = before ++ x :: after → Printed c ∈ rn_out x →
  ∃ slug y env w cfg token sess k t tr,
    asks_for (rn_iv x) slug ∧ (y = x ∨ y ∈ before) ∧ leads_to (iv_http (rn_iv y)) sv env w ∧
    signed_in (rn_sso y) cfg token ∧
    trace env (aws_route sv (aws_request (oc_Issuer cfg) token slug)) w =
      Ev (OpDb (QGetSessionByAccessTokenHash (HashToken token))) (Ok sess) :: Ev OpNow t :: tr ∧
    t ≤ s_AccessExpiresAt sess ∧ (creds_text k → c = printed k) ∧ exchanged sv sess (TrimSpace slug) k tr.
Proof.
  intros laws apart wlaws Hnet Hconf Hrun Hout.
  destruct (helper_justified ivs s before x after laws apart Hrun) as (_ & _ & Hj).
  destruct (Hj c Hout) as (_ & slug & Hask & Horigin).
  assert (∃ y, (y = x ∨ y ∈ before) ∧ y ∈ helper_runs ivs (mkMachine s ∅) ∧ granted y slug c)
    as (y & Hy & Hys & Hg).
  { rewrite Hrun. destruct Horigin as [Hg|[(b & y & a & -> & Hg & _) _]]; [exists x|exists y]; set_solver. }
  destruct (Hnet (rn_iv y)) as (env & w & Hw); [by eapply helper_runs_ivs|].
  destruct (granted_exchanged sv env w y slug c wlaws Hw (Hconf y Hys) Hg)
    as (cfg & token & sess & k & t & tr & ? & ? & ? & ? & ?).
  exists slug, y, env, w, cfg, token, sess, k, t, tr. by split_and!.
Qed.

End flow.

(** ** Witness: Alice, whose session has a second factor, asks for [ops] *)

Definition fx_wire (resp : Response) : HTTPResponse :=
  mkHTTPResponse (rs_Status resp)
    (match rs_Body resp with
     | Json [(_, JInt v); (_, JStr a); (_, JStr s); (_, JStr t); (_, JTime e)] =>
         bits (countable.encode (mkCreds v a s t e))
     | _ => ""
     end).

Lemma fx_wire_laws : wire_laws fx_wire.
Proof.
  split; [done|]. intros k c _. cbn [creds_Unmarshal fx_oidc hs_Body fx_wire creds_answer writeJSON rs_Body].
  destruct (of_bits _) as [p|] eqn:Hp; [|done]. apply of_bits_take in Hp as ->. cbn [mbind option_bind].
  rewrite decode_encode. by intros [= <-].
Qed.

(** The network of the invocation, and the helper's sign-in. *)
Definition fx_net (q : HTTPRequest) : result HTTPResponse :=
  Ok (fx_wire (exec fx_env (aws_route (form []) fx_sv q) fx_aws_world).1).
Definition fx_sso : option oidc_Config := Some (mkOidcConfig (srv_issuer fx_sv) "cli").
Definition fx_get_ops : invocation := mkInvocation ["get"; "--role"; "ops"] 0 fx_net (Ok tt) Done.
Definition fx_ops_creds : awsCredentialsResponse := mkCreds 1 "AKIA" "sk" "st" 0.

Lemma helper_credentials_authorised_witness :
  helper_runs [fx_get_ops] (mkMachine fx_sso ∅) = [mkRan fx_get_ops fx_sso 0 [Printed fx_ops_creds]] ∧
  ∃ sess k tr, exchanged fx_sv sess "ops" k tr ∧ (creds_text k → fx_ops_creds = printed k).
Proof.
  assert (Hrun : helper_runs [fx_get_ops] (mkMachine fx_sso ∅) = [mkRan fx_get_ops fx_sso 0 [Printed fx_ops_creds]]).
  { cbn [helper_runs]. destruct (helper_main fx_get_ops (mkMachine fx_sso ∅)) as [[code out] m1] eqn:Hmain.
    apply (f_equal fst) in Hmain. assert ((helper_main fx_get_ops (mkMachine fx_sso ∅)).1 = (0, [Printed fx_ops_creds]))
      as Hv by (vm_compute; reflexivity). rewrite Hv in Hmain. injection Hmain as <- <-. reflexivity. }
  split; [exact Hrun|].
  destruct (helper_credentials_authorised fx_wire (form []) fx_sv [fx_get_ops] fx_sso []
    (mkRan fx_get_ops fx_sso 0 [Printed fx_ops_creds]) [] fx_ops_creds)
    as (slug & _ & _ & _ & _ & _ & sess & k & _ & tr & Hask & _ & _ & _ & _ & _ & Hc & Hex).
  - exact fx_oidc_laws.
  - intros dir s s' _ Hs Hs' _. change (s ∈ ["ops"]) in Hs. change (s' ∈ ["ops"]) in Hs'.
    apply list_elem_of_singleton in Hs, Hs'. by subst.
  - exact fx_wire_laws.
  - intros iv' ->%list_elem_of_singleton. exists fx_env, fx_aws_world. intros q _. reflexivity.
  - rewrite Hrun. intros y ->%list_elem_of_singleton cfg [= <-]. reflexivity.
  - exact Hrun.
  - by left.
  - exists sess, k, tr. split; [|exact Hc]. destruct Hask as (args & fs & [= <-] & Hfs & <-).
    vm_compute in Hfs. injection Hfs as <-. exact Hex.
Defined.
