(* ===== verification/AwsfedFacts.v ===== *)
(** * Revocation refines deny lists

    The contract of [awsfed]: each federation role has a list of denied
    subjects.  Its specification is a table of (role, subject) with the time of
    revocation; revoking adds a subject to every role of the catalogue, and
    reaping drops the entries older than the role's longest session.  The
    implementation keeps the table in the database and, per role, an inline IAM
    policy; the simulation shows that every sequence of revocations and reaps
    keeps each policy denying exactly the subjects of the table. *)
From stdpp Require Import sorting.
From S2P Require Import Prelude GoStrings GoNet Model Dialect Policy Tables SqliteUsers SqliteTokens SqliteAws Store Pkce Prog.
From S2P Require Import SingleUse Server Provision Awsfed Fixture AwsFacts.

Local Open Scope Z_scope.
Local Open Scope prog_scope.

(** ** Specification *)

(** Denied subjects: role and subject, with the time of revocation. *)
Notation deny_table := (gmap (uuid * string) Z) (only parsing).

Inductive fed_action : Type :=
| ARevoke (sub : string)
| AReap (t : Z).

(** One action of the specification, over the roles of the catalogue.  Revoking
    enters the subject under every role, at some reading of the clock; reaping
    keeps the entries no older than their role's longest session. *)
Definition spec_step (clock : nat → Z) (roles : list AWSRole) (a : fed_action) (D D' : deny_table) : Prop :=
  match a with
  | ARevoke sub => ∀ rid s,
      if bool_decide (s = sub ∧ rid ∈ ar_ID <$> roles)
      then ∃ n, D' !! (rid, s) = Some (clock n)
      else D' !! (rid, s) = D !! (rid, s)
  | AReap t => ∀ k at_,
      D' !! k = Some at_ ↔
      D !! k = Some at_ ∧ ∀ role, role ∈ roles → ar_ID role = k.1 → t - reap_duration role <= at_
  end.

Inductive spec_run (clock : nat → Z) (roles : list AWSRole) : list fed_action → deny_table → deny_table → Prop :=
| spec_run_nil D : spec_run clock roles [] D D
| spec_run_cons a acts D D1 D2 :
    spec_step clock roles a D D1 → spec_run clock roles acts D1 D2 → spec_run clock roles (a :: acts) D D2.

(** ** Implementation *)

Definition fed_prog (p : Federation) (a : fed_action) : prog (result unit) :=
  match a with ARevoke sub => RevokeUser p sub | AReap t => ReapExpired p t end.

(** The actions one after the other: every answer, and the last world. *)
Fixpoint fed_run `{UnicodeTables} {dialect : Dialect} (env : Env) (p : Federation) (acts : list fed_action) (w : World)
    : list (result unit) * World :=
  match acts with
  | [] => ([], w)
  | a :: acts =>
      let '(x, w1) := exec env (fed_prog p a) w in
      let '(xs, w2) := fed_run env p acts w1 in
      (x :: xs, w2)
  end.

Definition role_name (r : AWSRole) : string := RoleNameFromARN (ar_RoleARN r).

(** The subjects a policy document denies. *)
Definition denied_subs (doc : PolicyDoc) : list string :=
  concat ((λ st, if bool_decide (ps_Effect st = "Deny")
                 then concat ((filter (λ kv, kv.1 = "aws:PrincipalTag/" +:+ SessionTagKey) (ps_StringEquals st)).*2)
                 else []) <$> pd_Statement doc).

(** The subjects the revocation policy of an IAM role denies. *)
Definition iam_denied (iam : gmap (string * string) PolicyDoc) (name : string) : list string :=
  match iam !! (name, RevocationPolicyName) with Some doc => denied_subs doc | None => [] end.

(** The policy of each role denies exactly the subjects of the table. *)
Definition agrees (roles : list AWSRole) (D : deny_table) (iam : gmap (string * string) PolicyDoc) : Prop :=
  ∀ role, role ∈ roles → ∀ s, s ∈ iam_denied iam (role_name role) ↔ is_Some (D !! (ar_ID role, s)).

(** The world implements a deny table. *)
Definition implements (roles : list AWSRole) (w : World) (D : deny_table) : Prop :=
  db_aws_revoked_users (w_db w) = D ∧ agrees roles D (o_iam (w_outside w)).

(** Every role's ARN has a name, and no two share one. *)
Definition well_named (roles : list AWSRole) : Prop :=
  (∀ r, r ∈ roles → role_name r ≠ "") ∧
  (∀ r r', r ∈ roles → r' ∈ roles → role_name r = role_name r' → r = r').

(** ** Running the pieces *)

(** The world with another deny table and other policies. *)
Definition fed_world (w : World) (n : nat) (D : deny_table) (iam : gmap (string * string) PolicyDoc) : World :=
  mkWorld (with_aws_revoked_users D (w_db w)) n (w_journal w) (w_outbox w) (mkOutside (o_targets (w_outside w)) iam).

Lemma fed_world_self w : w = fed_world w (w_step w) (db_aws_revoked_users (w_db w)) (o_iam (w_outside w)).
Proof. by destruct w as [[] ? ? ? []]. Qed.

(** What [BuildRevocationPolicy] denies. *)
Lemma BuildRevocationPolicy_denies subs doc : BuildRevocationPolicy subs = Ok doc → denied_subs doc = subs.
Proof. destruct subs; [done|]. intros [= <-]. unfold denied_subs. simpl. by rewrite !app_nil_r. Qed.

Lemma iam_denied_put iam name doc name' :
  iam_denied (<[(name, RevocationPolicyName) := doc]> iam) name' =
    if bool_decide (name = name') then denied_subs doc else iam_denied iam name'.
Proof.
  unfold iam_denied. case_bool_decide as Hn; [subst; by rewrite lookup_insert_eq|].
  rewrite lookup_insert_ne; [done|]. congruence.
Qed.

Lemma iam_denied_delete iam name name' :
  iam_denied (delete (name, RevocationPolicyName) iam) name' =
    if bool_decide (name = name') then [] else iam_denied iam name'.
Proof.
  unfold iam_denied. case_bool_decide as Hn; [subst; by rewrite lookup_delete_eq|].
  rewrite lookup_delete_ne; [done|]. congruence.
Qed.

(** The rows of a role. *)
Lemma elem_revoked_rows rid d rows row :
  ListAWSRevokedUsers rid d = Ok rows →
  row ∈ rows ↔ arv_RoleID row = rid ∧ db_aws_revoked_users d !! (rid, arv_SubUUID row) = Some (arv_RevokedAt row).
Proof.
  intros [= <-]. rewrite elem_merge_sort, list_elem_of_filter, list_elem_of_fmap. split.
  - intros [<- ([[r s] t] & -> & Hin%elem_of_map_to_list)]. done.
  - intros [Hr Hl]. split; [done|]. exists ((rid, arv_SubUUID row), arv_RevokedAt row).
    split; [|by apply elem_of_map_to_list]. destruct row. simpl in *. by subst.
Qed.

Section run.
  Context `{UnicodeTables} {dialect : Dialect} (env : Env) (Hrel : reliable env) (w : World).
  Context (roles : list AWSRole).
  Context (Hids : ∀ r r', r ∈ roles → r' ∈ roles → ar_ID r = ar_ID r' → r = r').
  Context (Hhas : ∀ r, r ∈ roles → has (db_aws_roles (w_db w)) (ar_ID r) = true).
  Context (Hnamed : well_named roles).

(** What [collectActiveRevokedSubs] answers. *)
Lemma exec_collect rid n D iam :
  ∃ subs, exec env (collectActiveRevokedSubs rid) (fed_world w n D iam) = (Ok subs, fed_world w (S n) D iam)
    ∧ ∀ s, s ∈ subs ↔ is_Some (D !! (rid, s)).
Proof.
  unfold collectActiveRevokedSubs. rewrite exec_db by done. eexists. split; [reflexivity|].
  intros s. unfold sort_Strings. rewrite elem_merge_sort, list_elem_of_fmap. split.
  - intros (row & -> & [_ Hr]%(elem_revoked_rows rid (with_aws_revoked_users D (w_db w)))); [|reflexivity]. by eexists.
  - intros [t Ht]. exists {| arv_RoleID := rid; arv_SubUUID := s; arv_RevokedAt := t |}. split; [done|].
    by apply (elem_revoked_rows rid (with_aws_revoked_users D (w_db w))).
Qed.

(** The two writes. *)
Lemma exec_add {B} (f : result unit → prog B) role sub n D iam :
  role ∈ roles →
  exec env (bind (db (QAddAWSRevokedUser (ar_ID role) sub)) f) (fed_world w n D iam)
  = exec env (f (Ok tt)) (fed_world w (S n) (<[(ar_ID role, sub) := column (env_now env n)]> D) iam).
Proof.
  intros Hin. rewrite exec_db by done. cbn [run_query]. unfold AddAWSRevokedUser.
  change (db_aws_roles (w_db (fed_world w n D iam))) with (db_aws_roles (w_db w)). by rewrite (Hhas role Hin).
Qed.

Lemma exec_drop {B} (f : result unit → prog B) rid sub n D iam :
  exec env (bind (db (QDeleteAWSRevokedUser rid sub)) f) (fed_world w n D iam)
  = exec env (f (Ok tt)) (fed_world w (S n) (delete (rid, sub) D) iam).
Proof. by rewrite exec_db by done. Qed.

(** Another role's agreement is kept by a change to one role's entries and
    policy that makes that role agree. *)
Lemma agrees_step role D iam D' iam' :
  role ∈ roles → agrees roles D iam →
  (∀ s, s ∈ iam_denied iam' (role_name role) ↔ is_Some (D' !! (ar_ID role, s))) →
  (∀ name, name ≠ role_name role → iam_denied iam' name = iam_denied iam name) →
  (∀ k, k.1 ≠ ar_ID role → D' !! k = D !! k) →
  agrees roles D' iam'.
Proof.
  intros Hin Ha Hrole Hnames Hkeys r Hr s. destruct (decide (ar_ID r = ar_ID role)) as [Heq|Hne].
  { rewrite (Hids r role) by done. apply Hrole. }
  rewrite Hnames by (intros Heq; apply Hne; f_equal; by apply Hnamed). rewrite Hkeys by done. by apply Ha.
Qed.

Lemma exec_revokeOneRole role sub n D iam :
  role ∈ roles → agrees roles D iam →
  ∃ n' iam', exec env (revokeOneRole role sub) (fed_world w n D iam)
      = (Ok tt, fed_world w n' (<[(ar_ID role, sub) := column (env_now env n)]> D) iam')
    ∧ agrees roles (<[(ar_ID role, sub) := column (env_now env n)]> D) iam'.
Proof.
  intros Hin Ha. unfold revokeOneRole. rewrite exec_add by done. set (D' := <[_ := _]> D). rewrite exec_bind.
  destruct (exec_collect (ar_ID role) (S n) D' iam) as (subs & -> & Hsubs). cbn [fst snd].
  assert (sub ∈ subs) as Hsub by (apply Hsubs; unfold D'; rewrite lookup_insert_eq; by eexists).
  destruct (BuildRevocationPolicy subs) as [doc|] eqn:Hdoc; [|by destruct subs; [inversion Hsub|]].
  rewrite bool_decide_eq_false_2 by (by apply Hnamed). simpl. rewrite Hrel. eexists _, _. split; [reflexivity|].
  apply (agrees_step role D iam); [done|done| | |].
  - intros s. unfold role_name. rewrite iam_denied_put, bool_decide_eq_true_2 by done.
    by rewrite (BuildRevocationPolicy_denies subs).
  - intros name Hne. by rewrite iam_denied_put, bool_decide_eq_false_2 by (by intros <-).
  - intros k Hk. unfold D'. rewrite lookup_insert_ne; [done|]. by intros <-.
Qed.

Lemma exec_revoke_roles rs sub n D iam :
  (∀ r, r ∈ rs → r ∈ roles) → agrees roles D iam →
  ∃ n' D' iam', exec env (revoke_roles rs sub None) (fed_world w n D iam) = (Ok tt, fed_world w n' D' iam')
    ∧ spec_step (column ∘ env_now env) rs (ARevoke sub) D D' ∧ agrees roles D' iam'.
Proof.
  revert n D iam. induction rs as [|role rs IH]; intros n D iam Hsub Ha; cbn [revoke_roles].
  { exists n, D, iam. split_and!; [done| |done]. intros rid s. by rewrite bool_decide_eq_false_2 by set_solver. }
  destruct (exec_revokeOneRole role sub n D iam) as (n1 & iam1 & Hex & Ha1); [set_solver|done|].
  rewrite exec_bind, Hex. cbn [fst snd].
  destruct (IH n1 (<[(ar_ID role, sub) := column (env_now env n)]> D) iam1) as (n2 & D2 & iam2 & -> & Hspec & Ha2);
    [set_solver|done|].
  exists n2, D2, iam2. split_and!; [done| |done]. intros rid s. specialize (Hspec rid s).
  revert Hspec. case_bool_decide as Hrs; case_bool_decide as Hall; [done|set_solver| |].
  - intros ->. destruct Hall as [-> Hin]. assert (rid = ar_ID role) as -> by set_solver.
    rewrite lookup_insert_eq. by exists n.
  - intros ->. rewrite lookup_insert_ne; [done|]. set_solver.
Qed.

(** ** The reaper *)

Lemma exec_reap_rows rid cutoff rows removed n D iam :
  ∃ n' removed' D',
    exec env (reap_rows rid cutoff rows removed) (fed_world w n D iam) = (removed', fed_world w n' D' iam)
    ∧ removed <= removed'
    ∧ (removed' = removed → D' = D)
    ∧ ∀ k at_, D' !! k = Some at_ ↔
        D !! k = Some at_ ∧ ∀ row, row ∈ rows → arv_RevokedAt row < cutoff → k ≠ (rid, arv_SubUUID row).
Proof.
  revert removed n D. induction rows as [|row rows IH]; intros removed n D; cbn [reap_rows].
  { exists n, removed, D. split_and!; [done|lia|done|]. set_solver. }
  destruct (Z.ltb_spec (arv_RevokedAt row) cutoff) as [Hlt|Hge].
  - rewrite exec_drop.
    destruct (IH (removed + 1) (S n) (delete (rid, arv_SubUUID row) D)) as (n' & r' & D' & -> & Hle & _ & Hspec).
    exists n', r', D'. split_and!; [done|lia|lia|]. intros k at_. rewrite Hspec, lookup_delete_Some.
    setoid_rewrite elem_of_cons. naive_solver.
  - destruct (IH removed n D) as (n' & r' & D' & -> & Hle & Hsame & Hspec).
    exists n', r', D'. split_and!; [done|lia|done|]. intros k at_. rewrite Hspec.
    setoid_rewrite elem_of_cons. split; [|naive_solver]. intros [? Hr]. split; [done|].
    intros row' [->|?]; [lia|by apply Hr].
Qed.

(** After [repush_role] the role's policy denies what the table says. *)
Lemma exec_repush_role role n D iam :
  role ∈ roles →
  ∃ n' iam', exec env (repush_role role) (fed_world w n D iam) = (tt, fed_world w n' D iam')
    ∧ (∀ s, s ∈ iam_denied iam' (role_name role) ↔ is_Some (D !! (ar_ID role, s)))
    ∧ (∀ name, name ≠ role_name role → iam_denied iam' name = iam_denied iam name).
Proof.
  intros Hin. unfold repush_role. rewrite exec_bind.
  destruct (exec_collect (ar_ID role) n D iam) as (subs & -> & Hsubs). cbn [fst snd].
  rewrite bool_decide_eq_false_2 by (by apply Hnamed). case_bool_decide as Hlen.
  - apply nil_length_inv in Hlen as ->. simpl. rewrite Hrel. fold (role_name role).
    destruct (iam !! (role_name role, RevocationPolicyName)) as [doc|] eqn:Hdoc; simpl.
    + eexists _, _. split_and!; [reflexivity| |].
      * intros s. by rewrite iam_denied_delete, bool_decide_eq_true_2, Hsubs by done.
      * intros name Hne. by rewrite iam_denied_delete, bool_decide_eq_false_2 by (by intros <-).
    + eexists _, iam. split_and!; [reflexivity| |done]. intros s. unfold iam_denied. by rewrite Hdoc, Hsubs.
  - destruct (BuildRevocationPolicy subs) as [doc|] eqn:Hdoc; [|by destruct subs]. simpl. rewrite Hrel.
    fold (role_name role). eexists _, _. split_and!; [reflexivity| |].
    + intros s. rewrite iam_denied_put, bool_decide_eq_true_2, <- Hsubs by done.
      by rewrite (BuildRevocationPolicy_denies subs).
    + intros name Hne. by rewrite iam_denied_put, bool_decide_eq_false_2 by (by intros <-).
Qed.

Lemma exec_reap_role t role n D iam :
  role ∈ roles → agrees roles D iam →
  ∃ n' D' iam', exec env (reap_role t role) (fed_world w n D iam) = (tt, fed_world w n' D' iam')
    ∧ (∀ k at_, D' !! k = Some at_ ↔ D !! k = Some at_ ∧ (ar_ID role = k.1 → t - reap_duration role <= at_))
    ∧ agrees roles D' iam'.
Proof.
  intros Hin Ha. unfold reap_role. rewrite exec_db by done. cbn [run_query]. cbn [reading fst snd].
  set (cutoff := t - reap_duration role).
  destruct (ListAWSRevokedUsers (ar_ID role) (w_db (fed_world w n D iam))) as [rows|] eqn:Hrows; [|done].
  change (mkWorld _ _ _ _ _) with (fed_world w (S n) D iam). rewrite exec_bind.
  destruct (exec_reap_rows (ar_ID role) cutoff rows 0 (S n) D iam) as (n1 & removed & D1 & -> & _ & Hsame & Hspec).
  assert (∀ k at_, D1 !! k = Some at_ ↔ D !! k = Some at_ ∧ (ar_ID role = k.1 → cutoff <= at_)) as Hspec'.
  { intros [rid s] at_. rewrite Hspec. cbn [fst snd]. split.
    - intros [Hk Hr]. split; [done|]. intros Hrid. subst rid. apply Z.nlt_ge. intros Hlt.
      apply (Hr {| arv_RoleID := ar_ID role; arv_SubUUID := s; arv_RevokedAt := at_ |}); [|done|done].
      by apply (elem_revoked_rows _ _ _ _ Hrows).
    - intros [Hk Hr]. split; [done|]. intros row [_ Hrow]%(elem_revoked_rows _ _ _ _ Hrows) Hlt [= -> ->].
      change (D !! (ar_ID role, arv_SubUUID row) = Some (arv_RevokedAt row)) in Hrow.
      rewrite Hk in Hrow. simplify_eq. specialize (Hr eq_refl). lia. }
  cbn [fst snd]. destruct (Z.eqb_spec removed 0) as [Hz|Hnz].
  { rewrite (Hsame Hz) in *. exists n1, D, iam. by split_and!. }
  destruct (exec_repush_role role n1 D1 iam Hin) as (n2 & iam2 & -> & Hrole & Hnames).
  exists n2, D1, iam2. split_and!; [done|done|]. apply (agrees_step role D iam); [done..|].
  intros k Hk. apply option_eq. intros at_. rewrite Hspec'. naive_solver.
Qed.

Lemma exec_reap_roles t rs n D iam :
  (∀ r, r ∈ rs → r ∈ roles) → agrees roles D iam →
  ∃ n' D' iam', exec env (for_each rs (reap_role t)) (fed_world w n D iam) = (tt, fed_world w n' D' iam')
    ∧ spec_step (column ∘ env_now env) rs (AReap t) D D' ∧ agrees roles D' iam'.
Proof.
  revert n D iam. induction rs as [|role rs IH]; intros n D iam Hsub Ha; cbn [for_each].
  { exists n, D, iam. split_and!; [done| |done]. intros k at_. set_solver. }
  rewrite exec_bind.
  destruct (exec_reap_role t role n D iam) as (n1 & D1 & iam1 & -> & Hrole & Ha1); [set_solver|done|].
  cbn [fst snd].
  destruct (IH n1 D1 iam1) as (n2 & D2 & iam2 & -> & Hspec & Ha2); [set_solver|done|].
  exists n2, D2, iam2. split_and!; [done| |done]. intros k at_.
  rewrite (Hspec k at_), Hrole. setoid_rewrite elem_of_cons. naive_solver.
Qed.

(** One action: the world that implements [D] is taken to one that implements a
    successor of [D], with the same catalogue. *)
Lemma exec_fed_prog p a n D iam :
  ListAWSRoles (w_db w) = Ok roles → agrees roles D iam →
  ∃ n' D' iam', exec env (fed_prog p a) (fed_world w n D iam) = (Ok tt, fed_world w n' D' iam')
    ∧ spec_step (column ∘ env_now env) roles a D D' ∧ agrees roles D' iam'.
Proof.
  intros Hroles Ha. destruct a as [sub|t]; cbn [fed_prog].
  - unfold RevokeUser, revokeAcrossAllRoles. rewrite exec_db by done. cbn [run_query reading fst snd].
    change (ListAWSRoles (w_db (fed_world w n D iam))) with (ListAWSRoles (w_db w)). rewrite Hroles.
    by apply (exec_revoke_roles roles sub (S n) D iam).
  - unfold ReapExpired. rewrite exec_db by done. cbn [run_query reading fst snd].
    change (ListAWSRoles (w_db (fed_world w n D iam))) with (ListAWSRoles (w_db w)). rewrite Hroles.
    rewrite exec_bind. change (mkWorld _ _ _ _ _) with (fed_world w (S n) D iam).
    destruct (exec_reap_roles t roles (S n) D iam) as (n' & D' & iam' & -> & ? & ?); [done|done|].
    exists n', D', iam'. by split_and!.
Qed.

Lemma exec_fed_run p acts n D iam :
  ListAWSRoles (w_db w) = Ok roles → agrees roles D iam →
  ∃ n' D' iam', fed_run env p acts (fed_world w n D iam) = (replicate (length acts) (Ok tt), fed_world w n' D' iam')
    ∧ spec_run (column ∘ env_now env) roles acts D D' ∧ agrees roles D' iam'.
Proof.
  intros Hroles. revert n D iam. induction acts as [|a acts IH]; intros n D iam Ha; cbn [fed_run].
  { exists n, D, iam. split_and!; [done|constructor|done]. }
  destruct (exec_fed_prog p a n D iam) as (n1 & D1 & iam1 & -> & Hs & Ha1); [done..|].
  destruct (IH n1 D1 iam1 Ha1) as (n2 & D2 & iam2 & -> & Hr & Ha2).
  exists n2, D2, iam2. split_and!; [done|by econstructor|done].
Qed.

End run.

(** The catalogue of a well-formed database: identifiers are keys. *)
Lemma ListAWSRoles_rows {dialect : Dialect} d roles r :
  db_wf d → ListAWSRoles d = Ok roles → r ∈ roles →
  ∃ row, db_aws_roles d !! ar_ID r = Some row ∧ r = scanAWSRole row.
Proof.
  intros Hwf [= <-]. rewrite elem_merge_sort. intros (row & -> & ([k row'] & -> & Hin%elem_of_map_to_list)%list_elem_of_fmap)%list_elem_of_fmap.
  exists row'. split; [|done]. simpl. by rewrite (wf_roles _ Hwf _ _ Hin).
Qed.

(** ** The refinement *)

(** C19: However many revocations and reaps follow one another, in any order,
    every one succeeds and the world they leave implements the deny table of
    the specification: the database holds the table, and the inline policy of
    each role denies exactly the subjects the table has under that role, so a
    revoked user stays denied on every role until a reap finds the entry older
    than the role's longest session.  (No store or IAM call fails, and the
    catalogue's roles have distinct, non-empty names.) *)
Theorem revocation_refines_deny_table `{UnicodeTables} {dialect : Dialect} env (p : Federation) acts w roles D :
  reliable env → db_wf (w_db w) → ListAWSRoles (w_db w) = Ok roles → well_named roles →
  implements roles w D →
  ∃ D', (fed_run env p acts w).1 = replicate (length acts) (Ok tt)
    ∧ spec_run (column ∘ env_now env) roles acts D D'
    ∧ implements roles (fed_run env p acts w).2 D'.
Proof.
  intros Hrel Hwf Hroles Hnamed [<- Ha].
  destruct (exec_fed_run env Hrel w roles) with (p := p) (acts := acts) (n := w_step w)
    (D := db_aws_revoked_users (w_db w)) (iam := o_iam (w_outside w)) as (n' & D' & iam' & Hex & Hs & Ha');
    [| |done|done|done|].
  - intros r r' Hr Hr' Heq. destruct (ListAWSRoles_rows _ _ r Hwf Hroles Hr) as (row & Hrow & ->).
    destruct (ListAWSRoles_rows _ _ r' Hwf Hroles Hr') as (row' & Hrow' & ->). rewrite Heq in Hrow. by simplify_eq.
  - intros r Hr. destruct (ListAWSRoles_rows _ _ r Hwf Hroles Hr) as (row & Hrow & _). unfold has. by rewrite Hrow.
  - rewrite <- fed_world_self in Hex. exists D'. rewrite Hex. by split_and!.
Qed.

(** ** Witness: two roles; Alice is revoked, then Bob, and the reaper runs two
    hours later. *)

Definition fx_fed_world : World :=
  mkWorld (effect 31%N (QCreateAWSRole
    {| ar_ID := uuid_nil; ar_AccountID := 40%N; ar_RoleARN := "arn:aws:iam::1:role/dev"; ar_Slug := "dev";
       ar_DisplayName := "Dev"; ar_RequireStepUpMFA := false; ar_MaxSessionDurationSec := 14400;
       ar_AllowedRegions := []; ar_CreatedAt := 0; ar_UpdatedAt := 0 |}) fx_aws_db) 0 [] [] fx_outside.

Definition fx_fed_roles : list AWSRole :=
  match ListAWSRoles (w_db fx_fed_world) with Ok roles => roles | Err _ => [] end.

Definition fx_fed_actions : list fed_action :=
  [ARevoke "alice"; ARevoke "bob"; AReap (fx_T0 + 2 * Hour)].

Lemma well_named_distinct roles :
  Forall (λ name, name ≠ "") (role_name <$> roles) → NoDup (role_name <$> roles) → well_named roles.
Proof.
  intros Hne Hnd. split.
  - intros r Hr. rewrite list.Forall_forall in Hne. apply Hne. by apply list_elem_of_fmap_2.
  - intros r r' [i Hi]%list_elem_of_lookup [j Hj]%list_elem_of_lookup Heq.
    assert (i = j) as ->; [|congruence].
    eapply NoDup_lookup; [done|rewrite list_lookup_fmap, Hi; done|]. rewrite list_lookup_fmap, Hj. simpl. by rewrite Heq.
Qed.

Lemma revocation_refines_deny_table_witness :
  iam_denied (o_iam (w_outside (fed_run fx_env (mkFederation "aws") fx_fed_actions fx_fed_world).2)) "dev" = ["alice"; "bob"] ∧
  iam_denied (o_iam (w_outside (fed_run fx_env (mkFederation "aws") fx_fed_actions fx_fed_world).2)) "ops" = [] ∧
  ∃ D', spec_run (column ∘ env_now fx_env) fx_fed_roles fx_fed_actions ∅ D' ∧
    implements fx_fed_roles (fed_run fx_env (mkFederation "aws") fx_fed_actions fx_fed_world).2 D'.
Proof.
  split; [vm_compute; reflexivity|]. split; [vm_compute; reflexivity|].
  destruct (revocation_refines_deny_table fx_env (mkFederation "aws") fx_fed_actions fx_fed_world fx_fed_roles ∅)
    as (D' & _ & Hs & Hi).
  - exact fx_reliable.
  - repeat apply effect_wf. apply migrated_db_wf.
  - reflexivity.
  - apply well_named_distinct; [apply (bool_decide_unpack _)|apply (bool_decide_unpack _)]; vm_compute; exact I.
  - split; [reflexivity|]. intros role _ s. rewrite lookup_empty. split; [intros []%elem_of_nil|by intros []].
  - by exists D'.
Defined.

(** ** What the hypotheses exclude *)

(** Roles of two accounts with one name share one policy: when the entries of
    the shorter-lived one are reaped, the other's denial goes too. *)
Definition fx_clash_world : World :=
  mkWorld (effect 31%N (QCreateAWSRole
    {| ar_ID := uuid_nil; ar_AccountID := 40%N; ar_RoleARN := "arn:aws:iam::2:role/ops"; ar_Slug := "ops2";
       ar_DisplayName := "Dev"; ar_RequireStepUpMFA := false; ar_MaxSessionDurationSec := 14400;
       ar_AllowedRegions := []; ar_CreatedAt := 0; ar_UpdatedAt := 0 |}) fx_aws_db) 0 [] [] fx_outside.

Lemma shared_role_name_loses_denial :
  let w := (fed_run fx_env (mkFederation "aws") [ARevoke "alice"; AReap (fx_T0 + 2 * Hour)] fx_clash_world).2 in
  is_Some (db_aws_revoked_users (w_db w) !! (31%N, "alice")) ∧ iam_denied (o_iam (w_outside w)) "ops" = [].
Proof. split; [eexists; vm_compute; reflexivity|vm_compute; reflexivity]. Qed.

(** The fourth call, the IAM update, fails: the entry is stored, and no later
    reap within the session's lifetime pushes it. *)
Lemma failed_push_is_not_retried :
  let '(answers, w) := fed_run (fx_env_fault 3) (mkFederation "aws") [ARevoke "alice"; AReap fx_T0; AReap (fx_T0 + Minute)]
    fx_aws_world in
  answers = [Err ErrOther; Ok tt; Ok tt] ∧
  is_Some (db_aws_revoked_users (w_db w) !! (30%N, "alice")) ∧ iam_denied (o_iam (w_outside w)) "ops" = [].
Proof. vm_compute. split; [reflexivity|]. split; [by eexists|reflexivity]. Qed.
