(* ===== verification/WebAuthnFacts.v ===== *)
(** * What a security key unlocks

    A session or an authorization code that follows a WebAuthn ceremony goes to
    the user named by the browser's sealed cookie, and only after an assertion
    was verified against a login challenge stored for that user, its deletion
    asked for first and the use of the key recorded last. *)
From S2P Require Import Prelude GoStrings GoNet Model Dialect Policy Tables SqliteUsers SqliteTokens SqliteAws Store Pkce Prog.
From S2P Require Import SingleUse Server Provision Awsfed Fixture Mfa Portal PortalFacts Authorize AuthorizeFacts WebAuthn AwsFacts.

Local Open Scope Z_scope.
Local Open Scope prog_scope.

(** The user a call hands a session or a code to. *)
Definition issued_to (e : event) : option uuid :=
  match e with
  | Ev (OpDb q) _ =>
      match q with QCreateSession s => Some (s_UserID s) | QCreateGrant g => Some (g_UserID g) | _ => None end
  | _ => None
  end.

Notation recipients := (collect issued_to).

#[export] Instance issued_to_of_writes : OfWrites issued_to.
Proof. intros [X op x]. destruct op; try done. by destruct q. Qed.

#[local] Arguments record_use !_ _.

Section facts.
  Context `{U : UnicodeTables} {dialect : Dialect} `{X : Externals}.

Notation nobody := (λ e, issued_to e = None).
Notation only uid := (λ e, issued_to e = None ∨ issued_to e = Some uid).

(** The ceremony, in order: the user's own login challenge is read and its
    deletion asked for ([d] is the answer, which the code ignores: a challenge
    whose deletion fails stays until it expires), the assertion of the request
    is validated against it and the user's keys, its counter advanced, and the
    use of that key is stored. *)
Definition key_verified (user : User) (sessionID : uuid) (r : Request) (tr : list event) : Prop :=
  ∃ bytes data parsed creds cred c d t,
    waSession_Unmarshal bytes = Ok data ∧ wa_ParseAssertion (rq_Body r) = Ok parsed ∧
    wc_CloneWarning cred = false ∧ c ∈ creds ∧ wa_CredentialID c = wc_ID cred ∧
    [Ev (OpDb (QGetWebAuthnSession sessionID (u_ID user) "login")) (Ok bytes);
     Ev (OpDb (QDeleteWebAuthnSession sessionID)) d;
     Ev (OpDb (QListWebAuthnCredentials (u_ID user))) (Ok creds);
     Ev (OpWaValidate (newWAUser user (adoptLegacyBackupEligible creds parsed)) data parsed) (Ok cred);
     Ev (OpDb (QUpdateWebAuthnCredentialUse (wa_ID c) (wc_SignCount cred) (wc_BackupEligible cred)
                 (wc_BackupState cred) t)) (Ok tt)] `sublist_of` tr.

Lemma record_use_path creds cred tr amr :
  path (record_use creds cred) tr (Ok amr) →
  ∃ c t t', c ∈ creds ∧ wa_CredentialID c = wc_ID cred ∧
    tr = [Ev OpNow t'; Ev (OpDb (QUpdateWebAuthnCredentialUse (wa_ID c) (wc_SignCount cred)
           (wc_BackupEligible cred) (wc_BackupState cred) t)) (Ok tt)].
Proof.
  induction creds as [|c creds IH]; cbn [record_use]; intros H; [by path_step H|].
  path_step H; [apply IH in H as (c' & t & t' & ? & ?); exists c', t, t'; set_solver|].
  apply bool_decide_eq_false, dec_stable in Hb.
  path_step H. path_step H. path_step H; path_step H; [|done]. subst. destruct_unit. exists c, t, t. set_solver.
Qed.

Lemma adopted_of parsed creds c :
  c ∈ adoptLegacyBackupEligible creds parsed →
  ∃ c', c' ∈ creds ∧ wa_ID c' = wa_ID c ∧ wa_CredentialID c' = wa_CredentialID c.
Proof.
  intros (c' & -> & Hin)%list_elem_of_fmap. exists c'. split; [done|]. unfold adopt_one. by case_match.
Qed.

Lemma FinishLogin_path user sid r tr amr :
  path (FinishLogin user sid r) tr (Ok amr) → key_verified user sid r tr.
Proof.
  unfold FinishLogin. intros H. path_step H. path_step H; [|by path_step H]. path_step H.
  path_step H; [|by path_step H]. path_step H; [|by path_step H]. path_step H.
  path_step H; [|by path_step H]. path_step H. path_step H; [|by path_step H]. path_step H; [by path_step H|].
  apply record_use_path in H as (c & t & t' & Hc & Hid & ->).
  apply adopted_of in Hc as (c' & Hin & Hw & Hcid). rewrite <- Hw.
  eexists _, _, _, _, _, c', _, t. split_and!; [done|done|done|done|congruence|]. in_trace.
Qed.

Lemma record_use_calls creds cred : calls nobody (record_use creds cred).
Proof. induction creds; cbn [record_use]; solve_calls. Qed.

#[local] Hint Resolve record_use_calls : calls.

Lemma FinishLogin_calls user sid r : calls nobody (FinishLogin user sid r).
Proof. unfold FinishLogin. solve_calls. Qed.

Lemma logAudit_calls_nobody r a u c m : calls nobody (logAudit r a u c m).
Proof. unfold logAudit. solve_calls. Qed.

Lemma nobody_only {A} (p : prog A) uid : calls nobody p → calls (only uid) p.
Proof. apply calls_impl. auto. Qed.

Lemma push_all_calls ids sub sid : calls nobody (push_all ids sub sid).
Proof. induction ids; cbn [push_all]; solve_calls. Qed.

#[local] Hint Resolve push_all_calls : calls.

Lemma broadcastLogout_calls sv uid sid : calls nobody (broadcastLogout sv uid sid).
Proof. unfold broadcastLogout. solve_calls. Qed.

Lemma readAuthPortalSession_nobody r : calls nobody (readAuthPortalSession r).
Proof. unfold readAuthPortalSession. solve_calls. Qed.

Lemma setPortalCookie_calls a b c : calls nobody (setPortalCookie a b c).
Proof. unfold setPortalCookie. solve_calls. Qed.

#[local] Hint Resolve logAudit_calls_nobody broadcastLogout_calls readAuthPortalSession_nobody setPortalCookie_calls : calls.
#[local] Hint Extern 2 (calls (only _) _) => apply nobody_only : calls.

Ltac solve_only := solve_calls_with ltac:(first [by left | by right]).

Lemma ensurePortalCookie_calls sv r user : calls (only (u_ID user)) (ensurePortalCookie sv r user).
Proof. unfold ensurePortalCookie. solve_only. Qed.

Lemma createPortalSession_calls r user : calls (only (u_ID user)) (createPortalSession r user).
Proof. unfold createPortalSession. solve_only. Qed.

Lemma sso_issue_calls st user client : calls (only (u_ID user)) (sso_issue st user client).
Proof. unfold sso_issue. solve_only. Qed.

#[local] Hint Resolve ensurePortalCookie_calls createPortalSession_calls sso_issue_calls : calls.

(** The recipients of a path. *)
Lemma only_recipients {A} (p : prog A) uid tr a u : calls (only uid) p → path p tr a → u ∈ recipients tr → u = uid.
Proof.
  intros Hc Hp%(calls_path _ _ _ _ Hc) (e & He & Hu)%list_elem_of_omap.
  rewrite list.Forall_forall in Hp. destruct (Hp e He) as [Hn|Hn]; congruence.
Qed.

(** The user a sealed, unexpired cookie of the request names: the state of
    [/authorize], or of the portal login. *)
Definition signing_in (r : Request) (owner : uuid) (t : Z) : Prop :=
  (∃ v raw st, rq_Cookie r authStateCookie = Some v ∧ Open v = Ok raw ∧ authState_Unmarshal raw = Ok st ∧
     as_UserID st = owner ∧ t ≤ as_Exp st) ∨
  (∃ v raw st, rq_Cookie r portalLoginCookie = Some v ∧ Open v = Ok raw ∧ loginState_Unmarshal raw = Ok st ∧
     pls_UserID st = owner ∧ t ≤ pls_Exp st).

(** What both handlers do after the ceremony, and before it. *)
Definition ceremony (r : Request) (uid : uuid) (tr : list event) : Prop :=
  ∃ owner t user sid tr1 tr2,
    tr = tr1 ++ tr2 ∧ recipients tr1 = [] ∧ u_ID user = uid ∧ signing_in r owner t ∧
    uuid_Parse (rq_Query r "session_id") = Ok sid ∧
    [Ev OpNow t; Ev (OpDb (QGetUserByID owner)) (Ok user)] `prefix_of` tr1 ∧ key_verified user sid r tr1.

Lemma ceremony_intro r uid owner t user sid tr0 tr2 amr :
  path (FinishLogin user sid r) tr0 (Ok amr) → u_ID user = uid → signing_in r owner t →
  uuid_Parse (rq_Query r "session_id") = Ok sid →
  ceremony r uid (Ev OpNow t :: Ev (OpDb (QGetUserByID owner)) (Ok user) :: tr0 ++ tr2).
Proof.
  intros Hp Hu Hs Hsid. exists owner, t, user, sid, (Ev OpNow t :: Ev (OpDb (QGetUserByID owner)) (Ok user) :: tr0), tr2.
  split_and!; [done| |done|done|done|by exists tr0|].
  - rewrite !collect_cons. apply (calls_collect issued_to _ _ _ (FinishLogin_calls _ _ _) Hp).
  - apply FinishLogin_path in Hp as (b & d & pa & cs & c & w & de & ti & Hp).
    exists b, d, pa, cs, c, w, de, ti. split_and!; try apply Hp. do 2 apply sublist_cons. apply Hp.
Qed.

(** Nobody is served during the ceremony. *)
Lemma ceremony_recipient {A} (p : prog A) user uid sid r t owner tr0 tr2 x a :
  path (FinishLogin user sid r) tr0 x → path p tr2 a →
  uid ∈ recipients (Ev OpNow t :: Ev (OpDb (QGetUserByID owner)) (Ok user) :: tr0 ++ tr2) →
  calls (only (u_ID user)) p → u_ID user = uid.
Proof.
  intros Hf Hp Hu Hc. apply (calls_collect issued_to) in Hf; [|apply FinishLogin_calls].
  rewrite !collect_cons, collect_app, Hf in Hu. symmetry. by eapply only_recipients.
Qed.

(** C29: When the security-key step of [/authorize] or of the portal login opens
    a session or issues a code, it does so for the user of the request's sealed,
    unexpired cookie, and everything is preceded by the whole ceremony: that
    user's login challenge read and its deletion asked for (the code ignores the
    answer, so that the challenge is gone is not part of the claim), the
    assertion validated against it and the user's own keys without a clone
    warning, and the key's use recorded. *)
Theorem security_key_sign_in sv r tr resp uid :
  path (handleSSOWebAuthnFinish sv r) tr resp ∨ path (handlePortalLoginMFAWebAuthnFinish r) tr resp →
  uid ∈ recipients tr → ceremony r uid tr.
Proof.
  intros [H|H] Hu.
  - unfold handleSSOWebAuthnFinish in H. path_call H. apply getAuthStateCookie_path in Hcall as [Hr Hst].
    path_step H; [|path_step H; subst; collect_in Hu]. destruct (Hst _ eq_refl) as (v & raw & t & ? & ? & ? & -> & ?).
    path_step H; [|path_step H; subst; collect_in Hu]. path_step H. path_step H; [|path_step H; subst; collect_in Hu].
    path_call H. path_step H.
    2: { apply (calls_collect issued_to) in Hcall; [|apply FinishLogin_calls]. path_step H. subst. collect_in Hu. }
    cbn [app] in *. eapply ceremony_intro; [done| |left; eauto 10|done].
    eapply ceremony_recipient; [exact Hcall|exact H|exact Hu|solve_only].
  - unfold handlePortalLoginMFAWebAuthnFinish in H. path_call H. apply getPortalLoginCookie_path in Hcall as [Hr Hst].
    path_step H; [|path_step H; subst; collect_in Hu]. destruct (Hst _ eq_refl) as (v & raw & t & ? & ? & ? & -> & ?).
    path_step H. path_step H; [|path_step H; subst; collect_in Hu]. path_step H; [|path_step H; subst; collect_in Hu].
    path_call H. path_step H.
    2: { apply (calls_collect issued_to) in Hcall; [|apply FinishLogin_calls]. path_call H.
         apply (calls_collect issued_to) in Hcall0; [|apply logAudit_calls_nobody].
         path_step H; path_step H; subst; collect_in Hu. }
    cbn [app] in *. eapply ceremony_intro; [done| |right; eauto 10|done].
    eapply ceremony_recipient; [exact Hcall|exact H|exact Hu|solve_only].
Qed.

End facts.

(** ** Witness: Alice signs in to the portal with the key she enrolled. *)

Definition fx_key : WebAuthnCredential :=
  {| wa_ID := 50%N; wa_UserID := 7%N; wa_CredentialID := "key"; wa_PublicKey := "pk"; wa_AAGUID := "aaguid";
     wa_SignCount := 0; wa_BackupEligible := None; wa_BackupState := false; wa_DeviceName := "yubi";
     wa_CreatedAt := 0; wa_LastUsedAt := 0 |}.

Definition fx_key_world : World :=
  mkWorld (effect 30%N (QCreateWebAuthnSession 7%N "challenge" "login")
    (effect 0%N (QCreateWebAuthnCredential fx_key) fx_db)) 0 [] [] fx_outside.

Definition fx_key_request : Request :=
  with_cookie portalLoginCookie "sealed:login" (form [("session_id", "30"); ("body", "key")]).
Definition fx_key_login : prog Response := handlePortalLoginMFAWebAuthnFinish fx_key_request.

Lemma security_key_sign_in_witness :
  7%N ∈ recipients (trace fx_env fx_key_login fx_key_world) ∧
  ceremony fx_key_request 7%N (trace fx_env fx_key_login fx_key_world).
Proof.
  assert (7%N ∈ recipients (trace fx_env fx_key_login fx_key_world)) as Hu by (vm_compute; left).
  split; [exact Hu|].
  apply (security_key_sign_in fx_sv fx_key_request _ (exec fx_env fx_key_login fx_key_world).1); [|exact Hu].
  right. apply exec_path.
Defined.
