(* ===== verification/ConsoleFacts.v ===== *)
(** * Who reaches the AWS console

    The three handlers that ask STS for console credentials: the tile
    ([handlePortalAWSConsole], also behind [/portal/aws/refresh]) and the two
    step-up challenges, which come to the same function through
    [dispatchStepUpNext] ([web_portal_step_up.go]). *)
From S2P Require Import Prelude GoStrings GoNet Model Dialect Policy Tables SqliteUsers SqliteTokens SqliteAws Store Pkce Prog.
From S2P Require Import SingleUse Server Provision Awsfed Fixture Mfa Portal PortalFacts Authorize AuthorizeFacts WebAuthn AwsConsole AwsFacts WebAuthnFacts.

Local Open Scope Z_scope.
Local Open Scope prog_scope.

#[local] Arguments record_use !_ _.

Section console.
  Context `{U : UnicodeTables} {dialect : Dialect} `{X : Externals}.

Notation none := (λ e, assumed e = None).

(** What STS is asked for: the role that [roleStr] names, which the store
    listed among the roles the user's groups are assigned to, in a region the
    server offers for it, with a token minted for that user. *)
Definition console_role (sv : Server) (user : User) (roleStr : string) (tr : list event) (i : AssumeRoleInput)
    (role : AWSRole) : Prop :=
  ∃ roleID roles region,
    uuid_Parse roleStr = Ok roleID ∧ Ev (OpDb (QGetAWSRole roleID)) (Ok role) ∈ tr ∧
    Ev (OpDb (QListAWSRolesForUser (u_ID user))) (Ok roles) ∈ tr ∧ (∃ ar, ar ∈ roles ∧ ar_ID ar = roleID) ∧
    ar_RoleArn i = ar_RoleARN role ∧ ar_Region i = stsRegion (doorFor region) ∧ offered sv role region ∧
    minted_for sv user (ar_WebIdentityToken i) tr.

(** The journal accepted an entry about it for the user. *)
Definition console_entry (user : User) (tr : list event) : Prop :=
  ∃ en, Ev (OpAppend en) (Ok tt) ∈ tr ∧ ent_Action en = ActionAWSConsoleAssumed ∧ ent_UserID en = Some (u_ID user).

Lemma console_role_mono sv user s tr tr' i role :
  (∀ e, e ∈ tr → e ∈ tr') → console_role sv user s tr i role → console_role sv user s tr' i role.
Proof.
  intros Hs (rid & roles & region & ? & ? & ? & ? & ? & ? & ? & ? & fc & ? & ?).
  exists rid, roles, region. split_and!; auto. split; [done|]. exists fc. auto.
Qed.

Lemma console_entry_mono user tr tr' : (∀ e, e ∈ tr → e ∈ tr') → console_entry user tr → console_entry user tr'.
Proof. intros Hs (en & ? & ?). exists en. auto. Qed.

(** The shared tail: a role that was resolved for the user, then the exchange. *)
Lemma resolved_then_built sv r pc roleStr roleID role region tr1 tr2 x i :
  uuid_Parse roleStr = Ok roleID → path (resolveAuthorizedAWSRole (u_ID (px_User pc)) roleID) tr1 (Ok (role, true)) →
  path (buildAWSConsoleURL sv r pc role region) tr2 x → i ∈ roles_assumed tr2 →
  console_role sv (px_User pc) roleStr (tr1 ++ tr2) i role ∧
  (∀ url, x = inr url → console_entry (px_User pc) tr2).
Proof.
  intros Hid [_ Hauth]%resolveAuthorizedAWSRole_path [Hbuild Hsent]%buildAWSConsoleURL_path Hi.
  destruct (Hauth role eq_refl) as (roles & Hg & Hl & Hin).
  destruct (Hbuild _ Hi) as (region' & Hreg & Harn & Hrg & _ & Haud & fc & Hmint & Hfc).
  split; [|exact Hsent]. exists roleID, roles, region'. split_and!; try done.
  - set_solver.
  - set_solver.
  - by eapply resolveAWSRegion_offered.
  - split; [done|]. exists fc. split; [set_solver|done].
Qed.

Lemma dispatchStepUpNext_path sv r pc next roleStr region tr x i :
  path (dispatchStepUpNext sv r pc next roleStr region) tr x → i ∈ roles_assumed tr →
  next = "aws_console" ∧ (∃ role, console_role sv (px_User pc) roleStr tr i role) ∧
  (∀ url, x = inr url → console_entry (px_User pc) tr).
Proof.
  unfold dispatchStepUpNext. intros H Hi.
  path_step H; [|path_step H; subst; by apply not_elem_of_nil in Hi]. apply bool_decide_eq_true in Hb.
  path_step H; [|path_step H; subst; by apply not_elem_of_nil in Hi].
  path_call H. pose proof (resolveAuthorizedAWSRole_path _ _ _ _ Hcall) as [Hr _].
  path_step H; [|path_step H; subst; collect_in Hi].
  destruct a0 as [role ok]. cbn [fst snd] in H. destruct ok; cbn [negb] in H; [|path_step H; subst; collect_in Hi].
  rewrite collect_app, Hr in Hi. cbn [app] in Hi.
  destruct (resolved_then_built _ _ _ _ _ _ _ _ _ _ _ Hm Hcall H Hi) as [Hrole Hent].
  split; [done|]. split; [by exists role|]. intros url Hx. eapply console_entry_mono; [|by eapply Hent]. set_solver.
Qed.

Lemma VerifyTOTP_assumes uid code : calls none (VerifyTOTP uid code).
Proof. unfold VerifyTOTP, decryptTOTPSecret, validateTOTP. solve_calls. Qed.

Lemma portalMFAMethods_assumes uid : calls none (portalMFAMethods uid).
Proof. unfold portalMFAMethods. solve_calls. Qed.

Lemma record_use_assumes creds cred : calls none (record_use creds cred).
Proof. induction creds; cbn [record_use]; solve_calls. Qed.

#[local] Hint Resolve record_use_assumes : calls.

Lemma FinishLogin_assumes user sid r : calls none (FinishLogin user sid r).
Proof. unfold FinishLogin. solve_calls. Qed.

Lemma markStepUpSuccess_path pc tr x :
  path (markStepUpSuccess pc) tr x →
  roles_assumed tr = [] ∧
  ∀ pc', x = Ok pc' → ∃ t, px_User pc' = px_User pc ∧ px_Session pc' = session_stepped_up t (px_Session pc) ∧
    tr = [Ev OpNow t; Ev (OpDb (QMarkSessionMFA (s_ID (px_Session pc)) t)) (Ok tt)].
Proof.
  unfold markStepUpSuccess. intros H. path_step H. path_step H. path_step H; path_step H; subst; (split; [done|]); [|done].
  destruct_unit. intros pc' [= <-]. by exists t.
Qed.

(** Where an assumed role stands in the trace. *)
Lemma assumed_event tr i : i ∈ roles_assumed tr → ∃ x, [Ev (OpAssumeRole i) x] `sublist_of` tr.
Proof.
  intros ([Y o y] & Hin & Hf)%list_elem_of_omap. destruct o; simplify_eq/=.
  exists y. apply list_elem_of_split in Hin as (l1 & l2 & ->). apply sublist_inserts_l, sublist_skip, sublist_nil_l.
Qed.

Lemma console_tile sv pc r tr resp i :
  i ∈ roles_assumed tr → path (handlePortalAWSConsole sv pc r) tr resp →
  (∃ role, console_role sv (px_User pc) (form_or_query r "role_id") tr i role ∧
     (ar_RequireStepUpMFA role = true → ∃ t0 t, s_MFAVerifiedAt (px_Session pc) = Some t0 ∧
        Ev OpNow t ∈ tr ∧ time_Sub t t0 <= srv_stepUpMFATTL sv)) ∧
  ((∃ msg, resp = aws_error msg) ∨ console_entry (px_User pc) tr).
Proof.
  unfold handlePortalAWSConsole, assume_failed. intros Hi H.
  path_step H; [|path_step H; subst; by apply not_elem_of_nil in Hi].
  path_call H. pose proof (resolveAuthorizedAWSRole_path _ _ _ _ Hcall) as [Hr _].
  path_step H; [|path_step H; subst; collect_in Hi].
  destruct a0 as [role ok]. cbn [fst snd] in H. destruct ok; cbn [negb] in H.
  2: { path_call H. apply (calls_collect assumed) in Hcall0; [|apply logAudit_assumes]. path_step H. subst. collect_in Hi. }
  path_step H.
  2: { path_call H. apply (calls_collect assumed) in Hcall0; [|apply logAudit_assumes]. path_step H. subst. collect_in Hi. }
  path_call H. match type of Hcall0 with path _ ?t ?b => set (trf := t) in *; set (fresh := b) in * end.
  assert (roles_assumed trf = [] ∧ (fresh = true → ar_RequireStepUpMFA role = true →
    ∃ t0 t, s_MFAVerifiedAt (px_Session pc) = Some t0 ∧ Ev OpNow t ∈ trf ∧ time_Sub t t0 <= srv_stepUpMFATTL sv))
    as [Hs Hfresh].
  { destruct (ar_RequireStepUpMFA role); [apply stepUpMFAFresh_path in Hcall0 as [? ?]; auto|].
    by destruct Hcall0 as [-> _]. }
  destruct fresh; cbn [negb] in H.
  2: { path_call H. apply (calls_collect assumed) in Hcall1; [|apply logAudit_assumes]. path_step H. subst. collect_in Hi. }
  path_call H. path_step H. subst.
  rewrite app_nil_r, !collect_app, Hr, Hs in Hi. cbn [app] in Hi.
  destruct (resolved_then_built _ _ _ _ _ _ _ _ _ _ _ Hm Hcall Hcall1 Hi) as [Hrole Hent].
  split.
  - exists role. split; [eapply console_role_mono; [|exact Hrole]; set_solver|].
    intros Hreq. destruct (Hfresh eq_refl Hreq) as (t0 & t & ? & ? & ?). exists t0, t. split_and!; [done|set_solver|done].
  - match type of Hcall1 with path _ _ ?x => destruct x as [msg|url] end; [by left; exists msg|right].
    eapply console_entry_mono; [|by eapply Hent]. set_solver.
Qed.

Lemma step_up_totp sv pc r tr resp i :
  i ∈ roles_assumed tr → path (handlePortalStepUp sv pc r) tr resp →
  form_or_query r "next" = "aws_console" ∧
  (∃ role, console_role sv (px_User pc) (form_or_query r "role_id") tr i role) ∧
  (∃ cred sec t x, totp_Enabled cred = true ∧
     [Ev (OpDb (QGetTOTPByUserID (u_ID (px_User pc)))) (Ok cred);
      Ev (OpDecrypt (totp_EncryptedDEK cred) (totp_EncryptedSecret cred)) (Ok sec);
      Ev (OpValidateTOTP sec (rq_FormValue r "code")) true;
      Ev (OpDb (QMarkSessionMFA (s_ID (px_Session pc)) t)) (Ok tt); Ev (OpAssumeRole i) x] `sublist_of` tr) ∧
  ((∃ msg, resp = httpRedirect (LocPath ("/portal?error=" +:+ QueryEscape msg))) ∨ console_entry (px_User pc) tr).
Proof.
  unfold handlePortalStepUp. intros Hi H.
  path_call H. apply (calls_collect assumed) in Hcall; [|apply portalMFAMethods_assumes].
  path_step H; [path_step H; subst; collect_in Hi|]. path_step H; [path_step H; subst; collect_in Hi|].
  path_call H. apply (calls_collect assumed) in Hcall0 as Hv; [|apply VerifyTOTP_assumes].
  path_step H; [|path_call H; apply (calls_collect assumed) in Hcall1; [|apply logAudit_assumes];
                 path_step H; subst; collect_in Hi].
  destruct_unit. apply VerifyTOTP_path in Hcall0 as [_ Hok]. destruct (Hok eq_refl) as (cred & sec & Hen & ->).
  path_call H. apply markStepUpSuccess_path in Hcall0 as [Hn Hmark].
  path_step H; [|path_step H; subst; collect_in Hi]. destruct (Hmark _ eq_refl) as (t & Hu & _ & ->).
  path_call H. path_step H. subst. collect_in Hi.
  destruct (dispatchStepUpNext_path _ _ _ _ _ _ _ _ _ Hcall0 Hi) as (Hnext & [role Hrole] & Hent).
  destruct (assumed_event _ _ Hi) as [x Hx]. rewrite Hu in Hrole, Hent. split_and!; [done| | |].
  - exists role. eapply console_role_mono; [|exact Hrole]. set_solver.
  - exists cred, sec, t, x. split; [done|]. apply sublist_inserts_l. cbn [app]. do 3 apply sublist_skip.
    apply sublist_cons, sublist_skip. by apply sublist_inserts_r.
  - match type of Hcall0 with path _ _ ?d => destruct d as [msg|url] end; [by left; exists msg|right].
    eapply console_entry_mono; [|by eapply Hent]. set_solver.
Qed.

Lemma step_up_key sv pc r tr resp i :
  i ∈ roles_assumed tr → path (handlePortalStepUpWebAuthnFinish sv pc r) tr resp →
  rq_Query r "next" = "aws_console" ∧
  (∃ role, console_role sv (px_User pc) (rq_Query r "role_id") tr i role) ∧
  (∃ sid ceremony_tr t x, uuid_Parse (rq_Query r "session_id") = Ok sid ∧
     key_verified (px_User pc) sid r ceremony_tr ∧
     ceremony_tr ++ [Ev (OpDb (QMarkSessionMFA (s_ID (px_Session pc)) t)) (Ok tt); Ev (OpAssumeRole i) x]
       `sublist_of` tr) ∧
  ((∃ msg, resp = writeError StatusBadGateway "dispatch_failed" msg) ∨ console_entry (px_User pc) tr).
Proof.
  unfold handlePortalStepUpWebAuthnFinish. intros Hi H.
  path_step H; [|path_step H; subst; by apply not_elem_of_nil in Hi].
  path_call H. apply (calls_collect assumed) in Hcall as Hv; [|apply FinishLogin_assumes].
  path_step H; [|path_call H; apply (calls_collect assumed) in Hcall0; [|apply logAudit_assumes];
                 path_step H; subst; collect_in Hi].
  apply FinishLogin_path in Hcall. path_call H. apply markStepUpSuccess_path in Hcall0 as [Hn Hmark].
  path_step H; [|path_step H; subst; collect_in Hi]. destruct (Hmark _ eq_refl) as (t & Hu & _ & ->).
  path_call H. path_step H. subst. collect_in Hi.
  destruct (dispatchStepUpNext_path _ _ _ _ _ _ _ _ _ Hcall0 Hi) as (Hnext & [role Hrole] & Hent).
  destruct (assumed_event _ _ Hi) as [x Hx]. rewrite Hu in Hrole, Hent. split_and!; [done| | |].
  - exists role. eapply console_role_mono; [|exact Hrole]. set_solver.
  - eexists _, _, t, x. split; [done|]. split; [exact Hcall|]. apply sublist_app; [done|]. cbn [app].
    apply sublist_cons, sublist_skip. by apply sublist_inserts_r.
  - match type of Hcall0 with path _ _ ?d => destruct d as [msg|url] end; [by left; exists msg|right].
    eapply console_entry_mono; [|by eapply Hent]. set_solver.
Qed.

(** C22: the AWS console opens only for an assigned role, on every way to it.
    If the console handler or one of the two step-up handlers asks STS for
    credentials, it asks for the role the request names, which the store listed
    among the roles the user's groups are assigned to, with a token minted for
    that user, in a region the server offers for the role; the console handler
    only if, for a role that requires step-up, the session's second factor was
    at most the configured time old; the step-up handlers only after they
    verified a second factor of the user in this very request and stored its
    time in the session; and the browser is sent to AWS only after the journal
    accepted an entry for the user. *)
Theorem aws_console_sound sv pc r tr resp i :
  i ∈ roles_assumed tr →
  let user := px_User pc in
  (path (handlePortalAWSConsole sv pc r) tr resp →
     (∃ role, console_role sv user (form_or_query r "role_id") tr i role ∧
        (ar_RequireStepUpMFA role = true → ∃ t0 t, s_MFAVerifiedAt (px_Session pc) = Some t0 ∧
           Ev OpNow t ∈ tr ∧ time_Sub t t0 <= srv_stepUpMFATTL sv)) ∧
     ((∃ msg, resp = aws_error msg) ∨ console_entry user tr)) ∧
  (path (handlePortalStepUp sv pc r) tr resp →
     form_or_query r "next" = "aws_console" ∧
     (∃ role, console_role sv user (form_or_query r "role_id") tr i role) ∧
     (∃ cred sec t x, totp_Enabled cred = true ∧
        [Ev (OpDb (QGetTOTPByUserID (u_ID user))) (Ok cred);
         Ev (OpDecrypt (totp_EncryptedDEK cred) (totp_EncryptedSecret cred)) (Ok sec);
         Ev (OpValidateTOTP sec (rq_FormValue r "code")) true;
         Ev (OpDb (QMarkSessionMFA (s_ID (px_Session pc)) t)) (Ok tt); Ev (OpAssumeRole i) x] `sublist_of` tr) ∧
     ((∃ msg, resp = httpRedirect (LocPath ("/portal?error=" +:+ QueryEscape msg))) ∨ console_entry user tr)) ∧
  (path (handlePortalStepUpWebAuthnFinish sv pc r) tr resp →
     rq_Query r "next" = "aws_console" ∧
     (∃ role, console_role sv user (rq_Query r "role_id") tr i role) ∧
     (∃ sid ceremony_tr t x, uuid_Parse (rq_Query r "session_id") = Ok sid ∧ key_verified user sid r ceremony_tr ∧
        ceremony_tr ++ [Ev (OpDb (QMarkSessionMFA (s_ID (px_Session pc)) t)) (Ok tt); Ev (OpAssumeRole i) x]
          `sublist_of` tr) ∧
     ((∃ msg, resp = writeError StatusBadGateway "dispatch_failed" msg) ∨ console_entry user tr)).
Proof.
  intros Hi user. split_and!; intros H.
  - by apply console_tile.
  - by apply step_up_totp.
  - by apply step_up_key.
Qed.

End console.

(** ** Witness: Alice opens the console of the role her group is assigned to *)

Lemma aws_console_sound_witness :
  ∃ i role, i ∈ roles_assumed (trace fx_env fx_console fx_aws_world) ∧
    console_role fx_sv fx_user (form_or_query fx_console_request "role_id") (trace fx_env fx_console fx_aws_world) i role ∧
    console_entry fx_user (trace fx_env fx_console fx_aws_world).
Proof.
  assert (∃ i, i ∈ roles_assumed (trace fx_env fx_console fx_aws_world)) as [i Hi]; [eexists; vm_compute; left|].
  destruct (aws_console_sound fx_sv fx_fresh fx_console_request (trace fx_env fx_console fx_aws_world)
    (exec fx_env fx_console fx_aws_world).1 i Hi) as (H & _ & _).
  destruct (H (exec_path _ _ _)) as ((role & Hrole & _) & [[msg Hmsg]|Hent]).
  - exfalso. apply (f_equal (λ x, match rs_Body x with Redirect (LocPath p) => str_take 8 p | _ => "" end)) in Hmsg.
    vm_compute in Hmsg. discriminate Hmsg.
  - exists i, role. split; [exact Hi|]. split; [exact Hrole|exact Hent].
Defined.
