(* ===== verification/CodeOrigin.v ===== *)
(** * Where authorization codes come from

    All four handlers that store a code: [POST /authorize] (password), the TOTP
    and the security-key step that follow it, and silent sign-on at [GET
    /authorize].  The two MFA steps act on the state sealed into the
    [auth_state] cookie; what that state says was checked by the password step
    that sealed it ([sealed_state]). *)
From S2P Require Import Prelude GoStrings GoNet Model Dialect Policy Tables SqliteUsers SqliteTokens SqliteAws PgArray Store Pkce Prog.
From S2P Require Import SingleUse Server Provision Awsfed Fixture Mfa Portal PortalFacts Authorize AuthorizeFacts WebAuthn AwsFacts WebAuthnFacts.

Local Open Scope Z_scope.
Local Open Scope prog_scope.

Section origin.
  Context `{U : UnicodeTables} {dialect : Dialect} `{X : Externals}.

(** ** What the password step seals *)

(** The password step passed and [st] is what it sealed: the client exists,
    the state's redirect URI and scopes are registered, the password was
    checked, the account is active, passes the policy and has a second factor. *)
Definition password_step (sv : Server) (r : Request) (st : authState) (tr : list event) : Prop :=
  ∃ client user clock,
    Ev (OpDb (QGetClientByClientID (as_ClientID st))) (Ok client)
     :: Ev (OpDb (QGetUserByEmail (login_email r))) (Ok user)
     :: (Ev OpNow <$> readings clock (rules (srv_policy sv))
           (ask (Some user) (Some client) (rq_FormValue r "password") false)) `sublist_of` tr ∧
    validRedirectURI client (as_RedirectURI st) = true ∧
    Forall (λ sc, containsStr (c_Scopes client) sc = true) (as_Scopes st) ∧
    CheckPassword (u_PasswordHash user) (rq_FormValue r "password") = true ∧
    u_Active user = true ∧ u_MFAEnabled user = true ∧
    First clock (srv_policy sv) (ask (Some user) (Some client) (rq_FormValue r "password") false) = None ∧
    as_UserID st = u_ID user ∧ as_MFAVerified st = false ∧
    as_CodeChallenge st = rq_FormValue r "code_challenge".

(** The cookie value [v] was set under the name [auth_state] by the response
    [resp]. *)
Definition sets_state (resp : Response) (v : string) : Prop :=
  ∃ ck, ck ∈ rs_Cookies resp ∧ ck_Name ck = authStateCookie ∧ ck_Value ck = v.

Lemma ensurePortalCookie_names sv r user tr cks :
  path (ensurePortalCookie sv r user) tr cks → Forall (λ c, ck_Name c = portalCookie) cks.
Proof.
  unfold ensurePortalCookie. intros H. path_call H. path_call H.
  path_step H. path_step H; [|path_step H; by subst]. path_step H. path_step H; [|path_step H; by subst].
  do 3 path_step H. path_step H; [|path_step H; by subst].
  path_call H. path_step H. subst. unfold setPortalCookie in Hcall1. path_step Hcall1.
  path_step Hcall1; path_step Hcall1; subst; [|done]. by repeat constructor.
Qed.

Lemma issueCodeAndRedirect_cookies user client scopes state nonce cc ruri mfaAt authTime tr x :
  path (issueCodeAndRedirect user client scopes state nonce cc ruri mfaAt authTime) tr x → rs_Cookies x = [].
Proof.
  unfold issueCodeAndRedirect. intros H. path_step H. path_step H; [|path_step H; by subst]. do 3 path_step H.
  path_step H; [|path_step H; by subst]. path_step H; path_step H; by subst.
Qed.

Lemma login_refused_cookies r user client meta form tr x :
  rs_Cookies form = [] → path (login_refused r user client meta form) tr x → rs_Cookies x = [].
Proof.
  unfold login_refused. intros Hf H. path_call H. path_call H. path_step H; path_step H; by subst.
Qed.

(** [POST /authorize] sets the state cookie only at the end of a password step
    that passed, to the sealed text of the state described by [password_step]. *)
Lemma sealed_state sv r tr resp v :
  path (handleAuthorizePost sv r) tr resp → sets_state resp v →
  ∃ st, Ev (OpSeal (authState_Marshal st)) (Ok v) ∈ tr ∧ password_step sv r st tr.
Proof.
  assert (∀ x, rs_Cookies x = [] → ¬ sets_state x v) as Hno.
  { intros x Hx (ck & Hin & _). rewrite Hx in Hin. by apply not_elem_of_nil in Hin. }
  unfold handleAuthorizePost. intros H Hs. path_step H; [path_step H; subst; by apply Hno in Hs|].
  path_step H. path_step H; [|path_step H; subst; by apply Hno in Hs].
  path_step H; [path_step H; subst; by apply Hno in Hs|]. path_step H; [path_step H; subst; by apply Hno in Hs|].
  path_step H. path_step H;
    [|path_step H; try (path_step H; subst; by apply Hno in Hs); apply login_refused_cookies in H; [by apply Hno in Hs|done]].
  path_step H; [apply login_refused_cookies in H; [by apply Hno in Hs|done]|].
  path_step H; [path_step H; subst; by apply Hno in Hs|]. path_call H.
  apply policy_First_path in Hcall as (_ & _ & clock & Hf & Hclock).
  path_step H; [path_step H; subst; by apply Hno in Hs|]. do 2 path_step H.
  path_step H.
  - unfold authorize_to_mfa, setAuthStateCookie in H. path_step H. path_call H.
    path_step Hcall. path_step Hcall; path_step Hcall; subst; path_step H; [|subst; by apply Hno in Hs].
    path_step H. subst. eexists. split.
    + destruct Hs as (ck & Hin & _ & <-). rewrite (Hclock eq_refl). simpl in Hin.
      assert (ck = mkCookie authStateCookie a2 "/" (Seconds authStateTTL) true SameSiteLaxMode) as ->.
      { destruct x0 as [c|]; [destruct (totp_Enabled c)|]; simpl in Hin; set_solver. }
      clear Hin. cbn [ck_Value]. repeat first [apply list_elem_of_here | apply list_elem_of_further | apply elem_of_app; right].
    + rewrite negb_false_iff in *. apply bool_decide_eq_true in Hb1.
      eexists _, _, clock. rewrite (Hclock eq_refl). split_and!; try done; [in_trace|].
      simpl. by apply unregisteredScope_split.
  - exfalso. path_call H. path_step H; [|path_step H; subst; by apply Hno in Hs].
    path_call H. apply ensurePortalCookie_names in Hcall0. path_call H. apply issueCodeAndRedirect_cookies in Hcall1.
    path_step H. subst. destruct Hs as (ck & Hin & Hn & _). simpl in Hin. rewrite Hcall1, app_nil_r in Hin.
    rewrite list.Forall_forall in Hcall0. by rewrite (Hcall0 _ Hin) in Hn.
Qed.

(** ** The sealed state, read back *)

(** A state that survives [encoding/json]: its strings are valid UTF-8. *)
Definition state_text (st : authState) : Prop :=
  forallb valid_utf8 ([as_ClientID st; as_RedirectURI st; as_State st; as_Nonce st; as_CodeChallenge st]
                      ++ as_Scopes st ++ as_MFAAMR st) = true ∧
  json_time (as_AuthTime st) ∧ json_time (as_Exp st).

(** [encoding/json] reads back what it wrote. *)
Definition state_codec : Prop := ∀ st, state_text st → authState_Unmarshal (authState_Marshal st) = Ok st.

(** The integrity of the cookie cipher: an [auth_state] cookie that opens is one
    that a [POST /authorize] of this server has set, and it opens to what was
    sealed there (a state with readable text). *)
Definition own_state (sv : Server) (r : Request) : Prop :=
  ∀ v raw, rq_Cookie r authStateCookie = Some v → Open v = Ok raw →
    ∃ r0 tr0 resp0, path (handleAuthorizePost sv r0) tr0 resp0 ∧ sets_state resp0 v ∧
      (∀ p, Ev (OpSeal p) (Ok v) ∈ tr0 → p = raw) ∧ (∀ st, raw = authState_Marshal st → state_text st).

(** The request carries the state [st], not yet expired at [t]. *)
Definition carries_state (r : Request) (st : authState) (t : Z) : Prop :=
  ∃ v raw, rq_Cookie r authStateCookie = Some v ∧ Open v = Ok raw ∧ authState_Unmarshal raw = Ok st ∧ t ≤ as_Exp st.

(** Some execution of the password step passed and sealed [st]. *)
Definition password_passed (sv : Server) (st : authState) : Prop :=
  ∃ r0 tr0 resp0, path (handleAuthorizePost sv r0) tr0 resp0 ∧ password_step sv r0 st tr0.

Lemma carried_state_passed sv r st t :
  state_codec → own_state sv r → carries_state r st t → password_passed sv st.
Proof.
  intros Hc Hown (v & raw & Hv & Ho & Hu & _).
  destruct (Hown _ _ Hv Ho) as (r0 & tr0 & resp0 & Hp & Hs & Hopen & Htext).
  destruct (sealed_state _ _ _ _ _ Hp Hs) as (st0 & Hev & Hstep).
  apply Hopen in Hev as <-. rewrite (Hc _ (Htext _ eq_refl)) in Hu. injection Hu as ->. by exists r0, tr0, resp0.
Qed.

(** ** The four origins *)

(** The grant is for the state's redirect URI, scopes and challenge. *)
Definition grant_of_state (g : Grant) (st : authState) (user : User) (client : Client) (mfaAt : Z) : Prop :=
  g_UserID g = u_ID user ∧ g_ClientID g = c_ID client ∧ g_MFAVerifiedAt g = Some mfaAt ∧
  g_RedirectURI g = as_RedirectURI st ∧ g_Scopes g = as_Scopes st ∧
  g_CodeChallenge g = as_CodeChallenge st ∧ g_AuthTime g = as_AuthTime st.

(** A code of the TOTP step: an unexpired state that the password step sealed,
    then a code valid for the secret of an enabled credential of its user. *)
Definition totp_code (r : Request) (g : Grant) (st : authState) (tr : list event) : Prop :=
  ∃ t user cred sec client mfaAt,
    carries_state r st t ∧ totp_Enabled cred = true ∧
    [Ev OpNow t; Ev (OpDb (QGetUserByID (as_UserID st))) (Ok user);
     Ev (OpDb (QGetTOTPByUserID (u_ID user))) (Ok cred);
     Ev (OpDecrypt (totp_EncryptedDEK cred) (totp_EncryptedSecret cred)) (Ok sec);
     Ev (OpValidateTOTP sec (rq_FormValue r "code")) true;
     Ev (OpDb (QGetClientByClientID (as_ClientID st))) (Ok client); Ev OpNow mfaAt] `sublist_of` tr ∧
    grant_of_state g st user client mfaAt.

(** A code of the security-key step: the same with the whole WebAuthn ceremony
    ([ceremony_tr]) in place of the TOTP code. *)
Definition key_code (r : Request) (g : Grant) (st : authState) (tr : list event) : Prop :=
  ∃ t user sid client mfaAt ceremony_tr,
    carries_state r st t ∧ uuid_Parse (rq_Query r "session_id") = Ok sid ∧
    key_verified user sid r ceremony_tr ∧
    Ev OpNow t :: Ev (OpDb (QGetUserByID (as_UserID st))) (Ok user)
      :: ceremony_tr ++ [Ev (OpDb (QGetClientByClientID (as_ClientID st))) (Ok client); Ev OpNow mfaAt]
      `sublist_of` tr ∧
    grant_of_state g st user client mfaAt.

Lemma handleMFATOTPPost_grant sv r tr resp g :
  path (handleMFATOTPPost sv r) tr resp → g ∈ grants_created tr → ∃ st, totp_code r g st tr.
Proof.
  unfold handleMFATOTPPost. intros H Hg. path_step H; [path_step H; subst; collect_in Hg|].
  path_call H. apply getAuthStateCookie_path in Hcall as [Hr1 Hst].
  path_step H; [|path_step H; subst; collect_in Hg].
  destruct (Hst _ eq_refl) as (v & raw & t & Hv & Ho & Hu & -> & Ht).
  path_step H. path_step H; [|path_step H; subst; collect_in Hg].
  path_call H. apply VerifyTOTP_path in Hcall as [Hr2 Hok].
  path_step H; [|path_call H; apply logAudit_grants in Hcall; path_step H; path_step H; subst; collect_in Hg].
  destruct_unit. destruct (Hok eq_refl) as (cred & sec & Hen & ->).
  path_step H. path_step H; [|path_step H; subst; collect_in Hg].
  path_call H. apply logAudit_grants in Hcall. path_step H; [|path_step H; subst; collect_in Hg].
  path_call H. apply logAudit_grants in Hcall0. path_step H; [|path_step H; subst; collect_in Hg].
  path_call H. apply ensurePortalCookie_grants in Hcall1. path_step H. path_call H. path_step H. subst.
  pose proof (issueCodeAndRedirect_grants _ _ _ _ _ _ _ _ _ _ _ g Hcall2) as Hi. collect_in Hg.
  destruct (Hi Hg) as (id & code & tt0 & ->).
  eexists _, t, _, cred, sec, _, _. split; [by exists v, raw|]. split; [done|]. split; [in_trace|done].
Qed.

Lemma sso_issue_grants st user client tr x g :
  path (sso_issue st user client) tr x → g ∈ grants_created tr →
  ∃ mfaAt, [Ev OpNow mfaAt] `sublist_of` tr ∧ grant_of_state g st user client mfaAt.
Proof.
  unfold sso_issue. intros H Hg. path_step H. path_step H; [|path_step H; subst; collect_in Hg].
  do 4 path_step H.
  path_step H; [path_step H|]; path_step H; subst; collect_in Hg;
    apply list_elem_of_singleton in Hg as ->; exists t; (split; [in_trace|done]).
Qed.

Lemma FinishLogin_grants user sid r tr x : path (FinishLogin user sid r) tr x → grants_created tr = [].
Proof.
  intros H. apply collect_none. eapply Forall_impl; [|exact (calls_path _ _ _ _ (FinishLogin_calls _ _ _) H)].
  intros [Y o y]. destruct o; try done. by destruct q.
Qed.

Lemma handleSSOWebAuthnFinish_grant sv r tr resp g :
  path (handleSSOWebAuthnFinish sv r) tr resp → g ∈ grants_created tr → ∃ st, key_code r g st tr.
Proof.
  unfold handleSSOWebAuthnFinish. intros H Hg.
  path_call H. apply getAuthStateCookie_path in Hcall as [Hr1 Hst].
  path_step H; [|path_step H; subst; collect_in Hg].
  destruct (Hst _ eq_refl) as (v & raw & t & Hv & Ho & Hu & -> & Ht).
  path_step H; [|path_step H; subst; collect_in Hg].
  path_step H. path_step H; [|path_step H; subst; collect_in Hg].
  path_call H. apply FinishLogin_grants in Hcall as Hfl. path_step H; [|path_step H; subst; collect_in Hg].
  apply FinishLogin_path in Hcall.
  path_step H. path_step H; [|path_step H; subst; collect_in Hg].
  path_call H. apply logAudit_grants in Hcall0. path_step H; [|path_step H; subst; collect_in Hg].
  path_call H. apply logAudit_grants in Hcall1. path_step H; [|path_step H; subst; collect_in Hg].
  path_call H. apply ensurePortalCookie_grants in Hcall2. path_call H. path_step H. subst.
  pose proof (sso_issue_grants _ _ _ _ _ g Hcall3) as Hi. collect_in Hg.
  destruct (Hi Hg) as (mfaAt & Hnow & Hgr).
  eexists _, t, _, _, _, mfaAt, _. split; [by exists v, raw|]. split; [done|]. split; [exact Hcall|].
  split; [|exact Hgr]. cbn [app]. do 2 apply sublist_skip. apply sublist_app; [done|]. apply sublist_skip.
  do 3 apply sublist_inserts_l. by apply sublist_inserts_r.
Qed.


(** ** Confidential clients *)

(** A second factor was verified in this request, and the grant carries a time
    read after that. *)
Definition mfa_now (r : Request) (g : Grant) (tr : list event) : Prop :=
  ∃ mfaAt, g_MFAVerifiedAt g = Some mfaAt ∧
    ((∃ sec, [Ev (OpValidateTOTP sec (rq_FormValue r "code")) true; Ev OpNow mfaAt] `sublist_of` tr) ∨
     (∃ wauser data parsed cred, wa_ParseAssertion (rq_Body r) = Ok parsed ∧ wc_CloneWarning cred = false ∧
        [Ev (OpWaValidate wauser data parsed) (Ok cred); Ev OpNow mfaAt] `sublist_of` tr)).

(** The grant inherits the second factor of the live portal session it comes
    from: the time of its challenge, or the start of the session. *)
Definition mfa_inherited (r : Request) (g : Grant) (tr : list event) : Prop :=
  ∃ v tok sess, rq_Cookie r portalCookie = Some v ∧ Open v = Ok tok ∧
    Ev (OpDb (QGetSessionByAccessTokenHash (HashToken tok))) (Ok sess) ∈ tr ∧ s_MFAVerified sess = true ∧
    g_MFAVerifiedAt g = Some (default (s_CreatedAt sess) (s_MFAVerifiedAt sess)).


End origin.

(** ** Witnesses *)

(** Alice has a strong password and a confirmed second factor; she signs in at
    [/authorize] and completes the TOTP step with the cookie she was given. *)
Definition fx_two_factor_world : World :=
  mkWorld (effect 0%N (QUpdateUserMFAEnabled 7%N true)
    (effect 0%N (QUpdateUserPassword 7%N "pw:Secret123!xyz") (w_db fx_mfa_world))) (w_step fx_mfa_world) [] [] fx_outside.

Definition fx_authorize_request : Request :=
  form [("client_id", "rp"); ("redirect_uri", "https://rp.example/cb"); ("scope", "openid"); ("state", "st");
        ("email", "alice@example.com"); ("password", "Secret123!xyz")].
Definition fx_authorize : prog Response := handleAuthorizePost fx_sv fx_authorize_request.

Definition fx_state_cookie : string :=
  from_option ck_Value "" (head (rs_Cookies (exec fx_env fx_authorize fx_two_factor_world).1)).

Definition fx_totp_request : Request := with_cookie authStateCookie fx_state_cookie (form [("code", "123456")]).
Definition fx_totp_post : prog Response := handleMFATOTPPost fx_sv fx_totp_request.
Definition fx_totp_world : World := (exec fx_env fx_authorize fx_two_factor_world).2.
Definition fx_code_grant : Grant :=
  default fx_grant (head (grants_created (trace fx_env fx_totp_post fx_totp_world))).

Lemma fx_state_codec : state_codec.
Proof. intros st _. cbn [authState_Marshal authState_Unmarshal plain]. by rewrite state_dec_enc. Qed.

(** The plaintexts sealed in a trace, with the sealed texts. *)
Definition seals (tr : list event) : list (string * string) :=
  omap (λ e, match e with Ev (OpSeal p) (Ok v) => Some (p, v) | _ => None end) tr.

Lemma fx_seals p v :
  Ev (OpSeal p) (Ok v) ∈ trace fx_env fx_authorize fx_two_factor_world → "sealed:" +:+ p = v.
Proof.
  intros H. assert ((p, v) ∈ seals (trace fx_env fx_authorize fx_two_factor_world)) as Hs.
  { apply list_elem_of_omap. eexists. split; [exact H|done]. }
  revert Hs. assert (Forall (λ pv, "sealed:" +:+ pv.1 = pv.2) (seals (trace fx_env fx_authorize fx_two_factor_world)))
    as Hf by (vm_compute; repeat constructor).
  rewrite list.Forall_forall in Hf. by intros ?%Hf.
Qed.

Definition fx_sealed_state : authState :=
  match Open fx_state_cookie with
  | Ok raw => match authState_Unmarshal raw with Ok st => st | Err _ => fx_state end
  | Err _ => fx_state
  end.

Lemma fx_own_state : own_state fx_sv fx_totp_request.
Proof.
  intros v raw Hv Ho. assert (v = fx_state_cookie) as -> by (injection Hv; congruence). clear Hv.
  assert (Open fx_state_cookie = Ok (authState_Marshal fx_sealed_state)) as Hopen by (vm_compute; reflexivity).
  rewrite Hopen in Ho. injection Ho as <-.
  exists fx_authorize_request, (trace fx_env fx_authorize fx_two_factor_world),
    (exec fx_env fx_authorize fx_two_factor_world).1. split_and!.
  - apply exec_path.
  - eexists. split; [vm_compute; left|]. split; reflexivity.
  - intros p Hp%fx_seals. assert (Open ("sealed:" +:+ p) = Ok p) as Hop by (by destruct p).
    rewrite Hp, Hopen in Hop. by injection Hop.
  - intros st Hst. assert (st = fx_sealed_state) as ->.
    { cbn [authState_Marshal plain] in Hst. pose proof (state_dec_enc st) as Hd.
      rewrite <- Hst, state_dec_enc in Hd. congruence. }
    vm_compute. repeat split; congruence.
Qed.


