(* ===== verification/Lockout.v ===== *)
(** * Account lockout

    The two password forms, [POST /portal/login] and [POST /authorize]: wrong
    passwords are counted and the tenth locks the account; neither form lets a
    locked account any further.  The steps behind the forms do not look at the
    lock ([locked_account_finishes]). *)
From S2P Require Import Prelude GoStrings GoNet Model Dialect Policy Tables SqliteUsers SqliteTokens SqliteAws Store Pkce Prog.
From S2P Require Import SingleUse Server Provision Awsfed Fixture Mfa Portal PortalFacts Authorize AuthorizeFacts WebAuthn AwsFacts WebAuthnFacts CodeOrigin.

Local Open Scope Z_scope.
Local Open Scope prog_scope.

Section refused.
  Context `{U : UnicodeTables} {dialect : Dialect} `{X : Externals}.

(** The handlers that take a password. *)
Definition password_forms (sv : Server) (r : Request) : list (prog Response) :=
  [handlePortalLoginPOST sv r; handleAuthorizePost sv r].

(** A lock that outlasts every reading of the clock is a violation. *)
Lemma locked_violates clock user client pw mfa until :
  u_LockedUntil user = Some until →
  (∀ t, t ∈ readings clock DefaultPCIRules (ask (Some user) client pw mfa) → t < until) →
  First clock (New DefaultPCIRules) (ask (Some user) client pw mfa) ≠ None.
Proof.
  intros Hl Ht. rewrite default_policy_iff. intros (_ & Hu & _).
  destruct (Hu user eq_refl) as [_ Hlock]. specialize (Hlock _ Hl).
  specialize (Ht (clock 2%nat)). cut (clock 2%nat < until); [lia|]. apply Ht.
  unfold DefaultPCIRules. cbn [readings]. apply elem_of_app; right. apply elem_of_app; right.
  apply elem_of_app; left. unfold Clock1; simpl. rewrite Hl, bool_decide_true by eauto. by left.
Qed.

Lemma locked_policy sv user client pw mfa until tr :
  srv_policy sv = New DefaultPCIRules → path (policy_First sv (ask (Some user) client pw mfa)) tr None →
  u_LockedUntil user = Some until → (∀ t, Ev OpNow t ∈ tr → t < until) → False.
Proof.
  intros Hpol (_ & _ & clock & Hf & Hclock)%policy_First_path Hl Ht.
  rewrite Hpol in Hf, Hclock. refine (locked_violates clock user client pw mfa until Hl _ Hf).
  intros t Hin. apply Ht. rewrite (Hclock eq_refl). by apply list_elem_of_fmap_2.
Qed.

(** Nothing was opened: no session, no code, no cookie. *)
Definition turned_away (tr : list event) (resp : Response) : Prop :=
  sessions_created tr = [] ∧ grants_created tr = [] ∧ rs_Cookies resp = [].

Lemma reads_turned_away tr resp : Forall (λ e, writes e = false) tr → rs_Cookies resp = [] → turned_away tr resp.
Proof. intros Hr Hc. unfold turned_away. rewrite !(collect_reads _ _ Hr). done. Qed.

Lemma login_refused_away r user client meta form pre tr resp :
  Forall (λ e, writes e = false) pre → rs_Cookies form = [] →
  path (login_refused r user client meta form) tr resp → turned_away (pre ++ tr) resp.
Proof.
  intros Hpre Hf H. pose proof (login_refused_cookies _ _ _ _ _ _ _ Hf H).
  pose proof (login_refused_path _ _ _ _ _ _ _ H) as Hs. pose proof (login_refused_grants _ _ _ _ _ _ _ H) as Hg.
  unfold turned_away. by rewrite !collect_app, !(collect_reads _ _ Hpre), Hs, Hg.
Qed.

Ltac refused_here H :=
  solve [eapply (login_refused_away _ _ _ _ _ [_]); [by repeat constructor| |exact H]; done
        |eapply (login_refused_away _ _ _ _ _ [_; _]); [by repeat constructor| |exact H]; done].
Ltac no_change := apply reads_turned_away; [by repeat constructor|done].

(** Neither form lets a locked account through. *)
Lemma locked_forms sv r h tr resp until :
  srv_policy sv = New DefaultPCIRules → h ∈ password_forms sv r → path h tr resp →
  (∀ user, Ev (OpDb (QGetUserByEmail (login_email r))) (Ok user) ∈ tr → u_LockedUntil user = Some until) →
  (∀ t, Ev OpNow t ∈ tr → t < until) → turned_away tr resp.
Proof.
  intros Hpol Hh H Hu Ht. unfold password_forms in Hh.
  apply elem_of_cons in Hh as [->|[->|Hh%not_elem_of_nil]%elem_of_cons]; [..|done].
  - unfold handlePortalLoginPOST in H. path_step H.
    path_step H; [|path_step H; try (path_step H; subst; no_change);
                   refused_here H].
    path_step H; [refused_here H|].
    path_step H; [path_step H; subst; no_change|]. path_call H.
    apply policy_First_path in Hcall as Hp. destruct Hp as (Hr & _). path_step H.
    { path_step H. subst. apply reads_turned_away; [|done]. constructor; [done|]. by rewrite app_nil_r. }
    exfalso. eapply locked_policy; [done|exact Hcall|apply Hu; by left|].
    intros t Hin. apply Ht. right. apply elem_of_app. by left.
  - unfold handleAuthorizePost in H. path_step H; [path_step H; subst; no_change|].
    path_step H. path_step H; [|path_step H; subst; no_change].
    path_step H; [path_step H; subst; no_change|].
    path_step H; [path_step H; subst; no_change|].
    path_step H. path_step H;
      [|path_step H; [refused_here H|path_step H; subst; no_change..]].
    path_step H; [refused_here H|].
    path_step H; [path_step H; subst; no_change|]. path_call H.
    apply policy_First_path in Hcall as Hp. destruct Hp as (Hr & _). path_step H.
    { path_step H. subst. apply reads_turned_away; [|done]. constructor; [done|]. constructor; [done|].
      by rewrite app_nil_r. }
    exfalso. eapply locked_policy; [done|exact Hcall|apply Hu; by right; left|].
    intros t Hin. apply Ht. do 2 right. apply elem_of_app. by left.
Qed.

End refused.

(** ** Counting failures *)

Section lockout.
  Context `{U : UnicodeTables} {dialect : Dialect} `{X : Externals} (env : Env) (Hr : reliable env).

Lemma GetUserByEmail_row d user :
  db_wf d → db_users d !! u_ID user = Some user → GetUserByEmail (u_Email user) d = Ok user.
Proof.
  intros Hwf Hu. unfold GetUserByEmail.
  by rewrite (find_row_unique u_Email _ _ _ _ (wf_users_email _ Hwf) Hu).
Qed.

(** A failed check, run to the end. *)
Lemma exec_login_refused r user client meta form w :
  let n := if 10 <=? u_FailedAttempts user + 1 then S (w_step w) else w_step w in
  ∃ m e, exec env (login_refused r (Some user) client meta form) w =
    (form, mkWorld (UpdateUserFailedAttempts (env_now env n) (u_ID user) (u_FailedAttempts user + 1)
                      (if 10 <=? u_FailedAttempts user + 1
                       then Some (env_now env (w_step w) + 30 * Minute) else None) (w_db w)).2
             m (w_journal w ++ [e]) (w_outbox w) (w_outside w)) ∧ ent_Action e = ActionLoginFailed.
Proof.
  unfold login_refused, incrementFailedAttempts. rewrite exec_bind.
  destruct (10 <=? u_FailedAttempts user + 1); cbn [bind now do_op exec step_op db fst snd tick w_db w_step];
    rewrite Hr; cbn [run_query UpdateUserFailedAttempts update_user fst snd exec w_journal w_outbox];
    rewrite exec_bind;
    match goal with |- context [exec env (logAudit ?r ?a ?u ?c ?m) ?w] =>
      destruct (exec_logAudit env r a u c m w Hr) as (e & n' & -> & He1 & _) end;
    cbn [exec fst snd w_db w_journal w_outbox]; eauto.
Qed.

(** The request gets as far as the password check: always at the portal form,
    and at [POST /authorize] when the client is known and the redirect URI and
    the scopes are registered. *)
Definition checks_password (sv : Server) (r : Request) (h : prog Response) (d : DB) : Prop :=
  h = handlePortalLoginPOST sv r ∨
  h = handleAuthorizePost sv r ∧ rq_ParseOK r = true ∧
    ∃ client, GetClientByClientID (rq_FormValue r "client_id") d = Ok client ∧
      validRedirectURI client (rq_FormValue r "redirect_uri") = true ∧
      unregisteredScope client (splitScopes (rq_FormValue r "scope")) = "".

(** A wrong password at either form is the failed check, one or two reads
    later. *)
Lemma exec_wrong_password sv r h w user :
  db_wf (w_db w) → db_users (w_db w) !! u_ID user = Some user → login_email r = u_Email user →
  CheckPassword (u_PasswordHash user) (rq_FormValue r "password") = false →
  checks_password sv r h (w_db w) →
  ∃ client meta form k, (w_step w < k ≤ w_step w + 2)%nat ∧
    exec env h w = exec env (login_refused r (Some user) client meta form)
                     (mkWorld (w_db w) k (w_journal w) (w_outbox w) (w_outside w)).
Proof.
  intros Hwf Hu Hem Hpw [->|(-> & Hok & client & Hc & Huri & Hsc)].
  - eexists _, _, _, (S (w_step w)). split; [lia|]. unfold handlePortalLoginPOST. rewrite exec_db by done.
    cbn [run_query reading fst snd]. by rewrite Hem, (GetUserByEmail_row _ _ Hwf Hu), Hpw.
  - eexists _, _, _, (S (S (w_step w))). split; [lia|]. unfold handleAuthorizePost. rewrite Hok. cbn [negb].
    rewrite exec_db by done. cbn [run_query reading fst snd]. rewrite Hc, Huri. cbn [negb].
    rewrite bool_decide_true by done. cbn [negb]. rewrite exec_db by done.
    cbn [run_query reading fst snd w_db w_step w_journal w_outbox w_outside].
    by rewrite Hem, (GetUserByEmail_row _ _ Hwf Hu), Hpw.
Qed.

(** C16: the tenth consecutive wrong password locks the account for half an
    hour, and neither password form gets past the lock.  When nothing fails, a
    wrong password at [POST /portal/login] or [POST /authorize] adds one to the
    failure count and journals the failure; from the tenth on it sets the lock
    to thirty minutes ahead.  And in any execution whatsoever of either form
    that finds the account locked past every reading of the clock it takes, no
    session is opened, no code is issued and no cookie is set, not even with the
    right password, so the MFA step is not reached either.

    The steps behind the forms are not covered: a browser that passed the
    password before the lock was set holds a sealed cookie, and the MFA steps
    ([handlePortalLoginMFA], [handleMFATOTPPost], the security-key steps) do not
    look at the lock ([locked_account_finishes]). *)
Theorem lockout_after_ten sv r w user h :
  srv_policy sv = New DefaultPCIRules → db_wf (w_db w) → db_users (w_db w) !! u_ID user = Some user →
  login_email r = u_Email user → checks_password sv r h (w_db w) →
  CheckPassword (u_PasswordHash user) (rq_FormValue r "password") = false →
  (let '(_, w1) := exec env h w in
   ∃ user1 e k, db_users (w_db w1) !! u_ID user = Some user1 ∧
     GetUserByEmail (u_Email user) (w_db w1) = Ok user1 ∧
     u_FailedAttempts user1 = u_FailedAttempts user + 1 ∧
     (w_step w < k ≤ w_step w + 2)%nat ∧
     u_LockedUntil user1 = (if 10 <=? u_FailedAttempts user + 1
                            then Some (column (env_now env k + 30 * Minute)) else None) ∧
     w_journal w1 = w_journal w ++ [e] ∧ ent_Action e = ActionLoginFailed) ∧
  (∀ r2 h2 tr2 resp2 until, h2 ∈ password_forms sv r2 → path h2 tr2 resp2 →
     (∀ u2, Ev (OpDb (QGetUserByEmail (login_email r2))) (Ok u2) ∈ tr2 → u_LockedUntil u2 = Some until) →
     (∀ t, Ev OpNow t ∈ tr2 → t < until) →
     sessions_created tr2 = [] ∧ grants_created tr2 = [] ∧ rs_Cookies resp2 = []).
Proof.
  intros Hpol Hwf Hu Hem Hh Hpw. split; [|intros; by eapply locked_forms].
  pose proof (exec_wf env h w Hwf) as Hwf1.
  destruct (exec_wrong_password sv r h w user Hwf Hu Hem Hpw Hh) as (c & meta & form & k & Hk & Hex).
  rewrite Hex in Hwf1 |- *.
  match goal with |- context [exec env (login_refused ?r (Some ?u) ?c ?m ?f) ?w] =>
    destruct (exec_login_refused r u c m f w) as (m' & e & Hx & He) end.
  rewrite Hx in Hwf1 |- *. cbn [w_db w_step w_journal w_outbox fst snd] in *.
  match type of Hwf1 with db_wf ?d => set (d1 := d) in * end.
  assert (db_users d1 !! u_ID user = Some (user_set_failed (u_FailedAttempts user + 1)
            (if 10 <=? u_FailedAttempts user + 1 then Some (column (env_now env k + 30 * Minute)) else None)
            (stamp (env_now env (if 10 <=? u_FailedAttempts user + 1 then S k else k))) user)) as Hrow.
  { subst d1. simpl. rewrite lookup_alter_eq, Hu. simpl. by destruct (10 <=? _). }
  match type of Hrow with _ = Some ?u1 => pose proof (GetUserByEmail_row d1 u1 Hwf1 Hrow) as Hem1; exists u1, e, k end.
  split_and!; try done; lia.
Qed.

End lockout.

(** ** Witnesses *)

(** Nine failures so far, then a wrong password. *)
Definition fx_nine_world : World := mkWorld (effect 0%N (QUpdateUserFailedAttempts 7%N 9 None) fx_db) 0 [] [] fx_outside.
Definition fx_nine_user : User :=
  default fx_user (db_users (w_db fx_nine_world) !! 7%N).
Definition fx_wrong_request : Request := form [("email", "alice@example.com"); ("password", "guess")].

(** The world after it: the account is locked, and Alice tries the right
    password. *)
Definition fx_locked_world : World := (exec fx_env (handlePortalLoginPOST fx_sv fx_wrong_request) fx_nine_world).2.
Definition fx_locked_trace : list event := trace fx_env (handlePortalLoginPOST fx_sv fx_login_request) fx_locked_world.

Definition accounts_read (tr : list event) : list User :=
  omap (λ e, match e with Ev (OpDb (QGetUserByEmail _)) (Ok u) => Some u | _ => None end) tr.
Definition clock_read (tr : list event) : list Z :=
  omap (λ e, match e with Ev OpNow t => Some t | _ => None end) tr.

Lemma lockout_after_ten_witness :
  (let '(_, w1) := exec fx_env (handlePortalLoginPOST fx_sv fx_wrong_request) fx_nine_world in
   ∃ user1 e k, db_users (w_db w1) !! 7%N = Some user1 ∧
     GetUserByEmail "alice@example.com" (w_db w1) = Ok user1 ∧
     u_FailedAttempts user1 = u_FailedAttempts fx_nine_user + 1 ∧
     (w_step fx_nine_world < k ≤ w_step fx_nine_world + 2)%nat ∧
     u_LockedUntil user1 = (if 10 <=? u_FailedAttempts fx_nine_user + 1
                            then Some (column (env_now fx_env k + 30 * Minute)) else None) ∧
     w_journal w1 = w_journal fx_nine_world ++ [e] ∧ ent_Action e = ActionLoginFailed) ∧
  sessions_created fx_locked_trace = [] ∧ grants_created fx_locked_trace = [] ∧
  rs_Cookies (exec fx_env (handlePortalLoginPOST fx_sv fx_login_request) fx_locked_world).1 = [].
Proof.
  destruct (lockout_after_ten fx_env fx_reliable fx_sv fx_wrong_request fx_nine_world fx_nine_user
    (handlePortalLoginPOST fx_sv fx_wrong_request)) as [H1 H2];
    [reflexivity|apply effect_wf; exact fx_db_wf|vm_compute; reflexivity|vm_compute; reflexivity
    |left; reflexivity|vm_compute; reflexivity|].
  split; [exact H1|].
  apply (H2 fx_login_request (handlePortalLoginPOST fx_sv fx_login_request) fx_locked_trace _
    (1001 * Second + 30 * Minute)); [left|apply exec_path| |].
  - intros u2 Hin. assert (u2 ∈ accounts_read fx_locked_trace) as Hu by (apply list_elem_of_omap; eexists; split; [exact Hin|reflexivity]).
    assert (Forall (λ u, u_LockedUntil u = Some (1001 * Second + 30 * Minute)) (accounts_read fx_locked_trace)) as Hf
      by (vm_compute; repeat constructor).
    rewrite list.Forall_forall in Hf. exact (Hf _ Hu).
  - intros t Hin. assert (t ∈ clock_read fx_locked_trace) as Ht by (apply list_elem_of_omap; eexists; split; [exact Hin|reflexivity]).
    assert (forallb (λ t, t <? 1001 * Second + 30 * Minute) (clock_read fx_locked_trace) = true) as Hf
      by (vm_compute; reflexivity).
    rewrite forallb_forall in Hf. apply Z.ltb_lt, Hf. by apply list_elem_of_In.
Defined.

(** Two wrong passwords whose handlers interleave are counted once: each reads
    the count before the other has written it. *)
Definition fx_guess_race : pool Response :=
  run_pool fx_env (concat (replicate 12 [0%nat; 1%nat]))
    (fx_pool [handlePortalLoginPOST fx_sv fx_wrong_request; handlePortalLoginPOST fx_sv fx_wrong_request]).

Lemma concurrent_failures_counted_once :
  u_FailedAttempts <$> db_users (w_db (p_world fx_guess_race)) !! 7%N = Some 1 ∧
  length (w_journal (p_world fx_guess_race)) = 2%nat.
Proof. split; vm_compute; reflexivity. Qed.

(** Alice passed the password and holds the login cookie when the account is
    locked: the MFA step of the portal still opens her session, and the one of
    [/authorize] still issues a code. *)
Definition fx_locked_two_factor_world : World :=
  mkWorld (effect 0%N (QUpdateUserFailedAttempts 7%N 10 (Some (100000 * Second))) (w_db fx_totp_world))
    (w_step fx_totp_world) [] [] fx_outside.

Example locked_account_finishes :
  u_LockedUntil <$> db_users (w_db fx_locked_two_factor_world) !! 7%N = Some (Some (100000 * Second)) ∧
  s_UserID <$> sessions_created (trace fx_env (handlePortalLoginMFA fx_mfa_request) fx_locked_two_factor_world) = [7%N] ∧
  g_UserID <$> grants_created (trace fx_env fx_totp_post fx_locked_two_factor_world) = [7%N].
Proof. vm_compute. auto. Qed.
