(* ===== verification/Account.v ===== *)
(** * The account pages

    The self-service half of [web_portal.go], behind [portalAuth]: the home
    page, the profile and password forms, and the enrolment and removal of
    second factors with a portal session. *)
From S2P Require Import Prelude GoStrings GoNet Model Dialect Policy Tables SqliteUsers SqliteTokens SqliteAws Store Pkce Prog.
From S2P Require Import SingleUse Server Provision Awsfed Fixture Mfa Portal PortalFacts Authorize AuthorizeFacts WebAuthn AwsConsole.

Local Open Scope Z_scope.
Local Open Scope prog_scope.

Definition portalTOTPCookie : string := "portal_totp".

(** The fields of the embedded struct every portal page starts with; a page's own
    field of the same name, further on in the list, shadows it. *)
Definition newPortalBase (pc : portalCtx) (page : string) : list (string * JVal) :=
  [("ActivePage", JStr page); ("UserEmail", JStr (u_Email (px_User pc)));
   ("IsAdmin", JBool (u_IsAdmin (px_User pc))); ("User", JModel (VUser (Some (px_User pc))))].

Definition redirect_to (p : string) : Response := httpRedirect (LocPath p).

Section account.
  Context `{U : UnicodeTables} {dialect : Dialect} `{X : Externals}.

(** ** The pending enrolment *)

Definition setTOTPPendingCookie (uri secret : string) : prog (result Cookie) :=
  t <- now;;
  try enc <- do_op (OpSeal (totpPending_Marshal (mkTotpPending uri secret (t + 10 * Minute))))
    else e => Ret (Err e);;
  Ret (Ok (mkCookie portalTOTPCookie enc "/portal" 600 true SameSiteLaxMode)).

Definition getTOTPPendingCookie (r : Request) : prog (option totpPending) :=
  match rq_Cookie r portalTOTPCookie with
  | None => Ret None
  | Some v =>
      match Open v with
      | Err _ => Ret None
      | Ok raw =>
          match totpPending_Unmarshal raw with
          | Err _ => Ret None
          | Ok tp => t <- now;; Ret (if tp_Exp tp <? t then None else Some tp)
          end
      end
  end.

(** ** Home and profile *)

Definition tile_json (t : appTile) : JVal :=
  JObj [("Kind", JStr (tile_Kind t)); ("ID", JStr (tile_ID t)); ("DisplayName", JStr (tile_DisplayName t));
        ("Subtitle", JStr (tile_Subtitle t)); ("LaunchURL", JStr (tile_LaunchURL t));
        ("BrandColor", JStr (tile_BrandColor t)); ("IconURL", JStr (tile_IconURL t));
        ("StepUpMFA", JBool (tile_StepUpMFA t)); ("TTLSeconds", JInt (tile_TTLSeconds t));
        ("VisibleToAll", JBool (tile_VisibleToAll t)); ("NoRegion", JBool (tile_NoRegion t));
        ("Regions", JArr ((λ o, JObj [("Value", JStr (ro_Value o)); ("Label", JStr (ro_Label o));
                                      ("Selected", JBool (ro_Selected o))]) <$> tile_Regions t))].

Definition handlePortalHome (sv : Server) (pc : portalCtx) (r : Request) : prog Response :=
  tiles <- portalAppTiles sv pc;;
  Ret (match tiles with
       | inl msg => httpError msg StatusInternalServerError
       | inr tiles => render "portal_home.html"
           (newPortalBase pc "home" ++ [("Tiles", JArr (tile_json <$> tiles)); ("Error", JStr (rq_Query r "error"))])
       end).

Definition buildAccountPageData (pc : portalCtx) (r : Request) (success errMsg : string)
    : prog (list (string * JVal)) :=
  totpCred <- db (QGetTOTPByUserID (u_ID (px_User pc)));;
  waCreds <- db (QListWebAuthnCredentials (u_ID (px_User pc)));;
  tp <- getTOTPPendingCookie r;;
  Ret (newPortalBase pc "account" ++
    [("TOTPEnabled", JBool (match totpCred with Ok c => totp_Enabled c | Err _ => false end));
     ("WebAuthnCreds", JArr ((λ c, JModel (VCredential c)) <$> or_nil waCreds));
     ("Success", JStr success); ("Error", JStr errMsg)] ++
    match tp with
    | None => [("TOTPEnrolling", JBool false); ("TOTPQRCode", JStr ""); ("TOTPSecret", JStr "")]
    | Some tp =>
        [("TOTPEnrolling", JBool true);
         ("TOTPQRCode", JStr (match totpQRCode (tp_OTPURI tp) with Ok qr => qr | Err _ => "" end));
         ("TOTPSecret", JStr (tp_Secret tp))]
    end).

(** The page with a message. *)
Definition account_page (pc : portalCtx) (r : Request) (success errMsg : string) : prog Response :=
  d <- buildAccountPageData pc r success errMsg;;
  Ret (render "portal_account.html" d).

Definition handlePortalAccount (pc : portalCtx) (r : Request) : prog Response :=
  account_page pc r (rq_Query r "success") (rq_Query r "error").

Definition handlePortalAccountProfile (pc : portalCtx) (r : Request) : prog Response :=
  let name := TrimSpace (rq_FormValue r "name") in
  when bool_decide (name = "") return account_page pc r "" "Name cannot be empty.";;
  try _u <- db (QUpdateUser (u_ID (px_User pc)) name (u_Active (px_User pc))) else _e =>
    Ret (redirect_to "/portal/account?error=update+failed");;
  try _u <- logAudit r ActionUserUpdated (Some (u_ID (px_User pc))) None [("field", MStr "name")]
    else e => Ret (auditFail (err_Error e));;
  Ret (redirect_to "/portal/account?success=Profile+updated.").

Definition handlePortalAccountPassword (sv : Server) (pc : portalCtx) (r : Request) : prog Response :=
  let showErr msg := account_page pc r "" msg in
  when negb (CheckPassword (u_PasswordHash (px_User pc)) (rq_FormValue r "current_password")) return
    showErr "Current password is incorrect.";;
  v <- policy_First sv (ask None None (rq_FormValue r "new_password") false);;
  match v with
  | Some v => showErr (pv_Message v)
  | None =>
      try hash <- HashPassword (rq_FormValue r "new_password") else _e =>
        showErr "An error occurred. Please try again.";;
      try _u <- db (QUpdateUserPassword (u_ID (px_User pc)) hash) else _e =>
        showErr "An error occurred. Please try again.";;
      try _u <- logAudit r ActionUserUpdated (Some (u_ID (px_User pc))) None [("field", MStr "password")]
        else e => Ret (auditFail (err_Error e));;
      Ret (redirect_to "/portal/account?success=Password+updated.")
  end.

(** ** Second factors *)

Definition handlePortalMFATOTPEnroll (pc : portalCtx) (r : Request) : prog Response :=
  let failed := redirect_to "/portal/account?error=enrollment+failed" in
  try resp <- EnrollTOTP (px_User pc) else _e => Ret failed;;
  try ck <- setTOTPPendingCookie (ter_OTPURI resp) (ter_Secret resp) else _e => Ret failed;;
  Ret (with_cookies [ck] (redirect_to "/portal/account")).

Definition handlePortalMFATOTPConfirm (pc : portalCtx) (r : Request) : prog Response :=
  try _u <- ConfirmTOTP (u_ID (px_User pc)) (rq_FormValue r "code") else _e =>
    Ret (redirect_to "/portal/account?error=Invalid+code.+Please+try+again.");;
  db (QUpdateUserMFAEnabled (u_ID (px_User pc)) true);;;
  try _u <- logAudit r ActionMFATOTPEnrolled (Some (u_ID (px_User pc))) None [] else e => Ret (auditFail (err_Error e));;
  Ret (with_cookies [clearCookie portalTOTPCookie]
         (redirect_to "/portal/account?success=TOTP+enrolled+successfully.")).

Definition handlePortalMFATOTPDelete (pc : portalCtx) (r : Request) : prog Response :=
  try _u <- logAudit r ActionMFATOTPDeleted (Some (u_ID (px_User pc))) None [] else e => Ret (auditFail (err_Error e));;
  deleted <- db (QDeleteTOTP (u_ID (px_User pc)));;
  match deleted with
  | Ok _ | Err ErrNotFound =>
      db (QUpdateUserMFAEnabled (u_ID (px_User pc)) false);;;
      Ret (redirect_to "/portal/account?success=Authenticator+app+removed.")
  | Err _ => Ret (redirect_to "/portal/account?error=delete+failed")
  end.

Definition handlePortalMFAWebAuthnBegin (pc : portalCtx) (r : Request) : prog Response :=
  try begun <- BeginRegistration (px_User pc) else _e =>
    Ret (writeError StatusInternalServerError "server_error" "registration failed");;
  Ret (writeJSON StatusOK (challenge_json begun)).

Definition handlePortalMFAWebAuthnFinish (pc : portalCtx) (r : Request) : prog Response :=
  match uuid_Parse (rq_Query r "session_id") with
  | Err _ => Ret (writeError StatusBadRequest "invalid_request" "invalid session_id")
  | Ok sessionID =>
      try cred <- FinishRegistration (px_User pc) sessionID r (rq_Query r "device_name") else e =>
        Ret (writeError StatusBadRequest "invalid_request" (err_Error e));;
      db (QUpdateUserMFAEnabled (u_ID (px_User pc)) true);;;
      try _u <- logAudit r ActionMFAWebAuthnEnrolled (Some (u_ID (px_User pc))) None
                  [("credential_id", MStr (uuid_String (wa_ID cred)))] else e => Ret (auditFail (err_Error e));;
      Ret (writeJSON StatusOK [("id", JStr (uuid_String (wa_ID cred))); ("device_name", JStr (wa_DeviceName cred))])
  end.

Definition handlePortalMFAWebAuthnDelete (pc : portalCtx) (r : Request) : prog Response :=
  match uuid_Parse (rq_PathID r) with
  | Err _ => Ret (redirect_to "/portal/account?error=invalid+credential+id")
  | Ok credID =>
      owned <- db (QListWebAuthnCredentials (u_ID (px_User pc)));;
      when negb (owns (or_nil owned) credID) return
        Ret (redirect_to "/portal/account?error=credential+not+found");;
      try _u <- logAudit r ActionMFAWebAuthnDeleted (Some (u_ID (px_User pc))) None
                  [("credential_id", MStr (uuid_String credID))] else e => Ret (auditFail (err_Error e));;
      deleted <- db (QDeleteWebAuthnCredential credID (u_ID (px_User pc)));;
      match deleted with
      | Err ErrNotFound => Ret (redirect_to "/portal/account?error=credential+not+found")
      | Err _ => Ret (redirect_to "/portal/account?error=delete+failed")
      | Ok _ =>
          disable_if_last (u_ID (px_User pc));;;
          Ret (redirect_to "/portal/account?success=Security+key+removed.")
      end
  end.

End account.
