(* ===== verification/AdminUsers.v ===== *)
(** * Administration of users

    The user pages of [web_portal.go], behind [portalAdminAuth]: the catalogue,
    creation and edit with group membership, and the account resets (temporary
    password, second factors, AWS sessions), with removal.  The registry of
    provisioning targets is always present, as [cmd/authd] builds it. *)
From S2P Require Import Prelude GoStrings GoNet Model Dialect Policy Tables SqliteUsers SqliteTokens SqliteAws Store Pkce Prog.
From S2P Require Import SingleUse Server Provision Awsfed Fixture Mfa Portal PortalFacts Authorize AuthorizeFacts WebAuthn AwsConsole Account.

Local Open Scope Z_scope.
Local Open Scope prog_scope.

(** What an edit form changes in a user. *)
Definition user_with_form (name : string) (active isAdmin : bool) (u : User) : User :=
  {| u_ID := u_ID u; u_Email := u_Email u; u_PasswordHash := u_PasswordHash u; u_Name := name;
     u_Active := active; u_SCIMExternalID := u_SCIMExternalID u; u_MFAEnabled := u_MFAEnabled u;
     u_IsAdmin := isAdmin; u_PasswordChangedAt := u_PasswordChangedAt u; u_FailedAttempts := u_FailedAttempts u;
     u_LockedUntil := u_LockedUntil u; u_MustChangePassword := u_MustChangePassword u;
     u_CreatedAt := u_CreatedAt u; u_UpdatedAt := u_UpdatedAt u |}.

(** The form of a new user: what was typed, as it is. *)
Definition form_user (name email : string) (active isAdmin : bool) : User :=
  {| u_ID := uuid_nil; u_Email := email; u_PasswordHash := ""; u_Name := name; u_Active := active;
     u_SCIMExternalID := ""; u_MFAEnabled := false; u_IsAdmin := isAdmin; u_PasswordChangedAt := 0;
     u_FailedAttempts := 0; u_LockedUntil := None; u_MustChangePassword := false; u_CreatedAt := 0;
     u_UpdatedAt := 0 |}.

(** Every group, and whether it is among the selected ones. *)
Definition group_checks (groups : list SCIMGroup) (selected : list uuid) : JVal :=
  JArr ((λ g, JObj [("Group", JModel (VGroup g)); ("IsMember", JBool (bool_decide (grp_ID g ∈ selected)))])
          <$> groups).

Definition checked (r : Request) (field : string) : bool := bool_decide (rq_FormValue r field = "1").

(** The users with the given identifiers, in that order; unknown ones dropped. *)
Definition pickUsers (users : list User) (ids : list uuid) : list User :=
  omap (λ id, users_by_id users !! id) ids.

(** The federation targets of a registry snapshot. *)
Definition federations (ts : list Target) : list Federation :=
  omap (λ t, match t with TAwsFed n => Some (mkFederation n) | TScim _ _ _ _ => None end) ts.

Section admin_users.
  Context `{U : UnicodeTables} {dialect : Dialect} `{X : Externals}.

(** ** Forms *)

Definition handlePortalAdminUsers (pc : portalCtx) (r : Request) : prog Response :=
  try users <- db QListUsers else _e => Ret (httpError "error listing users" StatusInternalServerError);;
  Ret (render "portal_admin_users.html" (newPortalBase pc "admin-users" ++
         [("Users", JArr ((λ u, JModel (VUser (Some u))) <$> users)); ("Success", JStr (rq_Query r "success"))])).

Definition renderUserForm (pc : portalCtx) (r : Request) (u : option User) (isNew : bool)
    (errMsg successMsg : string) (selected : list uuid) : prog Response :=
  allGroups <- db QListGroups;;
  Ret (render "portal_admin_user_edit.html" (newPortalBase pc "admin-users" ++
         [("User", JModel (VUser u)); ("IsNew", JBool isNew); ("Error", JStr errMsg); ("Success", JStr successMsg);
          ("TempPW", JStr (rq_Query r "temp_pw")); ("Groups", group_checks (or_nil allGroups) selected)])).

Definition currentMembershipFor (userID : uuid) : prog (list uuid) :=
  groups <- db QListGroups;;
  Ret (grp_ID <$> filter (λ g, userID ∈ grp_Members g) (or_nil groups)).

(** ** Group membership *)

(** One group of the loop: nothing to do, or add/remove and tell the targets. *)
Definition sync_group (allUsers : list User) (userID : uuid) (selected : list uuid) (g : SCIMGroup) : prog unit :=
  let wasMember := bool_decide (userID ∈ grp_Members g) in
  let isMember := bool_decide (grp_ID g ∈ selected) in
  when Bool.eqb wasMember isMember return Ret tt;;
  try _u <- db (if isMember then QAddGroupMember (grp_ID g) userID else QRemoveGroupMember (grp_ID g) userID)
    else _e => Ret tt;;
  try fresh <- db (QGetGroupByID (grp_ID g)) else _e => Ret tt;;
  provisionGroup OpUpdate fresh (pickUsers allUsers (grp_Members fresh)).

Definition syncUserGroups (userID : uuid) (selected : list uuid) : prog unit :=
  try allGroups <- db QListGroups else _e => Ret tt;;
  allUsers <- db QListUsers;;
  for_each allGroups (sync_group (or_nil allUsers) userID selected).

Definition parseGroupIDs (raw : list string) : list uuid :=
  omap (λ s, match uuid_Parse (TrimSpace s) with Ok id => Some id | Err _ => None end) raw.

(** ** Creation and edit *)

(** [undoOnAuditFailure]: one delete, best effort. *)
Definition undo (q : Query unit) : prog unit := db q;;; Ret tt.

Definition handlePortalAdminUserNew (sv : Server) (pc : portalCtx) (r : Request) : prog Response :=
  when bool_decide (rq_Method r = "GET") return
    renderUserForm pc r (Some (form_user "" "" true false)) true "" "" [];;
  let formUser := form_user (rq_FormValue r "name") (rq_FormValue r "email") (checked r "active")
                    (checked r "is_admin") in
  let groupIDs := parseGroupIDs (rq_Form r "group_ids") in
  let showErr msg := renderUserForm pc r (Some formUser) true msg "" groupIDs in
  let email := login_email r in
  let name := TrimSpace (rq_FormValue r "name") in
  let password := rq_FormValue r "password" in
  when bool_decide (email = "") || bool_decide (name = "") || bool_decide (password = "") return
    showErr "Email, name, and password are required.";;
  v <- policy_First sv (ask None None password false);;
  match v with
  | Some v => showErr (pv_Message v)
  | None =>
  try hash <- HashPassword password else _e => showErr "An error occurred.";;
  created <- db (QCreateUser email hash name);;
  match created with
  | Err ErrConflict => showErr "A user with that email already exists."
  | Err _ => showErr "An error occurred."
  | Ok user =>
      (if u_Active formUser then Ret tt else db (QSetUserActive (u_ID user) false);;; Ret tt);;;
      (if u_IsAdmin formUser then db (QSetUserAdmin (u_ID user) true);;; Ret tt else Ret tt);;;
      syncUserGroups (u_ID user) groupIDs;;;
      try _u <- logAudit r ActionUserCreated (Some (u_ID user)) None
            [("email", MStr email); ("by", MStr (u_Email (px_User pc))); ("groups", MInt (Z.of_nat (length groupIDs)))]
        else e => (undo (QDeleteUser (u_ID user));;; Ret (auditFail (err_Error e)));;
      reloaded <- db (QGetUserByID (u_ID user));;
      provisionUser OpCreate (match reloaded with Ok u => Some u | Err _ => None end) [];;;
      Ret (redirect_to "/portal/admin/users?success=User+created.")
  end end.

Definition handlePortalAdminUserEdit (pc : portalCtx) (r : Request) : prog Response :=
  match uuid_Parse (rq_PathID r) with
  | Err _ => Ret (httpError "invalid id" StatusBadRequest)
  | Ok id =>
  found <- db (QGetUserByID id);;
  match found with
  | Err ErrNotFound => Ret (httpError "user not found" StatusNotFound)
  | _ =>
  (* another error leaves [user] nil *)
  let user := match found with Ok u => Some u | Err _ => None end in
  when bool_decide (rq_Method r = "GET") return
    (current <- currentMembershipFor id;;
     renderUserForm pc r user false (rq_Query r "error") (rq_Query r "success") current);;
  let name := TrimSpace (rq_FormValue r "name") in
  let active := checked r "active" in
  let isAdmin := checked r "is_admin" in
  let groupIDs := parseGroupIDs (rq_Form r "group_ids") in
  let showErr msg :=
    match user with
    | None => Ret panicked
    | Some u => renderUserForm pc r (Some (user_with_form name active isAdmin u)) false msg "" groupIDs
    end in
  when bool_decide (name = "") return showErr "Name cannot be empty.";;
  try _u <- logAudit r ActionUserUpdated (Some id) None [("by", MStr (u_Email (px_User pc)))]
    else e => Ret (auditFail (err_Error e));;
  try _u <- db (QUpdateUser id name active) else _e => showErr "Update failed.";;
  try _u <- db (QSetUserAdmin id isAdmin) else _e => showErr "Update failed.";;
  syncUserGroups id groupIDs;;;
  updated <- db (QGetUserByID id);;
  match updated with
  | Ok u => provisionUser (if active then OpUpdate else OpDeactivate) (Some u) []
  | Err _ => Ret tt
  end;;;
  Ret (redirect_to "/portal/admin/users?success=User+updated.")
  end end.

(** ** Resets *)

(** The edit page of a user, with a query string. *)
Definition edit_page (id : uuid) (qs : string) : Response :=
  redirect_to ("/portal/admin/users/" +:+ uuid_String id +:+ "/edit?" +:+ qs).

Definition edit_error (id : uuid) (msg : string) : Response := edit_page id ("error=" +:+ QueryEscape msg).

Definition handlePortalAdminUserResetPassword (sv : Server) (pc : portalCtx) (r : Request) : prog Response :=
  match uuid_Parse (rq_PathID r) with
  | Err _ => Ret (httpError "invalid id" StatusBadRequest)
  | Ok id =>
  try tempPw <- GenerateRawToken else _e =>
    Ret (edit_error id "An error occurred generating the temp password.");;
  try hash <- HashPassword tempPw else _e => Ret (edit_error id "An error occurred.");;
  try _u <- logAudit r ActionUserUpdated (Some id) None
        [("field", MStr "password"); ("by", MStr (u_Email (px_User pc))); ("via", MStr "admin_reset")]
    else e => Ret (auditFail (err_Error e));;
  try _u <- db (QUpdateUserPassword id hash) else _e => Ret (edit_error id "An error occurred.");;
  try _u <- db (QSetUserMustChangePassword id true) else _e => Ret (edit_error id "An error occurred.");;
  broadcastLogout sv id "";;;
  db (QDeleteSessionsByUserID id);;;
  Ret (edit_page id ("temp_pw=" +:+ QueryEscape tempPw))
  end.

(** Delete each listed security key; failures are logged. *)
Definition delete_keys (userID : uuid) (creds : list WebAuthnCredential) : prog unit :=
  for_each creds (λ c, db (QDeleteWebAuthnCredential (wa_ID c) userID)).

Definition handlePortalAdminUserCompromisedReset (sv : Server) (pc : portalCtx) (r : Request) : prog Response :=
  match uuid_Parse (rq_PathID r) with
  | Err _ => Ret (httpError "invalid id" StatusBadRequest)
  | Ok id =>
  try user <- db (QGetUserByID id) else _e => Ret (edit_error id "user not found");;
  totp <- db (QGetTOTPByUserID id);;
  listed <- db (QListWebAuthnCredentials id);;
  let waCreds := or_nil listed in
  targets <- Snapshot;;
  try _u <- logAudit r ActionUserCompromisedReset (Some id) None
        [("by", MStr (u_Email (px_User pc)));
         ("totp_cleared", MBool (match totp with Ok _ => true | Err _ => false end));
         ("webauthn_cleared", MInt (Z.of_nat (length waCreds)));
         ("aws_targets_revoked", MInt (Z.of_nat (length (federations targets))))]
    else e => Ret (auditFail (err_Error e));;
  try tempPw <- GenerateRawToken else _e =>
    Ret (edit_error id "An error occurred generating the temp password.");;
  try hash <- HashPassword tempPw else _e => Ret (edit_error id "An error occurred.");;
  try _u <- db (QUpdateUserPassword id hash) else _e => Ret (edit_error id "An error occurred.");;
  try _u <- db (QSetUserMustChangePassword id true) else _e => Ret (edit_error id "An error occurred.");;
  db (QDeleteTOTP id);;;
  delete_keys id waCreds;;;
  db (QUpdateUserMFAEnabled id false);;;
  broadcastLogout sv id "";;;
  db (QDeleteSessionsByUserID id);;;
  targets <- Snapshot;;
  for_each (federations targets) (λ fed, RevokeUser fed (uuid_String (u_ID user)));;;
  Ret (edit_page id ("temp_pw=" +:+ QueryEscape tempPw))
  end.

(** The loop stops at the first entry the journal refuses. *)
Fixpoint clear_keys (r : Request) (by_ : string) (userID : uuid) (creds : list WebAuthnCredential) : prog (result unit) :=
  match creds with
  | [] => Ret (Ok tt)
  | c :: creds =>
      try _u <- logAudit r ActionMFAWebAuthnDeleted (Some userID) None
            [("credential_id", MStr (uuid_String (wa_ID c))); ("by", MStr by_)] else e => Ret (Err e);;
      db (QDeleteWebAuthnCredential (wa_ID c) userID);;;
      clear_keys r by_ userID creds
  end.

Definition handlePortalAdminUserClearMFA (pc : portalCtx) (r : Request) : prog Response :=
  match uuid_Parse (rq_PathID r) with
  | Err _ => Ret (httpError "invalid id" StatusBadRequest)
  | Ok id =>
  let by_ := u_Email (px_User pc) in
  totp <- db (QGetTOTPByUserID id);;
  try _u <- match totp with
            | Err _ => Ret (Ok tt)
            | Ok _ =>
                try _u <- logAudit r ActionMFATOTPDeleted (Some id) None [("by", MStr by_)] else e => Ret (Err e);;
                db (QDeleteTOTP id);;;
                Ret (Ok tt)
            end else e => Ret (auditFail (err_Error e));;
  creds <- db (QListWebAuthnCredentials id);;
  try _u <- clear_keys r by_ id (or_nil creds) else e => Ret (auditFail (err_Error e));;
  db (QUpdateUserMFAEnabled id false);;;
  Ret (edit_page id ("success=" +:+ QueryEscape "MFA credentials cleared."))
  end.

(** Targets that accepted the revocation, and whether one failed. *)
Fixpoint revoke_targets (sub : string) (feds : list Federation) (revoked : Z) (failed : bool) : prog (Z * bool) :=
  match feds with
  | [] => Ret (revoked, failed)
  | fed :: feds =>
      x <- RevokeUser fed sub;;
      match x with
      | Err _ => revoke_targets sub feds revoked true
      | Ok _ => revoke_targets sub feds (revoked + 1) failed
      end
  end.

Definition no_federation_message : string :=
  "No AWS federation integration is enabled; nothing to revoke. Enable one under /portal/admin/integrations.".

Definition handlePortalAdminUserRevokeAWS (pc : portalCtx) (r : Request) : prog Response :=
  match uuid_Parse (rq_PathID r) with
  | Err _ => Ret (httpError "invalid id" StatusBadRequest)
  | Ok id =>
  try user <- db (QGetUserByID id) else _e => Ret (edit_error id "user not found");;
  targets <- Snapshot;;
  res <- revoke_targets (uuid_String (u_ID user)) (federations targets) 0 false;;
  when (res.1 =? 0) && negb res.2 return Ret (edit_error id no_federation_message);;
  try _u <- logAudit r ActionAWSFederationRevokedManual (Some (u_ID user)) None
        [("by", MStr (u_Email (px_User pc))); ("targets_revoked", MInt res.1); ("any_error", MBool res.2)]
    else e => Ret (auditFail (err_Error e));;
  Ret (if res.2
       then edit_error id ("Revoked on " +:+ Itoa res.1 +:+ " target(s); some failed — see logs.")
       else edit_page id ("success=" +:+ QueryEscape ("AWS sessions revoked across " +:+ Itoa res.1 +:+
              " target(s). Existing STS credentials will start failing within ~30 seconds.")))
  end.

(** ** Removal *)

Definition handlePortalAdminUserDelete (sv : Server) (pc : portalCtx) (r : Request) : prog Response :=
  match uuid_Parse (rq_PathID r) with
  | Err _ => Ret (httpError "invalid id" StatusBadRequest)
  | Ok id =>
  user <- db (QGetUserByID id);;
  try _u <- logAudit r ActionUserDeleted (Some id) None [("by", MStr (u_Email (px_User pc)))]
    else e => Ret (auditFail (err_Error e));;
  broadcastLogout sv id "";;;
  db (QDeleteSessionsByUserID id);;;
  try _u <- db (QDeleteUser id) else _e => Ret (redirect_to "/portal/admin/users?error=delete+failed");;
  match user with
  | Ok user => provisionUser OpDelete (Some user) []
  | Err _ => Ret tt
  end;;;
  Ret (redirect_to "/portal/admin/users?success=User+deleted.")
  end.

End admin_users.
