(* ===== verification/AdminUserFacts.v ===== *)
(** * What the compromised-account reset achieves

    When nothing fails, the bundled reset leaves the account with the temporary
    password alone: rotation forced, no second factor of either kind, no
    session; and every other account as it was. *)
From S2P Require Import Prelude GoStrings GoNet Model Dialect Policy Tables SqliteUsers SqliteTokens SqliteAws Store Pkce Prog.
From S2P Require Import SingleUse Server Provision Awsfed Fixture Mfa Portal PortalFacts Authorize WebAuthn AwsConsole Account AdminUsers.

Local Open Scope Z_scope.
Local Open Scope prog_scope.

(** The tables an account lives in. *)
Definition accounts (d : DB)
    : gmap uuid User * gmap uuid TOTPCredential * gmap uuid WebAuthnCredential * gmap uuid session_row :=
  (db_users d, db_totp_credentials d, db_webauthn_credentials d, db_sessions d).

Lemma delete_where_Some {K A} `{Countable K} (b : A → bool) (m : gmap K A) i x :
  delete_where b m !! i = Some x ↔ m !! i = Some x ∧ b x = false.
Proof. unfold delete_where. by rewrite map_lookup_filter_Some. Qed.

Section reset.
  Context `{U : UnicodeTables} {dialect : Dialect} `{X : Externals} (env : Env) (Hrel : reliable env).

Notation kept := (keeps accounts).

Lemma downstream_kept e : downstream e → kept e.
Proof.
  destruct e as [Y op x]. destruct op; try done. destruct q; try done; intros _ u t d; cbn [run_query reading snd]; try done.
  all: unfold SetExternalID, AddAWSRevokedUser; by destruct (has _ _).
Qed.

Lemma logAudit_kept r a u c m : calls kept (logAudit r a u c m).
Proof. unfold logAudit. solve_calls. Qed.

Lemma push_all_kept ids sub sid : calls kept (push_all ids sub sid).
Proof. induction ids; cbn [push_all]; solve_calls. Qed.

#[local] Hint Resolve push_all_kept : calls.

Lemma broadcastLogout_kept sv uid sid : calls kept (broadcastLogout sv uid sid).
Proof. unfold broadcastLogout. solve_calls. Qed.

Lemma revoke_all_kept feds sub : calls kept (for_each feds (λ fed, RevokeUser fed sub)).
Proof. apply (calls_impl downstream); [apply downstream_kept|]. apply calls_for_each. eauto with calls. Qed.

(** The loop over the user's keys. *)
Lemma wp_delete_keys uid creds w :
  wp env (delete_keys uid creds) (λ _ w',
    db_users (w_db w') = db_users (w_db w) ∧ db_totp_credentials (w_db w') = db_totp_credentials (w_db w) ∧
    db_sessions (w_db w') = db_sessions (w_db w) ∧
    ∀ i c, db_webauthn_credentials (w_db w') !! i = Some c ↔
      db_webauthn_credentials (w_db w) !! i = Some c ∧
      ∀ c', c' ∈ creds → ¬ (wa_ID c = wa_ID c' ∧ wa_UserID c = uid)) w.
Proof.
  unfold delete_keys. revert w. induction creds as [|c creds IH]; intros w; cbn [for_each].
  { apply wp_ret. split_and!; [done..|]. set_solver. }
  apply wp_db; [done|]. intros w1 u t Hw1. cbn [run_query DeleteWebAuthnCredential snd] in Hw1.
  eapply wp_mono; [apply IH|]. intros _ w' (-> & -> & -> & Hk). rewrite Hw1.
  split_and!; [done..|]. intros i c0. rewrite Hk, Hw1. cbn [db_webauthn_credentials with_webauthn_credentials].
  rewrite delete_where_Some, bool_decide_eq_false. setoid_rewrite elem_of_cons. naive_solver.
Qed.

Lemma wp_logAudit {B} r a u c m (f : result unit → prog B) Q w :
  (∀ w', w_db w' = w_db w → wp env (f (Ok tt)) Q w') → wp env (bind (logAudit r a u c m) f) Q w.
Proof.
  intros Hw. apply wp_bind. unfold wp at 1. destruct (exec_logAudit env r a u c m w Hrel) as (e & n & -> & _). by apply Hw.
Qed.

(** The state the reset leaves, the temporary password being the given one. *)
Definition locked_down (id : uuid) (tempPw : string) (d d' : DB) : Prop :=
  (∃ row n hash, db_users d' !! id = Some row ∧ env_pwhash env n tempPw = Ok hash ∧ u_PasswordHash row = hash ∧
     u_MustChangePassword row = true ∧ u_MFAEnabled row = false) ∧
  (∀ id', id' ≠ id → db_users d' !! id' = db_users d !! id') ∧
  (∀ i c, db_totp_credentials d' !! i = Some c ↔ db_totp_credentials d !! i = Some c ∧ totp_UserID c ≠ id) ∧
  (∀ i c, db_webauthn_credentials d' !! i = Some c ↔ db_webauthn_credentials d !! i = Some c ∧ wa_UserID c ≠ id) ∧
  (∀ i s, db_sessions d' !! i = Some s ↔ db_sessions d !! i = Some s ∧ sr_user_id s ≠ Some id).

(** The state after the writes, in order. *)
Lemma locked_down_intro id user tempPw hash n t1 t2 t3 d K :
  db_users d !! id = Some user → env_pwhash env n tempPw = Ok hash →
  (∀ i c, K !! i = Some c ↔ db_webauthn_credentials d !! i = Some c ∧
     ∀ c', c' ∈ rows_by wa_CreatedAt (λ r, bool_decide (wa_UserID r = id)) (db_webauthn_credentials d) →
       ¬ (wa_ID c = wa_ID c' ∧ wa_UserID c = id)) →
  ∀ d', accounts d' =
    (alter (user_set_mfa false t3) id (alter (user_set_must_change true t2) id
       (alter (user_set_password hash t1) id (db_users d))),
     drop_fk totp_UserID id (db_totp_credentials d), K,
     delete_where (λ r, bool_decide (sr_user_id r = Some id)) (db_sessions d)) →
  locked_down id tempPw d d'.
Proof.
  intros Hu Hn HK d' [= Hus Ht Hk Hs]. unfold locked_down. rewrite Hus, Ht, Hk, Hs. split_and!.
  - eexists _, n, hash. split; [by rewrite !lookup_alter_eq, Hu|done].
  - intros id' Hne. by rewrite !lookup_alter_ne.
  - intros i c. unfold drop_fk. rewrite delete_where_Some, bool_decide_eq_false. naive_solver.
  - intros i c. rewrite HK. split; intros [Hc Hn']; (split; [done|]).
    + intros Heq. apply (Hn' c); [|done]. apply elem_rows_by. split; [by apply bool_decide_eq_true|by exists i].
    + intros c' _ [_ Heq]. done.
  - intros i s. by rewrite delete_where_Some, bool_decide_eq_false.
Qed.

(** C30: When no call fails, the compromised-account reset of an existing user
    answers with a temporary password, and leaves the account with that password
    alone: rotation is forced, MFA is off, no TOTP credential, security key or
    session of the user is left; and no other user's account, factors or
    sessions are touched. *)
Theorem compromised_reset_isolates sv pc r w id user :
  (∀ n, ∃ tok, env_token env n = Ok tok) → (∀ n pw, ∃ h, env_pwhash env n pw = Ok h) →
  uuid_Parse (rq_PathID r) = Ok id → db_users (w_db w) !! id = Some user →
  let '(resp, w') := exec env (handlePortalAdminUserCompromisedReset sv pc r) w in
  ∃ tempPw, resp = edit_page id ("temp_pw=" +:+ QueryEscape tempPw) ∧
    locked_down id tempPw (w_db w) (w_db w').
Proof.
  intros Htok Hpw Hid Hu. rewrite (surjective_pairing (exec _ _ _)).
  change (wp env (handlePortalAdminUserCompromisedReset sv pc r) (λ resp w', ∃ tempPw,
    resp = edit_page id ("temp_pw=" +:+ QueryEscape tempPw) ∧ locked_down id tempPw (w_db w) (w_db w')) w).
  unfold handlePortalAdminUserCompromisedReset. rewrite Hid.
  apply wp_db; [done|]. intros w1 u1 t1 Hw1. cbn [run_query reading fst snd] in *. unfold GetUserByID. rewrite Hu. cbn [one_row].
  apply wp_db; [done|]. intros w2 u2 t2 Hw2. cbn [run_query reading fst snd] in *.
  apply wp_db; [done|]. intros w3 u3 t3 Hw3. cbn [run_query reading fst snd] in *.
  unfold ListWebAuthnCredentials. cbn [or_nil]. rewrite Hw2, Hw1. rewrite Hw2, Hw1 in Hw3. clear Hw1 Hw2.
  apply wp_outside; [done|]. intros ts w4 _ Hw4. rewrite Hw3 in Hw4.
  apply wp_logAudit. intros w5 Hw5. rewrite Hw4 in Hw5. clear Hw3 Hw4.
  apply wp_outside; [done|]. intros tok w6 Ht Hw6. destruct (Htok (w_step w5)) as [tempPw Hp]. cbn in Ht.
  rewrite Hp in Ht. subst tok. rewrite Hw5 in Hw6.
  apply wp_outside; [done|]. intros h w7 Hh Hw7. destruct (Hpw (w_step w6) tempPw) as [hash Hn]. cbn in Hh.
  rewrite Hn in Hh. subst h. rewrite Hw6 in Hw7. clear Hw5 Hw6.
  apply wp_db; [done|]. intros w8 ? n8 Hw8. cbn [run_query fst snd UpdateUserPassword update_user] in *. rewrite Hw7 in Hw8.
  apply wp_db; [done|]. intros w9 ? n9 Hw9. cbn [run_query fst snd SetUserMustChangePassword update_user] in *. rewrite Hw8 in Hw9.
  apply wp_db; [done|]. intros w10 ? ? Hw10. cbn [run_query fst snd DeleteTOTP] in *. rewrite Hw9 in Hw10.
  apply wp_bind. eapply wp_mono; [apply wp_delete_keys|]. intros [] w11 (HU & HT & HS & HK). rewrite Hw10 in HU, HT, HS, HK.
  apply wp_db; [done|]. intros w12 ? n12 Hw12. cbn [run_query fst snd UpdateUserMFAEnabled update_user] in *.
  apply (wp_keeps env accounts); [apply broadcastLogout_kept|]. intros _ w13 _ Hw13.
  apply wp_db; [done|]. intros w14 ? ? Hw14. cbn [run_query fst snd DeleteSessionsByUserID] in *.
  apply wp_outside; [done|]. intros ts' w15 _ Hw15.
  apply (wp_keeps env accounts); [apply revoke_all_kept|]. intros [] w16 _ Hw16.
  apply wp_ret. exists tempPw. split; [done|]. eapply (locked_down_intro id user); [exact Hu|exact Hn|exact HK|].
  rewrite Hw16, Hw15, Hw14. rewrite Hw12 in Hw13. injection Hw13 as H1 H2 H3 H4. unfold accounts, delete_sessions.
  cbn. cbn in H1, H2, H3, H4. rewrite H1, H2, H3, H4, HU, HT, HS. reflexivity.
Qed.

End reset.

(** ** Witness: an account with a security key. *)

Definition fx_reset_world : World :=
  mkWorld (effect 0%N (QCreateWebAuthnCredential
    {| wa_ID := 50%N; wa_UserID := 30%N; wa_CredentialID := "key"; wa_PublicKey := "pk"; wa_AAGUID := "aaguid";
       wa_SignCount := 0; wa_BackupEligible := None; wa_BackupState := false; wa_DeviceName := "yubi";
       wa_CreatedAt := 0; wa_LastUsedAt := 0 |})
    (effect 30%N (QCreateUser "mallory@example.com" "pw:stolen" "Mallory") fx_db)) 0 [] [] fx_outside.

Definition fx_reset : prog Response :=
  handlePortalAdminUserCompromisedReset fx_sv (mkPortalCtx fx_session fx_user) (with_path_id "30" (form [])).

Lemma compromised_reset_isolates_witness :
  size (db_webauthn_credentials (w_db fx_reset_world)) = 1%nat ∧
  size (db_webauthn_credentials (w_db (exec fx_env fx_reset fx_reset_world).2)) = 0%nat ∧
  let '(resp, w') := exec fx_env fx_reset fx_reset_world in
  ∃ tempPw, resp = edit_page 30%N ("temp_pw=" +:+ QueryEscape tempPw) ∧
    locked_down fx_env 30%N tempPw (w_db fx_reset_world) (w_db w').
Proof.
  split; [vm_compute; reflexivity|]. split; [vm_compute; reflexivity|].
  eapply (compromised_reset_isolates fx_env fx_reliable fx_sv (mkPortalCtx fx_session fx_user)
    (with_path_id "30" (form [])) fx_reset_world 30%N).
  - intros n. eexists. reflexivity.
  - intros n pw. eexists. reflexivity.
  - reflexivity.
  - vm_compute. reflexivity.
Defined.
