(* ===== verification/AdminCatalog.v ===== *)
(** * Administration of clients and groups

    The client pages of [web_portal.go] and the group pages of
    [web_portal_groups.go], behind [portalAdminAuth]. *)
From S2P Require Import Prelude GoStrings GoNet Model Dialect Policy Tables SqliteUsers SqliteTokens SqliteAws Store Pkce Prog.
From S2P Require Import SingleUse Server Provision Awsfed Fixture Mfa Portal PortalFacts Authorize AuthorizeFacts WebAuthn AwsConsole Account AdminUsers.

Local Open Scope Z_scope.
Local Open Scope prog_scope.

(** What the new-client and edit-client forms carry. *)
Record clientForm : Type := mkClientForm {
  cf_Name : string;
  cf_Public : bool;
  cf_RedirectURIs : list string;
  cf_Scopes : list string;
  cf_BackchannelLogoutURI : option string;
  cf_ShowInPortal : bool;
  cf_LaunchURL : string;
  cf_BrandColor : string;
  cf_IconURL : string;
  cf_VisibleToAll : bool;
  cf_AllowDeviceGrant : bool;
  cf_GroupIDs : list uuid;
}.

(** A client with the form's values. *)
Definition client_with_form (f : clientForm) (c : Client) : Client :=
  {| c_ID := c_ID c; c_ClientID := c_ClientID c; c_ClientSecretHash := c_ClientSecretHash c; c_Name := cf_Name f;
     c_RedirectURIs := cf_RedirectURIs f; c_Scopes := cf_Scopes f; c_Public := cf_Public f;
     c_BackchannelLogoutURI := cf_BackchannelLogoutURI f; c_ShowInPortal := cf_ShowInPortal f;
     c_LaunchURL := cf_LaunchURL f; c_BrandColor := cf_BrandColor f; c_IconURL := cf_IconURL f;
     c_VisibleToAll := cf_VisibleToAll f; c_AllowDeviceGrant := cf_AllowDeviceGrant f;
     c_SecretRotatedAt := c_SecretRotatedAt c; c_CreatedAt := c_CreatedAt c |}.

(** [&model.Client{}] *)
Definition zero_client : Client :=
  {| c_ID := uuid_nil; c_ClientID := ""; c_ClientSecretHash := ""; c_Name := ""; c_RedirectURIs := [];
     c_Scopes := []; c_Public := false; c_BackchannelLogoutURI := None; c_ShowInPortal := false;
     c_LaunchURL := ""; c_BrandColor := ""; c_IconURL := ""; c_VisibleToAll := false;
     c_AllowDeviceGrant := false; c_SecretRotatedAt := 0; c_CreatedAt := 0 |}.

Definition default_scopes (scopes : list string) : list string :=
  match scopes with [] => ["openid"; "profile"; "email"] | _ => scopes end.

(** A group as the handlers change their copy of it. *)
Definition group_with (displayName : string) (members : list uuid) (g : SCIMGroup) : SCIMGroup :=
  {| grp_ID := grp_ID g; grp_DisplayName := displayName; grp_Members := members;
     grp_CreatedAt := grp_CreatedAt g; grp_UpdatedAt := grp_UpdatedAt g |}.

Definition zero_group : SCIMGroup :=
  {| grp_ID := uuid_nil; grp_DisplayName := ""; grp_Members := []; grp_CreatedAt := 0; grp_UpdatedAt := 0 |}.

Section catalog.
  Context `{U : UnicodeTables} {dialect : Dialect} `{X : Externals}.

(** ** Clients *)

Definition parseLines (s : string) : list string :=
  filter (λ l, l ≠ "") (TrimSpace <$> Split s (ascii_of_nat 10)).

(** The form fields, as both handlers read them. *)
Definition read_client_form (r : Request) : clientForm :=
  let trimmed k := TrimSpace (rq_FormValue r k) in
  {| cf_Name := trimmed "name"; cf_Public := checked r "public";
     cf_RedirectURIs := parseLines (rq_FormValue r "redirect_uris");
     cf_Scopes := default_scopes (Fields (rq_FormValue r "scopes"));
     cf_BackchannelLogoutURI := (let v := trimmed "backchannel_logout_uri" in
                                 if bool_decide (v = "") then None else Some v);
     cf_ShowInPortal := checked r "show_in_portal"; cf_LaunchURL := trimmed "launch_url";
     cf_BrandColor := trimmed "brand_color"; cf_IconURL := trimmed "icon_url";
     cf_VisibleToAll := checked r "visible_to_all"; cf_AllowDeviceGrant := checked r "allow_device_grant";
     cf_GroupIDs := parseGroupIDs (rq_Form r "visibility_group_ids") |}.

Definition client_form_error (f : clientForm) : option string :=
  if bool_decide (cf_Name f = "") then Some "Name is required."
  else if cf_ShowInPortal f && bool_decide (cf_LaunchURL f = "")
  then Some "Launch URL is required when the client is shown in the portal."
  else None.

Definition handlePortalAdminClients (pc : portalCtx) (r : Request) : prog Response :=
  clients <- db QListClients;;
  Ret (render "portal_admin_clients.html" (newPortalBase pc "admin-clients" ++
         [("Clients", JArr ((λ c, JModel (VClient (Some c))) <$> or_nil clients));
          ("Success", JStr (rq_Query r "success")); ("Error", JStr (rq_Query r "error"));
          ("NewSecret", JStr (rq_Query r "secret"))])).

Definition renderClientForm (pc : portalCtx) (cl : option Client) (isNew : bool) (errMsg newSecret : string)
    (selectedGroupIDs : list uuid) : prog Response :=
  allGroups <- db QListGroups;;
  Ret (render "portal_admin_client_edit.html" (newPortalBase pc "admin-clients" ++
         [("Client", JModel (VClient cl)); ("IsNew", JBool isNew); ("Error", JStr errMsg);
          ("NewSecret", JStr newSecret); ("VisibilityGroups", group_checks (or_nil allGroups) selectedGroupIDs)])).

Definition handlePortalAdminClientNew (pc : portalCtx) (r : Request) : prog Response :=
  when bool_decide (rq_Method r = "GET") return renderClientForm pc (Some zero_client) true "" "" [];;
  let f := read_client_form r in
  let showErr msg := renderClientForm pc (Some (client_with_form f zero_client)) true msg "" (cf_GroupIDs f) in
  match client_form_error f with
  | Some msg => showErr msg
  | None =>
  try rawClientID <- GenerateRawToken else _e => showErr "An error occurred.";;
  match slice_to 24 rawClientID with
  | None => Ret panicked
  | Some clientID =>
  try rawSecret <- (if cf_Public f then Ret (Ok "") else GenerateRawToken) else _e => showErr "An error occurred.";;
  let secretHash := if cf_Public f then "" else HashToken rawSecret in
  try client <- db (QCreateClient clientID secretHash (cf_Name f) (cf_RedirectURIs f) (cf_Scopes f) (cf_Public f)
                      (cf_BackchannelLogoutURI f)) else _e => showErr "An error occurred.";;
  db (QUpdateClientPortalConfig (c_ID client) (cf_ShowInPortal f) (cf_LaunchURL f) (cf_BrandColor f) (cf_IconURL f)
        (cf_VisibleToAll f));;;
  db (QReplaceClientVisibility (c_ID client) (cf_GroupIDs f));;;
  (if cf_AllowDeviceGrant f then db (QUpdateClientDeviceGrant (c_ID client) true);;; Ret tt else Ret tt);;;
  try _u <- logAudit r ActionClientCreated None (Some (c_ID client))
        [("by", MStr (u_Email (px_User pc))); ("portal_visible", MBool (cf_ShowInPortal f))]
    else e => (undo (QDeleteClient (c_ID client));;; Ret (auditFail (err_Error e)));;
  Ret (redirect_to ("/portal/admin/clients?success=Client+created." +:+
        (if bool_decide (rawSecret = "") then "" else "&secret=" +:+ rawSecret)))
  end end.

Definition handlePortalAdminClientEdit (pc : portalCtx) (r : Request) : prog Response :=
  match uuid_Parse (rq_PathID r) with
  | Err _ => Ret (httpError "invalid id" StatusBadRequest)
  | Ok id =>
  found <- db (QGetClientByID id);;
  match found with
  | Err ErrNotFound => Ret (httpError "client not found" StatusNotFound)
  | _ =>
  let client := match found with Ok c => Some c | Err _ => None end in
  when bool_decide (rq_Method r = "GET") return
    (current <- db (QListClientVisibility id);;
     renderClientForm pc client false "" "" (or_nil current));;
  let f := read_client_form r in
  let showErr msg :=
    match client with
    | None => Ret panicked
    | Some c => renderClientForm pc (Some (client_with_form f c)) false msg "" (cf_GroupIDs f)
    end in
  match client_form_error f with
  | Some msg => showErr msg
  | None =>
  let failed := "An error occurred. Please try again." in
  try _u <- db (QUpdateClient id (cf_Name f) (cf_RedirectURIs f) (cf_Scopes f) (cf_Public f)
                  (cf_BackchannelLogoutURI f)) else _e => showErr failed;;
  try _u <- db (QUpdateClientPortalConfig id (cf_ShowInPortal f) (cf_LaunchURL f) (cf_BrandColor f) (cf_IconURL f)
                  (cf_VisibleToAll f)) else _e => showErr failed;;
  try _u <- db (QUpdateClientDeviceGrant id (cf_AllowDeviceGrant f)) else _e => showErr failed;;
  try _u <- db (QReplaceClientVisibility id (cf_GroupIDs f)) else _e => showErr failed;;
  try _u <- logAudit r ActionClientUpdated None (Some id)
        [("by", MStr (u_Email (px_User pc))); ("portal_visible", MBool (cf_ShowInPortal f))]
    else e => Ret (auditFail (err_Error e));;
  Ret (redirect_to "/portal/admin/clients?success=Client+details+saved.")
  end end end.

Definition handlePortalAdminClientDelete (pc : portalCtx) (r : Request) : prog Response :=
  match uuid_Parse (rq_PathID r) with
  | Err _ => Ret (httpError "invalid id" StatusBadRequest)
  | Ok id =>
      try _u <- logAudit r ActionClientDeleted None (Some id) [("by", MStr (u_Email (px_User pc)))]
        else e => Ret (auditFail (err_Error e));;
      try _u <- db (QDeleteClient id) else _e => Ret (redirect_to "/portal/admin/clients?error=delete+failed");;
      Ret (redirect_to "/portal/admin/clients?success=Client+deleted.")
  end.

Definition handlePortalAdminClientRotate (pc : portalCtx) (r : Request) : prog Response :=
  let failed msg := redirect_to ("/portal/admin/clients?error=" +:+ msg) in
  match uuid_Parse (rq_PathID r) with
  | Err _ => Ret (failed "invalid+id")
  | Ok id =>
      try client <- db (QGetClientByID id) else _e => Ret (failed "client+not+found");;
      when c_Public client return Ret (failed "public+clients+have+no+secret");;
      try rawSecret <- GenerateRawToken else _e => Ret (failed "generation+failed");;
      try _u <- logAudit r ActionClientSecretRotated None (Some id) [("by", MStr (u_Email (px_User pc)))]
        else e => Ret (auditFail (err_Error e));;
      try _u <- db (QUpdateClientSecret id (HashToken rawSecret)) else _e => Ret (failed "update+failed");;
      Ret (redirect_to ("/portal/admin/clients?success=Secret+rotated.&secret=" +:+ rawSecret))
  end.

(** ** Groups *)

Definition parseMemberIDs (raw : list string) : list uuid :=
  omap (λ s, if bool_decide (TrimSpace s = "") then None
             else match uuid_Parse (TrimSpace s) with Ok id => Some id | Err _ => None end) raw.

Definition handlePortalAdminGroups (pc : portalCtx) (r : Request) : prog Response :=
  try groups <- db QListGroups else _e => Ret (httpError "error listing groups" StatusInternalServerError);;
  Ret (render "portal_admin_groups.html" (newPortalBase pc "admin-groups" ++
         [("Groups", JArr ((λ g, JObj [("Group", JModel (VGroup g));
                                       ("Members", JInt (Z.of_nat (length (grp_Members g))))]) <$> groups));
          ("Success", JStr (rq_Query r "success")); ("Error", JStr (rq_Query r "error"))])).

Definition renderGroupForm (pc : portalCtx) (g : SCIMGroup) (users : list User) (isNew : bool) (errMsg : string)
    (selected : list uuid) : Response :=
  render "portal_admin_group_edit.html" (newPortalBase pc "admin-groups" ++
    [("Group", JModel (VGroup g));
     ("Users", JArr ((λ u, JObj [("User", JModel (VUser (Some u)));
                                 ("IsMember", JBool (bool_decide (u_ID u ∈ selected)))]) <$> users));
     ("IsNew", JBool isNew); ("Error", JStr errMsg)]).

Definition handlePortalAdminGroupNew (pc : portalCtx) (r : Request) : prog Response :=
  try users <- db QListUsers else _e => Ret (httpError "list users failed" StatusInternalServerError);;
  when bool_decide (rq_Method r = "GET") return Ret (renderGroupForm pc zero_group users true "" []);;
  let displayName := TrimSpace (rq_FormValue r "display_name") in
  let memberIDs := parseMemberIDs (rq_Form r "members") in
  let showErr msg := renderGroupForm pc (group_with displayName memberIDs zero_group) users true msg memberIDs in
  when bool_decide (displayName = "") return Ret (showErr "Display name is required.");;
  try g <- db (QCreateGroup displayName) else _e => Ret (showErr "Create failed.");;
  (if (0 <? length memberIDs)%nat then db (QReplaceGroupMembers (grp_ID g) memberIDs);;; Ret tt else Ret tt);;;
  try _u <- logAudit r ActionGroupCreated (Some (u_ID (px_User pc))) None
        [("name", MStr displayName); ("members", MInt (Z.of_nat (length memberIDs)))]
    else e => (undo (QDeleteGroup (grp_ID g));;; Ret (auditFail (err_Error e)));;
  provisionGroup OpCreate (group_with (grp_DisplayName g) memberIDs g) (pickUsers users memberIDs);;;
  Ret (redirect_to "/portal/admin/groups?success=Group+created.").

Definition handlePortalAdminGroupEdit (pc : portalCtx) (r : Request) : prog Response :=
  match uuid_Parse (rq_PathID r) with
  | Err _ => Ret (httpError "invalid id" StatusBadRequest)
  | Ok id =>
  found <- db (QGetGroupByID id);;
  match found with
  | Err ErrNotFound => Ret (httpError "group not found" StatusNotFound)
  | Err _ => Ret (httpError "lookup failed" StatusInternalServerError)
  | Ok g =>
  try users <- db QListUsers else _e => Ret (httpError "list users failed" StatusInternalServerError);;
  when bool_decide (rq_Method r = "GET") return Ret (renderGroupForm pc g users false "" (grp_Members g));;
  let displayName := TrimSpace (rq_FormValue r "display_name") in
  let memberIDs := parseMemberIDs (rq_Form r "members") in
  when bool_decide (displayName = "") return
    Ret (renderGroupForm pc (group_with displayName (grp_Members g) g) users false "Display name is required." memberIDs);;
  try _u <- db (QUpdateGroup id displayName) else _e =>
    Ret (renderGroupForm pc g users false "Update failed." memberIDs);;
  db (QReplaceGroupMembers id memberIDs);;;
  try _u <- logAudit r ActionGroupUpdated (Some (u_ID (px_User pc))) None
        [("name", MStr displayName); ("members", MInt (Z.of_nat (length memberIDs)))]
    else e => Ret (auditFail (err_Error e));;
  provisionGroup OpUpdate (group_with displayName memberIDs g) (pickUsers users memberIDs);;;
  Ret (redirect_to "/portal/admin/groups?success=Group+updated.")
  end end.

Definition handlePortalAdminGroupDelete (pc : portalCtx) (r : Request) : prog Response :=
  match uuid_Parse (rq_PathID r) with
  | Err _ => Ret (httpError "invalid id" StatusBadRequest)
  | Ok id =>
      try g <- db (QGetGroupByID id) else _e => Ret (redirect_to "/portal/admin/groups?error=group+not+found");;
      try _u <- logAudit r ActionGroupDeleted (Some (u_ID (px_User pc))) None [("name", MStr (grp_DisplayName g))]
        else e => Ret (auditFail (err_Error e));;
      try _u <- db (QDeleteGroup id) else _e => Ret (redirect_to "/portal/admin/groups?error=delete+failed");;
      provisionGroup OpDelete g [];;;
      Ret (redirect_to "/portal/admin/groups?success=Group+deleted.")
  end.

End catalog.
