(* ===== verification/AdminIntegrations.v ===== *)
(** * Administration of integrations

    [web_portal_integrations.go], behind [portalAdminAuth]: the rows that
    configure the provisioning targets, the connectivity test and the full
    synchronisation of one target.  Every change of a row reloads the registry. *)
From S2P Require Import Prelude GoStrings GoNet Model Dialect Policy Tables SqliteUsers SqliteTokens SqliteAws Store Pkce Prog.
From S2P Require Import SingleUse Server Provision Awsfed Fixture Mfa Portal PortalFacts Authorize AuthorizeFacts WebAuthn AwsConsole Account AdminUsers AdminCatalog.

Local Open Scope Z_scope.
Local Open Scope prog_scope.

Record integrationFormInput : Type := mkIntegrationForm { if_row : AppIntegration; if_tokenPlain : string }.

(** A row with its identifier and provider set. *)
Definition row_of (id : uuid) (provider : string) (i : AppIntegration) : AppIntegration :=
  {| ai_ID := id; ai_Name := ai_Name i; ai_Provider := provider; ai_Enabled := ai_Enabled i;
     ai_Config := ai_Config i; ai_EncryptedToken := ai_EncryptedToken i; ai_EncryptedDEK := ai_EncryptedDEK i;
     ai_CreatedAt := ai_CreatedAt i; ai_UpdatedAt := ai_UpdatedAt i |}.

(** A row with its encrypted token set. *)
Definition row_with_token (tok dek : option string) (i : AppIntegration) : AppIntegration :=
  {| ai_ID := ai_ID i; ai_Name := ai_Name i; ai_Provider := ai_Provider i; ai_Enabled := ai_Enabled i;
     ai_Config := ai_Config i; ai_EncryptedToken := tok; ai_EncryptedDEK := dek;
     ai_CreatedAt := ai_CreatedAt i; ai_UpdatedAt := ai_UpdatedAt i |}.

Definition new_integration (name provider : string) (enabled : bool) (cfg : AppIntegrationConfig) : AppIntegration :=
  {| ai_ID := uuid_nil; ai_Name := name; ai_Provider := provider; ai_Enabled := enabled; ai_Config := cfg;
     ai_EncryptedToken := None; ai_EncryptedDEK := None; ai_CreatedAt := 0; ai_UpdatedAt := 0 |}.

Section integrations.
  Context `{U : UnicodeTables} {dialect : Dialect} `{X : Externals}.

(** ** The form *)

Definition readIntegrationForm (r : Request) (isNew : bool) : integrationFormInput :=
  let trimmed k := TrimSpace (rq_FormValue r k) in
  let authMode := if bool_decide (trimmed "auth_mode" = "") then AppIntegrationAuthBearer else trimmed "auth_mode" in
  mkIntegrationForm
    (new_integration (trimmed "name") (if isNew then rq_FormValue r "provider" else "") (checked r "enabled")
       (mkAppIntegrationConfig (trimmed "base_url") (Atoi_value (trimmed "timeout_ms")) authMode))
    (rq_FormValue r "token").

(** The empty string: the form is valid. *)
Definition validate (f : integrationFormInput) (needToken : bool) : string :=
  let row := if_row f in
  let mode := aic_AuthMode (ai_Config row) in
  if bool_decide (ai_Name row = "") then "Name is required."
  else if bool_decide (ai_Provider row = AppIntegrationProviderSCIM) then
    if bool_decide (aic_BaseURL (ai_Config row) = "") then "Base URL is required for SCIM integrations."
    else if bool_decide (mode = AppIntegrationAuthBearer) || bool_decide (mode = "") then
      if needToken && bool_decide (TrimSpace (if_tokenPlain f) = "") then "Token is required for bearer auth." else ""
    else if bool_decide (mode = AppIntegrationAuthMTLS) then
      if bool_decide (TrimSpace (if_tokenPlain f) = "") then ""
      else "Token must be empty when auth mode is mTLS — auth presents its client cert from AUTHD_SCIM_* env vars."
    else "Unsupported auth mode."
  else if bool_decide (ai_Provider row = AppIntegrationProviderAWSFederation) then ""
  else if bool_decide (ai_Provider row = "") then "Provider is required."
  else "Unsupported provider.".

Definition integration_page (pc : portalCtx) (row : AppIntegration) (isNew : bool) (errMsg : string) : Response :=
  render "portal_admin_integration_edit.html" (newPortalBase pc "admin-integrations" ++
    [("Integration", JModel (VIntegration row)); ("IsNew", JBool isNew); ("Error", JStr errMsg)]).

Definition reloadProvisioners (sv : Server) : prog unit := Reload sv;;; Ret tt.

(** ** Rows *)

Definition handlePortalAdminIntegrations (pc : portalCtx) (r : Request) : prog Response :=
  try rows <- db QListIntegrations else _e =>
    Ret (httpError "error listing integrations" StatusInternalServerError);;
  Ret (render "portal_admin_integrations.html" (newPortalBase pc "admin-integrations" ++
         [("Integrations", JArr ((λ i, JModel (VIntegration i)) <$> rows)); ("Success", JStr (rq_Query r "success"));
          ("Error", JStr (rq_Query r "error")); ("Notice", JStr (rq_Query r "notice"))])).

Definition integrations_page (qs : string) : Response := redirect_to ("/portal/admin/integrations?" +:+ qs).

Definition conflict_message : string := "An integration with that name already exists.".

Definition handlePortalAdminIntegrationNew (sv : Server) (pc : portalCtx) (r : Request) : prog Response :=
  when bool_decide (rq_Method r = "GET") return
    Ret (integration_page pc (new_integration "" AppIntegrationProviderSCIM true
           (mkAppIntegrationConfig "" 0 AppIntegrationAuthBearer)) true "");;
  let f := readIntegrationForm r true in
  let row0 := if_row f in
  let showErr row msg := Ret (integration_page pc row true msg) in
  when negb (bool_decide (validate f true = "")) return showErr row0 (validate f true);;
  try row <- (if bool_decide (ai_Provider row0 = AppIntegrationProviderSCIM) &&
                 bool_decide (aic_AuthMode (ai_Config row0) = AppIntegrationAuthBearer) then
                try enc <- do_op (OpEncrypt (if_tokenPlain f)) else e => Ret (Err e);;
                Ret (Ok (row_with_token (Some enc.1) (Some enc.2) row0))
              else Ret (Ok row0))
    else _e => showErr row0 "Encryption failed.";;
  created <- db (QCreateIntegration row);;
  match created with
  | Err ErrConflict => showErr row conflict_message
  | Err _ => showErr row "Create failed."
  | Ok row =>
      try _u <- logAudit r ActionIntegrationCreated (Some (u_ID (px_User pc))) None
            [("name", MStr (ai_Name row)); ("provider", MStr (ai_Provider row))]
        else e => (undo (QDeleteIntegration (ai_ID row));;; Ret (auditFail (err_Error e)));;
      reloadProvisioners sv;;;
      Ret (integrations_page "success=Integration+created.")
  end.

(** The row to store: the token is cleared, replaced, or kept. *)
Definition edited_row (existing row : AppIntegration) (updateToken : bool) (token : string)
    : prog (result AppIntegration) :=
  if bool_decide (aic_AuthMode (ai_Config row) = AppIntegrationAuthMTLS) then
    Ret (Ok (row_with_token None None row))
  else if bool_decide (ai_Provider row = AppIntegrationProviderSCIM) && updateToken then
    try enc <- do_op (OpEncrypt token) else e => Ret (Err e);;
    Ret (Ok (row_with_token (Some enc.1) (Some enc.2) row))
  else Ret (Ok (row_with_token (ai_EncryptedToken existing) (ai_EncryptedDEK existing) row)).

Definition unsupported_message : string :=
  "This provider is no longer supported. Clean up downstream resources before deleting this integration.".

Definition handlePortalAdminIntegrationEdit (sv : Server) (pc : portalCtx) (r : Request) : prog Response :=
  match uuid_Parse (rq_PathID r) with
  | Err _ => Ret (httpError "invalid id" StatusBadRequest)
  | Ok id =>
  found <- db (QGetIntegration id);;
  match found with
  | Err ErrNotFound => Ret (httpError "integration not found" StatusNotFound)
  | Err _ => Ret (httpError "lookup failed" StatusInternalServerError)
  | Ok existing =>
  when bool_decide (rq_Method r = "GET") return
    Ret (integration_page pc existing false
      (if bool_decide (ai_Provider existing = AppIntegrationProviderSCIM) ||
          bool_decide (ai_Provider existing = AppIntegrationProviderAWSFederation) then "" else unsupported_message));;
  let f0 := readIntegrationForm r false in
  let f := mkIntegrationForm (row_of (ai_ID existing) (ai_Provider existing) (if_row f0)) (if_tokenPlain f0) in
  let showErr row msg := Ret (integration_page pc row false msg) in
  let updateToken := checked r "update_token" in
  when negb (bool_decide (validate f updateToken = "")) return showErr (if_row f) (validate f updateToken);;
  try row <- edited_row existing (if_row f) updateToken (if_tokenPlain f)
    else _e => showErr (if_row f) "Encryption failed.";;
  updated <- db (QUpdateIntegration row);;
  match updated with
  | Err ErrConflict => showErr row conflict_message
  | Err _ => showErr row "Update failed."
  | Ok _ =>
      try _u <- logAudit r ActionIntegrationUpdated (Some (u_ID (px_User pc))) None
            [("name", MStr (ai_Name row)); ("provider", MStr (ai_Provider row)); ("rotated_token", MBool updateToken)]
        else e => Ret (auditFail (err_Error e));;
      reloadProvisioners sv;;;
      Ret (integrations_page "success=Integration+updated.")
  end end end.

Definition handlePortalAdminIntegrationDelete (sv : Server) (pc : portalCtx) (r : Request) : prog Response :=
  match uuid_Parse (rq_PathID r) with
  | Err _ => Ret (httpError "invalid id" StatusBadRequest)
  | Ok id =>
      try existing <- db (QGetIntegration id) else _e => Ret (integrations_page "error=integration+not+found");;
      try _u <- logAudit r ActionIntegrationDeleted (Some (u_ID (px_User pc))) None
            [("name", MStr (ai_Name existing)); ("provider", MStr (ai_Provider existing))]
        else e => Ret (auditFail (err_Error e));;
      try _u <- db (QDeleteIntegration id) else _e => Ret (integrations_page "error=delete+failed");;
      reloadProvisioners sv;;;
      Ret (integrations_page "success=Integration+deleted.")
  end.

(** ** Test *)

(** The status and the documentation address, or the text of the error. *)
Definition scimServiceProviderConfig (sv : Server) (row : AppIntegration) : prog (string + Z * string) :=
  let cfg := ai_Config row in
  when bool_decide (aic_BaseURL cfg = "") return Ret (inl "missing base URL");;
  let authMode := if bool_decide (aic_AuthMode cfg = "") then AppIntegrationAuthBearer else aic_AuthMode cfg in
  let endpoint := str_trim_right Scim.is_slash (aic_BaseURL cfg) +:+ "/ServiceProviderConfig" in
  match url_Parse endpoint with
  | Err e => Ret (inl (err_Error e))
  | Ok _ =>
  auth <- (if bool_decide (authMode = AppIntegrationAuthBearer) then
             token <- do_op (OpDecrypt (default "" (ai_EncryptedDEK row)) (default "" (ai_EncryptedToken row)));;
             Ret (match token with Ok token => inr token | Err e => inl (err_Error e) end)
           else if bool_decide (authMode = AppIntegrationAuthMTLS) then
             Ret (if srv_scimTLS sv then inr ""
                  else inl "mtls auth_mode but AUTHD_SCIM_MTLS_CERT/KEY are unset")
           else Ret (inl ("unsupported auth_mode: " +:+ authMode)));;
  match auth with
  | inl msg => Ret (inl msg)
  | inr bearer =>
      try resp <- do_op (OpHTTP (mkHTTPRequest "GET" endpoint bearer NoReqBody)) else e => Ret (inl (err_Error e));;
      let excerpt := str_take 256 (hs_Body resp) in
      Ret (if 400 <=? hs_Status resp then inl (TrimSpace excerpt)
           else inr (hs_Status resp,
                     match json_Unmarshal_Field excerpt "documentationUri" with Ok d => d | Err _ => "" end))
  end end.

Definition handlePortalAdminIntegrationTest (sv : Server) (pc : portalCtx) (r : Request) : prog Response :=
  match uuid_Parse (rq_PathID r) with
  | Err _ => Ret (integrations_page "error=invalid+id")
  | Ok id =>
      try row <- db (QGetIntegration id) else _e => Ret (integrations_page "error=integration+not+found");;
      when negb (bool_decide (ai_Provider row = AppIntegrationProviderSCIM)) return
        Ret (integrations_page "notice=Test+only+supported+for+SCIM+integrations.");;
      got <- scimServiceProviderConfig sv row;;
      match got with
      | inl err =>
          try _u <- logAudit r ActionIntegrationTested (Some (u_ID (px_User pc))) None
                [("name", MStr (ai_Name row)); ("ok", MBool false); ("err", MStr err)] else e => Ret (auditFail (err_Error e));;
          Ret (integrations_page ("error=" +:+ QueryEscape ("Test failed: " +:+ err)))
      | inr (status, body) =>
          try _u <- logAudit r ActionIntegrationTested (Some (u_ID (px_User pc))) None
                [("name", MStr (ai_Name row)); ("ok", MBool true); ("status", MInt status)] else e => Ret (auditFail (err_Error e));;
          Ret (integrations_page ("success=" +:+ QueryEscape ("Connection OK (HTTP " +:+ Itoa status +:+ ")" +:+
                 (if bool_decide (body = "") then "" else " " +:+ body))))
      end
  end.

(** ** Synchronisation *)

Definition lookupProvisioner (name : string) : prog (option Target) :=
  ts <- Snapshot;;
  Ret (find (λ p, bool_decide (Name p = name)) ts).

Definition handlePortalAdminIntegrationSync (pc : portalCtx) (r : Request) : prog Response :=
  match uuid_Parse (rq_PathID r) with
  | Err _ => Ret (integrations_page "error=invalid+id")
  | Ok id =>
      try row <- db (QGetIntegration id) else _e => Ret (integrations_page "error=integration+not+found");;
      when negb (ai_Enabled row) return
        Ret (integrations_page ("error=" +:+ QueryEscape ("Integration " +:+ ai_Name row +:+
               " is disabled — enable it before syncing.")));;
      prov <- lookupProvisioner (ai_Name row);;
      match prov with
      | None =>
          Ret (integrations_page ("error=" +:+ QueryEscape ("Provisioner for " +:+ ai_Name row +:+
                 " not loaded — try saving the integration to reload.")))
      | Some prov =>
          counts <- SyncAll prov;;
          let '(userOK, userFail, groupOK, groupFail) := counts in
          try _u <- logAudit r ActionIntegrationSynced (Some (u_ID (px_User pc))) None
                [("name", MStr (ai_Name row)); ("users_ok", MInt userOK); ("users_failed", MInt userFail);
                 ("groups_ok", MInt groupOK); ("groups_failed", MInt groupFail); ("trigger", MStr "manual")]
            else e => Ret (auditFail (err_Error e));;
          let msg := "Sync " +:+ ai_Name row +:+ " done: users " +:+ Itoa userOK +:+ " ok / " +:+ Itoa userFail +:+
                     " failed; groups " +:+ Itoa groupOK +:+ " ok / " +:+ Itoa groupFail +:+ " failed" in
          let flashKey := if 0 <? userFail + groupFail then "error" else "success" in
          Ret (integrations_page (flashKey +:+ "=" +:+ QueryEscape msg))
      end
  end.

End integrations.
