(* ===== verification/AdminAws.v ===== *)
(** * Administration of the AWS catalogue

    [web_portal_aws_admin.go], behind [portalAdminAuth]: accounts, roles (with
    the regions a role is narrowed to) and the assignment of roles to groups. *)
From S2P Require Import Prelude GoStrings GoNet Model Dialect Policy Tables SqliteUsers SqliteTokens SqliteAws Store Pkce Prog.
From S2P Require Import SingleUse Server Provision Awsfed Fixture Mfa Portal PortalFacts Authorize AuthorizeFacts WebAuthn AwsConsole Account AdminUsers.

Local Open Scope Z_scope.
Local Open Scope prog_scope.

Definition aws_page (qs : string) : Response := redirect_to ("/portal/admin/aws?" +:+ qs).
Definition aws_page_error (msg : string) : Response := aws_page ("error=" +:+ QueryEscape msg).
Definition aws_page_success (msg : string) : Response := aws_page ("success=" +:+ QueryEscape msg).

(** [^[a-z0-9][a-z0-9_-]{0,62}$] *)
Definition slugPattern (s : string) : bool :=
  match s with
  | EmptyString => false
  | String a r =>
      is_lower_alnum a && str_forallb (λ c, is_lower_alnum c || Ascii.eqb c "_" || Ascii.eqb c "-") r &&
      (String.length r <=? 62)%nat
  end.

Definition role_with_regions (regions : list string) (r : AWSRole) : AWSRole :=
  {| ar_ID := ar_ID r; ar_AccountID := ar_AccountID r; ar_RoleARN := ar_RoleARN r; ar_Slug := ar_Slug r;
     ar_DisplayName := ar_DisplayName r; ar_RequireStepUpMFA := ar_RequireStepUpMFA r;
     ar_MaxSessionDurationSec := ar_MaxSessionDurationSec r; ar_AllowedRegions := regions;
     ar_CreatedAt := ar_CreatedAt r; ar_UpdatedAt := ar_UpdatedAt r |}.

Section admin_aws.
  Context `{U : UnicodeTables} {dialect : Dialect} `{X : Externals}.

(** ** The page *)

Definition role_line (accounts : list AWSAccount) (r : AWSRole) : JVal :=
  let acct := accounts_by_id accounts !! ar_AccountID r in
  JObj [("AWSRole", JModel (VRole r)); ("RegionsText", JStr (Join (ar_AllowedRegions r) ", "));
        ("AccountAlias", JStr (match acct with Some a => aa_Alias a | None => "" end));
        ("AccountAccountID", JStr (match acct with Some a => aa_AccountID a | None => "" end))].

Definition handlePortalAdminAWS (sv : Server) (pc : portalCtx) (r : Request) : prog Response :=
  try accounts <- db QListAWSAccounts else e =>
    Ret (httpError ("list aws accounts: " +:+ err_Error e) StatusInternalServerError);;
  try rolesRaw <- db QListAWSRoles else e =>
    Ret (httpError ("list aws roles: " +:+ err_Error e) StatusInternalServerError);;
  groups <- db QListGroups;;
  assigns <- db QListAWSRoleAssignments;;
  Ret (render "portal_admin_aws.html" (newPortalBase pc "admin-aws" ++
         [("Accounts", JArr ((λ a, JModel (VAccount a)) <$> accounts));
          ("Roles", JArr (role_line accounts <$> rolesRaw));
          ("Groups", JArr ((λ g, JModel (VGroup g)) <$> or_nil groups));
          ("Assignments", JArr ((λ a, JModel (VAssignment a)) <$> or_nil assigns));
          ("Audience", JStr (srv_awsAudience sv)); ("Regions", JStrs (srv_awsRegions sv));
          ("DefaultRegion", JStr (srv_awsDefaultRegion sv));
          ("Success", JStr (rq_Query r "success")); ("Error", JStr (rq_Query r "error"))])).

(** ** Accounts *)

Definition handlePortalAdminAWSAccountNew (pc : portalCtx) (r : Request) : prog Response :=
  let trimmed k := TrimSpace (rq_FormValue r k) in
  let row := {| aa_ID := uuid_nil; aa_AccountID := trimmed "account_id"; aa_Alias := trimmed "alias";
                aa_OIDCProviderARN := trimmed "oidc_provider_arn"; aa_CreatedAt := 0; aa_UpdatedAt := 0 |} in
  when bool_decide (aa_AccountID row = "") || bool_decide (aa_OIDCProviderARN row = "") return
    Ret (aws_page_error "account_id and oidc_provider_arn are required");;
  created <- db (QCreateAWSAccount row);;
  match created with
  | Err ErrConflict => Ret (aws_page_error "account_id already registered")
  | Err _ => Ret (aws_page_error "create account failed")
  | Ok row =>
      try _u <- logAudit r ActionAWSAccountCreated (Some (u_ID (px_User pc))) None
            [("account_id", MStr (aa_AccountID row)); ("alias", MStr (aa_Alias row))]
        else e => (undo (QDeleteAWSAccount (aa_ID row));;; Ret (auditFail (err_Error e)));;
      Ret (aws_page_success "Account added.")
  end.

(** Journal the removal of a row that was found; a row that was not is deleted
    without an entry. *)
Definition audit_found {A} (r : Request) (pc : portalCtx) (action : string) (existing : result A)
    (meta : A → list (string * MetaVal)) : prog (result unit) :=
  match existing with
  | Err _ => Ret (Ok tt)
  | Ok a => logAudit r action (Some (u_ID (px_User pc))) None (meta a)
  end.

Definition handlePortalAdminAWSAccountDelete (pc : portalCtx) (r : Request) : prog Response :=
  match uuid_Parse (rq_PathID r) with
  | Err _ => Ret (aws_page "error=invalid+id")
  | Ok id =>
      existing <- db (QGetAWSAccount id);;
      try _u <- audit_found r pc ActionAWSAccountDeleted existing (λ a, [("account_id", MStr (aa_AccountID a))])
        else e => Ret (auditFail (err_Error e));;
      try _u <- db (QDeleteAWSAccount id) else _e => Ret (aws_page_error "delete failed");;
      Ret (aws_page_success "Account deleted.")
  end.

(** ** Roles *)

Definition handlePortalAdminAWSRoleNew (pc : portalCtx) (r : Request) : prog Response :=
  let trimmed k := TrimSpace (rq_FormValue r k) in
  match uuid_Parse (trimmed "account_id") with
  | Err _ => Ret (aws_page "error=invalid+account_id")
  | Ok acctID =>
  let maxDur := match Atoi (trimmed "max_session_duration_sec") with
                | Some v => if 0 <? v then v else 3600
                | None => 3600
                end in
  let row := {| ar_ID := uuid_nil; ar_AccountID := acctID; ar_RoleARN := trimmed "role_arn"; ar_Slug := trimmed "slug";
                ar_DisplayName := trimmed "display_name"; ar_RequireStepUpMFA := checked r "require_step_up_mfa";
                ar_MaxSessionDurationSec := maxDur; ar_AllowedRegions := []; ar_CreatedAt := 0; ar_UpdatedAt := 0 |} in
  when bool_decide (ar_RoleARN row = "") || bool_decide (ar_Slug row = "") || bool_decide (ar_DisplayName row = "") return
    Ret (aws_page_error "role_arn, slug, and display_name are required");;
  when negb (slugPattern (ar_Slug row)) return
    Ret (aws_page_error "slug must match [a-z0-9][a-z0-9_-]{0,62} (lowercase alphanumeric, dash, underscore)");;
  created <- db (QCreateAWSRole row);;
  match created with
  | Err ErrConflict => Ret (aws_page_error "role_arn or slug already registered")
  | Err _ => Ret (aws_page_error "create role failed")
  | Ok row =>
      try _u <- logAudit r ActionAWSRoleCreated (Some (u_ID (px_User pc))) None
            [("role_arn", MStr (ar_RoleARN row)); ("role_slug", MStr (ar_Slug row))]
        else e => (undo (QDeleteAWSRole (ar_ID row));;; Ret (auditFail (err_Error e)));;
      Ret (aws_page_success "Role added.")
  end end.

Definition handlePortalAdminAWSRoleDelete (pc : portalCtx) (r : Request) : prog Response :=
  match uuid_Parse (rq_PathID r) with
  | Err _ => Ret (aws_page "error=invalid+id")
  | Ok id =>
      existing <- db (QGetAWSRole id);;
      try _u <- audit_found r pc ActionAWSRoleDeleted existing (λ a, [("role_arn", MStr (ar_RoleARN a))])
        else e => Ret (auditFail (err_Error e));;
      try _u <- db (QDeleteAWSRole id) else _e => Ret (aws_page_error "delete failed");;
      Ret (aws_page_success "Role deleted.")
  end.

(** The loop: the accepted regions, or the text of the error. *)
Fixpoint role_regions_go (sv : Server) (out rs : list string) : string + list string :=
  match rs with
  | [] => inr out
  | r :: rs =>
      if str_contains (srv_awsRegions sv) r then role_regions_go sv (append_new out r) rs
      else inl ("region " +:+ strconv_Quote r +:+ " is not in AUTHD_AWS_REGIONS")
  end.

Definition parseRoleRegions (sv : Server) (lst : string) : string + list string :=
  role_regions_go sv [] (splitRegions lst).

Definition handlePortalAdminAWSRoleRegions (sv : Server) (pc : portalCtx) (r : Request) : prog Response :=
  match uuid_Parse (rq_PathID r) with
  | Err _ => Ret (aws_page "error=invalid+id")
  | Ok id =>
  match parseRoleRegions sv (rq_FormValue r "allowed_regions") with
  | inl msg => Ret (aws_page_error msg)
  | inr regions =>
      try role <- db (QGetAWSRole id) else _e => Ret (aws_page_error "role not found");;
      try _u <- logAudit r ActionAWSRoleUpdated (Some (u_ID (px_User pc))) None
            [("role_id", MStr (uuid_String (ar_ID role))); ("role_slug", MStr (ar_Slug role));
             ("allowed_regions", MStr (Join regions ","));
             ("previous_allowed_regions", MStr (Join (ar_AllowedRegions role) ","))]
        else e => Ret (auditFail (err_Error e));;
      try _u <- db (QUpdateAWSRole (role_with_regions regions role)) else _e =>
        Ret (aws_page_error "update role failed");;
      Ret (aws_page_success "Role regions updated.")
  end end.

(** ** Assignments *)

Definition handlePortalAdminAWSAssignmentNew (pc : portalCtx) (r : Request) : prog Response :=
  match uuid_Parse (TrimSpace (rq_FormValue r "group_id")) with
  | Err _ => Ret (aws_page "error=invalid+group_id")
  | Ok groupID =>
  match uuid_Parse (TrimSpace (rq_FormValue r "role_id")) with
  | Err _ => Ret (aws_page "error=invalid+role_id")
  | Ok roleID =>
      created <- db (QCreateAWSRoleAssignment
        {| ara_ID := uuid_nil; ara_GroupID := groupID; ara_RoleID := roleID; ara_CreatedAt := 0 |});;
      match created with
      | Err ErrConflict => Ret (aws_page_error "assignment already exists")
      | Err _ => Ret (aws_page_error "create assignment failed")
      | Ok row =>
          try _u <- logAudit r ActionAWSAssignmentCreated (Some (u_ID (px_User pc))) None
                [("group_id", MStr (uuid_String groupID)); ("role_id", MStr (uuid_String roleID))]
            else e => (undo (QDeleteAWSRoleAssignment (ara_ID row));;; Ret (auditFail (err_Error e)));;
          Ret (aws_page_success "Assignment added.")
      end
  end end.

Definition handlePortalAdminAWSAssignmentDelete (pc : portalCtx) (r : Request) : prog Response :=
  match uuid_Parse (rq_PathID r) with
  | Err _ => Ret (aws_page "error=invalid+id")
  | Ok id =>
      try _u <- logAudit r ActionAWSAssignmentDeleted (Some (u_ID (px_User pc))) None
            [("assignment_id", MStr (uuid_String id))] else e => Ret (auditFail (err_Error e));;
      try _u <- db (QDeleteAWSRoleAssignment id) else _e => Ret (aws_page_error "delete failed");;
      Ret (aws_page_success "Assignment deleted.")
  end.

End admin_aws.
