(* ===== verification/AdminApi.v ===== *)
(** * The admin JSON API

    [internal/api/admin.go], behind [adminAuth]: users and clients over JSON.
    The session the gate found is not used by the handlers. *)
From S2P Require Import Prelude GoStrings GoNet Model Dialect Policy Tables SqliteUsers SqliteTokens SqliteAws Store Pkce Prog.
From S2P Require Import SingleUse Server Provision Awsfed Fixture Mfa Portal PortalFacts Authorize AuthorizeFacts WebAuthn AwsConsole Account AdminUsers AdminCatalog.

Local Open Scope Z_scope.
Local Open Scope prog_scope.

Section admin_api.
  Context `{U : UnicodeTables} {dialect : Dialect} `{X : Externals}.

(** ** Views *)

Definition toUserView (u : User) : list (string * JVal) :=
  [("id", JStr (uuid_String (u_ID u))); ("email", JStr (u_Email u)); ("name", JStr (u_Name u));
   ("active", JBool (u_Active u)); ("mfa_enabled", JBool (u_MFAEnabled u));
   ("scim_external_id", JStr (u_SCIMExternalID u)); ("password_changed_at", JTime (u_PasswordChangedAt u));
   ("created_at", JTime (u_CreatedAt u)); ("updated_at", JTime (u_UpdatedAt u))].

Definition toUserViews (users : list User) : JVal := JArr ((λ u, JObj (toUserView u)) <$> users).

Definition toClientView (c : Client) : list (string * JVal) :=
  [("id", JStr (uuid_String (c_ID c))); ("client_id", JStr (c_ClientID c)); ("name", JStr (c_Name c));
   ("redirect_uris", JStrs (c_RedirectURIs c)); ("scopes", JStrs (c_Scopes c)); ("public", JBool (c_Public c));
   ("secret_rotated_at", JTime (c_SecretRotatedAt c)); ("created_at", JTime (c_CreatedAt c))] ++
  match c_BackchannelLogoutURI c with Some uri => [("backchannel_logout_uri", JStr uri)] | None => [] end.

Definition toClientViews (clients : list Client) : JVal := JArr ((λ c, JObj (toClientView c)) <$> clients).

(** ** Users *)

Definition server_error (desc : string) : Response := writeError StatusInternalServerError "server_error" desc.
Definition invalid_request (desc : string) : Response := writeError StatusBadRequest "invalid_request" desc.

(** The user the path names, or the error that was written. *)
Definition adminParseUser (r : Request) : prog (Response + User) :=
  match uuid_Parse (rq_PathID r) with
  | Err _ => Ret (inl (invalid_request "invalid user id"))
  | Ok id =>
      user <- db (QGetUserByID id);;
      Ret (match user with
           | Err ErrNotFound => inl (writeError StatusNotFound "not_found" "user not found")
           | Err _ => inl (server_error "lookup failed")
           | Ok user => inr user
           end)
  end.

Definition handleAdminListUsers (r : Request) : prog Response :=
  try users <- db QListUsers else _e => Ret (server_error "list failed");;
  Ret (writeJSON StatusOK [("users", toUserViews users)]).

Definition handleAdminCreateUser (sv : Server) (r : Request) : prog Response :=
  match rq_JSON r with
  | None => Ret (invalid_request "invalid JSON")
  | Some b =>
  let email := ToLower (TrimSpace (jb_Str b "email")) in
  let password := jb_Str b "password" in
  let name := jb_Str b "name" in
  let admin := default false (jb_Bool b "admin") in
  when bool_decide (email = "") || bool_decide (password = "") return
    Ret (invalid_request "email and password required");;
  v <- policy_First sv (ask None None password false);;
  match v with
  | Some v => Ret (writeError StatusBadRequest "weak_password" (pv_Message v))
  | None =>
  try hash <- HashPassword password else _e => Ret (server_error "hash failed");;
  created <- db (QCreateUser email hash name);;
  match created with
  | Err ErrConflict => Ret (writeError StatusConflict "conflict" "user already exists")
  | Err _ => Ret (server_error "create failed")
  | Ok user =>
      try _u <- logAudit r ActionUserCreated (Some (u_ID user)) None [("email", MStr email); ("admin", MBool admin)]
        else e => (undo (QDeleteUser (u_ID user));;; Ret (auditFail (err_Error e)));;
      provisionUser OpCreate (Some user) [];;;
      Ret (writeJSON StatusCreated (toUserView user))
  end end end.

Definition handleAdminGetUser (r : Request) : prog Response :=
  found <- adminParseUser r;;
  Ret (match found with inl resp => resp | inr user => writeJSON StatusOK (toUserView user) end).

Definition handleAdminUpdateUser (r : Request) : prog Response :=
  found <- adminParseUser r;;
  match found with
  | inl resp => Ret resp
  | inr user =>
  match rq_JSON r with
  | None => Ret (invalid_request "invalid JSON")
  | Some b =>
      let name := if bool_decide (jb_Str b "name" = "") then u_Name user else jb_Str b "name" in
      let active := default (u_Active user) (jb_Bool b "active") in
      try _u <- logAudit r ActionUserUpdated (Some (u_ID user)) None [("name", MStr name); ("active", MBool active)]
        else e => Ret (auditFail (err_Error e));;
      try _u <- db (QUpdateUser (u_ID user) name active) else _e => Ret (server_error "update failed");;
      reloaded <- db (QGetUserByID (u_ID user));;
      let user := match reloaded with Ok u => Some u | Err _ => None end in
      provisionUser (if active then OpUpdate else OpDeactivate) user [];;;
      Ret (match user with
           | Some u => writeJSON StatusOK (toUserView u)
           | None => panicked (* the view reads the nil user *)
           end)
  end end.

Definition handleAdminDeleteUser (sv : Server) (r : Request) : prog Response :=
  found <- adminParseUser r;;
  match found with
  | inl resp => Ret resp
  | inr user =>
      try _u <- logAudit r ActionUserDeleted (Some (u_ID user)) None [] else e => Ret (auditFail (err_Error e));;
      broadcastLogout sv (u_ID user) "";;;
      db (QDeleteSessionsByUserID (u_ID user));;;
      try _u <- db (QDeleteUser (u_ID user)) else _e => Ret (server_error "delete failed");;
      provisionUser OpDelete (Some user) [];;;
      Ret (mkResponse StatusNoContent [] NoBody)
  end.

(** ** Clients *)

Definition adminParseClient (r : Request) : prog (Response + Client) :=
  match uuid_Parse (rq_PathID r) with
  | Err _ => Ret (inl (invalid_request "invalid client id"))
  | Ok id =>
      client <- db (QGetClientByID id);;
      Ret (match client with
           | Err ErrNotFound => inl (writeError StatusNotFound "not_found" "client not found")
           | Err _ => inl (server_error "lookup failed")
           | Ok client => inr client
           end)
  end.

Definition handleAdminListClients (r : Request) : prog Response :=
  try clients <- db QListClients else _e => Ret (server_error "list failed");;
  Ret (writeJSON StatusOK [("clients", toClientViews clients)]).

Definition handleAdminCreateClient (r : Request) : prog Response :=
  match rq_JSON r with
  | None => Ret (invalid_request "invalid JSON")
  | Some b =>
  let name := jb_Str b "name" in
  let public := default false (jb_Bool b "public") in
  when bool_decide (name = "") return Ret (invalid_request "name required");;
  try rawClientID <- GenerateRawToken else _e => Ret (server_error "generation failed");;
  match slice_to 24 rawClientID with
  | None => Ret panicked
  | Some clientID =>
  try rawSecret <- (if public then Ret (Ok "") else GenerateRawToken) else _e => Ret (server_error "generation failed");;
  let secretHash := if public then "" else HashToken rawSecret in
  let logoutURI := if bool_decide (jb_Str b "backchannel_logout_uri" = "") then None
                   else Some (jb_Str b "backchannel_logout_uri") in
  try client <- db (QCreateClient clientID secretHash name (jb_Strs b "redirect_uris")
                      (default_scopes (jb_Strs b "scopes")) public logoutURI)
    else _e => Ret (server_error "create failed");;
  try _u <- logAudit r ActionClientCreated None (Some (c_ID client)) [("name", MStr name)]
    else e => (undo (QDeleteClient (c_ID client));;; Ret (auditFail (err_Error e)));;
  Ret (writeJSON StatusCreated (toClientView client ++
        (if bool_decide (rawSecret = "") then [] else [("client_secret", JStr rawSecret)])))
  end end.

Definition handleAdminGetClient (r : Request) : prog Response :=
  found <- adminParseClient r;;
  Ret (match found with inl resp => resp | inr client => writeJSON StatusOK (toClientView client) end).

Definition handleAdminDeleteClient (r : Request) : prog Response :=
  found <- adminParseClient r;;
  match found with
  | inl resp => Ret resp
  | inr client =>
      try _u <- logAudit r ActionClientDeleted None (Some (c_ID client)) [] else e => Ret (auditFail (err_Error e));;
      try _u <- db (QDeleteClient (c_ID client)) else _e => Ret (server_error "delete failed");;
      Ret (mkResponse StatusNoContent [] NoBody)
  end.

Definition handleAdminRotateClientSecret (r : Request) : prog Response :=
  found <- adminParseClient r;;
  match found with
  | inl resp => Ret resp
  | inr client =>
      when c_Public client return Ret (invalid_request "public clients have no secret");;
      try rawSecret <- GenerateRawToken else _e => Ret (server_error "generation failed");;
      try _u <- logAudit r ActionClientSecretRotated None (Some (c_ID client)) [] else e => Ret (auditFail (err_Error e));;
      try _u <- db (QUpdateClientSecret (c_ID client) (HashToken rawSecret)) else _e =>
        Ret (server_error "update failed");;
      Ret (writeJSON StatusOK [("client_id", JStr (c_ClientID client)); ("client_secret", JStr rawSecret)])
  end.

End admin_api.
