(* ===== verification/AdminFacts.v ===== *)
(** * The audit contract of administration

    The comment on [logAudit] promises an order by kind of action: destructive
    and credential-weakening actions are journalled before anything changes,
    and a row created by a request whose entry the journal refuses is removed
    again.  Both are stated as predicates on programs ([audit_first],
    [audit_or_undo]) that hold of every execution, against a store and a
    journal that may fail at any call, and shown for the handlers of the
    administration pages, the admin API and the account pages. *)
From S2P Require Import Prelude GoStrings GoNet Model Dialect Policy Tables SqliteUsers SqliteTokens SqliteAws Store Pkce Prog.
From S2P Require Import SingleUse Server Provision Awsfed Fixture Mfa Portal PortalFacts Authorize AuthorizeFacts WebAuthn AwsConsole.
From S2P Require Import Account AdminUsers AdminCatalog AdminIntegrations AdminAws AdminApi.

Local Open Scope Z_scope.
Local Open Scope prog_scope.

(** ** Events *)

(** The journal accepted, or refused, an entry. *)
Definition journal_answer (e : event) : option bool :=
  match e with
  | Ev op x =>
      match op in Op X return X → option bool with
      | OpAppend _ => λ r, Some (match r with Ok _ => true | Err _ => false end)
      | _ => λ _, None
      end x
  end.

(** The query that removes the row a successful call created. *)
Definition undo_of (e : event) : option (Query unit) :=
  match e with
  | Ev (OpDb q) x =>
      match q in Query A return result A → option (Query unit) with
      | QCreateUser _ _ _ => λ r, match r with Ok u => Some (QDeleteUser (u_ID u)) | Err _ => None end
      | QCreateClient _ _ _ _ _ _ _ => λ r, match r with Ok c => Some (QDeleteClient (c_ID c)) | Err _ => None end
      | QCreateGroup _ => λ r, match r with Ok g => Some (QDeleteGroup (grp_ID g)) | Err _ => None end
      | QCreateIntegration _ => λ r, match r with Ok i => Some (QDeleteIntegration (ai_ID i)) | Err _ => None end
      | QCreateAWSAccount _ => λ r, match r with Ok a => Some (QDeleteAWSAccount (aa_ID a)) | Err _ => None end
      | QCreateAWSRole _ => λ r, match r with Ok a => Some (QDeleteAWSRole (ar_ID a)) | Err _ => None end
      | QCreateAWSRoleAssignment _ => λ r,
          match r with Ok a => Some (QDeleteAWSRoleAssignment (ara_ID a)) | Err _ => None end
      | _ => λ _, None
      end x
  | _ => None
  end.

(** ** Journalled before anything changes *)

(** Every change comes after an accepted entry, or after an answer that excuses
    the handler from writing one. *)
Fixpoint audit_first (excuse : event → bool) {A} (p : prog A) : Prop :=
  match p with
  | Ret _ => True
  | Vis op k => ∀ x, journal_answer (Ev op x) = Some true ∨
                     changes (Ev op x) = false ∧ (excuse (Ev op x) = true ∨ audit_first excuse (k x))
  end.

(** No answer does. *)
Definition no_excuse (e : event) : bool := false.

Lemma audit_first_bind excuse {A B} (p : prog A) (f : A → prog B) :
  audit_first excuse p → (∀ a, audit_first excuse (f a)) → audit_first excuse (bind p f).
Proof.
  intros Hp Hf. induction p as [a|X op k IH]; simpl; [done|]. intros x. destruct (Hp x) as [?|[? [?|?]]]; auto.
Qed.

(** After [logAudit] only a refusal is left to look at. *)
Lemma audit_first_log excuse {B} r a u c m (f : result unit → prog B) :
  (∀ e, audit_first excuse (f (Err e))) → audit_first excuse (bind (logAudit r a u c m) f).
Proof.
  intros Hf. unfold logAudit.
  destruct u, c; cbn;
    repeat (match goal with |- ∀ _, None = _ ∨ _ => intros ?; right; split; [done|right] end);
    intros [|]; cbn; auto.
Qed.

Lemma audit_first_path excuse {A} (p : prog A) tr a tr1 e tr2 :
  audit_first excuse p → path p tr a → tr = tr1 ++ e :: tr2 → changes e = true →
  (∃ en, Ev (OpAppend en) (Ok tt) ∈ tr1) ∨ ∃ e', e' ∈ tr1 ∧ excuse e' = true.
Proof.
  revert tr tr1. induction p as [b|X op k IH]; intros tr tr1 Hp; simpl; [by intros [-> _] ?%app_cons_not_nil|].
  intros (x & tr' & -> & Ht) Heq Hc.
  destruct tr1 as [|e1 tr1]; simplify_list_eq.
  { destruct (Hp x) as [Hj|[Hn _]]; [|congruence]. destruct op; simplify_eq/=. }
  destruct (Hp x) as [Hj|[_ [He|Hk]]].
  - left. destruct op; simplify_eq/=. destruct x as [[]|]; [|done]. eexists. by left.
  - right. eexists. split; [by left|done].
  - destruct (IH x _ tr1 Hk Ht eq_refl Hc) as [[en ?]|(e' & ? & ?)]; [left; exists en; by right|].
    right. exists e'. split; [by right|done].
Qed.

(** ** One entry for each factor removed *)

(** A second factor is removed. *)
Definition removes_factor (e : event) : bool :=
  match e with Ev (OpDb (QDeleteTOTP _)) _ | Ev (OpDb (QDeleteWebAuthnCredential _ _)) _ => true | _ => false end.

(** Every removal comes right after an accepted entry; [b] says whether the call
    before the program was one. *)
Fixpoint escorted (b : bool) {A} (p : prog A) : Prop :=
  match p with
  | Ret _ => True
  | Vis op k => ∀ x, (removes_factor (Ev op x) = true → b = true) ∧
                     escorted (bool_decide (journal_answer (Ev op x) = Some true)) (k x)
  end.

Lemma escorted_path b {A} (p : prog A) tr a n e :
  escorted b p → path p tr a → tr !! n = Some e → removes_factor e = true →
  match n with O => b = true | S m => ∃ en, tr !! m = Some (Ev (OpAppend en) (Ok tt)) end.
Proof.
  revert b tr n. induction p as [c|X op k IH]; intros b tr n Hp; simpl; [by intros [-> _] ?|].
  intros (x & tr' & -> & Ht) Hn He. destruct (Hp x) as [Hb Hk].
  destruct n as [|n]; [simplify_eq/=; by apply Hb|]. cbn in Hn.
  pose proof (IH x _ _ n Hk Ht Hn He) as Hm. destruct n as [|m]; [|exact Hm].
  apply bool_decide_eq_true in Hm. destruct op; simplify_eq/=. destruct x as [[]|]; [|done]. by eexists.
Qed.

Lemma escorted_bind b {A B} (p : prog A) (f : A → prog B) :
  escorted b p → (∀ b' a, escorted b' (f a)) → escorted b (bind p f).
Proof.
  revert b. induction p as [a|X op k IH]; intros b Hp Hf; simpl; [by apply Hf|].
  intros x. destruct (Hp x) as [Hb Hk]. auto.
Qed.

(** After [logAudit], an accepted entry escorts one removal. *)
Lemma escorted_log b {B} r a u c m (f : result unit → prog B) :
  escorted true (f (Ok tt)) → (∀ e, escorted false (f (Err e))) → escorted b (bind (logAudit r a u c m) f).
Proof.
  intros Hok Herr. unfold logAudit.
  destruct u, c; cbn; repeat (intros ?; split; [done|]);
    match goal with |- escorted _ (f ?x) => destruct x as [[]|?]; cbn end; auto.
Qed.

(** ** Undone when not journalled *)

(** What follows the creation of a row: other work, an entry, and if the journal
    refuses it, the removal of the row and the refusal of the request. *)
Fixpoint settled (q : Query unit) (p : prog Response) : Prop :=
  match p with
  | Ret _ => False
  | Vis op k => ∀ x,
      match journal_answer (Ev op x) with
      | Some true => True
      | Some false => ∃ err, k x = Vis (OpDb q) (λ _, Ret (auditFail err))
      | None => undo_of (Ev op x) = None ∧ settled q (k x)
      end
  end.

Fixpoint audit_or_undo (p : prog Response) : Prop :=
  match p with
  | Ret _ => True
  | Vis op k => ∀ x, match undo_of (Ev op x) with
                     | Some q => (∀ y, undo_of (Ev (OpDb q) y) = None) ∧ settled q (k x)
                     | None => audit_or_undo (k x)
                     end
  end.

(** Neither creates a row nor writes to the journal. *)
Definition plain_call (e : event) : Prop := undo_of e = None ∧ journal_answer e = None.

Lemma settled_bind {A} q (p : prog A) (f : A → prog Response) :
  calls plain_call p → (∀ a, settled q (f a)) → settled q (bind p f).
Proof.
  intros Hp Hf. induction p as [a|X op k IH]; cbn [bind settled]; [done|]. intros x.
  destruct (Hp x) as [[Hu ->] Hk]. auto.
Qed.

Lemma settled_log q r a u c m (f : result unit → prog Response) :
  (∀ e, ∃ err, f (Err e) = Vis (OpDb q) (λ _, Ret (auditFail err))) → settled q (bind (logAudit r a u c m) f).
Proof.
  intros Hf. unfold logAudit.
  destruct u, c; cbn; repeat (match goal with |- ∀ _, None = None ∧ _ => intros ?; split; [done|] end);
    intros [|]; cbn; auto.
Qed.

Lemma audit_or_undo_bind {A} (p : prog A) (f : A → prog Response) :
  calls (λ e, undo_of e = None) p → (∀ a, audit_or_undo (f a)) → audit_or_undo (bind p f).
Proof.
  intros Hp Hf. induction p as [a|X op k IH]; cbn [bind audit_or_undo]; [done|]. intros x.
  destruct (Hp x) as [-> ?]. auto.
Qed.

(** A settled row: the entry was accepted, or the row's removal is the last call. *)
Lemma settled_path q p tr resp :
  settled q p → path p tr resp →
  (∃ en, Ev (OpAppend en) (Ok tt) ∈ tr) ∨
  (∃ err, resp = auditFail err) ∧ ∃ tr0 x, tr = tr0 ++ [Ev (OpDb q) x] ∧ Forall (λ e, undo_of e = None) tr0.
Proof.
  revert tr. induction p as [b|X op k IH]; intros tr Hs; simpl; [done|].
  intros (x & tr' & -> & Ht). specialize (Hs x). specialize (IH x).
  destruct (journal_answer (Ev op x)) as [[]|] eqn:Hj.
  - left. destruct op; simplify_eq/=. destruct x as [[]|]; [|done]. eexists. by left.
  - right. destruct Hs as [err Hs]. rewrite Hs in Ht. destruct Ht as (y & ? & -> & -> & ->). split; [by eexists|].
    exists [Ev op x], y. split; [done|]. constructor; [|done]. by destruct op.
  - destruct Hs as [Hu Hs]. destruct (IH tr' Hs Ht) as [[en Hin]|(Hresp & tr0 & y & -> & Hf)].
    + left. exists en. by right.
    + right. split; [done|]. exists (Ev op x :: tr0), y. split; [done|]. by constructor.
Qed.

(** Every row a program created is journalled or removed by its last call. *)
Lemma audit_or_undo_path p tr resp e q :
  audit_or_undo p → path p tr resp → e ∈ tr → undo_of e = Some q →
  (∃ en, Ev (OpAppend en) (Ok tt) ∈ tr) ∨ (∃ err, resp = auditFail err) ∧ ∃ x, list.last tr = Some (Ev (OpDb q) x).
Proof.
  revert tr. induction p as [b|X op k IH]; intros tr Hs; simpl.
  { by intros [-> _] ?%not_elem_of_nil. }
  intros (x & tr' & -> & Ht) Hin He. specialize (Hs x). specialize (IH x).
  destruct (undo_of (Ev op x)) as [q'|] eqn:Hu.
  - destruct Hs as [Hq Hs]. destruct (settled_path _ _ _ _ Hs Ht) as [[en ?]|(Hresp & tr0 & y & -> & Hf)].
    { left. exists en. by right. }
    right. split; [done|]. exists y. rewrite last_cons, last_snoc.
    apply elem_of_cons in Hin as [->|Hin]; [congruence|]. apply elem_of_app in Hin as [Hin|Hin].
    + rewrite list.Forall_forall in Hf. by rewrite (Hf _ Hin) in He.
    + apply list_elem_of_singleton in Hin as ->. by rewrite Hq in He.
  - apply elem_of_cons in Hin as [->|Hin]; [congruence|].
    destruct (IH tr' Hs Ht Hin He) as [[en ?]|(Hresp & y & Hl)]; [left; exists en; by right|].
    right. split; [done|]. exists y. rewrite last_cons, Hl. done.
Qed.

(** ** Automation *)

(** Walk through a program whose changes come after an accepted entry. *)
Ltac solve_audit_first :=
  repeat first
    [ progress intros
    | exact I
    | apply audit_first_log
    | match goal with
      | |- audit_first _ (Ret _) => exact I
      | |- audit_first _ (let _ := _ in _) => cbv zeta
      | |- audit_first _ (bind (Ret _) _) => cbn [bind]
      | |- audit_first _ (bind (if ?b then _ else _) _) => destruct b
      | |- audit_first _ (bind (match ?x with _ => _ end) _) => destruct x
      | |- audit_first _ (bind _ _) => apply audit_first_bind
      | |- audit_first _ (if ?b then _ else _) => destruct b
      | |- audit_first _ (match ?x with _ => _ end) => destruct x
      | |- audit_first _ (do_op _) => intros ?; right; split; [reflexivity|right; exact I]
      | |- audit_first _ (db _) => intros ?; right; split; [reflexivity|right; exact I]
      | |- audit_first _ (?h _ _ _ _ _ _ _ _ _) => unfold h
      | |- audit_first _ (?h _ _ _ _ _ _ _ _) => unfold h
      | |- audit_first _ (?h _ _ _ _ _ _ _) => unfold h
      | |- audit_first _ (?h _ _ _ _ _ _) => unfold h
      | |- audit_first _ (?h _ _ _ _ _) => unfold h
      | |- audit_first _ (?h _ _ _ _) => unfold h
      | |- audit_first _ (?h _ _ _) => unfold h
      | |- audit_first _ (?h _ _) => unfold h
      | |- audit_first _ (?h _) => unfold h
      | |- audit_first _ ?h => unfold h
      end ].

(** Walk through a program that creates one row. *)
Ltac solve_settled :=
  repeat first
    [ progress intros
    | apply settled_log; intros; eexists; reflexivity
    | match goal with
      | |- settled _ (let _ := _ in _) => cbv zeta
      | |- settled _ (bind (Ret _) _) => cbn [bind]
      | |- settled _ (bind (if ?b then _ else _) _) => destruct b
      | |- settled _ (bind _ _) => apply settled_bind; [solve_calls_with ltac:(split; reflexivity)|]
      end ].

Ltac solve_audit_or_undo :=
  repeat first
    [ progress intros
    | exact I
    | match goal with
      | |- audit_or_undo (Ret _) => exact I
      | |- audit_or_undo (let _ := _ in _) => cbv zeta
      | |- audit_or_undo (bind (Ret _) _) => cbn [bind]
      | |- audit_or_undo (bind (if ?b then _ else _) _) => destruct b
      | |- audit_or_undo (bind (db ?q) _) =>
          lazymatch eval hnf in q with
          | QCreateUser _ _ _ => idtac | QCreateClient _ _ _ _ _ _ _ => idtac | QCreateGroup _ => idtac
          | QCreateIntegration _ => idtac | QCreateAWSAccount _ => idtac | QCreateAWSRole _ => idtac
          | QCreateAWSRoleAssignment _ => idtac
          end;
          intros [?|?]; cbn [undo_of bind]; [split; [done|solve_settled]|]
      | |- audit_or_undo (bind _ _) => apply audit_or_undo_bind; [solve_calls_with ltac:(reflexivity)|]
      | |- audit_or_undo (if ?b then _ else _) => destruct b
      | |- audit_or_undo (match ?x with _ => _ end) => destruct x
      end ].

(** ** The calls of shared steps *)

(** What provisioning calls creates no row and writes no entry. *)
Lemma downstream_plain e : downstream e → plain_call e.
Proof. destruct e as [X op x]. by destruct op; try done; destruct q. Qed.

Section steps.
  Context `{U : UnicodeTables} {dialect : Dialect} `{X : Externals}.

Lemma provisionGroup_plain op g ms : calls plain_call (provisionGroup op g ms).
Proof. eapply calls_impl; [exact downstream_plain|apply provisionGroup_calls]. Qed.

#[local] Hint Resolve provisionGroup_plain : calls.

Lemma sync_group_plain us uid sel g : calls plain_call (sync_group us uid sel g).
Proof. unfold sync_group. solve_calls_with ltac:(first [split; reflexivity|destruct (bool_decide _); split; reflexivity]). Qed.

#[local] Hint Resolve sync_group_plain : calls.

Lemma syncUserGroups_plain uid sel : calls plain_call (syncUserGroups uid sel).
Proof. unfold syncUserGroups. solve_calls_with ltac:(split; reflexivity). Qed.

Lemma renderUserForm_plain pc r u n e s sel : audit_or_undo (renderUserForm pc r u n e s sel).
Proof. intros x. exact I. Qed.

Lemma renderClientForm_plain pc c n e s sel : audit_or_undo (renderClientForm pc c n e s sel).
Proof. intros x. exact I. Qed.

End steps.

#[export] Hint Resolve syncUserGroups_plain : calls.

(** ** The contract *)

Section contract.
  Context `{U : UnicodeTables} {dialect : Dialect} `{X : Externals}.

(** The destructive and credential-weakening handlers. *)
Definition destructive (sv : Server) (pc : portalCtx) (sess : Session) (r : Request) : list (prog Response) :=
  [handlePortalAdminUserEdit pc r; handlePortalAdminUserResetPassword sv pc r;
   handlePortalAdminUserCompromisedReset sv pc r; handlePortalAdminUserDelete sv pc r;
   handlePortalAdminClientDelete pc r; handlePortalAdminClientRotate pc r; handlePortalAdminGroupDelete pc r;
   handlePortalAdminIntegrationDelete sv pc r; handlePortalAdminAWSRoleRegions sv pc r;
   handlePortalAdminAWSAssignmentDelete pc r; handleAdminUpdateUser r; handleAdminDeleteUser sv r;
   handleAdminDeleteClient r; handleAdminRotateClientSecret r; handlePortalMFATOTPDelete pc r;
   handlePortalMFAWebAuthnDelete pc r; handleTOTPDelete sess r; handleWebAuthnDelete sess r].

(** The handlers that create a row an administrator asked for. *)
Definition creating (sv : Server) (pc : portalCtx) (r : Request) : list (prog Response) :=
  [handlePortalAdminUserNew sv pc r; handlePortalAdminClientNew pc r; handlePortalAdminGroupNew pc r;
   handlePortalAdminIntegrationNew sv pc r; handlePortalAdminAWSAccountNew pc r;
   handlePortalAdminAWSRoleNew pc r; handlePortalAdminAWSAssignmentNew pc r; handleAdminCreateUser sv r;
   handleAdminCreateClient r].

Lemma destructive_audit_first sv pc sess r : Forall (audit_first no_excuse) (destructive sv pc sess r).
Proof. unfold destructive. repeat (constructor; [solve_audit_first|]). constructor. Qed.

Lemma creating_audit_or_undo sv pc r : Forall audit_or_undo (creating sv pc r).
Proof.
  unfold creating, handlePortalAdminUserNew, handlePortalAdminClientNew, handlePortalAdminGroupNew,
    handlePortalAdminIntegrationNew, handlePortalAdminAWSAccountNew, handlePortalAdminAWSRoleNew,
    handlePortalAdminAWSAssignmentNew, handleAdminCreateUser, handleAdminCreateClient, policy_First.
  repeat (constructor; [solve_audit_or_undo; auto using renderUserForm_plain, renderClientForm_plain|]).
  constructor.
Qed.

(** The lookup of the AWS account or role to be deleted failed. *)
Definition lookup_failed (e : event) : bool :=
  match e with
  | Ev op x =>
      match op in Op X return X → bool with
      | OpDb q =>
          match q in Query A return result A → bool with
          | QGetAWSAccount _ | QGetAWSRole _ => λ r, match r with Ok _ => false | Err _ => true end
          | _ => λ _, false
          end
      | _ => λ _, false
      end x
  end.

(** The two handlers that journal only what they could look up. *)
Definition deletes_found (pc : portalCtx) (r : Request) : list (prog Response) :=
  [handlePortalAdminAWSAccountDelete pc r; handlePortalAdminAWSRoleDelete pc r].

Lemma audit_found_first {A B} (q : Query A) r pc act meta (f : result unit → prog B) :
  (∀ x, changes (Ev (OpDb q) x) = false ∧ lookup_failed (Ev (OpDb q) x) = match x with Ok _ => false | Err _ => true end) →
  (∀ e, audit_first lookup_failed (f (Err e))) →
  audit_first lookup_failed (existing <- db q;; bind (audit_found r pc act existing meta) f).
Proof.
  intros Hq Hf x. right. destruct (Hq x) as [Hc Hl]. split; [done|]. rewrite Hl. destruct x as [a|e]; [|by left].
  right. by apply audit_first_log.
Qed.

Lemma deletes_found_first pc r : Forall (audit_first lookup_failed) (deletes_found pc r).
Proof.
  repeat constructor; unfold handlePortalAdminAWSAccountDelete, handlePortalAdminAWSRoleDelete;
    (destruct (uuid_Parse _); [|exact I]); (apply audit_found_first; [by intros [?|?]|by intros]).
Qed.

Lemma clear_keys_escorted b r by_ id creds : escorted b (clear_keys r by_ id creds).
Proof.
  revert b. induction creds as [|c creds IH]; intros b; [exact I|]. cbn [clear_keys].
  apply escorted_log; [|by intros]. intros x. split; [done|]. apply IH.
Qed.

Lemma clear_escorted b pc r : escorted b (handlePortalAdminUserClearMFA pc r).
Proof.
  unfold handlePortalAdminUserClearMFA. destruct (uuid_Parse _); [|exact I]. intros totp. split; [done|]. cbn [bind].
  apply escorted_bind; [|intros b' []; [|exact I]].
  - destruct totp; [|exact I]. apply escorted_log; [|by intros]. intros x. by split.
  - intros creds. split; [done|]. cbn [bind]. apply escorted_bind; [apply clear_keys_escorted|].
    intros b'' []; [|exact I]. intros y. by split.
Qed.

(** Nothing was asked of AWS, or a target is counted, or one failed. *)
Lemma revoke_targets_path sub feds n failed tr res :
  path (revoke_targets sub feds n failed) tr res →
  n ≤ res.1 ∧ (failed = true → res.2 = true) ∧ (tr = [] ∨ n < res.1 ∨ res.2 = true).
Proof.
  revert n failed tr. induction feds as [|fed feds IH]; intros n failed tr H; cbn [revoke_targets] in H.
  { destruct H as [-> ->]. cbn. split_and!; [lia|done|by left]. }
  path_call H. destruct a; apply IH in H as (H1 & H2 & _); split_and!; try lia; auto.
Qed.

(** A manual revocation is not reported without its entry. *)
Lemma revoke_reported pc r tr resp n e :
  path (handlePortalAdminUserRevokeAWS pc r) tr resp → tr !! n = Some e → changes e = true →
  (∃ en, Ev (OpAppend en) (Ok tt) ∈ tr) ∨ ∃ err, resp = auditFail err.
Proof.
  unfold handlePortalAdminUserRevokeAWS. intros H Hn Hc. path_step H; [|destruct H as [-> _]; done].
  path_step H. path_step H; [|destruct H as [-> _]; destruct n; by simplify_eq/=].
  path_call H. destruct Hcall as (ts & ? & -> & -> & ->). path_call H. apply revoke_targets_path in Hcall as (H1 & _ & Hz). path_step H.
  - exfalso. destruct H as [-> _]. rewrite app_nil_r in Hn. apply andb_true_iff in Hb as [Hr Hf].
    destruct Hz as [->|[?|Hz]]; [|lia|by rewrite Hz in Hf]. destruct n as [|[|n]]; by simplify_eq/=.
  - path_call H. apply logAudit_path in Hcall as (tr0 & en & -> & _). path_step H; destruct H as [-> ->].
    + left. exists en. destruct_unit. rewrite !elem_of_cons, !elem_of_app. do 3 right. left. right. by left.
    + right. by eexists.
Qed.

(** C27: destructive and credential-weakening actions are journalled first.  In
    every execution of the handlers of [destructive] (the admin pages' user edit,
    resets and deletion, the deletions and rotations of clients, groups,
    integrations and AWS assignments, a role's region change, the corresponding
    calls of the admin API, and the removal of a second factor), each call that
    changes the database, AWS, a downstream system or the registry comes after
    an entry the journal accepted, so a journal outage leaves everything as it
    was.  The other handlers of the kind do less, and the theorem says what: the
    deletion of an AWS account or role may also follow a failed lookup of the
    row, without an entry; the removal of all factors by an administrator writes
    an accepted entry right before each factor it removes, but clears the flag of
    the account without one; and the manual revocation of AWS sessions writes
    its entry after the revocation, so an outage leaves it done but answered
    503. *)
Theorem destructive_changes_follow_entry sv pc sess r tr resp n e :
  tr !! n = Some e → changes e = true →
  (∀ h, h ∈ destructive sv pc sess r → path h tr resp → ∃ en, Ev (OpAppend en) (Ok tt) ∈ take n tr) ∧
  (∀ h, h ∈ deletes_found pc r → path h tr resp →
     (∃ en, Ev (OpAppend en) (Ok tt) ∈ take n tr) ∨ ∃ e', e' ∈ take n tr ∧ lookup_failed e' = true) ∧
  (path (handlePortalAdminUserClearMFA pc r) tr resp → removes_factor e = true →
     ∃ m en, n = S m ∧ tr !! m = Some (Ev (OpAppend en) (Ok tt))) ∧
  (path (handlePortalAdminUserRevokeAWS pc r) tr resp →
     (∃ en, Ev (OpAppend en) (Ok tt) ∈ tr) ∨ ∃ err, resp = auditFail err).
Proof.
  intros Hn Hc. pose proof (destructive_audit_first sv pc sess r) as Hd. pose proof (deletes_found_first pc r) as Hf.
  rewrite list.Forall_forall in Hd, Hf. pose proof (eq_sym (take_drop_middle tr n e Hn)) as Htr.
  split_and!.
  - intros h Hh Hp. destruct (audit_first_path _ _ _ _ _ _ _ (Hd h Hh) Hp Htr Hc) as [?|(? & _ & ?)]; done.
  - intros h Hh Hp. exact (audit_first_path _ _ _ _ _ _ _ (Hf h Hh) Hp Htr Hc).
  - intros Hp Hr. pose proof (escorted_path false _ _ _ n e (clear_escorted _ _ _) Hp Hn Hr) as Hm.
    destruct n as [|m]; [done|]. destruct Hm as [en Hm]. by exists m, en.
  - intros Hp. exact (revoke_reported _ _ _ _ _ _ Hp Hn Hc).
Qed.

(** C28: an administrator's creation is journalled or undone.  In every
    execution of the handlers that create users, clients, groups, integrations
    and AWS accounts, roles and assignments, a row the store reported created
    is followed by an accepted journal entry, or the request is answered 503
    and its last call deletes that row. *)
Theorem admin_creation_audited_or_undone sv pc r h tr resp e q :
  h ∈ creating sv pc r → path h tr resp → e ∈ tr → undo_of e = Some q →
  (∃ en, Ev (OpAppend en) (Ok tt) ∈ tr) ∨ (∃ err, resp = auditFail err) ∧ ∃ x, list.last tr = Some (Ev (OpDb q) x).
Proof.
  intros Hh. pose proof (creating_audit_or_undo sv pc r) as Hf. rewrite list.Forall_forall in Hf.
  by apply audit_or_undo_path, Hf.
Qed.

End contract.

(** ** Witnesses *)

Definition fx_admin : portalCtx := mkPortalCtx fx_session fx_user.
Definition fx_delete : prog Response :=
  handlePortalAdminUserDelete fx_sv fx_admin (with_path_id "7" (form [])).
Lemma destructive_changes_follow_entry_witness :
  let tr := trace fx_env fx_delete fx_world in
  ∃ e, tr !! 6%nat = Some e ∧ changes e = true ∧ ∃ en, Ev (OpAppend en) (Ok tt) ∈ take 6 tr.
Proof.
  intros tr. eexists. split; [vm_compute; reflexivity|]. split; [reflexivity|].
  refine (proj1 (destructive_changes_follow_entry fx_sv fx_admin fx_session (with_path_id "7" (form []))
    tr (exec fx_env fx_delete fx_world).1 6 _ _ _) fx_delete _ _);
    [vm_compute; reflexivity|reflexivity|do 3 apply list_elem_of_further; apply list_elem_of_here|apply exec_path].
Defined.

Definition fx_group_new : prog Response := handlePortalAdminGroupNew fx_admin (form [("display_name", "ops")]).

Lemma admin_creation_audited_or_undone_witness :
  let tr := trace (fx_env_fault 5) fx_group_new fx_world in
  (∃ en, Ev (OpAppend en) (Ok tt) ∈ tr) ∨
  (∃ err, (exec (fx_env_fault 5) fx_group_new fx_world).1 = auditFail err) ∧
  ∃ x, list.last tr = Some (Ev (OpDb (QDeleteGroup 1001%N)) x).
Proof.
  intros tr.
  assert (∃ e, tr !! 1%nat = Some e ∧ undo_of e = Some (QDeleteGroup 1001%N)) as (e & He & Hu).
  { eexists. split; [vm_compute; reflexivity|vm_compute; reflexivity]. }
  apply (admin_creation_audited_or_undone fx_sv fx_admin (form [("display_name", "ops")]) fx_group_new tr
    (exec (fx_env_fault 5) fx_group_new fx_world).1 e (QDeleteGroup 1001%N));
    [do 2 apply list_elem_of_further; apply list_elem_of_here|apply exec_path|by eapply list_elem_of_lookup_2|exact Hu].
Defined.

(** A failed lookup skips the entry: the deletion of an AWS role is then not
    journalled (the same holds of accounts). *)
Example failed_lookup_deletes_unjournalled :
  let p := handlePortalAdminAWSRoleDelete fx_admin (with_path_id "7" (form [])) in
  let tr := trace (fx_env_fault 0) p fx_world in
  omap journal_answer tr = [] ∧ (λ e, changes e) <$> tr = [false; true].
Proof. vm_compute. done. Qed.
