(* ===== verification/Signing.v ===== *)
(** * Signing keys, discovery and logout tokens

    [internal/jwt/store.go] (the key row behind the signer), [discovery.go] (the
    two public documents) and the push half of [backchannel_logout.go].  RSA
    keys are opaque: generation is an effect, encoding and parsing are
    [Externals], envelope encryption is an effect. *)
From S2P Require Import Prelude GoStrings GoNet Model Dialect Policy Tables SqliteUsers SqliteTokens SqliteAws Store Pkce Prog.
From S2P Require Import SingleUse Server Provision Awsfed Fixture Mfa Portal PortalFacts.

Local Open Scope Z_scope.
Local Open Scope prog_scope.

(** [bjwt.Signer]: the private key, its identifier and the issuer. *)
Record Signer : Type := mkSigner { sg_Key : string; sg_KID : string; sg_Issuer : string }.

(** [hex.EncodeToString]: lower case. *)
Definition hex_lower (n : N) : ascii := ascii_of_N (if (n <? 10)%N then 48 + n else 87 + n).

Fixpoint hex_EncodeToString (bs : list N) : string :=
  match bs with
  | [] => EmptyString
  | b :: bs => String (hex_lower (b / 16)) (String (hex_lower (b mod 16)) (hex_EncodeToString bs))
  end.

(** The first 8 bytes of the digest of the public key. *)
Definition kid_of (pubDER : string) : string := hex_EncodeToString (take 8 (Sum256 (str_bytes pubDER))).

Section signing.
  Context `{U : UnicodeTables} {dialect : Dialect} `{X : Externals}.

(** ** store.go *)

(** The private key of a row. *)
Definition open_key (k : SigningKey) : prog (result string) :=
  try der <- do_op (OpDecrypt (sk_EncryptedDEK k) (sk_EncryptedPrivateKey k)) else e => Ret (Err e);;
  Ret (match x509_ParsePKCS8 der with
       | Err e => Err e
       | Ok None => Err ErrOther
       | Ok (Some key) => Ok key
       end).

Definition decryptKey (k : SigningKey) (issuer : string) : prog (result Signer) :=
  try key <- open_key k else e => Ret (Err e);;
  Ret (Ok (mkSigner key (sk_KID k) issuer)).

Definition generateAndStore (issuer : string) : prog (result Signer) :=
  try priv <- do_op OpRSAKey else e => Ret (Err e);;
  match x509_MarshalPKCS8 priv with
  | Err e => Ret (Err e)
  | Ok der =>
  try enc <- do_op (OpEncrypt der) else e => Ret (Err e);;
  match x509_MarshalPKIX priv with
  | Err e => Ret (Err e)
  | Ok pubDER =>
      let kid := kid_of pubDER in
      id <- newUUID;;
      try _u <- db (QCreateSigningKey {| sk_ID := id; sk_EncryptedPrivateKey := enc.1; sk_EncryptedDEK := enc.2;
                      sk_Algorithm := "RS256"; sk_KID := kid; sk_Active := true; sk_CreatedAt := 0 |})
        else e => Ret (Err e);;
      Ret (Ok (mkSigner priv kid issuer))
  end end.

Definition LoadOrCreate (issuer : string) : prog (result Signer) :=
  k <- db QGetActiveSigningKey;;
  match k with
  | Ok k => decryptKey k issuer
  | Err ErrNotFound => generateAndStore issuer
  | Err e => Ret (Err e)
  end.

(** The loop of [BuildJWKS]: it stops at the first key it cannot open. *)
Fixpoint jwks_go (keys : list SigningKey) : prog (result (list JVal)) :=
  match keys with
  | [] => Ret (Ok [])
  | k :: keys =>
      try key <- open_key k else e => Ret (Err e);;
      try rest <- jwks_go keys else e => Ret (Err e);;
      Ret (Ok (PublicKeyToJWK key (sk_KID k) :: rest))
  end.

Definition BuildJWKS : prog (result (list JVal)) :=
  try keys <- db QListActiveSigningKeys else e => Ret (Err e);;
  jwks_go keys.

(** ** discovery.go *)

Definition handleDiscovery (sv : Server) (r : Request) : prog Response :=
  let at_ p := JStr (srv_issuer sv +:+ p) in
  Ret (writeJSON StatusOK
    [("issuer", JStr (srv_issuer sv)); ("authorization_endpoint", at_ "/authorize");
     ("token_endpoint", at_ "/token"); ("userinfo_endpoint", at_ "/userinfo");
     ("jwks_uri", at_ "/.well-known/jwks.json"); ("revocation_endpoint", at_ "/revoke");
     ("device_authorization_endpoint", at_ "/device_authorization");
     ("response_types_supported", JStrs ["code"]); ("subject_types_supported", JStrs ["public"]);
     ("id_token_signing_alg_values_supported", JStrs ["RS256"]);
     ("scopes_supported", JStrs ["openid"; "profile"; "email"; "offline_access"; "groups"]);
     ("token_endpoint_auth_methods_supported", JStrs ["client_secret_post"; "client_secret_basic"]);
     ("claims_supported", JStrs ["sub"; "iss"; "aud"; "exp"; "iat"; "email"; "name"; "preferred_username"; "groups"]);
     ("grant_types_supported", JStrs ["authorization_code"; "refresh_token"; "client_credentials";
                                      "urn:ietf:params:oauth:grant-type:device_code"]);
     ("code_challenge_methods_supported", JStrs ["S256"])]).

Definition handleJWKS (r : Request) : prog Response :=
  try jwks <- BuildJWKS else _e =>
    Ret (writeError StatusInternalServerError "server_error" "failed to build JWKS");;
  Ret (writeJSON StatusOK [("keys", JArr jwks)]).

(** ** backchannel_logout.go *)

Definition logoutScope (sid : string) : string := if bool_decide (sid = "") then "user" else "session".

(** The request is the one whose handler started the push. *)
Definition pushLogoutToken (r : Request) (clientDBID : uuid) (logoutURI clientID : string) (sub : uuid)
    (sid : string) : prog unit :=
  let log meta := logAudit r ActionBackchannelLogout None (Some clientDBID) meta;;; Ret tt in
  id <- newUUID;;
  let jti := uuid_String id in
  t <- now;;
  try token <- do_op (OpMintLogout {| lc_Aud := clientID; lc_Sub := sub; lc_SID := sid; lc_JTI := id;
                                      lc_IssuedAt := t |})
    else e => log [("status", MStr "mint_failed"); ("err", MStr (err_Error e)); ("jti", MStr jti)];;
  match url_Parse logoutURI with
  | Err e =>
      log [("status", MStr "build_failed"); ("err", MStr (err_Error e)); ("jti", MStr jti); ("uri", MStr logoutURI)]
  | Ok _ =>
      try resp <- do_op (OpHTTP (mkHTTPRequest "POST" logoutURI "" (FormBody [("logout_token", token)])))
        else e => log [("status", MStr "dial_failed"); ("err", MStr (err_Error e)); ("jti", MStr jti);
                       ("uri", MStr logoutURI)];;
      if (hs_Status resp <? 200) || (300 <=? hs_Status resp) then
        log [("status", MStr "http_error"); ("http_status", MInt (hs_Status resp)); ("jti", MStr jti);
             ("uri", MStr logoutURI)]
      else
        log [("status", MStr "ok"); ("http_status", MInt (hs_Status resp)); ("jti", MStr jti);
             ("uri", MStr logoutURI); ("scope", MStr (logoutScope sid))]
  end.

(** The goroutine an outbox entry stands for. *)
Definition run_outbound (r : Request) (o : Outbound) : prog unit :=
  match o with
  | PushLogout clientDBID uri clientID sub sid => pushLogoutToken r clientDBID uri clientID sub sid
  end.

End signing.

#[global] Arguments open_key : simpl never.
#[global] Arguments LoadOrCreate : simpl never.
#[global] Arguments BuildJWKS : simpl never.
