(* ===== verification/SigningFacts.v ===== *)
(** * The signing key survives a restart

    The first start generates a key pair and stores it encrypted; every later
    start loads the same key under the same identifier, and the public key set
    lists it, so that tokens signed before a restart verify after it. *)
From S2P Require Import Prelude GoStrings GoNet Model Dialect Policy Tables SqliteUsers SqliteTokens SqliteAws Store Pkce Prog.
From S2P Require Import SingleUse Server Provision Awsfed Fixture Mfa Portal PortalFacts Signing.

Local Open Scope Z_scope.
Local Open Scope prog_scope.

Section signing.
  Context `{U : UnicodeTables} {dialect : Dialect} `{X : Externals} (env : Env) (Hrel : reliable env).

(** Envelope encryption: decryption is a function of its arguments and undoes
    encryption; and a private key survives its PKCS#8 encoding. *)
Definition envelope : Prop :=
  (∀ n m dek ct, env_decrypt env n dek ct = env_decrypt env m dek ct) ∧
  (∀ n m plain ct dek, env_encrypt env n plain = Ok (ct, dek) → env_decrypt env m dek ct = Ok plain).
Definition pkcs8 : Prop :=
  ∀ key der, x509_MarshalPKCS8 key = Ok der → x509_ParsePKCS8 der = Ok (Some key).

(** The private key of a row, or why it does not open. *)
Definition key_of (k : SigningKey) : result string :=
  match env_decrypt env 0 (sk_EncryptedDEK k) (sk_EncryptedPrivateKey k) with
  | Err e => Err e
  | Ok der =>
      match x509_ParsePKCS8 der with Err e => Err e | Ok None => Err ErrOther | Ok (Some key) => Ok key end
  end.

Lemma exec_open_key k w : envelope → exec env (open_key k) w = (key_of k, tick w).
Proof.
  intros [Hdet _]. unfold open_key, key_of. cbn [exec bind do_op step_op]. rewrite (Hdet (w_step w) 0%nat).
  by destruct (env_decrypt env 0 _ _).
Qed.

Lemma exec_decryptKey k issuer w :
  envelope →
  exec env (decryptKey k issuer) w
  = (match key_of k with Ok key => Ok (mkSigner key (sk_KID k) issuer) | Err e => Err e end, tick w).
Proof. intros He. unfold decryptKey. rewrite exec_bind, exec_open_key by done. cbn [fst snd]. by destruct (key_of k). Qed.

(** The newest active row of the table opens to [key] under [kid]. *)
Definition serves (keys : gmap uuid SigningKey) (key kid : string) : Prop :=
  ∃ k, head (rows_by (λ k, - sk_CreatedAt k) sk_Active keys) = Some k ∧ key_of k = Ok key ∧ sk_KID k = kid.

(** A table without active rows that gets one. *)
Lemma rows_by_first {A} (key : A → Z) b (m : gmap uuid A) i x :
  rows_by key b m = [] → b x = true → head (rows_by key b (<[i := x]> m)) = Some x.
Proof.
  intros Hm Hb. destruct (rows_by key b (<[i:=x]> m)) as [|y rest] eqn:Hr; simpl.
  - assert (x ∈ rows_by key b (<[i:=x]> m)) as Hx; [|by rewrite Hr in Hx; apply not_elem_of_nil in Hx].
    apply elem_rows_by. split; [done|]. exists i. apply lookup_insert_eq.
  - assert (y ∈ rows_by key b (<[i:=x]> m)) as Hy by (rewrite Hr; left).
    apply elem_rows_by in Hy as [Hby [j Hj]]. apply lookup_insert_Some in Hj as [[_ ->]|[_ Hj]]; [done|].
    assert (y ∈ rows_by key b m) as Hy' by (apply elem_rows_by; eauto). rewrite Hm in Hy'.
    by apply not_elem_of_nil in Hy'.
Qed.

Lemma generateAndStore_serves issuer w sg w1 :
  envelope → pkcs8 → rows_by (λ k, - sk_CreatedAt k) sk_Active (db_signing_keys (w_db w)) = [] →
  exec env (generateAndStore issuer) w = (Ok sg, w1) →
  serves (db_signing_keys (w_db w1)) (sg_Key sg) (sg_KID sg).
Proof.
  intros [Hdet Henc] Hpk Hnone. unfold generateAndStore. cbn [exec bind do_op step_op newUUID].
  destruct (env_rsakey env _) as [priv|]; [|done]. destruct (x509_MarshalPKCS8 priv) as [der|] eqn:Hder; [|done].
  cbn [exec bind do_op step_op newUUID]. destruct (env_encrypt env _ der) as [[ct dek]|] eqn:Hct; [|done].
  destruct (x509_MarshalPKIX priv) as [pub|]; [|done]. cbn [exec bind do_op step_op newUUID].
  rewrite exec_db by done. cbn [run_query]. unfold CreateSigningKey.
  destruct (_ || _); cbn [fst snd exec]; [done|]. intros [= <- <-]. eexists. split.
  { cbn [w_db]. apply rows_by_first; done. }
  split; [|done]. unfold key_of. simpl. by rewrite (Henc _ _ _ _ _ Hct), (Hpk _ _ Hder).
Qed.

Lemma LoadOrCreate_serves issuer w sg w1 :
  envelope → pkcs8 → exec env (LoadOrCreate issuer) w = (Ok sg, w1) →
  serves (db_signing_keys (w_db w1)) (sg_Key sg) (sg_KID sg).
Proof.
  intros Henv Hpk. unfold LoadOrCreate. rewrite exec_db by done. cbn [run_query reading fst snd].
  unfold GetActiveSigningKey. destruct (rows_by _ _ _) as [|k rest] eqn:Hrows; cbn [head one_row].
  - by apply generateAndStore_serves.
  - rewrite exec_decryptKey by done. destruct (key_of k) as [key|] eqn:Hk; [|done]. intros [= <- <-].
    exists k. split; [|done]. cbn [w_db tick]. by rewrite Hrows.
Qed.

Lemma serves_LoadOrCreate issuer w key kid :
  envelope → serves (db_signing_keys (w_db w)) key kid →
  (exec env (LoadOrCreate issuer) w).1 = Ok (mkSigner key kid issuer).
Proof.
  intros Henv (k & Hh & Hk & <-). unfold LoadOrCreate. rewrite exec_db by done. cbn [run_query reading fst snd].
  unfold GetActiveSigningKey. rewrite Hh. cbn [one_row]. rewrite exec_decryptKey by done. by rewrite Hk.
Qed.

Lemma exec_jwks_go keys w :
  envelope → Forall (λ k, ∃ key, key_of k = Ok key) keys →
  ∃ jwks, (exec env (jwks_go keys) w).1 = Ok jwks ∧
    ∀ k key, k ∈ keys → key_of k = Ok key → PublicKeyToJWK key (sk_KID k) ∈ jwks.
Proof.
  intros Henv Hall. revert w. induction Hall as [|k keys [key Hk] _ IH]; intros w; cbn [jwks_go].
  { exists []. split; [done|]. set_solver. }
  rewrite exec_bind, exec_open_key by done. cbn [fst snd]. rewrite Hk, exec_bind.
  destruct (IH (tick w)) as (jwks & -> & Hin). eexists. split; [reflexivity|].
  intros k' key' [->|Hk']%elem_of_cons Hkey; [rewrite Hk in Hkey; simplify_eq; left|right; by apply Hin].
Qed.

(** C31: Once a start has answered a signer, every later start whose signing-key
    table is the one it left, with whatever else changed in between, answers the
    same private key under the same identifier; and if the active rows of the
    table open, the key set published at [/.well-known/jwks.json] is built and
    lists that key.  (Envelope encryption is deterministic to open and undoes
    itself, PKCS#8 encoding likewise, and no store call fails.) *)
Theorem signing_key_survives_restart w issuer sg w1 w2 issuer' :
  envelope → pkcs8 →
  exec env (LoadOrCreate issuer) w = (Ok sg, w1) →
  db_signing_keys (w_db w2) = db_signing_keys (w_db w1) →
  (exec env (LoadOrCreate issuer') w2).1 = Ok (mkSigner (sg_Key sg) (sg_KID sg) issuer') ∧
  ((∀ id k, db_signing_keys (w_db w2) !! id = Some k → sk_Active k = true → ∃ key, key_of k = Ok key) →
   ∃ jwks, (exec env BuildJWKS w2).1 = Ok jwks ∧ PublicKeyToJWK (sg_Key sg) (sg_KID sg) ∈ jwks).
Proof.
  intros Henv Hpk Hex Heq. apply LoadOrCreate_serves in Hex; [|done|done]. rewrite <- Heq in Hex.
  split; [by apply serves_LoadOrCreate|]. intros Hopen. unfold BuildJWKS.
  rewrite exec_db by done. cbn [run_query reading fst snd]. unfold ListActiveSigningKeys.
  destruct Hex as (k & Hh & Hk & <-).
  edestruct exec_jwks_go as (jwks & Hj & Hin); [done| |].
  2: { exists jwks. split; [exact Hj|]. apply Hin; [by apply head_Some_elem_of|done]. }
  apply list.Forall_forall. intros k' [Ha [id Hid]]%elem_rows_by. by eapply Hopen.
Qed.

End signing.

(** ** Witness: an empty table; the key is generated, then loaded. *)

Definition fx_first_start : result Signer * World := exec fx_env (LoadOrCreate "https://idp") fx_world.

Lemma signing_key_survives_restart_witness :
  ∃ sg, fx_first_start.1 = Ok sg ∧
    (exec fx_env (LoadOrCreate "https://new") fx_first_start.2).1 = Ok (mkSigner (sg_Key sg) (sg_KID sg) "https://new").
Proof.
  exists (mkSigner "rsa" (kid_of "pub:rsa") "https://idp"). split; [vm_compute; reflexivity|].
  apply (signing_key_survives_restart fx_env fx_reliable fx_world "https://idp"
    (mkSigner "rsa" (kid_of "pub:rsa") "https://idp") fx_first_start.2 fx_first_start.2 "https://new").
  - split; [done|]. intros n m plain ct dek [= <- <-]. done.
  - intros key der [= <-]. by destruct key.
  - vm_compute. reflexivity.
  - done.
Defined.
