(* ===== verification/Interfaces.v ===== *)
(** * The store's interfaces and what stands behind them

    [store.Store] embeds eleven interfaces; the packages below the API take
    narrower ones: [mfa] takes [store.MFAStore], [jwt] takes
    [store.SigningKeyStore], and [scim], [awsfed] and [provision] declare
    subsets of their own.  An interface is the set of its methods, a predicate
    on [Query].  The Go compiler checks that a package calls nothing outside the
    interface it is given; here the programs of the model are shown to, and what
    follows for the tables: each method writes only the tables listed for it
    ([touches_sound]), so a package can only change the tables behind its
    interface, however its calls interleave with others and whatever fails. *)

From S2P Require Import Prelude GoStrings Model Dialect Tables Store Prog Server Provision Awsfed Mfa WebAuthn Signing Fixture.

(** ** The interfaces of store.go *)

(** An interface is the set of its methods. *)
Definition UserStore {A} (q : Query A) : bool :=
  match q with
  | QCreateUser _ _ _ | QGetUserByID _ | QGetUserByEmail _ | QCountUsers | QListUsers | QUpdateUser _ _ _
  | QUpdateUserPassword _ _ | QSetUserMustChangePassword _ _ | QUpdateUserMFAEnabled _ _
  | QUpdateUserFailedAttempts _ _ _ | QSetUserActive _ _ | QSetUserSCIMExternalID _ _ | QSetUserAdmin _ _
  | QDeleteUser _ => true
  | _ => false
  end.

Definition ClientStore {A} (q : Query A) : bool :=
  match q with
  | QCreateClient _ _ _ _ _ _ _ | QGetClientByID _ | QGetClientByClientID _ | QListClients
  | QUpdateClient _ _ _ _ _ _ | QUpdateClientDeviceGrant _ _ | QUpdateClientSecret _ _ | QDeleteClient _
  | QUpdateClientPortalConfig _ _ _ _ _ _ | QReplaceClientVisibility _ _ | QListClientVisibility _
  | QListPortalClientsForUser _ => true
  | _ => false
  end.

Definition GrantStore {A} (q : Query A) : bool :=
  match q with
  | QCreateGrant _ | QGetGrantByCodeHash _ | QMarkGrantUsed _ | QDeleteExpiredGrants => true
  | _ => false
  end.

Definition SessionStore {A} (q : Query A) : bool :=
  match q with
  | QCreateSession _ | QMarkSessionMFA _ _ | QGetSessionByAccessTokenHash _ | QGetSessionByRefreshTokenHash _
  | QUpdateSessionActivity _ _ | QExtendSessionExpiry _ _ | QRotateRefreshToken _ _ _ _ _ _
  | QGetSessionByRetiredRefreshTokenHash _ | QDeleteSession _ | QDeleteSessionsByUserID _
  | QListSessionClientIDsByUser _ | QDeleteExpiredSessions => true
  | _ => false
  end.

Definition MFAStore {A} (q : Query A) : bool :=
  match q with
  | QCreateTOTPCredential _ | QGetTOTPByUserID _ | QEnableTOTP _ | QDeleteTOTP _
  | QCreateWebAuthnCredential _ | QListWebAuthnCredentials _ | QUpdateWebAuthnCredentialUse _ _ _ _ _
  | QDeleteWebAuthnCredential _ _ | QCreateWebAuthnSession _ _ _ | QGetWebAuthnSession _ _ _
  | QDeleteWebAuthnSession _ => true
  | _ => false
  end.

Definition GroupStore {A} (q : Query A) : bool :=
  match q with
  | QCreateGroup _ | QGetGroupByID _ | QListGroups | QUpdateGroup _ _ | QReplaceGroupMembers _ _
  | QAddGroupMember _ _ | QRemoveGroupMember _ _ | QDeleteGroup _ => true
  | _ => false
  end.

Definition SigningKeyStore {A} (q : Query A) : bool :=
  match q with
  | QCreateSigningKey _ | QGetActiveSigningKey | QListActiveSigningKeys | QDeactivateSigningKey _ => true
  | _ => false
  end.

Definition ExternalIDStore {A} (q : Query A) : bool :=
  match q with
  | QGetExternalID _ _ | QSetExternalID _ _ _ | QDeleteExternalID _ _ => true
  | _ => false
  end.

Definition IntegrationStore {A} (q : Query A) : bool :=
  match q with
  | QCreateIntegration _ | QGetIntegration _ | QGetIntegrationByName _ | QListIntegrations
  | QListEnabledIntegrations | QUpdateIntegration _ | QDeleteIntegration _ => true
  | _ => false
  end.

Definition AWSFederationStore {A} (q : Query A) : bool :=
  match q with
  | QCreateAWSAccount _ | QGetAWSAccount _ | QListAWSAccounts | QUpdateAWSAccount _ | QDeleteAWSAccount _
  | QCreateAWSRole _ | QGetAWSRole _ | QListAWSRoles | QUpdateAWSRole _ | QDeleteAWSRole _
  | QCreateAWSRoleAssignment _ | QListAWSRoleAssignments | QListAWSRolesForUser _ | QDeleteAWSRoleAssignment _
  | QAddAWSRevokedUser _ _ | QListAWSRevokedUsers _ | QListAWSRevokedUsersOlderThan _
  | QDeleteAWSRevokedUser _ _ => true
  | _ => false
  end.

Definition DeviceGrantStore {A} (q : Query A) : bool :=
  match q with
  | QCreateDeviceGrant _ | QGetDeviceGrantByDeviceCodeHash _ | QGetDeviceGrantByUserCodeHash _
  | QMarkDeviceGrantApproved _ _ _ _ _ | QMarkDeviceGrantDenied _ _ | QMarkDeviceGrantRedeemed _
  | QUpdateDeviceGrantPoll _ _ _ | QDeleteExpiredDeviceGrants => true
  | _ => false
  end.

(** [Store] embeds them all. *)
Definition StoreInterfaces {A} (q : Query A) : list bool :=
  [UserStore q; ClientStore q; GrantStore q; SessionStore q; MFAStore q; GroupStore q; SigningKeyStore q; ExternalIDStore q; IntegrationStore q; AWSFederationStore q; DeviceGrantStore q].

(** Every method of the model's store is declared by exactly one of them. *)
Lemma declared_once {A} (q : Query A) : length (filter Is_true (StoreInterfaces q)) = 1%nat.
Proof. by destruct q. Qed.

(** ** The subsets the packages declare for themselves *)

(** [scim.IDStore]. *)
Definition scim_IDStore {A} (q : Query A) : bool :=
  match q with
  | QGetExternalID _ _ | QSetExternalID _ _ _ | QDeleteExternalID _ _ => true
  | _ => false
  end.

(** [awsfed.Store]. *)
Definition awsfed_Store {A} (q : Query A) : bool :=
  match q with
  | QListAWSRoles | QGetAWSRole _ | QAddAWSRevokedUser _ _ | QListAWSRevokedUsers _
  | QListAWSRevokedUsersOlderThan _ | QDeleteAWSRevokedUser _ _ => true
  | _ => false
  end.

(** [provision.SyncStore]. *)
Definition SyncStore {A} (q : Query A) : bool :=
  match q with
  | QListUsers | QListGroups => true
  | _ => false
  end.

(** ** Which tables a method writes *)

Inductive Table : Set :=
| T_users | T_clients | T_client_visibility | T_grants | T_sessions | T_retired_refresh_tokens
| T_totp_credentials | T_webauthn_credentials | T_webauthn_sessions | T_scim_groups
| T_scim_group_members | T_device_grants | T_aws_accounts | T_aws_roles | T_aws_role_assignments
| T_aws_revoked_users | T_external_ids | T_signing_keys | T_app_integrations.

#[export] Instance Table_eq_dec : EqDecision Table.
Proof. solve_decision. Defined.

(** The tables a method may write, those of its cascades included. *)
Definition touches {A} (q : Query A) : list Table :=
  match q with
  | QCreateUser _ _ _ | QUpdateUser _ _ _ | QUpdateUserPassword _ _ | QSetUserMustChangePassword _ _
  | QUpdateUserMFAEnabled _ _ | QUpdateUserFailedAttempts _ _ _ | QSetUserActive _ _
  | QSetUserSCIMExternalID _ _ | QSetUserAdmin _ _ => [T_users]
  | QDeleteUser _ =>
      [T_users; T_grants; T_sessions; T_retired_refresh_tokens; T_totp_credentials; T_webauthn_credentials;
       T_webauthn_sessions; T_scim_group_members; T_external_ids; T_device_grants]
  | QCreateClient _ _ _ _ _ _ _ | QUpdateClient _ _ _ _ _ _ | QUpdateClientDeviceGrant _ _
  | QUpdateClientSecret _ _ | QUpdateClientPortalConfig _ _ _ _ _ _ => [T_clients]
  | QDeleteClient _ =>
      [T_clients; T_grants; T_sessions; T_retired_refresh_tokens; T_client_visibility; T_device_grants]
  | QReplaceClientVisibility _ _ => [T_client_visibility]
  | QCreateGroup _ | QUpdateGroup _ _ => [T_scim_groups]
  | QReplaceGroupMembers _ _ | QAddGroupMember _ _ | QRemoveGroupMember _ _ => [T_scim_group_members]
  | QDeleteGroup _ => [T_scim_groups; T_scim_group_members; T_client_visibility; T_aws_role_assignments]
  | QCreateTOTPCredential _ | QEnableTOTP _ | QDeleteTOTP _ => [T_totp_credentials]
  | QCreateWebAuthnCredential _ | QUpdateWebAuthnCredentialUse _ _ _ _ _ | QDeleteWebAuthnCredential _ _ =>
      [T_webauthn_credentials]
  | QCreateWebAuthnSession _ _ _ | QDeleteWebAuthnSession _ => [T_webauthn_sessions]
  | QCreateGrant _ | QMarkGrantUsed _ | QDeleteExpiredGrants => [T_grants]
  | QCreateSession _ | QMarkSessionMFA _ _ | QUpdateSessionActivity _ _ | QExtendSessionExpiry _ _ => [T_sessions]
  | QRotateRefreshToken _ _ _ _ _ _ | QDeleteSession _ | QDeleteSessionsByUserID _ | QDeleteExpiredSessions =>
      [T_sessions; T_retired_refresh_tokens]
  | QCreateDeviceGrant _ | QMarkDeviceGrantApproved _ _ _ _ _ | QMarkDeviceGrantDenied _ _
  | QMarkDeviceGrantRedeemed _ | QUpdateDeviceGrantPoll _ _ _ | QDeleteExpiredDeviceGrants => [T_device_grants]
  | QCreateAWSAccount _ | QUpdateAWSAccount _ => [T_aws_accounts]
  | QDeleteAWSAccount _ => [T_aws_accounts; T_aws_roles; T_aws_role_assignments; T_aws_revoked_users]
  | QCreateAWSRole _ | QUpdateAWSRole _ => [T_aws_roles]
  | QDeleteAWSRole _ => [T_aws_roles; T_aws_role_assignments; T_aws_revoked_users]
  | QCreateAWSRoleAssignment _ | QDeleteAWSRoleAssignment _ => [T_aws_role_assignments]
  | QAddAWSRevokedUser _ _ | QDeleteAWSRevokedUser _ _ => [T_aws_revoked_users]
  | QSetExternalID _ _ _ | QDeleteExternalID _ _ => [T_external_ids]
  | QCreateSigningKey _ | QDeactivateSigningKey _ => [T_signing_keys]
  | QCreateIntegration _ | QUpdateIntegration _ | QDeleteIntegration _ => [T_app_integrations]
  | _ => []
  end.

(** The database [d'] agrees with [d] on a table. *)
Definition same_table (t : Table) (d d' : DB) : Prop :=
  match t with
  | T_users => db_users d' = db_users d
  | T_clients => db_clients d' = db_clients d
  | T_client_visibility => db_client_visibility d' = db_client_visibility d
  | T_grants => db_grants d' = db_grants d
  | T_sessions => db_sessions d' = db_sessions d
  | T_retired_refresh_tokens => db_retired_refresh_tokens d' = db_retired_refresh_tokens d
  | T_totp_credentials => db_totp_credentials d' = db_totp_credentials d
  | T_webauthn_credentials => db_webauthn_credentials d' = db_webauthn_credentials d
  | T_webauthn_sessions => db_webauthn_sessions d' = db_webauthn_sessions d
  | T_scim_groups => db_scim_groups d' = db_scim_groups d
  | T_scim_group_members => db_scim_group_members d' = db_scim_group_members d
  | T_device_grants => db_device_grants d' = db_device_grants d
  | T_aws_accounts => db_aws_accounts d' = db_aws_accounts d
  | T_aws_roles => db_aws_roles d' = db_aws_roles d
  | T_aws_role_assignments => db_aws_role_assignments d' = db_aws_role_assignments d
  | T_aws_revoked_users => db_aws_revoked_users d' = db_aws_revoked_users d
  | T_external_ids => db_external_ids d' = db_external_ids d
  | T_signing_keys => db_signing_keys d' = db_signing_keys d
  | T_app_integrations => db_app_integrations d' = db_app_integrations d
  end.

(** Only the tables of [ts] differ. *)
Definition only (ts : list Table) (d d' : DB) : Prop := ∀ t, t ∉ ts → same_table t d d'.

#[export] Instance same_table_refl t : Reflexive (same_table t).
Proof. intros d. by destruct t. Qed.

#[export] Instance same_table_trans t : Transitive (same_table t).
Proof. intros d1 d2 d3. destruct t; cbn [same_table]; congruence. Qed.

#[export] Instance only_preorder ts : PreOrder (only ts).
Proof. split; [intros d t _; reflexivity|intros d1 d2 d3 H1 H2 t Ht; etrans; eauto]. Qed.

Section frame.
  Context `{UnicodeTables} {dialect : Dialect}.

(** Each method writes only its tables. *)
Lemma touches_sound {A} fresh t (q : Query A) d : only (touches q) d (run_query fresh t q d).2.
Proof.
  destruct q; cbn [run_query reading snd touches]; try reflexivity;
    repeat (autounfold with store; cbn [snd];
      match goal with
      | |- only _ _ (snd (if ?b then _ else _)) => destruct b
      | |- only _ _ (snd (match ?x with _ => _ end)) => destruct x
      end); try reflexivity;
    intros []; intros Hni; try reflexivity; exfalso; apply Hni; set_solver.
Qed.

End frame.

(** ** The packages *)

Inductive Package : Set := pkg_scim | pkg_awsfed | pkg_provision | pkg_mfa | pkg_jwt.

(** What the code of a package may call: its interface of the store, and the
    effects outside it. *)
Definition allowed (k : Package) (e : event) : bool :=
  match k, e with
  | pkg_scim, Ev (OpDb q) _ => scim_IDStore q
  | pkg_scim, Ev (OpHTTP _) _ => true
  | pkg_awsfed, Ev (OpDb q) _ => awsfed_Store q
  | pkg_awsfed, Ev (OpIAM _) _ => true
  | pkg_provision, Ev (OpDb q) _ => SyncStore q || scim_IDStore q || awsfed_Store q
  | pkg_provision, Ev (OpHTTP _) _ => true
  | pkg_provision, Ev (OpIAM _) _ => true
  | pkg_provision, Ev OpNow _ => true
  | pkg_provision, Ev OpSnapshot _ => true
  | pkg_mfa, Ev (OpDb q) _ => MFAStore q
  | pkg_mfa, Ev OpNow _ => true
  | pkg_mfa, Ev OpUUID _ => true
  | pkg_mfa, Ev (OpTOTPKey _) _ => true
  | pkg_mfa, Ev (OpEncrypt _) _ => true
  | pkg_mfa, Ev (OpDecrypt _ _) _ => true
  | pkg_mfa, Ev (OpValidateTOTP _ _) _ => true
  | pkg_mfa, Ev (OpWaBegin _ _) _ => true
  | pkg_mfa, Ev (OpWaRegister _ _ _) _ => true
  | pkg_mfa, Ev (OpWaValidate _ _ _) _ => true
  | pkg_jwt, Ev (OpDb q) _ => SigningKeyStore q
  | pkg_jwt, Ev OpUUID _ => true
  | pkg_jwt, Ev OpRSAKey _ => true
  | pkg_jwt, Ev (OpEncrypt _) _ => true
  | pkg_jwt, Ev (OpDecrypt _ _) _ => true
  | _, _ => false
  end.

(** The tables behind a package. *)
Definition behind (k : Package) : list Table :=
  match k with
  | pkg_scim => [T_external_ids]
  | pkg_awsfed => [T_aws_revoked_users]
  | pkg_provision => [T_external_ids; T_aws_revoked_users]
  | pkg_mfa => [T_totp_credentials; T_webauthn_credentials; T_webauthn_sessions]
  | pkg_jwt => [T_signing_keys]
  end.

(** The functions a package exports to the rest of the program. *)
Inductive exported `{UnicodeTables} {dialect : Dialect} `{Externals} : Package → ∀ {A}, prog A → Prop :=
| scim_User p op u gs : exported pkg_scim (Scim.push_User p op u gs)
| scim_Group p op g ms : exported pkg_scim (Scim.push_Group p op g ms)
| awsfed_User p op u gs : exported pkg_awsfed (fed_User p op u gs)
| awsfed_Group p op g ms : exported pkg_awsfed (fed_Group p op g ms)
| awsfed_Revoke p sub : exported pkg_awsfed (RevokeUser p sub)
| awsfed_Reap p t : exported pkg_awsfed (ReapExpired p t)
| provision_User op u gs : exported pkg_provision (Registry_User op u gs)
| provision_Group op g ms : exported pkg_provision (Registry_Group op g ms)
| provision_SyncAll (t : Target) : exported pkg_provision (SyncAll t)
| provision_sync : exported pkg_provision provision_sync_tick
| provision_reap : exported pkg_provision awsfed_reaper_tick
| mfa_Enroll u : exported pkg_mfa (EnrollTOTP u)
| mfa_Confirm id code : exported pkg_mfa (ConfirmTOTP id code)
| mfa_Verify id code : exported pkg_mfa (VerifyTOTP id code)
| mfa_BeginRegistration u : exported pkg_mfa (BeginRegistration u)
| mfa_FinishRegistration u id r n : exported pkg_mfa (FinishRegistration u id r n)
| mfa_BeginLogin u : exported pkg_mfa (BeginLogin u)
| mfa_FinishLogin u id r : exported pkg_mfa (FinishLogin u id r)
| jwt_LoadOrCreate issuer : exported pkg_jwt (LoadOrCreate issuer)
| jwt_BuildJWKS : exported pkg_jwt BuildJWKS.

Abbreviation within k := (calls (λ e, allowed k e = true)).

Ltac solve_within := solve_calls_with ltac:(reflexivity).

Section packages.
  Context `{U : UnicodeTables} {dialect : Dialect} `{X : Externals}.

(** What [scim] or [awsfed] may call, [provision] may. *)
Lemma allowed_provision k e :
  k = pkg_scim ∨ k = pkg_awsfed → allowed k e = true → allowed pkg_provision e = true.
Proof.
  destruct e as [? [] ?]; intros [-> | ->]; cbn [allowed]; try done; intros ->; by rewrite ?orb_true_r.
Qed.

Section scim.
  Context (p : Scim.ScimClient).

Lemma scim_do_within {A} m path body (z : A) dec : within pkg_scim (Scim.do p m path body z dec).
Proof. unfold Scim.do. solve_within. Qed.

#[local] Hint Resolve scim_do_within : calls.

Lemma scim_send_within m path body : within pkg_scim (Scim.do_ p m path body).
Proof. apply scim_do_within. Qed.

#[local] Hint Resolve scim_send_within : calls.

Lemma scim_create_within u : within pkg_scim (Scim.createUser p u).
Proof. unfold Scim.createUser. solve_within. Qed.

#[local] Hint Resolve scim_create_within : calls.

Lemma scim_resolve_within u : within pkg_scim (Scim.resolveVaultUserID p u).
Proof. unfold Scim.resolveVaultUserID, Scim.findUserByExternalID, Scim.cachedExternalID. solve_within. Qed.

#[local] Hint Resolve scim_resolve_within : calls.

Lemma scim_members_within ms : within pkg_scim (Scim.resolveGroupMembers p ms).
Proof. induction ms as [|m ms IH]; cbn [Scim.resolveGroupMembers]; solve_within. Qed.

#[local] Hint Resolve scim_members_within : calls.

Lemma scim_User_within op u gs : within pkg_scim (Scim.push_User p op u gs).
Proof.
  unfold Scim.push_User, Scim.upsertUser, Scim.patchUser, Scim.setUserActive, Scim.deleteUser,
    Scim.cachedExternalID. solve_within.
Qed.

Lemma scim_Group_within op g ms : within pkg_scim (Scim.push_Group p op g ms).
Proof. unfold Scim.push_Group, Scim.upsertGroup, Scim.deleteGroup. solve_within. Qed.

End scim.

Lemma revoke_within (roles : list AWSRole) sub e : within pkg_awsfed (revoke_roles roles sub e).
Proof.
  revert e. induction roles as [|r rs IH]; intros e; cbn [revoke_roles]; unfold revokeOneRole, collectActiveRevokedSubs; solve_within.
Qed.

#[local] Hint Resolve scim_User_within scim_Group_within revoke_within : calls.

Lemma fed_User_within p op u gs : within pkg_awsfed (fed_User p op u gs).
Proof. unfold fed_User, RevokeUser, revokeAcrossAllRoles. solve_within. Qed.

Lemma reap_rows_within id cutoff rows n : within pkg_awsfed (reap_rows id cutoff rows n).
Proof. revert n. induction rows as [|e rows IH]; intros n; cbn [reap_rows]; solve_within. Qed.

#[local] Hint Resolve fed_User_within reap_rows_within : calls.

Lemma ReapExpired_within p t : within pkg_awsfed (ReapExpired p t).
Proof. unfold ReapExpired, reap_role, repush_role, collectActiveRevokedSubs. solve_within. apply calls_for_each. solve_within. Qed.

(** The code of a target, called through the interface [Provisioner]. *)
Lemma target_User_within (t : Target) op u gs : within pkg_provision (prov_User t op u gs).
Proof.
  destruct t; [apply (calls_impl (λ e, allowed pkg_scim e = true))|apply (calls_impl (λ e, allowed pkg_awsfed e = true))];
    [intros e; apply allowed_provision; auto|apply scim_User_within|intros e; apply allowed_provision; auto|apply fed_User_within].
Qed.

Lemma target_Group_within (t : Target) op g ms : within pkg_provision (prov_Group t op g ms).
Proof.
  destruct t; [apply (calls_impl (λ e, allowed pkg_scim e = true))|exact I];
    [intros e; apply allowed_provision; auto|apply scim_Group_within].
Qed.

Lemma reap_target_within n t : within pkg_provision (ReapExpired (mkFederation n) t).
Proof.
  apply (calls_impl (λ e, allowed pkg_awsfed e = true)); [intros e; apply allowed_provision; auto|].
  apply ReapExpired_within.
Qed.

#[local] Hint Resolve target_User_within target_Group_within reap_target_within : calls.

Lemma SyncAll_within (t : Target) : within pkg_provision (SyncAll t).
Proof. unfold SyncAll. solve_within. Qed.

#[local] Hint Resolve SyncAll_within : calls.

#[local] Arguments record_use !_ _.

Lemma record_use_within creds cred : within pkg_mfa (record_use creds cred).
Proof. induction creds as [|c cs IH]; cbn [record_use]; solve_within. Qed.

Lemma jwks_within keys : within pkg_jwt (jwks_go keys).
Proof. induction keys as [|k ks IH]; cbn [jwks_go]; unfold open_key; solve_within. Qed.

#[local] Hint Resolve record_use_within jwks_within ReapExpired_within : calls.

Lemma Snapshot_within : within pkg_provision Snapshot.
Proof. unfold Snapshot. solve_within. Qed.

#[local] Hint Resolve Snapshot_within : calls.

(** Every exported function of a package stays within its interface. *)
Lemma exported_within k {A} (p : prog A) : exported k p → within k p.
Proof.
  intros []; try solve [auto with calls nocore | solve_within];
    unfold fed_Group, RevokeUser, revokeAcrossAllRoles, Registry_User, Registry_Group, Set_User, Set_Group,
      provision_sync_tick, awsfed_reaper_tick, EnrollTOTP, ConfirmTOTP, VerifyTOTP, decryptTOTPSecret,
      validateTOTP, BeginRegistration, FinishRegistration, BeginLogin, FinishLogin, LoadOrCreate,
      decryptKey, generateAndStore, open_key, BuildJWKS; solve_within.
  apply calls_for_each. solve_within.
Qed.

(** A call a package may make changes only the tables behind it. *)
Lemma allowed_only k env {B} (op : Op B) w :
  allowed k (Ev op (step_op env op w).1) = true →
  only (behind k) (w_db w) (w_db (step_op env op w).2) ∧ w_journal (step_op env op w).2 = w_journal w.
Proof.
  intros Ha. destruct op; cbn [step_op] in *; try (split; [reflexivity|done]).
  - assert (Hq : touches q ⊆ behind k) by (destruct k; destruct q; try done; set_solver).
    pose proof (touches_sound (env_uuid env (w_step w)) (env_now env (w_step w)) q (w_db w)) as Ho.
    destruct (run_query _ _ q (w_db w)) as [r d]. cbn [snd] in Ho.
    destruct (env_fault env (w_step w)); cbn [snd w_db w_journal tick]; (split; [|done]);
      try reflexivity; intros t Ht; apply Ho; set_solver.
  - by destruct k.
  - destruct (step_iam _ _) as [r m]. destruct (env_fault env (w_step w)); split; reflexivity.
Qed.

(** What is left of a program after some calls stays within, too. *)
Lemma within_rest k {A} (p q : prog A) tr : within k p → prefix_path p tr q → within k q.
Proof.
  revert p. induction tr as [|e tr IH]; intros p; cbn [prefix_path]; [by intros ? <-|].
  destruct p as [|B op c]; [done|]. intros Hc (x & -> & Hp). apply (IH (c x)); [apply Hc|done].
Qed.

(** The calls made so far are within. *)
Lemma within_made k {A} (p q : prog A) tr :
  within k p → prefix_path p tr q → Forall (λ e, allowed k e = true) tr.
Proof.
  revert p. induction tr as [|e tr IH]; intros p; cbn [prefix_path]; [done|].
  destruct p as [|B op c]; [done|]. intros Hc (x & -> & Hp). destruct (Hc x) as [Ha Hk].
  constructor; [done|by eapply IH].
Qed.


End packages.

(** ** A push beside a deletion *)

(** The creation of a user downstream, while the account is deleted. *)
Definition fx_push_pool : pool (result unit) :=
  mkPool fx_world
    [Scim.push_User (Scim.New "" "" "https://vault.example/scim/v2" "t") OpCreate fx_user [];
     db (QUpdateUserMFAEnabled 7%N true)] [].

