(* ===== verification/Boot.v ===== *)
(** * Start-up and commands

    [cmd/authd]: the validated configuration of [config.go] (every problem is
    collected, not only the first), the part of [runServe] that comes between
    the database and the listener, the relying-party parameters of WebAuthn,
    the legacy import, and the operator commands [admin user create] and
    [admin sync].  The environment and the helpers of package [envutil] are
    parameters; database connections, TLS material, NATS and the listener are
    not modelled. *)
From S2P Require Import Prelude GoStrings GoNet Model Dialect Policy Tables SqliteUsers SqliteTokens SqliteAws Store Pkce Prog.
From S2P Require Import SingleUse Server Provision Awsfed Fixture Mfa Portal PortalFacts Authorize AuthorizeFacts WebAuthn AwsConsole AdminIntegrations Signing.

Local Open Scope Z_scope.
Local Open Scope prog_scope.

(** [serveConfig]; the proxy list is kept as the text of its ranges. *)
Record serveConfig : Type := mkServeConfig {
  cfg_Issuer : string;
  cfg_Addr : string;
  cfg_AWSAudience : string;
  cfg_AWSRegions : list string;
  cfg_AWSDefaultRegion : string;
  cfg_StepUpMFATTL : Z;
  cfg_AllowRegistration : bool;
  cfg_TrustedProxies : list string;
  cfg_AuthRatePerMin : Z;
  cfg_TokenRatePerMin : Z;
  cfg_ProvisionSyncInterval : Z;
  cfg_AWSFedReapInterval : Z;
}.

Definition defaultProvisionSyncInterval : Z := Hour.
Definition defaultAWSFedReapInterval : Z := 6 * Hour.
Definition defaultStepUpMFATTL : Z := 5 * Minute.

(** [envutil] and the rest of the process environment: [os.Getenv] and the
    parsers over it ([Err] on a malformed value). *)
Class Environment : Type := {
  Getenv : string → string;
  envutil_Or : string → string → string;
  envutil_Duration : string → result Z;
  envutil_Int : string → result Z;
  envutil_CIDRList : string → result (list string);
  net_SplitHostPort : string → result (string * string);
}.

Section boot.
  Context `{U : UnicodeTables} {dialect : Dialect} `{X : Externals} `{E : Environment}.

(** ** config.go *)

Definition http_scheme (u : URL) : bool :=
  bool_decide (url_Scheme u = "https") || bool_decide (url_Scheme u = "http").

Definition parseIssuer (v : string) : result string :=
  if bool_decide (v = "") then Err ErrOther
  else match url_Parse v with
  | Err e => Err e
  | Ok u =>
      if negb (http_scheme u) then Err ErrOther
      else if bool_decide (url_Host u = "") then Err ErrOther
      else if negb (bool_decide (url_RawQuery u = "")) || negb (bool_decide (url_Fragment u = "")) then Err ErrOther
      else Ok v
  end.

Definition origin_ok (o : string) : bool :=
  match url_Parse o with
  | Err _ => false
  | Ok u => http_scheme u && negb (bool_decide (url_Host u = "")) &&
            (bool_decide (url_Path u = "") || bool_decide (url_Path u = "/")) &&
            bool_decide (url_RawQuery u = "") && bool_decide (url_Fragment u = "")
  end.

Definition validateWebAuthnOrigins (v : string) : result unit :=
  if forallb origin_ok (Fields v) then Ok tt else Err ErrOther.

(** [strconv.ParseBool]. *)
Definition ParseBool (v : string) : result bool :=
  if str_contains ["1"; "t"; "T"; "TRUE"; "true"; "True"] v then Ok true
  else if str_contains ["0"; "f"; "F"; "FALSE"; "false"; "False"] v then Ok false
  else Err ErrOther.

Definition boolEnv (key : string) : result bool :=
  let v := TrimSpace (Getenv key) in
  if bool_decide (v = "") then Ok false else ParseBool v.

Definition nonNegativeIntEnv (key : string) : result Z :=
  match envutil_Int key with
  | Err e => Err e
  | Ok n => if n <? 0 then Err ErrOther else Ok n
  end.

Definition intervalEnv (key : string) (def : Z) : result Z :=
  if bool_decide (TrimSpace (Getenv key) = "") then Ok def
  else match envutil_Duration key with
  | Err e => Err e
  | Ok d => Ok (Z.max d 0)
  end.

(** The value of a parse, or the zero value; and the problem, if any. *)
Definition or_zero {A} (zero : A) (r : result A) : A := match r with Ok a => a | Err _ => zero end.
Definition problem {A} (r : result A) : list error := match r with Ok _ => [] | Err e => [e] end.

(** The configuration, or every problem found. *)
Definition loadServeConfig : list error + serveConfig :=
  let issuer := parseIssuer (Getenv "AUTHD_ISSUER") in
  let addr := envutil_Or "AUTHD_ADDR" ":8443" in
  let regions := ParseAWSRegions (Getenv "AUTHD_AWS_REGIONS") (Getenv "AUTHD_AWS_DEFAULT_REGION") in
  let stepUp := envutil_Duration "AUTHD_STEP_UP_MFA_TTL" in
  let allowReg := boolEnv "AUTHD_ALLOW_REGISTRATION" in
  let proxies := envutil_CIDRList "AUTHD_TRUSTED_PROXIES" in
  let authRate := nonNegativeIntEnv "AUTHD_AUTH_RATE_PER_MIN" in
  let tokenRate := nonNegativeIntEnv "AUTHD_TOKEN_RATE_PER_MIN" in
  let sync := intervalEnv "AUTHD_PROVISION_SYNC_INTERVAL" defaultProvisionSyncInterval in
  let reap := intervalEnv "AUTHD_AWSFED_REAP_INTERVAL" defaultAWSFedReapInterval in
  let errs :=
    problem issuer ++ problem (net_SplitHostPort addr) ++
    (match regions with None => [ErrOther] | Some _ => [] end) ++ problem stepUp ++
    (if or_zero 0 stepUp <? 0 then [ErrOther] else []) ++ problem allowReg ++ problem proxies ++
    problem authRate ++ problem tokenRate ++ problem sync ++ problem reap ++
    problem (envutil_Duration "AUTHD_VAULT_SCIM_TIMEOUT") ++
    problem (validateWebAuthnOrigins (Getenv "AUTHD_WEBAUTHN_ORIGINS")) in
  match errs with
  | [] =>
      inr {| cfg_Issuer := or_zero "" issuer; cfg_Addr := addr; cfg_AWSAudience := Getenv "AUTHD_AWS_AUDIENCE";
             cfg_AWSRegions := (default ([], "") regions).1; cfg_AWSDefaultRegion := (default ([], "") regions).2;
             cfg_StepUpMFATTL := or_zero 0 stepUp; cfg_AllowRegistration := or_zero false allowReg;
             cfg_TrustedProxies := or_zero [] proxies; cfg_AuthRatePerMin := or_zero 0 authRate;
             cfg_TokenRatePerMin := or_zero 0 tokenRate; cfg_ProvisionSyncInterval := or_zero 0 sync;
             cfg_AWSFedReapInterval := or_zero 0 reap |}
  | _ => inl errs
  end.

(** ** The server the configuration makes ([api.New]) *)

Definition new_server (cfg : serveConfig) (scimTLS : bool) : Server :=
  {| srv_policy := New DefaultPCIRules; srv_issuer := cfg_Issuer cfg; srv_allowReg := cfg_AllowRegistration cfg;
     srv_hasSigner := true;
     srv_stepUpMFATTL := if cfg_StepUpMFATTL cfg <=? 0 then defaultStepUpMFATTL else cfg_StepUpMFATTL cfg;
     srv_awsAudience := cfg_AWSAudience cfg; srv_awsRegions := cfg_AWSRegions cfg;
     srv_awsDefaultRegion := cfg_AWSDefaultRegion cfg; srv_scimTLS := scimTLS |}.

Definition webAuthnParams (issuer : string) : string * list string :=
  match url_Parse issuer with
  | Err _ => ("localhost", [issuer])
  | Ok u =>
      if bool_decide (url_Host u = "") then ("localhost", [issuer])
      else
        (if bool_decide (Getenv "AUTHD_WEBAUTHN_RPID" = "") then url_Hostname u else Getenv "AUTHD_WEBAUTHN_RPID",
         (url_Scheme u +:+ "://" +:+ url_Host u) :: Fields (Getenv "AUTHD_WEBAUTHN_ORIGINS"))
  end.

(** Duration arithmetic truncates towards zero. *)
Definition Milliseconds (d : Z) : Z := Z.quot d 1000000.

Definition autoImportLegacyVaultEnv : prog (result unit) :=
  when negb (EqualFold (Getenv "AUTHD_VAULT_SCIM_ENABLED") "true") return Ret (Ok tt);;
  try existing <- db QListIntegrations else e => Ret (Err e);;
  when (0 <? length existing)%nat return Ret (Ok tt);;
  let baseURL := Getenv "AUTHD_VAULT_SCIM_URL" in
  let token := Getenv "AUTHD_VAULT_SCIM_TOKEN" in
  when bool_decide (baseURL = "") || bool_decide (token = "") return Ret (Ok tt);;
  try enc <- do_op (OpEncrypt token) else e => Ret (Err e);;
  let timeout := or_zero 0 (time_ParseDuration (Getenv "AUTHD_VAULT_SCIM_TIMEOUT")) in
  try _i <- db (QCreateIntegration (row_with_token (Some enc.1) (Some enc.2)
                  (new_integration Scim.ProviderName AppIntegrationProviderSCIM true
                     (mkAppIntegrationConfig baseURL (Milliseconds timeout) AppIntegrationAuthBearer))))
    else e => Ret (Err e);;
  Ret (Ok tt).

(** [runServe] from the open database to the server: the signer, the legacy
    import (not fatal) and the first load of the registry. *)
Definition boot (cfg : serveConfig) (scimTLS : bool) : prog (result (Signer * Server)) :=
  try signer <- LoadOrCreate (cfg_Issuer cfg) else e => Ret (Err e);;
  autoImportLegacyVaultEnv;;;
  let sv := new_server cfg scimTLS in
  try _u <- Reload sv else e => Ret (Err e);;
  Ret (Ok (signer, sv)).

(** ** Operator commands *)

(** [Some]: why the password is refused. *)
Definition validateNewUserPassword (pw : string) (allowWeak : bool) : prog (option string) :=
  when allowWeak return Ret None;;
  when bool_decide (pw = "") return Ret (Some "password cannot be empty");;
  v <- engine_First DefaultPCIRules (ask None None pw false);;
  Ret (pv_Message <$> v).

Definition runAdminUserCreate (email password name : string) (isAdmin allowWeak : bool) : prog (result User) :=
  weak <- validateNewUserPassword password allowWeak;;
  match weak with
  | Some _ => Ret (Err ErrOther)
  | None =>
      try hash <- HashPassword password else e => Ret (Err e);;
      let name := if bool_decide (name = "") then hd "" (Split email "@") else name in
      try user <- db (QCreateUser (ToLower email) hash name) else e => Ret (Err e);;
      try _u <- (if isAdmin then db (QSetUserAdmin (u_ID user) true) else Ret (Ok tt)) else e => Ret (Err e);;
      Ret (Ok user)
  end.

(** One row of [admin sync]: a target that cannot be built is skipped. *)
Definition sync_integration (sv : Server) (i : AppIntegration) : prog (option (Z * Z * Z * Z)) :=
  try prov <- buildProvisioner sv i else _e => Ret None;;
  counts <- SyncAll prov;;
  Ret (Some counts).

Definition runAdminSync (sv : Server) (target : string) : prog (result unit) :=
  autoImportLegacyVaultEnv;;;
  when bool_decide (target = "") return Ret (Err ErrOther);;
  try rows <- (if bool_decide (target = "all") then
                 try rows <- db QListEnabledIntegrations else e => Ret (Err e);;
                 Ret (if bool_decide (length rows = 0%nat) then Err ErrOther else Ok rows)
               else
                 try i <- db (QGetIntegrationByName target) else e => Ret (Err e);;
                 Ret (Ok [i]))
    else e => Ret (Err e);;
  for_each rows (sync_integration sv);;;
  Ret (Ok tt).

End boot.
