(* ===== verification/Serve.v ===== *)
(** * The authd process

    [runServe] of [cmd/authd/main.go] from its configuration to its exit: every
    step that can fail, the resources it defers the release of, the workers,
    the listener and the shutdown that joins them; the selection of TLS
    material from the environment; the master key; [authd migrate]; the
    limiters of [internal/api/ratelimit.go]; and the reader behind
    [authd audit query] ([cmd/authd/audit.go]).

    Packages outside the repository (the runtime set-up of [cli], TLS
    reloading, the journal, the process group) are parameters, each a function
    of the arguments the code gives it. *)
From S2P Require Import Prelude GoStrings GoNet Model Dialect Policy Tables SqliteUsers SqliteTokens SqliteAws Store Pkce Prog.
From S2P Require Import SingleUse Server Provision Awsfed Fixture Mfa Portal PortalFacts Authorize AuthorizeFacts WebAuthn AwsConsole AdminIntegrations Signing Boot.

Local Open Scope Z_scope.

(** [cli.DB]: a DSN and the files of its TLS material. *)
Record db_material : Type := mkDBMaterial { dm_URL : string; dm_CertFile : string; dm_KeyFile : string; dm_CAFile : string }.

Inductive worker : Type :=
| ProvisionSync (interval : Z)
| AWSFedReaper (interval : Z)
| DeviceGrantReaper (interval : Z).

(** A TLS configuration is kept as an opaque text; [worker_exit] is how long
    after the cancellation a worker returns, if it does. *)
Class Process : Type := {
  rt_DB : db_material;
  rt_AdminDB : db_material;
  envutil_MustEnv : string → string;
  envutil_First : list string → string;
  os_ReadFile : string → result string;
  ParseKEK : string → result string;
  reloader_ClientTLS : string → string → string → result (option string);
  btls_FromFiles : string → string → string → result (option string);
  reloader_ServerTLS : string → string → string → result string;
  cli_AuditSink : result unit;
  cli_AuditSource : result unit;
  postgres_Migrate : string → option string → result unit;
  postgres_Open : string → option string → result unit;
  NewWAHandler : string → list string → result unit;
  newTmplManager : string → result unit;
  run_Group : string → result unit;
  worker_exit : worker → option Z;
}.

(** What the process holds until it exits, in the order of acquisition. *)
Inductive resource : Set := ParentContext | CliRuntime | AuditSinkConn | AuditSourceConn | RuntimeDB.

Inductive serve_event : Type :=
| Acquired (r : resource)
| Released (r : resource)
| Migrated
| Booted
| Spawned (w : worker)
| Listened (addr : string)
| Cancelled
| Joined                                (* every worker has returned *)
| JoinTimedOut.                         (* five seconds passed, a worker may still run *)

Section serve.
  Context `{U : UnicodeTables} {dialect : Dialect} `{X : Externals} `{E : Environment} `{P : Process}.

(** ** The environment *)

Definition masterKeyFromEnv : result string :=
  let ref := envutil_MustEnv "AUTHD_MASTER_KEY" in
  match CutPrefix ref "file:" with
  | Some path =>
      match os_ReadFile path with
      | Err e => Err e
      | Ok b => ParseKEK (TrimSpace b)
      end
  | None => ParseKEK ref
  end.

Definition scimTLSFromEnv : result (option string) :=
  reloader_ClientTLS (Getenv "AUTHD_SCIM_MTLS_CERT") (Getenv "AUTHD_SCIM_MTLS_KEY")
    (envutil_First ["AUTHD_SCIM_MTLS_CA"; "AUTHD_WORKLOAD_CA"]).

Definition backchannelTLSFromEnv : result (option string) :=
  reloader_ClientTLS "" "" (envutil_First ["AUTHD_BACKCHANNEL_CA"; "AUTHD_WORKLOAD_CA"]).

Definition dbAdminTLS (m : db_material) : result (option string) :=
  btls_FromFiles (dm_CertFile m) (dm_KeyFile m) (dm_CAFile m).

Definition dbRuntimeTLS (m : db_material) : result (option string) :=
  reloader_ClientTLS (dm_CertFile m) (dm_KeyFile m) (dm_CAFile m).

Definition buildServerTLS : result string :=
  reloader_ServerTLS (Getenv "AUTHD_API_CERT") (Getenv "AUTHD_API_KEY") (Getenv "AUTHD_API_CLIENT_CA").

(** [authd migrate]. *)
Definition migrateCmd : result unit :=
  if bool_decide (dm_URL rt_AdminDB = "") then Err ErrOther
  else match dbAdminTLS rt_AdminDB with
  | Err e => Err e
  | Ok adminDBTLS => postgres_Migrate (dm_URL rt_AdminDB) adminDBTLS
  end.

(** ** Limiters *)

(** [ratelimit.Config]: the rate is [lim_PerMin / 60] a second. *)
Record limiter_config : Type := mkLimiter { lim_PerMin : Z; lim_Burst : Z; lim_TrustedProxies : list string }.

Definition defaultAuthRatePerMin : Z := 20.
Definition defaultTokenRatePerMin : Z := 120.

Definition privateRanges : list string :=
  ["127.0.0.0/8"; "::1/128"; "10.0.0.0/8"; "172.16.0.0/12"; "192.168.0.0/16"; "fc00::/7"].

Definition mergeProxies (extra : list string) : list string := privateRanges ++ extra.

Definition newLimiter (ratePerMin def : Z) (proxies : list string) : limiter_config :=
  let ratePerMin := if ratePerMin <=? 0 then def else ratePerMin in
  mkLimiter ratePerMin ratePerMin proxies.

Definition limiters (cfg : serveConfig) : limiter_config * limiter_config :=
  let proxies := mergeProxies (cfg_TrustedProxies cfg) in
  (newLimiter (cfg_AuthRatePerMin cfg) defaultAuthRatePerMin proxies,
   newLimiter (cfg_TokenRatePerMin cfg) defaultTokenRatePerMin proxies).

(** ** runServe *)

(** What happened so far, what is deferred (last first), and the world. *)
Record serving : Type := mkServing { sg_trace : list serve_event; sg_deferred : list resource; sg_world : World }.

(** A step ends the function with an error or goes on. *)
Definition serving_step (A : Type) : Type := serving → result A * serving.

Definition sg_ret {A} (a : A) : serving_step A := λ s, (Ok a, s).
Definition sg_bind {A B} (m : serving_step A) (k : A → serving_step B) : serving_step B := λ s,
  match m s with
  | (Ok a, s') => k a s'
  | (Err e, s') => (Err e, s')
  end.
Definition sg_lift {A} (r : result A) : serving_step A := λ s, (r, s).
Definition sg_emit (ev : serve_event) : serving_step unit := λ s,
  (Ok tt, mkServing (sg_trace s ++ [ev]) (sg_deferred s) (sg_world s)).
(** Acquire a resource and defer its release. *)
Definition sg_hold (r : resource) : serving_step unit := λ s,
  (Ok tt, mkServing (sg_trace s ++ [Acquired r]) (r :: sg_deferred s) (sg_world s)).
(** Run a program against the database. *)
Definition sg_exec {A} (env : Env) (p : prog (result A)) : serving_step A := λ s,
  let '(r, w) := exec env p (sg_world s) in (r, mkServing (sg_trace s) (sg_deferred s) w).

Notation "x <~ m ; k" := (sg_bind m (λ x, k)) (at level 100, m at next level, k at level 200, right associativity).
Notation "m ~; k" := (sg_bind m (λ _, k)) (at level 100, right associativity).

Fixpoint sg_each {A} (f : A → serving_step unit) (l : list A) : serving_step unit :=
  match l with
  | [] => sg_ret tt
  | x :: l => f x ~; sg_each f l
  end.

(** The background workers of a configuration. *)
Definition serve_workers (cfg : serveConfig) : list worker :=
  (if 0 <? cfg_ProvisionSyncInterval cfg then [ProvisionSync (cfg_ProvisionSyncInterval cfg)] else []) ++
  (if 0 <? cfg_AWSFedReapInterval cfg then [AWSFedReaper (cfg_AWSFedReapInterval cfg)] else []) ++
  [DeviceGrantReaper Minute].

(** The part between the open database and the listener: the signer, the
    WebAuthn handler, the legacy import (not fatal), the first load of the
    registry, and [api.New], which fails only with its templates. *)
Definition serve_boot (env : Env) (cfg : serveConfig) (scimTLS : option string) : serving_step Server :=
  _signer <~ sg_exec env (LoadOrCreate (cfg_Issuer cfg));
  sg_lift (let '(rpID, origins) := webAuthnParams (cfg_Issuer cfg) in NewWAHandler rpID origins) ~;
  sg_exec env (bind autoImportLegacyVaultEnv (λ _, Ret (Ok tt))) ~;
  let sv := new_server cfg (bool_decide (is_Some scimTLS)) in
  sg_exec env (Reload sv) ~;
  sg_lift (newTmplManager "base_sso.html") ~;
  sg_lift (newTmplManager "base_portal.html") ~;
  sg_ret sv.

(** The [select] that waits for the workers, for five seconds at most. *)
Definition join_workers (ws : list worker) : serve_event :=
  if forallb (λ w, match worker_exit w with Some d => d <? 5 * Second | None => false end) ws
  then Joined else JoinTimedOut.

Definition runServe_body (env : Env) : serving_step unit :=
  sg_hold ParentContext ~;
  sg_hold CliRuntime ~;
  cfg <~ sg_lift (match loadServeConfig with inl _ => Err ErrOther | inr cfg => Ok cfg end);
  sg_lift (if bool_decide (dm_URL rt_DB = "") then Err ErrOther else Ok tt) ~;
  _masterKey <~ sg_lift masterKeyFromEnv;
  adminDBTLS <~ sg_lift (dbAdminTLS rt_AdminDB);
  dbTLS <~ sg_lift (dbRuntimeTLS rt_DB);
  scimTLS <~ sg_lift scimTLSFromEnv;
  _backchannelTLS <~ sg_lift backchannelTLSFromEnv;
  _tlsCfg <~ sg_lift buildServerTLS;
  sg_lift cli_AuditSink ~; sg_hold AuditSinkConn ~;
  sg_lift cli_AuditSource ~; sg_hold AuditSourceConn ~;
  sg_lift (postgres_Migrate (dm_URL rt_AdminDB) adminDBTLS) ~; sg_emit Migrated ~;
  sg_lift (postgres_Open (dm_URL rt_DB) dbTLS) ~; sg_hold RuntimeDB ~;
  _srv <~ serve_boot env cfg scimTLS; sg_emit Booted ~;
  sg_each (λ w, sg_emit (Spawned w)) (serve_workers cfg) ~;
  sg_emit (Listened (cfg_Addr cfg)) ~;
  let serveErr := run_Group (cfg_Addr cfg) in
  sg_emit Cancelled ~;
  sg_emit (join_workers (serve_workers cfg)) ~;
  sg_lift serveErr.

(** The deferred calls run last in, first out, however the function returns. *)
Definition runServe (env : Env) (w : World) : result unit * list serve_event * World :=
  let '(r, s) := runServe_body env (mkServing [] [] w) in
  (r, sg_trace s ++ (Released <$> sg_deferred s), sg_world s).

(** ** Specification *)

(** The milestones of a start that gets as far as the listener. *)
Definition startup : list serve_event :=
  [Acquired ParentContext; Acquired CliRuntime; Acquired AuditSinkConn; Acquired AuditSourceConn; Migrated;
   Acquired RuntimeDB; Booted].

Definition acquired (tr : list serve_event) : list resource :=
  omap (λ ev, match ev with Acquired r => Some r | _ => None end) tr.

(** Everything acquired is released, the last first. *)
Definition releases (tr : list serve_event) : list serve_event := Released <$> reverse (acquired tr).

(** The database is reached only behind a valid configuration, key and TLS
    material. *)
Definition configured (cfg : serveConfig) : Prop :=
  loadServeConfig = inr cfg ∧ dm_URL rt_DB ≠ "" ∧ (∃ k, masterKeyFromEnv = Ok k) ∧
  (∃ t, dbAdminTLS rt_AdminDB = Ok t) ∧ (∃ t, dbRuntimeTLS rt_DB = Ok t) ∧ (∃ t, scimTLSFromEnv = Ok t) ∧
  (∃ t, backchannelTLSFromEnv = Ok t) ∧ ∃ t, buildServerTLS = Ok t.

(** ** Lemmas *)

(** How far a step gets: it leaves the milestones it passed and a deferred
    release for each resource among them. *)
Definition on_track (pre : list serve_event) (s : serving) : Prop :=
  sg_trace s = pre ∧ sg_deferred s = reverse (acquired pre).

Lemma acquired_app tr tr' : acquired (tr ++ tr') = acquired tr ++ acquired tr'.
Proof. apply omap_app. Qed.

Lemma sg_each_spawn ws s :
  sg_each (λ w, sg_emit (Spawned w)) ws s =
  (Ok tt, mkServing (sg_trace s ++ (Spawned <$> ws)) (sg_deferred s) (sg_world s)).
Proof.
  revert s. induction ws as [|w ws IH]; intros [tr df wd]; cbn; [by rewrite app_nil_r|].
  unfold sg_bind, sg_emit. rewrite IH. cbn. by rewrite <- app_assoc.
Qed.

Lemma serve_boot_trace env cfg t s :
  ∃ r w, serve_boot env cfg t s = (r, mkServing (sg_trace s) (sg_deferred s) w) ∧
         (∀ sv, r = Ok sv → sv = new_server cfg (bool_decide (is_Some t))).
Proof.
  unfold serve_boot, sg_bind, sg_exec, sg_lift, sg_ret. destruct s as [tr df w0]. cbn.
  repeat case_match; simplify_eq/=; eauto 10; try (do 2 eexists; split; [reflexivity|naive_solver]).
Qed.

(** How a run may end: at a milestone of the start, or through the listener. *)
Definition failed_start (r : result unit) (tr : list serve_event) (w w' : World) : Prop :=
  ∃ k : nat, (k < length startup)%nat ∧ r ≠ Ok tt ∧ tr = take k startup ++ releases (take k startup) ∧
       (k ≠ 6%nat → w' = w) ∧ ((2 < k)%nat → ∃ cfg, configured cfg).

Definition served (r : result unit) (tr : list serve_event) : Prop :=
  ∃ cfg, configured cfg ∧ r = run_Group (cfg_Addr cfg) ∧
    tr = startup ++ (Spawned <$> serve_workers cfg) ++
         [Listened (cfg_Addr cfg); Cancelled; join_workers (serve_workers cfg)] ++ releases startup.

Lemma failed_start_unjoined (k : nat) : (k < length startup)%nat → Joined ∉ take k startup ++ releases (take k startup).
Proof.
  intros Hk Hin. do 7 (destruct k as [|k]; [vm_compute in Hin; set_solver|]). cbn in Hk. lia.
Qed.

(** The workers that are joined have all returned in time. *)
Lemma joined_in_time cfg :
  Joined ∈ startup ++ (Spawned <$> serve_workers cfg) ++
           [Listened (cfg_Addr cfg); Cancelled; join_workers (serve_workers cfg)] ++ releases startup →
  ∀ wk, wk ∈ serve_workers cfg → ∃ d, worker_exit wk = Some d ∧ d < 5 * Second.
Proof.
  intros Hin wk Hwk. unfold join_workers in Hin. destruct (forallb _ _) eqn:Hall.
  - rewrite forallb_forall in Hall. apply list_elem_of_In in Hwk. specialize (Hall _ Hwk).
    destruct (worker_exit wk) as [d|]; [|done]. exists d. split; [done|lia].
  - exfalso. rewrite !elem_of_app, list_elem_of_fmap in Hin. unfold startup, releases in Hin. cbn in Hin.
    set_solver.
Qed.

(** A start that stops behind its first [k] milestones. *)
Ltac stops_at k := intros [= <- <- <-]; left; exists k; split_and!; first [done | cbn; lia | by eauto | idtac].

(** C32: [authd serve] is orderly on every path.  Whatever step of the start
    fails, the run reports an error, has not touched the tables before the
    database was open, has reached the journal and the database only behind a
    complete and valid configuration, never listens, and releases exactly what
    it had acquired, the last first.  If none fails, the schema is migrated
    before the database is opened, the workers of the configuration are
    started before the listener, and after it they are cancelled and waited for
    before the database and the journal are released: either every worker has
    returned by then ([Joined], exactly when each of them returns within five
    seconds), or the five seconds are over ([JoinTimedOut]) and the resources
    are closed although a worker may still be running; the result is the
    listener's. *)
Theorem serve_orderly env w r tr w' :
  runServe env w = (r, tr, w') →
  (failed_start r tr w w' ∨ served r tr) ∧
  (Joined ∈ tr → ∃ cfg, configured cfg ∧
     ∀ wk, wk ∈ serve_workers cfg → ∃ d, worker_exit wk = Some d ∧ d < 5 * Second).
Proof.
  intros H. cut (failed_start r tr w w' ∨ served r tr).
  { intros Hend. split; [exact Hend|]. intros Hj.
    destruct Hend as [(k & Hk & _ & -> & _)|(cfg & Hcfg & _ & ->)].
    { exfalso. by apply (failed_start_unjoined k). }
    exists cfg. split; [done|]. by apply joined_in_time. }
  revert H.
  unfold runServe, runServe_body, sg_bind, sg_lift, sg_hold, sg_emit, sg_ret. cbn [sg_trace sg_deferred sg_world app].
  destruct loadServeConfig as [errs|cfg] eqn:Hcfg; [stops_at 2%nat|].
  case_bool_decide as Hurl; [stops_at 2%nat|].
  destruct masterKeyFromEnv as [key|] eqn:Hkey; [|stops_at 2%nat].
  destruct (dbAdminTLS rt_AdminDB) as [adminTLS|] eqn:Hadmin; [|stops_at 2%nat].
  destruct (dbRuntimeTLS rt_DB) as [dbTLS|] eqn:Hdb; [|stops_at 2%nat].
  destruct scimTLSFromEnv as [scimTLS|] eqn:Hscim; [|stops_at 2%nat].
  destruct backchannelTLSFromEnv as [bcTLS|] eqn:Hbc; [|stops_at 2%nat].
  destruct buildServerTLS as [srvTLS|] eqn:Hsrv; [|stops_at 2%nat].
  assert (Hconf : configured cfg) by (unfold configured; split_and!; eauto).
  destruct cli_AuditSink; [|stops_at 2%nat]. destruct cli_AuditSource; [|stops_at 3%nat].
  destruct (postgres_Migrate _ adminTLS); [|stops_at 4%nat]. destruct (postgres_Open _ dbTLS); [|stops_at 5%nat].
  match goal with |- context [serve_boot env cfg scimTLS ?s] =>
    destruct (serve_boot_trace env cfg scimTLS s) as (b & w1 & -> & _) end.
  destruct b as [sv|]; [|stops_at 6%nat]. rewrite sg_each_spawn. cbn [sg_trace sg_deferred sg_world app].
  intros [= <- <- <-]. right. exists cfg. split_and!; [done..|]. by rewrite <- !app_assoc.
Qed.

End serve.

(** ** authd audit query *)

(** What the [select] of the loop finds next: the deadline of the call, two
    quiet seconds, a record, or the end of the subscription. *)
Inductive query_event : Type :=
| QueryDeadline
| QueryIdle
| QueryRecord (data : string)
| QueryClosed.

Definition newline : string := String "010" EmptyString.

(** The loop: at most [room] more records, each followed by a newline; write
    number [n] to standard output goes through if [writes n].  The result is
    what was printed and whether the command succeeded; when the events are
    used up, the deadline strikes. *)
Fixpoint query_go (writes : nat → bool) (n room : nat) (events : list query_event) : list string * result unit :=
  match room, events with
  | S room, QueryRecord data :: events =>
      if negb (writes n) then ([], Err ErrOther)
      else if negb (writes (S n)) then ([data], Err ErrOther)
      else let '(out, r) := query_go writes (S (S n)) room events in (data :: newline :: out, r)
  | _, _ => ([], Ok tt)
  end.

Section audit_query.
  (** [jetstream.NewSource] with its URL and TLS, and its subscription to the
      last [limit] records. *)
  Context `{E : Environment} `{P : Process}.
  Context (NewSource : string → option string → result unit) (Subscribe : Z → result (list query_event)).

Definition runAuditQuery (writes : nat → bool) (limit : Z) : list string * result unit :=
  let url := Getenv "AUTHD_NATS_URL" in
  if bool_decide (url = "") then ([], Err ErrOther)
  else match btls_FromFiles (Getenv "AUTHD_NATS_CERT") (Getenv "AUTHD_NATS_KEY") (Getenv "AUTHD_NATS_CA") with
  | Err e => ([], Err e)
  | Ok tlsCfg =>
      match NewSource url tlsCfg with
      | Err e => ([], Err e)
      | Ok _ =>
          match Subscribe limit with
          | Err e => ([], Err e)
          | Ok msgs => query_go writes 0 (Z.to_nat limit) msgs
          end
      end
  end.

(** The command with its flag. *)
Definition auditQueryCmd (writes : nat → bool) (limit : Z) : list string * result unit :=
  if (limit <? 1) || (1000 <? limit) then ([], Err ErrOther) else runAuditQuery writes limit.

(** The records before anything else happens. *)
Fixpoint backfill (events : list query_event) : list string :=
  match events with
  | QueryRecord data :: events => data :: backfill events
  | _ => []
  end.

(** At most [limit] records are printed, in order; all of them that arrive in
    time unless a write fails. *)
Lemma query_go_prints writes room : ∀ n events out r,
  query_go writes n room events = (out, r) →
  let lines := concat ((λ d, [d; newline]) <$> take room (backfill events)) in
  out `prefix_of` lines ∧ (r = Ok tt → out = lines) ∧ ((∀ k, writes k = true) → r = Ok tt).
Proof.
  induction room as [|room IH]; intros n [|[] events] out r H; cbn in H |- *; simplify_eq;
    try (split_and!; [apply prefix_nil|done..]).
  destruct (writes n) eqn:Hn; cbn in H.
  2: { simplify_eq. split_and!; [apply prefix_nil|done|]. intros Hw. by rewrite Hw in Hn. }
  destruct (writes (S n)) eqn:Hsn; cbn in H.
  2: { simplify_eq. split_and!; [by eexists|done|]. intros Hw. by rewrite Hw in Hsn. }
  destruct (query_go writes (S (S n)) room events) as [out' r'] eqn:Hrest. simplify_eq.
  destruct (IH _ _ _ _ Hrest) as (Hp & He & Hr). split_and!; [by do 2 apply prefix_cons| |done].
  intros Hok. by rewrite (He Hok).
Qed.

End audit_query.

(** ** Two starts *)

Definition fx_getenv (name : string) : string :=
  if bool_decide (name = "AUTHD_ISSUER") then "https://rp.example/cb" else "".

#[local] Instance fx_environment : Environment := {|
  Getenv := fx_getenv;
  envutil_Or _ def := def;
  envutil_Duration _ := Ok 0;
  envutil_Int _ := Ok 0;
  envutil_CIDRList _ := Ok [];
  net_SplitHostPort _ := Ok ("", "8443");
|}.

(** A process whose audit source may be unreachable. *)
Definition fx_process (source : result unit) : Process := {|
  rt_DB := mkDBMaterial "postgres://runtime" "" "" "";
  rt_AdminDB := mkDBMaterial "postgres://admin" "" "" "";
  envutil_MustEnv _ := "file:/run/master.key";
  envutil_First _ := "";
  os_ReadFile _ := Ok "00";
  ParseKEK k := Ok k;
  reloader_ClientTLS _ _ _ := Ok None;
  btls_FromFiles _ _ _ := Ok None;
  reloader_ServerTLS _ _ _ := Ok "self-signed";
  cli_AuditSink := Ok tt;
  cli_AuditSource := source;
  postgres_Migrate _ _ := Ok tt;
  postgres_Open _ _ := Ok tt;
  NewWAHandler _ _ := Ok tt;
  newTmplManager _ := Ok tt;
  run_Group _ := Ok tt;
  worker_exit _ := Some Second;
|}.

Lemma serve_orderly_witness :
  let fails := fx_process (Err ErrOther) in
  let good := fx_process (Ok tt) in
  (runServe (P := fails) fx_env fx_world).1 =
    (Err ErrOther,
     [Acquired ParentContext; Acquired CliRuntime; Acquired AuditSinkConn;
      Released AuditSinkConn; Released CliRuntime; Released ParentContext]) ∧
  ∃ r tr w', runServe (P := good) fx_env fx_world = (r, tr, w') ∧
    (failed_start (P := good) r tr fx_world w' ∨ served (P := good) r tr) ∧
    (∃ cfg, configured (P := good) cfg ∧
      ∀ wk, wk ∈ serve_workers cfg → ∃ d, worker_exit (Process := good) wk = Some d ∧ d < 5 * Second) ∧
    tr !! 10%nat = Some (Listened ":8443") ∧ tr !! 17%nat = Some (Released ParentContext).
Proof.
  cbv zeta. split; [vm_compute; reflexivity|].
  destruct (runServe (P := fx_process (Ok tt)) fx_env fx_world) as [[r tr] w'] eqn:H.
  exists r, tr, w'. split; [reflexivity|]. destruct (serve_orderly (P := fx_process (Ok tt)) _ _ _ _ _ H) as [H1 H2].
  split; [exact H1|]. apply (f_equal (λ x, x.1.2)) in H. cbn [fst snd] in H. rewrite <- H in H2 |- *.
  split; [|split; vm_compute; reflexivity]. apply H2.
  apply (list_elem_of_lookup_2 _ 12). vm_compute. reflexivity.
Defined.
