(* ===== verification/Journal.v ===== *)
(** * The records of the audit journal

    [internal/audit/sink.go]: the shape of an entry and its JSON, as
    [encoding/json] writes the struct and [time.Time.MarshalJSON] its time; and
    the lines [authd audit query] prints.  The sink itself, which publishes the
    text, is the effect [OpAppend]; the JSON of the metadata map is a
    parameter. *)
From S2P Require Import Prelude GoStrings GoNet Calendar Model Dialect Tables SqliteUsers SqliteTokens SqliteAws Sql PgArray SqArray Store Prog Server Fixture Boot Serve.

Local Open Scope Z_scope.

(** ** Constants *)

Definition Subject : string := "auth.audit.events".
Definition StreamName : string := "auth_audit".
Definition StreamMaxAge : Z := 400 * 24 * Hour.

(** [time.RFC3339Nano] of a UTC time. *)
Definition rfc3339 (t : Z) : string :=
  let secs := t / Second in
  date_text (secs / 86400) +:+ "T" +:+ clock_text (secs mod 86400) +:+ fraction (t mod Second) +:+ "Z".

(** ** Entries *)

(** [audit.Entry] as it is written: identifiers and the metadata are text. *)
Record AuditEntry : Type := mkAuditEntry {
  ae_ID : string;
  ae_Action : string;
  ae_UserID : string;
  ae_UserEmail : string;
  ae_UserName : string;
  ae_ClientID : string;
  ae_ClientName : string;
  ae_IP : string;
  ae_UserAgent : string;
  ae_Metadata : string;
  ae_OccurredAt : Z;
}.

Section entries.
  Context `{X : Externals} (json_Meta : list (string * MetaVal) → option string).

(** What [logAudit] makes of the data of an event. *)
Definition audit_entry (e : Entry) : AuditEntry :=
  let text (id : option uuid) := match id with Some id => uuid_String id | None => "" end in
  mkAuditEntry (uuid_String (ent_ID e)) (ent_Action e) (text (ent_UserID e)) (ent_UserEmail e) (ent_UserName e)
    (text (ent_ClientID e)) (ent_ClientName e) (ent_IP e) (ent_UserAgent e)
    (if bool_decide (ent_Metadata e = []) then "" else default "" (json_Meta (ent_Metadata e)))
    (ent_OccurredAt e).

(** One field, and one with [omitempty]. *)
Definition json_field (name text : string) : string := json_quote name +:+ ":" +:+ text.
Definition omitempty (name v : string) : list string := if bool_decide (v = "") then [] else [json_field name (json_quote v)].

(** [json.Marshal] of an entry. *)
Definition marshal_entry (e : AuditEntry) : string :=
  "{" +:+ Join
    ([json_field "id" (json_quote (ae_ID e)); json_field "action" (json_quote (ae_Action e))] ++
     omitempty "user_id" (ae_UserID e) ++ omitempty "user_email" (ae_UserEmail e) ++
     omitempty "user_name" (ae_UserName e) ++ omitempty "client_id" (ae_ClientID e) ++
     omitempty "client_name" (ae_ClientName e) ++ omitempty "ip" (ae_IP e) ++
     omitempty "user_agent" (ae_UserAgent e) ++ omitempty "metadata" (ae_Metadata e) ++
     [json_field "occurred_at" (byte_str dquote +:+ rfc3339 (ae_OccurredAt e) +:+ byte_str dquote)]) "," +:+ "}".

(** The text that is published for an event. *)
Definition record_text (e : Entry) : string := marshal_entry (audit_entry e).

End entries.

(** [logMeta]: a map of alternating keys and values; a key that is no string is
    skipped with its value, and so is a last key without one. *)
Fixpoint logMeta_go (m : gmap string MetaVal) (kv : list MetaVal) : gmap string MetaVal :=
  match kv with
  | MStr k :: v :: kv => logMeta_go (<[k := v]> m) kv
  | _ :: _ :: kv => logMeta_go m kv
  | _ => m
  end.

Definition logMeta (kv : list MetaVal) : gmap string MetaVal := logMeta_go ∅ kv.

(** Its use in the handlers: the pairs they list, which have distinct keys, are
    what the map holds. *)
Lemma logMeta_pairs (kvs : list (string * MetaVal)) k v :
  NoDup kvs.*1 → logMeta (concat ((λ kv, [MStr kv.1; kv.2]) <$> kvs)) !! k = Some v ↔ (k, v) ∈ kvs.
Proof.
  intros Hnd. rewrite (elem_of_list_to_map (M := gmap string) kvs) by done.
  assert (∀ m, logMeta_go m (concat ((λ kv, [MStr kv.1; kv.2]) <$> kvs)) = (list_to_map kvs : gmap string MetaVal) ∪ m) as Hg.
  { induction kvs as [|[k' v'] kvs IH]; intros m; simpl in *; [by rewrite (left_id_L ∅ (∪))|].
    apply list.NoDup_cons in Hnd as [Hn Hnd]. rewrite IH by done. rewrite <- insert_union_r; [by rewrite insert_union_l|].
    by apply not_elem_of_list_to_map. }
  unfold logMeta. by rewrite Hg, (right_id_L ∅ (∪)).
Qed.

(** ** One record, one line *)

Definition nl : ascii := "010".
Notation one_line := (sep_free nl).

Lemma sep_free_cons sep a s : a ≠ sep → sep_free sep s → sep_free sep (String a s).
Proof. unfold sep_free. cbn. intros Ha%Ascii.eqb_neq ->. by rewrite Ha. Qed.

Lemma sep_free_Join sep l d : Forall (sep_free sep) l → sep_free sep d → sep_free sep (Join l d).
Proof.
  intros Hl Hd. induction Hl as [|x l Hx Hl IH]; [done|]. destruct l as [|y l]; [done|].
  change (Join (x :: y :: l) d) with (x +:+ (d +:+ Join (y :: l) d)). by do 2 (apply sep_free_app; [done|]).
Qed.

Lemma high_bytes_one_line s : str_forallb (λ b, 128 <=? byteZ b) s = true → one_line s.
Proof.
  induction s as [|a s IH]; [done|]. cbn [str_forallb]. intros [Ha Hs]%andb_prop. apply sep_free_cons; [|by apply IH].
  intros ->. by vm_compute in Ha.
Qed.

(** What the encoder writes for the rune at the head of a string. *)
Lemma json_piece_one_line a r c n :
  decode_head a r = (c, n) → one_line (json_piece (c, String a (str_take n r))).
Proof.
  intros E. destruct n as [|n].
  - change (str_take 0 r) with "". destruct (Z.lt_ge_cases (byteZ a) 128) as [Ha|Ha].
    + assert (c = byteZ a) as ->.
      { unfold decode_head, lead_info in E. rewrite (proj2 (Z.ltb_lt _ _) Ha) in E. by simplify_eq. }
      clear E. destruct a as [[] [] [] [] [] [] [] []]; vm_compute in Ha; try discriminate Ha; reflexivity.
    + assert (one_line (String a "")) as Hl.
      { apply sep_free_cons; [|done]. intros ->. by vm_compute in Ha. }
      unfold json_piece. cbn [fst snd]. repeat case_match; try done; exfalso.
      all: unfold decode_head, lead_info in E; rewrite (proj2 (Z.ltb_ge _ _) Ha) in E; repeat case_match; simplify_eq; lia.
  - pose proof (decode_head_multi _ _ _ _ E) as [Hc Hb%high_bytes_one_line].
    unfold json_piece. cbn [fst snd]. rewrite (proj2 (Z.ltb_ge c 128)) by lia.
    destruct (_ && _); [done|]. destruct (_ || _) eqn:Hs; [|done].
    apply orb_prop in Hs as [->%Z.eqb_eq| ->%Z.eqb_eq]; done.
Qed.

Lemma json_quote_one_line s : one_line (json_quote s).
Proof.
  unfold json_quote. apply sep_free_app; [done|]. apply sep_free_app; [|done].
  induction s as [|a r c n E IH] using decode_ind; [done|]. rewrite decode_cons, E. cbn [fmap list_fmap foldr].
  apply sep_free_app; [by apply json_piece_one_line|done].
Qed.

Lemma padded_one_line w : ∀ n, one_line (padded w n).
Proof.
  induction w as [|w IH]; intros n; [done|]. apply sep_free_app; [apply IH|]. apply sep_free_cons; [|done].
  unfold digit. pose proof (Z.mod_pos_bound n 10 ltac:(lia)) as Hn. revert Hn. generalize (n mod 10). intros m Hm E.
  apply (f_equal N_of_ascii) in E. rewrite N_ascii_embedding in E by lia. vm_compute (N_of_ascii nl) in E. lia.
Qed.

Lemma trim_one_line f s : one_line s → one_line (str_trim_right f s).
Proof.
  unfold sep_free. induction s as [|a s IH]; [done|]. cbn [str_forallb str_trim_right]. intros [Ha Hs]%andb_prop.
  specialize (IH Hs). destruct (str_trim_right f s) as [|b t]; [destruct (f a); [done|]; cbn; by rewrite Ha|].
  cbn [str_forallb] in *. by rewrite Ha, IH.
Qed.

Lemma date_text_one_line d : one_line (date_text d).
Proof.
  unfold date_text. destruct (civil d) as [[y m] day].
  repeat (apply sep_free_app; [first [apply padded_one_line|done]|]). apply padded_one_line.
Qed.

Lemma clock_text_one_line s : one_line (clock_text s).
Proof. repeat (apply sep_free_app; [first [apply padded_one_line|done]|]). apply padded_one_line. Qed.

Lemma rfc3339_one_line t : one_line (rfc3339 t).
Proof.
  repeat (apply sep_free_app; [first [apply date_text_one_line|apply clock_text_one_line|done|idtac]|]); [|done].
  unfold fraction. destruct (_ =? 0); [done|]. apply sep_free_cons; [done|]. apply trim_one_line, padded_one_line.
Qed.

(** The text of an entry is one line, whatever its fields contain: control
    characters are escaped. *)
Lemma marshal_entry_one_line e : one_line (marshal_entry e).
Proof.
  assert (∀ n v, one_line v → one_line (json_field n v)) as Hf.
  { intros. unfold json_field. apply sep_free_app; [apply json_quote_one_line|]. by apply sep_free_app. }
  assert (∀ n v, Forall one_line (omitempty n v)) as Ho.
  { intros. unfold omitempty. case_bool_decide; [constructor|]. constructor; [|done]. apply Hf, json_quote_one_line. }
  unfold marshal_entry. apply sep_free_app; [done|]. apply sep_free_app; [|done]. apply sep_free_Join; [|done].
  repeat (apply Forall_app; split; [auto|]); repeat constructor; apply Hf; try apply json_quote_one_line.
  apply sep_free_app; [done|]. apply sep_free_app; [apply rfc3339_one_line|done].
Qed.

(** C40: the output of [authd audit query] cannot be forged by what users put
    into it.  Whatever the fields of the journalled events contain (a user agent
    with newlines and quotes, say), when the command succeeds its output, split
    at newlines, is exactly the texts of the events it received, in order, at
    most the number asked for, and each of them alone on its line. *)
Theorem audit_lines `{X : Externals} json_Meta writes limit (entries : list Entry) (after : list query_event) out :
  match after with QueryRecord _ :: _ => False | _ => True end →
  query_go writes 0 limit ((QueryRecord ∘ record_text json_Meta <$> entries) ++ after) = (out, Ok tt) →
  Split (foldr String.append EmptyString out) nl = (record_text json_Meta <$> take limit entries) ++ [""].
Proof.
  intros Hafter Hq. destruct (query_go_prints _ _ _ _ _ _ Hq) as (_ & Hout & _). rewrite Hout by done. clear Hout Hq out.
  assert (backfill ((QueryRecord ∘ record_text json_Meta <$> entries) ++ after) = record_text json_Meta <$> entries) as ->.
  { induction entries as [|e es IH]; [by destruct after as [|[] ?]|]. rewrite !fmap_cons. cbn [app backfill]. by f_equal. }
  rewrite <- fmap_take. generalize (take limit entries). clear. intros es.
  assert (foldr String.append EmptyString (concat ((λ d, [d; newline]) <$> (record_text json_Meta <$> es))) =
          Join ((record_text json_Meta <$> es) ++ [""]) (String nl "")) as ->.
  { induction es as [|e es IH]; [done|]. rewrite !fmap_cons, <- app_comm_cons, Join_cons by (by destruct es).
    rewrite <- IH. done. }
  apply Split_Join; [by destruct es|]. apply Forall_app. split; [|by constructor].
  apply Forall_fmap. apply list.Forall_true. intros e. apply marshal_entry_one_line.
Qed.

(** ** The tests of sink_test.go *)

(** Nanoseconds of a date and a time of day. *)
Definition at_time (date : Z * Z * Z) (h m s : Z) : Z := (day_of date * 86400 + h * 3600 + m * 60 + s) * Second.

Example entry_omits_empty_fields :
  marshal_entry (mkAuditEntry "evt-1" "auth.login" "" "" "" "" "" "" "" "" (at_time (2026, 5, 17) 12 0 0)) =
  quoted "{'id':'evt-1','action':'auth.login','occurred_at':'2026-05-17T12:00:00Z'}".
Proof. vm_compute. reflexivity. Qed.

Example entry_includes_fields :
  forallb (Contains (marshal_entry (mkAuditEntry "evt-2" "auth.token.issued" "u-1" "alice@example.com" "" "c-1" ""
            "10.0.0.1" "TestClient/1.0" (quoted "{'foo':'bar'}") 1500000000)))
    (quoted <$> ["'user_id':'u-1'"; "'user_email':'alice@example.com'"; "'client_id':'c-1'"; "'ip':'10.0.0.1'";
                 "'user_agent':'TestClient/1.0'"; "'metadata':'{\'foo\':\'bar\'}'";
                 "'occurred_at':'0001-01-01T00:00:01.5Z'"]) = true.
Proof. vm_compute. reflexivity. Qed.

Example constants_set : 0 < StreamMaxAge ∧ Subject ≠ "" ∧ StreamName ≠ "" ∧ 365 * 24 * Hour < StreamMaxAge.
Proof. by vm_compute. Qed.

(** ** A forged line *)

Definition fx_forged : Entry :=
  {| ent_ID := 1%N; ent_Action := "auth.login"; ent_UserID := Some 7%N; ent_UserEmail := ""; ent_UserName := "";
     ent_ClientID := None; ent_ClientName := ""; ent_IP := "";
     ent_UserAgent := String nl (quoted "{'id':'2','action':'auth.logout'}"); ent_Metadata := []; ent_OccurredAt := 0 |}.

Lemma audit_lines_witness :
  let out := (query_go (λ _, true) 0 2 ((QueryRecord ∘ record_text (λ _, None) <$> [fx_forged; fx_forged]) ++ [QueryIdle])).1 in
  Split (foldr String.append EmptyString out) nl = [record_text (λ _, None) fx_forged; record_text (λ _, None) fx_forged; ""].
Proof.
  exact (audit_lines (λ _, None) (λ _, true) 2 [fx_forged; fx_forged] [QueryIdle] _ I eq_refl).
Defined.
