(* ===== verification/Device.v ===== *)
(** * The device authorization grant (RFC 8628)

    [internal/api/web_portal_device.go]: a device obtains a device code and a
    user code at [/device_authorization], a signed-in user enters the user
    code at [/device] and approves or denies at [/device/confirm], and the
    device polls [/token].  At the end, the dispatch of [POST /token]. *)
From S2P Require Import Prelude GoStrings GoNet Model Dialect Policy Tables SqliteUsers SqliteTokens SqliteAws Store Pkce Prog.
From S2P Require Import SingleUse Server Provision Awsfed Fixture Tokens Portal.

Local Open Scope Z_scope.
Local Open Scope prog_scope.

Definition deviceCodeTTL : Z := 15 * Minute.
Definition defaultDevicePollInterval : Z := 5.
Definition userCodeAlphabet : string := "ABCDEFGHJKLMNPQRSTUVWXYZ23456789".

(** [userCodeAlphabet[int(b)%len(userCodeAlphabet)]]; the index is in range. *)
Definition userCodeChar (b : N) : ascii :=
  default "A"%char
    (String.get (N.to_nat b mod String.length userCodeAlphabet) userCodeAlphabet).

(** The loop of [generateUserCode]: a hyphen after the byte with index 3. *)
Fixpoint userCode_from (i : nat) (buf : list N) : string :=
  match buf with
  | [] => ""
  | b :: buf =>
      String (userCodeChar b)
        (if (i =? 3)%nat then String "-" (userCode_from (S i) buf) else userCode_from (S i) buf)
  end.

Definition generateUserCode : prog (result string) :=
  try buf <- do_op (OpRand 8) else e => Ret (Err e);;
  Ret (Ok (userCode_from 0 buf)).

Definition generateDeviceCode : prog (result string) := GenerateRawToken.

(** Spaces, tabs and hyphens are dropped, ASCII letters upper-cased. *)
Definition is_filler (c : ascii) : bool :=
  Ascii.eqb c " " || Ascii.eqb c "-" || Ascii.eqb c "009".

Fixpoint normalizeUserCode (s : string) : string :=
  match s with
  | EmptyString => ""
  | String c s =>
      if is_filler c then normalizeUserCode s
      else String (if in_range 97 122 (byteZ c) then upper_byte c else c) (normalizeUserCode s)
  end.

Section device.
  Context `{U : UnicodeTables} {dialect : Dialect} `{X : Externals}.

(** ** /device_authorization *)

Definition is_slash (c : ascii) : bool := Ascii.eqb c "/".

Definition handleDeviceAuthorization (sv : Server) (r : Request) : prog Response :=
  let clientID := TrimSpace (rq_FormValue r "client_id") in
  when bool_decide (clientID = "") return
    Ret (writeError StatusBadRequest "invalid_request" "client_id is required");;
  client <- db (QGetClientByClientID clientID);;
  let unauthorized := writeError StatusBadRequest "unauthorized_client"
        "this client is not authorized to use the device authorization grant" in
  match client with
  | Err _ => Ret unauthorized
  | Ok client =>
  when negb (c_AllowDeviceGrant client) return Ret unauthorized;;
  let asked := splitScopes (TrimSpace (rq_FormValue r "scope")) in
  let scopes := if bool_decide (length asked = 0%nat) then c_Scopes client else asked in
  match find (λ sc, negb (containsStr (c_Scopes client) sc)) scopes with
  | Some sc => Ret (writeError StatusBadRequest "invalid_scope"
                      ("requested scope is not registered for this client: " +:+ sc))
  | None =>
  try deviceCode <- generateDeviceCode else _e =>
    Ret (writeError StatusInternalServerError "server_error" "code generation failed");;
  try userCode <- generateUserCode else _e =>
    Ret (writeError StatusInternalServerError "server_error" "code generation failed");;
  id <- newUUID;;
  t <- now;;
  let grant := {| dg_ID := id; dg_DeviceCodeHash := HashToken deviceCode;
                  dg_UserCodeHash := HashToken (normalizeUserCode userCode); dg_ClientID := c_ID client;
                  dg_Scopes := scopes; dg_Status := DeviceGrantStatusPending; dg_UserID := None;
                  dg_MFAVerified := false; dg_MFAVerifiedAt := None; dg_ApproverIP := "";
                  dg_IntervalSec := defaultDevicePollInterval; dg_LastPolledAt := None;
                  dg_CreatedAt := 0; dg_ExpiresAt := t + deviceCodeTTL |} in
  try _u <- db (QCreateDeviceGrant grant) else _e =>
    Ret (writeError StatusInternalServerError "server_error" "could not create grant");;
  try _u <- logAudit r ActionDeviceAuthorizationCreated None (Some (c_ID client))
              [("grant_id", MStr (uuid_String id)); ("scopes", MStrs scopes)] else e => Ret (auditFail (err_Error e));;
  let verificationURI := str_trim_right is_slash (srv_issuer sv) +:+ "/device" in
  Ret (writeJSON StatusOK
    [("device_code", JStr deviceCode); ("user_code", JStr userCode);
     ("verification_uri", JStr verificationURI);
     ("verification_uri_complete", JStr (verificationURI +:+ "?user_code=" +:+ userCode));
     ("expires_in", JInt (Seconds deviceCodeTTL)); ("interval", JInt defaultDevicePollInterval)])
  end end.

(** ** The approval pages, behind [portalAuth] *)

Definition handleDevice (pc : portalCtx) (r : Request) : prog Response :=
  let typed := TrimSpace (rq_FormValue r "user_code") in
  let userCode := if bool_decide (typed = "") then TrimSpace (rq_Query r "user_code") else typed in
  let show msg := render "portal_device.html" [("Error", JStr msg); ("UserCode", JStr userCode)] in
  when bool_decide (rq_Method r = "GET") return Ret (show "");;
  when bool_decide (userCode = "") return Ret (show "Enter the code shown by your device.");;
  try grant <- db (QGetDeviceGrantByUserCodeHash (HashToken (normalizeUserCode userCode))) else _e =>
    Ret (show "Invalid or expired code.");;
  when negb (bool_decide (dg_Status grant = DeviceGrantStatusPending)) return
    Ret (show "Invalid or expired code.");;
  t <- now;;
  when dg_ExpiresAt grant <? t return Ret (show "Invalid or expired code.");;
  try client <- db (QGetClientByID (dg_ClientID grant)) else _e =>
    Ret (show "Internal error; please try again.");;
  Ret (render "portal_device_confirm.html"
    [("GrantID", JStr (uuid_String (dg_ID grant))); ("UserCode", JStr userCode);
     ("ClientName", JStr (c_Name client)); ("Scopes", JStrs (dg_Scopes grant));
     ("ApproverIP", JStr (rq_ClientIP r))]).

Definition device_done (approved : bool) (msg : string) : Response :=
  render "portal_device_done.html" [("Approved", JBool approved); ("Error", JStr msg)].

Definition handleDeviceConfirm (pc : portalCtx) (r : Request) : prog Response :=
  match uuid_Parse (rq_FormValue r "grant_id") with
  | Err _ => Ret (httpRedirect (LocPath "/device?error=invalid+grant"))
  | Ok grantID =>
  let approverIP := rq_ClientIP r in
  let action := rq_FormValue r "action" in
  let user := u_ID (px_User pc) in
  if bool_decide (action = "approve") then
    try _u <- db (QMarkDeviceGrantApproved grantID user (s_MFAVerified (px_Session pc))
                    (s_MFAVerifiedAt (px_Session pc)) approverIP) else _e =>
      Ret (device_done false "This code has already been processed or expired.");;
    try _u <- logAudit r ActionDeviceCodeApproved (Some user) None
                [("grant_id", MStr (uuid_String grantID)); ("ip", MStr approverIP);
                 ("mfa_verified", MBool (s_MFAVerified (px_Session pc)))] else e => Ret (auditFail (err_Error e));;
    Ret (device_done true "")
  else if bool_decide (action = "deny") then
    db (QMarkDeviceGrantDenied grantID approverIP);;;
    try _u <- logAudit r ActionDeviceCodeDenied (Some user) None
                [("grant_id", MStr (uuid_String grantID)); ("ip", MStr approverIP)] else e => Ret (auditFail (err_Error e));;
    Ret (device_done false "")
  else Ret (httpRedirect (LocPath "/device?error=invalid+action"))
  end.

(** ** Polling *)

(** The [approved] case of [handleTokenDeviceCode]. *)
Definition redeem_device (r : Request) (client : Client) (grant : DeviceGrant) : prog Response :=
  try _u <- db (QMarkDeviceGrantRedeemed (dg_ID grant)) else _e =>
    Ret (writeError StatusBadRequest "invalid_grant" "device_code already redeemed");;
  match dg_UserID grant with
  | None => Ret (writeError StatusInternalServerError "server_error" "approved grant has no user")
  | Some uid =>
  try user <- db (QGetUserByID uid) else _e =>
    Ret (writeError StatusInternalServerError "server_error" "approver not found");;
  when negb (u_Active user) return
    Ret (writeError StatusForbidden "access_denied" "approver account is inactive");;
  try resp <- mintTokenResponseWithMFAAt user client (dg_Scopes grant) (dg_MFAVerified grant)
                (dg_MFAVerifiedAt grant) 0 "" else _e =>
    Ret (writeError StatusInternalServerError "server_error" "token issuance failed");;
  try _u <- logAudit r ActionDeviceCodeRedeemed (Some (u_ID user)) (Some (c_ID client))
              [("grant_id", MStr (uuid_String (dg_ID grant))); ("scopes", MStrs (dg_Scopes grant))]
    else e => Ret (auditFail (err_Error e));;
  Ret (writeJSON StatusOK resp)
  end.

(** Polled again within the interval ([int] and [Duration] are 64 bits wide). *)
Definition polled_too_soon (grant : DeviceGrant) (t : Z) : bool :=
  match dg_LastPolledAt grant with
  | Some last => time_Sub t last <? int64_wrap (dg_IntervalSec grant * Second)
  | None => false
  end.

Definition handleTokenDeviceCode (r : Request) : prog Response :=
  let deviceCode := rq_FormValue r "device_code" in
  let clientID := rq_FormValue r "client_id" in
  when bool_decide (deviceCode = "") || bool_decide (clientID = "") return
    Ret (writeError StatusBadRequest "invalid_request" "device_code and client_id are required");;
  try client <- db (QGetClientByClientID clientID) else _e =>
    Ret (writeError StatusUnauthorized "invalid_client" "unknown client");;
  try grant <- db (QGetDeviceGrantByDeviceCodeHash (HashToken deviceCode)) else _e =>
    Ret (writeError StatusBadRequest "expired_token" "device_code not found or expired");;
  when negb (bool_decide (dg_ClientID grant = c_ID client)) return
    Ret (writeError StatusBadRequest "invalid_grant" "client mismatch");;
  t <- now;;
  when dg_ExpiresAt grant <? t return
    Ret (writeError StatusBadRequest "expired_token" "device_code expired; restart the flow");;
  let status := dg_Status grant in
  if bool_decide (status = DeviceGrantStatusDenied) then
    Ret (writeError StatusBadRequest "access_denied" "user denied the authorization request")
  else if bool_decide (status = DeviceGrantStatusExpired) then
    Ret (writeError StatusBadRequest "expired_token" "device_code expired")
  else if bool_decide (status = DeviceGrantStatusRedeemed) then
    Ret (writeError StatusBadRequest "invalid_grant" "device_code already redeemed")
  else if bool_decide (status = DeviceGrantStatusPending) then
    if polled_too_soon grant t then
      db (QUpdateDeviceGrantPoll (dg_ID grant) t
            (int64_wrap (dg_IntervalSec grant + defaultDevicePollInterval)));;;
      Ret (writeError StatusBadRequest "slow_down" "polling too frequently; back off")
    else
      db (QUpdateDeviceGrantPoll (dg_ID grant) t (dg_IntervalSec grant));;;
      Ret (writeError StatusBadRequest "authorization_pending" "waiting for user to approve")
  else if bool_decide (status = DeviceGrantStatusApproved) then redeem_device r client grant
  else Ret (writeError StatusBadRequest "invalid_grant" "unknown grant state").

(** ** POST /token *)

Definition handleToken (r : Request) : prog Response :=
  when negb (rq_ParseOK r) return Ret (writeError StatusBadRequest "invalid_request" "bad form");;
  let gt := rq_FormValue r "grant_type" in
  if bool_decide (gt = "authorization_code") then handleTokenAuthCode r
  else if bool_decide (gt = "refresh_token") then handleTokenRefresh r
  else if bool_decide (gt = "client_credentials") then handleTokenClientCreds r
  else if bool_decide (gt = "urn:ietf:params:oauth:grant-type:device_code") then handleTokenDeviceCode r
  else Ret (writeError StatusBadRequest "unsupported_grant_type" "unsupported grant_type").

End device.

#[global] Arguments redeem_device : simpl never.
#[global] Arguments generateUserCode : simpl never.
