(* ===== verification/DeviceFacts.v ===== *)
(** * The device grant: properties

    A device code yields tokens at most once and only after an approval; the
    status of a grant only moves along the edges of its state machine; user
    codes survive being typed by hand; polling answers follow RFC 8628. *)
From S2P Require Import Prelude GoStrings GoNet Model Dialect Policy Tables SqliteUsers SqliteTokens SqliteAws Store Pkce Prog.
From S2P Require Import SingleUse Server Provision Awsfed Fixture Tokens Portal Device.

Local Open Scope Z_scope.
Local Open Scope prog_scope.

(** ** User codes *)

(** [typed] is [code] as a person may enter it: separators added or left out,
    letters in either case. *)
Inductive typed_as : string → string → Prop :=
| typed_nil : typed_as "" ""
| typed_extra c code typed : is_filler c = true → typed_as code typed → typed_as code (String c typed)
| typed_omit c code typed : is_filler c = true → typed_as code typed → typed_as (String c code) typed
| typed_same c code typed : typed_as code typed → typed_as (String c code) (String c typed)
| typed_lower c code typed : ascii_isUpper (byteZ c) = true → typed_as code typed →
    typed_as (String c code) (String (lower_byte c) typed).

(** A property of all bytes, by cases on the eight bits. *)
Ltac all_bytes c := destruct c as [[] [] [] [] [] [] [] []]; try reflexivity; try discriminate.

Lemma lower_upper_filler c :
  ascii_isUpper (byteZ c) = true →
  is_filler c = false ∧ is_filler (lower_byte c) = false ∧ in_range 97 122 (byteZ c) = false ∧
  in_range 97 122 (byteZ (lower_byte c)) = true ∧ upper_byte (lower_byte c) = c.
Proof. all_bytes c; intros _; vm_compute; auto. Qed.

(** The hash looked up does not depend on how the code was typed. *)
Lemma normalize_typed code typed : typed_as code typed → normalizeUserCode typed = normalizeUserCode code.
Proof.
  induction 1 as [|c code typed Hc _ IH|c code typed Hc _ IH|c code typed _ IH|c code typed Hc _ IH]; simpl.
  - done.
  - by rewrite Hc.
  - by rewrite Hc.
  - by rewrite IH.
  - destruct (lower_upper_filler c Hc) as (-> & -> & -> & -> & ->). by rewrite IH.
Qed.

(** The alphabet by index: its characters are in normal form and distinct. *)
Definition alphabet_char (k : nat) : ascii := default "A"%char (String.get k userCodeAlphabet).

Lemma alphabet_normal k :
  (k < 32)%nat → is_filler (alphabet_char k) = false ∧ in_range 97 122 (byteZ (alphabet_char k)) = false.
Proof.
  intros Hk.
  assert (forallb (λ k, negb (is_filler (alphabet_char k)) && negb (in_range 97 122 (byteZ (alphabet_char k))))
            (seq 0 32) = true) as H by reflexivity.
  rewrite forallb_forall in H. specialize (H k). rewrite <- list_elem_of_In, elem_of_seq in H.
  specialize (H ltac:(lia)). apply andb_prop in H as [H1 H2]. by rewrite !negb_true_iff in *.
Qed.

Lemma alphabet_inj k m : (k < 32)%nat → (m < 32)%nat → alphabet_char k = alphabet_char m → k = m.
Proof.
  intros Hk Hm He.
  assert (forallb (λ k, forallb (λ m, implb (Ascii.eqb (alphabet_char k) (alphabet_char m)) (k =? m)%nat)
            (seq 0 32)) (seq 0 32) = true) as H by (vm_compute; reflexivity).
  rewrite forallb_forall in H. specialize (H k). rewrite <- list_elem_of_In, elem_of_seq in H.
  specialize (H ltac:(lia)). rewrite forallb_forall in H. specialize (H m).
  rewrite <- list_elem_of_In, elem_of_seq in H. specialize (H ltac:(lia)).
  rewrite He, Ascii.eqb_refl in H. simpl in H. by apply Nat.eqb_eq in H.
Qed.

Definition index32 (b : N) : nat := (N.to_nat b mod 32)%nat.

Lemma index32_lt b : (index32 b < 32)%nat.
Proof. apply Nat.mod_upper_bound. lia. Qed.

Lemma userCodeChar_index b : userCodeChar b = alphabet_char (index32 b).
Proof. done. Qed.

(** The eight letters of a code. *)
Fixpoint code_letters (buf : list N) : string :=
  match buf with [] => "" | b :: buf => String (userCodeChar b) (code_letters buf) end.

Lemma normalize_code i buf : normalizeUserCode (userCode_from i buf) = code_letters buf.
Proof.
  revert i. induction buf as [|b buf IH]; intros i; [done|]. cbn [userCode_from code_letters normalizeUserCode].
  rewrite userCodeChar_index. destruct (alphabet_normal _ (index32_lt b)) as [-> ->].
  destruct (i =? 3)%nat; cbn [normalizeUserCode is_filler]; by rewrite IH.
Qed.

Lemma code_letters_length buf : String.length (code_letters buf) = length buf.
Proof. induction buf as [|b buf IH]; simpl; by rewrite ?IH. Qed.

Lemma code_letters_inj buf buf' :
  code_letters buf = code_letters buf' ↔ index32 <$> buf = index32 <$> buf'.
Proof.
  revert buf'. induction buf as [|b buf IH]; intros [|b' buf']; simpl; try done.
  rewrite !userCodeChar_index. split.
  - intros [= Hc Hl]. apply alphabet_inj in Hc; [|apply index32_lt..]. f_equal; [done|]. by apply IH.
  - intros [= Hc Hl]. rewrite Hc. f_equal. by apply IH.
Qed.

(** User codes survive typing.  However a person enters the code shown by
    the device (any case, separators added or left out), the value hashed to
    find the grant is the code's eight letters; and two random draws give the
    same value exactly when their bytes agree modulo 32. *)
Theorem user_code_entry buf typed :
  length buf = 8%nat → typed_as (userCode_from 0 buf) typed →
  normalizeUserCode typed = code_letters buf ∧ String.length (normalizeUserCode typed) = 8%nat ∧
  ∀ buf', normalizeUserCode typed = normalizeUserCode (userCode_from 0 buf') ↔
          index32 <$> buf = index32 <$> buf'.
Proof.
  intros Hl Ht. rewrite (normalize_typed _ _ Ht), normalize_code. split; [done|].
  split; [by rewrite code_letters_length|]. intros buf'. rewrite normalize_code. apply code_letters_inj.
Qed.

Lemma user_code_entry_witness :
  normalizeUserCode " abcd 2345" = code_letters [0; 33; 2; 3; 24; 25; 26; 27]%N ∧
  String.length (normalizeUserCode " abcd 2345") = 8%nat ∧
  ∀ buf', normalizeUserCode " abcd 2345" = normalizeUserCode (userCode_from 0 buf') ↔
          index32 <$> [0; 33; 2; 3; 24; 25; 26; 27]%N = index32 <$> buf'.
Proof.
  apply (user_code_entry [0; 33; 2; 3; 24; 25; 26; 27]%N " abcd 2345"); [reflexivity|].
  apply typed_extra; [reflexivity|].
  apply (typed_lower "A"); [reflexivity|]. apply (typed_lower "B"); [reflexivity|].
  apply (typed_lower "C"); [reflexivity|]. apply (typed_lower "D"); [reflexivity|].
  apply typed_omit; [reflexivity|]. apply typed_extra; [reflexivity|].
  do 4 apply typed_same. apply typed_nil.
Defined.

(** ** The state machine of a grant *)

Inductive status_step : string → string → Prop :=
| step_approve : status_step DeviceGrantStatusPending DeviceGrantStatusApproved
| step_deny : status_step DeviceGrantStatusPending DeviceGrantStatusDenied
| step_redeem : status_step DeviceGrantStatusApproved DeviceGrantStatusRedeemed.

(** One store call moves a grant along at most one edge. *)
Definition moves (d d' : DB) (id : uuid) : Prop :=
  ∀ r r', db_device_grants d !! id = Some r → db_device_grants d' !! id = Some r' →
    dr_status r = dr_status r' ∨ status_step (dr_status r) (dr_status r').

Lemma moves_transition from to f i d id :
  (∀ r, dr_status (f r) = to) → status_step from to → moves d (device_transition from f i d).2 id.
Proof.
  intros Hf Hs r r' Hr [Hr'|(-> & r0 & Hr0 & Hst & ->)]%device_transition_lookup.
  - left. by simplify_eq.
  - right. simplify_eq. by rewrite Hf.
Qed.

Lemma moves_same d d' id :
  (∀ r', db_device_grants d' !! id = Some r' → ∀ r, db_device_grants d !! id = Some r → dr_status r = dr_status r') →
  moves d d' id.
Proof. intros H r r' Hr Hr'. left. by eapply H. Qed.

Lemma query_moves `{UnicodeTables} {dialect : Dialect} A (q : Query A) u t d id : moves d (run_query u t q d).2 id.
Proof.
  destruct (touches_devices q) eqn:Ht;
    [|apply moves_same; intros r'; rewrite frame_devices by done; naive_solver].
  destruct q; try discriminate Ht; clear Ht; cbn [run_query].
  - apply moves_same. simpl. intros r'. rewrite lookup_fmap_Some. intros (r0 & <- & Hr) r Hr0.
    simplify_eq. by rewrite (forget_user_same dr_status).
  - apply moves_same. intros r' ?%delete_where_lookup r Hr. by simplify_eq.
  - apply moves_same. unfold CreateDeviceGrant. destruct (has _ _) eqn:Hh; simpl; [naive_solver|].
    apply has_false in Hh. destruct (some_row _ _); [naive_solver|]. destruct (negb _); [naive_solver|].
    simpl. intros r'. rewrite lookup_insert. case_decide as Hi; [|naive_solver].
    intros _ r Hr. subst. exfalso. cbn [device_row_of dr_id] in Hh. by rewrite Hh in Hr.
  - unfold MarkDeviceGrantApproved. destruct (has _ _); [by eapply moves_transition; [|constructor]|].
    apply moves_same. destruct (db_device_grants d !! id0); naive_solver.
  - by eapply moves_transition; [|constructor].
  - by eapply moves_transition; [|constructor].
  - apply moves_same. simpl. intros r'. rewrite lookup_alter. case_decide; [|naive_solver].
    subst. destruct (db_device_grants d !! id) as [r0|]; [|done]. intros [= <-] r [= <-]. done.
  - apply moves_same. intros r' ?%delete_where_lookup r Hr. by simplify_eq.
Qed.

(** A grant that is not there appears only by its INSERT. *)
Lemma transition_absent from f i d id :
  db_device_grants d !! id = None → db_device_grants (device_transition from f i d).2 !! id = None.
Proof.
  intros Hn. destruct (db_device_grants (device_transition from f i d).2 !! id) as [r|] eqn:E; [|done].
  apply device_transition_lookup in E as [E|(_ & r0 & E & _)]; congruence.
Qed.

Lemma query_absent `{UnicodeTables} {dialect : Dialect} A (q : Query A) u t d id :
  creates_device id A q = false → db_device_grants d !! id = None →
  db_device_grants (run_query u t q d).2 !! id = None.
Proof.
  intros Hc Hn. destruct (touches_devices q) eqn:Ht; [|by rewrite frame_devices].
  destruct q; try discriminate Ht; clear Ht; cbn [run_query]; try (by apply transition_absent).
  - simpl. by rewrite lookup_fmap, Hn.
  - apply map_lookup_filter_None. by left.
  - unfold CreateDeviceGrant. destruct (_ || _); [done|]. destruct (negb _); [done|].
    simpl in Hc |- *. apply bool_decide_eq_false in Hc. rewrite lookup_insert_ne; [done|].
    case_bool_decide; naive_solver.
  - unfold MarkDeviceGrantApproved. destruct (has _ _); [by apply transition_absent|].
    by destruct (db_device_grants d !! id0).
  - simpl. rewrite lookup_alter. case_decide; [|done]. subst. by rewrite Hn.
  - apply map_lookup_filter_None. by left.
Qed.

(** C17: a grant's status moves only along its state machine.  In any concurrent
    execution of any handlers, with any failures, the status of a device grant
    goes from pending to approved or denied and from approved to redeemed, and
    nowhere else; in particular [denied] and [redeemed] are final, and no
    grant ever becomes [expired]. *)
Theorem device_status_machine `{UnicodeTables} {dialect : Dialect} env {A} sched (c : pool A) id row row' :
  p_log c = [] → db_device_grants (w_db (p_world c)) !! id = Some row →
  count_events (on_query (creates_device id)) (p_log (run_pool env sched c)) = O →
  db_device_grants (w_db (p_world (run_pool env sched c))) !! id = Some row' →
  rtc status_step (dr_status row) (dr_status row') ∧
  (dr_status row = DeviceGrantStatusDenied ∨ dr_status row = DeviceGrantStatusRedeemed →
     dr_status row' = dr_status row) ∧
  (dr_status row ≠ DeviceGrantStatusExpired → dr_status row' ≠ DeviceGrantStatusExpired).
Proof.
  intros Hl Hrow Hc Hrow'.
  assert (rtc status_step (dr_status row) (dr_status row')) as Hr.
  { destruct (pool_only (λ d, db_device_grants d !! id = None ∨
        ∃ r, db_device_grants d !! id = Some r ∧ rtc status_step (dr_status row) (dr_status r))
      (creates_device id)) with (env := env) (sched := sched) (c := c) as [Hn|(r & Hr & ?)];
      [|done|right; by eauto using rtc_refl|done|congruence|by simplify_eq].
    intros B q u t d Hq [Hn|(r & Hr & Hs)]; [left; by apply query_absent|].
    destruct (db_device_grants (run_query u t q d).2 !! id) as [r'|] eqn:E; [|by left].
    right. exists r'. split; [done|].
    destruct (query_moves _ q u t d id r r' Hr E) as [<-|Hst]; [done|]. by eapply rtc_r. }
  split; [done|]. split.
  - intros Hf. apply rtc_inv in Hr as [->|(s & Hst & _)]; [done|].
    exfalso. destruct Hf as [Hf|Hf]; rewrite Hf in Hst; inversion Hst.
  - intros Hne. apply rtc_inv_r in Hr as [<-|(s & _ & Hst)]; [done|]. inversion Hst; discriminate.
Qed.

(** ** Redemption *)

Section tokens.
  Context `{U : UnicodeTables} {dialect : Dialect} `{X : Externals}.

(** What a token answer to a poll consists of. *)
Record device_redemption (r : Request) (client : Client) (grant : DeviceGrant) (user : User) (tr : list event)
    : Prop := {
  dd_client : dg_ClientID grant = c_ID client;
  dd_status : dg_Status grant = DeviceGrantStatusApproved;
  dd_active : u_Active user = true;
  dd_calls : ∃ t uid id access refresh ts e,
    t ≤ dg_ExpiresAt grant ∧ dg_UserID grant = Some uid ∧
    ent_Action e = ActionDeviceCodeRedeemed ∧ ent_UserID e = Some (u_ID user) ∧
    let created := Ev (OpDb (QCreateSession (new_session id user client (dg_Scopes grant)
                         (dg_MFAVerified grant) (dg_MFAVerifiedAt grant) 0 access refresh ts))) (Ok tt) in
    [Ev (OpDb (QGetClientByClientID (rq_FormValue r "client_id"))) (Ok client);
     Ev (OpDb (QGetDeviceGrantByDeviceCodeHash (HashToken (rq_FormValue r "device_code")))) (Ok grant);
     Ev OpNow t;
     Ev (OpDb (QMarkDeviceGrantRedeemed (dg_ID grant))) (Ok tt);
     Ev (OpDb (QGetUserByID uid)) (Ok user); created;
     Ev (OpAppend e) (Ok tt)] `sublist_of` tr ∧
    writing tr = [Ev (OpDb (QMarkDeviceGrantRedeemed (dg_ID grant))) (Ok tt); created];
}.

Lemma handleTokenDeviceCode_ok r tr resp :
  path (handleTokenDeviceCode r) tr resp → rs_Status resp = StatusOK →
  ∃ client grant user, device_redemption r client grant user tr.
Proof.
  unfold handleTokenDeviceCode. intros H Hst. path_step H; [by path_step H; subst|].
  path_step H. path_step H; [|by path_step H; subst]. path_step H. path_step H; [|by path_step H; subst].
  path_step H; [by path_step H; subst|]. path_step H. path_step H; [by path_step H; subst|].
  path_step H; [by path_step H; subst|]. path_step H; [by path_step H; subst|].
  path_step H; [by path_step H; subst|].
  path_step H; [path_step H; path_step H; by path_step H; subst|].
  path_step H; [|by path_step H; subst].
  unfold redeem_device in H. path_step H. path_step H; [|by path_step H; subst]. destruct_unit.
  path_step H; [|by path_step H; subst]. path_step H. path_step H; [|by path_step H; subst].
  path_step H; [by path_step H; subst|]. path_call H. path_step H; [|by path_step H; subst].
  apply mint_path in Hcall as (tra & trb & id & acc & ref & ts & -> & Hra & Hrb).
  path_call H. path_step H; [|by path_step H; subst]. destruct_unit.
  apply logAudit_path in Hcall as (tr0' & e & -> & Hra' & He1 & He2 & _). path_step H.
  repeat match goal with
  | H : bool_decide _ = true |- _ => apply bool_decide_eq_true in H
  | H : negb _ = false |- _ => apply negb_false_iff in H
  | H : (_ <? _) = false |- _ => apply Z.ltb_ge in H
  end.
  subst. eexists _, _, _. constructor; [done..|].
  eexists t, _, id, acc, ref, ts, e. do 4 (split; [done|]). split; [in_trace|solve_writing].
Qed.

(** C10: a device obtains tokens only for an approved, unexpired grant of the
    client it names: the grant was found by the device code, was approved and
    then atomically marked redeemed, the approver is an active user, exactly
    one session was stored, with the approver's identity, the grant's scopes
    and the MFA state of the approving session, and the issuance journalled. *)
Theorem device_exchange_sound r tr resp :
  path (handleTokenDeviceCode r) tr resp → rs_Status resp = StatusOK →
  ∃ client grant user, device_redemption r client grant user tr.
Proof. apply handleTokenDeviceCode_ok. Qed.

Lemma handleTokenDeviceCode_redeems r tr resp id :
  path (handleTokenDeviceCode r) tr resp → rs_Status resp = StatusOK →
  Forall (device_finds_only id (HashToken (rq_FormValue r "device_code"))) tr →
  ∃ e, e ∈ tr ∧ on_success (redeems_device id) e = true.
Proof.
  intros Hp Hok Hf. destruct (handleTokenDeviceCode_ok _ _ _ Hp Hok) as (client & grant & user & []).
  destruct dd_calls0 as (? & ? & ? & ? & ? & ? & ? & _ & _ & _ & _ & Hs & _).
  eexists. split; [eapply elem_of_sublist; [|exact Hs]; do 3 right; left|].
  assert (dg_ID grant = id) as <-.
  { rewrite Forall_forall in Hf.
    eapply (Hf (Ev (OpDb (QGetDeviceGrantByDeviceCodeHash _)) (Ok grant))); [|done..].
    apply list_elem_of_In. eapply elem_of_sublist; [|exact Hs]. right; by left. }
  simpl. by rewrite bool_decide_true.
Qed.

(** C3: a device code is redeemed at most once.  In any interleaving of any
    handlers, with any failures, at most one of the polls that present the
    device code of an existing grant is answered with tokens, provided no
    grant with the same identifier or device code is inserted meanwhile. *)
Theorem device_code_redeemed_at_most_once env sched (c : pool Response) id row i j ri rj a b :
  db_wf (w_db (p_world c)) → p_log c = [] →
  db_device_grants (w_db (p_world c)) !! id = Some row →
  p_threads c !! i = Some (handleTokenDeviceCode ri) →
  p_threads c !! j = Some (handleTokenDeviceCode rj) → i ≠ j →
  HashToken (rq_FormValue ri "device_code") = dr_device_code_hash row →
  HashToken (rq_FormValue rj "device_code") = dr_device_code_hash row →
  count_events (on_query (inserts_device (dr_device_code_hash row))) (p_log (run_pool env sched c)) = O →
  count_events (on_query (creates_device id)) (p_log (run_pool env sched c)) = O →
  p_threads (run_pool env sched c) !! i = Some (Ret a) →
  p_threads (run_pool env sched c) !! j = Some (Ret b) →
  ¬ (rs_Status a = StatusOK ∧ rs_Status b = StatusOK).
Proof.
  intros Hwf Hl Hrow Hi Hj Hij Hci Hcj Hins Hcr Hai Hbj [Ha Hb].
  pose proof (device_lookups env sched c id (dr_device_code_hash row) Hwf Hl
    (only_device_unique _ _ _ _ Hwf Hrow eq_refl) Hins) as Hf.
  assert (∀ k, Forall (device_finds_only id (dr_device_code_hash row))
                 (thread_log k (p_log (run_pool env sched c)))) as Hk.
  { intros k. apply Forall_forall. intros e He%list_elem_of_In%elem_thread_log. by eapply Hf. }
  destruct (handleTokenDeviceCode_redeems ri _ a id (run_pool_path env sched c i _ a Hi Hl Hai) Ha)
    as (e1 & He1 & Hm1); [by rewrite Hci|].
  destruct (handleTokenDeviceCode_redeems rj _ b id (run_pool_path env sched c j _ b Hj Hl Hbj) Hb)
    as (e2 & He2 & Hm2); [by rewrite Hcj|].
  pose proof (count_two_threads _ _ i j e1 e2 Hij He1 He2 Hm1 Hm2).
  pose proof (one_shot_count _ _ _ env sched c (devices_one_shot id) Hl) as Hle.
  rewrite Hcr in Hle. destruct (device_open _ _); simpl in Hle; lia.
Qed.

(** ** Polling *)

(** The answer to a poll of a grant that is not redeemable now. *)
Definition poll_error (grant : DeviceGrant) (t : Z) : option string :=
  if dg_ExpiresAt grant <? t then Some "expired_token"
  else if bool_decide (dg_Status grant = DeviceGrantStatusPending) then
    Some (if polled_too_soon grant t then "slow_down" else "authorization_pending")
  else if bool_decide (dg_Status grant = DeviceGrantStatusDenied) then Some "access_denied"
  else if bool_decide (dg_Status grant = DeviceGrantStatusRedeemed) then Some "invalid_grant"
  else None.

(** The code of an error response. *)
Definition error_code (resp : Response) : option string :=
  match rs_Body resp with
  | Json fields => match fields with (k, JStr v) :: _ => if bool_decide (k = "error") then Some v else None
                                | _ => None end
  | _ => None
  end.

(** C18: Polling follows RFC 8628.  When nothing fails, a poll with the device
    code of one of the client's grants that is expired, pending, denied or
    already redeemed is answered 400 with the error of that state; a poll of a
    pending grant is recorded with its time, a hasty one (within the interval)
    is told to slow down and raises the interval by five seconds. *)
Theorem device_poll_answers env r w client row code :
  reliable env → db_wf (w_db w) →
  rq_FormValue r "device_code" ≠ "" → rq_FormValue r "client_id" ≠ "" →
  db_clients (w_db w) !! c_ID client = Some client → rq_FormValue r "client_id" = c_ClientID client →
  db_device_grants (w_db w) !! dr_id row = Some row → dr_client_id row = c_ID client →
  HashToken (rq_FormValue r "device_code") = dr_device_code_hash row →
  let t := env_now env (2 + w_step w) in
  poll_error (scanDeviceGrant row) t = Some code →
  let '(resp, w') := exec env (handleTokenDeviceCode r) w in
  rs_Status resp = StatusBadRequest ∧ error_code resp = Some code ∧
  (code = "authorization_pending" →
     db_device_grants (w_db w') !! dr_id row = Some (device_poll (column t) (dr_interval_sec row) row)) ∧
  (code = "slow_down" →
     db_device_grants (w_db w') !! dr_id row =
       Some (device_poll (column t) (int64_wrap (dr_interval_sec row + 5)) row)) ∧
  (code ≠ "authorization_pending" → code ≠ "slow_down" → w_db w' = w_db w).
Proof.
  intros Hr Hwf Hdc Hci Hcl Hcid Hrow Hown Hh t Hpe. unfold handleTokenDeviceCode.
  rewrite (bool_decide_false _ Hdc), (bool_decide_false _ Hci). cbn [orb].
  rewrite exec_db by done. cbn [run_query reading fst snd].
  rewrite Hcid, (GetClientByClientID_row _ _ Hwf Hcl).
  rewrite exec_db by done. cbn [run_query reading fst snd w_db w_step]. unfold GetDeviceGrantByDeviceCodeHash.
  rewrite Hh, (find_row_unique dr_device_code_hash _ _ _ _ (wf_devices_device_code _ Hwf) Hrow) by done.
  cbn [fmap option_fmap option_map one_row]. rewrite bool_decide_true by done. cbn [negb].
  rewrite exec_now. cbn [w_step tick w_db w_journal w_outbox].
  change (env_now env (S (S (w_step w)))) with t. revert Hpe. unfold poll_error.
  destruct (dg_ExpiresAt (scanDeviceGrant row) <? t); [intros [= <-]; cbn [exec]; by split_and!|].
  destruct (bool_decide_reflect (dg_Status (scanDeviceGrant row) = DeviceGrantStatusPending)) as [Hp|Hp].
  - rewrite Hp. change (dg_IntervalSec (scanDeviceGrant row)) with (dr_interval_sec row).
    destruct (polled_too_soon (scanDeviceGrant row) t); intros [= <-];
      change (bool_decide (DeviceGrantStatusPending = DeviceGrantStatusDenied)) with false;
      change (bool_decide (DeviceGrantStatusPending = DeviceGrantStatusExpired)) with false;
      change (bool_decide (DeviceGrantStatusPending = DeviceGrantStatusRedeemed)) with false;
      change (bool_decide (DeviceGrantStatusPending = DeviceGrantStatusPending)) with true; cbv iota;
      rewrite exec_db by done; cbn [run_query fst snd exec w_db];
      (split_and!; [done|done|..]; try done; intros _; simpl; by rewrite lookup_alter_eq, Hrow).
  - destruct (bool_decide_reflect (dg_Status (scanDeviceGrant row) = DeviceGrantStatusDenied)) as [Hd|Hd];
      [intros [= <-]; cbn [exec]; by split_and!|].
    destruct (bool_decide_reflect (dg_Status (scanDeviceGrant row) = DeviceGrantStatusRedeemed)) as [Hd'|Hd'];
      [|done]. intros [= <-]. rewrite Hd'. cbn [exec]. by split_and!.
Qed.

End tokens.

(** ** Witnesses *)

Definition fx_pc : portalCtx := mkPortalCtx fx_session fx_user.
Definition fx_confirm (action : string) : prog Response :=
  handleDeviceConfirm fx_pc (form [("grant_id", "30"); ("action", action)]).
Definition fx_poll_request : Request := form [("client_id", "rp"); ("device_code", "dev")].
Definition fx_poll : prog Response := handleTokenDeviceCode fx_poll_request.

(** Alice approves; the device polls. *)
Definition fx_approved : World := (exec fx_env (fx_confirm "approve") fx_world).2.
Definition fx_row (w : World) : device_row :=
  default (device_row_of 0%N 0 fx_device) (db_device_grants (w_db w) !! 30%N).

Lemma device_exchange_sound_witness :
  ∃ client grant user, device_redemption fx_poll_request client grant user (trace fx_env fx_poll fx_approved).
Proof.
  apply (device_exchange_sound fx_poll_request (trace fx_env fx_poll fx_approved)
    (exec fx_env fx_poll fx_approved).1); [apply exec_path|vm_compute; reflexivity].
Defined.

Definition fx_poll_race : pool Response :=
  run_pool fx_env (concat (replicate 20 [0%nat; 1%nat])) (mkPool fx_approved [fx_poll; fx_poll] []).

Lemma device_code_redeemed_at_most_once_witness :
  rs_Status (answer fx_poll_race 0) = StatusOK ∧
  ¬ (rs_Status (answer fx_poll_race 0) = StatusOK ∧ rs_Status (answer fx_poll_race 1) = StatusOK).
Proof.
  split; [vm_compute; reflexivity|].
  apply (device_code_redeemed_at_most_once fx_env (concat (replicate 20 [0%nat; 1%nat]))
    (mkPool fx_approved [fx_poll; fx_poll] []) 30%N (fx_row fx_approved) 0 1 fx_poll_request fx_poll_request);
    [apply fx_exec_wf, fx_db_wf|reflexivity|vm_compute; reflexivity|reflexivity|reflexivity|lia|..];
    vm_compute; reflexivity.
Defined.

(** A denial, then an approval that comes too late. *)
Definition fx_status_run : pool Response :=
  run_pool fx_env (replicate 12 0%nat ++ replicate 12 1%nat) (fx_pool [fx_confirm "deny"; fx_confirm "approve"]).

Lemma device_status_machine_witness :
  dr_status (fx_row (p_world fx_status_run)) = DeviceGrantStatusDenied ∧
  rtc status_step (dr_status (fx_row fx_world)) (dr_status (fx_row (p_world fx_status_run))) ∧
  (dr_status (fx_row fx_world) = DeviceGrantStatusDenied ∨
   dr_status (fx_row fx_world) = DeviceGrantStatusRedeemed →
     dr_status (fx_row (p_world fx_status_run)) = dr_status (fx_row fx_world)) ∧
  (dr_status (fx_row fx_world) ≠ DeviceGrantStatusExpired →
     dr_status (fx_row (p_world fx_status_run)) ≠ DeviceGrantStatusExpired).
Proof.
  split; [vm_compute; reflexivity|].
  apply (device_status_machine fx_env (replicate 12 0%nat ++ replicate 12 1%nat)
    (fx_pool [fx_confirm "deny"; fx_confirm "approve"]) 30%N (fx_row fx_world) (fx_row (p_world fx_status_run)));
    [reflexivity|vm_compute; reflexivity|vm_compute; reflexivity|vm_compute; reflexivity].
Defined.

Lemma device_poll_answers_witness :
  let '(resp, w') := exec fx_env fx_poll fx_world in
  rs_Status resp = StatusBadRequest ∧ error_code resp = Some "authorization_pending" ∧
  ("authorization_pending" = "authorization_pending" →
     db_device_grants (w_db w') !! dr_id (fx_row fx_world)
       = Some (device_poll (column (env_now fx_env (2 + w_step fx_world))) (dr_interval_sec (fx_row fx_world)) (fx_row fx_world))) ∧
  ("authorization_pending" = "slow_down" →
     db_device_grants (w_db w') !! dr_id (fx_row fx_world) =
       Some (device_poll (column (env_now fx_env (2 + w_step fx_world)))
               (int64_wrap (dr_interval_sec (fx_row fx_world) + 5)) (fx_row fx_world))) ∧
  ("authorization_pending" ≠ "authorization_pending" → "authorization_pending" ≠ "slow_down" →
     w_db w' = w_db fx_world).
Proof.
  apply (device_poll_answers fx_env fx_poll_request fx_world fx_client (fx_row fx_world) "authorization_pending");
    [exact fx_reliable|exact fx_db_wf|discriminate|discriminate|vm_compute; reflexivity|reflexivity
    |vm_compute; reflexivity|vm_compute; reflexivity|vm_compute; reflexivity|vm_compute; reflexivity].
Defined.

(** A denial of a grant that was already approved is confirmed to the user and
    journalled, but the grant stays approved and the device gets its tokens. *)
Lemma late_denial_is_ineffective :
  let '(resp, w) := exec fx_env (fx_confirm "deny") fx_approved in
  resp = device_done false "" ∧ List.last (ent_Action <$> w_journal w) "" = ActionDeviceCodeDenied ∧
  dr_status (fx_row w) = DeviceGrantStatusApproved ∧ rs_Status (exec fx_env fx_poll w).1 = StatusOK.
Proof. vm_compute. auto. Qed.
