(* ===== verification/Flows.v ===== *)
(** * Flows across components

    What is stored is found again, with the contents it was stored with; a
    valid authorization code is redeemed (the converse of the safety theorems
    of [Tokens]); a deleted user's credentials are all dead. *)
From S2P Require Import Prelude GoStrings GoNet Model Dialect Policy Tables SqliteUsers SqliteTokens SqliteAws Store Pkce Prog.
From S2P Require Import SingleUse Server Provision Awsfed Fixture Tokens.

Local Open Scope Z_scope.
Local Open Scope prog_scope.

(** ** Create and get *)

Section stored.
  Context {dialect : Dialect}.

(** The zero time survives its NULL encoding, any other time is cut to what the
    column keeps. *)
Lemma time_arg_roundtrip t : default 0 (column <$> time_arg t) = column t.
Proof. unfold time_arg, IsZero. case_bool_decide; [|done]. subst. unfold column. by destruct dialect. Qed.

(** A session as the store returns it after its creation at [t]. *)
Definition session_at (t : Z) (s : Session) : Session :=
  {| s_ID := s_ID s; s_UserID := s_UserID s; s_ClientID := s_ClientID s;
     s_AccessTokenHash := s_AccessTokenHash s; s_RefreshTokenHash := s_RefreshTokenHash s;
     s_Scopes := s_Scopes s; s_AccessExpiresAt := column (s_AccessExpiresAt s);
     s_RefreshExpiresAt := column (s_RefreshExpiresAt s); s_LastActivityAt := stamp t;
     s_MFAVerified := s_MFAVerified s; s_MFAVerifiedAt := column <$> s_MFAVerifiedAt s;
     s_AuthTime := column (s_AuthTime s); s_CreatedAt := stamp t |}.

(** A code as the store returns it after its creation. *)
Definition grant_kept (g : Grant) : Grant :=
  {| g_ID := g_ID g; g_UserID := g_UserID g; g_ClientID := g_ClientID g; g_CodeHash := g_CodeHash g;
     g_CodeChallenge := g_CodeChallenge g; g_Nonce := g_Nonce g; g_Scopes := g_Scopes g;
     g_RedirectURI := g_RedirectURI g; g_ExpiresAt := column (g_ExpiresAt g); g_UsedAt := None;
     g_MFAVerifiedAt := column <$> g_MFAVerifiedAt g; g_AuthTime := column (g_AuthTime g) |}.

Lemma scan_session_row t s : scanSession (session_row_of t s) = session_at t s.
Proof.
  unfold scanSession, session_at. simpl. f_equal; [|apply time_arg_roundtrip].
  by case_bool_decide.
Qed.

Lemma scan_grant_row g : scanGrant (grant_row_of g) = grant_kept g.
Proof. unfold scanGrant, grant_kept. simpl. f_equal. apply time_arg_roundtrip. Qed.

End stored.

Lemma scan_device_scopes `{UnicodeTables} {dialect : Dialect} u t g :
  Forall is_field (dg_Scopes g) → dg_Scopes (scanDeviceGrant (device_row_of u t g)) = dg_Scopes g.
Proof.
  intros Hf. simpl. case_bool_decide as He; [|by apply Fields_Join].
  pose proof (Fields_Join _ Hf) as Hj. by rewrite He in Hj.
Qed.

(** What is stored is found.  On a well-formed database, a code, session or
    device grant whose INSERT succeeded is returned by the lookup of its hash
    (of either hash, for the last two) with the fields it was stored with,
    its times cut to what a column keeps (all of a time in SQLite, microseconds
    in PostgreSQL): zero times survive the NULL encoding, a machine session
    keeps its nil user, and a device grant's scopes survive being joined and
    split. *)
Theorem stored_credentials_found `{UnicodeTables} {dialect : Dialect} u t d g s dg :
  db_wf d →
  ((CreateGrant g d).1 = Ok tt →
     GetGrantByCodeHash (g_CodeHash g) (CreateGrant g d).2 = Ok (grant_kept g)) ∧
  ((CreateSession t s d).1 = Ok tt →
     GetSessionByAccessTokenHash (s_AccessTokenHash s) (CreateSession t s d).2 = Ok (session_at t s) ∧
     GetSessionByRefreshTokenHash (s_RefreshTokenHash s) (CreateSession t s d).2 = Ok (session_at t s)) ∧
  ((CreateDeviceGrant u t dg d).1 = Ok (device_filled u dg) → Forall is_field (dg_Scopes dg) →
     ∃ dg', GetDeviceGrantByDeviceCodeHash (dg_DeviceCodeHash dg) (CreateDeviceGrant u t dg d).2 = Ok dg' ∧
       GetDeviceGrantByUserCodeHash (dg_UserCodeHash dg) (CreateDeviceGrant u t dg d).2 = Ok dg' ∧
       dg_Scopes dg' = dg_Scopes dg ∧ dg_ClientID dg' = dg_ClientID dg ∧ dg_ExpiresAt dg' = column (dg_ExpiresAt dg)).
Proof.
  intros Hwf.
  pose proof (run_query_wf u t (QCreateGrant g) d Hwf) as Hg.
  pose proof (run_query_wf u t (QCreateSession s) d Hwf) as Hs.
  pose proof (run_query_wf u t (QCreateDeviceGrant dg) d Hwf) as Hd. cbn [run_query] in *.
  split_and!.
  - revert Hg. unfold CreateGrant. destruct (_ || _); [done|]. intros Hg _. cbn [snd] in *.
    unfold GetGrantByCodeHash.
    rewrite (find_row_unique gr_code_hash _ (g_ID g) (grant_row_of g) _ (wf_grants_code _ Hg));
      [|simpl; by rewrite lookup_insert_eq|done]. simpl. by rewrite scan_grant_row.
  - revert Hs. unfold CreateSession. destruct (_ || _); [done|]. intros Hs _. cbn [snd] in *.
    unfold GetSessionByAccessTokenHash, GetSessionByRefreshTokenHash.
    rewrite (find_row_unique sr_access_token_hash _ (s_ID s) (session_row_of t s) _ (wf_sessions_access _ Hs)),
      (find_row_unique sr_refresh_token_hash _ (s_ID s) (session_row_of t s) _ (wf_sessions_refresh _ Hs));
      simpl; try (by rewrite lookup_insert_eq); try done. by rewrite scan_session_row.
  - revert Hd. unfold CreateDeviceGrant. destruct (_ || _); [done|]. destruct (negb _); [done|].
    intros Hd _ Hf. cbn [snd] in *. exists (scanDeviceGrant (device_row_of u t dg)).
    unfold GetDeviceGrantByDeviceCodeHash, GetDeviceGrantByUserCodeHash.
    rewrite (find_row_unique dr_device_code_hash _ (dr_id (device_row_of u t dg)) (device_row_of u t dg) _
               (wf_devices_device_code _ Hd)),
      (find_row_unique dr_user_code_hash _ (dr_id (device_row_of u t dg)) (device_row_of u t dg) _
               (wf_devices_user_code _ Hd));
      try (by simpl; rewrite lookup_insert_eq); try done.
    split_and!; try done. by apply scan_device_scopes.
Qed.

Definition fx_new_session : Session :=
  new_session 99%N fx_user fx_client ["openid"] false None 0 "x" "y" fx_T0.

Lemma stored_credentials_found_witness :
  GetSessionByAccessTokenHash (s_AccessTokenHash fx_new_session) (CreateSession fx_T0 fx_new_session fx_db).2
    = Ok (session_at fx_T0 fx_new_session) ∧
  GetSessionByRefreshTokenHash (s_RefreshTokenHash fx_new_session) (CreateSession fx_T0 fx_new_session fx_db).2
    = Ok (session_at fx_T0 fx_new_session).
Proof.
  apply (stored_credentials_found 0%N fx_T0 fx_db fx_grant fx_new_session fx_device fx_db_wf).
  vm_compute. reflexivity.
Defined.

(** ** A valid code is redeemed *)

(** The environment does not fail, signs, and draws identifiers and tokens no
    session has. *)
Record healthy `{Externals} (env : Env) (d : DB) : Prop := {
  h_reliable : reliable env;
  h_mint : ∀ n c, ∃ j, env_mint env n c = Ok j;
  h_token : ∀ n, ∃ tok, env_token env n = Ok tok ∧ ∀ i row, db_sessions d !! i = Some row →
    sr_access_token_hash row ≠ HashToken tok ∧ sr_refresh_token_hash row ≠ HashToken tok;
  h_uuid : ∀ n, db_sessions d !! env_uuid env n = None;
}.

Section live.
  Context `{U : UnicodeTables} {dialect : Dialect} `{X : Externals} (env : Env).

(** A new session of existing user and client is accepted. *)
Lemma CreateSession_fresh t s d :
  db_sessions d !! s_ID s = None →
  (∀ i row, db_sessions d !! i = Some row →
     sr_access_token_hash row ≠ s_AccessTokenHash s ∧ sr_refresh_token_hash row ≠ s_RefreshTokenHash s) →
  (s_UserID s = uuid_nil ∨ is_Some (db_users d !! s_UserID s)) → is_Some (db_clients d !! s_ClientID s) →
  CreateSession t s d = (Ok tt, with_sessions (<[s_ID s := session_row_of t s]> (db_sessions d)) d).
Proof.
  intros Hid Hh Hu Hc. unfold CreateSession.
  replace (has (db_sessions d) (s_ID s)) with false
    by (symmetry; apply bool_decide_eq_false; rewrite Hid; apply is_Some_None).
  replace (some_row _ _) with false.
  2:{ symmetry. unfold some_row. destruct (find_row _ _) as [x|] eqn:E; [|done].
      apply find_row_Some in E as (i & Hi & Hb). destruct (Hh _ _ Hi) as [H1 H2].
      unfold session_clash in Hb. by rewrite !bool_decide_false in Hb. }
  replace (match sr_user_id (session_row_of t s) with Some u => has (db_users d) u | None => true end) with true.
  2:{ symmetry. simpl. case_bool_decide; [done|]. destruct Hu; [done|]. by apply bool_decide_eq_true. }
  replace (has (db_clients d) (s_ClientID s)) with true by (symmetry; by apply bool_decide_eq_true).
  done.
Qed.

(** Minting an ID token only reads. *)
Lemma exec_mintIDToken user client sess nonce w :
  reliable env → (∀ n c, ∃ j, env_mint env n c = Ok j) →
  ∃ j n, exec env (mintIDToken user client sess nonce) w = (Ok j, mkWorld (w_db w) n (w_journal w) (w_outbox w) (w_outside w)).
Proof.
  intros Hr Hm. unfold mintIDToken, groupNamesForUser, sessionAuthTime.
  destruct (containsStr _ _), (negb (IsZero (s_AuthTime sess))), (negb (IsZero (s_CreatedAt sess)));
    do 2 (cbn; rewrite ?Hr);
    match goal with |- context [env_mint env ?n ?c] => destruct (Hm n c) as [j ->] end; eauto.
Qed.

Lemma exec_mintTokenResponse user client scopes mfa mfaAt authTime nonce w :
  healthy env (w_db w) → db_users (w_db w) !! u_ID user ≠ None → db_clients (w_db w) !! c_ID client ≠ None →
  ∃ resp id access refresh t t' n,
    let s := new_session id user client scopes mfa mfaAt authTime access refresh t in
    exec env (mintTokenResponseWithMFAAt user client scopes mfa mfaAt authTime nonce) w =
    (Ok resp, mkWorld (with_sessions (<[id := session_row_of t' s]> (db_sessions (w_db w))) (w_db w))
                n (w_journal w) (w_outbox w) (w_outside w)) ∧
    db_sessions (w_db w) !! id = None.
Proof.
  intros [Hr Hm Ht Hu] Huser Hclient. unfold mintTokenResponseWithMFAAt.
  destruct (Ht (w_step w)) as (acc & Ea & Ha). destruct (Ht (S (w_step w))) as (ref & Er & Hf).
  unfold GenerateRawToken at 1. cbn [exec bind do_op step_op]. rewrite Ea.
  unfold GenerateRawToken. cbn [exec bind do_op step_op tick w_step]. rewrite Er.
  rewrite exec_now. unfold newUUID. cbn [exec bind do_op step_op tick w_step w_db w_journal w_outbox].
  set (s := new_session _ _ _ _ _ _ _ _ _ _).
  rewrite exec_db by done. cbn [run_query w_db w_step w_journal w_outbox].
  rewrite (CreateSession_fresh _ s (w_db w)); cycle 1.
  { apply Hu. } { intros i row Hi. split; [by eapply Ha|by eapply Hf]. }
  { right. by apply not_eq_None_Some. } { by apply not_eq_None_Some. }
  cbn [fst snd]. destruct (containsStr scopes "openid").
  - rewrite exec_bind.
    match goal with |- context [exec env (mintIDToken ?a ?b ?c ?d) ?w] =>
      destruct (exec_mintIDToken a b c d w Hr Hm) as (j & n & ->) end.
    cbn [exec fst snd w_db w_journal w_outbox]. eexists _, _, _, _, _, _, _. split; [reflexivity|apply Hu].
  - cbn [exec]. eexists _, _, _, _, _, _, _. split; [reflexivity|apply Hu].
Qed.

Lemma healthy_sessions d d' : db_sessions d' = db_sessions d → healthy env d → healthy env d'.
Proof. intros He [????]. split; [done..| |]; by rewrite He. Qed.

Lemma MarkGrantUsed_unused t id d row :
  db_grants d !! id = Some row → gr_used_at row = None →
  MarkGrantUsed t id d = (Ok tt, with_grants (alter (grant_set_used (stamp t)) id (db_grants d)) d).
Proof. intros H1 H2. unfold MarkGrantUsed. by rewrite H1, H2. Qed.

(** C11: a valid code is redeemed.  When nothing fails and new tokens are fresh,
    a request of an authenticated client with the code of one of its unused,
    unexpired grants, the grant's redirect URI and a verifier that answers its
    challenge is answered 200; afterwards the grant is used, there is exactly
    one more session, of the grant's user and client and with its scopes and
    MFA provenance, and one more journal entry, of the issuance. *)
Theorem valid_code_redeemed r w client user grow :
  db_wf (w_db w) → healthy env (w_db w) →
  db_clients (w_db w) !! c_ID client = Some client → db_users (w_db w) !! gr_user_id grow = Some user →
  db_grants (w_db w) !! gr_id grow = Some grow →
  (clientCredentials r).1 = c_ClientID client → authenticated client (clientCredentials r).2 →
  HashToken (rq_FormValue r "code") = gr_code_hash grow → gr_used_at grow = None →
  gr_client_id grow = c_ID client → gr_redirect_uri grow = rq_FormValue r "redirect_uri" →
  env_now env (2 + w_step w) ≤ gr_expires_at grow →
  verifyPKCE (gr_code_challenge grow) (rq_FormValue r "code_verifier") = true →
  let '(resp, w') := exec env (handleTokenAuthCode r) w in
  rs_Status resp = StatusOK ∧
  (∃ g', db_grants (w_db w') !! gr_id grow = Some g' ∧ gr_used_at g' ≠ None) ∧
  (∃ id row, db_sessions (w_db w) !! id = None ∧
     db_sessions (w_db w') = <[id := row]> (db_sessions (w_db w)) ∧
     sr_user_id row = (if bool_decide (u_ID user = uuid_nil) then None else Some (u_ID user)) ∧
     sr_client_id row = c_ID client ∧ sr_scopes row = gr_scopes grow ∧
     sr_mfa_verified_at row = column <$> gr_mfa_verified_at grow) ∧
  ∃ e, w_journal w' = w_journal w ++ [e] ∧ ent_Action e = ActionTokenIssued.
Proof.
  intros Hwf Hh Hc Hu Hg Hcid Hauth Hcode Hun Hcl Hru Hexp Hpkce. pose proof (h_reliable _ _ Hh) as Hr.
  unfold handleTokenAuthCode. rewrite (exec_authenticateClient env r w client) by done.
  rewrite exec_db by done. cbn [run_query reading fst snd tick w_db w_step w_journal w_outbox].
  unfold GetGrantByCodeHash.
  rewrite Hcode, (find_row_unique gr_code_hash _ _ _ _ (wf_grants_code _ Hwf) Hg) by done.
  cbn [fmap option_fmap option_map one_row]. cbn [scanGrant g_UsedAt g_ClientID g_RedirectURI g_ExpiresAt
    g_CodeChallenge g_ID g_UserID g_Scopes g_MFAVerifiedAt g_AuthTime g_Nonce].
  rewrite !(bool_decide_false (_ ≠ _)) by (intros Hn; by apply Hn).
  rewrite exec_now. cbn [w_step tick w_db w_journal w_outbox].
  replace (gr_expires_at grow <? env_now env (S (S (w_step w)))) with false
    by (symmetry; by apply Z.ltb_ge). rewrite Hpkce. cbn [negb].
  rewrite exec_db by done. cbn [run_query w_db w_step w_journal w_outbox].
  rewrite (MarkGrantUsed_unused _ _ _ _ Hg Hun). cbn [fst snd].
  rewrite exec_db by done. cbn [run_query reading fst snd w_db w_step w_journal w_outbox]. unfold GetUserByID.
  change (db_users (with_grants ?g ?d)) with (db_users d). rewrite Hu. cbn [one_row].
  rewrite exec_bind.
  match goal with |- context [exec env (mintTokenResponseWithMFAAt ?a ?b ?c ?d ?e ?f ?g) ?w0] =>
    destruct (exec_mintTokenResponse a b c d e f g w0)
      as (resp & id & acc & ref & t & t' & n & -> & Hid) end.
  { by apply (healthy_sessions (w_db w)). }
  { simpl. rewrite (wf_users _ Hwf _ _ Hu). by rewrite Hu. } { simpl. by rewrite Hc. }
  cbn [fst snd]. rewrite exec_bind.
  match goal with |- context [exec env (logAudit ?r ?a ?u ?c ?m) ?w0] =>
    destruct (exec_logAudit env r a u c m w0 Hr) as (e & n' & -> & He1 & _) end.
  cbn [fst snd exec w_db w_journal w_outbox]. split_and!; [done| | |by eauto].
  - eexists. simpl. rewrite lookup_alter_eq, Hg. split; [reflexivity|done].
  - exists id. eexists. split; [exact Hid|]. split; [reflexivity|done].
Qed.

End live.

(** The fixture's environment is healthy: its tokens consist of the letter t. *)
Lemma fx_healthy : healthy fx_env fx_db.
Proof.
  split; [done|by eauto| |].
  - intros n. eexists. split; [reflexivity|].
    apply (map_Forall_lookup (λ _ row, sr_access_token_hash row ≠ HashToken (fx_token n) ∧
             sr_refresh_token_hash row ≠ HashToken (fx_token n))).
    cut (map_Forall (λ _ row, sr_access_token_hash row = "#acc" ∧ sr_refresh_token_hash row = "#ref")
           (db_sessions fx_db)).
    + intros Hall i row Hi. destruct (Hall _ _ Hi) as [-> ->]. by destruct n.
    + apply (bool_decide_unpack _). vm_compute. exact I.
  - intros n. destruct (db_sessions fx_db !! _) eqn:E; [|done].
    apply (wf_sessions _ fx_db_wf) in E as Hk.
    assert (map_Forall (λ i _, (i < 1000)%N) (db_sessions fx_db)) as Hall
      by (apply (bool_decide_unpack _); vm_compute; exact I).
    specialize (Hall _ _ E). simpl in Hall. lia.
Qed.

Lemma valid_code_redeemed_witness :
  let '(resp, w') := exec fx_env (handleTokenAuthCode fx_code_request) fx_world in
  rs_Status resp = StatusOK ∧
  (∃ g', db_grants (w_db w') !! 20%N = Some g' ∧ gr_used_at g' ≠ None) ∧
  (∃ id row, db_sessions (w_db fx_world) !! id = None ∧
     db_sessions (w_db w') = <[id := row]> (db_sessions (w_db fx_world)) ∧
     sr_user_id row = (if bool_decide (u_ID fx_user = uuid_nil) then None else Some (u_ID fx_user)) ∧
     sr_client_id row = c_ID fx_client ∧ sr_scopes row = gr_scopes (grant_row_of fx_grant) ∧
     sr_mfa_verified_at row = column <$> gr_mfa_verified_at (grant_row_of fx_grant)) ∧
  ∃ e, w_journal w' = w_journal fx_world ++ [e] ∧ ent_Action e = ActionTokenIssued.
Proof.
  apply (valid_code_redeemed fx_env fx_code_request fx_world fx_client fx_user (grant_row_of fx_grant));
    [exact fx_db_wf|exact fx_healthy|vm_compute; reflexivity|vm_compute; reflexivity|vm_compute; reflexivity
    |reflexivity|right; split; [discriminate|reflexivity]|reflexivity|reflexivity|reflexivity|reflexivity
    |vm_compute; discriminate|reflexivity].
Defined.

(** ** Deleting a user *)

(** A conditional DELETE and a lookup by a UNIQUE column. *)
Lemma find_row_delete_where {A B} `{EqDecision B} (f : A → B) (b : A → bool) m i x :
  unique_on f m → m !! i = Some x →
  find_row (λ y, bool_decide (f y = f x)) (delete_where b m) = if b x then None else Some x.
Proof.
  intros Hu Hx. destruct (b x) eqn:Hb.
  - destruct (find_row _ _) as [y|] eqn:E; [|done].
    apply find_row_Some in E as (j & [Hj Hy]%map_lookup_filter_Some & He%bool_decide_eq_true).
    simpl in Hy. pose proof (Hu _ _ _ _ Hj Hx He) as ->. simplify_eq. congruence.
  - apply (find_row_unique f _ i); [by apply unique_delete_where| |done].
    apply map_lookup_filter_Some. by split.
Qed.

(** A deleted user leaves no usable credential.  After [DeleteUser], the
    account is gone; none of its sessions is found by its access token, its
    refresh token or a retired refresh token, none of its authorization codes
    by its hash, and it has no TOTP credential; every other session and code
    is found as before. *)
Theorem deleted_user_is_gone d uid :
  db_wf d →
  let d' := (DeleteUser uid d).2 in
  GetUserByID uid d' = Err ErrNotFound ∧ GetTOTPByUserID uid d' = Err ErrNotFound ∧
  (∀ i row, db_sessions d !! i = Some row →
     GetSessionByAccessTokenHash (sr_access_token_hash row) d' =
       (if bool_decide (sr_user_id row = Some uid) then Err ErrNotFound else Ok (scanSession row)) ∧
     GetSessionByRefreshTokenHash (sr_refresh_token_hash row) d' =
       (if bool_decide (sr_user_id row = Some uid) then Err ErrNotFound else Ok (scanSession row)) ∧
     ∀ h, db_retired_refresh_tokens d !! h = Some i → sr_user_id row = Some uid →
       GetSessionByRetiredRefreshTokenHash h d' = Err ErrNotFound) ∧
  (∀ i row, db_grants d !! i = Some row →
     GetGrantByCodeHash (gr_code_hash row) d' =
       (if bool_decide (gr_user_id row = uid) then Err ErrNotFound else Ok (scanGrant row))).
Proof.
  intros Hwf d'. split_and!.
  - unfold GetUserByID. simpl. by rewrite lookup_delete_eq.
  - unfold GetTOTPByUserID. destruct (find_row _ _) as [x|] eqn:E; [|done].
    apply find_row_Some in E as (j & [_ Hy]%map_lookup_filter_Some & He%bool_decide_eq_true).
    simpl in Hy. by rewrite He, bool_decide_true in Hy.
  - intros i row Hi.
    unfold GetSessionByAccessTokenHash, GetSessionByRefreshTokenHash.
    change (db_sessions d') with (delete_where (λ r, bool_decide (sr_user_id r = Some uid)) (db_sessions d)).
    rewrite (find_row_delete_where sr_access_token_hash _ _ i _ (wf_sessions_access _ Hwf) Hi),
      (find_row_delete_where sr_refresh_token_hash _ _ i _ (wf_sessions_refresh _ Hwf) Hi).
    split; [by destruct (bool_decide _)|]. split; [by destruct (bool_decide _)|].
    intros h Hh Hu. unfold GetSessionByRetiredRefreshTokenHash.
    replace (db_retired_refresh_tokens d' !! h) with (@None uuid); [done|]. symmetry.
    change (db_retired_refresh_tokens d')
      with (retired_after (λ r, bool_decide (sr_user_id r = Some uid)) d).
    apply map_lookup_filter_None. right. intros k Hk. rewrite Hh in Hk. injection Hk as <-. simpl.
    by rewrite Hi, Hu, bool_decide_true.
  - intros i row Hi. unfold GetGrantByCodeHash. simpl. unfold drop_fk.
    rewrite (find_row_delete_where gr_code_hash _ _ i _ (wf_grants_code _ Hwf) Hi).
    repeat case_bool_decide; naive_solver.
Qed.

Lemma deleted_user_is_gone_witness :
  let d' := (DeleteUser 7%N fx_db).2 in
  GetUserByID 7%N d' = Err ErrNotFound ∧ GetTOTPByUserID 7%N d' = Err ErrNotFound ∧
  (∀ i row, db_sessions fx_db !! i = Some row →
     GetSessionByAccessTokenHash (sr_access_token_hash row) d' =
       (if bool_decide (sr_user_id row = Some 7%N) then Err ErrNotFound else Ok (scanSession row)) ∧
     GetSessionByRefreshTokenHash (sr_refresh_token_hash row) d' =
       (if bool_decide (sr_user_id row = Some 7%N) then Err ErrNotFound else Ok (scanSession row)) ∧
     ∀ h, db_retired_refresh_tokens fx_db !! h = Some i → sr_user_id row = Some 7%N →
       GetSessionByRetiredRefreshTokenHash h d' = Err ErrNotFound) ∧
  (∀ i row, db_grants fx_db !! i = Some row →
     GetGrantByCodeHash (gr_code_hash row) d' =
       (if bool_decide (gr_user_id row = 7%N) then Err ErrNotFound else Ok (scanGrant row))).
Proof. apply (deleted_user_is_gone fx_db 7%N). exact fx_db_wf. Defined.
