(* ===== verification/Wire.v ===== *)
(** * Responses on the wire

    What the handlers' responses become at the [http.ResponseWriter]: the
    helpers of [audit.go] ([writeJSON], [writeError], [auditFail]), the template
    manager and the file server of [web.go], [recoverMiddleware] of
    [middleware.go], and [http.Error], [http.Redirect] and [http.SetCookie] of
    the Go standard library under them.  The template package and
    [encoding/json] are parameters. *)
From S2P Require Import Prelude GoStrings GoNet Mux Model Dialect Policy Tables SqliteUsers SqliteTokens SqliteAws Store Pkce Prog.
From S2P Require Import SingleUse Server Provision Awsfed Fixture Mfa Tokens Portal Authorize WebAuthn AwsConsole Account.

Local Open Scope Z_scope.

(** ** The response writer *)

(** The header map is sent as it is when the status is written; what is set in
    it afterwards is lost. *)
Record Writer : Type := mkWriter {
  wr_Header : gmap string (list string);
  wr_Status : option Z;
  wr_Sent : gmap string (list string);
  wr_Body : string;
}.

Definition fresh_writer : Writer := mkWriter ∅ None ∅ "".

Definition header_Set (k v : string) (w : Writer) : Writer :=
  mkWriter (<[k := [v]]> (wr_Header w)) (wr_Status w) (wr_Sent w) (wr_Body w).

Definition header_Add (k v : string) (w : Writer) : Writer :=
  mkWriter (<[k := default [] (wr_Header w !! k) ++ [v]]> (wr_Header w)) (wr_Status w) (wr_Sent w) (wr_Body w).

Definition header_Del (k : string) (w : Writer) : Writer :=
  mkWriter (delete k (wr_Header w)) (wr_Status w) (wr_Sent w) (wr_Body w).

(** A second call is logged by the server and ignored. *)
Definition WriteHeader (code : Z) (w : Writer) : Writer :=
  match wr_Status w with
  | Some _ => w
  | None => mkWriter (wr_Header w) (Some code) (wr_Header w) (wr_Body w)
  end.

(** The first write sends status 200. *)
Definition Write (s : string) (w : Writer) : Writer :=
  let w := WriteHeader StatusOK w in
  mkWriter (wr_Header w) (wr_Status w) (wr_Sent w) (wr_Body w +:+ s).

Definition newline : string := String (ascii_of_nat 10) EmptyString.
Definition dquote : string := String (ascii_of_nat 34) EmptyString.

(** [http.Error]. *)
Definition http_Error (msg : string) (code : Z) (w : Writer) : Writer :=
  Write (msg +:+ newline)
    (WriteHeader code
      (header_Set "X-Content-Type-Options" "nosniff"
        (header_Set "Content-Type" "text/plain; charset=utf-8" (header_Del "Content-Length" w)))).

(** [http.Cookie.String], for names and values that need no quoting (the values
    are base64url text). *)
Definition cookie_String (c : Cookie) : string :=
  ck_Name c +:+ "=" +:+ ck_Value c +:+
  (if bool_decide (ck_Path c = "") then "" else "; Path=" +:+ ck_Path c) +:+
  (if 0 <? ck_MaxAge c then "; Max-Age=" +:+ Itoa (ck_MaxAge c) else if ck_MaxAge c <? 0 then "; Max-Age=0" else "") +:+
  (if ck_HttpOnly c then "; HttpOnly" else "") +:+
  (match ck_SameSite c with SameSiteLaxMode => "; SameSite=Lax" | SameSiteDefault => "" end).

Definition http_SetCookie (c : Cookie) (w : Writer) : Writer := header_Add "Set-Cookie" (cookie_String c) w.

(** [hexEscapeNonASCII]. *)
Definition low_hex (n : Z) : ascii := ascii_of_N (Z.to_N (if n <? 10 then 48 + n else 87 + n)).

Fixpoint hexEscapeNonASCII (s : string) : string :=
  match s with
  | EmptyString => EmptyString
  | String a s =>
      if byteZ a <? 128 then String a (hexEscapeNonASCII s)
      else String "%" (String (low_hex (byteZ a / 16)) (String (low_hex (byteZ a mod 16)) (hexEscapeNonASCII s)))
  end.

(** [path.Split]: up to and including the last slash. *)
Fixpoint path_dir (p : string) : string :=
  match p with
  | EmptyString => EmptyString
  | String a r => if Contains r "/" || Ascii.eqb a "/" then String a (path_dir r) else EmptyString
  end.

(** A URL at its first question mark, which stays with the query. *)
Fixpoint cut_query (s : string) : string * string :=
  match s with
  | EmptyString => (EmptyString, EmptyString)
  | String a r => if Ascii.eqb a "?" then (EmptyString, s) else let '(p, q) := cut_query r in (String a p, q)
  end.

(** The address [http.Redirect] sends: a relative one is made absolute and clean. *)
Definition redirect_address `{Externals} (oldpath url : string) : string :=
  match url_Parse url with
  | Err _ => url
  | Ok u =>
      if bool_decide (url_Scheme u = "") && bool_decide (url_Host u = "") then
        let url := if is_rooted url then url
                   else path_dir (if bool_decide (oldpath = "") then "/" else oldpath) +:+ url in
        let '(p, query) := cut_query url in
        let c := path_Clean p in
        (if slash_ended p && negb (slash_ended c) then c +:+ "/" else c) +:+ query
      else url
  end.

(** The five characters [htmlEscape] replaces. *)
Definition html_byte (a : ascii) : string :=
  if Ascii.eqb a "&" then "&amp;"
  else if Ascii.eqb a "<" then "&lt;"
  else if Ascii.eqb a ">" then "&gt;"
  else if Ascii.eqb a (ascii_of_nat 34) then "&#34;"
  else if Ascii.eqb a "'" then "&#39;"
  else String a EmptyString.

Fixpoint htmlEscape (s : string) : string :=
  match s with EmptyString => EmptyString | String a s => html_byte a +:+ htmlEscape s end.

(** [http.StatusText], for the one status the code redirects with. *)
Definition StatusText (code : Z) : string := if code =? StatusFound then "Found" else "".

Definition http_Redirect `{Externals} (r : Request) (url : string) (code : Z) (w : Writer) : Writer :=
  let url := redirect_address (pathUnescape (rq_Path r)) url in
  let hadCT := match wr_Header w !! "Content-Type" with Some _ => true | None => false end in
  let get := bool_decide (rq_Method r = "GET") in
  let w := header_Set "Location" (hexEscapeNonASCII url) w in
  let w := if negb hadCT && (get || bool_decide (rq_Method r = "HEAD"))
           then header_Set "Content-Type" "text/html; charset=utf-8" w else w in
  let w := WriteHeader code w in
  if negb hadCT && get
  then Write ("<a href=" +:+ dquote +:+ htmlEscape url +:+ dquote +:+ ">" +:+ StatusText code +:+ "</a>." +:+ newline +:+ newline) w
  else w.

(** [http.NotFound]. *)
Definition http_NotFound (w : Writer) : Writer := http_Error "404 page not found" StatusNotFound w.

(** ** web.go *)

(** The package [html/template] over the embedded files: parsing a file into a
    new template or into a clone, and executing one: the pieces it wrote and
    whether it finished. *)
Class Templates : Type := {
  Template : Type;
  template_New_ParseFS : string → result Template;
  template_Clone : Template → result Template;
  template_ParseFS : Template → string → result Template;
  template_Execute : Template → string → list (string * JVal) → list string * bool;
}.

Section web.
  Context `{T : Templates} `{X : Externals} (json_Encode : list (string * JVal) → string).

Record tmplManager : Type := mkTmplManager { tm_base : Template }.

Definition newTmplManager (baseFile : string) : result tmplManager :=
  match template_New_ParseFS ("web/tmpl/" +:+ baseFile) with
  | Err e => Err e
  | Ok base => Ok (mkTmplManager base)
  end.

(** [tmplManager.render]. *)
Definition tmpl_render (m : tmplManager) (pageFile : string) (data : list (string * JVal)) (w : Writer) : Writer :=
  match template_Clone (tm_base m) with
  | Err _ => http_Error "template clone error" StatusInternalServerError w
  | Ok t =>
      match template_ParseFS t ("web/tmpl/" +:+ pageFile) with
      | Err e => http_Error ("template parse error: " +:+ err_Error e) StatusInternalServerError w
      | Ok t =>
          let w := header_Set "Content-Type" "text/html; charset=utf-8" w in
          foldl (λ w s, Write s w) w (template_Execute t "base" data).1     (* its error is dropped *)
      end
  end.

(** [staticHandler]: [http.StripPrefix] around the file server. *)
Definition staticHandler (file_server : string → Writer → Writer) (path : string) (w : Writer) : Writer :=
  match CutPrefix path "/static/" with
  | Some file => file_server file w
  | None => http_NotFound w
  end.

(** ** The helpers of audit.go *)

Definition write_JSON (status : Z) (v : list (string * JVal)) (w : Writer) : Writer :=
  Write (json_Encode v +:+ newline) (WriteHeader status (header_Set "Content-Type" "application/json" w)).

Definition write_Error (status : Z) (errCode desc : string) (w : Writer) : Writer :=
  write_JSON status [("error", JStr errCode); ("error_description", JStr desc)] w.

Definition audit_Fail (e : error) (w : Writer) : Writer :=
  http_Error ("audit journal unreachable; request refused: " +:+ err_Error e) StatusServiceUnavailable w.

(** ** recoverMiddleware *)

(** A panic: the sentinel of net/http, or any other value (as it prints). *)
Inductive panic_value : Type := ErrAbortHandler | OtherPanic (text : string).

(** A handler returns or panics, with what it has written so far. *)
Inductive served : Type :=
| Returned (w : Writer)
| Panicked (v : panic_value) (w : Writer).

(** One line of the error log. *)
Record panic_log : Type := mkPanicLog { pl_Method : string; pl_Path : string; pl_Panic : string }.

Definition panic_body : string :=
  "{" +:+ dquote +:+ "error" +:+ dquote +:+ ":" +:+ dquote +:+ "server_error" +:+ dquote +:+ "," +:+
  dquote +:+ "error_description" +:+ dquote +:+ ":" +:+ dquote +:+ "internal error" +:+ dquote +:+ "}".

Definition recoverMiddleware (next : Request → Writer → served) (r : Request) (w : Writer) : served * list panic_log :=
  match next r w with
  | Returned w => (Returned w, [])
  | Panicked ErrAbortHandler w => (Panicked ErrAbortHandler w, [])
  | Panicked (OtherPanic text) w =>
      (Returned (Write panic_body (WriteHeader StatusInternalServerError w)),
       [mkPanicLog (rq_Method r) (pathUnescape (rq_Path r)) text])
  end.

(** ** Responses *)

(** The calls on the writer that a handler's response stands for: its cookies,
    then its body.  [manager] is the manager of a page's layout, [address] the
    text of a redirect's target. *)
Definition emit (manager : string → tmplManager) (address : Location → string) (r : Request) (resp : Response) (w : Writer) : Writer :=
  let w := foldl (λ w c, http_SetCookie c w) w (rs_Cookies resp) in
  match rs_Body resp with
  | Json v => write_JSON (rs_Status resp) v w
  | Text s => http_Error s (rs_Status resp) w
  | Redirect l => http_Redirect r (address l) (rs_Status resp) w
  | Page t d => tmpl_render (manager t) t d w
  | NoBody => WriteHeader (rs_Status resp) w
  end.

(** When the handler returns without having written anything, the server sends
    status 200. *)
Definition finish (w : Writer) : Writer := WriteHeader StatusOK w.

(** ** What is sent *)

(** Nothing is sent yet, and these cookies are set. *)
Definition unsent (cs : list string) (w : Writer) : Prop :=
  wr_Status w = None ∧ default [] (wr_Header w !! "Set-Cookie") = cs.

(** The status and the cookies that were sent. *)
Definition sent_as (status : Z) (cs : list string) (w : Writer) : Prop :=
  wr_Status w = Some status ∧ default [] (wr_Sent w !! "Set-Cookie") = cs.

Lemma unsent_Set cs k v w : unsent cs w → k ≠ "Set-Cookie" → unsent cs (header_Set k v w).
Proof. intros [Hs Hc] Hk. split; [done|]. simpl. by rewrite lookup_insert_ne. Qed.

Lemma unsent_Del cs k w : unsent cs w → k ≠ "Set-Cookie" → unsent cs (header_Del k w).
Proof. intros [Hs Hc] Hk. split; [done|]. simpl. by rewrite lookup_delete_ne. Qed.

Lemma unsent_cookies cks w : unsent [] w → unsent (cookie_String <$> cks) (foldl (λ w c, http_SetCookie c w) w cks).
Proof.
  change (cookie_String <$> cks) with ([] ++ (cookie_String <$> cks)). generalize (@nil string). revert w.
  induction cks as [|c cks IH]; intros w cs Hw; simpl; [by rewrite app_nil_r|].
  rewrite cons_middle, app_assoc. apply IH. destruct Hw as [Hs Hc]. split; [done|]. simpl.
  by rewrite lookup_insert_eq, Hc.
Qed.

Lemma sent_WriteHeader cs code w : unsent cs w → sent_as code cs (WriteHeader code w).
Proof. intros [Hs Hc]. unfold WriteHeader. by rewrite Hs. Qed.

Lemma sent_again s cs code w : sent_as s cs w → sent_as s cs (WriteHeader code w).
Proof. intros [Hs Hc]. unfold WriteHeader. rewrite Hs. by split. Qed.

Lemma sent_Write s cs t w : sent_as s cs w → sent_as s cs (Write t w).
Proof. intros Hw. unfold Write. pose proof (sent_again s cs StatusOK w Hw) as [H1 H2]. by split. Qed.

#[local] Hint Resolve unsent_Set unsent_Del sent_WriteHeader sent_again sent_Write : wire.

Lemma sent_Error cs msg code w : unsent cs w → sent_as code cs (http_Error msg code w).
Proof. intros Hw. unfold http_Error. apply sent_Write, sent_WriteHeader. do 2 (apply unsent_Set; [|done]). by apply unsent_Del. Qed.

Lemma sent_Redirect cs r url code w : unsent cs w → sent_as code cs (http_Redirect r url code w).
Proof.
  intros Hw. unfold http_Redirect. assert (∀ x, unsent cs (header_Set "Location" x w)) as Hl by (intros; by apply unsent_Set).
  repeat case_match; first [apply sent_Write, sent_WriteHeader|apply sent_WriteHeader]; auto; by apply unsent_Set.
Qed.

Lemma sent_writes cs pieces w : unsent cs w → sent_as StatusOK cs (finish (foldl (λ w s, Write s w) w pieces)).
Proof.
  intros Hw. destruct pieces as [|s pieces]; [by apply sent_WriteHeader|]. simpl.
  assert (sent_as StatusOK cs (Write s w)) as Hs.
  { unfold Write. pose proof (sent_WriteHeader cs StatusOK w Hw) as [H1 H2]. by split. }
  apply sent_again. clear Hw. revert Hs. generalize (Write s w). induction pieces as [|p pieces IH]; intros w' Hs; [done|].
  simpl. apply IH. by apply sent_Write.
Qed.

(** The page's layout is cloned and its file parsed. *)
Definition page_parses (manager : string → tmplManager) (t : string) : Prop :=
  ∃ t1 t2, template_Clone (tm_base (manager t)) = Ok t1 ∧ template_ParseFS t1 ("web/tmpl/" +:+ t) = Ok t2.

(** A handler's response reaches the client with its status and its cookies, in
    the order they were set, provided its page can be parsed. *)
Lemma emitted manager address r resp :
  (∀ t d, rs_Body resp = Page t d → rs_Status resp = StatusOK ∧ page_parses manager t) →
  sent_as (rs_Status resp) (cookie_String <$> rs_Cookies resp) (finish (emit manager address r resp fresh_writer)).
Proof.
  intros Hpage. pose proof (unsent_cookies (rs_Cookies resp) fresh_writer (conj eq_refl eq_refl)) as Hw. unfold emit.
  revert Hw. generalize (foldl (λ w c, http_SetCookie c w) fresh_writer (rs_Cookies resp)). intros w Hw.
  destruct (rs_Body resp) as [v|s|l|t d|] eqn:Hb.
  - apply sent_again. apply sent_Write, sent_WriteHeader. by apply unsent_Set.
  - apply sent_again. by apply sent_Error.
  - apply sent_again. by apply sent_Redirect.
  - destruct (Hpage t d eq_refl) as (-> & t1 & t2 & H1 & H2). unfold tmpl_render. rewrite H1, H2.
    apply sent_writes. by apply unsent_Set.
  - apply sent_again. by apply sent_WriteHeader.
Qed.

(** A template whose execution fails before it writes anything is answered
    with status 200 and an empty page. *)
Lemma failed_page_is_200 m pageFile data t1 t2 :
  template_Clone (tm_base m) = Ok t1 → template_ParseFS t1 ("web/tmpl/" +:+ pageFile) = Ok t2 →
  template_Execute t2 "base" data = ([], false) →
  wr_Status (finish (tmpl_render m pageFile data fresh_writer)) = Some StatusOK ∧
  wr_Body (finish (tmpl_render m pageFile data fresh_writer)) = "".
Proof. intros H1 H2 H3. unfold tmpl_render. by rewrite H1, H2, H3. Qed.

(** ** Panics *)

(** A panic never leaves the middleware, but for the sentinel with which a
    handler aborts its connection.  A handler that had sent nothing is answered
    for with status 500 and the error document, and with the headers it had set;
    one that had sent its status keeps it, and the document follows what it had
    written.  Every such panic is logged once. *)
Theorem panic_contained next r w :
  match recoverMiddleware next r w with
  | (Returned w', []) => next r w = Returned w'
  | (Returned w', [l]) =>
      ∃ text w1, next r w = Panicked (OtherPanic text) w1 ∧ pl_Panic l = text ∧
        wr_Body w' = wr_Body w1 +:+ panic_body ∧
        match wr_Status w1 with
        | None => wr_Status w' = Some StatusInternalServerError ∧ wr_Sent w' = wr_Header w1
        | Some s => wr_Status w' = Some s ∧ wr_Sent w' = wr_Sent w1
        end
  | (Panicked v w', l) => v = ErrAbortHandler ∧ l = [] ∧ next r w = Panicked ErrAbortHandler w'
  | _ => False
  end.
Proof.
  unfold recoverMiddleware. destruct (next r w) as [w'|[|text] w1]; [done|done|]. exists text, w1.
  unfold Write, WriteHeader. destruct (wr_Status w1) as [s|] eqn:E; simpl; rewrite ?E; by split_and!.
Qed.

End web.
