(* ===== verification/Routes.v ===== *)
(** * Routes

    [Server.Routes] of [server.go] and the middleware around it: the table of
    method and path patterns as the [http.ServeMux] of the Go standard library
    matches them (a GET pattern also serves HEAD, [{id}] is one segment), the
    limiters and the gates each route is wrapped in, and the redirects to clean
    paths the multiplexer answers by itself.  The limiter's decision, the file
    server, the event stream and the status of the multiplexer's redirects (it
    changed between releases of Go) are parameters. *)
From S2P Require Import Prelude GoStrings GoNet Mux Model Dialect Policy Tables SqliteUsers SqliteTokens SqliteAws Store Pkce Prog.
From S2P Require Import SingleUse Server Provision Awsfed Fixture Mfa Tokens Portal PortalFacts Authorize AuthorizeFacts WebAuthn AwsConsole.
From S2P Require Import Account AdminUsers AdminCatalog AdminIntegrations AdminAws AdminApi AdminFacts Signing Boot Device DeviceFacts.

Local Open Scope Z_scope.
Local Open Scope prog_scope.

(** ** Patterns *)

Inductive Segment : Type := Lit (s : string) | Wild.

Definition segment (s : string) : Segment := if bool_decide (s = "{id}") then Wild else Lit s.

Definition parse_pattern (pat : string) : string * list Segment :=
  match Split pat " " with
  | [m; p] => (m, segment <$> path_segments p)
  | _ => ("", [])
  end.

(** [Some id]: the path matches; [id] is the segment the wildcard stands for. *)
Fixpoint match_segments (pat : list Segment) (path : list string) (id : string) : option string :=
  match pat, path with
  | [], [] => Some id
  | Lit s :: pat, x :: path => if bool_decide (s = x) then match_segments pat path id else None
  | Wild :: pat, x :: path =>
      if bool_decide (x = "") || bool_decide (x = "/") then None else match_segments pat path x
  | _, _ => None
  end.

Definition method_matches (pat m : string) : bool :=
  bool_decide (pat = m) || (bool_decide (pat = "GET") && bool_decide (m = "HEAD")).

(** ** The table *)

Inductive Limiter : Type := NoLimit | LimitAuth | LimitToken.

Inductive Handler : Type :=
| Public (h : Request → prog Response)
| Bearer (h : Session → Request → prog Response)
| AdminBearer (h : Session → Request → prog Response)
| Portal (h : portalCtx → Request → prog Response)
| PortalAdmin (h : portalCtx → Request → prog Response).

Record Route : Type := mkRoute {
  rt_Method : string;
  rt_Pattern : list Segment;
  rt_Limiter : Limiter;
  rt_Handler : Handler;
}.

Definition handle (pat : string) (l : Limiter) (h : Handler) : Route :=
  mkRoute (parse_pattern pat).1 (parse_pattern pat).2 l h.

Definition StatusMethodNotAllowed : Z := 405.
Definition StatusTooManyRequests : Z := 429.

(** [sse.Handler] of the journal library: how many records are replayed and how
    often an idle connection is kept alive.  Its [ServeHTTP] is a parameter. *)
Record sse_Handler : Type := mkSseHandler { sse_Replay : Z; sse_Heartbeat : Z }.

Definition handlePortalAdminAuditSSE (ServeHTTP : sse_Handler → Request → prog Response) (r : Request) : prog Response :=
  ServeHTTP (mkSseHandler 100 (30 * Second)) r.

Section routes.
  Context `{U : UnicodeTables} {dialect : Dialect} `{X : Externals} (audit_sse : sse_Handler → Request → prog Response).

Definition handlePortalAdminAuditPage (pc : portalCtx) (r : Request) : prog Response :=
  Ret (render "portal_admin_audit.html" (newPortalBase pc "admin-audit")).

(** Every route but the root and the static files. *)
Definition Routes (sv : Server) : list Route :=
  [handle "GET /.well-known/openid-configuration" NoLimit (Public (handleDiscovery sv));
   handle "GET /.well-known/jwks.json" NoLimit (Public handleJWKS);
   handle "GET /authorize" NoLimit (Public (handleAuthorizeGET sv));
   handle "POST /authorize" LimitAuth (Public (handleAuthorizePost sv));
   handle "POST /authorize/mfa/totp" LimitAuth (Public (handleMFATOTPPost sv));
   handle "GET /authorize/mfa/webauthn" NoLimit (Public handleSSOWebAuthnPage);
   handle "POST /authorize/mfa/webauthn/begin" LimitAuth (Public handleSSOWebAuthnBegin);
   handle "POST /authorize/mfa/webauthn/finish" LimitAuth (Public (handleSSOWebAuthnFinish sv));
   handle "POST /token" LimitToken (Public handleToken);
   handle "GET /userinfo" NoLimit (Bearer handleUserInfo);
   handle "POST /revoke" LimitToken (Public handleRevoke);
   handle "POST /device_authorization" LimitToken (Public (handleDeviceAuthorization sv));
   handle "GET /device" NoLimit (Portal handleDevice);
   handle "POST /device" LimitAuth (Portal handleDevice);
   handle "POST /device/confirm" LimitAuth (Portal handleDeviceConfirm);
   handle "POST /aws/credentials" LimitToken (Bearer (handleAWSCredentials sv));
   handle "GET /register" NoLimit (Public (handleRegisterGET sv));
   handle "POST /register" LimitAuth (Public (handleRegisterPOST sv));
   handle "POST /mfa/totp/enroll" LimitAuth (Bearer handleTOTPEnroll);
   handle "POST /mfa/totp/confirm" LimitAuth (Bearer handleTOTPConfirm);
   handle "POST /mfa/totp/verify" LimitAuth (Bearer handleTOTPVerify);
   handle "DELETE /mfa/totp" NoLimit (Bearer handleTOTPDelete);
   handle "POST /mfa/webauthn/register/begin" NoLimit (Bearer handleWebAuthnRegisterBegin);
   handle "POST /mfa/webauthn/register/finish" NoLimit (Bearer handleWebAuthnRegisterFinish);
   handle "POST /mfa/webauthn/login/begin" LimitAuth (Public handleWebAuthnLoginBegin);
   handle "POST /mfa/webauthn/login/finish" LimitAuth (Public handleWebAuthnLoginFinish);
   handle "DELETE /mfa/webauthn/{id}" NoLimit (Bearer handleWebAuthnDelete);
   handle "GET /admin/users" NoLimit (AdminBearer (λ _, handleAdminListUsers));
   handle "POST /admin/users" NoLimit (AdminBearer (λ _, handleAdminCreateUser sv));
   handle "GET /admin/users/{id}" NoLimit (AdminBearer (λ _, handleAdminGetUser));
   handle "PUT /admin/users/{id}" NoLimit (AdminBearer (λ _, handleAdminUpdateUser));
   handle "DELETE /admin/users/{id}" NoLimit (AdminBearer (λ _, handleAdminDeleteUser sv));
   handle "GET /admin/clients" NoLimit (AdminBearer (λ _, handleAdminListClients));
   handle "POST /admin/clients" NoLimit (AdminBearer (λ _, handleAdminCreateClient));
   handle "GET /admin/clients/{id}" NoLimit (AdminBearer (λ _, handleAdminGetClient));
   handle "DELETE /admin/clients/{id}" NoLimit (AdminBearer (λ _, handleAdminDeleteClient));
   handle "POST /admin/clients/{id}/rotate-secret" NoLimit (AdminBearer (λ _, handleAdminRotateClientSecret));
   handle "GET /portal/login" NoLimit (Public (handlePortalLoginGET sv));
   handle "POST /portal/login" LimitAuth (Public (handlePortalLoginPOST sv));
   handle "GET /portal/login/mfa" NoLimit (Public handlePortalLoginMFA);
   handle "POST /portal/login/mfa" LimitAuth (Public handlePortalLoginMFA);
   handle "GET /portal/login/change-password" NoLimit (Public (handlePortalChangePassword sv));
   handle "POST /portal/login/change-password" LimitAuth (Public (handlePortalChangePassword sv));
   handle "POST /portal/login/mfa/webauthn/begin" LimitAuth (Public handlePortalLoginMFAWebAuthnBegin);
   handle "POST /portal/login/mfa/webauthn/finish" LimitAuth (Public handlePortalLoginMFAWebAuthnFinish);
   handle "POST /portal/logout" NoLimit (Portal (handlePortalLogout sv));
   handle "GET /portal/register" NoLimit (Public (handlePortalRegisterGET sv));
   handle "POST /portal/register" LimitAuth (Public (handlePortalRegisterPOST sv));
   handle "GET /portal/apps" NoLimit (Portal (λ _ _, Ret (redirect_to "/portal")));
   handle "GET /portal/aws" NoLimit (Portal (λ _ _, Ret (redirect_to "/portal")));
   handle "POST /portal/aws/console" NoLimit (Portal (handlePortalAWSConsole sv));
   handle "GET /portal/aws/refresh" NoLimit (Portal (handlePortalAWSRefresh sv));
   handle "GET /portal/step-up" NoLimit (Portal (handlePortalStepUp sv));
   handle "POST /portal/step-up" LimitAuth (Portal (handlePortalStepUp sv));
   handle "POST /portal/step-up/webauthn/begin" LimitAuth (Portal handlePortalStepUpWebAuthnBegin);
   handle "POST /portal/step-up/webauthn/finish" LimitAuth (Portal (handlePortalStepUpWebAuthnFinish sv));
   handle "GET /portal" NoLimit (Portal (handlePortalHome sv));
   handle "GET /portal/account" NoLimit (Portal handlePortalAccount);
   handle "POST /portal/account/profile" NoLimit (Portal handlePortalAccountProfile);
   handle "POST /portal/account/password" LimitAuth (Portal (handlePortalAccountPassword sv));
   handle "POST /portal/mfa/totp/enroll" NoLimit (Portal handlePortalMFATOTPEnroll);
   handle "POST /portal/mfa/totp/confirm" NoLimit (Portal handlePortalMFATOTPConfirm);
   handle "POST /portal/mfa/totp/delete" NoLimit (Portal handlePortalMFATOTPDelete);
   handle "POST /portal/mfa/webauthn/register/begin" NoLimit (Portal handlePortalMFAWebAuthnBegin);
   handle "POST /portal/mfa/webauthn/register/finish" NoLimit (Portal handlePortalMFAWebAuthnFinish);
   handle "POST /portal/mfa/webauthn/{id}/delete" NoLimit (Portal handlePortalMFAWebAuthnDelete);
   handle "GET /portal/admin/users" NoLimit (PortalAdmin handlePortalAdminUsers);
   handle "GET /portal/admin/users/new" NoLimit (PortalAdmin (handlePortalAdminUserNew sv));
   handle "POST /portal/admin/users/new" NoLimit (PortalAdmin (handlePortalAdminUserNew sv));
   handle "GET /portal/admin/users/{id}/edit" NoLimit (PortalAdmin handlePortalAdminUserEdit);
   handle "POST /portal/admin/users/{id}/edit" NoLimit (PortalAdmin handlePortalAdminUserEdit);
   handle "POST /portal/admin/users/{id}/delete" NoLimit (PortalAdmin (handlePortalAdminUserDelete sv));
   handle "POST /portal/admin/users/{id}/reset-password" NoLimit (PortalAdmin (handlePortalAdminUserResetPassword sv));
   handle "POST /portal/admin/users/{id}/compromised-reset" NoLimit (PortalAdmin (handlePortalAdminUserCompromisedReset sv));
   handle "POST /portal/admin/users/{id}/clear-mfa" NoLimit (PortalAdmin handlePortalAdminUserClearMFA);
   handle "POST /portal/admin/users/{id}/revoke-aws" NoLimit (PortalAdmin handlePortalAdminUserRevokeAWS);
   handle "GET /portal/admin/clients" NoLimit (PortalAdmin handlePortalAdminClients);
   handle "GET /portal/admin/clients/new" NoLimit (PortalAdmin handlePortalAdminClientNew);
   handle "POST /portal/admin/clients/new" NoLimit (PortalAdmin handlePortalAdminClientNew);
   handle "GET /portal/admin/clients/{id}/edit" NoLimit (PortalAdmin handlePortalAdminClientEdit);
   handle "POST /portal/admin/clients/{id}/edit" NoLimit (PortalAdmin handlePortalAdminClientEdit);
   handle "POST /portal/admin/clients/{id}/delete" NoLimit (PortalAdmin handlePortalAdminClientDelete);
   handle "POST /portal/admin/clients/{id}/rotate-secret" NoLimit (PortalAdmin handlePortalAdminClientRotate);
   handle "GET /portal/admin/integrations" NoLimit (PortalAdmin handlePortalAdminIntegrations);
   handle "GET /portal/admin/integrations/new" NoLimit (PortalAdmin (handlePortalAdminIntegrationNew sv));
   handle "POST /portal/admin/integrations/new" NoLimit (PortalAdmin (handlePortalAdminIntegrationNew sv));
   handle "GET /portal/admin/integrations/{id}/edit" NoLimit (PortalAdmin (handlePortalAdminIntegrationEdit sv));
   handle "POST /portal/admin/integrations/{id}/edit" NoLimit (PortalAdmin (handlePortalAdminIntegrationEdit sv));
   handle "POST /portal/admin/integrations/{id}/delete" NoLimit (PortalAdmin (handlePortalAdminIntegrationDelete sv));
   handle "POST /portal/admin/integrations/{id}/test" NoLimit (PortalAdmin (handlePortalAdminIntegrationTest sv));
   handle "POST /portal/admin/integrations/{id}/sync" NoLimit (PortalAdmin handlePortalAdminIntegrationSync);
   handle "GET /portal/admin/aws" NoLimit (PortalAdmin (handlePortalAdminAWS sv));
   handle "POST /portal/admin/aws/accounts/new" NoLimit (PortalAdmin handlePortalAdminAWSAccountNew);
   handle "POST /portal/admin/aws/accounts/{id}/delete" NoLimit (PortalAdmin handlePortalAdminAWSAccountDelete);
   handle "POST /portal/admin/aws/roles/new" NoLimit (PortalAdmin handlePortalAdminAWSRoleNew);
   handle "POST /portal/admin/aws/roles/{id}/delete" NoLimit (PortalAdmin handlePortalAdminAWSRoleDelete);
   handle "POST /portal/admin/aws/roles/{id}/regions" NoLimit (PortalAdmin (handlePortalAdminAWSRoleRegions sv));
   handle "POST /portal/admin/aws/assignments/new" NoLimit (PortalAdmin handlePortalAdminAWSAssignmentNew);
   handle "POST /portal/admin/aws/assignments/{id}/delete" NoLimit (PortalAdmin handlePortalAdminAWSAssignmentDelete);
   handle "GET /portal/admin/groups" NoLimit (PortalAdmin handlePortalAdminGroups);
   handle "GET /portal/admin/groups/new" NoLimit (PortalAdmin handlePortalAdminGroupNew);
   handle "POST /portal/admin/groups/new" NoLimit (PortalAdmin handlePortalAdminGroupNew);
   handle "GET /portal/admin/groups/{id}/edit" NoLimit (PortalAdmin handlePortalAdminGroupEdit);
   handle "POST /portal/admin/groups/{id}/edit" NoLimit (PortalAdmin handlePortalAdminGroupEdit);
   handle "POST /portal/admin/groups/{id}/delete" NoLimit (PortalAdmin handlePortalAdminGroupDelete);
   handle "GET /portal/admin/audit" NoLimit (PortalAdmin handlePortalAdminAuditPage);
   handle "GET /portal/admin/audit/sse" NoLimit (PortalAdmin (λ _, handlePortalAdminAuditSSE audit_sse));
   handle "GET /health" NoLimit (Public (λ _, Ret (mkResponse StatusOK [] NoBody)))].

(** ** Serving a request *)

Definition throttled (r : Request) : Response :=
  let msg := "too many requests; try again later" in
  if Contains (rq_Accept r) "text/html" then httpError msg StatusTooManyRequests
  else writeError StatusTooManyRequests "too_many_requests" msg.

(** The gate a handler is wrapped in. *)
Definition gated (h : Handler) : Request → prog Response :=
  match h with
  | Public h => h
  | Bearer h => bearerAuth h
  | AdminBearer h => adminAuth h
  | Portal h => portalAuth h
  | PortalAdmin h => portalAdminAuth h
  end.

(** The route a request takes, and the wildcard's segment. *)
Fixpoint lookup_route (rs : list Route) (m : string) (path : list string) : option (Route * string) :=
  match rs with
  | [] => None
  | rt :: rs =>
      match match_segments (rt_Pattern rt) path "" with
      | Some id => if method_matches (rt_Method rt) m then Some (rt, id) else lookup_route rs m path
      | None => lookup_route rs m path
      end
  end.

(** What no route takes: files, the root, and the rest ([GET /] matches every
    path, so another method on an unknown path is refused as such). *)
Definition fallback (static : Request → Response) (r : Request) : Response :=
  if negb (method_matches "GET" (rq_Method r)) then httpError "Method Not Allowed" StatusMethodNotAllowed
  else match path_segments (rq_Path r) with
       | "static" :: _ :: _ => static r
       | _ => if bool_decide (pathUnescape (rq_Path r) = "/") then redirect_to "/portal"
              else httpError "404 page not found" StatusNotFound
       end.

(** Where the multiplexer sends a request before any handler sees it: to the
    tree [/static/], or to the clean form of its path (with its query);
    [http.Redirect] cleans the address once more. *)
Definition mux_redirect (r : Request) : option string :=
  let path := cleanPath (rq_Path r) in
  if bool_decide (rq_Method r = "CONNECT") then None
  else if method_matches "GET" (rq_Method r) && bool_decide (path_segments path = ["static"]) then
    Some (url_path_String (cleanPath (cleanPath (pathUnescape (rq_Path r)) +:+ "/")))
  else if bool_decide (path = rq_Path r) then None
  else Some (url_path_String path).

(** [allow] is what the limiter of the route decides; panics are handled where
    they can occur.  ([OPTIONS *] is answered by the server itself.) *)
Definition serve (moved : Z) (allow : Limiter → Request → bool) (static : Request → Response) (sv : Server) (r : Request)
    : prog Response :=
  if bool_decide (rq_Path r = "*") then Ret (mkResponse StatusBadRequest [] NoBody)
  else match mux_redirect r with
  | Some path => Ret (mkResponse moved [] (Redirect (LocPath path)))
  | None =>
  match lookup_route (Routes sv) (rq_Method r) (path_segments (rq_Path r)) with
  | None => Ret (fallback static r)
  | Some (rt, id) =>
      match rt_Limiter rt with
      | NoLimit => gated (rt_Handler rt) (with_path_id id r)
      | l => if allow l r then gated (rt_Handler rt) (with_path_id id r) else Ret (throttled r)
      end
  end
  end.

End routes.

(** ** The table *)

(** Two patterns that no path matches both of. *)
Fixpoint disjoint_patterns (p q : list Segment) : bool :=
  match p, q with
  | [], [] => false
  | Lit a :: p, Lit b :: q => negb (bool_decide (a = b)) || disjoint_patterns p q
  | _ :: p, _ :: q => disjoint_patterns p q
  | _, _ => true
  end.

Lemma disjoint_patterns_sound p q path i j :
  disjoint_patterns p q = true → is_Some (match_segments p path i) → is_Some (match_segments q path j) → False.
Proof.
  revert q path i j. induction p as [|[a|] p IH]; intros [|[b|] q] [|x path] i j; simpl; try (by intros ? [? ?] [? ?]);
    repeat case_bool_decide; simplify_eq/=; try (by intros ? [? ?] [? ?]); eauto.
Qed.

(** No path and method is taken by two routes of a table. *)
Fixpoint routes_disjoint (rs : list Route) : bool :=
  match rs with
  | [] => true
  | rt :: rs =>
      forallb (λ rt', negb (bool_decide (rt_Method rt = rt_Method rt')) ||
                      disjoint_patterns (rt_Pattern rt) (rt_Pattern rt')) rs && routes_disjoint rs
  end.

(** The methods the table uses. *)
Definition known_methods (rs : list Route) : bool :=
  forallb (λ rt, str_contains ["GET"; "POST"; "PUT"; "DELETE"] (rt_Method rt)) rs.

Lemma lookup_route_Some rs m path rt id :
  lookup_route rs m path = Some (rt, id) →
  rt ∈ rs ∧ match_segments (rt_Pattern rt) path "" = Some id ∧ method_matches (rt_Method rt) m = true.
Proof.
  induction rs as [|rt' rs IH]; simpl; [done|].
  destruct (match_segments (rt_Pattern rt') path "") as [id'|] eqn:Hm; [|intros (? & ? & ?)%IH; split_and!; [by right|done..]].
  destruct (method_matches (rt_Method rt') m) eqn:Hmm; [|intros (? & ? & ?)%IH; split_and!; [by right|done..]].
  intros [= -> ->]. split_and!; [by left|done..].
Qed.

Lemma method_matches_same a b m :
  a ≠ "HEAD" → b ≠ "HEAD" → method_matches a m = true → method_matches b m = true → a = b.
Proof. unfold method_matches. intros ??. repeat case_bool_decide; subst; naive_solver. Qed.

(** In such a table the order of the routes does not matter: a request takes the
    one route that matches it, as the multiplexer's precedence rule has it. *)
Lemma lookup_route_unique rs m path rt id :
  routes_disjoint rs = true → known_methods rs = true → rt ∈ rs →
  match_segments (rt_Pattern rt) path "" = Some id → method_matches (rt_Method rt) m = true →
  lookup_route rs m path = Some (rt, id).
Proof.
  unfold known_methods. induction rs as [|rt' rs IH]; simpl; [by intros _ _ ?%not_elem_of_nil|].
  intros [Hf Hd]%andb_true_iff [Hk1 Hk]%andb_true_iff Hin Hm Hmm.
  apply elem_of_cons in Hin as [->|Hin]; [by rewrite Hm, Hmm|].
  destruct (match_segments (rt_Pattern rt') path "") as [id'|] eqn:Hm'; [|by apply IH].
  destruct (method_matches (rt_Method rt') m) eqn:Hmm'; [|by apply IH]. exfalso.
  rewrite forallb_forall in Hf, Hk. apply list_elem_of_In in Hin. specialize (Hf _ Hin). specialize (Hk _ Hin).
  assert (rt_Method rt' = rt_Method rt) as He.
  { eapply method_matches_same; [| |exact Hmm'|exact Hmm]; intros Hh; rewrite Hh in *; done. }
  rewrite bool_decide_true in Hf by done. simpl in Hf.
  eapply disjoint_patterns_sound; [exact Hf|by rewrite Hm'|by rewrite Hm].
Qed.

Section table.
  Context `{U : UnicodeTables} {dialect : Dialect} `{X : Externals} (audit_sse : sse_Handler → Request → prog Response).

Lemma Routes_disjoint sv : routes_disjoint (Routes audit_sse sv) = true.
Proof. vm_compute. reflexivity. Qed.

Lemma Routes_methods sv : known_methods (Routes audit_sse sv) = true.
Proof. vm_compute. reflexivity. Qed.

(** ** Administration is gated *)

(** Paths under [/admin] and [/portal/admin]. *)
Definition admin_area (path : list string) : bool :=
  match path with
  | a :: rest => bool_decide (a = "admin") ||
                 bool_decide (a = "portal") && bool_decide (head rest = Some "admin")
  | [] => false
  end.

(** Patterns a path of the area can match. *)
Definition admin_pattern (p : list Segment) : bool :=
  match p with
  | [] => false
  | Wild :: _ => true
  | Lit a :: rest =>
      bool_decide (a = "admin") ||
      bool_decide (a = "portal") &&
        match rest with [] => false | Wild :: _ => true | Lit b :: _ => bool_decide (b = "admin") end
  end.

Definition admin_gated (h : Handler) : bool :=
  match h with AdminBearer _ | PortalAdmin _ => true | _ => false end.

Lemma Routes_gated sv :
  forallb (λ rt, implb (admin_pattern (rt_Pattern rt)) (admin_gated (rt_Handler rt))) (Routes audit_sse sv) = true.
Proof. vm_compute. reflexivity. Qed.

Lemma admin_area_pattern p path i id :
  match_segments p path i = Some id → admin_area path = true → admin_pattern p = true.
Proof.
  destruct p as [|[a|] p], path as [|x path]; simpl; try done. case_bool_decide as Ha; [subst a|done].
  intros Hm [->|[-> Hr]%andb_true_iff]%orb_true_iff; simpl; [done|]. apply orb_true_iff. right.
  destruct p as [|[b|] p], path as [|y path]; simpl in *; try done.
  destruct (bool_decide (b = y)) eqn:Hb; [apply bool_decide_eq_true in Hb as ->|done].
  by apply bool_decide_eq_true in Hr as [= ->].
Qed.

(** The handlers of the area's routes. *)
Lemma admin_area_handler sv m path rt id :
  lookup_route (Routes audit_sse sv) m path = Some (rt, id) → admin_area path = true →
  admin_gated (rt_Handler rt) = true.
Proof.
  intros (Hin & Hm & _)%lookup_route_Some Ha. pose proof (Routes_gated sv) as Hg.
  rewrite forallb_forall in Hg. apply list_elem_of_In in Hin. specialize (Hg _ Hin).
  by rewrite (admin_area_pattern _ _ _ _ Hm Ha) in Hg.
Qed.

(** The session's expiry and activity, which [portalAuth] updates. *)
Definition slides (e : event) : bool :=
  match e with
  | Ev (OpDb q) _ => match q with QExtendSessionExpiry _ _ | QUpdateSessionActivity _ _ => true | _ => false end
  | _ => false
  end.

(** A live session of an admin, or of a machine with the admin scope, was found. *)
Definition by_admin (tr : list event) : Prop :=
  ∃ h sess t, Ev (OpDb (QGetSessionByAccessTokenHash h)) (Ok sess) ∈ tr ∧ Ev OpNow t ∈ tr ∧
    t ≤ s_AccessExpiresAt sess ∧ t ≤ s_CreatedAt sess + absoluteSessionTTL ∧
    ((∃ user, Ev (OpDb (QGetUserByID (s_UserID sess))) (Ok user) ∈ tr ∧ u_IsAdmin user = true) ∨
     s_UserID sess = uuid_nil ∧ containsStr (s_Scopes sess) "admin" = true).

(** Reading and sliding the portal session changes nothing else. *)
Definition quiet_or_slide (e : event) : Prop := changes e = false ∨ slides e = true.

Lemma readAuthPortalSession_calls r : calls quiet_or_slide (readAuthPortalSession r).
Proof. unfold readAuthPortalSession. solve_calls_with ltac:(by left). Qed.

Lemma slidePortalSession_calls sess tok : calls quiet_or_slide (slidePortalSession sess tok).
Proof. unfold slidePortalSession, setPortalCookie. solve_calls_with ltac:(first [by left|by right]). Qed.

Lemma portalAdminAuth_by_admin next r tr resp e :
  path (portalAdminAuth next r) tr resp → e ∈ tr → changes e = true → slides e = false → by_admin tr.
Proof.
  intros H Hin Hc Hs.
  assert (∀ A (p : prog A) t x, calls quiet_or_slide p → path p t x → e ∉ t) as Hq.
  { intros A p t x Hp Ht Hi. pose proof (calls_path _ _ _ _ Hp Ht) as Hf. rewrite list.Forall_forall in Hf.
    destruct (Hf _ Hi); congruence. }
  unfold portalAdminAuth, portalAuth in H. path_call H.
  pose proof (Hq _ _ _ _ (readAuthPortalSession_calls r) Hcall).
  apply readAuthPortalSession_path in Hcall as [_ Hlive].
  path_step H; [|path_step H; subst; set_solver]. path_step H; [|path_step H; subst; set_solver].
  destruct p as [[sess user] tok]. destruct (Hlive _ _ _ eq_refl) as (v & t & _ & _ & -> & Ha & Hcr).
  path_call H. pose proof (Hq _ _ _ _ (slidePortalSession_calls _ _) Hcall). path_call H.
  path_step H. subst. rewrite app_nil_r in *. cbn [px_User] in Hcall0.
  destruct (u_IsAdmin user) eqn:Hadm; simpl in Hcall0; [|destruct Hcall0 as [-> _]; set_solver].
  exists (HashToken tok), sess, t. split_and!; [set_solver|set_solver|done|done|].
  left. exists user. split; [set_solver|done].
Qed.

Lemma adminAuth_by_admin next r tr resp e :
  path (adminAuth next r) tr resp → e ∈ tr → changes e = true → by_admin tr.
Proof.
  intros [[_ Hf]|(h & sess & t & tr' & _ & Hsc & Ha & Hcr & Hu)]%adminAuth_path Hin Hc.
  { rewrite list.Forall_forall in Hf. rewrite (Hf _ Hin) in Hc. done. }
  exists h, sess, t. destruct Hu as [[Hn ->]|(user & _ & Hadm & ->)].
  - split_and!; [set_solver|set_solver|done|done|by right].
  - split_and!; [set_solver|set_solver|done|done|left]. exists user. split; [set_solver|done].
Qed.

(** C25: nothing under [/admin] or [/portal/admin] changes without an
    administrator.  Whatever the method and the path below these prefixes, a
    request that changes the database (beyond its own session's expiry and
    activity), AWS, a downstream system or the registry presented a session
    that was found by its token's hash, before its expiry and within four hours
    of its creation, whose user the store reported as an administrator, or a
    machine session with the admin scope. *)
Theorem admin_area_gated moved allow static sv r tr resp e :
  path (serve audit_sse moved allow static sv r) tr resp → admin_area (path_segments (rq_Path r)) = true →
  e ∈ tr → changes e = true → slides e = false → by_admin tr.
Proof.
  unfold serve. intros H Ha Hin Hc Hs. case_bool_decide; [destruct H as [-> _]; by apply not_elem_of_nil in Hin|].
  destruct (mux_redirect r); [destruct H as [-> _]; by apply not_elem_of_nil in Hin|].
  destruct (lookup_route _ _ _) as [[rt id]|] eqn:Hl; [|destruct H as [-> _]; by apply not_elem_of_nil in Hin].
  apply (admin_area_handler sv) in Hl; [|done].
  assert (path (gated (rt_Handler rt) (with_path_id id r)) tr resp) as Hg.
  { destruct (rt_Limiter rt); [done| |]; destruct (allow _ r); try done;
      destruct H as [-> _]; by apply not_elem_of_nil in Hin. }
  destruct (rt_Handler rt); try done; [by eapply adminAuth_by_admin|by eapply portalAdminAuth_by_admin].
Qed.

(** A request that makes any call has a clean path: what is not clean is
    redirected before a handler sees it. *)
Lemma only_clean_paths_served moved allow static sv r tr resp :
  path (serve audit_sse moved allow static sv r) tr resp → tr ≠ [] → cleanPath (rq_Path r) = rq_Path r.
Proof.
  unfold serve. intros H Htr. case_bool_decide; [by destruct H as [-> _]|].
  destruct (mux_redirect r) eqn:Hm; [by destruct H as [-> _]|].
  destruct (lookup_route _ _ _) as [[rt id]|] eqn:Hl; [|by destruct H as [-> _]].
  unfold mux_redirect in Hm. case_bool_decide as Hc; [exfalso|by repeat case_match; simplify_eq; case_bool_decide].
  apply lookup_route_Some in Hl as (Hin & _ & Hmm). pose proof (Routes_methods sv) as Hk.
  unfold known_methods in Hk. rewrite forallb_forall in Hk. apply list_elem_of_In in Hin. specialize (Hk _ Hin).
  rewrite Hc in Hmm. unfold method_matches in Hmm. apply bool_decide_eq_true in Hk. set_solver.
Qed.

End table.

(** ** HEAD requests *)

(** The forms whose handler answers GET with the form and takes every other
    method for a submission, and whose submissions are limited. *)
Definition limited_forms : list string :=
  ["/portal/login/mfa"; "/portal/login/change-password"; "/portal/step-up"; "/device"].

(** The position of the route a request takes. *)
Fixpoint route_index (rs : list Route) (m : string) (path : list string) : option (nat * string) :=
  match rs with
  | [] => None
  | rt :: rs =>
      let rest := prod_map S id <$> route_index rs m path in
      match match_segments (rt_Pattern rt) path "" with
      | Some id => if method_matches (rt_Method rt) m then Some (0%nat, id) else rest
      | None => rest
      end
  end.

Lemma lookup_route_index rs m path i id :
  route_index rs m path = Some (i, id) → lookup_route rs m path = (λ rt, (rt, id)) <$> rs !! i.
Proof.
  revert i. induction rs as [|rt rs IH]; intros i; simpl; [done|].
  assert (prod_map S Datatypes.id <$> route_index rs m path = Some (i, id) →
          lookup_route rs m path = (λ rt, (rt, id)) <$> (rt :: rs) !! i) as Hr.
  { destruct (route_index rs m path) as [[j id']|]; simpl; [|done]. intros [= <- <-]. by rewrite (IH j). }
  destruct (match_segments _ _ _); [|done]. destruct (method_matches _ _); [|done]. by intros [= <- <-].
Qed.

Section head.
  Context `{U : UnicodeTables} {dialect : Dialect} `{X : Externals} (audit_sse : sse_Handler → Request → prog Response).

(** a HEAD request submits these forms past the limiter.  The multiplexer
    sends HEAD to the GET route, which has no limiter, and the handler takes
    every method but GET for a submission: whatever the limiter decides, a HEAD
    request to the second-factor form, the forced password change, the step-up
    challenge or the device-code form runs the handler whose POST route is
    limited. *)
Theorem head_request_skips_limiter moved allow static sv r :
  rq_Method r = "HEAD" → rq_Path r ∈ limited_forms →
  ∃ rt, lookup_route (Routes audit_sse sv) "POST" (path_segments (rq_Path r)) = Some (rt, "") ∧
    rt_Limiter rt = LimitAuth ∧
    serve audit_sse moved allow static sv r = gated (rt_Handler rt) (with_path_id "" r).
Proof.
  intros Hm Hp. assert (rq_Path r ≠ "*" ∧ mux_redirect r = None) as [Hs Hr].
  { unfold mux_redirect, limited_forms in *. rewrite Hm.
    repeat (apply elem_of_cons in Hp as [->|Hp]); [..|by apply not_elem_of_nil in Hp]; by vm_compute. }
  unfold serve, limited_forms in *. rewrite bool_decide_false, Hr, Hm by done. clear Hs Hr.
  repeat (apply elem_of_cons in Hp as [->|Hp]); [..|by apply not_elem_of_nil in Hp];
    (eexists; split; [erewrite lookup_route_index by (vm_compute; reflexivity); reflexivity|]);
    (split; [reflexivity|]);
    erewrite lookup_route_index by (vm_compute; reflexivity); reflexivity.
Qed.

End head.

(** ** Witnesses *)

Definition fx_no_sse (h : sse_Handler) (r : Request) : prog Response := Ret (mkResponse StatusOK [] NoBody).
Definition fx_no_static (r : Request) : Response := httpError "404 page not found" StatusNotFound.
Definition fx_refuse (l : Limiter) (r : Request) : bool := false.

(** The same request with another method and path. *)
Definition at_route (m p : string) (r : Request) : Request :=
  {| rq_Method := m; rq_ParseOK := rq_ParseOK r; rq_FormValue := rq_FormValue r;
     rq_Query := rq_Query r; rq_BasicAuth := rq_BasicAuth r; rq_Authorization := rq_Authorization r;
     rq_Cookie := rq_Cookie r; rq_UserAgent := rq_UserAgent r; rq_ClientIP := rq_ClientIP r;
     rq_PathID := rq_PathID r; rq_Form := rq_Form r; rq_JSON := rq_JSON r; rq_Body := rq_Body r;
     rq_Path := p; rq_Accept := rq_Accept r |}.

(** With every limiter refusing, a HEAD request carrying the code in its query
    opens Alice's session; the POST is throttled. *)
Definition fx_head_login : prog Response :=
  serve fx_no_sse 301 fx_refuse fx_no_static fx_sv (at_route "HEAD" "/portal/login/mfa" fx_mfa_request).

Lemma head_request_skips_limiter_witness :
  (∃ rt, lookup_route (Routes fx_no_sse fx_sv) "POST" (path_segments "/portal/login/mfa") = Some (rt, "") ∧
     rt_Limiter rt = LimitAuth ∧
     fx_head_login = gated (rt_Handler rt) (with_path_id "" (at_route "HEAD" "/portal/login/mfa" fx_mfa_request))) ∧
  s_UserID <$> sessions_created (trace fx_env fx_head_login fx_mfa_world) = [7%N] ∧
  ck_Name <$> rs_Cookies (exec fx_env fx_head_login fx_mfa_world).1 = [portalLoginCookie; portalCookie] ∧
  rs_Status (exec fx_env (serve fx_no_sse 301 fx_refuse fx_no_static fx_sv
     (at_route "POST" "/portal/login/mfa" fx_mfa_request)) fx_mfa_world).1 = StatusTooManyRequests.
Proof.
  split; [|vm_compute; done].
  apply (head_request_skips_limiter fx_no_sse 301 fx_refuse fx_no_static fx_sv
    (at_route "HEAD" "/portal/login/mfa" fx_mfa_request)); [reflexivity|left].
Defined.

(** The machine's token creates a user through the admin API. *)
Definition fx_create_user : prog Response :=
  serve fx_no_sse 301 fx_refuse fx_no_static fx_sv
    (at_route "POST" "/admin/users" (with_bearer (fx_token 1)
       (form [("email", "bob@example.com"); ("password", "Secret123!xyz"); ("name", "Bob")]))).

Lemma admin_area_gated_witness :
  rs_Status (exec fx_env fx_create_user fx_machine_world).1 = StatusCreated ∧
  by_admin (trace fx_env fx_create_user fx_machine_world).
Proof.
  split; [vm_compute; reflexivity|].
  assert (∃ n e, trace fx_env fx_create_user fx_machine_world !! n = Some e ∧ changes e = true ∧ slides e = false)
    as (n & e & He & Hc & Hs).
  { exists 3%nat. eexists. split; [vm_compute; reflexivity|]. split; reflexivity. }
  apply (admin_area_gated fx_no_sse 301 fx_refuse fx_no_static fx_sv
    (at_route "POST" "/admin/users" (with_bearer (fx_token 1)
       (form [("email", "bob@example.com"); ("password", "Secret123!xyz"); ("name", "Bob")])))
    (trace fx_env fx_create_user fx_machine_world) (exec fx_env fx_create_user fx_machine_world).1 e);
    [apply exec_path|reflexivity|by eapply list_elem_of_lookup_2|exact Hc|exact Hs].
Defined.
