(* ===== verification/Responses.v ===== *)
(** * What responses carry

    Over all routes: every cookie the server sets is sealed by the server and
    out of reach of scripts and of cross-site requests, or a deletion; every
    page it renders is a template embedded in the program; every redirect to an
    address of its own stays on the server or goes to the AWS sign-in.  And what
    a browser (RFC 6265) keeps of the cookies. *)
From S2P Require Import Prelude GoStrings GoNet Mux Model Dialect Policy Tables SqliteUsers SqliteTokens SqliteAws Store Pkce Prog.
From S2P Require Import SingleUse Server Provision Awsfed Fixture Mfa Tokens Portal PortalFacts Authorize AuthorizeFacts WebAuthn AwsConsole.
From S2P Require Import Account AdminUsers AdminCatalog AdminIntegrations AdminAws AdminApi AdminFacts Signing Boot Device DeviceFacts Wire Routes.

Local Open Scope Z_scope.

(** ** Cookies and pages in the answers of programs *)

(** A cookie set, a page rendered with a status, or an address the browser is
    sent to (other than a client's redirect URI). *)
Inductive item : Type :=
| Biscuit (c : Cookie)
| Sheet (status : Z) (template : string)
| Hop (address : string).

Definition response_items (r : Response) : list item :=
  (Biscuit <$> rs_Cookies r) ++
  match rs_Body r with
  | Page t _ => [Sheet (rs_Status r) t]
  | Redirect (LocPath p) => [Hop p]
  | _ => []
  end.

(** The items that travel in a value. *)
Class Baked (A : Type) : Type := items_of : A → list item.

#[export] Instance baked_other {A} : Baked A | 100 := λ _, [].
#[export] Instance baked_response : Baked Response := response_items.
#[export] Instance baked_address : Baked (string + string) := λ s, match s with inl _ => [] | inr url => [Hop url] end.
#[export] Instance baked_seated : Baked seated := λ s, match s with Seated c => [Biscuit c] | _ => [] end.
#[export] Instance baked_list : Baked (list Cookie) := λ l, Biscuit <$> l.
#[export] Instance baked_slid : Baked (Session * list Cookie) := λ p, Biscuit <$> p.2.
#[export] Instance baked_result : Baked (result Cookie) := λ r, match r with Ok c => [Biscuit c] | Err _ => [] end.
#[export] Instance baked_option : Baked (option Response) := λ o, match o with Some r => response_items r | None => [] end.
#[export] Instance baked_sum {A} : Baked (Response + A) := λ s, match s with inl r => response_items r | inr _ => [] end.

(** The page files embedded in the program ([web/tmpl], without the layouts). *)
Definition page_files : list string :=
  ["error.html"; "login.html"; "mfa_totp.html"; "mfa_webauthn.html"; "portal_account.html"; "portal_admin_audit.html";
   "portal_admin_aws.html"; "portal_admin_client_edit.html"; "portal_admin_clients.html"; "portal_admin_group_edit.html";
   "portal_admin_groups.html"; "portal_admin_integration_edit.html"; "portal_admin_integrations.html";
   "portal_admin_user_edit.html"; "portal_admin_users.html"; "portal_change_password.html"; "portal_device.html";
   "portal_device_confirm.html"; "portal_device_done.html"; "portal_home.html"; "portal_login.html";
   "portal_login_mfa.html"; "portal_register.html"; "portal_step_up.html"; "register.html"].

(** The path under which a cookie of that name is set. *)
Definition cookie_home (name : string) : string := if bool_decide (name = portalTOTPCookie) then "/portal" else "/".

Section guarded.
  Context `{U : UnicodeTables} (sv : Server) (sealed : string → Prop).

(** An address on this server, or the sign-in of AWS for a region that is
    offered. *)
Definition allowed_hop (address : string) : Prop :=
  local_path address = true ∨
  ∃ role asked region query, resolveAWSRegion sv role asked = Some region ∧
    address = signinFed (doorFor region) +:+ "?" +:+ query.

(** A deletion, or a sealed value that scripts cannot read and that the browser
    leaves out of cross-site posts; each name has one path. *)
Definition guarded (c : Cookie) : Prop :=
  (ck_Value c = "" ∧ ck_MaxAge c < 0 ∧ ck_Path c = "/") ∨
  (sealed (ck_Value c) ∧ ck_HttpOnly c = true ∧ ck_SameSite c = SameSiteLaxMode ∧ ck_Path c = cookie_home (ck_Name c)).

Definition good_item (i : item) : Prop :=
  match i with
  | Biscuit c => guarded c
  | Sheet status t => status = StatusOK ∧ str_contains page_files t = true
  | Hop address => allowed_hop address
  end.

(** What a call may answer: the cipher answers sealed values. *)
Definition seals {X} (op : Op X) : X → Prop :=
  match op in Op X return X → Prop with
  | OpSeal _ => λ r, match r with Ok v => sealed v | Err _ => True end
  | _ => λ _, True
  end.

(** Whatever the calls answer, what the program's answer carries is good. *)
Fixpoint bakes {A} `{Baked A} (p : prog A) : Prop :=
  match p with
  | Ret a => Forall good_item (items_of a)
  | Vis op k => ∀ x, seals op x → bakes (k x)
  end.

Lemma bakes_bind {A B} `{Baked A, Baked B} (p : prog A) (f : A → prog B) :
  bakes p → (∀ a, Forall good_item (items_of a) → bakes (f a)) → bakes (bind p f).
Proof. intros Hp Hf. induction p as [a|X op k IH]; simpl in *; eauto. Qed.

Lemma bakes_other {A} (p : prog A) : bakes (H := baked_other) p.
Proof. induction p; simpl; [constructor|auto]. Qed.

Lemma bakes_path {A} `{Baked A} (p : prog A) tr a :
  bakes p → path p tr a → (∀ X (op : Op X) x, Ev op x ∈ tr → seals op x) → Forall good_item (items_of a).
Proof.
  revert tr. induction p as [b|X op k IH]; intros tr Hb Hp Hs; [by destruct Hp as [_ ->]|].
  destruct Hp as (x & tr' & -> & Hp). eapply IH; [|done|].
  - apply Hb. apply Hs. by left.
  - intros Y op' y Hin. apply Hs. by right.
Qed.

Lemma bakes_free {A} `{Baked A} (p : prog A) : (∀ tr a, path p tr a → items_of a = []) → bakes p.
Proof.
  induction p as [b|X op k IH]; intros Hp; simpl; [by rewrite (Hp [] b)|].
  intros x _. apply IH. intros tr a Ht. apply (Hp (Ev op x :: tr)). by exists x, tr.
Qed.

Lemma guarded_clear name : good_item (Biscuit (clearCookie name)).
Proof. by left. Qed.

Lemma response_items_with cks r :
  Forall good_item (Biscuit <$> cks) → Forall good_item (response_items r) →
  Forall good_item (response_items (with_cookies cks r)).
Proof. intros Hc Hr. unfold response_items in *. simpl. rewrite fmap_app, <- app_assoc. by apply Forall_app. Qed.

Lemma good_cookies r : Forall good_item (response_items r) → Forall guarded (rs_Cookies r).
Proof. intros [Hc _]%Forall_app. rewrite Forall_fmap in Hc. exact Hc. Qed.

End guarded.

Create HintDb bakes.
#[export] Hint Resolve bakes_other : bakes.

Ltac bakes_head p := lazymatch p with ?f _ => bakes_head f | ?f => f end.

Ltac bakes_leaf :=
  cbn [bakes];
  unfold items_of, baked_other, baked_response, baked_address, baked_seated, baked_list, baked_slid, baked_result,
    baked_option, baked_sum in *;
  repeat first
    [ assumption
    | progress cbn [fst snd fmap list_fmap app] in *
    | match goal with
      | |- Forall _ [] => constructor
      | |- Forall _ [_] => apply list.Forall_singleton
      | H : Forall _ [?i] |- good_item _ _ ?i => by apply list.Forall_singleton in H
      | |- good_item _ _ (Biscuit (clearCookie _)) => apply guarded_clear
      | |- good_item _ _ (Biscuit (mkCookie _ _ _ _ _ _)) => right; done
      | |- good_item _ _ (Sheet _ _) => split; reflexivity
      | |- good_item _ _ (Hop _) => left; first [reflexivity|apply cleaned_is_local]
      | |- Forall _ (response_items (with_cookies _ _)) => apply response_items_with
      | |- Forall _ (response_items (match ?x with _ => _ end)) => destruct x
      | |- Forall _ (match (match ?x with _ => _ end) with _ => _ end) => destruct x
      | |- Forall _ (match ?x with _ => _ end) => destruct x
      | |- Forall _ (_ <$> match ?x with _ => _ end) => destruct x
      | |- Forall _ (response_items (mkResponse _ _ _)) => unfold response_items; cbn [rs_Cookies rs_Body rs_Status]
      | |- Forall _ (response_items ?r) => let f := bakes_head r in unfold f
      end ].

(** Walk through a program; the sub-programs whose answers carry no cookies are
    stepped over, the others are walked through as well. *)
Ltac solve_bakes :=
  repeat first
    [ progress intros
    | progress cbv zeta
    | solve [eauto with bakes nocore]
    | match goal with
      | |- bakes _ _ (Ret _) => solve [bakes_leaf]
      | |- bakes _ _ (bind (Ret _) _) => cbn [bind]
      | |- bakes _ _ (bind (if ?b then _ else _) _) => destruct b
      | |- bakes _ _ (bind (match ?x with _ => _ end) _) => destruct x
      | |- bakes _ _ (bind (do_op _) _) => intros ? ?; cbn [bind]
      | |- bakes _ _ (bind ?p ?f) => apply (bakes_bind _ _ p f)
      | |- bakes _ _ (if ?b then _ else _) => destruct b
      | |- bakes _ _ (match ?x with _ => _ end) => destruct x
      | |- bakes _ _ (Vis _ _) => intros ? ?
      | |- bakes _ _ ?p => let f := bakes_head p in lazymatch f with @bind => fail | _ => unfold f end
      end ].

(** ** Every route *)

Section routes.
  Context `{U : UnicodeTables} {dialect : Dialect} `{X : Externals} (audit_sse : sse_Handler → Request → prog Response).
  Context (sv : Server) (sealed : string → Prop) (sse_bakes : ∀ h r, bakes sv sealed (audit_sse h r)).

Definition handler_bakes (h : Handler) : Prop :=
  match h with
  | Public h => ∀ r, bakes sv sealed (h r)
  | Bearer h | AdminBearer h => ∀ s r, bakes sv sealed (h s r)
  | Portal h | PortalAdmin h => ∀ pc r, bakes sv sealed (h pc r)
  end.

#[local] Hint Resolve sse_bakes : bakes.

Lemma buildAWSConsoleURL_bakes r pc role region : bakes sv sealed (buildAWSConsoleURL sv r pc role region).
Proof.
  unfold buildAWSConsoleURL. destruct (resolveAWSRegion sv role region) as [rg|] eqn:E; [|solve_bakes].
  repeat first [progress intros | progress cbv zeta | apply bakes_other
    | match goal with
      | |- bakes _ _ (Ret (inr _)) => fail 1
      | |- bakes _ _ (Ret _) => solve [bakes_leaf]
      | |- bakes _ _ (bind ?p ?f) => apply (bakes_bind _ _ p f)
      | |- bakes _ _ (match ?x with _ => _ end) => destruct x
      end ].
  apply list.Forall_singleton. right. by eexists role, region, rg, _.
Qed.

#[local] Hint Resolve buildAWSConsoleURL_bakes : bakes.

Lemma Routes_bake : Forall (λ rt, handler_bakes (rt_Handler rt)) (Routes audit_sse sv).
Proof. unfold Routes, handle. repeat (apply list.Forall_cons; split; [cbn [handler_bakes rt_Handler]; solve_bakes|]). done. Qed.

Lemma gated_bakes h r : handler_bakes h → bakes sv sealed (gated h r).
Proof. intros Hh. destruct h; cbn [gated handler_bakes] in *; auto; solve_bakes. Qed.

Lemma mux_redirect_local r p : mux_redirect r = Some p → local_path p = true.
Proof. unfold mux_redirect. repeat case_match; try done; intros [= <-]; apply cleaned_is_local. Qed.

Lemma serve_bakes moved allow static r :
  (∀ r, response_items (static r) = []) → bakes sv sealed (serve audit_sse moved allow static sv r).
Proof.
  intros Hst. unfold serve. case_bool_decide; [solve_bakes|].
  destruct (mux_redirect r) as [p|] eqn:Hm; [apply list.Forall_singleton; left; by eapply mux_redirect_local|].
  destruct (lookup_route _ _ _) as [[rt id]|] eqn:Hl.
  - apply lookup_route_Some in Hl as (Hin & _). pose proof Routes_bake as Hall.
    rewrite list.Forall_forall in Hall. pose proof (gated_bakes _ (with_path_id id r) (Hall _ Hin)).
    destruct (rt_Limiter rt); [done| |]; (destruct (allow _ r); [done|]); unfold throttled; solve_bakes.
  - cbn [bakes]. unfold items_of, baked_response, fallback. repeat case_match; first [by rewrite Hst|bakes_leaf].
Qed.

End routes.

(** The request is for a file under [/static/]. *)
Definition static_request (r : Request) : Prop := ∃ seg rest, path_segments (rq_Path r) = "static" :: seg :: rest.

(** Only the answer to a request for a file depends on the file server. *)
Lemma serve_static `{U : UnicodeTables} {dialect : Dialect} `{X : Externals} audit_sse moved allow static static' sv r :
  serve audit_sse moved allow static sv r = serve audit_sse moved allow static' sv r ∨
  serve audit_sse moved allow static sv r = Ret (static r) ∧ static_request r.
Proof.
  unfold serve. case_bool_decide; [by left|]. destruct (mux_redirect r); [by left|].
  destruct (lookup_route _ _ _) as [[rt id]|]; [by left|]. unfold fallback.
  destruct (negb (method_matches "GET" (rq_Method r))); [by left|].
  destruct (path_segments (rq_Path r)) as [|s [|seg rest]] eqn:Hseg; [by left|repeat case_match; by left|].
  repeat case_match; simplify_eq; try (by left). right. split; [done|]. by eexists _, _.
Qed.

(** What [http.FileServer] documents of its answers: no cookies, no pages of
    this program, and redirects only from [.../index.html] to [./], and between
    the forms of a path with and without its final slash, with the query of the
    request. *)
Definition file_server_hop (address : string) : Prop :=
  ∃ name query, sep_free "/" name ∧ (query = "" ∨ ∃ q, query = "?" +:+ q) ∧
    (address = "./" +:+ query ∨ address = name +:+ "/" +:+ query ∨ address = "../" +:+ name +:+ query).

Definition file_server_law (static : Request → Response) : Prop :=
  ∀ r, rs_Cookies (static r) = [] ∧ (∀ t d, rs_Body (static r) ≠ Page t d) ∧
    ∀ address, rs_Body (static r) = Redirect (LocPath address) → file_server_hop address.

Lemma served_items `{U : UnicodeTables} {dialect : Dialect} `{X : Externals} audit_sse moved allow static sv r tr resp :
  (∀ h r tr resp, path (audit_sse h r) tr resp → response_items resp = []) →
  path (serve audit_sse moved allow static sv r) tr resp →
  Forall (good_item sv (λ v, ∃ s, Ev (OpSeal s) (Ok v) ∈ tr)) (response_items resp) ∨
  resp = static r ∧ static_request r.
Proof.
  intros Hsse Hp. destruct (serve_static audit_sse moved allow static (λ _, httpError "" StatusNotFound) sv r) as [Heq|[Heq Hr]];
    rewrite Heq in Hp; [left|right; by destruct Hp as [_ ->]].
  eapply (bakes_path sv _ (serve audit_sse moved allow (λ _, httpError "" StatusNotFound) sv r)); [|exact Hp|].
  - apply serve_bakes; [|done]. intros h r'. apply bakes_free. exact (Hsse h r').
  - intros Y op x Hin. destruct op; simpl; auto. destruct x; [by eexists|done].
Qed.

(** C26: every cookie of every response is guarded, every page exists and every
    redirect is to a known place.
    Whatever route a request takes and whatever the calls answer, provided the
    event stream sets no cookies, renders no pages and redirects nowhere, and
    the file server does what [http.FileServer] documents ([file_server_law]), a
    cookie the server sets is either a deletion, or its value is the answer of
    the server's cipher in this very request, scripts cannot read it
    (HttpOnly), the browser leaves it out of cross-site posts (SameSite=Lax),
    and its path is the one of its name; a page is one of the embedded
    templates, with status 200; and a redirect that is not to a client's
    redirect URI is to a path of this server, or to the AWS sign-in of a region
    that is offered, or, for a request under [/static/] only, one of the
    relative addresses the file server corrects a path with ([./], a name with a
    final slash, [../] and a name). *)
Theorem responses_guarded `{U : UnicodeTables} {dialect : Dialect} `{X : Externals} audit_sse moved allow static sv r tr resp :
  (∀ h r tr resp, path (audit_sse h r) tr resp → response_items resp = []) → file_server_law static →
  path (serve audit_sse moved allow static sv r) tr resp →
  Forall (guarded (λ v, ∃ s, Ev (OpSeal s) (Ok v) ∈ tr)) (rs_Cookies resp) ∧
  (∀ t d, rs_Body resp = Page t d → rs_Status resp = StatusOK ∧ t ∈ page_files) ∧
  (∀ address, rs_Body resp = Redirect (LocPath address) →
     allowed_hop sv address ∨ static_request r ∧ file_server_hop address).
Proof.
  intros Hsse Hst Hp. destruct (served_items _ _ _ _ _ _ _ _ Hsse Hp) as [Hg|[-> Hr]].
  2: { destruct (Hst r) as (Hc & Hpage & Hhop). rewrite Hc. split; [done|]. split; [by intros t d ?%Hpage|].
       intros address Ha%Hhop. by right. }
  split; [by eapply good_cookies|]. apply Forall_app in Hg as [_ Hg].
  split; [intros t d Hb|intros address Hb]; rewrite Hb in Hg; cbn in Hg; apply list.Forall_cons in Hg as [Hg _]; [|by left].
  destruct Hg as [Hs Ht]. by apply bool_decide_eq_true in Ht.
Qed.

(** With templates that parse, what a route answers reaches the client with its
    status and with its cookies in the order they were set. *)
Theorem served_on_the_wire `{U : UnicodeTables} {dialect : Dialect} `{X : Externals} `{T : Templates}
    json_Encode manager address audit_sse moved allow static sv r tr resp :
  (∀ h r tr resp, path (audit_sse h r) tr resp → response_items resp = []) → file_server_law static →
  path (serve audit_sse moved allow static sv r) tr resp →
  (∀ t, t ∈ page_files → page_parses manager t) →
  sent_as (rs_Status resp) (cookie_String <$> rs_Cookies resp) (finish (emit json_Encode manager address r resp fresh_writer)).
Proof.
  intros Hsse Hst Hp Hfiles. apply emitted. intros t d Hb.
  destruct (served_items _ _ _ _ _ _ _ _ Hsse Hp) as [[_ Hg]%Forall_app|[-> _]]; [|by apply (Hst r) in Hb]. rewrite Hb in Hg. cbn in Hg. apply list.Forall_cons in Hg as [[Hs Ht] _].
  split; [done|]. apply Hfiles. by apply bool_decide_eq_true in Ht.
Qed.

(** ** The browser *)

(** What RFC 6265 has a browser keep: values by name and path, with the moment
    they expire, if any. *)
Definition jar : Type := gmap (string * string) (string * option Z).

(** One [Set-Cookie] header.  Go writes a negative MaxAge as [Max-Age=0], which
    deletes, and leaves the attribute out for zero. *)
Definition store_cookie (t : Z) (j : jar) (c : Cookie) : jar :=
  if ck_MaxAge c <? 0 then delete (ck_Name c, ck_Path c) j
  else <[(ck_Name c, ck_Path c) := (ck_Value c, if ck_MaxAge c =? 0 then None else Some (t + ck_MaxAge c * Second))]> j.

Definition receive (t : Z) (j : jar) (resp : Response) : jar := foldl (store_cookie t) j (rs_Cookies resp).

(** Section 5.1.4: the cookie's path covers the request's. *)
Definition path_match (cookie_path request_path : string) : bool :=
  bool_decide (cookie_path = request_path) ||
  match CutPrefix request_path cookie_path with
  | Some rest => slash_ended cookie_path || is_rooted rest
  | None => false
  end.

(** The values of the cookies of that name that go with a request. *)
Definition sent (t : Z) (j : jar) (request_path name : string) : list string :=
  omap (λ e : (string * string) * (string * option Z),
    let '((n, p), (v, exp)) := e in
    if bool_decide (n = name) && path_match p request_path &&
       match exp with Some x => t <? x | None => true end
    then Some v else None) (map_to_list j).

(** Every cookie is kept under the path of its name. *)
Definition jar_ok (j : jar) : Prop := ∀ n p x, j !! (n, p) = Some x → p = cookie_home n.

Lemma store_cookie_ok sealed t j c : jar_ok j → guarded sealed c → jar_ok (store_cookie t j c).
Proof.
  intros Hj Hc n p x. unfold store_cookie. destruct (ck_MaxAge c <? 0) eqn:E.
  - intros [_ Hx]%lookup_delete_Some. by eapply Hj.
  - destruct Hc as [(_ & Hm & _)|(_ & _ & _ & Hp)]; [lia|].
    intros [[[= <- <-] _]|[_ Hx]]%lookup_insert_Some; [done|]. by eapply Hj.
Qed.

Lemma receive_ok sealed t j resp : jar_ok j → Forall (guarded sealed) (rs_Cookies resp) → jar_ok (receive t j resp).
Proof.
  unfold receive. generalize (rs_Cookies resp). intros cs. revert j.
  induction cs as [|c cs IH]; intros j Hj Hc; [done|]. apply list.Forall_cons in Hc as [Hc Hcs]. simpl.
  apply IH; [by eapply store_cookie_ok|done].
Qed.

Lemma omap_none {A B} (f : A → option B) l : (∀ x, x ∈ l → f x = None) → omap f l = [].
Proof. induction l as [|x l IH]; intros Hf; [done|]. simpl. rewrite (Hf x) by left. apply IH. intros y Hy. apply Hf. by right. Qed.

(** A deletion works for every name that lives at the root: whatever requests
    the browser has made before, it sends no such cookie any more. *)
Theorem deletion_effective t t' j name request_path :
  jar_ok j → name ≠ portalTOTPCookie → sent t' (store_cookie t j (clearCookie name)) request_path name = [].
Proof.
  intros Hj Hn. unfold sent. apply omap_none. intros [[n p] [v exp]] Hin%elem_of_map_to_list.
  case_bool_decide as E; [|done]. subst n. unfold store_cookie in Hin. simpl in Hin.
  apply lookup_delete_Some in Hin as [Hne Hx]. apply Hj in Hx. unfold cookie_home in Hx.
  rewrite bool_decide_false in Hx by done. by subst p.
Qed.

(** ** Witnesses *)

(** A file server with the redirects of the real one. *)
Definition fx_static (r : Request) : Response :=
  if bool_decide (rq_Path r = "/static/css/index.html") then mkResponse 301 [] (Redirect (LocPath "./"))
  else if bool_decide (rq_Path r = "/static/css") then mkResponse 301 [] (Redirect (LocPath "css/"))
  else if bool_decide (rq_Path r = "/static/css/app.css/") then mkResponse 301 [] (Redirect (LocPath "../app.css"))
  else httpError "404 page not found" StatusNotFound.

Lemma fx_static_law : file_server_law fx_static.
Proof.
  intros r. unfold fx_static.
  case_bool_decide; [|case_bool_decide; [|case_bool_decide]]; (split; [done|]); (split; [done|]);
    intros address Ha; simplify_eq/=.
  - exists "", "". vm_compute. auto.
  - exists "css", "". vm_compute. auto.
  - exists "app.css", "". vm_compute. auto.
Qed.

(** Signing in sets the session cookie; the value is sealed in that request. *)
Definition fx_sign_in : prog Response :=
  serve fx_no_sse 301 (λ _ _, true) fx_static fx_sv (at_route "POST" "/portal/login" fx_login_request).

Lemma responses_guarded_witness :
  ck_Name <$> rs_Cookies (exec fx_env fx_sign_in fx_world).1 = [portalCookie] ∧
  Forall (guarded (λ v, ∃ s, Ev (OpSeal s) (Ok v) ∈ trace fx_env fx_sign_in fx_world))
    (rs_Cookies (exec fx_env fx_sign_in fx_world).1).
Proof.
  split; [vm_compute; reflexivity|].
  apply (responses_guarded fx_no_sse 301 (λ _ _, true) fx_static fx_sv (at_route "POST" "/portal/login" fx_login_request)).
  - by intros h r tr resp [_ ->].
  - exact fx_static_law.
  - apply exec_path.
Defined.

(** The cookie of a pending enrolment is set under [/portal] and deleted under
    [/]: the browser keeps it after the enrolment is confirmed, and the account
    page goes on showing the secret. *)
Definition fx_enrol : prog Response := handlePortalMFATOTPEnroll (mkPortalCtx fx_session fx_user) (form []).
Definition fx_confirm : prog Response := handlePortalMFATOTPConfirm (mkPortalCtx fx_session fx_user) (form [("code", "123456")]).

Lemma enrolment_cookie_survives :
  let '(r1, w1) := exec fx_env fx_enrol fx_world in
  let '(r2, w2) := exec fx_env fx_confirm w1 in
  let j := receive fx_T0 (receive fx_T0 ∅ r1) r2 in
  rs_Body r2 = Redirect (LocPath "/portal/account?success=TOTP+enrolled+successfully.") ∧
  ck_Name <$> rs_Cookies r2 = [portalTOTPCookie] ∧
  match sent (fx_T0 + Minute) j "/portal/account" portalTOTPCookie with
  | [v] =>
      match rs_Body (exec fx_env (handlePortalAccount (mkPortalCtx fx_session fx_user)
                       (with_cookie portalTOTPCookie v (form []))) w2).1 with
      | Page _ data => ("TOTPEnrolling", JBool true) ∈ data ∧ ("TOTPSecret", JStr "123456") ∈ data
      | _ => False
      end
  | _ => False
  end.
Proof. vm_compute. split_and!; try done; repeat first [by left|right]. Qed.
