(* ===== verification/Observations.v ===== *)
(** * Observed behaviours

    Concrete runs in which the code does something other than its comments or
    names say.  Each lemma evaluates the model on the deployment of [Fixture];
    two more are next to the handlers they are about
    ([Lockout.concurrent_failures_counted_once] and
    [DeviceFacts.late_denial_is_ineffective]). *)
From S2P Require Import Prelude GoStrings GoNet Model Dialect Policy Tables SqliteUsers SqliteTokens SqliteAws Store Pkce Prog.
From S2P Require Import SingleUse Server Provision Awsfed Fixture Mfa Tokens Portal PortalFacts Authorize AuthorizeFacts CodeOrigin Device DeviceFacts.

Local Open Scope Z_scope.

(** An account can be registered at the portal with an empty password: the
    complexity rule skips the empty string. *)
Definition fx_empty_register : prog Response :=
  handlePortalRegisterPOST fx_sv (form [("email", "eve@example.com"); ("password", ""); ("confirm", "")]).

Lemma empty_password_registers :
  let '(resp, w) := exec fx_env fx_empty_register fx_world in
  rs_Body resp = Redirect (LocPath "/portal") ∧
  option_map u_PasswordHash (db_users (w_db w) !! 1001%N) = Some "pw:".
Proof. vm_compute. auto. Qed.

(** A due password change does not stop the MFA step of [/authorize] from
    issuing a code. *)
Definition fx_must_change_world : World :=
  mkWorld (effect 0%N (QSetUserMustChangePassword 7%N true) (w_db fx_mfa_world)) (w_step fx_mfa_world) [] [] fx_outside.

Lemma must_change_not_enforced_at_authorize :
  option_map u_MustChangePassword (db_users (w_db fx_must_change_world) !! 7%N) = Some true ∧
  rs_Status (exec fx_env fx_totp_post fx_must_change_world).1 = StatusFound ∧
  length (grants_created (trace fx_env fx_totp_post fx_must_change_world)) = 1%nat.
Proof. vm_compute. auto. Qed.

(** A deactivated user's tokens keep working: the access token passes
    [bearerAuth] and the refresh token is exchanged for new ones. *)
Definition fx_deactivated_world : World := mkWorld (effect 0%N (QUpdateUser 7%N "Alice" false) fx_db) 0 [] [] fx_outside.

Lemma deactivated_user_keeps_tokens :
  option_map u_Active (db_users (w_db fx_deactivated_world) !! 7%N) = Some false ∧
  rs_Status (exec fx_env (bearerAuth handleUserInfo fx_revoke_request) fx_deactivated_world).1 = StatusOK ∧
  rs_Status (exec fx_env (handleTokenRefresh fx_refresh_request) fx_deactivated_world).1 = StatusOK.
Proof. vm_compute. auto. Qed.

(** The device grant of a confidential client is redeemed without the client's
    secret. *)
Lemma device_redemption_needs_no_secret :
  c_Public fx_client = false ∧ rq_FormValue fx_poll_request "client_secret" = "" ∧
  rs_Status (exec fx_env fx_poll fx_approved).1 = StatusOK.
Proof. vm_compute. auto. Qed.

(** When the reload of the user after a forced password change fails, the
    error branch reads the nil user and the handler panics. *)
Definition fx_rotate_request : Request :=
  with_cookie portalLoginCookie "sealed:login"
    (form [("new_password", "Secret456!xyz"); ("confirm", "Secret456!xyz")]).

Definition fx_rotate_world : World := mkWorld (effect 0%N (QSetUserMustChangePassword 7%N true) fx_db) 0 [] [] fx_outside.

Lemma failed_reload_panics :
  (exec (fx_env_fault 9) (handlePortalChangePassword fx_sv fx_rotate_request) fx_rotate_world).1 = panicked.
Proof. vm_compute. reflexivity. Qed.

(** Re-enrolling an authenticator disables the confirmed one at once, while
    the account still requires a second factor. *)
Definition fx_two_factor_world : World :=
  mkWorld (effect 0%N (QUpdateUserMFAEnabled 7%N true) (w_db fx_mfa_world)) (w_step fx_mfa_world) [] [] fx_outside.

Lemma re_enrolment_drops_the_factor :
  (exec fx_env (VerifyTOTP 7%N "123456") fx_two_factor_world).1 = Ok tt ∧
  let w := (exec fx_env (handleTOTPEnroll fx_session (form [])) fx_two_factor_world).2 in
  (exec fx_env (VerifyTOTP 7%N "123456") w).1 = Err ErrOther ∧
  option_map u_MFAEnabled (db_users (w_db w) !! 7%N) = Some true.
Proof. vm_compute. auto. Qed.

(** The registry is rebuilt outside its lock: a reload that read the
    integrations before another administrator deleted one may install its
    targets after the reload of that deletion, and the deleted target stays. *)
Definition fx_integration : AppIntegration :=
  {| ai_ID := 60%N; ai_Name := "aws"; ai_Provider := AppIntegrationProviderAWSFederation; ai_Enabled := true;
     ai_Config := mkAppIntegrationConfig "" 0 ""; ai_EncryptedToken := None; ai_EncryptedDEK := None;
     ai_CreatedAt := 0; ai_UpdatedAt := 0 |}.

Definition fx_reloads : pool (result unit) :=
  mkPool (mkWorld (effect 0%N (QCreateIntegration fx_integration) fx_db) 0 [] [] fx_outside)
    [Reload fx_sv; bind (db (QDeleteIntegration 60%N)) (λ _, Reload fx_sv)] [].

Lemma stale_reload_wins :
  let c := run_pool fx_env [0; 1; 1; 1; 0]%nat fx_reloads in
  p_threads c = [Ret (Ok tt); Ret (Ok tt)] ∧
  db_app_integrations (w_db (p_world c)) !! 60%N = None ∧
  o_targets (w_outside (p_world c)) = [TAwsFed "aws"].
Proof. vm_compute. auto. Qed.
